(* ===== verification/_CoqProject ===== *)
-Q . S2P
Prelude.v
CAbi.v
Vmlinux.v
BpfEndian.v
VmlinuxMissing.v
HelperDefs.v
BpfHelpers.v
EgressTypes.v
EgressdBpf.v
CoreRead.v
Tracing.v
GoBase.v
Conntrack.v
KernelHz.v
Dns.v
Kube.v
KubeObjects.v
PodHistory.v
Collector.v
Metrics.v
Locking.v
Exporter.v
ExportPipeline.v
SinkGroup.v
Loops.v
Transport.v
Sinks.v
Tracer.v
System.v
Lifetime.v
Commands.v
Startup.v
