(* ===== verification/Prelude.v ===== *)
(** * A verification of egressd

    egressd attributes the network traffic of Kubernetes pods.  On every node a collector reads the
    kernel's connection tracking tables and, through an eBPF program, the DNS answers its pods
    receive; a central exporter fetches the collected counters, attaches pod, node and zone names and
    pushes the result to sinks.

    The development models both halves of the program: the C of the eBPF side (src/ebpf/c) and the Go
    of user space.

    ** Parts and files

    - Prelude.v (this file): w-bit integers as [Z] with explicit wrap-around ([wrap], [swrap]), byte
      sequences and their little- and big-endian values, slices and splices of buffers, the hint
      database [egress] and the scope [egress_scope].
    - CAbi.v: C object types as data ([ctype]) with computed size, alignment and member offsets, bit-fields
      and anonymous members included; designators, loads and stores in both byte orders.
    - Vmlinux.v (include/vmlinux.h), VmlinuxMissing.v (vmlinux_missing.h, vmlinux_flavors.h): every
      type, enumerator, constant, macro and inline function, for both architectures of the headers.
    - BpfEndian.v (bpf_endian.h), HelperDefs.v (bpf_helper_defs.h: number, prototype and documented
      results of the 180 helpers), BpfHelpers.v (bpf_helpers.h), CoreRead.v (bpf_core_read.h),
      Tracing.v (bpf_tracing.h): the macros as functions; a variadic macro is its expansion, which has
      no value where the preprocessor has none.
    - EgressTypes.v (types.h, maps.h): the event, the header buffer and the map declarations.
    - EgressdBpf.v (egressd.c): the program as a computation in a small monad over its stack buffer and
      the trace of helper calls, with early return.
    - GoBase.v: outcomes of Go functions (value, error, panic), time, floating-point numbers, and the
      address package as a class.
    - Tracer.v (ebpf/tracer.go, tracer_linux.go, cgroup_linux.go): the whole of [Run], from loading and
      attaching the program to queued events.
    - Conntrack.v (conntrack/): both connection tracking clients, their clocks and filters.
    - KernelHz.v (conntrack/kernel_hz.go, time.go): measuring how often a second the kernel ticks.
    - Dns.v (dns/resolutions.go, exporter/ip2dns.go): names of addresses, from the answer to the look-up.
    - Kube.v (kube/): the caches of pods and nodes over an abstract indexer; KubeObjects.v
      (kube/watcher.go): the objects of the API and what is kept of them; PodHistory.v
      (kube/podbyipcache.go): informer events, look-ups and cleanup ticks in any order.
    - Collector.v (collector/collector.go): the state, its collection, cleanup and request handler;
      Locking.v (collector.go): the same under the mutex, write by write, with concurrent requests.
    - Metrics.v (metrics/metrics.go): the program's own counters and gauges and where they are set.
    - Exporter.v (exporter/exporter.go, cmd/exporter/main.go, exporter/config): attribution and aggregation.
    - ExportPipeline.v (exporter.go): the goroutines of [export] as a step relation, and [export] as a whole;
      SinkGroup.v (exporter.go): its concurrent pushes to the sinks.
    - Loops.v: the [Start] loops of the collector, the DNS collector and the exporter.
    - Transport.v (collector.go, exporter.go): the response of the collector and the exporter's fetch.
    - Sinks.v (exporter/sinks): Prometheus labels and series, HTTP requests.
    - System.v: collectors, transport and export composed; Lifetime.v: the same for any number of
      collections, fetches and exports, interleaved.
    - Commands.v (cmd/collector/main.go, cmd/exporter/main.go, cmd/tracer/main.go): what the flags and
      the configuration select, the dump of the connections, the goroutines of the collector's [run] as
      a step relation, and the tracer's loop; Startup.v: [run] of the collector up to its goroutines, the
      DNS collector that does nothing (dns/noop.go), the routes and the answer to any request.

    Data flows as in the program: EgressdBpf sends a record, Tracer decodes it, Dns keeps the name;
    Conntrack lists connections for the pods of Kube, Collector counts them and serves a batch with the
    names through Transport; ExportPipeline delivers the batches, Exporter attributes them with Kube and
    Dns, Sinks writes them.  A component's state is a record, its operations are functions from state to state or
    to an outcome, and its names are those of the source.

    ** Interfaces

    Code outside the repository is a parameter with the laws of its documentation: the kernel's helpers
    ([KernelSpec] in EgressdBpf.v), compiler relocations (CoreRead.v), the address package
    ([NetaddrSpec]), the expiring cache ([ExpiringCacheSpec]), the indexer ([IndexerSpec]), the retry
    loop ([BackoffSpec]), protocol buffers and gzip ([CodecSpec]); each has a reference instance on which the theorems are witnessed.  Interfaces
    inside the program are classes as well: [Client] between the connection tracking clients and the
    collector, [kubeWatcher] between the exporter and the caches, each with the instances of the code.

    ** What is shown

    - The eBPF program refines a specification on packet bytes, stays inside its buffer, lets every
      packet through, and sends records the tracer decodes (EgressdBpf.v, Tracer.v).
    - Layout: a read of any field of a packet header through the header types has the value of the field
      on the wire; every designator into a type of the headers denotes bits inside the object, and members
      do not overlap (EgressTypes.v, Vmlinux.v).
    - Macros: byte swaps agree with the compiler's, bit-field and pointer-chasing reads have the value of
      the C expression, register macros resolve, encodings can be read back.
    - Concurrency: the mutex makes the collector's operations atomic in every interleaving of its loop and
      of requests; it is released unless a client stalls while its response is written, which then blocks
      the collector for ever (Locking.v).
    - Accounting: in any run, for any listings, what the collector has sent, holds and has dropped is what
      its connections rose by between the listings, modulo 2^64.  The runs are those of a step relation
      with accounts kept beside the state, a history of what each connection was listed with: a counter
      that falls rises by nothing, a connection that a cleanup forgot rises from zero, and the first
      listing of delta mode is a baseline.  The collector's loop does one such step for each thing its
      channels deliver, in order.  Every metric is kept under the hash of its own flow.  A fetch delivers a
      collector's metrics once or not at all; the fetch pipeline ends and delivers every batch; over a
      whole cluster, what the collectors held is what the sinks are given, what the log reports and what
      failed fetches left or lost, in one export and over the life of the system, where every lost
      answer has its cause (Collector.v, Loops.v, Transport.v, ExportPipeline.v, System.v, Lifetime.v).
    - Sinks: every sink is pushed to exactly once, at most five at a time, and the only thing that keeps
      an export from ending are pushes that never return (SinkGroup.v); a series identifies its flow
      (Sinks.v).
    - Names: a DNS answer names the traffic, from the packet to the metric (System.v).
    - The measured clock rate is the kernel's configuration, the rounding of the floating-point divisions
      included (KernelHz.v).
    - Start and end: the tracer starts all or nothing (Tracer.v); what the collector's [run] returns is
      accounted for (Commands.v); the address the exporter asks is one the collector answers with its
      metrics, and no other request touches them (Startup.v).
    - Attribution and caches: what is looked up, found, evicted and reported, on every branch; a deleted
      pod stays attributable for two minutes, however events and cleanups interleave, unless it finishes
      or changes its address (PodHistory.v).
    - Reports: the gauges are exact (Metrics.v), and the dump shows what a collection sees (Commands.v).
    - Where the code departs from its intent the theorem states what it does: a big-endian build, a
      cancelled export, a pod created again under its old name, a cleanup that depends on map order, a
      retry that does not retry, a malformed DNS answer, a chain of aliases, a name that has expired, a
      name that is no text, a deletion reported as a tombstone, a dropped error of [Close], a client that
      does not read, a connection counted again after it was forgotten, a configured label with the name
      of a built-in one, and a shutdown that closes one channel several times.

    ** Bounds and termination

    Recursion is structural throughout and there is no fuel: loops run over lists of what happens to
    them, and the concurrent pipeline and the group of pushes have measures that every step decreases.  The clock rate
    theorem is about readings any number of nanoseconds apart from 100 milliseconds, for which the code
    sleeps, to a second.  Integers keep their width where the code
    depends on it: counters wrap at 64 bits, lengths at 32, rounding at 16.  The batch of one collector
    is aggregated at one instant.  Operations that hold a mutex are atomic, which Locking.v proves of
    the collector's; PodHistory.v takes those of the pod cache, and the parts of a cleanup, one at a time.

    ** Not modelled

    The insides of loading and attaching the program, sockets, files, protobuf, gzip and the HTTP client
    (their outcomes are arguments of the operations that use them), flag parsing, the handlers of
    the profiling and Prometheus libraries, requests with escaped paths or the method CONNECT, the text of
    the log, the stubs for other operating systems and the generated code.  Section attributes and inlining of the C headers have no run-time meaning. *)
From stdpp Require Import base numbers list strings.

Local Open Scope Z_scope.

Declare Scope egress_scope.
Delimit Scope egress_scope with eg.

(** Machine integers.  A w-bit unsigned value is a [Z] in [0, 2^w);
    [wrap] and [swrap] are the conversions C and Go perform on assignment. *)
Definition wrap (w z : Z) : Z := z mod 2 ^ w.
Definition swrap (w z : Z) : Z := (z + 2 ^ (w - 1)) mod 2 ^ w - 2 ^ (w - 1).
Definition in_range (lo hi z : Z) : bool := (lo <=? z) && (z <? hi).
Definition is_unsigned (w z : Z) : Prop := (0 <= z < 2 ^ w)%Z.
Definition is_signed (w z : Z) : Prop := (- 2 ^ (w - 1) <= z < 2 ^ (w - 1))%Z.

(** Bytes are [Z] values below 256; byte sequences are lists of them. *)
Definition bytes := list Z.
Definition byte_ok (b : Z) : Prop := (0 <= b < 256)%Z.
Definition bytes_ok (bs : list Z) : Prop := Forall byte_ok bs.

(** [slice off len l] is [l[off .. off+len)], shorter at the end of [l]. *)
Definition slice {A} (off len : nat) (l : list A) : list A := take len (drop off l).

(** [splice off src l] overwrites [l] from position [off] with [src]: a memory copy into a
    buffer.  It keeps the length when the source fits. *)
Definition splice {A} (off : nat) (src l : list A) : list A :=
  take off l ++ src ++ drop (off + length src)%nat l.

(** Little- and big-endian value of a byte sequence. *)
Fixpoint le_combine (bs : list Z) : Z :=
  match bs with
  | [] => 0
  | b :: bs' => b + 256 * le_combine bs'
  end.
Definition be_combine (bs : list Z) : Z := le_combine (reverse bs).

Fixpoint le_split (n : nat) (z : Z) : list Z :=
  match n with
  | O => []
  | S n' => z mod 256 :: le_split n' (z / 256)
  end.
Definition be_split (n : nat) (z : Z) : list Z := reverse (le_split n z).

(** * Tactics *)
Ltac case_if :=
  match goal with
  | |- context [if ?b then _ else _] => destruct b eqn:?
  | H : context [if ?b then _ else _] |- _ => destruct b eqn:?
  end.
Ltac simplify_bool :=
  repeat match goal with
  | H : (_ && _)%bool = true |- _ => apply andb_true_iff in H; destruct H
  | H : (_ || _)%bool = false |- _ => apply orb_false_iff in H; destruct H
  | H : negb _ = true |- _ => apply negb_true_iff in H
  | H : negb _ = false |- _ => apply negb_false_iff in H
  | H : (_ =? _)%Z = true |- _ => apply Z.eqb_eq in H
  | H : (_ =? _)%Z = false |- _ => apply Z.eqb_neq in H
  | H : (_ <? _)%Z = true |- _ => apply Z.ltb_lt in H
  | H : (_ <? _)%Z = false |- _ => apply Z.ltb_ge in H
  | H : (_ <=? _)%Z = true |- _ => apply Z.leb_le in H
  | H : (_ <=? _)%Z = false |- _ => apply Z.leb_gt in H
  | H : (_ >? _)%Z = true |- _ => rewrite Z.gtb_ltb in H
  | H : (_ >? _)%Z = false |- _ => rewrite Z.gtb_ltb in H
  end.

Create HintDb egress.

Lemma wrap_unsigned w z : (0 <= w)%Z -> is_unsigned w (wrap w z).
Proof. intros. apply Z.mod_pos_bound. apply Z.pow_pos_nonneg; lia. Qed.

Lemma wrap_id w z : is_unsigned w z -> wrap w z = z.
Proof. intros. by apply Z.mod_small. Qed.

Lemma wrap_wrap w z : wrap w (wrap w z) = wrap w z.
Proof. apply Zmod_mod. Qed.

Lemma swrap_signed w z : (0 < w)%Z -> is_signed w (swrap w z).
Proof.
  intros Hw. unfold is_signed, swrap.
  pose proof (Z.mod_pos_bound (z + 2 ^ (w - 1)) (2 ^ w) ltac:(lia)).
  replace (2 ^ w)%Z with (2 * 2 ^ (w - 1))%Z in *; [lia|].
  rewrite <- Z.pow_succ_r by lia. f_equal; lia.
Qed.

Lemma swrap_id w z : (0 < w)%Z -> is_signed w z -> swrap w z = z.
Proof.
  intros Hw Hz. unfold swrap, is_signed in *.
  rewrite Z.mod_small; [lia|].
  replace (2 ^ w)%Z with (2 * 2 ^ (w - 1))%Z; [lia|].
  rewrite <- Z.pow_succ_r by lia. f_equal; lia.
Qed.

Lemma wrap_swrap w z : (0 < w)%Z -> wrap w (swrap w z) = wrap w z.
Proof.
  intros Hw. unfold wrap, swrap.
  rewrite Zminus_mod_idemp_l. f_equal. lia.
Qed.

Lemma swrap_wrap w z : swrap w (wrap w z) = swrap w z.
Proof. unfold wrap, swrap. by rewrite Zplus_mod_idemp_l. Qed.
#[export] Hint Resolve wrap_unsigned swrap_signed : egress.

(** ** Lists *)
Lemma length_slice {A} off len (l : list A) :
  length (slice off len l) = Nat.min len (length l - off)%nat.
Proof. unfold slice. rewrite length_take, length_drop. done. Qed.

Lemma slice_all {A} (l : list A) : slice 0 (length l) l = l.
Proof. unfold slice. rewrite drop_0. by apply take_ge. Qed.

Lemma lookup_slice {A} off len (l : list A) i :
  (i < len)%nat -> slice off len l !! i = l !! (off + i)%nat.
Proof. intros. unfold slice. by rewrite lookup_take_lt, lookup_drop by done. Qed.

Lemma length_splice {A} off (src l : list A) :
  (off + length src <= length l)%nat -> length (splice off src l) = length l.
Proof. intros. unfold splice. rewrite !length_app, length_take, length_drop. lia. Qed.

Lemma slice_splice_same {A} off (src l : list A) :
  (off <= length l)%nat -> slice off (length src) (splice off src l) = src.
Proof.
  intros. unfold slice, splice.
  rewrite drop_app_length' by (rewrite length_take; lia).
  by rewrite take_app_length.
Qed.

Lemma slice_slice {A} off len i n (l : list A) :
  (i + n <= len)%nat -> slice i n (slice off len l) = slice (off + i) n l.
Proof.
  intros. unfold slice. rewrite skipn_firstn_comm, drop_drop, take_take. by rewrite Nat.min_l by lia.
Qed.

Lemma slice_splice_in {A} off (src l : list A) i n :
  (off <= length l)%nat -> (i + n <= length src)%nat ->
  slice (off + i) n (splice off src l) = slice i n src.
Proof.
  intros. rewrite <- (slice_slice off (length src) i n) by done.
  by rewrite slice_splice_same.
Qed.

Lemma lookup_splice_out {A} off (src l : list A) i :
  (off <= length l)%nat ->
  (i < off \/ off + length src <= i)%nat -> splice off src l !! i = l !! i.
Proof.
  intros Hl [Hi|Hi]; unfold splice.
  - rewrite lookup_app_l by (rewrite length_take; lia). by apply lookup_take_lt.
  - rewrite lookup_app_r by (rewrite length_take; lia).
    rewrite lookup_app_r by (rewrite length_take; lia).
    rewrite lookup_drop, length_take. f_equal. lia.
Qed.

Lemma lookup_splice_in {A} off (src l : list A) i :
  (off <= length l)%nat -> (i < length src)%nat ->
  splice off src l !! (off + i)%nat = src !! i.
Proof.
  intros Hl Hi. unfold splice.
  rewrite lookup_app_r by (rewrite length_take; lia).
  rewrite length_take. rewrite lookup_app_l by lia. f_equal. lia.
Qed.

(** Storing one element and then the rest is one copy. *)
Lemma splice_insert {A} p x (src l : list A) :
  (p < length l)%nat -> splice (S p) src (<[p:=x]> l) = splice p (x :: src) l.
Proof.
  intros Hp. unfold splice.
  rewrite (take_S_r _ _ x) by (by apply list_lookup_insert_eq).
  rewrite take_insert_ge, drop_insert_lt by lia. rewrite <- app_assoc. simpl.
  by replace (p + S (length src))%nat with (S (p + length src)) by lia.
Qed.

Lemma splice_nil {A} p (l : list A) : splice p [] l = l.
Proof. unfold splice. simpl. rewrite Nat.add_0_r. apply take_drop. Qed.

Lemma splice_all {A} (src l : list A) : length src = length l -> splice 0 src l = src.
Proof. intros Hl. unfold splice. simpl. rewrite drop_ge by lia. apply app_nil_r. Qed.

Lemma bytes_ok_splice off src l :
  bytes_ok src -> bytes_ok l -> bytes_ok (splice off src l).
Proof.
  intros. unfold splice, bytes_ok.
  auto using Forall_app_2, Forall_take, Forall_drop.
Qed.

Lemma bytes_ok_slice off len l : bytes_ok l -> bytes_ok (slice off len l).
Proof. intros. unfold slice, bytes_ok. auto using Forall_take, Forall_drop. Qed.

Lemma bytes_ok_replicate n b : byte_ok b -> bytes_ok (replicate n b).
Proof. intros. by apply Forall_replicate. Qed.
#[export] Hint Resolve bytes_ok_splice bytes_ok_slice bytes_ok_replicate : egress.

Lemma lookup_map {A B} (f : A -> B) (l : list A) i : map f l !! i = f <$> l !! i.
Proof. revert i. induction l; intros [|i]; simpl; auto. Qed.

(** ** Byte sequences as integers *)
Lemma le_combine_bound bs :
  bytes_ok bs -> 0 <= le_combine bs < 2 ^ (8 * Z.of_nat (length bs)).
Proof.
  induction 1 as [|b bs Hb _ IH]; simpl; [lia|].
  replace (8 * Z.of_nat (S (length bs)))%Z with (8 + 8 * Z.of_nat (length bs)) by lia.
  rewrite Z.pow_add_r by lia. change (2 ^ 8) with 256. unfold byte_ok in Hb. nia.
Qed.

Lemma le_combine_app bs1 bs2 :
  le_combine (bs1 ++ bs2) = le_combine bs1 + 2 ^ (8 * Z.of_nat (length bs1)) * le_combine bs2.
Proof.
  induction bs1 as [|b bs1 IH]; cbn [le_combine app length]; [lia|].
  rewrite IH. replace (8 * Z.of_nat (S (length bs1))) with (8 + 8 * Z.of_nat (length bs1)) by lia.
  rewrite Z.pow_add_r by lia. change (2 ^ 8) with 256. lia.
Qed.

Lemma length_le_split n z : length (le_split n z) = n.
Proof. revert z. induction n; intros; simpl; [done|]. by rewrite IHn. Qed.

Lemma bytes_ok_le_split n z : bytes_ok (le_split n z).
Proof.
  revert z. induction n as [|n IH]; intros z; simpl; constructor; [|apply IH].
  apply Z.mod_pos_bound. lia.
Qed.

(** Writing an integer as n bytes and reading it back keeps it modulo 2^8n. *)
Lemma le_combine_split n z : le_combine (le_split n z) = wrap (8 * Z.of_nat n) z.
Proof.
  revert z. induction n as [|n IH]; intros z.
  - symmetry. apply Z.mod_1_r.
  - cbn [le_split le_combine]. rewrite IH. unfold wrap.
    replace (8 * Z.of_nat (S n)) with (8 + 8 * Z.of_nat n) by lia.
    rewrite Z.pow_add_r, Z.rem_mul_r by lia. reflexivity.
Qed.

(** Reading n bytes as an integer and writing it back gives the bytes. *)
Lemma le_split_combine bs : bytes_ok bs -> le_split (length bs) (le_combine bs) = bs.
Proof.
  induction 1 as [|b bs Hb _ IH]; [done|]. cbn [length le_combine le_split].
  unfold byte_ok in Hb.
  rewrite (Z.mul_comm 256), Z.mod_add, Z.mod_small by lia.
  rewrite Z.div_add, Z.div_small, Z.add_0_l by lia. by rewrite IH.
Qed.

Lemma be_combine_split n z : be_combine (be_split n z) = wrap (8 * Z.of_nat n) z.
Proof. unfold be_combine, be_split. rewrite reverse_involutive. apply le_combine_split. Qed.

Lemma length_be_split n z : length (be_split n z) = n.
Proof. unfold be_split. by rewrite length_reverse, length_le_split. Qed.

Lemma bytes_ok_reverse bs : bytes_ok bs -> bytes_ok (reverse bs).
Proof. unfold bytes_ok. by rewrite Forall_reverse. Qed.

Lemma be_combine_bound bs :
  bytes_ok bs -> 0 <= be_combine bs < 2 ^ (8 * Z.of_nat (length bs)).
Proof.
  intros H. unfold be_combine. rewrite <- (length_reverse bs).
  by apply le_combine_bound, bytes_ok_reverse.
Qed.
#[export] Hint Resolve bytes_ok_le_split bytes_ok_reverse : egress.

(** ** Bit operations *)

(** The or of a multiple of 2^k and a value below 2^k is their sum. *)
Lemma lor_disjoint_add hi lo k :
  0 <= k -> 0 <= lo < 2 ^ k -> Z.lor (hi * 2 ^ k) lo = hi * 2 ^ k + lo.
Proof.
  intros Hk Hlo.
  assert (Hl : Z.land (hi * 2 ^ k) lo = 0).
  { apply Z.bits_inj'. intros i Hi. rewrite Z.land_spec, Z.bits_0.
    destruct (Z.lt_ge_cases i k); [by rewrite Z.mul_pow2_bits_low|].
    rewrite <- (Z.mod_small lo (2 ^ k)) by done.
    rewrite Z.mod_pow2_bits_high by lia. apply andb_false_r. }
  by rewrite <- Z.lxor_lor, <- Z.add_nocarry_lxor by done.
Qed.

