(* ===== verification/CAbi.v ===== *)
(** C data layout and memory access on the BPF target.

    The eBPF program is compiled for a 64-bit target (pointers and [long] are 8 bytes) in two byte
    orders (ebpf/bpf_bpfel.go and ebpf/bpf_bpfeb.go).  This file is the part of the C language
    the headers under src/ebpf/c/include rely on: integer, pointer, array, struct and union types,
    bit-fields, [packed] and [aligned] attributes, the offsets the compiler gives their members,
    reading a member out of memory in either byte order, and the numbering of enumerators. *)
From S2P Require Import Prelude.
From stdpp Require Import base numbers list strings.
Local Open Scope Z_scope.

Inductive endian := LittleEndian | BigEndian.

#[export] Instance endian_eq_dec : EqDecision endian.
Proof. solve_decision. Defined.

(** A member is its name ([""] for an anonymous struct or union), the width of a bit-field
    ([None] for an ordinary member), and its type. *)
Inductive ctype :=
| CInt (signed : bool) (size : Z)
| CPtr (pointee : string)
| CArr (elem : ctype) (n : Z)
| CStruct (packed : bool) (aligned : Z) (ms : list (string * option Z * ctype))
| CUnion (packed : bool) (ms : list (string * option Z * ctype)).

(** Ordinary members, bit-fields and anonymous members, as the declarations spell them. *)
Definition fld (name : string) (t : ctype) : string * option Z * ctype := (name, None, t).
Definition bitfld (name : string) (w : Z) (t : ctype) : string * option Z * ctype :=
  (name, Some w, t).
Definition anon (t : ctype) : string * option Z * ctype := (EmptyString, None, t).
Definition cstruct (ms : list (string * option Z * ctype)) : ctype := CStruct false 1 ms.
Definition cstruct_packed (ms : list (string * option Z * ctype)) : ctype := CStruct true 1 ms.
Definition cstruct_aligned (a : Z) (ms : list (string * option Z * ctype)) : ctype :=
  CStruct false a ms.
Definition cunion (ms : list (string * option Z * ctype)) : ctype := CUnion false ms.

(** * Sizes and offsets *)
Definition align_up (n a : Z) : Z := (n + a - 1) / a * a.

(** What the placement of a member depends on: bit-field width, alignment and size in bytes. *)
Record minfo := MInfo { mi_bits : option Z; mi_align : Z; mi_size : Z }.

Definition mwidth (m : minfo) : Z :=
  match mi_bits m with None => 8 * mi_size m | Some w => w end.

(** The bit at which a member starts when the members before it end at bit [o].  A bit-field
    continues at [o] unless it would leave the storage unit of its declared type. *)
Definition place (packed : bool) (m : minfo) (o : Z) : Z :=
  match mi_bits m with
  | None => align_up o (8 * (if packed then 1 else mi_align m))
  | Some w =>
      if packed then o
      else if o mod (8 * mi_align m) + w <=? 8 * mi_size m then o
      else align_up o (8 * mi_align m)
  end.

Fixpoint struct_offsets (packed : bool) (ms : list minfo) (o : Z) : list Z :=
  match ms with
  | [] => []
  | m :: ms' =>
      let s := place packed m o in s :: struct_offsets packed ms' (s + mwidth m)
  end.

Fixpoint struct_end (packed : bool) (ms : list minfo) (o : Z) : Z :=
  match ms with
  | [] => o
  | m :: ms' => struct_end packed ms' (place packed m o + mwidth m)
  end.

Fixpoint alignof (t : ctype) : Z :=
  match t with
  | CInt _ n => n
  | CPtr _ => 8
  | CArr t' _ => alignof t'
  | CStruct packed a ms =>
      Z.max a (if packed then 1 else foldr (λ m acc, Z.max (alignof (snd m)) acc) 1 ms)
  | CUnion packed ms =>
      if packed then 1 else foldr (λ m acc, Z.max (alignof (snd m)) acc) 1 ms
  end.

Fixpoint sizeof (t : ctype) : Z :=
  match t with
  | CInt _ n => n
  | CPtr _ => 8
  | CArr t' n => n * sizeof t'
  | CStruct packed a ms =>
      align_up
        (struct_end packed
           (map (λ m, MInfo (snd (fst m)) (alignof (snd m)) (sizeof (snd m))) ms) 0)
        (8 * alignof t) / 8
  | CUnion packed ms =>
      align_up (foldr (λ m acc, Z.max (sizeof (snd m)) acc) 0 ms) (alignof t)
  end.

Definition minfo_of (m : string * option Z * ctype) : minfo :=
  MInfo (snd (fst m)) (alignof (snd m)) (sizeof (snd m)).

Definition member_offsets (t : ctype) : list Z :=
  match t with
  | CStruct packed _ ms => struct_offsets packed (map minfo_of ms) 0
  | CUnion _ ms => map (λ _, 0) ms
  | _ => []
  end.

(** Search of a member list, given how to search the type of an anonymous member. *)
Definition find_in (rec : ctype -> option (Z * option Z * ctype)) (f : string)
    : list (string * option Z * ctype) -> list Z -> option (Z * option Z * ctype) :=
  fix go ms offs :=
    match ms, offs with
    | (nm, b, t') :: ms', o :: offs' =>
        if String.eqb nm EmptyString then
          match rec t' with
          | Some (o', b', t'') => Some (o + o', b', t'')
          | None => go ms' offs'
          end
        else if String.eqb nm f then Some (o, b, t')
        else go ms' offs'
    | _, _ => None
    end.

(** Member [f] of [t]: its first bit, its bit-field width and its type.  The members of an
    anonymous struct or union count as members of the enclosing type. *)
Fixpoint find_member (f : string) (t : ctype) : option (Z * option Z * ctype) :=
  match t with
  | CStruct packed _ ms =>
      find_in (find_member f) f ms (struct_offsets packed (map minfo_of ms) 0)
  | CUnion _ ms => find_in (find_member f) f ms (map (λ _, 0) ms)
  | _ => None
  end.

(** Designators: [a.b[i].c]. *)
Inductive selector := Dot (f : string) | Idx (i : Z).

Fixpoint resolve (t : ctype) (path : list selector) : option (Z * option Z * ctype) :=
  match path with
  | [] => Some (0, None, t)
  | Dot f :: rest =>
      match find_member f t with
      | Some (o, None, t') =>
          match resolve t' rest with
          | Some (o', b', t'') => Some (o + o', b', t'')
          | None => None
          end
      | Some (o, Some w, t') => match rest with [] => Some (o, Some w, t') | _ => None end
      | None => None
      end
  | Idx i :: rest =>
      match t with
      | CArr t' n =>
          if (0 <=? i) && (i <? n) then
            match resolve t' rest with
            | Some (o', b', t'') => Some (8 * (i * sizeof t') + o', b', t'')
            | None => None
            end
          else None
      | _ => None
      end
  end.

(** [offsetof(TYPE, MEMBER)] in bytes, for designators that are not bit-fields. *)
Definition offsetof (t : ctype) (path : list selector) : option Z :=
  match resolve t path with
  | Some (o, None, _) => Some (o / 8)
  | _ => None
  end.

(** * Reading memory *)

(** The [w] bits that start at bit [o] of an object.  Bit-fields are allocated from the least
    significant bit on a little-endian target and from the most significant bit on a
    big-endian one; for byte-aligned members this is the ordinary load of the byte order. *)
Definition extract (en : endian) (bs : list Z) (o w : Z) : Z :=
  match en with
  | LittleEndian => Z.land (Z.shiftr (le_combine bs) o) (Z.ones w)
  | BigEndian =>
      Z.land (Z.shiftr (be_combine bs) (8 * Z.of_nat (length bs) - o - w)) (Z.ones w)
  end.

Definition load_uint (en : endian) (bs : list Z) : Z :=
  match en with LittleEndian => le_combine bs | BigEndian => be_combine bs end.

Definition store_uint (en : endian) (n : nat) (z : Z) : list Z :=
  match en with LittleEndian => le_split n z | BigEndian => be_split n z end.

(** Unsigned read of the scalar member [path] of an object of type [t] whose bytes are [bs]. *)
Definition read_member (en : endian) (t : ctype) (path : list selector) (bs : list Z)
    : option Z :=
  match resolve t path with
  | Some (o, Some w, _) => Some (extract en bs o w)
  | Some (o, None, t') => Some (extract en bs o (8 * sizeof t'))
  | None => None
  end.

(** * Enumerators *)

(** An enumeration is the list of its enumerators with the values they are declared with; an
    enumerator without a value is one more than the enumerator before it. *)
Class CEnum (A : Type) := { enum_decl : list (A * option Z) }.

Fixpoint enum_numbering {A} (ds : list (A * option Z)) (next : Z) : list (A * Z) :=
  match ds with
  | [] => []
  | (a, v) :: ds' =>
      let z := match v with Some z => z | None => next end in
      (a, z) :: enum_numbering ds' (z + 1)
  end.

Fixpoint assoc {A B} `{EqDecision A} (l : list (A * B)) (a : A) : option B :=
  match l with
  | [] => None
  | (a', b) :: l' => if decide (a = a') then Some b else assoc l' a
  end.

Definition swap_pairs {A B} (l : list (A * B)) : list (B * A) := map (λ p, (snd p, fst p)) l.

Definition enum_val {A} `{EqDecision A, CEnum A} (a : A) : Z :=
  default 0 (assoc (enum_numbering enum_decl 0) a).
Definition enum_of_val {A} `{EqDecision A, CEnum A} (z : Z) : option A :=
  assoc (swap_pairs (enum_numbering enum_decl 0)) z.

(** What a client of an enumeration relies on: every constructor is declared, and no two
    enumerators have the same value. *)
Class CEnumOk (A : Type) `{EqDecision A, CEnum A} : Prop := {
  enum_complete : forall a : A, a ∈ map fst (enum_numbering (A:=A) enum_decl 0);
  enum_distinct : NoDup (map snd (enum_numbering (A:=A) enum_decl 0));
}.

(** * Well-formed types *)
Definition is_alignb (a : Z) : bool := (a =? 1) || (a =? 2) || (a =? 4) || (a =? 8).

Definition bits_okb (b : option Z) (t : ctype) : bool :=
  match b, t with
  | None, _ => true
  | Some w, CInt _ n => (0 <? w) && (w <=? 8 * n)
  | Some _, _ => false
  end.

Fixpoint wf_ctype (t : ctype) : bool :=
  match t with
  | CInt _ n => is_alignb n
  | CPtr _ => true
  | CArr t' n => wf_ctype t' && (0 <=? n)
  | CStruct _ a ms =>
      is_alignb a && forallb (λ m, wf_ctype (snd m) && bits_okb (snd (fst m)) (snd m)) ms
  | CUnion _ ms => forallb (λ m, wf_ctype (snd m) && bool_decide (snd (fst m) = None)) ms
  end.

(** What the rest of the development uses of a member's placement. *)
Definition minfo_ok (m : minfo) : Prop :=
  is_alignb (mi_align m) = true /\ 0 <= mi_size m /\ mi_size m mod mi_align m = 0 /\
  match mi_bits m with
  | None => True
  | Some w => 0 < w <= 8 * mi_size m /\ mi_size m = mi_align m
  end.

(** * Lemmas on alignment *)
Lemma is_alignb_cases a : is_alignb a = true -> a = 1 \/ a = 2 \/ a = 4 \/ a = 8.
Proof. unfold is_alignb. rewrite !orb_true_iff, !Z.eqb_eq. tauto. Qed.

Lemma is_alignb_pos a : is_alignb a = true -> 0 < a.
Proof. intros H%is_alignb_cases. lia. Qed.

Lemma is_alignb_max a b :
  is_alignb a = true -> is_alignb b = true -> is_alignb (Z.max a b) = true.
Proof. intros. by destruct (Z.max_spec a b) as [ [_ ->] | [_ ->] ]. Qed.

Lemma is_alignb_divide a b :
  is_alignb a = true -> is_alignb b = true -> a <= b -> (a | b).
Proof.
  intros Ha%is_alignb_cases Hb%is_alignb_cases Hle.
  destruct Ha as [ -> | [ -> | [ -> | -> ] ] ], Hb as [ -> | [ -> | [ -> | -> ] ] ]; try lia;
    by apply Z.mod_divide.
Qed.
#[export] Hint Resolve is_alignb_pos is_alignb_max : egress.

Lemma align_up_ge n a : 0 < a -> n <= align_up n a.
Proof.
  intros. unfold align_up.
  pose proof (Z.div_mod (n + a - 1) a ltac:(lia)).
  pose proof (Z.mod_pos_bound (n + a - 1) a ltac:(lia)). nia.
Qed.

Lemma align_up_lt n a : 0 < a -> align_up n a < n + a.
Proof.
  intros. unfold align_up.
  pose proof (Z.div_mod (n + a - 1) a ltac:(lia)).
  pose proof (Z.mod_pos_bound (n + a - 1) a ltac:(lia)). nia.
Qed.

Lemma align_up_divide n a : (a | align_up n a).
Proof. exists ((n + a - 1) / a). reflexivity. Qed.

Lemma align_up_mod n a : 0 < a -> align_up n a mod a = 0.
Proof. intros. apply Z.mod_divide; [lia|]. apply align_up_divide. Qed.

Lemma align_up_id n a : 0 < a -> (a | n) -> align_up n a = n.
Proof.
  intros Ha [k ->]. unfold align_up.
  replace (k * a + a - 1) with (a - 1 + k * a) by lia.
  rewrite Z.div_add, Z.div_small by lia. lia.
Qed.

(** * Placement of members *)
Lemma mwidth_nonneg m : minfo_ok m -> 0 <= mwidth m.
Proof. intros (_ & Hs & _ & Hb). unfold mwidth. destruct (mi_bits m); lia. Qed.

Lemma place_ge packed m o : minfo_ok m -> o <= place packed m o.
Proof.
  intros (Ha%is_alignb_pos & _). unfold place.
  destruct (mi_bits m); repeat case_if; try lia; apply align_up_ge; lia.
Qed.

(** An ordinary member of a struct that is not packed starts at a multiple of its alignment. *)
Lemma place_aligned m o :
  minfo_ok m -> mi_bits m = None -> place false m o mod (8 * mi_align m) = 0.
Proof.
  intros (Ha%is_alignb_pos & _) Hb. unfold place. rewrite Hb. apply align_up_mod. lia.
Qed.

(** A bit-field of a struct that is not packed stays inside one storage unit. *)
Lemma place_bits_unit m o w :
  minfo_ok m -> mi_bits m = Some w -> 0 <= o ->
  place false m o / (8 * mi_size m) = (place false m o + w - 1) / (8 * mi_size m).
Proof.
  intros (Ha%is_alignb_pos & _ & _ & Hb) Hw Ho. rewrite Hw in Hb. destruct Hb as [Hb Hsz].
  unfold place. rewrite Hw, Hsz. set (u := 8 * mi_align m) in *.
  assert (Hu : 0 < u) by lia.
  assert (Hkey : forall p, p mod u + w <= u -> p / u = (p + w - 1) / u).
  { intros p Hp. pose proof (Z.mod_pos_bound p u Hu).
    rewrite (Z.div_mod p u) at 2 by lia.
    replace (u * (p / u) + p mod u + w - 1) with (p mod u + w - 1 + (p / u) * u) by lia.
    rewrite Z.div_add, (Z.div_small (p mod u + w - 1)) by lia. lia. }
  case_if; simplify_bool; apply Hkey; [lia|]. rewrite align_up_mod; lia.
Qed.

Lemma struct_end_ge packed ms o : Forall minfo_ok ms -> o <= struct_end packed ms o.
Proof.
  intros H. revert o. induction H as [|m ms Hm _ IH]; intros o; simpl; [lia|].
  etrans; [apply (place_ge packed m o Hm)|]. pose proof (mwidth_nonneg m Hm).
  etrans; [|apply IH]. lia.
Qed.

Lemma length_struct_offsets packed ms o : length (struct_offsets packed ms o) = length ms.
Proof. revert o. induction ms; intros; simpl; [done|]. by rewrite IHms. Qed.

(** Every member lies between the start and the end of the struct. *)
Lemma struct_offsets_bounds packed ms o i s m :
  Forall minfo_ok ms -> struct_offsets packed ms o !! i = Some s -> ms !! i = Some m ->
  o <= s /\ s + mwidth m <= struct_end packed ms o.
Proof.
  intros H. revert o i. induction H as [|m' ms Hm HF IH]; intros o i; [done|].
  pose proof (place_ge packed m' o Hm) as Hge. pose proof (mwidth_nonneg m' Hm).
  destruct i as [|i]; simpl; intros Hs Hi.
  - simplify_eq. split; [done|]. by apply struct_end_ge.
  - destruct (IH _ _ Hs Hi). split; lia.
Qed.

(** A later member starts after an earlier one ends. *)
Lemma struct_offsets_disjoint packed ms o i j s1 s2 m1 :
  Forall minfo_ok ms -> (i < j)%nat ->
  struct_offsets packed ms o !! i = Some s1 -> ms !! i = Some m1 ->
  struct_offsets packed ms o !! j = Some s2 ->
  s1 + mwidth m1 <= s2.
Proof.
  intros H. revert o i j. induction H as [|m' ms Hm HF IH]; intros o i j Hij; [done|].
  destruct j as [|j]; [lia|]. destruct i as [|i]; simpl; intros H1 Hm1 H2.
  - simplify_eq.
    assert (is_Some (ms !! j)) as [m2 Hm2].
    { apply lookup_lt_is_Some. apply lookup_lt_Some in H2.
      by rewrite length_struct_offsets in H2. }
    by destruct (struct_offsets_bounds _ _ _ _ _ _ HF H2 Hm2).
  - eapply IH; [|done..]. lia.
Qed.

Lemma struct_offsets_place packed ms o i s m :
  Forall minfo_ok ms -> 0 <= o ->
  struct_offsets packed ms o !! i = Some s -> ms !! i = Some m ->
  exists o', 0 <= o' /\ s = place packed m o'.
Proof.
  intros H. revert o i. induction H as [|m' ms Hm HF IH]; intros o i Ho; [done|].
  destruct i as [|i]; simpl; intros Hs Hi; [simplify_eq; eauto|].
  eapply IH; [|done..]. pose proof (place_ge packed m' o Hm).
  pose proof (mwidth_nonneg m' Hm). lia.
Qed.

(** * Sizes of well-formed types *)

(** Induction over types with the hypothesis for every member. *)
Lemma ctype_nested_ind (P : ctype -> Prop) :
  (forall sg n, P (CInt sg n)) ->
  (forall p, P (CPtr p)) ->
  (forall t n, P t -> P (CArr t n)) ->
  (forall p a ms, Forall (λ m, P (snd m)) ms -> P (CStruct p a ms)) ->
  (forall p ms, Forall (λ m, P (snd m)) ms -> P (CUnion p ms)) ->
  forall t, P t.
Proof.
  intros Hi Hp Ha Hs Hu. fix IH 1. intros [sg n|p|t n|p a ms|p ms].
  - apply Hi.
  - apply Hp.
  - apply Ha, IH.
  - apply Hs. induction ms as [|m ms IHms]; constructor; [apply IH|apply IHms].
  - apply Hu. induction ms as [|m ms IHms]; constructor; [apply IH|apply IHms].
Qed.

Lemma foldr_align_ok (ms : list (string * option Z * ctype)) :
  Forall (λ m, is_alignb (alignof (snd m)) = true) ms ->
  is_alignb (foldr (λ m acc, Z.max (alignof (snd m)) acc) 1 ms) = true.
Proof. induction 1; simpl; auto with egress. Qed.

Lemma foldr_align_ge (ms : list (string * option Z * ctype)) m :
  m ∈ ms -> alignof (snd m) <= foldr (λ m acc, Z.max (alignof (snd m)) acc) 1 ms.
Proof. induction 1; simpl; lia. Qed.

Lemma foldr_size_ge (ms : list (string * option Z * ctype)) m :
  m ∈ ms -> sizeof (snd m) <= foldr (λ m acc, Z.max (sizeof (snd m)) acc) 0 ms.
Proof. induction 1; simpl; lia. Qed.

(** Sizes are multiples of alignments, alignments are 1, 2, 4 or 8. *)
Definition layout_ok (t : ctype) : Prop :=
  is_alignb (alignof t) = true /\ 0 <= sizeof t /\ sizeof t mod alignof t = 0.

Lemma minfo_of_ok m :
  layout_ok (snd m) -> bits_okb (snd (fst m)) (snd m) = true -> minfo_ok (minfo_of m).
Proof.
  destruct m as [[nm b] t]. intros (Ha & Hs & Hm) Hb. simpl in *.
  unfold minfo_ok; simpl. repeat split; try done. destruct b as [w|]; [|done].
  destruct t; try done. simpl in Hb. simplify_bool. simpl. lia.
Qed.

Lemma align_up_scaled n a : 0 < a -> align_up n (8 * a) / 8 mod a = 0.
Proof.
  intros. destruct (align_up_divide n (8 * a)) as [k ->].
  replace (k * (8 * a)) with (k * a * 8) by lia.
  rewrite Z.div_mul by lia. apply Z.mod_mul. lia.
Qed.

Lemma sizeof_struct p a ms :
  sizeof (CStruct p a ms) =
  align_up (struct_end p (map minfo_of ms) 0) (8 * alignof (CStruct p a ms)) / 8.
Proof. reflexivity. Qed.

Lemma alignof_struct_ok p a (ms : list (string * option Z * ctype)) :
  is_alignb a = true -> Forall (λ m, is_alignb (alignof (snd m)) = true) ms ->
  is_alignb (alignof (CStruct p a ms)) = true.
Proof.
  intros Ha Hms. cbn [alignof]. apply is_alignb_max; [done|].
  destruct p; [done|]. by apply foldr_align_ok.
Qed.

Lemma struct_end_nonneg p ms : Forall minfo_ok ms -> 0 <= struct_end p ms 0.
Proof. apply struct_end_ge. Qed.

Lemma forallb_Forall {A} (f : A -> bool) (l : list A) :
  forallb f l = true -> Forall (λ x, f x = true) l.
Proof. intros H. apply Forall_forall. intros x Hx%list_elem_of_In. by eapply forallb_forall in H. Qed.

Lemma wf_struct p a ms :
  wf_ctype (CStruct p a ms) = true ->
  is_alignb a = true /\
  Forall (λ m, wf_ctype (snd m) = true /\ bits_okb (snd (fst m)) (snd m) = true) ms.
Proof.
  cbn [wf_ctype]. intros [Ha Hm%forallb_Forall]%andb_prop. split; [done|].
  eapply Forall_impl; [exact Hm|]. simpl. by intros m ?%andb_prop.
Qed.

Lemma wf_union p ms :
  wf_ctype (CUnion p ms) = true ->
  Forall (λ m, wf_ctype (snd m) = true /\ snd (fst m) = None) ms.
Proof.
  cbn [wf_ctype]. intros Hm%forallb_Forall.
  eapply Forall_impl; [exact Hm|]. simpl. intros m [? ?]%andb_prop.
  split; [done|]. by eapply bool_decide_eq_true_1.
Qed.

Lemma minfos_ok ms :
  Forall (λ m, wf_ctype (snd m) = true /\ bits_okb (snd (fst m)) (snd m) = true) ms ->
  Forall (λ m, wf_ctype (snd m) = true -> layout_ok (snd m)) ms ->
  Forall minfo_ok (map minfo_of ms).
Proof.
  intros Hm IH. apply Forall_map. rewrite !Forall_forall in *.
  intros m Hin. destruct (Hm m Hin). apply minfo_of_ok; auto.
Qed.

Lemma members_align_ok (ms : list (string * option Z * ctype)) :
  Forall (λ m, wf_ctype (snd m) = true) ms ->
  Forall (λ m, wf_ctype (snd m) = true -> layout_ok (snd m)) ms ->
  Forall (λ m, is_alignb (alignof (snd m)) = true) ms.
Proof.
  rewrite !Forall_forall. intros Hm IH m Hin. by apply (IH m Hin (Hm m Hin)).
Qed.

Lemma wf_layout_ok t : wf_ctype t = true -> layout_ok t.
Proof.
  induction t as [sg n|q|t n IH|p a ms IH|p ms IH] using ctype_nested_ind; intros Hwf.
  - split; [done|]. simpl in *. pose proof (is_alignb_pos n Hwf).
    split; [lia|]. apply Z.mod_same. lia.
  - by repeat split.
  - simpl in Hwf. simplify_bool. destruct IH as (Ha & Hs & Hm); [done|].
    split; [done|]. simpl. split; [nia|].
    by rewrite <- Zmult_mod_idemp_r, Hm, Z.mul_0_r.
  - apply wf_struct in Hwf as [Ha Hm].
    assert (Hal : is_alignb (alignof (CStruct p a ms)) = true).
    { apply alignof_struct_ok; [done|]. apply members_align_ok; [|done].
      eapply Forall_impl; [exact Hm|]. naive_solver. }
    pose proof (struct_end_nonneg p _ (minfos_ok _ Hm IH)).
    pose proof (is_alignb_pos _ Hal).
    split; [done|]. rewrite sizeof_struct. split; [|by apply align_up_scaled].
    pose proof (align_up_ge (struct_end p (map minfo_of ms) 0)
                  (8 * alignof (CStruct p a ms)) ltac:(lia)).
    apply Z.div_pos; lia.
  - apply wf_union in Hwf.
    assert (Hal : is_alignb (alignof (CUnion p ms)) = true).
    { cbn [alignof]. destruct p; [done|]. apply foldr_align_ok.
      apply members_align_ok; [|done]. eapply Forall_impl; [exact Hwf|]. naive_solver. }
    pose proof (is_alignb_pos _ Hal).
    split; [done|]. split; [|by apply align_up_mod].
    cbn [sizeof]. set (x := foldr _ _ ms).
    assert (0 <= x) by (unfold x; clear; induction ms; simpl; lia).
    pose proof (align_up_ge x (alignof (CUnion p ms)) ltac:(done)). lia.
Qed.

Lemma wf_minfos_ok ms :
  Forall (λ m, wf_ctype (snd m) = true /\ bits_okb (snd (fst m)) (snd m) = true) ms ->
  Forall minfo_ok (map minfo_of ms).
Proof. intros. apply minfos_ok; [done|]. apply Forall_forall. auto using wf_layout_ok. Qed.

(** The bits a member of type [t] occupies. *)
Definition member_width (b : option Z) (t : ctype) : Z :=
  match b with Some w => w | None => 8 * sizeof t end.

(** Every direct member of a well-formed struct or union lies inside it. *)
Lemma member_in_bounds t i o nm b t' :
  wf_ctype t = true -> member_offsets t !! i = Some o ->
  (match t with CStruct _ _ ms | CUnion _ ms => ms | _ => [] end) !! i = Some (nm, b, t') ->
  0 <= o /\ o + member_width b t' <= 8 * sizeof t.
Proof.
  destruct t as [| | |p a ms|p ms]; intros Hwf Ho Hm; simplify_eq.
  - pose proof (wf_layout_ok _ Hwf) as (Hal%is_alignb_pos & _ & _).
    apply wf_struct in Hwf as [_ Hwf%wf_minfos_ok].
    assert (Hmi : map minfo_of ms !! i = Some (minfo_of (nm, b, t'))).
    { by rewrite lookup_map, Hm. }
    destruct (struct_offsets_bounds _ _ _ _ _ _ Hwf Ho Hmi) as [Hlo Hhi].
    split; [done|]. rewrite sizeof_struct.
    set (e := struct_end _ _ _) in *. set (al := alignof _) in *.
    destruct (align_up_divide e (8 * al)) as [k Hk].
    pose proof (align_up_ge e (8 * al) ltac:(lia)). rewrite Hk in *.
    replace (k * (8 * al)) with (k * al * 8) in * by lia. rewrite Z.div_mul by lia.
    change (mwidth (minfo_of (nm, b, t'))) with (member_width b t') in Hhi. lia.
  - pose proof (wf_layout_ok _ Hwf) as (Hal%is_alignb_pos & _ & _).
    apply wf_union in Hwf. rewrite Forall_lookup in Hwf.
    destruct (Hwf _ _ Hm) as [_ Hb]. simpl in Hb. subst b.
    cbn [member_offsets] in Ho.
    rewrite lookup_map, Hm in Ho. simpl in Ho. simplify_eq. split; [done|]. simpl member_width.
    cbn [sizeof]. apply list_elem_of_lookup_2 in Hm. apply foldr_size_ge in Hm.
    simpl in Hm. pose proof (align_up_ge (foldr (λ m acc, Z.max (sizeof (snd m)) acc) 0 ms)
      (alignof (CUnion p ms)) ltac:(done)). lia.
Qed.

Lemma find_in_inv rec f ms offs o b t :
  find_in rec f ms offs = Some (o, b, t) ->
  exists i nm b0 t0 o0, ms !! i = Some (nm, b0, t0) /\ offs !! i = Some o0 /\
    ((o, b, t) = (o0, b0, t0) \/ exists o', rec t0 = Some (o', b, t) /\ o = o0 + o').
Proof.
  revert offs. induction ms as [|[ [nm b0] t0] ms IH]; intros [|o0 offs]; simpl; [done..|].
  destruct (String.eqb nm EmptyString).
  - destruct (rec t0) as [ [ [o' b'] t'']|] eqn:Hr; intros Hf.
    + simplify_eq. exists 0%nat, nm, b0, t0, o0. naive_solver.
    + destruct (IH _ Hf) as (i & nm' & b1 & t1 & o1 & ?). by exists (S i), nm', b1, t1, o1.
  - destruct (String.eqb nm f); intros Hf.
    + simplify_eq. exists 0%nat, nm, b, t, o. naive_solver.
    + destruct (IH _ Hf) as (i & nm' & b1 & t1 & o1 & ?). by exists (S i), nm', b1, t1, o1.
Qed.

Lemma find_member_none_scalar f t b :
  bits_okb (Some b) t = true -> find_member f t = None.
Proof. by destruct t. Qed.

(** Every member found by name, also through anonymous structs and unions, lies inside the
    object, and its type is well formed. *)
Lemma find_member_in_bounds f t o b t' :
  wf_ctype t = true -> find_member f t = Some (o, b, t') ->
  0 <= o /\ o + member_width b t' <= 8 * sizeof t /\ wf_ctype t' = true /\
  bits_okb b t' = true.
Proof.
  revert o b t'. induction t as [sg n|q|t n IH|p a ms IH|p ms IH] using ctype_nested_ind;
    intros o b t' Hwf Hf; [done..| |].
  - cbn [find_member] in Hf.
    apply find_in_inv in Hf as (i & nm & b0 & t0 & o0 & Hm & Ho & Hor).
    destruct (member_in_bounds (CStruct p a ms) i o0 nm b0 t0 Hwf Ho Hm) as [Hlo Hhi].
    pose proof (wf_struct _ _ _ Hwf) as [_ Hall]. rewrite Forall_lookup in Hall, IH.
    destruct (Hall _ _ Hm) as [Hw0 Hb0]. simpl in Hw0, Hb0.
    destruct Hor as [?|(o' & Hr & ->)]; [by simplify_eq|].
    destruct (IH _ _ Hm o' b t' Hw0 Hr) as (? & ? & ? & ?).
    destruct b0 as [w0|]; [by rewrite (find_member_none_scalar _ _ _ Hb0) in Hr|].
    simpl in *. repeat split; try done; lia.
  - cbn [find_member] in Hf.
    apply find_in_inv in Hf as (i & nm & b0 & t0 & o0 & Hm & Ho & Hor).
    destruct (member_in_bounds (CUnion p ms) i o0 nm b0 t0 Hwf Ho Hm) as [Hlo Hhi].
    pose proof (wf_union _ _ Hwf) as Hall. rewrite Forall_lookup in Hall, IH.
    destruct (Hall _ _ Hm) as [Hw0 Hb0]. simpl in Hw0, Hb0. subst b0.
    destruct Hor as [?|(o' & Hr & ->)]; [by simplify_eq|].
    destruct (IH _ _ Hm o' b t' Hw0 Hr) as (? & ? & ? & ?).
    simpl in *. repeat split; try done; lia.
Qed.

Lemma resolve_in_bounds path t o b t' :
  wf_ctype t = true -> resolve t path = Some (o, b, t') ->
  0 <= o /\ o + member_width b t' <= 8 * sizeof t.
Proof.
  revert t o b t'. induction path as [|[f|i] path IH]; intros t o b t' Hwf Hr; simpl in Hr.
  - simplify_eq. simpl. lia.
  - destruct (find_member f t) as [ [ [o1 b1] t1]|] eqn:Hf; [|done].
    destruct (find_member_in_bounds _ _ _ _ _ Hwf Hf) as (? & ? & Hw1 & ?).
    destruct b1 as [w|]; [by destruct path; simplify_eq|].
    destruct (resolve t1 path) as [ [ [o2 b2] t2]|] eqn:Hr2; simplify_eq.
    destruct (IH _ _ _ _ Hw1 Hr2). simpl in *. lia.
  - destruct t; try done. cbn [wf_ctype] in Hwf. simplify_bool.
    case_if; [|done]. simplify_bool.
    destruct (resolve t path) as [ [ [o2 b2] t2]|] eqn:Hr2; simplify_eq.
    destruct (IH t o2 b t' ltac:(done) Hr2).
    destruct (wf_layout_ok t ltac:(done)) as (_ & ? & _). cbn [sizeof]. nia.
Qed.

(** * Reading bits out of byte sequences *)
Lemma land_ones_shiftr z o w :
  0 <= o -> 0 <= w -> Z.land (Z.shiftr z o) (Z.ones w) = (z / 2 ^ o) mod 2 ^ w.
Proof. intros. by rewrite Z.land_ones, Z.shiftr_div_pow2 by done. Qed.

(** The bits [o', o'+w) of the middle part of a sum of shifted parts. *)
Lemma middle_bits A B C k n o w :
  0 <= k -> 0 <= n -> 0 <= A < 2 ^ k -> 0 <= o -> 0 <= w -> o + w <= n ->
  ((A + 2 ^ k * (B + 2 ^ n * C)) / 2 ^ (k + o)) mod 2 ^ w = (B / 2 ^ o) mod 2 ^ w.
Proof.
  intros Hk Hn HA Ho Hw Hle.
  rewrite Z.pow_add_r, <- Z.div_div by lia.
  rewrite (Z.mul_comm (2 ^ k)), Z.div_add, (Z.div_small A), Z.add_0_l by lia.
  replace n with (o + (w + (n - o - w))) by lia.
  rewrite !Z.pow_add_r by lia.
  replace (B + 2 ^ o * (2 ^ w * 2 ^ (n - o - w)) * C)
    with (B + (2 ^ (n - o - w) * C * 2 ^ w) * 2 ^ o) by lia.
  rewrite Z.div_add, Z.mod_add by lia. reflexivity.
Qed.

Lemma le_extract_slice bs k n o w :
  bytes_ok bs -> (k + n <= length bs)%nat ->
  0 <= o -> 0 <= w -> o + w <= 8 * Z.of_nat n ->
  (le_combine bs / 2 ^ (8 * Z.of_nat k + o)) mod 2 ^ w =
  (le_combine (slice k n bs) / 2 ^ o) mod 2 ^ w.
Proof.
  intros Hok Hlen Ho Hw Hle.
  assert (Hsplit : bs = take k bs ++ slice k n bs ++ drop (k + n) bs).
  { unfold slice. replace (drop (k + n) bs) with (drop n (drop k bs)).
    - by rewrite take_drop, take_drop.
    - by rewrite drop_drop. }
  rewrite Hsplit at 1. rewrite !le_combine_app.
  rewrite length_slice, length_take, Nat.min_l by lia.
  rewrite (Nat.min_l n) by lia.
  assert (0 <= le_combine (take k bs) < 2 ^ (8 * Z.of_nat k)).
  { pose proof (le_combine_bound (take k bs) ltac:(by apply Forall_take)) as Hb.
    by rewrite length_take, Nat.min_l in Hb by lia. }
  apply middle_bits; lia.
Qed.

Lemma reverse_slice {A} k n (l : list A) :
  (k + n <= length l)%nat ->
  reverse (slice k n l) = slice (length l - k - n) n (reverse l).
Proof.
  intros. unfold slice. apply list_eq. intros i.
  destruct (decide (i < n)%nat).
  - rewrite reverse_lookup by (rewrite length_take, length_drop; lia).
    rewrite length_take, length_drop, Nat.min_l by lia.
    rewrite !lookup_take_lt, !lookup_drop by lia.
    rewrite reverse_lookup by lia. f_equal. lia.
  - rewrite !lookup_ge_None_2; [done| |];
      rewrite ?length_reverse, length_take, length_drop, ?length_reverse; lia.
Qed.

(** A read of a member depends only on the bytes that hold it. *)
Lemma extract_slice en bs k n o w :
  bytes_ok bs -> (k + n <= length bs)%nat ->
  0 <= o -> 0 <= w -> o + w <= 8 * Z.of_nat n ->
  extract en bs (8 * Z.of_nat k + o) w = extract en (slice k n bs) o w.
Proof.
  intros Hok Hlen Ho Hw Hle. destruct en; unfold extract.
  - rewrite !land_ones_shiftr by lia. by apply le_extract_slice.
  - rewrite length_slice, Nat.min_l by lia. rewrite !land_ones_shiftr by lia.
    unfold be_combine. rewrite reverse_slice by lia.
    rewrite <- (le_extract_slice (reverse bs) (length bs - k - n) n
                 (8 * Z.of_nat n - o - w) w);
      auto with egress; rewrite ?length_reverse; try lia.
    f_equal. f_equal. f_equal. lia.
Qed.

Lemma extract_bound en bs o w : 0 <= w -> 0 <= extract en bs o w < 2 ^ w.
Proof.
  intros. destruct en; unfold extract; rewrite Z.land_ones by done;
    apply Z.mod_pos_bound; lia.
Qed.

Lemma extract_all en bs :
  bytes_ok bs -> extract en bs 0 (8 * Z.of_nat (length bs)) = load_uint en bs.
Proof.
  intros Hok. destruct en; unfold extract, load_uint.
  - rewrite land_ones_shiftr by lia. rewrite Z.div_1_r, Z.mod_small; [done|].
    by apply le_combine_bound.
  - replace (8 * Z.of_nat (length bs) - 0 - 8 * Z.of_nat (length bs)) with 0 by lia.
    rewrite land_ones_shiftr by lia. rewrite Z.div_1_r, Z.mod_small; [done|].
    by apply be_combine_bound.
Qed.

(** A byte-aligned member is the load of its bytes. *)
Lemma extract_load en bs k n :
  bytes_ok bs -> (k + n <= length bs)%nat ->
  extract en bs (8 * Z.of_nat k) (8 * Z.of_nat n) = load_uint en (slice k n bs).
Proof.
  intros Hok Hlen.
  replace (8 * Z.of_nat k) with (8 * Z.of_nat k + 0) by lia.
  rewrite (extract_slice en bs k n) by lia || done.
  rewrite <- (extract_all en (slice k n bs)) by auto with egress.
  by rewrite length_slice, Nat.min_l by lia.
Qed.

Lemma load_uint_single en b : load_uint en [b] = b.
Proof. destruct en; simpl; unfold be_combine; simpl; lia. Qed.

Lemma slice_single {A} k (l : list A) x : l !! k = Some x -> slice k 1 l = [x].
Proof.
  intros. unfold slice. by rewrite (drop_S l x k) by done.
Qed.

(** A one-byte member. *)
Lemma extract_byte en bs k b :
  bytes_ok bs -> bs !! k = Some b -> extract en bs (8 * Z.of_nat k) 8 = b.
Proof.
  intros Hok Hb. change 8 with (8 * Z.of_nat 1) at 2.
  rewrite extract_load; [|done|apply lookup_lt_Some in Hb; lia].
  by rewrite (slice_single _ _ _ Hb), load_uint_single.
Qed.

(** A bit-field inside one byte: low bits first on little-endian, high bits first on
    big-endian. *)
Lemma extract_bits_in_byte en bs k b o w :
  bytes_ok bs -> bs !! k = Some b -> 0 <= o -> 0 <= w -> o + w <= 8 ->
  extract en bs (8 * Z.of_nat k + o) w =
  match en with
  | LittleEndian => (b / 2 ^ o) mod 2 ^ w
  | BigEndian => (b / 2 ^ (8 - o - w)) mod 2 ^ w
  end.
Proof.
  intros Hok Hb Ho Hw Hle.
  rewrite (extract_slice en bs k 1); [|done|apply lookup_lt_Some in Hb; lia|lia..].
  rewrite (slice_single _ _ _ Hb). destruct en; unfold extract.
  - rewrite land_ones_shiftr by lia. f_equal. f_equal. simpl. lia.
  - simpl length. rewrite land_ones_shiftr by lia. f_equal. f_equal.
    unfold be_combine. simpl. lia.
Qed.

Lemma load_store_uint en n z : load_uint en (store_uint en n z) = wrap (8 * Z.of_nat n) z.
Proof. destruct en; [apply le_combine_split|apply be_combine_split]. Qed.

Lemma length_store_uint en n z : length (store_uint en n z) = n.
Proof. destruct en; [apply length_le_split|apply length_be_split]. Qed.

Lemma bytes_ok_store_uint en n z : bytes_ok (store_uint en n z).
Proof. destruct en; simpl; unfold be_split; auto with egress. Qed.
#[export] Hint Resolve bytes_ok_store_uint : egress.

(** * Enumerations *)
Lemma assoc_elem {A B} `{EqDecision A} (l : list (A * B)) a b :
  assoc l a = Some b -> (a, b) ∈ l.
Proof.
  induction l as [|[a' b'] l IH]; simpl; [done|]. case_decide; intros; simplify_eq.
  - left.
  - right. auto.
Qed.

Lemma assoc_of_elem {A B} `{EqDecision A} (l : list (A * B)) a b :
  NoDup (map fst l) -> (a, b) ∈ l -> assoc l a = Some b.
Proof.
  induction l as [|[a' b'] l IH]; simpl; intros Hnd Hin; [by apply elem_of_nil in Hin|].
  apply NoDup_cons in Hnd as [Hn Hnd]. apply elem_of_cons in Hin as [Heq|Hin].
  - simplify_eq. by rewrite decide_True.
  - rewrite decide_False; [auto|]. intros ->. apply Hn.
    apply list_elem_of_In. apply (in_map fst _ (a', b)). by apply list_elem_of_In.
Qed.

Lemma assoc_total {A B} `{EqDecision A} (l : list (A * B)) a :
  a ∈ map fst l -> is_Some (assoc l a).
Proof.
  induction l as [|[a' b'] l IH]; simpl; intros Hin; [by apply elem_of_nil in Hin|].
  case_decide; [by eexists|]. apply IH. by apply elem_of_cons in Hin as [?|?].
Qed.

(** The value of an enumerator determines it. *)
Lemma enum_of_val_val {A} `{CEnumOk A} (a : A) : enum_of_val (enum_val a) = Some a.
Proof.
  destruct (assoc_total _ _ (enum_complete a)) as [z Hz].
  unfold enum_of_val, enum_val. rewrite Hz. simpl.
  apply assoc_of_elem.
  - unfold swap_pairs. rewrite map_map. apply enum_distinct.
  - apply assoc_elem in Hz. apply list_elem_of_In in Hz. apply list_elem_of_In.
    apply (in_map (λ p : A * Z, (snd p, fst p)) _ (a, z) Hz).
Qed.

Lemma enum_val_inj {A} `{CEnumOk A} (a b : A) : enum_val a = enum_val b -> a = b.
Proof.
  intros Hv. pose proof (enum_of_val_val a) as Ha. rewrite Hv, enum_of_val_val in Ha.
  by simplify_eq.
Qed.

(** Proves [CEnumOk] for a concrete enumeration. *)
Ltac solve_enum_ok :=
  constructor;
  [ intros a; apply (bool_decide_unpack _); destruct a; vm_compute; exact I
  | apply (bool_decide_unpack _); vm_compute; exact I ].

Lemma resolve_member_ok path t o b t' :
  wf_ctype t = true -> resolve t path = Some (o, b, t') ->
  wf_ctype t' = true /\ bits_okb b t' = true.
Proof.
  revert t o b t'. induction path as [|[f|i] path IH]; intros t o b t' Hwf Hr; simpl in Hr.
  - by simplify_eq.
  - destruct (find_member f t) as [ [ [o1 b1] t1]|] eqn:Hf; [|done].
    destruct (find_member_in_bounds _ _ _ _ _ Hwf Hf) as (? & ? & Hw1 & ?).
    destruct b1 as [w|]; [by destruct path; simplify_eq|].
    destruct (resolve t1 path) as [ [ [o2 b2] t2]|] eqn:Hr2; simplify_eq. eauto.
  - destruct t; try done. cbn [wf_ctype] in Hwf. simplify_bool.
    case_if; [|done].
    destruct (resolve t path) as [ [ [o2 b2] t2]|] eqn:Hr2; simplify_eq. eauto.
Qed.

(** The bytes that hold the bits [o, o+w): the first one and how many there are. *)
Definition cover (o w : Z) : nat * nat :=
  (Z.to_nat (o / 8), Z.to_nat ((o + w + 7) / 8 - o / 8)).

Lemma extract_cover en bs o w :
  bytes_ok bs -> 0 <= o -> 0 <= w -> o + w <= 8 * Z.of_nat (length bs) ->
  extract en bs o w = extract en (slice (fst (cover o w)) (snd (cover o w)) bs) (o mod 8) w.
Proof.
  intros Hok Ho Hw Hle. simpl.
  pose proof (Z.div_mod o 8 ltac:(lia)). pose proof (Z.mod_pos_bound o 8 ltac:(lia)).
  pose proof (Z.div_mod (o + w + 7) 8 ltac:(lia)).
  pose proof (Z.mod_pos_bound (o + w + 7) 8 ltac:(lia)).
  assert (0 <= o / 8) by (apply Z.div_pos; lia).
  assert (o / 8 <= (o + w + 7) / 8) by (apply Z.div_le_mono; lia).
  rewrite <- extract_slice; [f_equal; lia|done|lia..].
Qed.

Lemma member_width_nonneg b t : wf_ctype t = true -> bits_okb b t = true -> 0 <= member_width b t.
Proof.
  intros Hwf Hb. destruct (wf_layout_ok _ Hwf) as (_ & ? & _).
  destruct b as [w|]; simpl; [|lia]. destruct t; simpl in Hb; try done. simplify_bool. lia.
Qed.

(** Direct members of a struct: in order, disjoint, aligned, bit-fields in one storage unit. *)
Lemma struct_members_sound p al ms i j n1 b1 t1 n2 b2 t2 o1 o2 :
  wf_ctype (CStruct p al ms) = true -> (i < j)%nat ->
  ms !! i = Some (n1, b1, t1) -> ms !! j = Some (n2, b2, t2) ->
  member_offsets (CStruct p al ms) !! i = Some o1 ->
  member_offsets (CStruct p al ms) !! j = Some o2 ->
  0 <= o1 /\ o1 + member_width b1 t1 <= o2 /\
  o2 + member_width b2 t2 <= 8 * sizeof (CStruct p al ms) /\
  (p = false -> b2 = None -> o2 mod (8 * alignof t2) = 0) /\
  (p = false -> forall w, b2 = Some w ->
     o2 / (8 * sizeof t2) = (o2 + w - 1) / (8 * sizeof t2)).
Proof.
  intros Hwf Hij H1 H2 Ho1 Ho2.
  destruct (member_in_bounds _ _ _ _ _ _ Hwf Ho1 H1) as [? _].
  destruct (member_in_bounds _ _ _ _ _ _ Hwf Ho2 H2) as [_ ?].
  apply wf_struct in Hwf as [_ Hwf%wf_minfos_ok].
  assert (Hm1 : map minfo_of ms !! i = Some (minfo_of (n1, b1, t1))) by by rewrite lookup_map, H1.
  assert (Hm2 : map minfo_of ms !! j = Some (minfo_of (n2, b2, t2))) by by rewrite lookup_map, H2.
  pose proof (struct_offsets_disjoint _ _ _ _ _ _ _ _ Hwf Hij Ho1 Hm1 Ho2) as Hd.
  destruct (struct_offsets_place _ _ _ _ _ _ Hwf (Z.le_refl 0) Ho2 Hm2) as (o' & Ho' & ->).
  rewrite Forall_lookup in Hwf. pose proof (Hwf _ _ Hm2) as Hok2.
  split_and!; [done..| |].
  - intros -> ->. by apply (place_aligned (minfo_of (n2, None, t2))).
  - intros -> w ->. by apply (place_bits_unit (minfo_of (n2, Some w, t2))).
Qed.
