(* ===== verification/Vmlinux.v ===== *)
(** Kernel types: src/ebpf/c/include/vmlinux.h.

    The declarations of the header, in its order and under its names: typedefs and struct and
    union types as [ctype] terms, enumerations as inductive types with the declared values.
    [thread_info], [pt_regs] and the types that hold them depend on the target architecture, as
    in the header.  [vmlinux_types] lists every composite type; the theorems show that all of
    them have a sound layout on the target and that the constants agree with each other. *)
From S2P Require Import Prelude CAbi.
From stdpp Require Import base numbers list strings.
Local Open Scope string_scope.
Local Open Scope Z_scope.

(** The C integer types of the LP64 target. *)
Definition c_bool : ctype := CInt false 1.
Definition c_char : ctype := CInt true 1.
Definition c_schar : ctype := CInt true 1.
Definition c_uchar : ctype := CInt false 1.
Definition c_short : ctype := CInt true 2.
Definition c_ushort : ctype := CInt false 2.
Definition c_int : ctype := CInt true 4.
Definition c_uint : ctype := CInt false 4.
Definition c_long : ctype := CInt true 8.
Definition c_ulong : ctype := CInt false 8.
Definition c_llong : ctype := CInt true 8.
Definition c_ullong : ctype := CInt false 8.

(** The architectures with their own section in the header ([__TARGET_ARCH_x86] and
    [__TARGET_ARCH_arm64]). *)
Inductive target_arch := TARGET_ARCH_x86 | TARGET_ARCH_arm64.

Module vmlinux.
Definition __s8 : ctype := c_schar.
Definition s8 : ctype := __s8.
Definition int8_t : ctype := s8.
Definition __s16 : ctype := c_short.
Definition s16 : ctype := __s16.
Definition int16_t : ctype := s16.
Definition __s32 : ctype := c_int.
Definition s32 : ctype := __s32.
Definition int32_t : ctype := s32.
Definition __s64 : ctype := c_llong.
Definition s64 : ctype := __s64.
Definition int64_t : ctype := s64.
Definition __u8 : ctype := c_uchar.
Definition u8 : ctype := __u8.
Definition uint8_t : ctype := u8.
Definition u_int8_t : ctype := u8.
Definition __u16 : ctype := c_ushort.
Definition u16 : ctype := __u16.
Definition __le16 : ctype := __u16.
Definition __be16 : ctype := __u16.
Definition uint16_t : ctype := u16.
Definition u_int16_t : ctype := u16.
Definition __u32 : ctype := c_uint.
Definition uint : ctype := c_uint.
Definition u32 : ctype := __u32.
Definition int32 : ctype := __u32.
Definition __be32 : ctype := __u32.
Definition uint32_t : ctype := u32.
Definition u_int32_t : ctype := u32.
Definition __u64 : ctype := c_ullong.
Definition u64 : ctype := __u64.
Definition __le64 : ctype := __u64.
Definition __be64 : ctype := __u64.
Definition uint64_t : ctype := u64.
Definition u_int64_t : ctype := u64.
Definition __kernel_long_t : ctype := c_long.
Definition __kernel_mode_t : ctype := c_uint.
Definition mode_t : ctype := __kernel_mode_t.
Definition __kernel_off_t : ctype := __kernel_long_t.
Definition off_t : ctype := __kernel_off_t.
Definition __kernel_ulong_t : ctype := c_ulong.
(** The anonymous enum of c_false, c_true. *)
Inductive c_bool_values :=
| c_false
| c_true.
#[global] Instance c_bool_values_eq_dec : EqDecision c_bool_values.
Proof. solve_decision. Defined.
Definition c_bool_values_decl : list (c_bool_values * option Z) :=
  [(c_false, Some 0);
   (c_true, Some 1)].
#[global] Instance c_bool_values_enum : CEnum c_bool_values := { enum_decl := c_bool_values_decl }.

Definition thread_info_x86 : ctype := cstruct [fld "status" u32].
Definition pt_regs_x86 : ctype := cstruct [
    fld "r15" c_ulong;
    fld "r14" c_ulong;
    fld "r13" c_ulong;
    fld "r12" c_ulong;
    fld "bp" c_ulong;
    fld "bx" c_ulong;
    fld "r11" c_ulong;
    fld "r10" c_ulong;
    fld "r9" c_ulong;
    fld "r8" c_ulong;
    fld "ax" c_ulong;
    fld "cx" c_ulong;
    fld "dx" c_ulong;
    fld "si" c_ulong;
    fld "di" c_ulong;
    fld "orig_ax" c_ulong;
    fld "ip" c_ulong;
    fld "cs" c_ulong;
    fld "flags" c_ulong;
    fld "sp" c_ulong;
    fld "ss" c_ulong
  ].
Definition thread_info_arm64 : ctype := cstruct [fld "flags" c_ulong].
Definition user_pt_regs : ctype := cstruct [
    fld "regs" (CArr __u64 31);
    fld "sp" __u64;
    fld "pc" __u64;
    fld "pstate" __u64
  ].
Definition pt_regs_arm64 : ctype := cstruct [
    anon (cunion [
      fld "user_regs" user_pt_regs;
      anon (cstruct [
        fld "regs" (CArr u64 31);
        fld "sp" u64;
        fld "pc" u64;
        fld "pstate" u64
      ])
    ]);
    fld "orig_x0" u64;
    fld "syscallno" s32;
    fld "unused2" u32;
    fld "orig_addr_limit" u64;
    fld "pmr_save" u64;
    fld "stackframe" (CArr u64 2);
    fld "lockdep_hardirqs" u64;
    fld "exit_rcu" u64
  ].
Definition thread_info (a : target_arch) : ctype :=
  match a with TARGET_ARCH_x86 => thread_info_x86 | TARGET_ARCH_arm64 => thread_info_arm64 end.
Definition pt_regs (a : target_arch) : ctype :=
  match a with TARGET_ARCH_x86 => pt_regs_x86 | TARGET_ARCH_arm64 => pt_regs_arm64 end.

(** The anonymous enum of BPF_ANY, BPF_NOEXIST. *)
Inductive bpf_map_update_flags :=
| BPF_ANY
| BPF_NOEXIST
| BPF_EXIST
| BPF_F_LOCK.
#[global] Instance bpf_map_update_flags_eq_dec : EqDecision bpf_map_update_flags.
Proof. solve_decision. Defined.
Definition bpf_map_update_flags_decl : list (bpf_map_update_flags * option Z) :=
  [(BPF_ANY, Some 0);
   (BPF_NOEXIST, Some 1);
   (BPF_EXIST, Some 2);
   (BPF_F_LOCK, Some 4)].
#[global] Instance bpf_map_update_flags_enum : CEnum bpf_map_update_flags := { enum_decl := bpf_map_update_flags_decl }.

(** The anonymous enum of BPF_F_USER_STACK. *)
Inductive bpf_stack_flags :=
| BPF_F_USER_STACK.
#[global] Instance bpf_stack_flags_eq_dec : EqDecision bpf_stack_flags.
Proof. solve_decision. Defined.
Definition bpf_stack_flags_decl : list (bpf_stack_flags * option Z) :=
  [(BPF_F_USER_STACK, Some 256)].
#[global] Instance bpf_stack_flags_enum : CEnum bpf_stack_flags := { enum_decl := bpf_stack_flags_decl }.

(** The anonymous enum of BPF_F_CURRENT_CPU. *)
Inductive bpf_perf_output_flags :=
| BPF_F_CURRENT_CPU.
#[global] Instance bpf_perf_output_flags_eq_dec : EqDecision bpf_perf_output_flags.
Proof. solve_decision. Defined.
Definition bpf_perf_output_flags_decl : list (bpf_perf_output_flags * option Z) :=
  [(BPF_F_CURRENT_CPU, Some 4294967295)].
#[global] Instance bpf_perf_output_flags_enum : CEnum bpf_perf_output_flags := { enum_decl := bpf_perf_output_flags_decl }.

(** The anonymous enum of TCP_ESTABLISHED, TCP_SYN_SENT. *)
Inductive tcp_state :=
| TCP_ESTABLISHED
| TCP_SYN_SENT
| TCP_SYN_RECV
| TCP_FIN_WAIT1
| TCP_FIN_WAIT2
| TCP_TIME_WAIT
| TCP_CLOSE
| TCP_CLOSE_WAIT
| TCP_LAST_ACK
| TCP_LISTEN
| TCP_CLOSING
| TCP_NEW_SYN_RECV
| TCP_MAX_STATES.
#[global] Instance tcp_state_eq_dec : EqDecision tcp_state.
Proof. solve_decision. Defined.
Definition tcp_state_decl : list (tcp_state * option Z) :=
  [(TCP_ESTABLISHED, Some 1);
   (TCP_SYN_SENT, Some 2);
   (TCP_SYN_RECV, Some 3);
   (TCP_FIN_WAIT1, Some 4);
   (TCP_FIN_WAIT2, Some 5);
   (TCP_TIME_WAIT, Some 6);
   (TCP_CLOSE, Some 7);
   (TCP_CLOSE_WAIT, Some 8);
   (TCP_LAST_ACK, Some 9);
   (TCP_LISTEN, Some 10);
   (TCP_CLOSING, Some 11);
   (TCP_NEW_SYN_RECV, Some 12);
   (TCP_MAX_STATES, Some 13)].
#[global] Instance tcp_state_enum : CEnum tcp_state := { enum_decl := tcp_state_decl }.

(** [enum sock_type]. *)
Inductive sock_type :=
| SOCK_STREAM
| SOCK_DGRAM
| SOCK_RAW
| SOCK_RDM
| SOCK_SEQPACKET
| SOCK_DCCP
| SOCK_PACKET.
#[global] Instance sock_type_eq_dec : EqDecision sock_type.
Proof. solve_decision. Defined.
Definition sock_type_decl : list (sock_type * option Z) :=
  [(SOCK_STREAM, Some 1);
   (SOCK_DGRAM, Some 2);
   (SOCK_RAW, Some 3);
   (SOCK_RDM, Some 4);
   (SOCK_SEQPACKET, Some 5);
   (SOCK_DCCP, Some 6);
   (SOCK_PACKET, Some 10)].
#[global] Instance sock_type_enum : CEnum sock_type := { enum_decl := sock_type_decl }.

(** The anonymous enum of IPPROTO_IP, IPPROTO_ICMP. *)
Inductive ipproto :=
| IPPROTO_IP
| IPPROTO_ICMP
| IPPROTO_IGMP
| IPPROTO_IPIP
| IPPROTO_TCP
| IPPROTO_EGP
| IPPROTO_PUP
| IPPROTO_UDP
| IPPROTO_IDP
| IPPROTO_TP
| IPPROTO_DCCP
| IPPROTO_IPV6
| IPPROTO_RSVP
| IPPROTO_GRE
| IPPROTO_ESP
| IPPROTO_AH
| IPPROTO_MTP
| IPPROTO_BEETPH
| IPPROTO_ENCAP
| IPPROTO_PIM
| IPPROTO_COMP
| IPPROTO_SCTP
| IPPROTO_UDPLITE
| IPPROTO_MPLS
| IPPROTO_ETHERNET
| IPPROTO_RAW
| IPPROTO_MPTCP
| IPPROTO_MAX.
#[global] Instance ipproto_eq_dec : EqDecision ipproto.
Proof. solve_decision. Defined.
Definition ipproto_decl : list (ipproto * option Z) :=
  [(IPPROTO_IP, Some 0);
   (IPPROTO_ICMP, Some 1);
   (IPPROTO_IGMP, Some 2);
   (IPPROTO_IPIP, Some 4);
   (IPPROTO_TCP, Some 6);
   (IPPROTO_EGP, Some 8);
   (IPPROTO_PUP, Some 12);
   (IPPROTO_UDP, Some 17);
   (IPPROTO_IDP, Some 22);
   (IPPROTO_TP, Some 29);
   (IPPROTO_DCCP, Some 33);
   (IPPROTO_IPV6, Some 41);
   (IPPROTO_RSVP, Some 46);
   (IPPROTO_GRE, Some 47);
   (IPPROTO_ESP, Some 50);
   (IPPROTO_AH, Some 51);
   (IPPROTO_MTP, Some 92);
   (IPPROTO_BEETPH, Some 94);
   (IPPROTO_ENCAP, Some 98);
   (IPPROTO_PIM, Some 103);
   (IPPROTO_COMP, Some 108);
   (IPPROTO_SCTP, Some 132);
   (IPPROTO_UDPLITE, Some 136);
   (IPPROTO_MPLS, Some 137);
   (IPPROTO_ETHERNET, Some 143);
   (IPPROTO_RAW, Some 255);
   (IPPROTO_MPTCP, Some 262);
   (IPPROTO_MAX, Some 263)].
#[global] Instance ipproto_enum : CEnum ipproto := { enum_decl := ipproto_decl }.

(** The anonymous enum of TCPF_ESTABLISHED, TCPF_SYN_SENT. *)
Inductive tcpf_state :=
| TCPF_ESTABLISHED
| TCPF_SYN_SENT
| TCPF_FIN_WAIT1
| TCPF_FIN_WAIT2
| TCPF_TIME_WAIT
| TCPF_CLOSE
| TCPF_CLOSE_WAIT
| TCPF_LAST_ACK
| TCPF_LISTEN
| TCPF_CLOSING
| TCPF_NEW_SYN_RECV.
#[global] Instance tcpf_state_eq_dec : EqDecision tcpf_state.
Proof. solve_decision. Defined.
Definition tcpf_state_decl : list (tcpf_state * option Z) :=
  [(TCPF_ESTABLISHED, Some 2);
   (TCPF_SYN_SENT, Some 4);
   (TCPF_FIN_WAIT1, Some 16);
   (TCPF_FIN_WAIT2, Some 32);
   (TCPF_TIME_WAIT, Some 64);
   (TCPF_CLOSE, Some 128);
   (TCPF_CLOSE_WAIT, Some 256);
   (TCPF_LAST_ACK, Some 512);
   (TCPF_LISTEN, Some 1024);
   (TCPF_CLOSING, Some 2048);
   (TCPF_NEW_SYN_RECV, Some 4096)].
#[global] Instance tcpf_state_enum : CEnum tcpf_state := { enum_decl := tcpf_state_decl }.

Definition bpf_raw_tracepoint_args : ctype := cstruct [
    fld "args" (CArr __u64 0)
  ].
Definition list_head : ctype := cstruct [
    fld "next" (CPtr "struct list_head");
    fld "prev" (CPtr "struct list_head")
  ].
Definition __kernel_pid_t : ctype := c_int.
Definition pid_t : ctype := __kernel_pid_t.
Definition hlist_node : ctype := cstruct [
    fld "next" (CPtr "struct hlist_node");
    fld "pprev" (CPtr "struct hlist_node *")
  ].
Definition __kernel_size_t : ctype := __kernel_ulong_t.
Definition size_t : ctype := __kernel_size_t.
Definition __kernel_uid32_t : ctype := c_uint.
Definition uid_t : ctype := __kernel_uid32_t.
Definition kuid_t : ctype := cstruct [
    fld "val" uid_t
  ].
Definition task_struct (a : target_arch) : ctype := cstruct [
    fld "thread_info" ((thread_info a));
    fld "flags" c_uint;
    fld "mm" (CPtr "struct mm_struct");
    fld "exit_code" c_int;
    fld "pid" pid_t;
    fld "tgid" pid_t;
    fld "real_parent" (CPtr "struct task_struct");
    fld "group_leader" (CPtr "struct task_struct");
    fld "thread_pid" (CPtr "struct pid");
    fld "thread_group" list_head;
    fld "start_time" u64;
    fld "real_cred" (CPtr "struct cred");
    fld "comm" (CArr c_char 16);
    fld "files" (CPtr "struct files_struct");
    fld "nsproxy" (CPtr "struct nsproxy");
    fld "cgroups" (CPtr "struct css_set");
    fld "signal" (CPtr "struct signal_struct");
    fld "stack" (CPtr "void");
    fld "sighand" (CPtr "struct sighand_struct")
  ].
Definition atomic_t : ctype := cstruct [
    fld "counter" c_int
  ].
Definition signal_struct : ctype := cstruct [
    fld "live" atomic_t
  ].
Definition vm_area_struct : ctype := cstruct [
    fld "vm_flags" c_ulong;
    fld "vm_file" (CPtr "struct file")
  ].
Definition __kernel_gid32_t : ctype := c_uint.
Definition gid_t : ctype := __kernel_gid32_t.
Definition kgid_t : ctype := cstruct [
    fld "val" gid_t
  ].
Definition kernel_cap_t : ctype := cstruct [
    fld "val" u64
  ].
Definition cred : ctype := cstruct [
    fld "uid" kuid_t;
    fld "gid" kgid_t;
    fld "suid" kuid_t;
    fld "sgid" kgid_t;
    fld "euid" kuid_t;
    fld "egid" kgid_t;
    fld "fsuid" kuid_t;
    fld "fsgid" kgid_t;
    fld "securebits" c_uint;
    fld "cap_inheritable" kernel_cap_t;
    fld "cap_permitted" kernel_cap_t;
    fld "cap_effective" kernel_cap_t;
    fld "cap_bset" kernel_cap_t;
    fld "cap_ambient" kernel_cap_t;
    fld "user_ns" (CPtr "struct user_namespace")
  ].
Definition nsproxy : ctype := cstruct [
    fld "uts_ns" (CPtr "struct uts_namespace");
    fld "ipc_ns" (CPtr "struct ipc_namespace");
    fld "mnt_ns" (CPtr "struct mnt_namespace");
    fld "pid_ns_for_children" (CPtr "struct pid_namespace");
    fld "net_ns" (CPtr "struct net");
    fld "cgroup_ns" (CPtr "struct cgroup_namespace")
  ].
Definition ns_common : ctype := cstruct [
    fld "inum" c_uint
  ].
Definition pid_namespace : ctype := cstruct [
    fld "level" c_uint;
    fld "ns" ns_common
  ].
Definition upid : ctype := cstruct [
    fld "nr" c_int;
    fld "ns" (CPtr "struct pid_namespace")
  ].
Definition pid : ctype := cstruct [
    fld "level" c_uint;
    fld "numbers" (CArr upid 1)
  ].
Definition mnt_namespace : ctype := cstruct [
    fld "ns" ns_common
  ].
Definition new_utsname : ctype := cstruct [
    fld "nodename" (CArr c_char 65)
  ].
Definition uts_namespace : ctype := cstruct [
    fld "name" new_utsname;
    fld "ns" ns_common
  ].
Definition css_set : ctype := cstruct [
    fld "subsys" (CArr (CPtr "struct cgroup_subsys_state") 12)
  ].
Definition percpu_ref : ctype := cstruct [
    fld "percpu_count_ptr" c_ulong;
    fld "data" (CPtr "struct percpu_ref_data")
  ].
Definition cgroup_subsys_state : ctype := cstruct [
    fld "cgroup" (CPtr "struct cgroup")
  ].
Definition timer_list : ctype := cstruct [
    fld "entry" hlist_node;
    fld "expires" c_ulong;
    fld "function" (CPtr "function");
    fld "flags" u32
  ].
Definition cgroup_file : ctype := cstruct [
    fld "kn" (CPtr "struct kernfs_node");
    fld "notified_at" c_ulong;
    fld "notify_timer" timer_list
  ].
Definition cgroup : ctype := cstruct [
    fld "kn" (CPtr "struct kernfs_node");
    fld "root" (CPtr "struct cgroup_root")
  ].
Definition __kernel_loff_t : ctype := c_llong.
Definition loff_t : ctype := __kernel_loff_t.
Definition umode_t : ctype := c_ushort.
Definition kernfs_node : ctype := cstruct [
    fld "name" (CPtr "char");
    fld "id" u64
  ].
Definition cgroup_root : ctype := cstruct [
    fld "hierarchy_id" c_int
  ].
Definition fdtable : ctype := cstruct [
    fld "fd" (CPtr "struct file *")
  ].
Definition files_struct : ctype := cstruct [
    fld "fdt" (CPtr "struct fdtable")
  ].
Definition path : ctype := cstruct [
    fld "mnt" (CPtr "struct vfsmount");
    fld "dentry" (CPtr "struct dentry")
  ].
Definition fmode_t : ctype := c_uint.
Definition dir_context : ctype := cstruct [].
Definition file_operations : ctype := cstruct [
    fld "iterate_shared" (CPtr "function");
    fld "iterate" (CPtr "function")
  ].
Definition file : ctype := cstruct [
    anon (cunion [
      fld "f_iocb_flags" c_uint
    ]);
    fld "f_path" path;
    fld "f_inode" (CPtr "struct inode");
    fld "f_op" (CPtr "struct file_operations");
    fld "f_flags" c_uint;
    fld "private_data" (CPtr "void")
  ].
Definition pipe_inode_info : ctype := cstruct [
    fld "bufs" (CPtr "struct pipe_buffer");
    fld "head" c_int;
    fld "ring_size" c_int;
    fld "curbuf" c_uint
  ].
Definition pipe_inode_info___v54 : ctype := cstruct [
    fld "bufs" (CPtr "struct pipe_buffer");
    fld "nrbufs" c_uint;
    fld "curbuf" c_uint;
    fld "buffers" c_uint
  ].
Definition pipe_buffer : ctype := cstruct [
    fld "page" (CPtr "struct page");
    fld "offset" c_uint;
    fld "len" c_uint;
    fld "flags" c_uint
  ].
Definition public_key_signature : ctype := cstruct [
    fld "data" (CPtr "void")
  ].
(** [enum zone_type]. *)
Inductive zone_type :=
| ZONE_DMA.
#[global] Instance zone_type_eq_dec : EqDecision zone_type.
Proof. solve_decision. Defined.
Definition zone_type_decl : list (zone_type * option Z) :=
  [(ZONE_DMA, None)].
#[global] Instance zone_type_enum : CEnum zone_type := { enum_decl := zone_type_decl }.

Definition alloc_context : ctype := cstruct [
    fld "high_zoneidx" c_uint
  ].
Definition socket : ctype := cstruct [
    fld "sk" (CPtr "struct sock");
    fld "file" (CPtr "struct file")
  ].
Definition possible_net_t : ctype := cstruct [
    fld "net" (CPtr "struct net")
  ].
Definition in6_addr : ctype := cstruct [
    fld "in6_u" (cunion [
      fld "u6_addr8" (CArr __u8 16);
      fld "u6_addr16" (CArr __be16 8);
      fld "u6_addr32" (CArr __be32 4)
    ])
  ].
Definition sock_common : ctype := cstruct [
    anon (cunion [
      anon (cstruct [
        fld "skc_daddr" __be32;
        fld "skc_rcv_saddr" __be32
      ])
    ]);
    anon (cunion [
      anon (cstruct [
        fld "skc_dport" __be16;
        fld "skc_num" __u16
      ])
    ]);
    fld "skc_family" c_ushort;
    fld "skc_state" c_uchar;
    fld "skc_bound_dev_if" c_int;
    fld "skc_v6_daddr" in6_addr;
    fld "skc_v6_rcv_saddr" in6_addr
  ].
Definition kobject : ctype := cstruct [
    fld "name" (CPtr "char");
    fld "entry" list_head
  ].
Definition device : ctype := cstruct [
    fld "parent" (CPtr "struct device");
    fld "kobj" kobject
  ].
Definition sock : ctype := cstruct [
    fld "__sk_common" sock_common;
    fld "sk_type" u16;
    fld "sk_protocol" u16;
    fld "sk_socket" (CPtr "struct socket")
  ].
Definition __kernel_dev_t : ctype := u32.
Definition dev_t : ctype := __kernel_dev_t.
Definition inet_sock : ctype := cstruct [
    fld "sk" sock;
    fld "pinet6" (CPtr "struct ipv6_pinfo");
    fld "inet_saddr" __be32;
    fld "inet_sport" __be16
  ].
Definition __kernel_sa_family_t : ctype := c_ushort.
Definition in_addr : ctype := cstruct [
    fld "s_addr" __be32
  ].
Definition sockaddr_in : ctype := cstruct [
    fld "sin_family" __kernel_sa_family_t;
    fld "sin_port" __be16;
    fld "sin_addr" in_addr;
    fld "__pad" (CArr c_uchar 8)
  ].
Definition unix_sock : ctype := cstruct [
    fld "addr" (CPtr "struct unix_address")
  ].
Definition sockaddr_un : ctype := cstruct [
    fld "sun_family" __kernel_sa_family_t;
    fld "sun_path" (CArr c_char 108)
  ].
Definition unix_address : ctype := cstruct [
    fld "len" c_int;
    fld "name" (CArr sockaddr_un 0)
  ].
Definition ipv6_pinfo : ctype := cstruct [
    fld "saddr" in6_addr;
    fld "flow_label" __be32
  ].
Definition sockaddr_in6 : ctype := cstruct [
    fld "sin6_family" c_ushort;
    fld "sin6_port" __be16;
    fld "sin6_flowinfo" __be32;
    fld "sin6_addr" in6_addr;
    fld "sin6_scope_id" __u32
  ].
Definition msghdr : ctype := cstruct [
    fld "msg_name" (CPtr "void")
  ].
Definition ktime_t : ctype := s64.
Definition sk_buff : ctype := cstruct [
    fld "transport_header" __u16;
    fld "network_header" __u16;
    anon (cunion [
      fld "tstamp" ktime_t;
      fld "skb_mstamp_ns" u64
    ]);
    fld "head" (CPtr "unsigned char");
    fld "data" (CPtr "unsigned char");
    fld "len" u32;
    fld "mac_len" u16;
    fld "hdr_len" u16
  ].
Definition linux_binprm : ctype := cstruct [
    fld "file" (CPtr "struct file");
    fld "argc" c_int;
    fld "envc" c_int;
    fld "filename" (CPtr "char");
    fld "interp" (CPtr "char")
  ].
Definition time64_t : ctype := __s64.
Definition timespec64 : ctype := cstruct [
    fld "tv_sec" time64_t;
    fld "tv_nsec" c_long
  ].
Definition __kernel_time64_t : ctype := c_llong.
Definition __kernel_timespec : ctype := cstruct [
    fld "tv_sec" __kernel_time64_t;
    fld "tv_nsec" c_llong
  ].
Definition inode : ctype := cstruct [
    fld "i_mode" umode_t;
    fld "i_sb" (CPtr "struct super_block");
    fld "i_ino" c_ulong;
    fld "i_ctime" timespec64;
    fld "i_size" loff_t;
    fld "i_fop" (CPtr "struct file_operations")
  ].
Definition super_block : ctype := cstruct [
    fld "s_dev" dev_t;
    fld "s_magic" c_ulong
  ].
Definition mm_struct : ctype := cstruct [
    anon (cstruct [
      fld "arg_start" c_ulong;
      fld "arg_end" c_ulong;
      fld "env_start" c_ulong;
      fld "env_end" c_ulong
    ])
  ].
Definition vfsmount : ctype := cstruct [
    fld "mnt_root" (CPtr "struct dentry")
  ].
Definition mount : ctype := cstruct [
    fld "mnt_parent" (CPtr "struct mount");
    fld "mnt_mountpoint" (CPtr "struct dentry");
    fld "mnt" vfsmount
  ].
Definition qstr : ctype := cstruct [
    anon (cunion [
      anon (cstruct [
        fld "hash" u32;
        fld "len" u32
      ]);
      fld "hash_len" u64
    ]);
    fld "name" (CPtr "unsigned char")
  ].
Definition dentry : ctype := cstruct [
    fld "d_parent" (CPtr "struct dentry");
    fld "d_name" qstr;
    fld "d_inode" (CPtr "struct inode")
  ].
(** [enum bpf_func_id]. *)
Inductive bpf_func_id :=
| BPF_FUNC_probe_write_user
| BPF_FUNC_override_return
| BPF_FUNC_sk_storage_get
| BPF_FUNC_copy_from_user
| BPF_FUNC_for_each_map_elem.
#[global] Instance bpf_func_id_eq_dec : EqDecision bpf_func_id.
Proof. solve_decision. Defined.
Definition bpf_func_id_decl : list (bpf_func_id * option Z) :=
  [(BPF_FUNC_probe_write_user, Some 36);
   (BPF_FUNC_override_return, Some 58);
   (BPF_FUNC_sk_storage_get, Some 107);
   (BPF_FUNC_copy_from_user, Some 148);
   (BPF_FUNC_for_each_map_elem, Some 164)].
#[global] Instance bpf_func_id_enum : CEnum bpf_func_id := { enum_decl := bpf_func_id_decl }.

Definition MODULE_NAME_LEN : Z := 64 - sizeof c_ulong.
Definition module_kobject : ctype := cstruct [
    fld "kobj" kobject;
    fld "mod" (CPtr "struct module")
  ].
Definition kset : ctype := cstruct [
    fld "list" list_head
  ].
Definition module_layout : ctype := cstruct [
    fld "base" (CPtr "void")
  ].
Definition module : ctype := cstruct [
    fld "list" list_head;
    fld "name" (CArr c_char MODULE_NAME_LEN);
    fld "version" (CPtr "char");
    fld "srcversion" (CPtr "char");
    fld "mkobj" module_kobject;
    fld "core_layout" module_layout
  ].
Definition rb_node : ctype := cstruct_aligned 8 [
    fld "rb_right" (CPtr "struct rb_node");
    fld "rb_left" (CPtr "struct rb_node")
  ].
Definition latch_tree_node : ctype := cstruct [
    fld "node" (CArr rb_node 2)
  ].
Definition rb_root : ctype := cstruct [
    fld "rb_node" (CPtr "struct rb_node")
  ].
Definition seqcount : ctype := cstruct [
    fld "sequence" c_uint
  ].
Definition seqcount_t : ctype := seqcount.
Definition seqcount_latch_t : ctype := cstruct [
    fld "seqcount" seqcount_t;
    fld "sequence" c_uint
  ].
Definition latch_tree_root : ctype := cstruct [
    fld "seq" seqcount_latch_t;
    fld "tree" (CArr rb_root 2)
  ].
Definition mod_tree_node : ctype := cstruct [
    fld "mod" (CPtr "struct module");
    fld "node" latch_tree_node
  ].
Definition user_namespace : ctype := cstruct [
    fld "ns" ns_common
  ].
Definition ipc_namespace : ctype := cstruct [
    fld "ns" ns_common
  ].
Definition net : ctype := cstruct [
    fld "ns" ns_common
  ].
Definition __wsum : ctype := __u32.
Definition cgroup_namespace : ctype := cstruct [
    fld "ns" ns_common
  ].
Definition sa_family_t : ctype := __kernel_sa_family_t.
Definition sockaddr : ctype := cstruct [
    fld "sa_family" sa_family_t
  ].
Definition iovec : ctype := cstruct [
    fld "iov_base" (CPtr "void");
    fld "iov_len" __kernel_size_t
  ].
(** [enum bpf_map_type]. *)
Inductive bpf_map_type :=
| BPF_MAP_TYPE_UNSPEC
| BPF_MAP_TYPE_HASH
| BPF_MAP_TYPE_ARRAY
| BPF_MAP_TYPE_PROG_ARRAY
| BPF_MAP_TYPE_PERF_EVENT_ARRAY
| BPF_MAP_TYPE_PERCPU_HASH
| BPF_MAP_TYPE_PERCPU_ARRAY
| BPF_MAP_TYPE_STACK_TRACE
| BPF_MAP_TYPE_CGROUP_ARRAY
| BPF_MAP_TYPE_LRU_HASH
| BPF_MAP_TYPE_LRU_PERCPU_HASH
| BPF_MAP_TYPE_LPM_TRIE
| BPF_MAP_TYPE_ARRAY_OF_MAPS
| BPF_MAP_TYPE_HASH_OF_MAPS
| BPF_MAP_TYPE_DEVMAP
| BPF_MAP_TYPE_SOCKMAP
| BPF_MAP_TYPE_CPUMAP
| BPF_MAP_TYPE_XSKMAP
| BPF_MAP_TYPE_SOCKHASH
| BPF_MAP_TYPE_CGROUP_STORAGE
| BPF_MAP_TYPE_REUSEPORT_SOCKARRAY
| BPF_MAP_TYPE_PERCPU_CGROUP_STORAGE
| BPF_MAP_TYPE_QUEUE
| BPF_MAP_TYPE_STACK
| BPF_MAP_TYPE_SK_STORAGE
| BPF_MAP_TYPE_DEVMAP_HASH
| BPF_MAP_TYPE_STRUCT_OPS
| BPF_MAP_TYPE_RINGBUF
| BPF_MAP_TYPE_INODE_STORAGE
| BPF_MAP_TYPE_TASK_STORAGE.
#[global] Instance bpf_map_type_eq_dec : EqDecision bpf_map_type.
Proof. solve_decision. Defined.
Definition bpf_map_type_decl : list (bpf_map_type * option Z) :=
  [(BPF_MAP_TYPE_UNSPEC, Some 0);
   (BPF_MAP_TYPE_HASH, Some 1);
   (BPF_MAP_TYPE_ARRAY, Some 2);
   (BPF_MAP_TYPE_PROG_ARRAY, Some 3);
   (BPF_MAP_TYPE_PERF_EVENT_ARRAY, Some 4);
   (BPF_MAP_TYPE_PERCPU_HASH, Some 5);
   (BPF_MAP_TYPE_PERCPU_ARRAY, Some 6);
   (BPF_MAP_TYPE_STACK_TRACE, Some 7);
   (BPF_MAP_TYPE_CGROUP_ARRAY, Some 8);
   (BPF_MAP_TYPE_LRU_HASH, Some 9);
   (BPF_MAP_TYPE_LRU_PERCPU_HASH, Some 10);
   (BPF_MAP_TYPE_LPM_TRIE, Some 11);
   (BPF_MAP_TYPE_ARRAY_OF_MAPS, Some 12);
   (BPF_MAP_TYPE_HASH_OF_MAPS, Some 13);
   (BPF_MAP_TYPE_DEVMAP, Some 14);
   (BPF_MAP_TYPE_SOCKMAP, Some 15);
   (BPF_MAP_TYPE_CPUMAP, Some 16);
   (BPF_MAP_TYPE_XSKMAP, Some 17);
   (BPF_MAP_TYPE_SOCKHASH, Some 18);
   (BPF_MAP_TYPE_CGROUP_STORAGE, Some 19);
   (BPF_MAP_TYPE_REUSEPORT_SOCKARRAY, Some 20);
   (BPF_MAP_TYPE_PERCPU_CGROUP_STORAGE, Some 21);
   (BPF_MAP_TYPE_QUEUE, Some 22);
   (BPF_MAP_TYPE_STACK, Some 23);
   (BPF_MAP_TYPE_SK_STORAGE, Some 24);
   (BPF_MAP_TYPE_DEVMAP_HASH, Some 25);
   (BPF_MAP_TYPE_STRUCT_OPS, Some 26);
   (BPF_MAP_TYPE_RINGBUF, Some 27);
   (BPF_MAP_TYPE_INODE_STORAGE, Some 28);
   (BPF_MAP_TYPE_TASK_STORAGE, Some 29)].
#[global] Instance bpf_map_type_enum : CEnum bpf_map_type := { enum_decl := bpf_map_type_decl }.

Definition bpf_map : ctype := cstruct [
    fld "id" u32;
    fld "name" (CArr c_char 16)
  ].
Definition __sk_buff : ctype := cstruct [
    fld "len" __u32;
    fld "pkt_type" __u32;
    fld "mark" __u32;
    fld "queue_mapping" __u32;
    fld "protocol" __u32;
    fld "vlan_present" __u32;
    fld "vlan_tci" __u32;
    fld "vlan_proto" __u32;
    fld "priority" __u32;
    fld "ingress_ifindex" __u32;
    fld "ifindex" __u32;
    fld "tc_index" __u32;
    fld "cb" (CArr __u32 5);
    fld "hash" __u32;
    fld "tc_classid" __u32;
    fld "data" __u32;
    fld "data_end" __u32;
    fld "napi_id" __u32;
    fld "family" __u32;
    fld "remote_ip4" __u32;
    fld "local_ip4" __u32;
    fld "remote_ip6" (CArr __u32 4);
    fld "local_ip6" (CArr __u32 4);
    fld "remote_port" __u32;
    fld "local_port" __u32;
    fld "data_meta" __u32;
    anon (cunion [
      fld "flow_keys" (CPtr "struct bpf_flow_keys")
    ]);
    fld "tstamp" __u64;
    fld "wire_len" __u32;
    fld "gso_segs" __u32;
    anon (cunion [
      fld "sk" (CPtr "struct bpf_sock")
    ]);
    fld "gso_size" __u32
  ].
Definition ethhdr : ctype := cstruct [
    fld "h_dest" (CArr c_uchar 6);
    fld "h_source" (CArr c_uchar 6);
    fld "h_proto" __be16
  ].
Definition __sum16 : ctype := __u16.
(** [enum kernel_read_file_id]. *)
Inductive kernel_read_file_id :=
| READING_UNKNOWN
| READING_FIRMWARE
| READING_MODULE
| READING_KEXEC_IMAGE
| READING_KEXEC_INITRAMFS
| READING_POLICY
| READING_X509_CERTIFICATE
| READING_MAX_ID.
#[global] Instance kernel_read_file_id_eq_dec : EqDecision kernel_read_file_id.
Proof. solve_decision. Defined.
Definition kernel_read_file_id_decl : list (kernel_read_file_id * option Z) :=
  [(READING_UNKNOWN, Some 0);
   (READING_FIRMWARE, Some 1);
   (READING_MODULE, Some 2);
   (READING_KEXEC_IMAGE, Some 3);
   (READING_KEXEC_INITRAMFS, Some 4);
   (READING_POLICY, Some 5);
   (READING_X509_CERTIFICATE, Some 6);
   (READING_MAX_ID, Some 7)].
#[global] Instance kernel_read_file_id_enum : CEnum kernel_read_file_id := { enum_decl := kernel_read_file_id_decl }.

Definition kretprobe_instance : ctype := cstruct [].
Definition kprobe_opcode_t : ctype := c_int.
Definition kprobe_pre_handler_t : ctype := CPtr "function".
Definition kprobe_post_handler_t : ctype := CPtr "function".
Definition kretprobe_handler_t : ctype := CPtr "function".
Definition kprobe : ctype := cstruct [
    fld "addr" (CPtr "kprobe_opcode_t");
    fld "symbol_name" (CPtr "char");
    fld "pre_handler" kprobe_pre_handler_t;
    fld "post_handler" kprobe_post_handler_t
  ].
Definition seq_file : ctype := cstruct [].
Definition seq_operations : ctype := cstruct [
    fld "start" (CPtr "function");
    fld "stop" (CPtr "function");
    fld "next" (CPtr "function");
    fld "show" (CPtr "function")
  ].
(** [enum bpf_attach_type]. *)
Inductive bpf_attach_type :=
| BPF_CGROUP_INET_INGRESS
| BPF_CGROUP_INET_EGRESS.
#[global] Instance bpf_attach_type_eq_dec : EqDecision bpf_attach_type.
Proof. solve_decision. Defined.
Definition bpf_attach_type_decl : list (bpf_attach_type * option Z) :=
  [(BPF_CGROUP_INET_INGRESS, Some 0);
   (BPF_CGROUP_INET_EGRESS, Some 1)].
#[global] Instance bpf_attach_type_enum : CEnum bpf_attach_type := { enum_decl := bpf_attach_type_decl }.

(** [enum bpf_hdr_start_off]. *)
Inductive bpf_hdr_start_off :=
| BPF_HDR_START_MAC
| BPF_HDR_START_NET.
#[global] Instance bpf_hdr_start_off_eq_dec : EqDecision bpf_hdr_start_off.
Proof. solve_decision. Defined.
Definition bpf_hdr_start_off_decl : list (bpf_hdr_start_off * option Z) :=
  [(BPF_HDR_START_MAC, Some 0);
   (BPF_HDR_START_NET, Some 1)].
#[global] Instance bpf_hdr_start_off_enum : CEnum bpf_hdr_start_off := { enum_decl := bpf_hdr_start_off_decl }.

Definition _NSIG : Z := 64.
Definition _NSIG_BPW : Z := 64.
Definition _NSIG_WORDS : Z := _NSIG / _NSIG_BPW.
Definition sigset_t : ctype := cstruct [
    fld "sig" (CArr c_ulong _NSIG_WORDS)
  ].
Definition sigaction : ctype := cstruct [
    fld "sa_handler" (CPtr "void");
    fld "sa_flags" c_ulong;
    fld "sa_mask" sigset_t
  ].
Definition k_sigaction : ctype := cstruct [
    fld "sa" sigaction
  ].
Definition sighand_struct : ctype := cstruct [
    fld "action" (CArr k_sigaction _NSIG)
  ].
(** [enum bpf_cmd]. *)
Inductive bpf_cmd :=
| BPF_MAP_CREATE
| BPF_MAP_LOOKUP_ELEM
| BPF_MAP_UPDATE_ELEM
| BPF_MAP_DELETE_ELEM
| BPF_MAP_GET_NEXT_KEY
| BPF_PROG_LOAD
| BPF_OBJ_PIN
| BPF_OBJ_GET
| BPF_PROG_ATTACH
| BPF_PROG_DETACH
| BPF_PROG_TEST_RUN
| BPF_PROG_GET_NEXT_ID
| BPF_MAP_GET_NEXT_ID
| BPF_PROG_GET_FD_BY_ID
| BPF_MAP_GET_FD_BY_ID
| BPF_OBJ_GET_INFO_BY_FD
| BPF_PROG_QUERY
| BPF_RAW_TRACEPOINT_OPEN
| BPF_BTF_LOAD
| BPF_BTF_GET_FD_BY_ID
| BPF_TASK_FD_QUERY
| BPF_MAP_LOOKUP_AND_DELETE_ELEM
| BPF_MAP_FREEZE
| BPF_BTF_GET_NEXT_ID
| BPF_MAP_LOOKUP_BATCH
| BPF_MAP_LOOKUP_AND_DELETE_BATCH
| BPF_MAP_UPDATE_BATCH
| BPF_MAP_DELETE_BATCH
| BPF_LINK_CREATE
| BPF_LINK_UPDATE
| BPF_LINK_GET_FD_BY_ID
| BPF_LINK_GET_NEXT_ID
| BPF_ENABLE_STATS
| BPF_ITER_CREATE
| BPF_LINK_DETACH
| BPF_PROG_BIND_MAP.
#[global] Instance bpf_cmd_eq_dec : EqDecision bpf_cmd.
Proof. solve_decision. Defined.
Definition bpf_cmd_decl : list (bpf_cmd * option Z) :=
  [(BPF_MAP_CREATE, None);
   (BPF_MAP_LOOKUP_ELEM, None);
   (BPF_MAP_UPDATE_ELEM, None);
   (BPF_MAP_DELETE_ELEM, None);
   (BPF_MAP_GET_NEXT_KEY, None);
   (BPF_PROG_LOAD, None);
   (BPF_OBJ_PIN, None);
   (BPF_OBJ_GET, None);
   (BPF_PROG_ATTACH, None);
   (BPF_PROG_DETACH, None);
   (BPF_PROG_TEST_RUN, None);
   (BPF_PROG_GET_NEXT_ID, None);
   (BPF_MAP_GET_NEXT_ID, None);
   (BPF_PROG_GET_FD_BY_ID, None);
   (BPF_MAP_GET_FD_BY_ID, None);
   (BPF_OBJ_GET_INFO_BY_FD, None);
   (BPF_PROG_QUERY, None);
   (BPF_RAW_TRACEPOINT_OPEN, None);
   (BPF_BTF_LOAD, None);
   (BPF_BTF_GET_FD_BY_ID, None);
   (BPF_TASK_FD_QUERY, None);
   (BPF_MAP_LOOKUP_AND_DELETE_ELEM, None);
   (BPF_MAP_FREEZE, None);
   (BPF_BTF_GET_NEXT_ID, None);
   (BPF_MAP_LOOKUP_BATCH, None);
   (BPF_MAP_LOOKUP_AND_DELETE_BATCH, None);
   (BPF_MAP_UPDATE_BATCH, None);
   (BPF_MAP_DELETE_BATCH, None);
   (BPF_LINK_CREATE, None);
   (BPF_LINK_UPDATE, None);
   (BPF_LINK_GET_FD_BY_ID, None);
   (BPF_LINK_GET_NEXT_ID, None);
   (BPF_ENABLE_STATS, None);
   (BPF_ITER_CREATE, None);
   (BPF_LINK_DETACH, None);
   (BPF_PROG_BIND_MAP, None)].
#[global] Instance bpf_cmd_enum : CEnum bpf_cmd := { enum_decl := bpf_cmd_decl }.
Definition BPF_PROG_RUN : bpf_cmd := BPF_PROG_TEST_RUN.

Definition BPF_OBJ_NAME_LEN : Z := 16.
Definition bpf_attr : ctype := cunion [
    anon (cstruct [
      fld "insn_cnt" __u32;
      fld "insns" __u64;
      fld "prog_name" (CArr c_char BPF_OBJ_NAME_LEN)
    ]);
    fld "link_create" (cstruct [
      fld "prog_fd" __u32;
      anon (cunion [
        fld "target_fd" __u32
      ])
    ])
  ].
(** [enum bpf_prog_type]. *)
Inductive bpf_prog_type :=
| BPF_PROG_TYPE_UNSPEC
| BPF_PROG_TYPE_SOCKET_FILTER
| BPF_PROG_TYPE_KPROBE
| BPF_PROG_TYPE_SCHED_CLS
| BPF_PROG_TYPE_SCHED_ACT
| BPF_PROG_TYPE_TRACEPOINT
| BPF_PROG_TYPE_XDP
| BPF_PROG_TYPE_PERF_EVENT
| BPF_PROG_TYPE_CGROUP_SKB
| BPF_PROG_TYPE_CGROUP_SOCK
| BPF_PROG_TYPE_LWT_IN
| BPF_PROG_TYPE_LWT_OUT
| BPF_PROG_TYPE_LWT_XMIT
| BPF_PROG_TYPE_SOCK_OPS
| BPF_PROG_TYPE_SK_SKB
| BPF_PROG_TYPE_CGROUP_DEVICE
| BPF_PROG_TYPE_SK_MSG
| BPF_PROG_TYPE_RAW_TRACEPOINT
| BPF_PROG_TYPE_CGROUP_SOCK_ADDR
| BPF_PROG_TYPE_LWT_SEG6LOCAL
| BPF_PROG_TYPE_LIRC_MODE2
| BPF_PROG_TYPE_SK_REUSEPORT
| BPF_PROG_TYPE_FLOW_DISSECTOR
| BPF_PROG_TYPE_CGROUP_SYSCTL
| BPF_PROG_TYPE_RAW_TRACEPOINT_WRITABLE
| BPF_PROG_TYPE_CGROUP_SOCKOPT
| BPF_PROG_TYPE_TRACING
| BPF_PROG_TYPE_STRUCT_OPS
| BPF_PROG_TYPE_EXT
| BPF_PROG_TYPE_LSM
| BPF_PROG_TYPE_SK_LOOKUP
| BPF_PROG_TYPE_SYSCALL.
#[global] Instance bpf_prog_type_eq_dec : EqDecision bpf_prog_type.
Proof. solve_decision. Defined.
Definition bpf_prog_type_decl : list (bpf_prog_type * option Z) :=
  [(BPF_PROG_TYPE_UNSPEC, None);
   (BPF_PROG_TYPE_SOCKET_FILTER, None);
   (BPF_PROG_TYPE_KPROBE, None);
   (BPF_PROG_TYPE_SCHED_CLS, None);
   (BPF_PROG_TYPE_SCHED_ACT, None);
   (BPF_PROG_TYPE_TRACEPOINT, None);
   (BPF_PROG_TYPE_XDP, None);
   (BPF_PROG_TYPE_PERF_EVENT, None);
   (BPF_PROG_TYPE_CGROUP_SKB, None);
   (BPF_PROG_TYPE_CGROUP_SOCK, None);
   (BPF_PROG_TYPE_LWT_IN, None);
   (BPF_PROG_TYPE_LWT_OUT, None);
   (BPF_PROG_TYPE_LWT_XMIT, None);
   (BPF_PROG_TYPE_SOCK_OPS, None);
   (BPF_PROG_TYPE_SK_SKB, None);
   (BPF_PROG_TYPE_CGROUP_DEVICE, None);
   (BPF_PROG_TYPE_SK_MSG, None);
   (BPF_PROG_TYPE_RAW_TRACEPOINT, None);
   (BPF_PROG_TYPE_CGROUP_SOCK_ADDR, None);
   (BPF_PROG_TYPE_LWT_SEG6LOCAL, None);
   (BPF_PROG_TYPE_LIRC_MODE2, None);
   (BPF_PROG_TYPE_SK_REUSEPORT, None);
   (BPF_PROG_TYPE_FLOW_DISSECTOR, None);
   (BPF_PROG_TYPE_CGROUP_SYSCTL, None);
   (BPF_PROG_TYPE_RAW_TRACEPOINT_WRITABLE, None);
   (BPF_PROG_TYPE_CGROUP_SOCKOPT, None);
   (BPF_PROG_TYPE_TRACING, None);
   (BPF_PROG_TYPE_STRUCT_OPS, None);
   (BPF_PROG_TYPE_EXT, None);
   (BPF_PROG_TYPE_LSM, None);
   (BPF_PROG_TYPE_SK_LOOKUP, None);
   (BPF_PROG_TYPE_SYSCALL, None)].
#[global] Instance bpf_prog_type_enum : CEnum bpf_prog_type := { enum_decl := bpf_prog_type_decl }.

Definition bpf_prog_aux : ctype := cstruct [
    fld "id" u32;
    fld "name" (CArr c_char BPF_OBJ_NAME_LEN)
  ].
Definition bpf_prog : ctype := cstruct [
    fld "type" c_uint;
    fld "aux" (CPtr "struct bpf_prog_aux")
  ].
Definition tracepoint : ctype := cstruct [
    fld "name" (CPtr "char")
  ].
Definition trace_event_class : ctype := cstruct [
    fld "system" (CPtr "char")
  ].
Definition trace_event_call : ctype := cstruct [
    fld "class" (CPtr "struct trace_event_class");
    anon (cunion [
      fld "name" (CPtr "char");
      fld "tp" (CPtr "struct tracepoint")
    ]);
    fld "module" (CPtr "void");
    fld "flags" c_int
  ].
Definition trace_probe : ctype := cstruct [
    fld "list" list_head
  ].
Definition trace_probe_event : ctype := cstruct [
    fld "call" trace_event_call;
    fld "probes" list_head
  ].
Definition uprobe_consumer : ctype := cstruct [
    fld "ret_handler" (CPtr "function")
  ].
Definition trace_uprobe : ctype := cstruct [
    fld "consumer" uprobe_consumer;
    fld "filename" (CPtr "char");
    fld "offset" c_ulong;
    fld "tp" trace_probe
  ].
Definition kretprobe : ctype := cstruct [
    fld "kp" kprobe;
    fld "handler" kretprobe_handler_t
  ].
Definition trace_kprobe : ctype := cstruct [
    fld "rp" kretprobe;
    fld "symbol" (CPtr "char");
    fld "tp" trace_probe
  ].
Definition perf_event : ctype := cstruct [
    fld "tp_event" (CPtr "struct trace_event_call")
  ].
Definition bpf_verifier_env : ctype := cstruct [
    fld "prog" (CPtr "struct bpf_prog")
  ].
Definition bpf_insn : ctype := cstruct [
    fld "code" __u8;
    bitfld "dst_reg" 4 __u8;
    bitfld "src_reg" 4 __u8;
    fld "off" __s16;
    fld "imm" __s32
  ].
Definition iphdr : ctype := cstruct [
    bitfld "ihl" 4 __u8;
    bitfld "version" 4 __u8;
    fld "tos" __u8;
    fld "tot_len" __be16;
    fld "id" __be16;
    fld "frag_off" __be16;
    fld "ttl" __u8;
    fld "protocol" __u8;
    fld "check" __sum16;
    fld "saddr" __be32;
    fld "daddr" __be32
  ].
Definition ipv6hdr : ctype := cstruct [
    bitfld "priority" 4 __u8;
    bitfld "version" 4 __u8;
    fld "flow_lbl" (CArr __u8 3);
    fld "payload_len" __be16;
    fld "nexthdr" __u8;
    fld "hop_limit" __u8;
    fld "saddr" in6_addr;
    fld "daddr" in6_addr
  ].
Definition tcphdr : ctype := cstruct [
    fld "source" __be16;
    fld "dest" __be16;
    fld "seq" __be32;
    fld "ack_seq" __be32;
    bitfld "res1" 4 __u16;
    bitfld "doff" 4 __u16;
    bitfld "fin" 1 __u16;
    bitfld "syn" 1 __u16;
    bitfld "rst" 1 __u16;
    bitfld "psh" 1 __u16;
    bitfld "ack" 1 __u16;
    bitfld "urg" 1 __u16;
    bitfld "ece" 1 __u16;
    bitfld "cwr" 1 __u16;
    fld "window" __be16;
    fld "check" __sum16;
    fld "urg_ptr" __be16
  ].
Definition udphdr : ctype := cstruct [
    fld "source" __be16;
    fld "dest" __be16;
    fld "len" __be16;
    fld "check" __sum16
  ].
Definition icmphdr : ctype := cstruct [
    fld "type" __u8;
    fld "code" __u8;
    fld "checksum" __sum16;
    fld "un" (cunion [
      fld "echo" (cstruct [
        fld "id" __be16;
        fld "sequence" __be16
      ]);
      fld "gateway" __be32;
      fld "frag" (cstruct [
        fld "__unused" __be16;
        fld "mtu" __be16
      ]);
      fld "reserved" (CArr __u8 4)
    ])
  ].
Definition icmpv6_echo : ctype := cstruct [
    fld "identifier" __be16;
    fld "sequence" __be16
  ].
Definition icmpv6_nd_advt : ctype := cstruct [
    bitfld "reserved" 5 __u32;
    bitfld "override" 1 __u32;
    bitfld "solicited" 1 __u32;
    bitfld "router" 1 __u32;
    bitfld "reserved2" 24 __u32
  ].
Definition icmpv6_nd_ra : ctype := cstruct [
    fld "hop_limit" __u8;
    bitfld "reserved" 3 __u8;
    bitfld "router_pref" 2 __u8;
    bitfld "home_agent" 1 __u8;
    bitfld "other" 1 __u8;
    bitfld "managed" 1 __u8;
    fld "rt_lifetime" __be16
  ].
Definition icmp6hdr : ctype := cstruct [
    fld "icmp6_type" __u8;
    fld "icmp6_code" __u8;
    fld "icmp6_cksum" __sum16;
    fld "icmp6_dataun" (cunion [
      fld "un_data32" (CArr __be32 1);
      fld "un_data16" (CArr __be16 2);
      fld "un_data8" (CArr __u8 4);
      fld "u_echo" icmpv6_echo;
      fld "u_nd_advt" icmpv6_nd_advt;
      fld "u_nd_ra" icmpv6_nd_ra
    ])
  ].
Definition TRACE_EVENT_FL_TRACEPOINT_BIT : Z := 4.
Definition TRACE_EVENT_FL_TRACEPOINT : Z :=
  Z.shiftl 1 TRACE_EVENT_FL_TRACEPOINT_BIT.

(** Every struct and union of the header. *)
Definition vmlinux_types (a : target_arch) : list (string * ctype) :=
  [("struct thread_info", thread_info a);
   ("struct user_pt_regs", user_pt_regs);
   ("struct pt_regs", pt_regs a);
   ("struct bpf_raw_tracepoint_args", bpf_raw_tracepoint_args);
   ("struct list_head", list_head);
   ("struct hlist_node", hlist_node);
   ("typedef kuid_t", kuid_t);
   ("struct task_struct", task_struct a);
   ("typedef atomic_t", atomic_t);
   ("struct signal_struct", signal_struct);
   ("struct vm_area_struct", vm_area_struct);
   ("typedef kgid_t", kgid_t);
   ("typedef kernel_cap_t", kernel_cap_t);
   ("struct cred", cred);
   ("struct nsproxy", nsproxy);
   ("struct ns_common", ns_common);
   ("struct pid_namespace", pid_namespace);
   ("struct upid", upid);
   ("struct pid", pid);
   ("struct mnt_namespace", mnt_namespace);
   ("struct new_utsname", new_utsname);
   ("struct uts_namespace", uts_namespace);
   ("struct css_set", css_set);
   ("struct percpu_ref", percpu_ref);
   ("struct cgroup_subsys_state", cgroup_subsys_state);
   ("struct timer_list", timer_list);
   ("struct cgroup_file", cgroup_file);
   ("struct cgroup", cgroup);
   ("struct kernfs_node", kernfs_node);
   ("struct cgroup_root", cgroup_root);
   ("struct fdtable", fdtable);
   ("struct files_struct", files_struct);
   ("struct path", path);
   ("struct dir_context", dir_context);
   ("struct file_operations", file_operations);
   ("struct file", file);
   ("struct pipe_inode_info", pipe_inode_info);
   ("struct pipe_inode_info___v54", pipe_inode_info___v54);
   ("struct pipe_buffer", pipe_buffer);
   ("struct public_key_signature", public_key_signature);
   ("struct alloc_context", alloc_context);
   ("struct socket", socket);
   ("typedef possible_net_t", possible_net_t);
   ("struct in6_addr", in6_addr);
   ("struct sock_common", sock_common);
   ("struct kobject", kobject);
   ("struct device", device);
   ("struct sock", sock);
   ("struct inet_sock", inet_sock);
   ("struct in_addr", in_addr);
   ("struct sockaddr_in", sockaddr_in);
   ("struct unix_sock", unix_sock);
   ("struct sockaddr_un", sockaddr_un);
   ("struct unix_address", unix_address);
   ("struct ipv6_pinfo", ipv6_pinfo);
   ("struct sockaddr_in6", sockaddr_in6);
   ("struct msghdr", msghdr);
   ("struct sk_buff", sk_buff);
   ("struct linux_binprm", linux_binprm);
   ("struct timespec64", timespec64);
   ("struct __kernel_timespec", __kernel_timespec);
   ("struct inode", inode);
   ("struct super_block", super_block);
   ("struct mm_struct", mm_struct);
   ("struct vfsmount", vfsmount);
   ("struct mount", mount);
   ("struct qstr", qstr);
   ("struct dentry", dentry);
   ("struct module_kobject", module_kobject);
   ("struct kset", kset);
   ("struct module_layout", module_layout);
   ("struct module", module);
   ("struct rb_node", rb_node);
   ("struct latch_tree_node", latch_tree_node);
   ("struct rb_root", rb_root);
   ("struct seqcount", seqcount);
   ("typedef seqcount_latch_t", seqcount_latch_t);
   ("struct latch_tree_root", latch_tree_root);
   ("struct mod_tree_node", mod_tree_node);
   ("struct user_namespace", user_namespace);
   ("struct ipc_namespace", ipc_namespace);
   ("struct net", net);
   ("struct cgroup_namespace", cgroup_namespace);
   ("struct sockaddr", sockaddr);
   ("struct iovec", iovec);
   ("struct bpf_map", bpf_map);
   ("struct __sk_buff", __sk_buff);
   ("struct ethhdr", ethhdr);
   ("struct kretprobe_instance", kretprobe_instance);
   ("typedef kprobe_pre_handler_t", kprobe_pre_handler_t);
   ("typedef kprobe_post_handler_t", kprobe_post_handler_t);
   ("typedef kretprobe_handler_t", kretprobe_handler_t);
   ("struct kprobe", kprobe);
   ("struct seq_file", seq_file);
   ("struct seq_operations", seq_operations);
   ("typedef sigset_t", sigset_t);
   ("struct sigaction", sigaction);
   ("struct k_sigaction", k_sigaction);
   ("struct sighand_struct", sighand_struct);
   ("union bpf_attr", bpf_attr);
   ("struct bpf_prog_aux", bpf_prog_aux);
   ("struct bpf_prog", bpf_prog);
   ("struct tracepoint", tracepoint);
   ("struct trace_event_class", trace_event_class);
   ("struct trace_event_call", trace_event_call);
   ("struct trace_probe", trace_probe);
   ("struct trace_probe_event", trace_probe_event);
   ("struct uprobe_consumer", uprobe_consumer);
   ("struct trace_uprobe", trace_uprobe);
   ("struct kretprobe", kretprobe);
   ("struct trace_kprobe", trace_kprobe);
   ("struct perf_event", perf_event);
   ("struct bpf_verifier_env", bpf_verifier_env);
   ("struct bpf_insn", bpf_insn);
   ("struct iphdr", iphdr);
   ("struct ipv6hdr", ipv6hdr);
   ("struct tcphdr", tcphdr);
   ("struct udphdr", udphdr);
   ("struct icmphdr", icmphdr);
   ("struct icmpv6_echo", icmpv6_echo);
   ("struct icmpv6_nd_advt", icmpv6_nd_advt);
   ("struct icmpv6_nd_ra", icmpv6_nd_ra);
   ("struct icmp6hdr", icmp6hdr)].
End vmlinux.

(** * The enumerations are one-to-one *)
Section enum_instances.
Import vmlinux.
#[global] Instance c_bool_values_ok : CEnumOk c_bool_values.
Proof. solve_enum_ok. Qed.
#[global] Instance bpf_map_update_flags_ok : CEnumOk bpf_map_update_flags.
Proof. solve_enum_ok. Qed.
#[global] Instance tcp_state_ok : CEnumOk tcp_state.
Proof. solve_enum_ok. Qed.
#[global] Instance sock_type_ok : CEnumOk sock_type.
Proof. solve_enum_ok. Qed.
#[global] Instance ipproto_ok : CEnumOk ipproto.
Proof. solve_enum_ok. Qed.
#[global] Instance tcpf_state_ok : CEnumOk tcpf_state.
Proof. solve_enum_ok. Qed.
#[global] Instance bpf_func_id_ok : CEnumOk bpf_func_id.
Proof. solve_enum_ok. Qed.
#[global] Instance bpf_map_type_ok : CEnumOk bpf_map_type.
Proof. solve_enum_ok. Qed.
#[global] Instance kernel_read_file_id_ok : CEnumOk kernel_read_file_id.
Proof. solve_enum_ok. Qed.
#[global] Instance bpf_attach_type_ok : CEnumOk bpf_attach_type.
Proof. solve_enum_ok. Qed.
#[global] Instance bpf_hdr_start_off_ok : CEnumOk bpf_hdr_start_off.
Proof. solve_enum_ok. Qed.
#[global] Instance bpf_cmd_ok : CEnumOk bpf_cmd.
Proof. solve_enum_ok. Qed.
#[global] Instance bpf_prog_type_ok : CEnumOk bpf_prog_type.
Proof. solve_enum_ok. Qed.
End enum_instances.

(** Every type of the header is well formed: sizes of integers, bit-field widths and array bounds
    are legal. *)
Lemma vmlinux_types_wf arch nm t :
  (nm, t) ∈ vmlinux.vmlinux_types arch -> wf_ctype t = true.
Proof.
  assert (Forall (λ p, wf_ctype (snd p) = true) (vmlinux.vmlinux_types arch)) as H.
  { apply forallb_Forall. by destruct arch; vm_compute. }
  intros Hin. rewrite Forall_forall in H. apply (H _ Hin).
Qed.

(** The protocol header types of vmlinux.h have exactly the sizes and field positions of the
    wire formats of IPv4, IPv6, TCP, UDP, ICMP and ICMPv6 (offsets in bits). *)
Theorem packet_headers_on_the_wire :
  map sizeof [vmlinux.iphdr; vmlinux.ipv6hdr; vmlinux.tcphdr; vmlinux.udphdr; vmlinux.icmphdr;
              vmlinux.icmp6hdr; vmlinux.ethhdr] = [20; 40; 20; 8; 8; 8; 14] /\
  member_offsets vmlinux.iphdr = [0; 4; 8; 16; 32; 48; 64; 72; 80; 96; 128] /\
  member_offsets vmlinux.ipv6hdr = [0; 4; 8; 32; 48; 56; 64; 192] /\
  member_offsets vmlinux.tcphdr =
    [0; 16; 32; 64; 96; 100; 104; 105; 106; 107; 108; 109; 110; 111; 112; 128; 144] /\
  member_offsets vmlinux.udphdr = [0; 16; 32; 48].
Proof. repeat split. Qed.
