(* ===== verification/BpfEndian.v ===== *)
(** Byte-order conversion: src/ebpf/c/include/bpf_endian.h.

    The header converts constants with shift-and-or macros ([___bpf_swab16], ...) and other values
    with the compiler's byte-swap builtins.  The theorems show that the two agree, that the
    conversions are involutions, and that converting a value loaded from packet bytes gives the
    value the bytes have in network order, whichever byte order the program is built for. *)
From S2P Require Import Prelude CAbi.
From stdpp Require Import base numbers list.
Local Open Scope Z_scope.

(** [___bpf_mvb(x, b, n, m)]: byte [n] of [x] moved to byte [m].  The shifts are done in the
    promoted type of [__u##b]: [int] for 16 bits, [__u32] and [__u64] themselves. *)
Definition promoted_width (b : Z) : Z := Z.max 32 b.
Definition ___bpf_mvb (x b n m : Z) : Z :=
  let w := promoted_width b in
  wrap w (Z.shiftl
    (Z.shiftr (wrap w (Z.shiftl (wrap b x) (b - (n + 1) * 8))) (b - 8)) (m * 8)).

Definition ___bpf_swab16 (x : Z) : Z :=
  wrap 16 (Z.lor (___bpf_mvb x 16 0 1) (___bpf_mvb x 16 1 0)).

Definition ___bpf_swab32 (x : Z) : Z :=
  wrap 32 (Z.lor (Z.lor (Z.lor
    (___bpf_mvb x 32 0 3) (___bpf_mvb x 32 1 2)) (___bpf_mvb x 32 2 1)) (___bpf_mvb x 32 3 0)).

Definition ___bpf_swab64 (x : Z) : Z :=
  wrap 64 (Z.lor (Z.lor (Z.lor (Z.lor (Z.lor (Z.lor (Z.lor
    (___bpf_mvb x 64 0 7) (___bpf_mvb x 64 1 6)) (___bpf_mvb x 64 2 5)) (___bpf_mvb x 64 3 4))
    (___bpf_mvb x 64 4 3)) (___bpf_mvb x 64 5 2)) (___bpf_mvb x 64 6 1)) (___bpf_mvb x 64 7 0)).

(** The compiler's [__builtin_bswap16/32/64]: reverse the [n] bytes of a value. *)
Definition builtin_bswap (n : nat) (x : Z) : Z := le_combine (reverse (le_split n x)).

Arguments builtin_bswap : simpl never.
Arguments ___bpf_swab16 : simpl never.
Arguments ___bpf_swab32 : simpl never.
Arguments ___bpf_swab64 : simpl never.

(** The macros select on [__BYTE_ORDER__] and on whether the argument is a compile-time
    constant ([cp], the value of [__builtin_constant_p]). *)
Definition __bpf_ntohs (en : endian) (x : Z) : Z :=
  match en with LittleEndian => builtin_bswap 2 x | BigEndian => x end.
Definition __bpf_htons (en : endian) (x : Z) : Z :=
  match en with LittleEndian => builtin_bswap 2 x | BigEndian => x end.
Definition __bpf_constant_ntohs (en : endian) (x : Z) : Z :=
  match en with LittleEndian => ___bpf_swab16 x | BigEndian => x end.
Definition __bpf_constant_htons (en : endian) (x : Z) : Z :=
  match en with LittleEndian => ___bpf_swab16 x | BigEndian => x end.
Definition __bpf_ntohl (en : endian) (x : Z) : Z :=
  match en with LittleEndian => builtin_bswap 4 x | BigEndian => x end.
Definition __bpf_htonl (en : endian) (x : Z) : Z :=
  match en with LittleEndian => builtin_bswap 4 x | BigEndian => x end.
Definition __bpf_constant_ntohl (en : endian) (x : Z) : Z :=
  match en with LittleEndian => ___bpf_swab32 x | BigEndian => x end.
Definition __bpf_constant_htonl (en : endian) (x : Z) : Z :=
  match en with LittleEndian => ___bpf_swab32 x | BigEndian => x end.
Definition __bpf_be64_to_cpu (en : endian) (x : Z) : Z :=
  match en with LittleEndian => builtin_bswap 8 x | BigEndian => x end.
Definition __bpf_cpu_to_be64 (en : endian) (x : Z) : Z :=
  match en with LittleEndian => builtin_bswap 8 x | BigEndian => x end.
Definition __bpf_constant_be64_to_cpu (en : endian) (x : Z) : Z :=
  match en with LittleEndian => ___bpf_swab64 x | BigEndian => x end.
Definition __bpf_constant_cpu_to_be64 (en : endian) (x : Z) : Z :=
  match en with LittleEndian => ___bpf_swab64 x | BigEndian => x end.

Definition bpf_htons (en : endian) (cp : bool) (x : Z) : Z :=
  if cp then __bpf_constant_htons en x else __bpf_htons en x.
Definition bpf_ntohs (en : endian) (cp : bool) (x : Z) : Z :=
  if cp then __bpf_constant_ntohs en x else __bpf_ntohs en x.
Definition bpf_htonl (en : endian) (cp : bool) (x : Z) : Z :=
  if cp then __bpf_constant_htonl en x else __bpf_htonl en x.
Definition bpf_ntohl (en : endian) (cp : bool) (x : Z) : Z :=
  if cp then __bpf_constant_ntohl en x else __bpf_ntohl en x.
Definition bpf_cpu_to_be64 (en : endian) (cp : bool) (x : Z) : Z :=
  if cp then __bpf_constant_cpu_to_be64 en x else __bpf_cpu_to_be64 en x.
Definition bpf_be64_to_cpu (en : endian) (cp : bool) (x : Z) : Z :=
  if cp then __bpf_constant_be64_to_cpu en x else __bpf_be64_to_cpu en x.

(** Byte [n] of [x]. *)
Definition nbyte (x n : Z) : Z := (x / 2 ^ (8 * n)) mod 256.

(** * Bytes of a value *)
Lemma nbyte_bound x n : 0 <= nbyte x n < 256.
Proof. apply Z.mod_pos_bound. lia. Qed.

Lemma mod_div_pow2 x a c : 0 <= a -> 0 <= c -> (x mod 2 ^ (a + c)) / 2 ^ a = (x / 2 ^ a) mod 2 ^ c.
Proof.
  intros. rewrite Z.pow_add_r, Z.rem_mul_r by lia.
  rewrite (Z.mul_comm (2 ^ a)), Z.div_add by lia.
  rewrite (Z.div_small (x mod 2 ^ a)) by (apply Z.mod_pos_bound; lia). lia.
Qed.

Lemma mod_mod_pow2 x a c : 0 <= a <= c -> (x mod 2 ^ c) mod 2 ^ a = x mod 2 ^ a.
Proof.
  intros. replace c with (a + (c - a)) by lia. rewrite Z.pow_add_r by lia.
  rewrite Z.rem_mul_r, (Z.mul_comm (2 ^ a)), Z.mod_add by lia.
  apply Zmod_mod.
Qed.

(** [___bpf_mvb] on 32- and 64-bit values isolates one byte. *)
Lemma mvb_nbyte x b n m :
  (b = 32 \/ b = 64) -> 0 <= n < b / 8 -> 0 <= m < b / 8 ->
  ___bpf_mvb x b n m = nbyte x n * 2 ^ (8 * m).
Proof.
  intros Hb Hn Hm. assert (Hb8 : b = 8 * (b / 8)) by (destruct Hb; subst; reflexivity).
  set (q := b / 8) in *. pose proof (nbyte_bound x n) as Hnb.
  unfold ___bpf_mvb, wrap, promoted_width.
  replace (Z.max 32 b) with b by (destruct Hb; subst; reflexivity).
  rewrite !Z.shiftl_mul_pow2, Z.shiftr_div_pow2 by lia.
  set (s := b - (n + 1) * 8).
  replace (2 ^ b) with (2 ^ (b - s) * 2 ^ s) at 2 by (rewrite <- Z.pow_add_r by lia; f_equal; lia).
  rewrite Z.mul_mod_distr_r by lia.
  replace (b - 8) with (s + 8 * n) by lia.
  rewrite (Z.pow_add_r 2 s), <- Z.div_div, Z.div_mul by lia.
  rewrite mod_mod_pow2 by lia.
  replace (b - s) with (8 * n + 8) by lia. rewrite mod_div_pow2 by lia.
  change (2 ^ 8) with 256. fold (nbyte x n).
  rewrite Z.mod_small; [f_equal; f_equal; lia|].
  replace b with (8 + m * 8 + (b - 8 - m * 8)) by lia.
  rewrite !Z.pow_add_r by lia. change (2 ^ 8) with 256.
  assert (0 < 2 ^ (m * 8)) by lia. assert (0 < 2 ^ (b - 8 - m * 8)) by lia. nia.
Qed.

Lemma nbyte_0 x : nbyte x 0 = x mod 256.
Proof. unfold nbyte. by rewrite Z.div_1_r. Qed.

Lemma nbyte_succ x n : 0 <= n -> nbyte x (n + 1) = nbyte (x / 256) n.
Proof.
  intros. unfold nbyte. rewrite Z.mul_add_distr_l, Z.pow_add_r, Z.mul_comm, <- Z.div_div by lia.
  done.
Qed.

(** The bytes [le_split] produces. *)
Lemma le_split_nbytes n x : le_split n x = map (λ i, nbyte x (Z.of_nat i)) (seq 0 n).
Proof.
  revert x. induction n as [|n IH]; intros x; [done|].
  cbn [le_split seq map]. rewrite IH, <- seq_shift, map_map. f_equal; [by rewrite nbyte_0|].
  apply map_ext. intros i. rewrite <- nbyte_succ by lia. f_equal. lia.
Qed.

Lemma lor_next_byte acc b e1 e2 :
  0 <= e2 -> e1 = e2 + 8 -> 0 <= b < 256 ->
  Z.lor (acc * 2 ^ e1) (b * 2 ^ e2) = (acc * 256 + b) * 2 ^ e2.
Proof.
  intros He -> Hb. rewrite lor_disjoint_add; [|lia|];
    rewrite Z.pow_add_r by lia; change (2 ^ 8) with 256; nia.
Qed.

(** Turns the or of bytes moved to consecutive positions into their positional sum. *)
Ltac lor_bytes :=
  repeat (rewrite lor_next_byte by first [reflexivity | lia | apply nbyte_bound]).

(** Evaluates a concrete list of bytes. *)
Ltac compute_bytes :=
  cbv [map seq reverse rev_append rev' le_combine Z.of_nat Pos.of_succ_nat Pos.succ].

(** The two halves of [___bpf_swab16]: the promotion to [int] keeps the high byte of the first
    one, which the final cast to [__u16] removes. *)
Lemma swab16_bytes x : ___bpf_swab16 x = nbyte x 0 * 256 + nbyte x 1.
Proof.
  unfold ___bpf_swab16, ___bpf_mvb, wrap, promoted_width.
  change (Z.max 32 16) with 32. rewrite !Z.shiftl_mul_pow2, !Z.shiftr_div_pow2 by lia.
  pose proof (Z.mod_pos_bound x (2 ^ 16) ltac:(lia)) as Hx. set (X := x mod 2 ^ 16) in *.
  cbn -[Z.pow Z.modulo Z.div Z.lor]. change (2 ^ 0) with 1.
  rewrite !Z.mul_1_r, (Z.mod_small X), (Z.mod_small (X * 2 ^ 8)) by lia.
  rewrite Z.div_mul by lia. rewrite (Z.mod_small (X * 2 ^ 8)) by lia.
  assert (0 <= X / 2 ^ 8 < 2 ^ 8) by (split; [apply Z.div_pos|apply Z.div_lt_upper_bound]; lia).
  rewrite (Z.mod_small (X / 2 ^ 8)), lor_disjoint_add by lia.
  assert (Hn1 : nbyte x 1 = X / 2 ^ 8).
  { unfold nbyte, X. change (2 ^ 16) with (2 ^ (8 + 8)). by rewrite mod_div_pow2. }
  assert (Hn0 : nbyte x 0 = X mod 2 ^ 8) by (unfold X; rewrite nbyte_0, mod_mod_pow2; done || lia).
  rewrite Hn0, Hn1. rewrite (Z.div_mod X (2 ^ 8)) at 1 by lia.
  pose proof (Z.mod_pos_bound X (2 ^ 8) ltac:(lia)).
  replace ((2 ^ 8 * (X / 2 ^ 8) + X mod 2 ^ 8) * 2 ^ 8 + X / 2 ^ 8)
    with (X mod 2 ^ 8 * 256 + X / 2 ^ 8 + X / 2 ^ 8 * 2 ^ 16) by lia.
  rewrite Z.mod_add, Z.mod_small by lia. reflexivity.
Qed.

Lemma swab16_bswap x : ___bpf_swab16 x = builtin_bswap 2 x.
Proof.
  rewrite swab16_bytes. unfold builtin_bswap. rewrite le_split_nbytes. compute_bytes. lia.
Qed.

Lemma swab32_bswap x : ___bpf_swab32 x = builtin_bswap 4 x.
Proof.
  unfold ___bpf_swab32. rewrite !mvb_nbyte by (lia || (split; vm_compute; congruence)).
  lor_bytes. unfold builtin_bswap. rewrite le_split_nbytes. compute_bytes.
  pose proof (nbyte_bound x 0). pose proof (nbyte_bound x 1).
  pose proof (nbyte_bound x 2). pose proof (nbyte_bound x 3).
  rewrite wrap_id; [lia|]. unfold is_unsigned. change (2 ^ 32) with 4294967296. lia.
Qed.

Lemma swab64_bswap x : ___bpf_swab64 x = builtin_bswap 8 x.
Proof.
  unfold ___bpf_swab64. rewrite !mvb_nbyte by (lia || (split; vm_compute; congruence)).
  lor_bytes. unfold builtin_bswap. rewrite le_split_nbytes. compute_bytes.
  pose proof (nbyte_bound x 0). pose proof (nbyte_bound x 1). pose proof (nbyte_bound x 2).
  pose proof (nbyte_bound x 3). pose proof (nbyte_bound x 4). pose proof (nbyte_bound x 5).
  pose proof (nbyte_bound x 6). pose proof (nbyte_bound x 7).
  rewrite wrap_id; [lia|]. unfold is_unsigned. change (2 ^ 64) with 18446744073709551616. lia.
Qed.

(** Reversing the bytes twice keeps the value. *)
Lemma bswap_bswap n x : builtin_bswap n (builtin_bswap n x) = wrap (8 * Z.of_nat n) x.
Proof.
  unfold builtin_bswap.
  assert (Hl : length (reverse (le_split n x)) = n) by by rewrite length_reverse, length_le_split.
  rewrite <- Hl at 1. rewrite le_split_combine by auto with egress.
  rewrite reverse_involutive. apply le_combine_split.
Qed.

(** Swapping what a little-endian load gives is the big-endian value of the bytes. *)
Lemma bswap_load bs : bytes_ok bs -> builtin_bswap (length bs) (le_combine bs) = be_combine bs.
Proof. intros. unfold builtin_bswap. by rewrite le_split_combine. Qed.

Lemma ntohs_bswap en cp x : bpf_ntohs en cp x = __bpf_ntohs en x.
Proof. destruct cp, en; simpl; auto using swab16_bswap. Qed.

Lemma ntohl_bswap en cp x : bpf_ntohl en cp x = __bpf_ntohl en x.
Proof. destruct cp, en; simpl; auto using swab32_bswap. Qed.

Lemma be64_bswap en cp x : bpf_be64_to_cpu en cp x = __bpf_be64_to_cpu en x.
Proof. destruct cp, en; simpl; auto using swab64_bswap. Qed.

(** Converting a 16-bit load from network bytes gives their value in network order. *)
Lemma ntohs_load en cp bs :
  bytes_ok bs -> length bs = 2%nat -> bpf_ntohs en cp (load_uint en bs) = be_combine bs.
Proof.
  intros Hok Hl. rewrite ntohs_bswap. destruct en; simpl; [|done].
  rewrite <- Hl. by apply bswap_load.
Qed.

(** The shift-and-or macros for constants compute the same value as the compiler's
    byte-swap builtins, for every argument and every width. *)
Theorem swab_is_bswap x :
  ___bpf_swab16 x = builtin_bswap 2 x /\
  ___bpf_swab32 x = builtin_bswap 4 x /\
  ___bpf_swab64 x = builtin_bswap 8 x.
Proof. split_and!; [apply swab16_bswap|apply swab32_bswap|apply swab64_bswap]. Qed.

(** In both byte orders, whether or not the compiler sees a constant, converting a value
    loaded from packet bytes yields the value those bytes have in network order. *)
Theorem ntoh_load_is_network_order en cp bs2 bs4 bs8 :
  bytes_ok bs2 -> length bs2 = 2%nat ->
  bytes_ok bs4 -> length bs4 = 4%nat ->
  bytes_ok bs8 -> length bs8 = 8%nat ->
  bpf_ntohs en cp (load_uint en bs2) = be_combine bs2 /\
  bpf_ntohl en cp (load_uint en bs4) = be_combine bs4 /\
  bpf_be64_to_cpu en cp (load_uint en bs8) = be_combine bs8.
Proof.
  intros H2 L2 H4 L4 H8 L8. split_and!.
  - by apply ntohs_load.
  - rewrite ntohl_bswap. destruct en; simpl; [|done]. rewrite <- L4. by apply bswap_load.
  - rewrite be64_bswap. destruct en; simpl; [|done]. rewrite <- L8. by apply bswap_load.
Qed.

Lemma ntoh_load_is_network_order_witness :
  bpf_ntohs LittleEndian false (load_uint LittleEndian [0; 53]) = 53.
Proof.
  destruct (ntoh_load_is_network_order LittleEndian false [0; 53] [1; 2; 3; 4]
    [1; 2; 3; 4; 5; 6; 7; 8]) as [H _];
    [repeat constructor; vm_compute; congruence|reflexivity
    |repeat constructor; vm_compute; congruence|reflexivity
    |repeat constructor; vm_compute; congruence|reflexivity|].
  exact H.
Defined.

(** Host-to-network after network-to-host conversion keeps every value of the width, for
    each mix of constant and run-time conversions. *)
Theorem hton_ntoh_roundtrip en cp cp' x y z :
  is_unsigned 16 x -> is_unsigned 32 y -> is_unsigned 64 z ->
  bpf_htons en cp (bpf_ntohs en cp' x) = x /\
  bpf_htonl en cp (bpf_ntohl en cp' y) = y /\
  bpf_cpu_to_be64 en cp (bpf_be64_to_cpu en cp' z) = z.
Proof.
  intros Hx Hy Hz.
  rewrite (ntohs_bswap en cp' x), (ntohl_bswap en cp' y), (be64_bswap en cp' z).
  split_and!; destruct cp, en; simpl; try done;
    rewrite ?swab16_bswap, ?swab32_bswap, ?swab64_bswap, bswap_bswap; by apply wrap_id.
Qed.

Lemma hton_ntoh_roundtrip_witness :
  bpf_htons LittleEndian true (bpf_ntohs LittleEndian false 53) = 53.
Proof.
  apply (hton_ntoh_roundtrip LittleEndian true false 53 53 53);
    split; vm_compute; congruence.
Defined.
