(* ===== verification/VmlinuxMissing.v ===== *)
(** Kernel macros and type flavors: src/ebpf/c/include/vmlinux_missing.h and
    src/ebpf/c/include/vmlinux_flavors.h.

    [Module missing] has the macros of vmlinux_missing.h under their names: member aliases as
    designators, numeric constants, the ioctl number encoding, the architecture-dependent page and
    stack sizes, and the two inline functions.  The macros that repeat an enumerator of vmlinux.h
    carry the suffix [_macro].  [Module flavors] has the types of older kernels. *)
From S2P Require Import Prelude CAbi Vmlinux.
From stdpp Require Import base numbers list strings.
Local Open Scope string_scope.
Local Open Scope Z_scope.

Module missing.
Definition ULLONG_MAX : Z := wrap 64 (Z.lnot 0).

(** Member aliases: designators relative to [struct inet_sock] and [struct sock]. *)
Definition inet_daddr : list selector := [Dot "sk"; Dot "__sk_common"; Dot "skc_daddr"].
Definition inet_rcv_saddr : list selector := [Dot "sk"; Dot "__sk_common"; Dot "skc_rcv_saddr"].
Definition inet_dport : list selector := [Dot "sk"; Dot "__sk_common"; Dot "skc_dport"].
Definition inet_num : list selector := [Dot "sk"; Dot "__sk_common"; Dot "skc_num"].
Definition sk_node : list selector := [Dot "__sk_common"; Dot "skc_node"].
Definition sk_nulls_node : list selector := [Dot "__sk_common"; Dot "skc_nulls_node"].
Definition sk_refcnt : list selector := [Dot "__sk_common"; Dot "skc_refcnt"].
Definition sk_tx_queue_mapping : list selector := [Dot "__sk_common"; Dot "skc_tx_queue_mapping"].
Definition sk_dontcopy_begin : list selector := [Dot "__sk_common"; Dot "skc_dontcopy_begin"].
Definition sk_dontcopy_end : list selector := [Dot "__sk_common"; Dot "skc_dontcopy_end"].
Definition sk_hash : list selector := [Dot "__sk_common"; Dot "skc_hash"].
Definition sk_portpair : list selector := [Dot "__sk_common"; Dot "skc_portpair"].
Definition sk_num : list selector := [Dot "__sk_common"; Dot "skc_num"].
Definition sk_dport : list selector := [Dot "__sk_common"; Dot "skc_dport"].
Definition sk_addrpair : list selector := [Dot "__sk_common"; Dot "skc_addrpair"].
Definition sk_daddr : list selector := [Dot "__sk_common"; Dot "skc_daddr"].
Definition sk_rcv_saddr : list selector := [Dot "__sk_common"; Dot "skc_rcv_saddr"].
Definition sk_family : list selector := [Dot "__sk_common"; Dot "skc_family"].
Definition sk_state : list selector := [Dot "__sk_common"; Dot "skc_state"].
Definition sk_reuse : list selector := [Dot "__sk_common"; Dot "skc_reuse"].
Definition sk_reuseport : list selector := [Dot "__sk_common"; Dot "skc_reuseport"].
Definition sk_ipv6only : list selector := [Dot "__sk_common"; Dot "skc_ipv6only"].
Definition sk_net_refcnt : list selector := [Dot "__sk_common"; Dot "skc_net_refcnt"].
Definition sk_bound_dev_if : list selector := [Dot "__sk_common"; Dot "skc_bound_dev_if"].
Definition sk_bind_node : list selector := [Dot "__sk_common"; Dot "skc_bind_node"].
Definition sk_prot : list selector := [Dot "__sk_common"; Dot "skc_prot"].
Definition sk_net : list selector := [Dot "__sk_common"; Dot "skc_net"].
Definition sk_v6_daddr : list selector := [Dot "__sk_common"; Dot "skc_v6_daddr"].
Definition sk_v6_rcv_saddr : list selector := [Dot "__sk_common"; Dot "skc_v6_rcv_saddr"].
Definition sk_cookie : list selector := [Dot "__sk_common"; Dot "skc_cookie"].
Definition sk_incoming_cpu : list selector := [Dot "__sk_common"; Dot "skc_incoming_cpu"].
Definition sk_flags : list selector := [Dot "__sk_common"; Dot "skc_flags"].
Definition sk_rxhash : list selector := [Dot "__sk_common"; Dot "skc_rxhash"].
Definition ICMP_ECHO : Z := 8.
Definition ICMP_EXT_ECHO : Z := 42.
Definition ICMPV6_ECHO_REQUEST : Z := 128.
Definition PF_KTHREAD : Z := 0x200000.
Definition TASK_COMM_LEN : Z := 16.
Definition PROC_SUPER_MAGIC : Z := 0x9fa0.

(** ioctl numbers. *)
Definition _IOC_NRBITS : Z := 8.
Definition _IOC_TYPEBITS : Z := 8.
Definition _IOC_SIZEBITS : Z := 14.
Definition _IOC_NRSHIFT : Z := 0.
Definition _IOC_TYPESHIFT : Z := _IOC_NRSHIFT + _IOC_NRBITS.
Definition _IOC_SIZESHIFT : Z := _IOC_TYPESHIFT + _IOC_TYPEBITS.
Definition _IOC_DIRSHIFT : Z := _IOC_SIZESHIFT + _IOC_SIZEBITS.
Definition _IOC_WRITE : Z := 1.
Definition _IOC (dir type nr size : Z) : Z :=
  Z.lor (Z.lor (Z.lor (Z.shiftl dir _IOC_DIRSHIFT) (Z.shiftl type _IOC_TYPESHIFT))
    (Z.shiftl nr _IOC_NRSHIFT)) (Z.shiftl size _IOC_SIZESHIFT).
Definition _IOC_TYPECHECK (t : ctype) : Z := sizeof t.
Definition _IOW (type nr : Z) (size : ctype) : Z := _IOC _IOC_WRITE type nr (_IOC_TYPECHECK size).
Definition PERF_EVENT_IOC_SET_BPF : Z := _IOW 36 8 vmlinux.__u32.

Inductive perf_type_id :=
| PERF_TYPE_HARDWARE
| PERF_TYPE_SOFTWARE
| PERF_TYPE_TRACEPOINT
| PERF_TYPE_HW_CACHE
| PERF_TYPE_RAW
| PERF_TYPE_BREAKPOINT
| PERF_TYPE_MAX.
#[global] Instance perf_type_id_eq_dec : EqDecision perf_type_id.
Proof. solve_decision. Defined.
Definition perf_type_id_decl : list (perf_type_id * option Z) :=
  [(PERF_TYPE_HARDWARE, Some 0); (PERF_TYPE_SOFTWARE, Some 1); (PERF_TYPE_TRACEPOINT, Some 2);
   (PERF_TYPE_HW_CACHE, Some 3); (PERF_TYPE_RAW, Some 4); (PERF_TYPE_BREAKPOINT, Some 5);
   (PERF_TYPE_MAX, None)].
#[global] Instance perf_type_id_enum : CEnum perf_type_id := { enum_decl := perf_type_id_decl }.

(** Architecture-specific sizes. *)
Definition TS_COMPAT : Z := 0x0002.
Definition KASAN_STACK_ORDER : Z := 0.
Definition THREAD_SIZE_ORDER : Z := 2 + KASAN_STACK_ORDER.
Definition PAGE_SHIFT_x86 : Z := 12.
Definition PAGE_SIZE_x86 : Z := Z.shiftl 1 PAGE_SHIFT_x86.
Definition PAGE_MASK : Z := wrap 64 (Z.lnot (PAGE_SIZE_x86 - 1)).
Definition THREAD_SIZE_x86 : Z := Z.shiftl PAGE_SIZE_x86 THREAD_SIZE_ORDER.
Definition TOP_OF_KERNEL_STACK_PADDING : Z := 0.
Definition PAGE_SHIFT_arm64 : Z := 12.
Definition PAGE_SIZE_arm64 : Z := Z.shiftl 1 PAGE_SHIFT_arm64.
Definition _TIF_32BIT : Z := Z.shiftl 1 22.
Definition MIN_THREAD_SHIFT : Z := 14.
Definition THREAD_SHIFT : Z := MIN_THREAD_SHIFT.
Definition THREAD_SIZE_arm64 : Z := Z.shiftl 1 THREAD_SHIFT.
Definition THREAD_SIZE (a : target_arch) : Z :=
  match a with TARGET_ARCH_x86 => THREAD_SIZE_x86 | TARGET_ARCH_arm64 => THREAD_SIZE_arm64 end.
Definition PAGE_SIZE (a : target_arch) : Z :=
  match a with TARGET_ARCH_x86 => PAGE_SIZE_x86 | TARGET_ARCH_arm64 => PAGE_SIZE_arm64 end.

Definition VM_NONE : Z := 0x0.
Definition VM_READ : Z := 0x1.
Definition VM_WRITE : Z := 0x2.
Definition VM_EXEC : Z := 0x4.
Definition VM_SHARED : Z := 0x8.
Definition TC_ACT_UNSPEC : Z := -1.
Definition TC_ACT_OK : Z := 0.
Definition TC_ACT_RECLASSIFY : Z := 1.
Definition TC_ACT_SHOT : Z := 2.
Definition TC_ACT_PIPE : Z := 3.
Definition TC_ACT_STOLEN : Z := 4.
Definition TC_ACT_QUEUED : Z := 5.
Definition TC_ACT_REPEAT : Z := 6.
Definition TC_ACT_REDIRECT : Z := 7.
Definition ETH_P_IP : Z := 0x800.
Definition ETH_P_IPV6 : Z := 0x86dd.
Definition s6_addr : list selector := [Dot "in6_u"; Dot "u6_addr8"].
Definition s6_addr16 : list selector := [Dot "in6_u"; Dot "u6_addr16"].
Definition s6_addr32 : list selector := [Dot "in6_u"; Dot "u6_addr32"].
Definition S_IFMT : Z := 0xf000.  (* octal 00170000 *)
Definition S_IFSOCK : Z := 0xc000.  (* octal 0140000 *)
Definition S_IFLNK : Z := 0xa000.  (* octal 0120000 *)
Definition S_IFREG : Z := 0x8000.  (* octal 0100000 *)
Definition S_IFBLK : Z := 0x6000.  (* octal 0060000 *)
Definition S_IFDIR : Z := 0x4000.  (* octal 0040000 *)
Definition S_IFCHR : Z := 0x2000.  (* octal 0020000 *)
Definition S_IFIFO : Z := 0x1000.  (* octal 0010000 *)
Definition S_ISUID : Z := 0x800.  (* octal 0004000 *)
Definition S_ISGID : Z := 0x400.  (* octal 0002000 *)
Definition S_ISVTX : Z := 0x200.  (* octal 0001000 *)
Definition CAP_OPT_NONE : Z := 0x0.
Definition CAP_OPT_NOAUDIT : Z := 2.
Definition CAP_OPT_INSETID : Z := 4.
Definition PIPE_BUF_FLAG_CAN_MERGE : Z := 0x10.
Definition PF_UNSPEC : Z := 0.
Definition PF_LOCAL : Z := 1.
Definition PF_UNIX : Z := PF_LOCAL.
Definition PF_FILE : Z := PF_LOCAL.
Definition PF_INET : Z := 2.
Definition PF_BRIDGE : Z := 7.
Definition PF_INET6 : Z := 10.
Definition PF_KEY : Z := 15.
Definition PF_NETLINK : Z := 16.
Definition PF_ROUTE : Z := PF_NETLINK.
Definition PF_PACKET : Z := 17.
Definition PF_IB : Z := 27.
Definition PF_MPLS : Z := 28.
Definition PF_BLUETOOTH : Z := 31.
Definition PF_VSOCK : Z := 40.
Definition PF_XDP : Z := 44.
Definition AF_UNSPEC : Z := PF_UNSPEC.
Definition AF_LOCAL : Z := PF_LOCAL.
Definition AF_UNIX : Z := PF_UNIX.
Definition AF_FILE : Z := PF_FILE.
Definition AF_INET : Z := PF_INET.
Definition AF_INET6 : Z := PF_INET6.
Definition AF_KEY : Z := PF_KEY.
Definition AF_NETLINK : Z := PF_NETLINK.
Definition AF_ROUTE : Z := PF_ROUTE.
Definition AF_PACKET : Z := PF_PACKET.
Definition AF_IB : Z := PF_IB.
Definition AF_MPLS : Z := PF_MPLS.
Definition AF_BLUETOOTH : Z := PF_BLUETOOTH.
Definition AF_VSOCK : Z := PF_VSOCK.
Definition AF_XDP : Z := PF_XDP.

Definition IPPROTO_IPIP_macro : Z := 4.
Definition IPPROTO_DCCP_macro : Z := 33.
Definition IPPROTO_IPV6_macro : Z := 41.
Definition IPPROTO_ICMPV6_macro : Z := 58.
Definition IPPROTO_SCTP_macro : Z := 132.
Definition IPPROTO_UDPLITE_macro : Z := 136.
Definition IPPROTO_HOPOPTS_macro : Z := 0.
Definition IPPROTO_ROUTING_macro : Z := 43.
Definition IPPROTO_FRAGMENT_macro : Z := 44.
Definition IPPROTO_NONE_macro : Z := 59.
Definition IPPROTO_DSTOPTS_macro : Z := 60.
Definition IPPROTO_MH_macro : Z := 135.

(** [ipv6_addr_any]: [a] is the 16 bytes of a [struct in6_addr]. *)
Definition in6_word (en : endian) (a : list Z) (i : Z) : Z :=
  default 0 (read_member en vmlinux.in6_addr (s6_addr32 ++ [Idx i])%list a).
Definition ipv6_addr_any (en : endian) (a : list Z) : bool :=
  Z.lor (Z.lor (Z.lor (in6_word en a 0) (in6_word en a 1)) (in6_word en a 2)) (in6_word en a 3)
  =? 0.

(** [inet_sk] is a pointer cast. *)
Definition inet_sk (sk : Z) : Z := sk.

(** [__get_node_addr(array, node_type, index)]; [get_type_size] is the size the loader fills in
    for the node type. *)
Definition __get_node_addr (array get_type_size index : Z) : Z :=
  wrap 64 (array + index * get_type_size).
End missing.

Module flavors.
Definition kernfs_node_id : ctype := cunion [
    anon (cstruct [
      fld "ino" vmlinux.u32;
      fld "generation" vmlinux.u32
    ]);
    fld "id" vmlinux.u64
  ].
Definition kernfs_node___older_v55 : ctype := cstruct [
    fld "name" (CPtr "char");
    fld "id" kernfs_node_id
  ].
Definition kernfs_node___rh8 : ctype := cstruct [
    fld "name" (CPtr "char");
    anon (cunion [
      fld "id" vmlinux.u64;
      fld "rh_kabi_hidden_172" (cstruct [
        fld "id" kernfs_node_id
      ]);
      anon (cunion [])
    ])
  ].
Definition sock___old : ctype := cstruct [
    fld "__sk_common" vmlinux.sock_common;
    fld "__sk_flags_offset" (CArr c_uint 0);
    bitfld "sk_padding" 1 c_uint;
    bitfld "sk_kern_sock" 1 c_uint;
    bitfld "sk_no_check_tx" 1 c_uint;
    bitfld "sk_no_check_rx" 1 c_uint;
    bitfld "sk_userlocks" 4 c_uint;
    bitfld "sk_protocol" 8 c_uint;
    bitfld "sk_type" 16 c_uint;
    fld "sk_gso_max_segs" vmlinux.u16
  ].
Inductive pid_type :=
| PIDTYPE_PID
| PIDTYPE_PGID
| PIDTYPE_SID
| PIDTYPE_MAX
| __PIDTYPE_TGID.
#[global] Instance pid_type_eq_dec : EqDecision pid_type.
Proof. solve_decision. Defined.
Definition pid_type_decl : list (pid_type * option Z) :=
  [(PIDTYPE_PID, None); (PIDTYPE_PGID, None); (PIDTYPE_SID, None); (PIDTYPE_MAX, None); (__PIDTYPE_TGID, None)].
#[global] Instance pid_type_enum : CEnum pid_type := { enum_decl := pid_type_decl }.
Definition pid_link : ctype := cstruct [
    fld "node" vmlinux.hlist_node;
    fld "pid" (CPtr "struct pid")
  ].
Definition task_struct___older_v50 : ctype := cstruct [
    fld "pids" (CArr pid_link (enum_val PIDTYPE_MAX))
  ].
Definition trace_probe___v53 : ctype := cstruct [
    fld "call" vmlinux.trace_event_call
  ].
Definition kernel_cap_struct___older : ctype := cstruct [
    fld "cap" (CArr vmlinux.__u32 2)
  ].
Definition kernel_cap_t___older : ctype := kernel_cap_struct___older.

(** Every struct and union of vmlinux_flavors.h. *)
Definition flavor_types : list (string * ctype) :=
  [("union kernfs_node_id", kernfs_node_id);
   ("struct kernfs_node___older_v55", kernfs_node___older_v55);
   ("struct kernfs_node___rh8", kernfs_node___rh8);
   ("struct sock___old", sock___old);
   ("struct pid_link", pid_link);
   ("struct task_struct___older_v50", task_struct___older_v50);
   ("struct trace_probe___v53", trace_probe___v53);
   ("struct kernel_cap_struct___older", kernel_cap_struct___older)].
End flavors.

#[global] Instance perf_type_id_ok : CEnumOk missing.perf_type_id.
Proof. solve_enum_ok. Qed.
#[global] Instance pid_type_ok : CEnumOk flavors.pid_type.
Proof. solve_enum_ok. Qed.

(** The fields of an ioctl number. *)
Definition ioc_field (x shift width : Z) : Z := Z.land (Z.shiftr x shift) (Z.ones width).

Lemma in6_word_load en a (i : nat) :
  bytes_ok a -> length a = 16%nat -> (i < 4)%nat ->
  missing.in6_word en a (Z.of_nat i) = load_uint en (slice (4 * i) 4 a).
Proof.
  intros Hok Hl Hi. rewrite <- extract_load by (done || lia).
  unfold missing.in6_word, read_member.
  assert (resolve vmlinux.in6_addr (missing.s6_addr32 ++ [Idx (Z.of_nat i)])%list =
          Some (8 * Z.of_nat (4 * i), None, vmlinux.__be32)) as ->; [|done].
  destruct i as [|[|[|[|]]]]; try lia; reflexivity.
Qed.

Lemma load_uint_zero en bs : bytes_ok bs -> load_uint en bs = 0 -> Forall (λ b, b = 0) bs.
Proof.
  assert (Hle : forall bs, bytes_ok bs -> le_combine bs = 0 -> Forall (λ b, b = 0) bs).
  { clear bs. induction 1 as [|b bs Hb Hbs IH]; intros Hz; constructor; simpl in Hz;
      pose proof (le_combine_bound bs Hbs); unfold byte_ok in Hb; [lia|apply IH; lia]. }
  destruct en; simpl; [apply Hle|]. unfold be_combine. intros Hok Hz.
  apply Forall_reverse. auto with egress.
Qed.

Lemma load_uint_of_zeros en bs : Forall (λ b, b = 0) bs -> load_uint en bs = 0.
Proof.
  assert (Hle : forall bs, Forall (λ b, b = 0) bs -> le_combine bs = 0).
  { clear bs. induction 1 as [|b bs -> _ IH]; simpl; lia. }
  destruct en; simpl; [apply Hle|]. intros. unfold be_combine. apply Hle. by rewrite Forall_reverse.
Qed.

Lemma sixteen_bytes {A} (a : list A) :
  length a = 16%nat ->
  a = (slice 0 4 a ++ slice 4 4 a ++ slice 8 4 a ++ slice 12 4 a)%list.
Proof. intros. do 17 (destruct a as [|? a]; try done). Qed.

(** [ipv6_addr_any] holds exactly of the all-zero address, in both byte orders. *)
Theorem ipv6_addr_any_spec en a :
  bytes_ok a -> length a = 16%nat ->
  missing.ipv6_addr_any en a = true <-> a = replicate 16 0.
Proof.
  intros Hok Hl. unfold missing.ipv6_addr_any.
  rewrite Z.eqb_eq, !Z.lor_eq_0_iff.
  pose proof (in6_word_load en a 0 Hok Hl) as H0. pose proof (in6_word_load en a 1 Hok Hl) as H1.
  pose proof (in6_word_load en a 2 Hok Hl) as H2. pose proof (in6_word_load en a 3 Hok Hl) as H3.
  cbv [Z.of_nat Pos.of_succ_nat Pos.succ] in H0, H1, H2, H3.
  rewrite H0, H1, H2, H3 by lia. clear H0 H1 H2 H3. split.
  - intros [ [ [H0 H1] H2] H3]. apply load_uint_zero in H0, H1, H2, H3; auto with egress.
    symmetry. apply replicate_as_elem_of. split; [done|]. apply Forall_forall.
    rewrite (sixteen_bytes a Hl). auto using Forall_app_2.
  - intros ->. split_and!; apply load_uint_of_zeros; repeat constructor.
Qed.

Lemma ipv6_addr_any_spec_witness :
  missing.ipv6_addr_any BigEndian (replicate 16 0) = true <-> replicate 16 0 = replicate 16 0.
Proof.
  apply (ipv6_addr_any_spec BigEndian (replicate 16 0)).
  - repeat constructor; vm_compute; congruence.
  - reflexivity.
Defined.

Lemma IOC_sum dir type nr size :
  0 <= type < 2 ^ 8 -> 0 <= nr < 2 ^ 8 -> 0 <= size < 2 ^ 14 ->
  missing._IOC dir type nr size = dir * 2 ^ 30 + size * 2 ^ 16 + type * 2 ^ 8 + nr.
Proof.
  intros Ht Hn Hs. unfold missing._IOC.
  change missing._IOC_DIRSHIFT with 30. change missing._IOC_TYPESHIFT with 8.
  change missing._IOC_NRSHIFT with 0. change missing._IOC_SIZESHIFT with 16.
  rewrite !Z.shiftl_mul_pow2 by lia. change (2 ^ 0) with 1. rewrite Z.mul_1_r.
  rewrite <- Z.lor_assoc, (Z.lor_comm nr), <- Z.lor_assoc, (Z.lor_assoc (type * 2 ^ 8)).
  rewrite (Z.lor_comm (type * 2 ^ 8)).
  rewrite (Z.lor_assoc (dir * 2 ^ 30)), (Z.lor_assoc (dir * 2 ^ 30)).
  rewrite (lor_disjoint_add dir (size * 2 ^ 16) 30) by lia.
  replace (dir * 2 ^ 30 + size * 2 ^ 16) with ((dir * 2 ^ 14 + size) * 2 ^ 16) by lia.
  rewrite (lor_disjoint_add _ (type * 2 ^ 8) 16) by lia.
  replace ((dir * 2 ^ 14 + size) * 2 ^ 16 + type * 2 ^ 8)
    with (((dir * 2 ^ 14 + size) * 2 ^ 8 + type) * 2 ^ 8) by lia.
  rewrite lor_disjoint_add by lia. lia.
Qed.

(** C40: an ioctl number built by [_IOC] gives back its direction, type, number and size when the
    fields fit their widths; the four fields do not disturb each other. *)
Theorem IOC_roundtrip dir type nr size :
  0 <= dir < 4 -> 0 <= type < 2 ^ missing._IOC_TYPEBITS -> 0 <= nr < 2 ^ missing._IOC_NRBITS ->
  0 <= size < 2 ^ missing._IOC_SIZEBITS ->
  let x := missing._IOC dir type nr size in
  ioc_field x missing._IOC_DIRSHIFT 2 = dir /\
  ioc_field x missing._IOC_TYPESHIFT missing._IOC_TYPEBITS = type /\
  ioc_field x missing._IOC_NRSHIFT missing._IOC_NRBITS = nr /\
  ioc_field x missing._IOC_SIZESHIFT missing._IOC_SIZEBITS = size /\
  is_unsigned 32 x.
Proof.
  intros Hd Ht Hn Hs x. unfold x. rewrite (IOC_sum _ _ _ _ Ht Hn Hs).
  unfold ioc_field. rewrite !land_ones_shiftr by (vm_compute; congruence).
  change (2 ^ missing._IOC_TYPEBITS) with 256 in *. change (2 ^ missing._IOC_NRBITS) with 256 in *.
  change (2 ^ missing._IOC_SIZEBITS) with 16384 in *.
  change (2 ^ missing._IOC_DIRSHIFT) with 1073741824.
  change (2 ^ missing._IOC_TYPESHIFT) with 256. change (2 ^ missing._IOC_NRSHIFT) with 1.
  change (2 ^ missing._IOC_SIZESHIFT) with 65536. unfold is_unsigned.
  change (2 ^ 30) with 1073741824. change (2 ^ 16) with 65536. change (2 ^ 8) with 256.
  change (2 ^ 2) with 4. change (2 ^ 32) with 4294967296.
  split_and!; try lia; Z.to_euclidean_division_equations; lia.
Qed.

Lemma IOC_roundtrip_witness :
  ioc_field missing.PERF_EVENT_IOC_SET_BPF missing._IOC_SIZESHIFT missing._IOC_SIZEBITS = 4.
Proof.
  apply (IOC_roundtrip missing._IOC_WRITE 36 8 (sizeof vmlinux.__u32));
    split; vm_compute; congruence.
Defined.

(** Casting a [struct sock] pointer with [inet_sk] is sound: [struct inet_sock] begins with
    the socket, so every designator into the socket has the same position, width and type when it
    is read through the cast pointer. *)
Theorem inet_sk_cast_sound path sk :
  missing.inet_sk sk = sk /\
  resolve vmlinux.inet_sock (Dot "sk" :: path) = resolve vmlinux.sock path /\
  resolve vmlinux.inet_sock missing.inet_daddr = resolve vmlinux.sock missing.sk_daddr /\
  resolve vmlinux.inet_sock missing.inet_rcv_saddr = resolve vmlinux.sock missing.sk_rcv_saddr /\
  resolve vmlinux.inet_sock missing.inet_dport = resolve vmlinux.sock missing.sk_dport /\
  resolve vmlinux.inet_sock missing.inet_num = resolve vmlinux.sock missing.sk_num.
Proof.
  split_and!; try reflexivity. cbn [resolve].
  change (find_member "sk" vmlinux.inet_sock) with (Some (0, @None Z, vmlinux.sock)). simpl.
  by destruct (resolve vmlinux.sock path) as [ [ [o b] t]|].
Qed.

(** The TCP state each mask of the [TCPF_] enumeration stands for. *)
Definition tcpf_of (f : vmlinux.tcpf_state) : vmlinux.tcp_state :=
  match f with
  | vmlinux.TCPF_ESTABLISHED => vmlinux.TCP_ESTABLISHED
  | vmlinux.TCPF_SYN_SENT => vmlinux.TCP_SYN_SENT
  | vmlinux.TCPF_FIN_WAIT1 => vmlinux.TCP_FIN_WAIT1
  | vmlinux.TCPF_FIN_WAIT2 => vmlinux.TCP_FIN_WAIT2
  | vmlinux.TCPF_TIME_WAIT => vmlinux.TCP_TIME_WAIT
  | vmlinux.TCPF_CLOSE => vmlinux.TCP_CLOSE
  | vmlinux.TCPF_CLOSE_WAIT => vmlinux.TCP_CLOSE_WAIT
  | vmlinux.TCPF_LAST_ACK => vmlinux.TCP_LAST_ACK
  | vmlinux.TCPF_LISTEN => vmlinux.TCP_LISTEN
  | vmlinux.TCPF_CLOSING => vmlinux.TCP_CLOSING
  | vmlinux.TCPF_NEW_SYN_RECV => vmlinux.TCP_NEW_SYN_RECV
  end.

(** Constants declared twice agree: the [IPPROTO_] macros with the enumerators, the
    [TCPF_] masks with the [TCP_] states; the file-type bits are disjoint from the mode bits; and
    the kernel stack is 16 KiB on both targets. *)
Theorem kernel_constants_agree f arch :
  [missing.IPPROTO_IPIP_macro; missing.IPPROTO_DCCP_macro; missing.IPPROTO_IPV6_macro;
   missing.IPPROTO_SCTP_macro; missing.IPPROTO_UDPLITE_macro; missing.IPPROTO_HOPOPTS_macro] =
  map enum_val [vmlinux.IPPROTO_IPIP; vmlinux.IPPROTO_DCCP; vmlinux.IPPROTO_IPV6;
   vmlinux.IPPROTO_SCTP; vmlinux.IPPROTO_UDPLITE; vmlinux.IPPROTO_IP] /\
  enum_val f = Z.shiftl 1 (enum_val (tcpf_of f)) /\
  Forall (λ m, Z.land m missing.S_IFMT = m)
    [missing.S_IFSOCK; missing.S_IFLNK; missing.S_IFREG; missing.S_IFBLK; missing.S_IFDIR;
     missing.S_IFCHR; missing.S_IFIFO] /\
  Forall (λ m, Z.land m missing.S_IFMT = 0) [missing.S_ISUID; missing.S_ISGID; missing.S_ISVTX] /\
  missing.PERF_EVENT_IOC_SET_BPF = 0x40042408 /\
  missing.THREAD_SIZE arch = 4 * missing.PAGE_SIZE arch.
Proof.
  split_and!; try reflexivity; try (by repeat constructor).
  - by destruct f.
  - by destruct arch.
Qed.
