(* ===== verification/HelperDefs.v ===== *)
(** BPF helper functions: src/ebpf/c/include/bpf_helper_defs.h.

    The header declares each kernel helper as a pointer to its number.  A [helper] is that
    declaration: number, name, return type and arguments, and two facts of the "Returns" section of
    its documentation, whether it names a negative error and whether it names [NULL] as a result.
    The helpers themselves are kernel code; the eBPF program's model takes them as arguments. *)
From S2P Require Import Prelude CAbi Vmlinux.
From stdpp Require Import base numbers list strings.
Local Open Scope string_scope.
Local Open Scope Z_scope.

(** Argument and result types; a pointer carries what it points to and whether that is const. *)
Inductive carg := AVal (t : ctype) | APtr (const : bool) (pointee : string).
Inductive cret := RVoid | RVal (t : ctype) | RPtr (pointee : string).

Record helper := Helper {
  h_id : Z;
  h_name : string;
  h_ret : cret;
  h_args : list (string * carg);
  h_variadic : bool;
  h_doc_negative : bool;  (* the documentation names a negative error result *)
  h_doc_null : bool       (* the documentation names NULL as a result *)
}.

Module helpers.
Definition bpf_map_lookup_elem : helper :=
  Helper 1 "bpf_map_lookup_elem" (RPtr "void")
    [("map", APtr false "void");
     ("key", APtr true "void")] false false true.
Definition bpf_map_update_elem : helper :=
  Helper 2 "bpf_map_update_elem" (RVal c_long)
    [("map", APtr false "void");
     ("key", APtr true "void");
     ("value", APtr true "void");
     ("flags", AVal vmlinux.__u64)] false true false.
Definition bpf_map_delete_elem : helper :=
  Helper 3 "bpf_map_delete_elem" (RVal c_long)
    [("map", APtr false "void");
     ("key", APtr true "void")] false true false.
Definition bpf_probe_read : helper :=
  Helper 4 "bpf_probe_read" (RVal c_long)
    [("dst", APtr false "void");
     ("size", AVal vmlinux.__u32);
     ("unsafe_ptr", APtr true "void")] false true false.
Definition bpf_ktime_get_ns : helper :=
  Helper 5 "bpf_ktime_get_ns" (RVal vmlinux.__u64)
    [] false false false.
Definition bpf_trace_printk : helper :=
  Helper 6 "bpf_trace_printk" (RVal c_long)
    [("fmt", APtr true "char");
     ("fmt_size", AVal vmlinux.__u32)] true true false.
Definition bpf_get_prandom_u32 : helper :=
  Helper 7 "bpf_get_prandom_u32" (RVal vmlinux.__u32)
    [] false false false.
Definition bpf_get_smp_processor_id : helper :=
  Helper 8 "bpf_get_smp_processor_id" (RVal vmlinux.__u32)
    [] false false false.
Definition bpf_skb_store_bytes : helper :=
  Helper 9 "bpf_skb_store_bytes" (RVal c_long)
    [("skb", APtr false "struct __sk_buff");
     ("offset", AVal vmlinux.__u32);
     ("from", APtr true "void");
     ("len", AVal vmlinux.__u32);
     ("flags", AVal vmlinux.__u64)] false true false.
Definition bpf_l3_csum_replace : helper :=
  Helper 10 "bpf_l3_csum_replace" (RVal c_long)
    [("skb", APtr false "struct __sk_buff");
     ("offset", AVal vmlinux.__u32);
     ("from", AVal vmlinux.__u64);
     ("to", AVal vmlinux.__u64);
     ("size", AVal vmlinux.__u64)] false true false.
Definition bpf_l4_csum_replace : helper :=
  Helper 11 "bpf_l4_csum_replace" (RVal c_long)
    [("skb", APtr false "struct __sk_buff");
     ("offset", AVal vmlinux.__u32);
     ("from", AVal vmlinux.__u64);
     ("to", AVal vmlinux.__u64);
     ("flags", AVal vmlinux.__u64)] false true false.
Definition bpf_tail_call : helper :=
  Helper 12 "bpf_tail_call" (RVal c_long)
    [("ctx", APtr false "void");
     ("prog_array_map", APtr false "void");
     ("index", AVal vmlinux.__u32)] false true false.
Definition bpf_clone_redirect : helper :=
  Helper 13 "bpf_clone_redirect" (RVal c_long)
    [("skb", APtr false "struct __sk_buff");
     ("ifindex", AVal vmlinux.__u32);
     ("flags", AVal vmlinux.__u64)] false true false.
Definition bpf_get_current_pid_tgid : helper :=
  Helper 14 "bpf_get_current_pid_tgid" (RVal vmlinux.__u64)
    [] false false false.
Definition bpf_get_current_uid_gid : helper :=
  Helper 15 "bpf_get_current_uid_gid" (RVal vmlinux.__u64)
    [] false false false.
Definition bpf_get_current_comm : helper :=
  Helper 16 "bpf_get_current_comm" (RVal c_long)
    [("buf", APtr false "void");
     ("size_of_buf", AVal vmlinux.__u32)] false true false.
Definition bpf_get_cgroup_classid : helper :=
  Helper 17 "bpf_get_cgroup_classid" (RVal vmlinux.__u32)
    [("skb", APtr false "struct __sk_buff")] false false false.
Definition bpf_skb_vlan_push : helper :=
  Helper 18 "bpf_skb_vlan_push" (RVal c_long)
    [("skb", APtr false "struct __sk_buff");
     ("vlan_proto", AVal vmlinux.__be16);
     ("vlan_tci", AVal vmlinux.__u16)] false true false.
Definition bpf_skb_vlan_pop : helper :=
  Helper 19 "bpf_skb_vlan_pop" (RVal c_long)
    [("skb", APtr false "struct __sk_buff")] false true false.
Definition bpf_skb_get_tunnel_key : helper :=
  Helper 20 "bpf_skb_get_tunnel_key" (RVal c_long)
    [("skb", APtr false "struct __sk_buff");
     ("key", APtr false "struct bpf_tunnel_key");
     ("size", AVal vmlinux.__u32);
     ("flags", AVal vmlinux.__u64)] false true false.
Definition bpf_skb_set_tunnel_key : helper :=
  Helper 21 "bpf_skb_set_tunnel_key" (RVal c_long)
    [("skb", APtr false "struct __sk_buff");
     ("key", APtr false "struct bpf_tunnel_key");
     ("size", AVal vmlinux.__u32);
     ("flags", AVal vmlinux.__u64)] false true false.
Definition bpf_perf_event_read : helper :=
  Helper 22 "bpf_perf_event_read" (RVal vmlinux.__u64)
    [("map", APtr false "void");
     ("flags", AVal vmlinux.__u64)] false true false.
Definition bpf_redirect : helper :=
  Helper 23 "bpf_redirect" (RVal c_long)
    [("ifindex", AVal vmlinux.__u32);
     ("flags", AVal vmlinux.__u64)] false false false.
Definition bpf_get_route_realm : helper :=
  Helper 24 "bpf_get_route_realm" (RVal vmlinux.__u32)
    [("skb", APtr false "struct __sk_buff")] false false false.
Definition bpf_perf_event_output : helper :=
  Helper 25 "bpf_perf_event_output" (RVal c_long)
    [("ctx", APtr false "void");
     ("map", APtr false "void");
     ("flags", AVal vmlinux.__u64);
     ("data", APtr false "void");
     ("size", AVal vmlinux.__u64)] false true false.
Definition bpf_skb_load_bytes : helper :=
  Helper 26 "bpf_skb_load_bytes" (RVal c_long)
    [("skb", APtr true "void");
     ("offset", AVal vmlinux.__u32);
     ("to", APtr false "void");
     ("len", AVal vmlinux.__u32)] false true false.
Definition bpf_get_stackid : helper :=
  Helper 27 "bpf_get_stackid" (RVal c_long)
    [("ctx", APtr false "void");
     ("map", APtr false "void");
     ("flags", AVal vmlinux.__u64)] false true false.
Definition bpf_csum_diff : helper :=
  Helper 28 "bpf_csum_diff" (RVal vmlinux.__s64)
    [("from", APtr false "__be32");
     ("from_size", AVal vmlinux.__u32);
     ("to", APtr false "__be32");
     ("to_size", AVal vmlinux.__u32);
     ("seed", AVal vmlinux.__wsum)] false true false.
Definition bpf_skb_get_tunnel_opt : helper :=
  Helper 29 "bpf_skb_get_tunnel_opt" (RVal c_long)
    [("skb", APtr false "struct __sk_buff");
     ("opt", APtr false "void");
     ("size", AVal vmlinux.__u32)] false false false.
Definition bpf_skb_set_tunnel_opt : helper :=
  Helper 30 "bpf_skb_set_tunnel_opt" (RVal c_long)
    [("skb", APtr false "struct __sk_buff");
     ("opt", APtr false "void");
     ("size", AVal vmlinux.__u32)] false true false.
Definition bpf_skb_change_proto : helper :=
  Helper 31 "bpf_skb_change_proto" (RVal c_long)
    [("skb", APtr false "struct __sk_buff");
     ("proto", AVal vmlinux.__be16);
     ("flags", AVal vmlinux.__u64)] false true false.
Definition bpf_skb_change_type : helper :=
  Helper 32 "bpf_skb_change_type" (RVal c_long)
    [("skb", APtr false "struct __sk_buff");
     ("type", AVal vmlinux.__u32)] false true false.
Definition bpf_skb_under_cgroup : helper :=
  Helper 33 "bpf_skb_under_cgroup" (RVal c_long)
    [("skb", APtr false "struct __sk_buff");
     ("map", APtr false "void");
     ("index", AVal vmlinux.__u32)] false true false.
Definition bpf_get_hash_recalc : helper :=
  Helper 34 "bpf_get_hash_recalc" (RVal vmlinux.__u32)
    [("skb", APtr false "struct __sk_buff")] false false false.
Definition bpf_get_current_task : helper :=
  Helper 35 "bpf_get_current_task" (RVal vmlinux.__u64)
    [] false false false.
Definition bpf_probe_write_user : helper :=
  Helper 36 "bpf_probe_write_user" (RVal c_long)
    [("dst", APtr false "void");
     ("src", APtr true "void");
     ("len", AVal vmlinux.__u32)] false true false.
Definition bpf_current_task_under_cgroup : helper :=
  Helper 37 "bpf_current_task_under_cgroup" (RVal c_long)
    [("map", APtr false "void");
     ("index", AVal vmlinux.__u32)] false true false.
Definition bpf_skb_change_tail : helper :=
  Helper 38 "bpf_skb_change_tail" (RVal c_long)
    [("skb", APtr false "struct __sk_buff");
     ("len", AVal vmlinux.__u32);
     ("flags", AVal vmlinux.__u64)] false true false.
Definition bpf_skb_pull_data : helper :=
  Helper 39 "bpf_skb_pull_data" (RVal c_long)
    [("skb", APtr false "struct __sk_buff");
     ("len", AVal vmlinux.__u32)] false true false.
Definition bpf_csum_update : helper :=
  Helper 40 "bpf_csum_update" (RVal vmlinux.__s64)
    [("skb", APtr false "struct __sk_buff");
     ("csum", AVal vmlinux.__wsum)] false true false.
Definition bpf_set_hash_invalid : helper :=
  Helper 41 "bpf_set_hash_invalid" (RVoid)
    [("skb", APtr false "struct __sk_buff")] false false false.
Definition bpf_get_numa_node_id : helper :=
  Helper 42 "bpf_get_numa_node_id" (RVal c_long)
    [] false false false.
Definition bpf_skb_change_head : helper :=
  Helper 43 "bpf_skb_change_head" (RVal c_long)
    [("skb", APtr false "struct __sk_buff");
     ("len", AVal vmlinux.__u32);
     ("flags", AVal vmlinux.__u64)] false true false.
Definition bpf_xdp_adjust_head : helper :=
  Helper 44 "bpf_xdp_adjust_head" (RVal c_long)
    [("xdp_md", APtr false "struct xdp_md");
     ("delta", AVal c_int)] false true false.
Definition bpf_probe_read_str : helper :=
  Helper 45 "bpf_probe_read_str" (RVal c_long)
    [("dst", APtr false "void");
     ("size", AVal vmlinux.__u32);
     ("unsafe_ptr", APtr true "void")] false true false.
Definition bpf_get_socket_cookie : helper :=
  Helper 46 "bpf_get_socket_cookie" (RVal vmlinux.__u64)
    [("ctx", APtr false "void")] false false false.
Definition bpf_get_socket_uid : helper :=
  Helper 47 "bpf_get_socket_uid" (RVal vmlinux.__u32)
    [("skb", APtr false "struct __sk_buff")] false false false.
Definition bpf_set_hash : helper :=
  Helper 48 "bpf_set_hash" (RVal c_long)
    [("skb", APtr false "struct __sk_buff");
     ("hash", AVal vmlinux.__u32)] false false false.
Definition bpf_setsockopt : helper :=
  Helper 49 "bpf_setsockopt" (RVal c_long)
    [("bpf_socket", APtr false "void");
     ("level", AVal c_int);
     ("optname", AVal c_int);
     ("optval", APtr false "void");
     ("optlen", AVal c_int)] false true false.
Definition bpf_skb_adjust_room : helper :=
  Helper 50 "bpf_skb_adjust_room" (RVal c_long)
    [("skb", APtr false "struct __sk_buff");
     ("len_diff", AVal vmlinux.__s32);
     ("mode", AVal vmlinux.__u32);
     ("flags", AVal vmlinux.__u64)] false true false.
Definition bpf_redirect_map : helper :=
  Helper 51 "bpf_redirect_map" (RVal c_long)
    [("map", APtr false "void");
     ("key", AVal vmlinux.__u32);
     ("flags", AVal vmlinux.__u64)] false false false.
Definition bpf_sk_redirect_map : helper :=
  Helper 52 "bpf_sk_redirect_map" (RVal c_long)
    [("skb", APtr false "struct __sk_buff");
     ("map", APtr false "void");
     ("key", AVal vmlinux.__u32);
     ("flags", AVal vmlinux.__u64)] false false false.
Definition bpf_sock_map_update : helper :=
  Helper 53 "bpf_sock_map_update" (RVal c_long)
    [("skops", APtr false "struct bpf_sock_ops");
     ("map", APtr false "void");
     ("key", APtr false "void");
     ("flags", AVal vmlinux.__u64)] false true false.
Definition bpf_xdp_adjust_meta : helper :=
  Helper 54 "bpf_xdp_adjust_meta" (RVal c_long)
    [("xdp_md", APtr false "struct xdp_md");
     ("delta", AVal c_int)] false true false.
Definition bpf_perf_event_read_value : helper :=
  Helper 55 "bpf_perf_event_read_value" (RVal c_long)
    [("map", APtr false "void");
     ("flags", AVal vmlinux.__u64);
     ("buf", APtr false "struct bpf_perf_event_value");
     ("buf_size", AVal vmlinux.__u32)] false true false.
Definition bpf_perf_prog_read_value : helper :=
  Helper 56 "bpf_perf_prog_read_value" (RVal c_long)
    [("ctx", APtr false "struct bpf_perf_event_data");
     ("buf", APtr false "struct bpf_perf_event_value");
     ("buf_size", AVal vmlinux.__u32)] false true false.
Definition bpf_getsockopt : helper :=
  Helper 57 "bpf_getsockopt" (RVal c_long)
    [("bpf_socket", APtr false "void");
     ("level", AVal c_int);
     ("optname", AVal c_int);
     ("optval", APtr false "void");
     ("optlen", AVal c_int)] false true false.
Definition bpf_override_return : helper :=
  Helper 58 "bpf_override_return" (RVal c_long)
    [("regs", APtr false "struct pt_regs");
     ("rc", AVal vmlinux.__u64)] false false false.
Definition bpf_sock_ops_cb_flags_set : helper :=
  Helper 59 "bpf_sock_ops_cb_flags_set" (RVal c_long)
    [("bpf_sock", APtr false "struct bpf_sock_ops");
     ("argval", AVal c_int)] false true false.
Definition bpf_msg_redirect_map : helper :=
  Helper 60 "bpf_msg_redirect_map" (RVal c_long)
    [("msg", APtr false "struct sk_msg_md");
     ("map", APtr false "void");
     ("key", AVal vmlinux.__u32);
     ("flags", AVal vmlinux.__u64)] false false false.
Definition bpf_msg_apply_bytes : helper :=
  Helper 61 "bpf_msg_apply_bytes" (RVal c_long)
    [("msg", APtr false "struct sk_msg_md");
     ("bytes", AVal vmlinux.__u32)] false false false.
Definition bpf_msg_cork_bytes : helper :=
  Helper 62 "bpf_msg_cork_bytes" (RVal c_long)
    [("msg", APtr false "struct sk_msg_md");
     ("bytes", AVal vmlinux.__u32)] false false false.
Definition bpf_msg_pull_data : helper :=
  Helper 63 "bpf_msg_pull_data" (RVal c_long)
    [("msg", APtr false "struct sk_msg_md");
     ("start", AVal vmlinux.__u32);
     ("end", AVal vmlinux.__u32);
     ("flags", AVal vmlinux.__u64)] false true false.
Definition bpf_bind : helper :=
  Helper 64 "bpf_bind" (RVal c_long)
    [("ctx", APtr false "struct bpf_sock_addr");
     ("addr", APtr false "struct sockaddr");
     ("addr_len", AVal c_int)] false true false.
Definition bpf_xdp_adjust_tail : helper :=
  Helper 65 "bpf_xdp_adjust_tail" (RVal c_long)
    [("xdp_md", APtr false "struct xdp_md");
     ("delta", AVal c_int)] false true false.
Definition bpf_skb_get_xfrm_state : helper :=
  Helper 66 "bpf_skb_get_xfrm_state" (RVal c_long)
    [("skb", APtr false "struct __sk_buff");
     ("index", AVal vmlinux.__u32);
     ("xfrm_state", APtr false "struct bpf_xfrm_state");
     ("size", AVal vmlinux.__u32);
     ("flags", AVal vmlinux.__u64)] false true false.
Definition bpf_get_stack : helper :=
  Helper 67 "bpf_get_stack" (RVal c_long)
    [("ctx", APtr false "void");
     ("buf", APtr false "void");
     ("size", AVal vmlinux.__u32);
     ("flags", AVal vmlinux.__u64)] false true false.
Definition bpf_skb_load_bytes_relative : helper :=
  Helper 68 "bpf_skb_load_bytes_relative" (RVal c_long)
    [("skb", APtr true "void");
     ("offset", AVal vmlinux.__u32);
     ("to", APtr false "void");
     ("len", AVal vmlinux.__u32);
     ("start_header", AVal vmlinux.__u32)] false true false.
Definition bpf_fib_lookup : helper :=
  Helper 69 "bpf_fib_lookup" (RVal c_long)
    [("ctx", APtr false "void");
     ("params", APtr false "struct bpf_fib_lookup");
     ("plen", AVal c_int);
     ("flags", AVal vmlinux.__u32)] false false false.
Definition bpf_sock_hash_update : helper :=
  Helper 70 "bpf_sock_hash_update" (RVal c_long)
    [("skops", APtr false "struct bpf_sock_ops");
     ("map", APtr false "void");
     ("key", APtr false "void");
     ("flags", AVal vmlinux.__u64)] false true false.
Definition bpf_msg_redirect_hash : helper :=
  Helper 71 "bpf_msg_redirect_hash" (RVal c_long)
    [("msg", APtr false "struct sk_msg_md");
     ("map", APtr false "void");
     ("key", APtr false "void");
     ("flags", AVal vmlinux.__u64)] false false false.
Definition bpf_sk_redirect_hash : helper :=
  Helper 72 "bpf_sk_redirect_hash" (RVal c_long)
    [("skb", APtr false "struct __sk_buff");
     ("map", APtr false "void");
     ("key", APtr false "void");
     ("flags", AVal vmlinux.__u64)] false false false.
Definition bpf_lwt_push_encap : helper :=
  Helper 73 "bpf_lwt_push_encap" (RVal c_long)
    [("skb", APtr false "struct __sk_buff");
     ("type", AVal vmlinux.__u32);
     ("hdr", APtr false "void");
     ("len", AVal vmlinux.__u32)] false true false.
Definition bpf_lwt_seg6_store_bytes : helper :=
  Helper 74 "bpf_lwt_seg6_store_bytes" (RVal c_long)
    [("skb", APtr false "struct __sk_buff");
     ("offset", AVal vmlinux.__u32);
     ("from", APtr true "void");
     ("len", AVal vmlinux.__u32)] false true false.
Definition bpf_lwt_seg6_adjust_srh : helper :=
  Helper 75 "bpf_lwt_seg6_adjust_srh" (RVal c_long)
    [("skb", APtr false "struct __sk_buff");
     ("offset", AVal vmlinux.__u32);
     ("delta", AVal vmlinux.__s32)] false true false.
Definition bpf_lwt_seg6_action : helper :=
  Helper 76 "bpf_lwt_seg6_action" (RVal c_long)
    [("skb", APtr false "struct __sk_buff");
     ("action", AVal vmlinux.__u32);
     ("param", APtr false "void");
     ("param_len", AVal vmlinux.__u32)] false true false.
Definition bpf_rc_repeat : helper :=
  Helper 77 "bpf_rc_repeat" (RVal c_long)
    [("ctx", APtr false "void")] false false false.
Definition bpf_rc_keydown : helper :=
  Helper 78 "bpf_rc_keydown" (RVal c_long)
    [("ctx", APtr false "void");
     ("protocol", AVal vmlinux.__u32);
     ("scancode", AVal vmlinux.__u64);
     ("toggle", AVal vmlinux.__u32)] false false false.
Definition bpf_skb_cgroup_id : helper :=
  Helper 79 "bpf_skb_cgroup_id" (RVal vmlinux.__u64)
    [("skb", APtr false "struct __sk_buff")] false false false.
Definition bpf_get_current_cgroup_id : helper :=
  Helper 80 "bpf_get_current_cgroup_id" (RVal vmlinux.__u64)
    [] false false false.
Definition bpf_get_local_storage : helper :=
  Helper 81 "bpf_get_local_storage" (RPtr "void")
    [("map", APtr false "void");
     ("flags", AVal vmlinux.__u64)] false false false.
Definition bpf_sk_select_reuseport : helper :=
  Helper 82 "bpf_sk_select_reuseport" (RVal c_long)
    [("reuse", APtr false "struct sk_reuseport_md");
     ("map", APtr false "void");
     ("key", APtr false "void");
     ("flags", AVal vmlinux.__u64)] false true false.
Definition bpf_skb_ancestor_cgroup_id : helper :=
  Helper 83 "bpf_skb_ancestor_cgroup_id" (RVal vmlinux.__u64)
    [("skb", APtr false "struct __sk_buff");
     ("ancestor_level", AVal c_int)] false false false.
Definition bpf_sk_lookup_tcp : helper :=
  Helper 84 "bpf_sk_lookup_tcp" (RPtr "struct bpf_sock")
    [("ctx", APtr false "void");
     ("tuple", APtr false "struct bpf_sock_tuple");
     ("tuple_size", AVal vmlinux.__u32);
     ("netns", AVal vmlinux.__u64);
     ("flags", AVal vmlinux.__u64)] false false true.
Definition bpf_sk_lookup_udp : helper :=
  Helper 85 "bpf_sk_lookup_udp" (RPtr "struct bpf_sock")
    [("ctx", APtr false "void");
     ("tuple", APtr false "struct bpf_sock_tuple");
     ("tuple_size", AVal vmlinux.__u32);
     ("netns", AVal vmlinux.__u64);
     ("flags", AVal vmlinux.__u64)] false false true.
Definition bpf_sk_release : helper :=
  Helper 86 "bpf_sk_release" (RVal c_long)
    [("sock", APtr false "void")] false true false.
Definition bpf_map_push_elem : helper :=
  Helper 87 "bpf_map_push_elem" (RVal c_long)
    [("map", APtr false "void");
     ("value", APtr true "void");
     ("flags", AVal vmlinux.__u64)] false true false.
Definition bpf_map_pop_elem : helper :=
  Helper 88 "bpf_map_pop_elem" (RVal c_long)
    [("map", APtr false "void");
     ("value", APtr false "void")] false true false.
Definition bpf_map_peek_elem : helper :=
  Helper 89 "bpf_map_peek_elem" (RVal c_long)
    [("map", APtr false "void");
     ("value", APtr false "void")] false true false.
Definition bpf_msg_push_data : helper :=
  Helper 90 "bpf_msg_push_data" (RVal c_long)
    [("msg", APtr false "struct sk_msg_md");
     ("start", AVal vmlinux.__u32);
     ("len", AVal vmlinux.__u32);
     ("flags", AVal vmlinux.__u64)] false true false.
Definition bpf_msg_pop_data : helper :=
  Helper 91 "bpf_msg_pop_data" (RVal c_long)
    [("msg", APtr false "struct sk_msg_md");
     ("start", AVal vmlinux.__u32);
     ("len", AVal vmlinux.__u32);
     ("flags", AVal vmlinux.__u64)] false true false.
Definition bpf_rc_pointer_rel : helper :=
  Helper 92 "bpf_rc_pointer_rel" (RVal c_long)
    [("ctx", APtr false "void");
     ("rel_x", AVal vmlinux.__s32);
     ("rel_y", AVal vmlinux.__s32)] false false false.
Definition bpf_spin_lock : helper :=
  Helper 93 "bpf_spin_lock" (RVal c_long)
    [("lock", APtr false "struct bpf_spin_lock")] false false false.
Definition bpf_spin_unlock : helper :=
  Helper 94 "bpf_spin_unlock" (RVal c_long)
    [("lock", APtr false "struct bpf_spin_lock")] false false false.
Definition bpf_sk_fullsock : helper :=
  Helper 95 "bpf_sk_fullsock" (RPtr "struct bpf_sock")
    [("sk", APtr false "struct bpf_sock")] false false true.
Definition bpf_tcp_sock : helper :=
  Helper 96 "bpf_tcp_sock" (RPtr "struct bpf_tcp_sock")
    [("sk", APtr false "struct bpf_sock")] false false true.
Definition bpf_skb_ecn_set_ce : helper :=
  Helper 97 "bpf_skb_ecn_set_ce" (RVal c_long)
    [("skb", APtr false "struct __sk_buff")] false false false.
Definition bpf_get_listener_sock : helper :=
  Helper 98 "bpf_get_listener_sock" (RPtr "struct bpf_sock")
    [("sk", APtr false "struct bpf_sock")] false false true.
Definition bpf_skc_lookup_tcp : helper :=
  Helper 99 "bpf_skc_lookup_tcp" (RPtr "struct bpf_sock")
    [("ctx", APtr false "void");
     ("tuple", APtr false "struct bpf_sock_tuple");
     ("tuple_size", AVal vmlinux.__u32);
     ("netns", AVal vmlinux.__u64);
     ("flags", AVal vmlinux.__u64)] false false true.
Definition bpf_tcp_check_syncookie : helper :=
  Helper 100 "bpf_tcp_check_syncookie" (RVal c_long)
    [("sk", APtr false "void");
     ("iph", APtr false "void");
     ("iph_len", AVal vmlinux.__u32);
     ("th", APtr false "struct tcphdr");
     ("th_len", AVal vmlinux.__u32)] false true false.
Definition bpf_sysctl_get_name : helper :=
  Helper 101 "bpf_sysctl_get_name" (RVal c_long)
    [("ctx", APtr false "struct bpf_sysctl");
     ("buf", APtr false "char");
     ("buf_len", AVal c_ulong);
     ("flags", AVal vmlinux.__u64)] false true false.
Definition bpf_sysctl_get_current_value : helper :=
  Helper 102 "bpf_sysctl_get_current_value" (RVal c_long)
    [("ctx", APtr false "struct bpf_sysctl");
     ("buf", APtr false "char");
     ("buf_len", AVal c_ulong)] false true false.
Definition bpf_sysctl_get_new_value : helper :=
  Helper 103 "bpf_sysctl_get_new_value" (RVal c_long)
    [("ctx", APtr false "struct bpf_sysctl");
     ("buf", APtr false "char");
     ("buf_len", AVal c_ulong)] false true false.
Definition bpf_sysctl_set_new_value : helper :=
  Helper 104 "bpf_sysctl_set_new_value" (RVal c_long)
    [("ctx", APtr false "struct bpf_sysctl");
     ("buf", APtr true "char");
     ("buf_len", AVal c_ulong)] false true false.
Definition bpf_strtol : helper :=
  Helper 105 "bpf_strtol" (RVal c_long)
    [("buf", APtr true "char");
     ("buf_len", AVal c_ulong);
     ("flags", AVal vmlinux.__u64);
     ("res", APtr false "long")] false true false.
Definition bpf_strtoul : helper :=
  Helper 106 "bpf_strtoul" (RVal c_long)
    [("buf", APtr true "char");
     ("buf_len", AVal c_ulong);
     ("flags", AVal vmlinux.__u64);
     ("res", APtr false "unsigned long")] false true false.
Definition bpf_sk_storage_get : helper :=
  Helper 107 "bpf_sk_storage_get" (RPtr "void")
    [("map", APtr false "void");
     ("sk", APtr false "void");
     ("value", APtr false "void");
     ("flags", AVal vmlinux.__u64)] false false true.
Definition bpf_sk_storage_delete : helper :=
  Helper 108 "bpf_sk_storage_delete" (RVal c_long)
    [("map", APtr false "void");
     ("sk", APtr false "void")] false true false.
Definition bpf_send_signal : helper :=
  Helper 109 "bpf_send_signal" (RVal c_long)
    [("sig", AVal vmlinux.__u32)] false true false.
Definition bpf_tcp_gen_syncookie : helper :=
  Helper 110 "bpf_tcp_gen_syncookie" (RVal vmlinux.__s64)
    [("sk", APtr false "void");
     ("iph", APtr false "void");
     ("iph_len", AVal vmlinux.__u32);
     ("th", APtr false "struct tcphdr");
     ("th_len", AVal vmlinux.__u32)] false true false.
Definition bpf_skb_output : helper :=
  Helper 111 "bpf_skb_output" (RVal c_long)
    [("ctx", APtr false "void");
     ("map", APtr false "void");
     ("flags", AVal vmlinux.__u64);
     ("data", APtr false "void");
     ("size", AVal vmlinux.__u64)] false true false.
Definition bpf_probe_read_user : helper :=
  Helper 112 "bpf_probe_read_user" (RVal c_long)
    [("dst", APtr false "void");
     ("size", AVal vmlinux.__u32);
     ("unsafe_ptr", APtr true "void")] false true false.
Definition bpf_probe_read_kernel : helper :=
  Helper 113 "bpf_probe_read_kernel" (RVal c_long)
    [("dst", APtr false "void");
     ("size", AVal vmlinux.__u32);
     ("unsafe_ptr", APtr true "void")] false true false.
Definition bpf_probe_read_user_str : helper :=
  Helper 114 "bpf_probe_read_user_str" (RVal c_long)
    [("dst", APtr false "void");
     ("size", AVal vmlinux.__u32);
     ("unsafe_ptr", APtr true "void")] false true false.
Definition bpf_probe_read_kernel_str : helper :=
  Helper 115 "bpf_probe_read_kernel_str" (RVal c_long)
    [("dst", APtr false "void");
     ("size", AVal vmlinux.__u32);
     ("unsafe_ptr", APtr true "void")] false true false.
Definition bpf_tcp_send_ack : helper :=
  Helper 116 "bpf_tcp_send_ack" (RVal c_long)
    [("tp", APtr false "void");
     ("rcv_nxt", AVal vmlinux.__u32)] false true false.
Definition bpf_send_signal_thread : helper :=
  Helper 117 "bpf_send_signal_thread" (RVal c_long)
    [("sig", AVal vmlinux.__u32)] false true false.
Definition bpf_jiffies64 : helper :=
  Helper 118 "bpf_jiffies64" (RVal vmlinux.__u64)
    [] false false false.
Definition bpf_read_branch_records : helper :=
  Helper 119 "bpf_read_branch_records" (RVal c_long)
    [("ctx", APtr false "struct bpf_perf_event_data");
     ("buf", APtr false "void");
     ("size", AVal vmlinux.__u32);
     ("flags", AVal vmlinux.__u64)] false true false.
Definition bpf_get_ns_current_pid_tgid : helper :=
  Helper 120 "bpf_get_ns_current_pid_tgid" (RVal c_long)
    [("dev", AVal vmlinux.__u64);
     ("ino", AVal vmlinux.__u64);
     ("nsdata", APtr false "struct bpf_pidns_info");
     ("size", AVal vmlinux.__u32)] false true false.
Definition bpf_xdp_output : helper :=
  Helper 121 "bpf_xdp_output" (RVal c_long)
    [("ctx", APtr false "void");
     ("map", APtr false "void");
     ("flags", AVal vmlinux.__u64);
     ("data", APtr false "void");
     ("size", AVal vmlinux.__u64)] false true false.
Definition bpf_get_netns_cookie : helper :=
  Helper 122 "bpf_get_netns_cookie" (RVal vmlinux.__u64)
    [("ctx", APtr false "void")] false false false.
Definition bpf_get_current_ancestor_cgroup_id : helper :=
  Helper 123 "bpf_get_current_ancestor_cgroup_id" (RVal vmlinux.__u64)
    [("ancestor_level", AVal c_int)] false false false.
Definition bpf_sk_assign : helper :=
  Helper 124 "bpf_sk_assign" (RVal c_long)
    [("ctx", APtr false "void");
     ("sk", APtr false "void");
     ("flags", AVal vmlinux.__u64)] false true false.
Definition bpf_ktime_get_boot_ns : helper :=
  Helper 125 "bpf_ktime_get_boot_ns" (RVal vmlinux.__u64)
    [] false false false.
Definition bpf_seq_printf : helper :=
  Helper 126 "bpf_seq_printf" (RVal c_long)
    [("m", APtr false "struct seq_file");
     ("fmt", APtr true "char");
     ("fmt_size", AVal vmlinux.__u32);
     ("data", APtr true "void");
     ("data_len", AVal vmlinux.__u32)] false true false.
Definition bpf_seq_write : helper :=
  Helper 127 "bpf_seq_write" (RVal c_long)
    [("m", APtr false "struct seq_file");
     ("data", APtr true "void");
     ("len", AVal vmlinux.__u32)] false true false.
Definition bpf_sk_cgroup_id : helper :=
  Helper 128 "bpf_sk_cgroup_id" (RVal vmlinux.__u64)
    [("sk", APtr false "void")] false false false.
Definition bpf_sk_ancestor_cgroup_id : helper :=
  Helper 129 "bpf_sk_ancestor_cgroup_id" (RVal vmlinux.__u64)
    [("sk", APtr false "void");
     ("ancestor_level", AVal c_int)] false false false.
Definition bpf_ringbuf_output : helper :=
  Helper 130 "bpf_ringbuf_output" (RVal c_long)
    [("ringbuf", APtr false "void");
     ("data", APtr false "void");
     ("size", AVal vmlinux.__u64);
     ("flags", AVal vmlinux.__u64)] false true false.
Definition bpf_ringbuf_reserve : helper :=
  Helper 131 "bpf_ringbuf_reserve" (RPtr "void")
    [("ringbuf", APtr false "void");
     ("size", AVal vmlinux.__u64);
     ("flags", AVal vmlinux.__u64)] false false true.
Definition bpf_ringbuf_submit : helper :=
  Helper 132 "bpf_ringbuf_submit" (RVoid)
    [("data", APtr false "void");
     ("flags", AVal vmlinux.__u64)] false false false.
Definition bpf_ringbuf_discard : helper :=
  Helper 133 "bpf_ringbuf_discard" (RVoid)
    [("data", APtr false "void");
     ("flags", AVal vmlinux.__u64)] false false false.
Definition bpf_ringbuf_query : helper :=
  Helper 134 "bpf_ringbuf_query" (RVal vmlinux.__u64)
    [("ringbuf", APtr false "void");
     ("flags", AVal vmlinux.__u64)] false false false.
Definition bpf_csum_level : helper :=
  Helper 135 "bpf_csum_level" (RVal c_long)
    [("skb", APtr false "struct __sk_buff");
     ("level", AVal vmlinux.__u64)] false true false.
Definition bpf_skc_to_tcp6_sock : helper :=
  Helper 136 "bpf_skc_to_tcp6_sock" (RPtr "struct tcp6_sock")
    [("sk", APtr false "void")] false false true.
Definition bpf_skc_to_tcp_sock : helper :=
  Helper 137 "bpf_skc_to_tcp_sock" (RPtr "struct tcp_sock")
    [("sk", APtr false "void")] false false true.
Definition bpf_skc_to_tcp_timewait_sock : helper :=
  Helper 138 "bpf_skc_to_tcp_timewait_sock" (RPtr "struct tcp_timewait_sock")
    [("sk", APtr false "void")] false false true.
Definition bpf_skc_to_tcp_request_sock : helper :=
  Helper 139 "bpf_skc_to_tcp_request_sock" (RPtr "struct tcp_request_sock")
    [("sk", APtr false "void")] false false true.
Definition bpf_skc_to_udp6_sock : helper :=
  Helper 140 "bpf_skc_to_udp6_sock" (RPtr "struct udp6_sock")
    [("sk", APtr false "void")] false false true.
Definition bpf_get_task_stack : helper :=
  Helper 141 "bpf_get_task_stack" (RVal c_long)
    [("task", APtr false "struct task_struct");
     ("buf", APtr false "void");
     ("size", AVal vmlinux.__u32);
     ("flags", AVal vmlinux.__u64)] false true false.
Definition bpf_load_hdr_opt : helper :=
  Helper 142 "bpf_load_hdr_opt" (RVal c_long)
    [("skops", APtr false "struct bpf_sock_ops");
     ("searchby_res", APtr false "void");
     ("len", AVal vmlinux.__u32);
     ("flags", AVal vmlinux.__u64)] false true false.
Definition bpf_store_hdr_opt : helper :=
  Helper 143 "bpf_store_hdr_opt" (RVal c_long)
    [("skops", APtr false "struct bpf_sock_ops");
     ("from", APtr true "void");
     ("len", AVal vmlinux.__u32);
     ("flags", AVal vmlinux.__u64)] false true false.
Definition bpf_reserve_hdr_opt : helper :=
  Helper 144 "bpf_reserve_hdr_opt" (RVal c_long)
    [("skops", APtr false "struct bpf_sock_ops");
     ("len", AVal vmlinux.__u32);
     ("flags", AVal vmlinux.__u64)] false true false.
Definition bpf_inode_storage_get : helper :=
  Helper 145 "bpf_inode_storage_get" (RPtr "void")
    [("map", APtr false "void");
     ("inode", APtr false "void");
     ("value", APtr false "void");
     ("flags", AVal vmlinux.__u64)] false false true.
Definition bpf_inode_storage_delete : helper :=
  Helper 146 "bpf_inode_storage_delete" (RVal c_int)
    [("map", APtr false "void");
     ("inode", APtr false "void")] false true false.
Definition bpf_d_path : helper :=
  Helper 147 "bpf_d_path" (RVal c_long)
    [("path", APtr false "struct path");
     ("buf", APtr false "char");
     ("sz", AVal vmlinux.__u32)] false true false.
Definition bpf_copy_from_user : helper :=
  Helper 148 "bpf_copy_from_user" (RVal c_long)
    [("dst", APtr false "void");
     ("size", AVal vmlinux.__u32);
     ("user_ptr", APtr true "void")] false true false.
Definition bpf_snprintf_btf : helper :=
  Helper 149 "bpf_snprintf_btf" (RVal c_long)
    [("str", APtr false "char");
     ("str_size", AVal vmlinux.__u32);
     ("ptr", APtr false "struct btf_ptr");
     ("btf_ptr_size", AVal vmlinux.__u32);
     ("flags", AVal vmlinux.__u64)] false true false.
Definition bpf_seq_printf_btf : helper :=
  Helper 150 "bpf_seq_printf_btf" (RVal c_long)
    [("m", APtr false "struct seq_file");
     ("ptr", APtr false "struct btf_ptr");
     ("ptr_size", AVal vmlinux.__u32);
     ("flags", AVal vmlinux.__u64)] false true false.
Definition bpf_skb_cgroup_classid : helper :=
  Helper 151 "bpf_skb_cgroup_classid" (RVal vmlinux.__u64)
    [("skb", APtr false "struct __sk_buff")] false false false.
Definition bpf_redirect_neigh : helper :=
  Helper 152 "bpf_redirect_neigh" (RVal c_long)
    [("ifindex", AVal vmlinux.__u32);
     ("params", APtr false "struct bpf_redir_neigh");
     ("plen", AVal c_int);
     ("flags", AVal vmlinux.__u64)] false false false.
Definition bpf_per_cpu_ptr : helper :=
  Helper 153 "bpf_per_cpu_ptr" (RPtr "void")
    [("percpu_ptr", APtr true "void");
     ("cpu", AVal vmlinux.__u32)] false false true.
Definition bpf_this_cpu_ptr : helper :=
  Helper 154 "bpf_this_cpu_ptr" (RPtr "void")
    [("percpu_ptr", APtr true "void")] false false false.
Definition bpf_redirect_peer : helper :=
  Helper 155 "bpf_redirect_peer" (RVal c_long)
    [("ifindex", AVal vmlinux.__u32);
     ("flags", AVal vmlinux.__u64)] false false false.
Definition bpf_task_storage_get : helper :=
  Helper 156 "bpf_task_storage_get" (RPtr "void")
    [("map", APtr false "void");
     ("task", APtr false "struct task_struct");
     ("value", APtr false "void");
     ("flags", AVal vmlinux.__u64)] false false true.
Definition bpf_task_storage_delete : helper :=
  Helper 157 "bpf_task_storage_delete" (RVal c_long)
    [("map", APtr false "void");
     ("task", APtr false "struct task_struct")] false true false.
Definition bpf_get_current_task_btf : helper :=
  Helper 158 "bpf_get_current_task_btf" (RPtr "struct task_struct")
    [] false false false.
Definition bpf_bprm_opts_set : helper :=
  Helper 159 "bpf_bprm_opts_set" (RVal c_long)
    [("bprm", APtr false "struct linux_binprm");
     ("flags", AVal vmlinux.__u64)] false true false.
Definition bpf_ktime_get_coarse_ns : helper :=
  Helper 160 "bpf_ktime_get_coarse_ns" (RVal vmlinux.__u64)
    [] false false false.
Definition bpf_ima_inode_hash : helper :=
  Helper 161 "bpf_ima_inode_hash" (RVal c_long)
    [("inode", APtr false "struct inode");
     ("dst", APtr false "void");
     ("size", AVal vmlinux.__u32)] false true false.
Definition bpf_sock_from_file : helper :=
  Helper 162 "bpf_sock_from_file" (RPtr "struct socket")
    [("file", APtr false "struct file")] false false true.
Definition bpf_check_mtu : helper :=
  Helper 163 "bpf_check_mtu" (RVal c_long)
    [("ctx", APtr false "void");
     ("ifindex", AVal vmlinux.__u32);
     ("mtu_len", APtr false "__u32");
     ("len_diff", AVal vmlinux.__s32);
     ("flags", AVal vmlinux.__u64)] false false false.
Definition bpf_for_each_map_elem : helper :=
  Helper 164 "bpf_for_each_map_elem" (RVal c_long)
    [("map", APtr false "void");
     ("callback_fn", APtr false "void");
     ("callback_ctx", APtr false "void");
     ("flags", AVal vmlinux.__u64)] false true false.
Definition bpf_snprintf : helper :=
  Helper 165 "bpf_snprintf" (RVal c_long)
    [("str", APtr false "char");
     ("str_size", AVal vmlinux.__u32);
     ("fmt", APtr true "char");
     ("data", APtr false "__u64");
     ("data_len", AVal vmlinux.__u32)] false true false.
Definition bpf_sys_bpf : helper :=
  Helper 166 "bpf_sys_bpf" (RVal c_long)
    [("cmd", AVal vmlinux.__u32);
     ("attr", APtr false "void");
     ("attr_size", AVal vmlinux.__u32)] false false false.
Definition bpf_btf_find_by_name_kind : helper :=
  Helper 167 "bpf_btf_find_by_name_kind" (RVal c_long)
    [("name", APtr false "char");
     ("name_sz", AVal c_int);
     ("kind", AVal vmlinux.__u32);
     ("flags", AVal c_int)] false false false.
Definition bpf_sys_close : helper :=
  Helper 168 "bpf_sys_close" (RVal c_long)
    [("fd", AVal vmlinux.__u32)] false false false.
Definition bpf_timer_init : helper :=
  Helper 169 "bpf_timer_init" (RVal c_long)
    [("timer", APtr false "struct bpf_timer");
     ("map", APtr false "void");
     ("flags", AVal vmlinux.__u64)] false true false.
Definition bpf_timer_set_callback : helper :=
  Helper 170 "bpf_timer_set_callback" (RVal c_long)
    [("timer", APtr false "struct bpf_timer");
     ("callback_fn", APtr false "void")] false true false.
Definition bpf_timer_start : helper :=
  Helper 171 "bpf_timer_start" (RVal c_long)
    [("timer", APtr false "struct bpf_timer");
     ("nsecs", AVal vmlinux.__u64);
     ("flags", AVal vmlinux.__u64)] false true false.
Definition bpf_timer_cancel : helper :=
  Helper 172 "bpf_timer_cancel" (RVal c_long)
    [("timer", APtr false "struct bpf_timer")] false true false.
Definition bpf_get_func_ip : helper :=
  Helper 173 "bpf_get_func_ip" (RVal vmlinux.__u64)
    [("ctx", APtr false "void")] false false false.
Definition bpf_get_attach_cookie : helper :=
  Helper 174 "bpf_get_attach_cookie" (RVal vmlinux.__u64)
    [("ctx", APtr false "void")] false false false.
Definition bpf_task_pt_regs : helper :=
  Helper 175 "bpf_task_pt_regs" (RVal c_long)
    [("task", APtr false "struct task_struct")] false false false.
Definition bpf_get_branch_snapshot : helper :=
  Helper 176 "bpf_get_branch_snapshot" (RVal c_long)
    [("entries", APtr false "void");
     ("size", AVal vmlinux.__u32);
     ("flags", AVal vmlinux.__u64)] false true false.
Definition bpf_trace_vprintk : helper :=
  Helper 177 "bpf_trace_vprintk" (RVal c_long)
    [("fmt", APtr true "char");
     ("fmt_size", AVal vmlinux.__u32);
     ("data", APtr true "void");
     ("data_len", AVal vmlinux.__u32)] false true false.
Definition bpf_skc_to_unix_sock : helper :=
  Helper 178 "bpf_skc_to_unix_sock" (RPtr "struct unix_sock")
    [("sk", APtr false "void")] false false true.
Definition bpf_kallsyms_lookup_name : helper :=
  Helper 179 "bpf_kallsyms_lookup_name" (RVal c_long)
    [("name", APtr true "char");
     ("name_sz", AVal c_int);
     ("flags", AVal c_int);
     ("res", APtr false "__u64")] false true false.
Definition bpf_find_vma : helper :=
  Helper 180 "bpf_find_vma" (RVal c_long)
    [("task", APtr false "struct task_struct");
     ("addr", AVal vmlinux.__u64);
     ("callback_fn", APtr false "void");
     ("callback_ctx", APtr false "void");
     ("flags", AVal vmlinux.__u64)] false true false.

(** The helpers in the order of the header. *)
Definition table : list helper :=
  [bpf_map_lookup_elem; bpf_map_update_elem; bpf_map_delete_elem; bpf_probe_read;
   bpf_ktime_get_ns; bpf_trace_printk; bpf_get_prandom_u32; bpf_get_smp_processor_id;
   bpf_skb_store_bytes; bpf_l3_csum_replace; bpf_l4_csum_replace; bpf_tail_call;
   bpf_clone_redirect; bpf_get_current_pid_tgid; bpf_get_current_uid_gid; bpf_get_current_comm;
   bpf_get_cgroup_classid; bpf_skb_vlan_push; bpf_skb_vlan_pop; bpf_skb_get_tunnel_key;
   bpf_skb_set_tunnel_key; bpf_perf_event_read; bpf_redirect; bpf_get_route_realm;
   bpf_perf_event_output; bpf_skb_load_bytes; bpf_get_stackid; bpf_csum_diff;
   bpf_skb_get_tunnel_opt; bpf_skb_set_tunnel_opt; bpf_skb_change_proto; bpf_skb_change_type;
   bpf_skb_under_cgroup; bpf_get_hash_recalc; bpf_get_current_task; bpf_probe_write_user;
   bpf_current_task_under_cgroup; bpf_skb_change_tail; bpf_skb_pull_data; bpf_csum_update;
   bpf_set_hash_invalid; bpf_get_numa_node_id; bpf_skb_change_head; bpf_xdp_adjust_head;
   bpf_probe_read_str; bpf_get_socket_cookie; bpf_get_socket_uid; bpf_set_hash; bpf_setsockopt;
   bpf_skb_adjust_room; bpf_redirect_map; bpf_sk_redirect_map; bpf_sock_map_update;
   bpf_xdp_adjust_meta; bpf_perf_event_read_value; bpf_perf_prog_read_value; bpf_getsockopt;
   bpf_override_return; bpf_sock_ops_cb_flags_set; bpf_msg_redirect_map; bpf_msg_apply_bytes;
   bpf_msg_cork_bytes; bpf_msg_pull_data; bpf_bind; bpf_xdp_adjust_tail; bpf_skb_get_xfrm_state;
   bpf_get_stack; bpf_skb_load_bytes_relative; bpf_fib_lookup; bpf_sock_hash_update;
   bpf_msg_redirect_hash; bpf_sk_redirect_hash; bpf_lwt_push_encap; bpf_lwt_seg6_store_bytes;
   bpf_lwt_seg6_adjust_srh; bpf_lwt_seg6_action; bpf_rc_repeat; bpf_rc_keydown;
   bpf_skb_cgroup_id; bpf_get_current_cgroup_id; bpf_get_local_storage; bpf_sk_select_reuseport;
   bpf_skb_ancestor_cgroup_id; bpf_sk_lookup_tcp; bpf_sk_lookup_udp; bpf_sk_release;
   bpf_map_push_elem; bpf_map_pop_elem; bpf_map_peek_elem; bpf_msg_push_data; bpf_msg_pop_data;
   bpf_rc_pointer_rel; bpf_spin_lock; bpf_spin_unlock; bpf_sk_fullsock; bpf_tcp_sock;
   bpf_skb_ecn_set_ce; bpf_get_listener_sock; bpf_skc_lookup_tcp; bpf_tcp_check_syncookie;
   bpf_sysctl_get_name; bpf_sysctl_get_current_value; bpf_sysctl_get_new_value;
   bpf_sysctl_set_new_value; bpf_strtol; bpf_strtoul; bpf_sk_storage_get; bpf_sk_storage_delete;
   bpf_send_signal; bpf_tcp_gen_syncookie; bpf_skb_output; bpf_probe_read_user;
   bpf_probe_read_kernel; bpf_probe_read_user_str; bpf_probe_read_kernel_str; bpf_tcp_send_ack;
   bpf_send_signal_thread; bpf_jiffies64; bpf_read_branch_records; bpf_get_ns_current_pid_tgid;
   bpf_xdp_output; bpf_get_netns_cookie; bpf_get_current_ancestor_cgroup_id; bpf_sk_assign;
   bpf_ktime_get_boot_ns; bpf_seq_printf; bpf_seq_write; bpf_sk_cgroup_id;
   bpf_sk_ancestor_cgroup_id; bpf_ringbuf_output; bpf_ringbuf_reserve; bpf_ringbuf_submit;
   bpf_ringbuf_discard; bpf_ringbuf_query; bpf_csum_level; bpf_skc_to_tcp6_sock;
   bpf_skc_to_tcp_sock; bpf_skc_to_tcp_timewait_sock; bpf_skc_to_tcp_request_sock;
   bpf_skc_to_udp6_sock; bpf_get_task_stack; bpf_load_hdr_opt; bpf_store_hdr_opt;
   bpf_reserve_hdr_opt; bpf_inode_storage_get; bpf_inode_storage_delete; bpf_d_path;
   bpf_copy_from_user; bpf_snprintf_btf; bpf_seq_printf_btf; bpf_skb_cgroup_classid;
   bpf_redirect_neigh; bpf_per_cpu_ptr; bpf_this_cpu_ptr; bpf_redirect_peer;
   bpf_task_storage_get; bpf_task_storage_delete; bpf_get_current_task_btf; bpf_bprm_opts_set;
   bpf_ktime_get_coarse_ns; bpf_ima_inode_hash; bpf_sock_from_file; bpf_check_mtu;
   bpf_for_each_map_elem; bpf_snprintf; bpf_sys_bpf; bpf_btf_find_by_name_kind; bpf_sys_close;
   bpf_timer_init; bpf_timer_set_callback; bpf_timer_start; bpf_timer_cancel; bpf_get_func_ip;
   bpf_get_attach_cookie; bpf_task_pt_regs; bpf_get_branch_snapshot; bpf_trace_vprintk;
   bpf_skc_to_unix_sock; bpf_kallsyms_lookup_name; bpf_find_vma].
End helpers.

(** * Reading the table *)
Definition helper_by_id (z : Z) : option helper := helpers.table !! Z.to_nat (z - 1).
Definition ret_signed (r : cret) : bool :=
  match r with RVal (CInt sg _) => sg | _ => false end.
Definition ret_pointer (r : cret) : bool := match r with RPtr _ => true | _ => false end.

(** The helper each enumerator of [enum bpf_func_id] in vmlinux.h stands for. *)
Definition func_id_helper (f : vmlinux.bpf_func_id) : helper :=
  match f with
  | vmlinux.BPF_FUNC_probe_write_user => helpers.bpf_probe_write_user
  | vmlinux.BPF_FUNC_override_return => helpers.bpf_override_return
  | vmlinux.BPF_FUNC_sk_storage_get => helpers.bpf_sk_storage_get
  | vmlinux.BPF_FUNC_copy_from_user => helpers.bpf_copy_from_user
  | vmlinux.BPF_FUNC_for_each_map_elem => helpers.bpf_for_each_map_elem
  end.

(** Registers r1 to r5 carry the arguments of a BPF call. *)
Definition MAX_BPF_ARGS : nat := 5.

Lemma table_ids : map h_id helpers.table = map Z.of_nat (seq 1 180).
Proof. reflexivity. Qed.

Lemma table_lookup_id h i : helpers.table !! i = Some h -> h_id h = Z.of_nat (S i).
Proof.
  intros Hi. assert (map h_id helpers.table !! i = Some (h_id h)) as Hm.
  { by rewrite lookup_map, Hi. }
  rewrite table_ids, lookup_map in Hm.
  destruct (seq 1 180 !! i) as [k|] eqn:Hk; [|done]. apply lookup_seq in Hk as [-> _].
  simpl in Hm. by simplify_eq.
Qed.

Lemma helper_name_inj h h' :
  h ∈ helpers.table -> h' ∈ helpers.table -> h_name h = h_name h' -> h = h'.
Proof.
  intros [i Hi]%list_elem_of_lookup_1 [j Hj]%list_elem_of_lookup_1 Hn.
  assert (NoDup (map h_name helpers.table)) as Hnd
    by (apply (bool_decide_unpack _); vm_compute; exact I).
  enough (i = j) by congruence.
  apply (NoDup_lookup _ i j (h_name h) Hnd); rewrite lookup_map; [by rewrite Hi|].
  by rewrite Hj, Hn.
Qed.

Lemma table_forall (f : helper -> bool) :
  forallb f helpers.table = true -> forall h, h ∈ helpers.table -> f h = true.
Proof. intros H%forallb_Forall. by apply Forall_forall. Qed.

(** Helper numbers identify helpers: the table is numbered 1 to 180 without a gap, looking
    up a declared helper's number finds that helper, names are distinct, and no helper takes
    more arguments than the calling convention has registers. *)
Theorem helper_table_sound h :
  h ∈ helpers.table ->
  helper_by_id (h_id h) = Some h /\ 1 <= h_id h <= 180 /\
  (length (h_args h) <= MAX_BPF_ARGS)%nat /\
  (forall h', h' ∈ helpers.table -> h_name h' = h_name h -> h' = h).
Proof.
  intros Hin. pose proof Hin as [i Hi]%list_elem_of_lookup_1.
  pose proof (table_lookup_id _ _ Hi) as Hid.
  assert (i < 180)%nat by (apply lookup_lt_Some in Hi; exact Hi).
  split_and!; [|lia..| |].
  - unfold helper_by_id. rewrite Hid. by replace (Z.to_nat (Z.of_nat (S i) - 1)) with i by lia.
  - apply Nat.leb_le. by apply (table_forall (λ h, length (h_args h) <=? MAX_BPF_ARGS)%nat).
  - intros h' Hin' Hn. by apply helper_name_inj.
Qed.

Lemma helper_table_sound_witness :
  helper_by_id (h_id helpers.bpf_perf_event_output) = Some helpers.bpf_perf_event_output.
Proof.
  apply (helper_table_sound helpers.bpf_perf_event_output).
  apply (list_elem_of_lookup_2 _ 24). reflexivity.
Defined.

(** Return types fit the documentation: every helper documented to return a negative error
    has a signed result, except bpf_perf_event_read, whose result is unsigned; every helper
    documented to return [NULL] returns a pointer; and the helper numbers of [enum bpf_func_id]
    are those of the helpers they name. *)
Theorem helper_returns_fit_docs h f :
  h ∈ helpers.table ->
  (h_doc_negative h = true -> ret_signed (h_ret h) = true \/ h = helpers.bpf_perf_event_read) /\
  (h_doc_null h = true -> ret_pointer (h_ret h) = true) /\
  h_doc_negative helpers.bpf_perf_event_read = true /\
  ret_signed (h_ret helpers.bpf_perf_event_read) = false /\
  enum_val f = h_id (func_id_helper f).
Proof.
  intros Hin. split_and!; try reflexivity; [| |by destruct f].
  - intros Hneg. pose proof (table_forall (λ h, implb (h_doc_negative h)
      (ret_signed (h_ret h) || String.eqb (h_name h) "bpf_perf_event_read")) eq_refl h Hin) as Hn.
    simpl in Hn. rewrite Hneg in Hn. apply orb_prop in Hn as [?|Hn%String.eqb_eq]; [by left|].
    right. apply helper_name_inj; [done| |done]. by apply (list_elem_of_lookup_2 _ 21).
  - intros Hnull. pose proof (table_forall (λ h, implb (h_doc_null h) (ret_pointer (h_ret h)))
      eq_refl h Hin) as Hp. simpl in Hp. by rewrite Hnull in Hp.
Qed.

Lemma helper_returns_fit_docs_witness :
  ret_pointer (h_ret helpers.bpf_sk_fullsock) = true /\ enum_val vmlinux.BPF_FUNC_sk_storage_get = 107.
Proof.
  destruct (helper_returns_fit_docs helpers.bpf_sk_fullsock vmlinux.BPF_FUNC_sk_storage_get)
    as (_ & Hp & _ & _ & He).
  - apply (list_elem_of_lookup_2 _ 94). reflexivity.
  - split; [apply Hp; reflexivity|exact He].
Defined.
