(* ===== verification/BpfHelpers.v ===== *)
(** Helper macros: src/ebpf/c/include/bpf_helpers.h.

    Map declarations, [KERNEL_VERSION], [offsetof] and [container_of], the constant tail call, and
    the variadic printing macros.  A variadic macro is a function on the list of its arguments;
    [None] stands for an expansion that names no macro or takes the wrong number of arguments,
    which the compiler rejects. *)
From S2P Require Import Prelude CAbi Vmlinux HelperDefs.
From stdpp Require Import base numbers list strings.
Local Open Scope string_scope.
Local Open Scope Z_scope.

(** * Map members *)

(** [__uint(name, val)] declares [int ( *name)[val]], [__type(name, val)] a pointer to the type,
    [__array(name, val)] an array of such pointers; the loader reads the members back. *)
Inductive map_member :=
| __uint (name : string) (val : Z)
| __type (name : string) (val : ctype)
| __array (name : string) (val : ctype).

(** * Versions and addresses *)
Definition KERNEL_VERSION (a b c : Z) : Z :=
  Z.shiftl a 16 + Z.shiftl b 8 + (if c >? 255 then 255 else c).

(** [container_of(ptr, type, member)]: 64-bit pointer arithmetic. *)
Definition container_of (ptr : Z) (type : ctype) (member : list selector) : option Z :=
  match CAbi.offsetof type member with
  | Some o => Some (wrap 64 (ptr - o))
  | None => None
  end.

Definition bpf_map_def : ctype := cstruct [
    fld "type" c_uint;
    fld "key_size" c_uint;
    fld "value_size" c_uint;
    fld "max_entries" c_uint;
    fld "map_flags" c_uint
  ].

Inductive libbpf_pin_type := LIBBPF_PIN_NONE | LIBBPF_PIN_BY_NAME.
#[global] Instance libbpf_pin_type_eq_dec : EqDecision libbpf_pin_type.
Proof. solve_decision. Defined.
#[global] Instance libbpf_pin_type_enum : CEnum libbpf_pin_type :=
  { enum_decl := [(LIBBPF_PIN_NONE, None); (LIBBPF_PIN_BY_NAME, None)] }.

Inductive libbpf_tristate := TRI_NO | TRI_YES | TRI_MODULE.
#[global] Instance libbpf_tristate_eq_dec : EqDecision libbpf_tristate.
Proof. solve_decision. Defined.
#[global] Instance libbpf_tristate_enum : CEnum libbpf_tristate :=
  { enum_decl := [(TRI_NO, Some 0); (TRI_YES, Some 1); (TRI_MODULE, Some 2)] }.

(** * Tail calls *)

(** The inline assembly loads r1 to r3 and calls helper 12; with a slot the compiler does not
    see as a constant, the code does not build ([__builtin_trap]). *)
Inductive asm_outcome :=
| Trap
| CallHelper (id : Z) (regs : list (nat * Z)).

Definition __bpf_unreachable : asm_outcome := Trap.

Definition bpf_tail_call_static (slot_constant : bool) (ctx map slot : Z) : asm_outcome :=
  if negb slot_constant then __bpf_unreachable
  else CallHelper 12 [(1%nat, ctx); (2%nat, map); (3%nat, slot)].

(** * Counting arguments *)

(** [___bpf_nth(_, _1, ..., _c, N, ...)] is its fourteenth argument. *)
Definition ___bpf_nth {T} (l : list T) : option T := l !! 13%nat.

(** [___bpf_apply(fn, n)] pastes the number on the family name: [fam n]. *)
Definition ___bpf_apply {A} (fam : nat -> option A) (n : option nat) : option A :=
  match n with Some k => fam k | None => None end.

(** [nth(_, ##args, tokens)]: the arguments come before a countdown of tokens; the token the
    selector then picks tells the number of arguments, an argument in its place is no token. *)
Definition countdown {A T} (nth : list (option T) -> option (option T)) (args : list A)
    (tokens : list T) : option T :=
  default None (nth ([None] ++ map (λ _, None) args ++ map Some tokens)%list).

Definition ___bpf_narg {A} (args : list A) : option nat :=
  countdown ___bpf_nth args [12; 11; 10; 9; 8; 7; 6; 5; 4; 3; 2; 1; 0]%nat.

(** * Filling the parameter array *)

(** [___bpf_fill0] to [___bpf_fill12]: store the arguments from index [p] on, converted to the
    64-bit elements. *)
Fixpoint bpf_fill_family (n : nat) (arr : list Z) (p : nat) (args : list Z) : option (list Z) :=
  match n, args with
  | 0%nat, [] => Some arr
  | 1%nat, [x] => Some (<[p := wrap 64 x]> arr)
  | S n', x :: args' => bpf_fill_family n' (<[p := wrap 64 x]> arr) (p + 1)%nat args'
  | _, _ => None
  end.

Definition ___bpf_fillN (n : nat) : option (list Z -> nat -> list Z -> option (list Z)) :=
  if (n <=? 12)%nat then Some (bpf_fill_family n) else None.

Definition ___bpf_fill (arr : list Z) (args : list Z) : option (list Z) :=
  match ___bpf_apply ___bpf_fillN (___bpf_narg args) with
  | Some f => f arr 0%nat args
  | None => None
  end.

(** * Printing *)

(** A call of a printing helper: the arguments before the format, the format, its size where the
    helper takes it, and either the parameter array with its size or the values passed directly. *)
Record print_call := PrintCall {
  pc_helper : helper;
  pc_before : list Z;
  pc_fmt : string;
  pc_fmt_size : option Z;
  pc_params : list Z;
  pc_params_size : Z;
  pc_direct : list Z
}.

(** [sizeof] of a char array initialised with the format. *)
Definition fmt_sizeof (fmt : string) : Z := Z.of_nat (String.length fmt) + 1.

(** The [___param] array: [___bpf_narg(args)] elements of 8 bytes, then filled. *)
Definition param_array (args : list Z) : option (list Z) :=
  match ___bpf_narg args with
  | Some n => ___bpf_fill (replicate n 0) args
  | None => None
  end.

Definition with_params (h : helper) (before : list Z) (fmt : string) (fmt_size : option Z)
    (args : list Z) : option print_call :=
  match param_array args with
  | Some ps =>
      Some (PrintCall h before fmt fmt_size ps (8 * Z.of_nat (length ps)) [])
  | None => None
  end.

Definition BPF_SEQ_PRINTF (seq : Z) (fmt : string) (args : list Z) : option print_call :=
  with_params helpers.bpf_seq_printf [seq] fmt (Some (fmt_sizeof fmt)) args.

Definition BPF_SNPRINTF (out out_size : Z) (fmt : string) (args : list Z) : option print_call :=
  with_params helpers.bpf_snprintf [out; out_size] fmt None args.

Definition __bpf_printk (fmt : string) (args : list Z) : option print_call :=
  Some (PrintCall helpers.bpf_trace_printk [] fmt (Some (fmt_sizeof fmt)) [] 0 args).

Definition __bpf_vprintk (fmt : string) (args : list Z) : option print_call :=
  with_params helpers.bpf_trace_vprintk [] fmt (Some (fmt_sizeof fmt)) args.

Definition ___bpf_pick_printk (args : list Z)
    : option (string -> list Z -> option print_call) :=
  countdown ___bpf_nth args
    [__bpf_vprintk; __bpf_vprintk; __bpf_vprintk; __bpf_vprintk; __bpf_vprintk; __bpf_vprintk;
     __bpf_vprintk; __bpf_vprintk; __bpf_vprintk; __bpf_printk; __bpf_printk; __bpf_printk;
     __bpf_printk].

Definition bpf_printk (fmt : string) (args : list Z) : option print_call :=
  match ___bpf_pick_printk args with
  | Some f => f fmt args
  | None => None
  end.

(** * Lemmas *)
#[global] Instance libbpf_pin_type_ok : CEnumOk libbpf_pin_type.
Proof. solve_enum_ok. Qed.
#[global] Instance libbpf_tristate_ok : CEnumOk libbpf_tristate.
Proof. solve_enum_ok. Qed.

Lemma countdown_spec {A T} k nth (args : list A) (tokens : list T) :
  (forall l, nth l = l !! S k) -> length tokens = S k ->
  countdown nth args tokens =
    (if length args <=? k then tokens !! (k - length args) else None)%nat.
Proof.
  intros Hnth Ht. unfold countdown. rewrite Hnth.
  rewrite (lookup_app_r [None]) by (simpl; lia). cbn [length]. rewrite Nat.sub_succ, Nat.sub_0_r.
  destruct (Nat.leb_spec (length args) k).
  - rewrite lookup_app_r by (rewrite length_map; lia). rewrite length_map, lookup_map.
    destruct (tokens !! (k - length args)%nat) eqn:He; [done|].
    apply lookup_ge_None in He. lia.
  - rewrite lookup_app_l by (rewrite length_map; lia). rewrite lookup_map.
    by destruct (args !! k).
Qed.

Lemma bpf_narg_spec {A} (args : list A) :
  ___bpf_narg args = if (length args <=? 12)%nat then Some (length args) else None.
Proof.
  unfold ___bpf_narg. rewrite (countdown_spec 12) by done.
  destruct (Nat.leb_spec (length args) 12); [|done].
  do 13 (destruct args as [|? args]; [done|]). simpl in *. lia.
Qed.

Lemma bpf_fill_family_spec n arr p args :
  n = length args -> (p + n <= length arr)%nat ->
  bpf_fill_family n arr p args = Some (splice p (map (wrap 64) args) arr).
Proof.
  revert n arr p. induction args as [|x args IH]; intros n arr p -> Hl.
  - simpl. by rewrite splice_nil.
  - cbn [length map] in *. rewrite <- splice_insert by lia. destruct args as [|y args].
    + simpl. by rewrite splice_nil.
    + rewrite <- (IH (length (y :: args)) (<[p:=wrap 64 x]> arr) (S p));
        [|done|rewrite length_insert; lia].
      by replace (S p) with (p + 1)%nat by lia.
Qed.

Lemma bpf_fill_spec arr args :
  (length args <= 12)%nat -> length arr = length args ->
  ___bpf_fill arr args = Some (map (wrap 64) args).
Proof.
  intros Hle Hl. unfold ___bpf_fill. rewrite bpf_narg_spec.
  destruct (Nat.leb_spec (length args) 12); [|lia]. simpl. unfold ___bpf_fillN.
  destruct (Nat.leb_spec (length args) 12); [|lia].
  rewrite bpf_fill_family_spec, splice_all by (rewrite ?length_map; lia). done.
Qed.

Lemma param_array_spec args :
  param_array args = if (length args <=? 12)%nat then Some (map (wrap 64) args) else None.
Proof.
  unfold param_array. rewrite bpf_narg_spec.
  destruct (Nat.leb_spec (length args) 12); [|done].
  apply bpf_fill_spec; [done|]. apply length_replicate.
Qed.

(** The variadic counting macro gives the number of arguments for up to twelve of them and
    nothing beyond, and [___bpf_fill] then stores all of them in order, as 64-bit values. *)
Theorem bpf_variadic_fill {A} (xs : list A) (args arr : list Z) :
  length arr = length args ->
  ___bpf_narg xs = (if (length xs <=? 12)%nat then Some (length xs) else None) /\
  ___bpf_fill arr args =
    (if (length args <=? 12)%nat then Some (map (wrap 64) args) else None).
Proof.
  intros Hl. split; [apply bpf_narg_spec|].
  destruct (Nat.leb_spec (length args) 12); [by apply bpf_fill_spec|].
  unfold ___bpf_fill. rewrite bpf_narg_spec. by destruct (Nat.leb_spec (length args) 12); [lia|].
Qed.

Lemma bpf_variadic_fill_witness : ___bpf_fill [0; 0] [7; -1] = Some [7; 18446744073709551615].
Proof. apply (bpf_variadic_fill (A:=Z) [] [7; -1] [0; 0]). reflexivity. Defined.

Lemma bpf_vprintk_spec fmt args :
  (length args <= 12)%nat ->
  __bpf_vprintk fmt args = Some (PrintCall helpers.bpf_trace_vprintk [] fmt
    (Some (fmt_sizeof fmt)) (map (wrap 64) args) (8 * Z.of_nat (length args)) []).
Proof.
  intros H. unfold __bpf_vprintk, with_params. rewrite param_array_spec.
  destruct (Nat.leb_spec (length args) 12); [|lia]. by rewrite length_map.
Qed.

Lemma bpf_printk_spec fmt args :
  bpf_printk fmt args =
    (if length args <=? 3 then
       Some (PrintCall helpers.bpf_trace_printk [] fmt (Some (fmt_sizeof fmt)) [] 0 args)
     else if length args <=? 12 then
       Some (PrintCall helpers.bpf_trace_vprintk [] fmt (Some (fmt_sizeof fmt))
         (map (wrap 64) args)
         (8 * Z.of_nat (length args)) [])
     else None)%nat.
Proof.
  unfold bpf_printk, ___bpf_pick_printk. rewrite (countdown_spec 12) by done.
  destruct (Nat.leb_spec (length args) 12) as [Hle|];
    [|by destruct (Nat.leb_spec (length args) 3); [lia|]].
  pose proof (bpf_vprintk_spec fmt args Hle) as Hv.
  revert Hv. generalize (map (wrap 64) args). intros ps Hv.
  do 13 (destruct args as [|? args]; [by rewrite ?Hv|]). simpl in Hle. lia.
Qed.

(** [bpf_printk] prints up to three values with bpf_trace_printk, whose call then has at
    most five arguments, and four to twelve with bpf_trace_vprintk, which gets all of them in an
    array of the right size; with more the macro does not expand. *)
Theorem bpf_printk_dispatch fmt args :
  bpf_printk fmt args =
    (if length args <=? 3 then
       Some (PrintCall helpers.bpf_trace_printk [] fmt (Some (fmt_sizeof fmt)) [] 0 args)
     else if length args <=? 12 then
       Some (PrintCall helpers.bpf_trace_vprintk [] fmt (Some (fmt_sizeof fmt))
         (map (wrap 64) args)
         (8 * Z.of_nat (length args)) [])
     else None)%nat /\
  match bpf_printk fmt args with
  | Some c => (length (h_args (pc_helper c)) + length (pc_direct c) <= MAX_BPF_ARGS)%nat
  | None => True
  end.
Proof.
  split; [apply bpf_printk_spec|]. rewrite bpf_printk_spec.
  destruct (Nat.leb_spec (length args) 3); [simpl; unfold MAX_BPF_ARGS; lia|].
  destruct (length args <=? 12)%nat; simpl; unfold MAX_BPF_ARGS; lia.
Qed.

(** The constant tail call issues the helper bpf_tail_call, with a register for each of its
    arguments, in order. *)
Theorem bpf_tail_call_static_calls_tail_call ctx m slot :
  bpf_tail_call_static true ctx m slot =
    CallHelper (h_id helpers.bpf_tail_call) (zip (seq 1 (length (h_args helpers.bpf_tail_call))) [ctx; m; slot]) /\
  bpf_tail_call_static false ctx m slot = Trap.
Proof. split; reflexivity. Qed.

(** [container_of] inverts taking the address of a member, for every designator the type
    has and every 64-bit address. *)
Theorem container_of_member_address t path p o :
  CAbi.offsetof t path = Some o -> is_unsigned 64 p ->
  container_of (wrap 64 (p + o)) t path = Some p.
Proof.
  intros Ho Hp. unfold container_of. rewrite Ho. f_equal. unfold wrap.
  rewrite Zminus_mod_idemp_l. replace (p + o - o) with p by lia. by apply Z.mod_small.
Qed.

Lemma container_of_member_address_witness :
  container_of 4112 vmlinux.trace_probe_event [Dot "call"; Dot "flags"] = Some 4088.
Proof.
  apply (container_of_member_address vmlinux.trace_probe_event [Dot "call"; Dot "flags"] 4088 24).
  - reflexivity.
  - split; vm_compute; congruence.
Defined.

(** [KERNEL_VERSION] orders versions: for minor versions below 256, the code of one version
    is at most that of another exactly when the version, with its sublevel capped at 255, is not
    later. *)
Theorem KERNEL_VERSION_order a b c a' b' c' :
  0 <= b < 256 -> 0 <= b' < 256 -> 0 <= c -> 0 <= c' ->
  KERNEL_VERSION a b c <= KERNEL_VERSION a' b' c' <->
  a < a' \/ (a = a' /\ (b < b' \/ (b = b' /\ Z.min c 255 <= Z.min c' 255))).
Proof.
  intros Hb Hb' Hc Hc'. unfold KERNEL_VERSION.
  rewrite !Z.shiftl_mul_pow2 by lia. change (2 ^ 16) with 65536. change (2 ^ 8) with 256.
  replace (if c >? 255 then 255 else c) with (Z.min c 255)
    by (rewrite Z.gtb_ltb; case_if; simplify_bool; lia).
  replace (if c' >? 255 then 255 else c') with (Z.min c' 255)
    by (rewrite Z.gtb_ltb; case_if; simplify_bool; lia).
  lia.
Qed.

Lemma KERNEL_VERSION_order_witness : KERNEL_VERSION 4 19 300 <= KERNEL_VERSION 5 4 0.
Proof. apply (KERNEL_VERSION_order 4 19 300 5 4 0); lia. Defined.
