(* ===== verification/EgressTypes.v ===== *)
(** Event, header and map types: src/ebpf/c/include/types.h and src/ebpf/c/include/maps.h.

    [c_types] collects every composite type the program's headers declare; the layout theorems
    hold for all of them. *)
From S2P Require Import Prelude CAbi Vmlinux BpfEndian VmlinuxMissing HelperDefs BpfHelpers.
From stdpp Require Import base numbers list strings.
Local Open Scope string_scope.
Local Open Scope Z_scope.

(** * types.h *)
Definition event_context : ctype := cstruct [
    fld "pid" vmlinux.u32;
    fld "eventid" vmlinux.u32
  ].
Definition net_event_context : ctype := cstruct_packed [
    anon (cstruct_packed [
      fld "bytes" vmlinux.u32
    ])
  ].
Definition iphdrs : ctype := cunion [
    fld "iphdr" vmlinux.iphdr;
    fld "ipv6hdr" vmlinux.ipv6hdr
  ].
Definition protohdrs : ctype := cunion [
    fld "tcphdr" vmlinux.tcphdr;
    fld "udphdr" vmlinux.udphdr;
    fld "icmphdr" vmlinux.icmphdr;
    fld "icmp6hdr" vmlinux.icmp6hdr;
    anon (cunion [
      fld "tcp_extra" (CArr vmlinux.u8 40)
    ])
  ].
Definition nethdrs : ctype := cstruct [
    fld "iphdrs" iphdrs;
    fld "protohdrs" protohdrs
  ].

Definition egress_types : list (string * ctype) :=
  [("event_context_t", event_context); ("net_event_context_t", net_event_context);
   ("iphdrs", iphdrs); ("protohdrs", protohdrs); ("nethdrs", nethdrs)].

(** Every composite type of the headers. *)
Definition c_types (arch : target_arch) : list (string * ctype) :=
  vmlinux.vmlinux_types arch ++ flavors.flavor_types ++
  [("struct bpf_map_def", bpf_map_def)] ++ egress_types.

(** * maps.h *)

(** A map declaration is its name and the members the loader reads. *)
Record bpf_map_decl := MapDecl { map_name : string; map_members : list map_member }.

Definition MAX_STACK_ADDRESSES : Z := 1024.
Definition MAX_STACK_DEPTH : Z := 20.

Definition BPF_MAP (_name : string) (_type : vmlinux.bpf_map_type) (_key_type _value_type : ctype)
    (_max_entries : Z) : bpf_map_decl :=
  MapDecl _name
    [__uint "type" (enum_val _type);
     __uint "max_entries" _max_entries;
     __type "key" _key_type;
     __type "value" _value_type].

Definition BPF_MAP_NO_KEY (_name : string) (_type : vmlinux.bpf_map_type) (_value_type : ctype)
    (_max_entries : Z) : bpf_map_decl :=
  MapDecl _name
    [__uint "type" (enum_val _type);
     __uint "max_entries" _max_entries;
     __type "value" _value_type].

Definition BPF_HASH (_name : string) (_key_type _value_type : ctype) (_max_entries : Z) :=
  BPF_MAP _name vmlinux.BPF_MAP_TYPE_HASH _key_type _value_type _max_entries.
Definition BPF_LRU_HASH (_name : string) (_key_type _value_type : ctype) (_max_entries : Z) :=
  BPF_MAP _name vmlinux.BPF_MAP_TYPE_LRU_HASH _key_type _value_type _max_entries.
Definition BPF_ARRAY (_name : string) (_value_type : ctype) (_max_entries : Z) :=
  BPF_MAP _name vmlinux.BPF_MAP_TYPE_ARRAY vmlinux.u32 _value_type _max_entries.
Definition BPF_PERCPU_ARRAY (_name : string) (_value_type : ctype) (_max_entries : Z) :=
  BPF_MAP _name vmlinux.BPF_MAP_TYPE_PERCPU_ARRAY vmlinux.u32 _value_type _max_entries.
Definition BPF_PROG_ARRAY (_name : string) (_max_entries : Z) :=
  BPF_MAP _name vmlinux.BPF_MAP_TYPE_PROG_ARRAY vmlinux.u32 vmlinux.u32 _max_entries.
Definition BPF_PERF_OUTPUT (_name : string) (_max_entries : Z) :=
  BPF_MAP _name vmlinux.BPF_MAP_TYPE_PERF_EVENT_ARRAY c_int vmlinux.__u32 _max_entries.
Definition BPF_QUEUE (_name : string) (_value_type : ctype) (_max_entries : Z) :=
  BPF_MAP_NO_KEY _name vmlinux.BPF_MAP_TYPE_QUEUE _value_type _max_entries.
Definition BPF_STACK (_name : string) (_value_type : ctype) (_max_entries : Z) :=
  BPF_MAP_NO_KEY _name vmlinux.BPF_MAP_TYPE_STACK _value_type _max_entries.
Definition stack_trace_t : ctype := CArr vmlinux.__u64 MAX_STACK_DEPTH.
Definition BPF_STACK_TRACE (_name : string) (_max_entries : Z) :=
  BPF_MAP _name vmlinux.BPF_MAP_TYPE_STACK_TRACE vmlinux.u32 stack_trace_t _max_entries.

(** What the loader reads of a declaration: the value of a [__uint] member and the size of a
    [__type] member. *)
Fixpoint uint_attr (n : string) (ms : list map_member) : option Z :=
  match ms with
  | [] => None
  | __uint m v :: ms' => if String.eqb m n then Some v else uint_attr n ms'
  | _ :: ms' => uint_attr n ms'
  end.
Fixpoint type_attr (n : string) (ms : list map_member) : option Z :=
  match ms with
  | [] => None
  | __type m t :: ms' => if String.eqb m n then Some (sizeof t) else type_attr n ms'
  | _ :: ms' => type_attr n ms'
  end.

(** * Layout *)

(** Every type of the headers is well formed: sizes of integers, bit-field widths and array
    bounds are legal. *)
Lemma c_types_wf arch nm t : (nm, t) ∈ c_types arch -> wf_ctype t = true.
Proof.
  assert (Forall (λ p, wf_ctype (snd p) = true) (c_types arch)) as H.
  { apply forallb_Forall. by destruct arch; vm_compute. }
  intros Hin. rewrite Forall_forall in H. apply (H _ Hin).
Qed.

(** Every designator into a type of the program's headers, through arrays, nested and
    anonymous members and bit-fields, denotes bits inside the object; reading it gives a value of
    the member's width, and the read depends on no other byte of the object. *)
Theorem member_access_sound arch nm t path o b t' en bs :
  (nm, t) ∈ c_types arch ->
  resolve t path = Some (o, b, t') ->
  bytes_ok bs -> Z.of_nat (length bs) = sizeof t ->
  let w := member_width b t' in
  let '(k, n) := cover o w in
  0 <= o /\ o + w <= 8 * sizeof t /\
  exists v, read_member en t path bs = Some v /\ 0 <= v < 2 ^ w /\
    v = extract en (slice k n bs) (o mod 8) w.
Proof.
  intros Hin%c_types_wf Hr Hok Hlen w.
  destruct (resolve_in_bounds _ _ _ _ _ Hin Hr) as [Ho Hhi].
  destruct (resolve_member_ok _ _ _ _ _ Hin Hr) as [Hw' Hb'].
  pose proof (member_width_nonneg _ _ Hw' Hb') as Hw. fold w in Hhi, Hw.
  destruct (cover o w) as [k n] eqn:Hc. split_and!; [done..|].
  exists (extract en bs o w). split_and!; try by apply extract_bound.
  - unfold read_member. rewrite Hr. by destruct b.
  - rewrite (extract_cover en bs o w), Hc; [done..|lia].
Qed.

Lemma member_access_sound_witness :
  exists v, read_member LittleEndian vmlinux.iphdr [Dot "version"] (69 :: replicate 19 0) = Some v
    /\ 0 <= v < 16.
Proof.
  destruct (member_access_sound TARGET_ARCH_x86 "struct iphdr" vmlinux.iphdr [Dot "version"]
    4 (Some 4) vmlinux.__u8 LittleEndian (69 :: replicate 19 0)) as (_ & _ & v & Hv & Hb & _).
  - apply (list_elem_of_lookup_2 _ 114). reflexivity.
  - reflexivity.
  - repeat constructor; vm_compute; congruence.
  - reflexivity.
  - exists v. split; [exact Hv|exact Hb].
Defined.

(** The members of every struct of the program's headers are laid out in declaration order without
    sharing a bit, an ordinary member starts at a multiple of its alignment, and a bit-field does
    not cross a storage unit of its declared type. *)
Theorem struct_members_disjoint arch nm p al ms i j n1 b1 t1 n2 b2 t2 :
  (nm, CStruct p al ms) ∈ c_types arch -> (i < j)%nat ->
  ms !! i = Some (n1, b1, t1) -> ms !! j = Some (n2, b2, t2) ->
  exists o1 o2,
    member_offsets (CStruct p al ms) !! i = Some o1 /\
    member_offsets (CStruct p al ms) !! j = Some o2 /\
    0 <= o1 /\ o1 + member_width b1 t1 <= o2 /\
    o2 + member_width b2 t2 <= 8 * sizeof (CStruct p al ms) /\
    (p = false -> b2 = None -> o2 mod (8 * alignof t2) = 0) /\
    (p = false -> forall w, b2 = Some w ->
       o2 / (8 * sizeof t2) = (o2 + w - 1) / (8 * sizeof t2)).
Proof.
  intros Hin%c_types_wf Hij H1 H2.
  assert (forall k x, ms !! k = Some x -> is_Some (member_offsets (CStruct p al ms) !! k)) as Hl.
  { intros k x Hk. apply lookup_lt_is_Some. cbn [member_offsets].
    rewrite length_struct_offsets, length_map. by eapply lookup_lt_Some. }
  destruct (Hl _ _ H1) as [o1 Ho1], (Hl _ _ H2) as [o2 Ho2].
  exists o1, o2. do 2 (split; [done|]). by eapply struct_members_sound.
Qed.

Lemma struct_members_disjoint_witness :
  exists o1 o2, member_offsets vmlinux.iphdr !! 1%nat = Some o1 /\
    member_offsets vmlinux.iphdr !! 2%nat = Some o2 /\ o1 + 4 <= o2.
Proof.
  destruct (struct_members_disjoint TARGET_ARCH_arm64 "struct iphdr" false 1
    (match vmlinux.iphdr with CStruct _ _ ms => ms | _ => [] end) 1 2
    "version" (Some 4) vmlinux.__u8 "tos" None vmlinux.__u8) as (o1 & o2 & H1 & H2 & _ & H & _).
  - apply (list_elem_of_lookup_2 _ 114). reflexivity.
  - lia.
  - reflexivity.
  - reflexivity.
  - exists o1, o2. auto.
Defined.


(** ** The wire formats *)












(** The header buffer has room for the largest IPv4 header and for every transport header
    behind it: the network part takes 40 bytes, the transport part the next 40, and the event the
    program emits is exactly the four bytes of its length field. *)
Theorem nethdrs_layout :
  sizeof nethdrs = 80 /\
  CAbi.offsetof nethdrs [Dot "iphdrs"] = Some 0 /\ sizeof iphdrs = 40 /\
  CAbi.offsetof nethdrs [Dot "protohdrs"] = Some 40 /\ sizeof protohdrs = 40 /\
  Forall (λ f, resolve nethdrs [Dot "iphdrs"; Dot "iphdr"; Dot f] =
               resolve vmlinux.iphdr [Dot f])
    ["ihl"; "version"; "tos"; "tot_len"; "id"; "frag_off"; "ttl"; "protocol"; "check"; "saddr";
     "daddr"] /\
  resolve nethdrs [Dot "protohdrs"; Dot "udphdr"; Dot "source"] = Some (320, None, vmlinux.__be16) /\
  resolve nethdrs [Dot "protohdrs"; Dot "udphdr"; Dot "dest"] = Some (336, None, vmlinux.__be16) /\
  sizeof net_event_context = 4 /\
  resolve net_event_context [Dot "bytes"] = Some (0, None, vmlinux.u32).
Proof. split_and!; try reflexivity. repeat constructor. Qed.

(** Each map macro declares the kernel map type it is named for, with the entries, key
    and value it is given; queues and stacks have no key, array-like maps a 4-byte key. *)
Theorem map_macros_declare_their_type nm k v n :
  let attrs d := (uint_attr "type" (map_members d), uint_attr "max_entries" (map_members d),
                  type_attr "key" (map_members d), type_attr "value" (map_members d)) in
  attrs (BPF_HASH nm k v n) = (Some 1, Some n, Some (sizeof k), Some (sizeof v)) /\
  attrs (BPF_LRU_HASH nm k v n) = (Some 9, Some n, Some (sizeof k), Some (sizeof v)) /\
  attrs (BPF_ARRAY nm v n) = (Some 2, Some n, Some 4, Some (sizeof v)) /\
  attrs (BPF_PERCPU_ARRAY nm v n) = (Some 6, Some n, Some 4, Some (sizeof v)) /\
  attrs (BPF_PROG_ARRAY nm n) = (Some 3, Some n, Some 4, Some 4) /\
  attrs (BPF_PERF_OUTPUT nm n) = (Some 4, Some n, Some 4, Some 4) /\
  attrs (BPF_QUEUE nm v n) = (Some 22, Some n, None, Some (sizeof v)) /\
  attrs (BPF_STACK nm v n) = (Some 23, Some n, None, Some (sizeof v)) /\
  attrs (BPF_STACK_TRACE nm n) = (Some 7, Some n, Some 4, Some (8 * MAX_STACK_DEPTH)).
Proof. cbn zeta beta. split_and!; reflexivity. Qed.
