(* ===== verification/EgressdBpf.v ===== *)
(** The eBPF program: src/ebpf/c/egressd.c.

    [cgroup_ingress] runs on every packet that enters a cgroup.  It recognises DNS messages over
    UDP/IPv4 and sends them to user space through the [events] perf map; it never drops a packet.

    The program is a computation in a small monad over its stack object [hdrs] and the trace of
    helper calls, with early return.  The kernel helpers it calls and the type sizes the loader
    relocates are the record [kernel], a parameter; [KernelSpec] states what the documentation in
    bpf_helper_defs.h and bpf_core_read.h promises of them.  The abstract specification
    [dns_over_udp4] reads the packet bytes directly; [cgroup_ingress] refines it. *)
From S2P Require Import Prelude CAbi BpfEndian Vmlinux VmlinuxMissing HelperDefs BpfHelpers.
From S2P Require Import EgressTypes.
From stdpp Require Import base numbers list strings.
Local Open Scope string_scope.
Local Open Scope Z_scope.

(** * The program's environment *)

(** The context: the members of [struct __sk_buff] the program reads, and the bytes of the
    packet the kernel associates with it, from the network header on. *)
Record sk_buff_ctx := SkBuff {
  skb_len : Z;
  skb_family : Z;
  skb_sk : Z;
  skb_net : list Z
}.

(** Helpers and load-time relocations. *)
Record kernel := Kernel {
  (* bpf_get_current_pid_tgid() *)
  k_current_pid_tgid : Z;
  (* bpf_sk_fullsock(sk) *)
  k_sk_fullsock : Z -> Z;
  (* bpf_skb_load_bytes_relative(skb, offset, to, len, start_header):
     the result and the bytes then in the buffer *)
  k_skb_load_bytes_relative : sk_buff_ctx -> Z -> Z -> Z -> Z * list Z;
  (* bpf_perf_event_output(ctx, map, flags, data, size) *)
  k_perf_event_output : sk_buff_ctx -> string -> Z -> list Z -> Z -> Z;
  (* bpf_core_type_size(type): the size of the type in the running kernel *)
  k_core_type_size : string -> Z
}.

(** What the program passes to helpers. *)
Inductive cval :=
| VScalar (z : Z)
| VCtx
| VHdrs (off : Z)      (* an address inside hdrs *)
| VMap (name : string)
| VData (bs : list Z). (* an object on the stack, by its bytes *)

Record call := Call { c_helper : helper; c_args : list cval }.

Record machine := Machine { m_hdrs : list Z; m_calls : list call }.

(** A computation continues with a value ([inl]) or returns from the function ([inr]). *)
Definition prog (A : Type) : Type := machine -> machine * (A + Z).
Definition ret {A} (a : A) : prog A := λ st, (st, inl a).
Definition return_ {A} (v : Z) : prog A := λ st, (st, inr v).
Definition bind {A B} (m : prog A) (f : A -> prog B) : prog B := λ st,
  match m st with
  | (st', inl a) => f a st'
  | (st', inr v) => (st', inr v)
  end.
Notation "'let!' x ':=' m 'in' k" := (bind m (λ x, k))
  (at level 200, x binder, m at level 100, k at level 200) : egress_scope.
Notation "m ';;' k" := (bind m (λ _, k)) (at level 100, right associativity) : egress_scope.
Local Open Scope egress_scope.

(** [if (c) return v;] *)
Definition return_if (c : bool) (v : Z) : prog unit := if c then return_ v else ret tt.

(** * egressd.c *)
Definition UDP_PORT_DNS : Z := 53.

Definition events : bpf_map_decl := BPF_PERF_OUTPUT "events" 1024.

Section egressd.
Context (en : endian) (K : kernel).

(** [bpf_get_current_pid_tgid() >> 32], returned as [int]. *)
Definition get_pid : Z := swrap 32 (Z.shiftr (k_current_pid_tgid K) 32).

Definition get_type_size (t : string) : Z := k_core_type_size K t.

Definition log_call (h : helper) (args : list cval) : prog unit := λ st,
  (Machine (m_hdrs st) (m_calls st ++ [Call h args]), inl tt).

Definition call_sk_fullsock (sk : Z) : prog Z :=
  log_call helpers.bpf_sk_fullsock [VScalar sk] ;;
  ret (k_sk_fullsock K sk).

(** A copy into memory at an address of the program. *)
Definition store_bytes (dest : cval) (bs : list Z) : prog unit := λ st,
  match dest with
  | VHdrs off => (Machine (splice (Z.to_nat off) bs (m_hdrs st)) (m_calls st), inl tt)
  | _ => (st, inl tt)
  end.

(** The helper writes [len] bytes to the buffer at [dest]. *)
Definition call_skb_load_bytes_relative (ctx : sk_buff_ctx) (offset : Z) (dest : cval)
    (len start_header : Z) : prog Z :=
  log_call helpers.bpf_skb_load_bytes_relative
    [VCtx; VScalar offset; dest; VScalar len; VScalar start_header] ;;
  let '(r, bs) := k_skb_load_bytes_relative K ctx offset len start_header in
  store_bytes dest bs ;;
  ret r.

Definition call_perf_event_output (ctx : sk_buff_ctx) (m : string) (flags : Z) (data : list Z)
    (size : Z) : prog Z :=
  log_call helpers.bpf_perf_event_output
    [VCtx; VMap m; VScalar flags; VData data; VScalar size] ;;
  ret (k_perf_event_output K ctx m flags data size).

(** [nethdrs->path] *)
Definition hdr (path : list selector) : prog Z := λ st,
  (st, inl (default 0 (read_member en nethdrs path (m_hdrs st)))).

(** [&nethdrs->path]; the address of an object is not null. *)
Definition hdr_address (path : list selector) : cval :=
  match CAbi.offsetof nethdrs path with Some o => VHdrs o | None => VScalar 0 end.
Definition is_null (v : cval) : bool := match v with VScalar z => z =? 0 | _ => false end.

(** [neteventctx = {}; neteventctx.bytes = v;]: the bytes of the event object. *)
Definition event_bytes (v : Z) : list Z :=
  let neteventctx := replicate (Z.to_nat (sizeof net_event_context)) 0 in
  match resolve net_event_context [Dot "bytes"] with
  | Some (o, _, t) =>
      splice (Z.to_nat (o / 8)) (store_uint en (Z.to_nat (sizeof t)) v) neteventctx
  | None => neteventctx
  end.

Definition cgroup_skb_generic (ctx : sk_buff_ctx) : prog Z :=
  return_if (negb (skb_family ctx =? missing.PF_INET)) 1 ;;
  return_if (skb_sk ctx =? 0) 1 ;;
  let! sk := call_sk_fullsock (skb_sk ctx) in
  return_if (sk =? 0) 1 ;;
  let dest := hdr_address [Dot "iphdrs"; Dot "iphdr"] in
  let size := wrap 32 (get_type_size "struct iphdr") in
  (* Load L3 protocol headers. *)
  let! r := call_skb_load_bytes_relative ctx 0 dest size 1 in
  return_if (negb (r =? 0)) 1 ;;
  let! version := hdr [Dot "iphdrs"; Dot "iphdr"; Dot "version"] in
  return_if (negb (version =? 4)) 1 ;;
  let! ihl := hdr [Dot "iphdrs"; Dot "iphdr"; Dot "ihl"] in
  let! size := (if ihl >? 5 then (* re-read IPv4 header if needed *)
      let size := wrap 32 (size - get_type_size "struct iphdr") in
      let size := wrap 32 (size + ihl * 4) in
      call_skb_load_bytes_relative ctx 0 dest size 1 ;;
      ret size
    else ret size) in
  let! protocol := hdr [Dot "iphdrs"; Dot "iphdr"; Dot "protocol"] in
  return_if (negb (protocol =? enum_val vmlinux.IPPROTO_UDP)) 1 ;;
  let prev_hdr_size := size in
  let size := wrap 32 (get_type_size "struct udphdr") in
  let dest := hdr_address [Dot "protohdrs"; Dot "udphdr"] in
  return_if (is_null dest) 1 ;;
  (* Load L4 headers. *)
  (if negb (size =? 0) then
     let! r := call_skb_load_bytes_relative ctx prev_hdr_size dest size
                 (enum_val vmlinux.BPF_HDR_START_NET) in
     return_if (negb (r =? 0)) 1
   else ret tt) ;;
  let! source := hdr [Dot "protohdrs"; Dot "udphdr"; Dot "source"] in
  let! dest := hdr [Dot "protohdrs"; Dot "udphdr"; Dot "dest"] in
  let src_port := bpf_ntohs en false source in
  let dst_port := bpf_ntohs en false dest in
  return_if (negb ((if src_port <? dst_port then src_port else dst_port) =? UDP_PORT_DNS)) 1 ;;
  let neteventctx := event_bytes (skb_len ctx) in
  let flags := enum_val vmlinux.BPF_F_CURRENT_CPU in
  let data_size := skb_len ctx in
  let flags := Z.lor flags (wrap 64 (Z.shiftl data_size 32)) in
  call_perf_event_output ctx (map_name events) flags neteventctx (sizeof net_event_context) ;;
  return_ 1.

(** [nethdrs hdrs = {0}]: the program starts with a cleared header buffer. *)
Definition start : machine := Machine (replicate (Z.to_nat (sizeof nethdrs)) 0) [].

Definition run (m : prog Z) (st : machine) : machine * Z :=
  match m st with (st', inl v) | (st', inr v) => (st', v) end.

(** The program attached to [cgroup_skb/ingress]: the verdict, as [int], and the final state. *)
Definition cgroup_ingress (skb : sk_buff_ctx) : machine * Z :=
  let '(st, v) := run (cgroup_skb_generic skb) start in (st, swrap 32 v).
End egressd.

(** The records a run sent to the perf map: flags, data and size of each output call. *)
Definition output_of (c : call) : option (string * Z * list Z * Z) :=
  match c_args c with
  | [VCtx; VMap m; VScalar flags; VData d; VScalar size] =>
      if h_id (c_helper c) =? h_id helpers.bpf_perf_event_output then Some (m, flags, d, size)
      else None
  | _ => None
  end.
Definition outputs (st : machine) : list (string * Z * list Z * Z) := omap output_of (m_calls st).

(** * What the kernel promises *)

(** bpf_skb_load_bytes_relative loads [len] bytes from [offset] from the network header, or
    returns a negative error when the packet is too short; the buffer keeps its size.  The header
    types have the same size in every kernel (vmlinux.h, "COMPLETE NETWORK TYPES"). *)
Class KernelSpec (K : kernel) : Prop := {
  load_in_packet : forall skb off len,
    0 <= off -> 0 <= len -> off + len <= Z.of_nat (length (skb_net skb)) ->
    k_skb_load_bytes_relative K skb off len (enum_val vmlinux.BPF_HDR_START_NET) =
      (0, slice (Z.to_nat off) (Z.to_nat len) (skb_net skb));
  load_past_packet : forall skb off len,
    0 <= off -> 0 <= len -> Z.of_nat (length (skb_net skb)) < off + len ->
    fst (k_skb_load_bytes_relative K skb off len (enum_val vmlinux.BPF_HDR_START_NET)) < 0;
  load_keeps_buffer : forall skb off len start,
    0 <= len ->
    Z.of_nat (length (snd (k_skb_load_bytes_relative K skb off len start))) = len /\
    (bytes_ok (skb_net skb) ->
     bytes_ok (snd (k_skb_load_bytes_relative K skb off len start)));
  iphdr_size : k_core_type_size K "struct iphdr" = sizeof vmlinux.iphdr;
  udphdr_size : k_core_type_size K "struct udphdr" = sizeof vmlinux.udphdr
}.

(** * Abstract specification *)
Definition pkt_byte (p : list Z) (i : nat) : Z := default 0 (p !! i).

(** The length of the IPv4 header the program assumes: at least the fixed part. *)
Definition ip_header_len (p : list Z) : Z := Z.max 20 (4 * (pkt_byte p 0 mod 16)).

Definition be16_at (p : list Z) (i : nat) : Z := be_combine (slice i 2 p).

(** An IPv4 packet with a complete UDP header whose lower port is 53. *)
Definition dns_over_udp4 (p : list Z) : bool :=
  let h := ip_header_len p in
  (20 <=? Z.of_nat (length p)) && (pkt_byte p 0 / 16 =? 4) &&
  (h + 8 <=? Z.of_nat (length p)) && (pkt_byte p 9 =? 17) &&
  (Z.min (be16_at p (Z.to_nat h)) (be16_at p (Z.to_nat (h + 2))) =? 53).

(** When a packet is reported. *)
Definition reported (K : kernel) (skb : sk_buff_ctx) : bool :=
  (skb_family skb =? 2) && negb (skb_sk skb =? 0) && negb (k_sk_fullsock K (skb_sk skb) =? 0) &&
  dns_over_udp4 (skb_net skb).

(** The record reported for a packet of length [len]. *)
Definition dns_record (en : endian) (len : Z) : string * Z * list Z * Z :=
  ("events", len * 2 ^ 32 + (2 ^ 32 - 1), store_uint en 4 len, 4).

(** * Reasoning about a run *)

(** [m] started in [st] continues in a state of [Q] or returns in a state of [R]. *)
Definition wp {A} (m : prog A) (Q : A -> machine -> Prop) (R : Z -> machine -> Prop)
    (st : machine) : Prop :=
  match m st with (st', inl a) => Q a st' | (st', inr v) => R v st' end.

Lemma wp_bind {A B} (m : prog A) (f : A -> prog B) Q R st :
  wp m (λ a, wp (f a) Q R) R st -> wp (bind m f) Q R st.
Proof. unfold wp, bind. by destruct (m st) as [st' [a|v]]. Qed.

Lemma wp_ret {A} (a : A) (Q : A -> machine -> Prop) R st : Q a st -> wp (ret a) Q R st.
Proof. done. Qed.

Lemma wp_return {A} v (Q : A -> machine -> Prop) (R : Z -> machine -> Prop) st :
  R v st -> wp (return_ v) Q R st.
Proof. done. Qed.

Lemma wp_return_if c v (Q : unit -> machine -> Prop) (R : Z -> machine -> Prop) st :
  (c = true -> R v st) -> (c = false -> Q tt st) -> wp (return_if c v) Q R st.
Proof. destruct c; unfold wp; simpl; auto. Qed.

Lemma wp_if {A} (c : bool) (m1 m2 : prog A) Q R st :
  (c = true -> wp m1 Q R st) -> (c = false -> wp m2 Q R st) ->
  wp (if c then m1 else m2) Q R st.
Proof. destruct c; auto. Qed.

Lemma wp_hdr en path (Q : Z -> machine -> Prop) R st :
  Q (default 0 (read_member en nethdrs path (m_hdrs st))) st -> wp (hdr en path) Q R st.
Proof. done. Qed.

Lemma wp_sk_fullsock K sk (Q : Z -> machine -> Prop) R st :
  Q (k_sk_fullsock K sk)
    (Machine (m_hdrs st) (m_calls st ++ [Call helpers.bpf_sk_fullsock [VScalar sk]])) ->
  wp (call_sk_fullsock K sk) Q R st.
Proof. done. Qed.

Lemma wp_load K ctx off dest len start (Q : Z -> machine -> Prop) R st :
  Q (fst (k_skb_load_bytes_relative K ctx off len start))
    (Machine
       (splice (Z.to_nat dest) (snd (k_skb_load_bytes_relative K ctx off len start)) (m_hdrs st))
       (m_calls st ++ [Call helpers.bpf_skb_load_bytes_relative
          [VCtx; VScalar off; VHdrs dest; VScalar len; VScalar start]])) ->
  wp (call_skb_load_bytes_relative K ctx off (VHdrs dest) len start) Q R st.
Proof.
  intros H. unfold wp, call_skb_load_bytes_relative, log_call, bind, store_bytes, ret.
  by destruct (k_skb_load_bytes_relative K ctx off len start).
Qed.

Lemma wp_output K ctx m flags data size (Q : Z -> machine -> Prop) R st :
  Q (k_perf_event_output K ctx m flags data size)
    (Machine (m_hdrs st) (m_calls st ++ [Call helpers.bpf_perf_event_output
       [VCtx; VMap m; VScalar flags; VData data; VScalar size]])) ->
  wp (call_perf_event_output K ctx m flags data size) Q R st.
Proof. done. Qed.

Lemma cgroup_ingress_wp en K skb (P : machine * Z -> Prop) :
  wp (cgroup_skb_generic en K skb) (λ v st, P (st, swrap 32 v)) (λ v st, P (st, swrap 32 v))
    start ->
  P (cgroup_ingress en K skb).
Proof.
  unfold wp, cgroup_ingress, run. by destruct (cgroup_skb_generic en K skb start) as [? [?|?]].
Qed.

(** Runs the program symbolically: one goal per path, with the condition of each branch. *)
Ltac wp_step :=
  cbv zeta;
  match goal with
  | |- wp (bind _ _) _ _ _ => apply wp_bind
  | |- wp (ret _) _ _ _ => apply wp_ret
  | |- wp (return_ _) _ _ _ => apply wp_return
  | |- wp (return_if _ _) _ _ _ => apply wp_return_if; [intros ?|intros ?]
  | |- wp (hdr _ _) _ _ _ => apply wp_hdr
  | |- wp (call_sk_fullsock _ _) _ _ _ => apply wp_sk_fullsock
  | |- wp (call_skb_load_bytes_relative _ _ _ (hdr_address _) _ _) _ _ _ => apply wp_load
  | |- wp (call_perf_event_output _ _ _ _ _ _) _ _ _ => apply wp_output
  | |- wp (if _ then _ else _) _ _ _ => apply wp_if; [intros ?|intros ?]
  end.
Ltac wp_run := unfold cgroup_skb_generic; repeat wp_step.

(** * Safety, for every kernel *)

(** C3: the program lets every packet through, whatever the helpers return. *)
Theorem cgroup_ingress_verdict en K skb : snd (cgroup_ingress en K skb) = 1.
Proof. apply cgroup_ingress_wp. by wp_run. Qed.

(** An argument fits the parameter of the helper's prototype: a scalar its width, an address a
    pointer parameter. *)
Definition arg_ok (v : cval) (p : string * carg) : Prop :=
  match v, snd p with
  | VScalar z, AVal t => is_unsigned (8 * sizeof t) z
  | VScalar z, APtr _ _ => is_unsigned 64 z
  | VCtx, APtr _ _ | VHdrs _, APtr _ _ | VMap _, APtr _ _ | VData _, APtr _ _ => True
  | _, AVal _ => False
  end.

(** A call passes what the prototype declares; an output call passes the size of its object. *)
Definition call_ok (c : call) : Prop :=
  Forall2 arg_ok (c_args c) (h_args (c_helper c)) /\
  match output_of c with
  | Some (m, _, d, size) => m = "events" /\ size = Z.of_nat (length d)
  | None => True
  end.

(** The members of the context have their declared widths. *)
Definition ctx_ok (skb : sk_buff_ctx) : Prop :=
  is_unsigned 32 (skb_len skb) /\ is_unsigned 64 (skb_sk skb).

Lemma flags_value len :
  is_unsigned 32 len ->
  Z.lor (enum_val vmlinux.BPF_F_CURRENT_CPU) (wrap 64 (Z.shiftl len 32)) =
    len * 2 ^ 32 + (2 ^ 32 - 1).
Proof.
  intros Hlen. unfold is_unsigned in Hlen.
  rewrite Z.shiftl_mul_pow2, wrap_id by (lia || split; lia).
  rewrite Z.lor_comm. by apply lor_disjoint_add.
Qed.

Lemma event_bytes_eq en v : event_bytes en v = store_uint en 4 v.
Proof.
  unfold event_bytes. change (resolve net_event_context [Dot "bytes"]) with
    (Some (0, @None Z, vmlinux.u32)). apply splice_all. by rewrite length_store_uint.
Qed.

Lemma length_event_bytes en v : length (event_bytes en v) = 4%nat.
Proof. by rewrite event_bytes_eq, length_store_uint. Qed.

(** One goal per argument of a call. *)
Ltac args_ok := repeat first [apply List.Forall2_nil|apply List.Forall2_cons]; try exact I.

Lemma fullsock_call_ok skb :
  ctx_ok skb -> call_ok (Call helpers.bpf_sk_fullsock [VScalar (skb_sk skb)]).
Proof. intros [_ Hsk]. split; [|done]. args_ok. exact Hsk. Qed.

Lemma load_call_ok off dest len start :
  is_unsigned 32 off -> is_unsigned 32 len -> is_unsigned 32 start ->
  call_ok (Call helpers.bpf_skb_load_bytes_relative
    [VCtx; VScalar off; VHdrs dest; VScalar len; VScalar start]).
Proof. intros ???. split; [|done]. args_ok; assumption. Qed.

Lemma output_call_ok en skb :
  ctx_ok skb ->
  call_ok (Call helpers.bpf_perf_event_output
    [VCtx; VMap (map_name events);
     VScalar (Z.lor (enum_val vmlinux.BPF_F_CURRENT_CPU) (wrap 64 (Z.shiftl (skb_len skb) 32)));
     VData (event_bytes en (skb_len skb)); VScalar (sizeof net_event_context)]).
Proof.
  intros [Hl _]. rewrite flags_value by done. unfold is_unsigned in Hl. split.
  - args_ok; [change (is_unsigned 64 (skb_len skb * 2 ^ 32 + (2 ^ 32 - 1)))|split; done].
    unfold is_unsigned. lia.
  - cbn -[event_bytes]. by rewrite length_event_bytes.
Qed.
#[export] Hint Resolve fullsock_call_ok load_call_ok output_call_ok : egress.

Lemma wrap_u32 z : is_unsigned 32 (wrap 32 z).
Proof. by apply wrap_unsigned. Qed.

Lemma small_u32 : is_unsigned 32 0 /\ is_unsigned 32 1.
Proof. by repeat split. Qed.

Lemma hdr_start_net_u32 : is_unsigned 32 (enum_val vmlinux.BPF_HDR_START_NET).
Proof. apply small_u32. Qed.

(** C4: whatever the helpers return, the program makes at most five calls, every argument fits the
    prototype in bpf_helper_defs.h, at most one record is sent, and it goes to [events] with the
    size of the event object. *)
Theorem cgroup_ingress_calls en K skb :
  ctx_ok skb ->
  Forall call_ok (m_calls (fst (cgroup_ingress en K skb))) /\
  (length (m_calls (fst (cgroup_ingress en K skb))) <= 5)%nat /\
  (length (outputs (fst (cgroup_ingress en K skb))) <= 1)%nat.
Proof.
  intros Hctx. apply cgroup_ingress_wp. wp_run; cbn [fst m_calls start app];
    (split_and!; [|simpl; lia|cbn -[event_bytes]; lia]);
    repeat first [apply List.Forall_nil|apply List.Forall_cons];
    destruct small_u32; auto 6 using wrap_u32, hdr_start_net_u32 with egress.
Qed.

Lemma cgroup_ingress_calls_witness :
  let skb := SkBuff 28 2 4096 [] in
  let K := Kernel 0 (λ sk, sk) (λ _ _ len _, (0, replicate (Z.to_nat len) 69)) (λ _ _ _ _ _, 0)
             (λ _, 20) in
  Forall call_ok (m_calls (fst (cgroup_ingress LittleEndian K skb))).
Proof. apply cgroup_ingress_calls. repeat split; vm_compute; congruence. Defined.

(** * Memory safety *)
Lemma iphdr_address : hdr_address [Dot "iphdrs"; Dot "iphdr"] = VHdrs 0.
Proof. reflexivity. Qed.
Lemma udphdr_address : hdr_address [Dot "protohdrs"; Dot "udphdr"] = VHdrs 40.
Proof. reflexivity. Qed.

Lemma read_ihl en bs :
  read_member en nethdrs [Dot "iphdrs"; Dot "iphdr"; Dot "ihl"] bs = Some (extract en bs 0 4).
Proof. reflexivity. Qed.
Lemma read_version en bs :
  read_member en nethdrs [Dot "iphdrs"; Dot "iphdr"; Dot "version"] bs =
    Some (extract en bs 4 4).
Proof. reflexivity. Qed.
Lemma read_protocol en bs :
  read_member en nethdrs [Dot "iphdrs"; Dot "iphdr"; Dot "protocol"] bs =
    Some (extract en bs 72 8).
Proof. reflexivity. Qed.
Lemma read_source en bs :
  read_member en nethdrs [Dot "protohdrs"; Dot "udphdr"; Dot "source"] bs =
    Some (extract en bs 320 16).
Proof. reflexivity. Qed.
Lemma read_dest en bs :
  read_member en nethdrs [Dot "protohdrs"; Dot "udphdr"; Dot "dest"] bs =
    Some (extract en bs 336 16).
Proof. reflexivity. Qed.

(** The size the program computes for a header of [ihl] words is [4 * ihl]. *)
Lemma reread_size ihl : 0 <= ihl < 16 -> wrap 32 (wrap 32 (20 - 20) + ihl * 4) = ihl * 4.
Proof. intros. change (wrap 32 (20 - 20)) with 0. apply wrap_id. unfold is_unsigned. lia. Qed.

(** The program with the addresses and the relocated sizes filled in. *)
Ltac wp_resolve :=
  apply cgroup_ingress_wp; unfold cgroup_skb_generic; cbv zeta;
  rewrite iphdr_address, udphdr_address; unfold get_type_size;
  rewrite iphdr_size, udphdr_size;
  change (wrap 32 (sizeof vmlinux.iphdr)) with 20;
  change (sizeof vmlinux.iphdr) with 20;
  change (wrap 32 (sizeof vmlinux.udphdr)) with 8;
  change (enum_val vmlinux.BPF_HDR_START_NET) with 1.

(** Writes of a call stay inside [hdrs]. *)
Definition writes_in_bounds (c : call) : Prop :=
  forall off len s s', c_args c = [VCtx; s; VHdrs off; VScalar len; s'] ->
    0 <= off /\ 0 <= len /\ off + len <= sizeof nethdrs.

Definition hdrs_ok (bs : list Z) : Prop :=
  Z.of_nat (length bs) = sizeof nethdrs /\ bytes_ok bs.

Definition safe (st : machine) : Prop :=
  hdrs_ok (m_hdrs st) /\ Forall writes_in_bounds (m_calls st).

Section memory.
Context (en : endian) (K : kernel) `{!KernelSpec K} (skb : sk_buff_ctx).
Context (Hpkt : bytes_ok (skb_net skb)).

Lemma safe_start : safe start.
Proof. split; [split; [done|]|constructor]. by apply bytes_ok_replicate. Qed.

Lemma wp_load_safe off dest len (Q : Z -> machine -> Prop) R st :
  safe st -> 0 <= dest -> 0 <= len -> dest + len <= 80 ->
  (forall r st', safe st' -> Q r st') ->
  wp (call_skb_load_bytes_relative K skb off (VHdrs dest) len 1) Q R st.
Proof.
  intros [[Hl Hok] Hc] Hd Hlen Hle HQ. apply wp_load, HQ.
  destruct (load_keeps_buffer skb off len 1 Hlen) as [Hbs Hbok].
  change (sizeof nethdrs) with 80 in *.
  split; [split|]; cbn [m_hdrs m_calls].
  - rewrite length_splice; [done|]. lia.
  - auto with egress.
  - apply Forall_app_2; [done|]. apply List.Forall_cons; [|constructor].
    intros off' len' s s' [= _ <- <- _]. change (sizeof nethdrs) with 80. lia.
Qed.

Lemma wp_sk_fullsock_safe sk (Q : Z -> machine -> Prop) R st :
  safe st -> (forall st', safe st' -> Q (k_sk_fullsock K sk) st') ->
  wp (call_sk_fullsock K sk) Q R st.
Proof.
  intros [Hh Hc] HQ. apply wp_sk_fullsock, HQ. split; [done|].
  apply Forall_app_2; [done|]. apply List.Forall_cons; [|constructor]. intros ???? [=].
Qed.

Lemma wp_output_safe m flags data size (Q : Z -> machine -> Prop) R st :
  safe st -> (forall r st', safe st' -> Q r st') ->
  wp (call_perf_event_output K skb m flags data size) Q R st.
Proof.
  intros [Hh Hc] HQ. apply wp_output, HQ. split; [done|].
  apply Forall_app_2; [done|]. apply List.Forall_cons; [|constructor]. intros ???? [=].
Qed.
End memory.

Ltac wp_safe_step :=
  match goal with
  | |- wp (call_sk_fullsock _ _) _ _ _ => apply wp_sk_fullsock_safe; [done|intros ? ?]
  | |- wp (call_skb_load_bytes_relative _ _ _ _ _ _) _ _ _ =>
      apply wp_load_safe; [done..|lia|lia|lia|intros ? ? ?]
  | |- wp (call_perf_event_output _ _ _ _ _ _) _ _ _ => apply wp_output_safe; [done|intros ???]
  | |- wp (hdr _ _) _ _ _ =>
      apply wp_hdr; rewrite ?read_ihl, ?read_version, ?read_protocol, ?read_source, ?read_dest;
      cbn [from_option id]
  | _ => wp_step
  end.

(** C2: the header buffer keeps its 80 bytes, and every copy the program asks for stays inside it,
    also when the IPv4 header has options and is read a second time with its real length of up to
    60 bytes. *)
Theorem cgroup_ingress_memory_safe en K skb :
  KernelSpec K -> bytes_ok (skb_net skb) ->
  Forall writes_in_bounds (m_calls (fst (cgroup_ingress en K skb))) /\
  hdrs_ok (m_hdrs (fst (cgroup_ingress en K skb))).
Proof.
  intros HK Hpkt. pose proof safe_start as Hstart.
  enough (safe (fst (cgroup_ingress en K skb))) as [? ?] by done.
  wp_resolve. repeat wp_safe_step; try done.
  match goal with |- context [extract ?e ?bs 0 4] =>
    pose proof (extract_bound e bs 0 4 ltac:(done)) as Hihl end.
  rewrite reread_size by done. repeat wp_safe_step; done.
Qed.

(** * A kernel *)

(** A kernel that keeps the promises: it copies packet bytes, or fails with -EFAULT and clears the
    buffer. *)
Definition ref_kernel : kernel :=
  Kernel 0 (λ sk, sk)
    (λ skb off len _,
       if (0 <=? off) && (0 <=? len) && (off + len <=? Z.of_nat (length (skb_net skb))) then
         (0, slice (Z.to_nat off) (Z.to_nat len) (skb_net skb))
       else (-14, replicate (Z.to_nat len) 0))
    (λ _ _ _ _ _, 0)
    (λ t, if String.eqb t "struct iphdr" then 20 else 8).

#[export] Instance ref_kernel_spec : KernelSpec ref_kernel.
Proof.
  split; try done; intros; cbn [k_skb_load_bytes_relative ref_kernel].
  - by rewrite !Zle_imp_le_bool.
  - rewrite (proj2 (Z.leb_gt (off + len) _)) by done. by rewrite andb_false_r.
  - case_if; cbn [snd]; simplify_bool.
    + rewrite length_slice. split; [lia|auto with egress].
    + rewrite length_replicate. split; [lia|]. intros. by apply bytes_ok_replicate.
Qed.

Lemma cgroup_ingress_memory_safe_witness :
  let skb := SkBuff 100 2 1 (79 :: replicate 99 17) in
  Forall writes_in_bounds (m_calls (fst (cgroup_ingress LittleEndian ref_kernel skb))).
Proof.
  apply cgroup_ingress_memory_safe; [apply ref_kernel_spec|].
  apply List.Forall_cons; [split; done|]. apply bytes_ok_replicate. split; done.
Defined.

(** * Refinement of the packet-level specification *)

Lemma wp_mono {A} (m : prog A) (Q Q' : A -> machine -> Prop) R st :
  wp m Q' R st -> (forall a st', Q' a st' -> Q a st') -> wp m Q R st.
Proof. unfold wp. destruct (m st) as [? [?|?]]; auto. Qed.

(** The buffer starts with the first 20 bytes of the packet. *)
Definition holds_ip (hdrs p : list Z) : Prop :=
  hdrs_ok hdrs /\ forall i, (i < 20)%nat -> hdrs !! i = p !! i.

Lemma pkt_byte_lookup p i :
  bytes_ok p -> (i < length p)%nat -> p !! i = Some (pkt_byte p i) /\ byte_ok (pkt_byte p i).
Proof.
  intros Hok [b Hb]%lookup_lt_is_Some_2. unfold pkt_byte. rewrite Hb. split; [done|].
  by apply (Forall_lookup_1 _ _ _ _ Hok Hb).
Qed.

Lemma holds_ip_version hdrs p :
  holds_ip hdrs p -> bytes_ok p -> (20 <= length p)%nat ->
  extract LittleEndian hdrs 4 4 = pkt_byte p 0 / 16.
Proof.
  intros [[_ Hok] Hip] Hp Hl. destruct (pkt_byte_lookup p 0) as [Hb Hb0]; [done|lia|].
  change 4 with (8 * Z.of_nat 0 + 4) at 1.
  rewrite (extract_bits_in_byte LittleEndian hdrs 0 (pkt_byte p 0) 4 4)
    by (done || (rewrite Hip by lia; done)).
  change (2 ^ 4) with 16. unfold byte_ok in Hb0. apply Z.mod_small.
  split; [apply Z.div_pos; lia|apply Z.div_lt_upper_bound; lia].
Qed.

Lemma holds_ip_ihl hdrs p :
  holds_ip hdrs p -> bytes_ok p -> (20 <= length p)%nat ->
  extract LittleEndian hdrs 0 4 = pkt_byte p 0 mod 16.
Proof.
  intros [[_ Hok] Hip] Hp Hl. destruct (pkt_byte_lookup p 0) as [Hb _]; [done|lia|].
  change 0 with (8 * Z.of_nat 0 + 0) at 1.
  rewrite (extract_bits_in_byte LittleEndian hdrs 0 (pkt_byte p 0) 0 4)
    by (done || (rewrite Hip by lia; done)).
  by rewrite Z.div_1_r.
Qed.

Lemma holds_ip_protocol en hdrs p :
  holds_ip hdrs p -> bytes_ok p -> (20 <= length p)%nat ->
  extract en hdrs 72 8 = pkt_byte p 9.
Proof.
  intros [[_ Hok] Hip] Hp Hl. destruct (pkt_byte_lookup p 9) as [Hb _]; [done|lia|].
  apply (extract_byte en hdrs 9); [done|]. rewrite Hip by lia. done.
Qed.

(** Copying an IPv4 header, with or without options, gives such a buffer. *)
Lemma load_holds_ip hdrs p n :
  hdrs_ok hdrs -> bytes_ok p -> (20 <= n <= 60)%nat -> (n <= length p)%nat ->
  holds_ip (splice 0 (slice 0 n p) hdrs) p.
Proof.
  intros [Hl Hok] Hp Hn Hnp. change (sizeof nethdrs) with 80 in Hl.
  assert (length (slice 0 n p) = n) as Hs by (rewrite length_slice; lia).
  split; [split|].
  - rewrite length_splice by lia. done.
  - auto with egress.
  - intros i Hi. change i with (0 + i)%nat at 1.
    rewrite lookup_splice_in by lia. by rewrite lookup_slice by lia.
Qed.

(** After copying a UDP header behind it, a port converts to what the packet has in network
    order. *)
Lemma load_udp_port en hdrs p h i :
  hdrs_ok hdrs -> bytes_ok p -> (h + 8 <= length p)%nat -> (i + 2 <= 8)%nat ->
  bpf_ntohs en false
    (extract en (splice 40 (slice h 8 p) hdrs) (8 * Z.of_nat (40 + i)) 16) = be16_at p (h + i).
Proof.
  intros [Hl Hok] Hp Hh Hi. change (sizeof nethdrs) with 80 in Hl.
  assert (length (slice h 8 p) = 8%nat) as Hs by (rewrite length_slice; lia).
  change 16 with (8 * Z.of_nat 2).
  rewrite extract_load; [|by auto with egress|rewrite length_splice; lia].
  rewrite slice_splice_in, slice_slice by lia.
  apply ntohs_load; [by auto with egress|]. rewrite length_slice. lia.
Qed.

Lemma outputs_app h cs c : outputs (Machine h (cs ++ [c])) =
  (omap output_of cs ++ omap output_of [c])%list.
Proof. apply omap_app. Qed.

Lemma ip_header_len_bound p : 20 <= ip_header_len p <= 60.
Proof. unfold ip_header_len. pose proof (Z.mod_pos_bound (pkt_byte p 0) 16). lia. Qed.

Lemma min_if a b : (if a <? b then a else b) = Z.min a b.
Proof. case_if; simplify_bool; lia. Qed.

Section refinement.
Context (K : kernel) `{!KernelSpec K} (skb : sk_buff_ctx).
Context (Hpkt : bytes_ok (skb_net skb)).
Notation L := (Z.of_nat (length (skb_net skb))).

(** A copy succeeds with the packet's bytes or fails because the packet is too short; either way
    nothing is sent. *)
Lemma wp_load_refine off dest len (Q : Z -> machine -> Prop) R st :
  0 <= off -> 0 <= len -> 0 <= dest -> dest + len <= 80 ->
  hdrs_ok (m_hdrs st) -> outputs st = [] ->
  (off + len <= L -> forall st', outputs st' = [] ->
     m_hdrs st' = splice (Z.to_nat dest) (slice (Z.to_nat off) (Z.to_nat len) (skb_net skb))
                    (m_hdrs st) -> Q 0 st') ->
  (L < off + len -> forall r st', r < 0 -> outputs st' = [] -> hdrs_ok (m_hdrs st') -> Q r st') ->
  wp (call_skb_load_bytes_relative K skb off (VHdrs dest) len 1) Q R st.
Proof.
  intros Ho Hlen Hd Hle Hh Hout Hok Hfail. apply wp_load.
  destruct (Z.le_gt_cases (off + len) L) as [Hin|Hout'].
  - rewrite load_in_packet by done. apply Hok; [done| |done].
    rewrite outputs_app. change (omap output_of (m_calls st)) with (outputs st). by rewrite Hout.
  - apply Hfail; [lia|apply load_past_packet; lia| |].
    + rewrite outputs_app. change (omap output_of (m_calls st)) with (outputs st). by rewrite Hout.
    + destruct (load_keeps_buffer skb off len 1 Hlen) as [Hl Hb], Hh as [Hs Hbs].
      change (sizeof nethdrs) with 80 in Hs. split; cbn [m_hdrs]; [|by auto with egress].
      rewrite length_splice by lia. done.
Qed.

Lemma wp_sk_fullsock_refine sk (Q : Z -> machine -> Prop) R st :
  outputs st = [] ->
  (forall st', outputs st' = [] -> m_hdrs st' = m_hdrs st -> Q (k_sk_fullsock K sk) st') ->
  wp (call_sk_fullsock K sk) Q R st.
Proof.
  intros Hout HQ. apply wp_sk_fullsock, HQ; [|done].
  rewrite outputs_app. change (omap output_of (m_calls st)) with (outputs st). by rewrite Hout.
Qed.

Lemma wp_output_refine m flags data size (Q : Z -> machine -> Prop) R st :
  outputs st = [] ->
  (forall r st', outputs st' = [(m, flags, data, size)] -> Q r st') ->
  wp (call_perf_event_output K skb m flags data size) Q R st.
Proof.
  intros Hout HQ. apply wp_output, HQ.
  rewrite outputs_app. change (omap output_of (m_calls st)) with (outputs st). by rewrite Hout.
Qed.

(** The state after the IPv4 header is read with its options: [size] is the header length, and the
    buffer holds the header unless the packet ends before the UDP header. *)
Definition ip_read (size : Z) (st : machine) : Prop :=
  size = ip_header_len (skb_net skb) /\ outputs st = [] /\ hdrs_ok (m_hdrs st) /\
  (size <= L -> holds_ip (m_hdrs st) (skb_net skb)).

Lemma wp_read_options ihl R st :
  20 <= L -> holds_ip (m_hdrs st) (skb_net skb) -> outputs st = [] ->
  ihl = pkt_byte (skb_net skb) 0 mod 16 ->
  wp (if ihl >? 5 then
        call_skb_load_bytes_relative K skb 0 (VHdrs 0) (wrap 32 (wrap 32 (20 - 20) + ihl * 4)) 1 ;;
        ret (wrap 32 (wrap 32 (20 - 20) + ihl * 4))
      else ret 20) ip_read R st.
Proof.
  intros HL Hip Hout Hihl. pose proof (Z.mod_pos_bound (pkt_byte (skb_net skb) 0) 16) as Hb.
  apply wp_if; intros H5; rewrite Z.gtb_ltb in H5; simplify_bool.
  - rewrite reread_size by lia.
    assert (ihl * 4 = ip_header_len (skb_net skb)) as Hh by (unfold ip_header_len; lia).
    apply wp_bind, wp_load_refine; [lia..|apply Hip|done| |].
    + intros Hin st' Hout' Hst'. apply wp_ret. unfold ip_read. rewrite Hst'.
      assert (holds_ip (splice (Z.to_nat 0) (slice (Z.to_nat 0) (Z.to_nat (ihl * 4)) (skb_net skb))
        (m_hdrs st)) (skb_net skb)) as Hip' by (apply load_holds_ip; [apply Hip|done|lia..]).
      do 2 (split; [done|]). split; [apply Hip'|by intros _].
    + intros Hp r st' _ Hout' Hok. apply wp_ret. split_and!; [done..|lia].
  - apply wp_ret. split_and!; [unfold ip_header_len; lia|done|apply Hip|done].
Qed.

Lemma wp_read_ports size (Q : unit -> machine -> Prop) (R : Z -> machine -> Prop) st :
  ip_read size st ->
  (size + 8 <= L -> forall st', outputs st' = [] ->
     bpf_ntohs LittleEndian false (extract LittleEndian (m_hdrs st') 320 16) =
       be16_at (skb_net skb) (Z.to_nat size) ->
     bpf_ntohs LittleEndian false (extract LittleEndian (m_hdrs st') 336 16) =
       be16_at (skb_net skb) (Z.to_nat (size + 2)) ->
     Q tt st') ->
  (L < size + 8 -> forall st', outputs st' = [] -> R 1 st') ->
  wp (if negb (8 =? 0) then
        let! r := call_skb_load_bytes_relative K skb size (VHdrs 40) 8 1 in
        return_if (negb (r =? 0)) 1
      else ret tt) Q R st.
Proof.
  intros (Hs & Hout & Hok & _) HQ HR. pose proof (ip_header_len_bound (skb_net skb)).
  apply wp_bind, wp_load_refine; [lia..|done|done| |].
  - intros Hin st' Hout' Hst'. apply wp_return_if; [intros [=]|intros _].
    apply HQ; [lia|done| |]; rewrite Hst'.
    + pose proof (load_udp_port LittleEndian (m_hdrs st) (skb_net skb) (Z.to_nat size) 0 Hok Hpkt
        ltac:(lia) ltac:(lia)) as Hport. rewrite (Nat.add_0_r (Z.to_nat size)) in Hport.
      exact Hport.
    + replace (Z.to_nat (size + 2)) with (Z.to_nat size + 2)%nat by lia.
      exact (load_udp_port LittleEndian (m_hdrs st) (skb_net skb) (Z.to_nat size) 2 Hok Hpkt
        ltac:(lia) ltac:(lia)).
  - intros Hp r st' Hr Hout' _. apply wp_return_if; intros Hr'; [by apply HR|].
    simplify_bool. lia.
Qed.

(** The program from the protocol check on, on a little-endian machine. *)
Definition l4_part (size : Z) : prog Z :=
  let! protocol := hdr LittleEndian [Dot "iphdrs"; Dot "iphdr"; Dot "protocol"] in
  return_if (negb (protocol =? enum_val vmlinux.IPPROTO_UDP)) 1 ;;
  return_if (is_null (VHdrs 40)) 1 ;;
  (if negb (8 =? 0) then
     let! r := call_skb_load_bytes_relative K skb size (VHdrs 40) 8 1 in
     return_if (negb (r =? 0)) 1
   else ret tt) ;;
  let! source := hdr LittleEndian [Dot "protohdrs"; Dot "udphdr"; Dot "source"] in
  let! dest := hdr LittleEndian [Dot "protohdrs"; Dot "udphdr"; Dot "dest"] in
  return_if (negb ((if bpf_ntohs LittleEndian false source <? bpf_ntohs LittleEndian false dest
                    then bpf_ntohs LittleEndian false source
                    else bpf_ntohs LittleEndian false dest) =? UDP_PORT_DNS)) 1 ;;
  call_perf_event_output K skb (map_name events)
    (Z.lor (enum_val vmlinux.BPF_F_CURRENT_CPU) (wrap 64 (Z.shiftl (skb_len skb) 32)))
    (event_bytes LittleEndian (skb_len skb)) (sizeof net_event_context) ;;
  return_ 1.

Lemma wp_l4_part size st :
  is_unsigned 32 (skb_len skb) -> ip_read size st ->
  let post st' := outputs st' =
    if (size + 8 <=? L) && (pkt_byte (skb_net skb) 9 =? 17) &&
       (Z.min (be16_at (skb_net skb) (Z.to_nat size)) (be16_at (skb_net skb) (Z.to_nat (size + 2)))
        =? 53)
    then [dns_record LittleEndian (skb_len skb)] else [] in
  wp (l4_part size) (λ _ st', post st') (λ _ st', post st') st.
Proof.
  intros Hlen Hread post. pose proof Hread as (Hsize & Hout & _ & Hip).
  pose proof (ip_header_len_bound (skb_net skb)) as Hb. unfold l4_part.
  apply wp_bind, wp_hdr. rewrite read_protocol. cbn [from_option id].
  destruct (Z.leb_spec (size + 8) L) as [Hin|Hshort].
  - rewrite (holds_ip_protocol LittleEndian _ (skb_net skb)); [|apply Hip; lia|exact Hpkt|lia].
    apply wp_bind, wp_return_if; intros Hp; [apply negb_true_iff in Hp|apply negb_false_iff in Hp];
      change (enum_val vmlinux.IPPROTO_UDP) with 17 in Hp; subst post; rewrite Hp; cbn [andb];
      [exact Hout|].
    apply wp_bind, wp_return_if; [intros [=]|intros _].
    apply wp_bind, wp_read_ports; [exact Hread| |intros ?; lia].
    intros _ st' Hout' Hs Hd. apply wp_bind, wp_hdr. rewrite read_source.
    apply wp_bind, wp_hdr. rewrite read_dest. cbn [from_option id]. rewrite Hs, Hd, min_if.
    apply wp_bind, wp_return_if; intros H53;
      [apply negb_true_iff in H53|apply negb_false_iff in H53];
      change UDP_PORT_DNS with 53 in H53; rewrite H53; [exact Hout'|].
    apply wp_bind, wp_output_refine; [exact Hout'|]. intros r st'' Hout''. apply wp_return.
    rewrite Hout'', flags_value, event_bytes_eq by done. reflexivity.
  - cbn [andb] in post. apply wp_bind, wp_return_if; intros _; [exact Hout|].
    apply wp_bind, wp_return_if; [intros [=]|intros _].
    apply wp_bind, wp_read_ports; [exact Hread|lia|]. by intros.
Qed.
End refinement.

(** C1: on a little-endian machine the program implements its specification: it sends exactly one
    record, with the packet length, when the socket is a full IPv4 socket and the packet is
    IPv4 with a complete UDP header whose lower port is 53, options of the IPv4 header included,
    and nothing otherwise. *)
Theorem cgroup_ingress_refines K skb :
  KernelSpec K -> bytes_ok (skb_net skb) -> is_unsigned 32 (skb_len skb) ->
  outputs (fst (cgroup_ingress LittleEndian K skb)) =
    if reported K skb then [dns_record LittleEndian (skb_len skb)] else [].
Proof.
  intros HK Hpkt Hlen. wp_resolve. unfold reported, dns_over_udp4.
  cbv zeta. change missing.PF_INET with 2.
  apply wp_bind, wp_return_if; intros Hfam; [by simplify_bool; rewrite (proj2 (Z.eqb_neq _ _))|].
  apply wp_bind, wp_return_if; intros Hsk; [by rewrite Hsk, andb_false_r|].
  apply wp_bind, wp_sk_fullsock_refine; [done|]. intros st Hout Hst.
  apply wp_bind, wp_return_if; intros Hfs; [by cbn [fst]; rewrite Hfs, andb_false_r|].
  apply negb_false_iff in Hfam. rewrite Hfam, Hsk, Hfs. cbn [negb andb].
  apply wp_bind, wp_load_refine;
    [exact HK|exact Hpkt|lia|lia|lia|lia|rewrite Hst; apply safe_start|done| |].
  2: { intros Hshort r st' Hr Hout' _. apply wp_bind, wp_return_if; intros Hr'.
       - cbn [fst]. by rewrite (proj2 (Z.leb_gt 20 _)) by lia.
       - simplify_bool. lia. }
  intros H20 st1 Hout1 Hst1. apply wp_bind, wp_return_if; [intros [=]|intros _].
  assert (holds_ip (m_hdrs st1) (skb_net skb)) as Hip.
  { rewrite Hst1, Hst. apply load_holds_ip; [apply safe_start|done|lia|lia]. }
  apply wp_bind, wp_hdr. rewrite read_version. cbn [from_option id].
  assert (20 <= length (skb_net skb))%nat as H20' by lia.
  rewrite (holds_ip_version _ _ Hip Hpkt H20').
  rewrite (proj2 (Z.leb_le 20 (Z.of_nat (length (skb_net skb))))) by lia. cbn [andb].
  apply wp_bind, wp_return_if; intros Hv; [apply negb_true_iff in Hv|apply negb_false_iff in Hv];
    rewrite Hv; cbn [andb]; [exact Hout1|].
  apply wp_bind, wp_hdr. rewrite read_ihl. cbn [from_option id].
  apply wp_bind. eapply wp_mono.
  { apply wp_read_options; [exact HK|exact Hpkt|lia|exact Hip|exact Hout1|].
    by apply holds_ip_ihl. }
  intros size st2 Hread. pose proof Hread as [Hsize _]. rewrite <- Hsize.
  by apply (wp_l4_part K skb Hpkt size st2 Hlen Hread).
Qed.

Lemma cgroup_ingress_refines_witness :
  let p := ([70; 0; 0; 0; 0; 0; 0; 0; 0; 17] ++ replicate 14 0 ++ [0; 53; 200; 1; 0; 8; 0; 0])%list
  in
  outputs (fst (cgroup_ingress LittleEndian ref_kernel (SkBuff 32 2 7 p))) =
    [("events", 32 * 2 ^ 32 + (2 ^ 32 - 1), [32; 0; 0; 0], 4)].
Proof.
  apply (cgroup_ingress_refines ref_kernel).
  - apply ref_kernel_spec.
  - repeat constructor; vm_compute; congruence.
  - split; vm_compute; congruence.
Defined.

(** * Consequences *)

(** Every record sent is the one of the packet's length. *)
Lemma outputs_dns_record en K skb r :
  ctx_ok skb -> r ∈ outputs (fst (cgroup_ingress en K skb)) -> r = dns_record en (skb_len skb).
Proof.
  intros [Hlen _]. apply cgroup_ingress_wp. wp_run; cbn -[event_bytes Z.lor Z.shiftl];
    rewrite ?flags_value, ?event_bytes_eq by done;
    rewrite ?list_elem_of_singleton; first [by intros ?%elem_of_nil|by intros ->].
Qed.

(** Whatever the helpers return, a record names the current CPU's buffer in the low half of its
    flags and asks, in the high half, for as many packet bytes as the packet is long; its four bytes
    are that length in the machine's byte order. *)
Theorem record_contents en K skb m flags d size :
  ctx_ok skb -> (m, flags, d, size) ∈ outputs (fst (cgroup_ingress en K skb)) ->
  m = map_name events /\
  Z.land flags (Z.ones 32) = enum_val vmlinux.BPF_F_CURRENT_CPU /\
  Z.shiftr flags 32 = skb_len skb /\
  length d = 4%nat /\ size = 4 /\ load_uint en d = skb_len skb.
Proof.
  intros Hctx Hr. apply (outputs_dns_record en K skb _ Hctx) in Hr as [= -> -> -> ->].
  destruct Hctx as [Hlen _]. unfold is_unsigned in Hlen. split_and!; try done.
  - rewrite Z.land_ones, Z.add_comm, Z_mod_plus_full by done. done.
  - rewrite Z.shiftr_div_pow2, Z.div_add_l by done. change ((2 ^ 32 - 1) / 2 ^ 32) with 0. lia.
  - apply length_store_uint.
  - rewrite load_store_uint. by apply wrap_id.
Qed.

Lemma record_contents_witness :
  let p := 69 :: replicate 8 0 ++ [17] ++ replicate 10 0 ++ [200; 1; 0; 53; 0; 8; 0; 0] in
  Z.shiftr (28 * 2 ^ 32 + (2 ^ 32 - 1)) 32 = skb_len (SkBuff 28 2 7 p).
Proof.
  apply (record_contents LittleEndian ref_kernel
    (SkBuff 28 2 7 (69 :: replicate 8 0 ++ [17] ++ replicate 10 0 ++ [200; 1; 0; 53; 0; 8; 0; 0]))
    "events" (28 * 2 ^ 32 + (2 ^ 32 - 1)) [28; 0; 0; 0] 4).
  - repeat split; vm_compute; congruence.
  - apply (list_elem_of_lookup_2 _ 0). vm_compute. reflexivity.
Defined.

(** A task's group id, the upper half of bpf_get_current_pid_tgid, is what [get_pid]
    returns. *)
Theorem get_pid_tgid K tgid pid :
  0 <= tgid < 2 ^ 31 -> is_unsigned 32 pid ->
  k_current_pid_tgid K = Z.lor (Z.shiftl tgid 32) pid -> get_pid K = tgid.
Proof.
  intros Ht Hp HK. unfold get_pid. unfold is_unsigned in Hp.
  rewrite HK, Z.shiftl_mul_pow2, lor_disjoint_add by done.
  rewrite Z.shiftr_div_pow2, Z.div_add_l, Z.div_small, Z.add_0_r by done || lia.
  apply swrap_id; [done|]. unfold is_signed. change (2 ^ (32 - 1)) with (2 ^ 31). lia.
Qed.

Lemma get_pid_tgid_witness :
  get_pid (Kernel (Z.lor (Z.shiftl 4242 32) 17) (λ _, 0) (λ _ _ _ _, (0, [])) (λ _ _ _ _ _, 0)
    (λ _, 0)) = 4242.
Proof. apply (get_pid_tgid _ 4242 17); [lia|split; lia|reflexivity]. Defined.

(** On a big-endian machine the declared order of [ihl] and [version] is that of the wire reversed. *)
Lemma holds_ip_version_be hdrs p :
  holds_ip hdrs p -> bytes_ok p -> (20 <= length p)%nat ->
  extract BigEndian hdrs 4 4 = pkt_byte p 0 mod 16.
Proof.
  intros [[_ Hok] Hip] Hp Hl. destruct (pkt_byte_lookup p 0) as [Hb _]; [done|lia|].
  change 4 with (8 * Z.of_nat 0 + 4) at 1.
  rewrite (extract_bits_in_byte BigEndian hdrs 0 (pkt_byte p 0) 4 4)
    by (done || (rewrite Hip by lia; done)).
  by rewrite Z.div_1_r.
Qed.

(** C5: the big-endian build (ebpf/bpf_bpfeb.go) compiles the same [struct iphdr], whose bit-fields
    are declared in little-endian order only: it takes the header length for the version, and so
    reports no packet unless that length is four words, in particular no well-formed IPv4 packet. *)
Theorem big_endian_reports_no_ipv4 K skb :
  KernelSpec K -> bytes_ok (skb_net skb) -> 5 <= pkt_byte (skb_net skb) 0 mod 16 ->
  outputs (fst (cgroup_ingress BigEndian K skb)) = [].
Proof.
  intros HK Hpkt Hihl. wp_resolve.
  do 2 (apply wp_bind, wp_return_if; intros _; [done|]).
  apply wp_bind, wp_sk_fullsock_refine; [done|]. intros st Hout Hst.
  apply wp_bind, wp_return_if; intros _; [done|].
  apply wp_bind, wp_load_refine;
    [exact HK|exact Hpkt|lia|lia|lia|lia|rewrite Hst; apply safe_start|done| |].
  - intros H20 st1 Hout1 Hst1. apply wp_bind, wp_return_if; [intros [=]|intros _].
    apply wp_bind, wp_hdr. rewrite read_version. cbn [from_option id].
    rewrite (holds_ip_version_be _ (skb_net skb)); [|..|exact Hpkt|lia].
    2: { rewrite Hst1, Hst. apply load_holds_ip; [apply safe_start|done|lia|lia]. }
    apply wp_bind, wp_return_if; intros Hv; [done|]. simplify_bool. lia.
  - intros _ r st' Hr Hout' _. apply wp_bind, wp_return_if; intros Hr'; [done|].
    simplify_bool. lia.
Qed.

Lemma big_endian_reports_no_ipv4_witness :
  outputs (fst (cgroup_ingress BigEndian ref_kernel (SkBuff 28 2 7
    (69 :: replicate 8 0 ++ [17] ++ replicate 10 0 ++ [200; 1; 0; 53; 0; 8; 0; 0])))) = [].
Proof.
  apply big_endian_reports_no_ipv4.
  - apply ref_kernel_spec.
  - repeat constructor; vm_compute; congruence.
  - vm_compute. congruence.
Defined.
