(* ===== verification/CoreRead.v ===== *)
(** CO-RE reads: src/ebpf/c/include/bpf_core_read.h.

    Bit-field extraction from relocated storage, and the variadic read macros that turn
    [BPF_CORE_READ(s, a, b, c)] into a chain of probe reads.  What the compiler and the loader fill
    in for [__builtin_preserve_field_info] is the record [field_info]; the probe-read helpers are
    parameters.  A macro is a function on the list of its argument tokens; [None] is an
    expansion the compiler rejects. *)
From S2P Require Import Prelude CAbi HelperDefs BpfHelpers Vmlinux.
From stdpp Require Import base numbers list strings.
Local Open Scope string_scope.
Local Open Scope list_scope.
Local Open Scope Z_scope.

(** * Relocation kinds *)
Inductive bpf_field_info_kind :=
| BPF_FIELD_BYTE_OFFSET | BPF_FIELD_BYTE_SIZE | BPF_FIELD_EXISTS | BPF_FIELD_SIGNED
| BPF_FIELD_LSHIFT_U64 | BPF_FIELD_RSHIFT_U64.
#[global] Instance bpf_field_info_kind_eq_dec : EqDecision bpf_field_info_kind.
Proof. solve_decision. Defined.
#[global] Instance bpf_field_info_kind_enum : CEnum bpf_field_info_kind :=
  { enum_decl := [(BPF_FIELD_BYTE_OFFSET, Some 0); (BPF_FIELD_BYTE_SIZE, Some 1);
                  (BPF_FIELD_EXISTS, Some 2); (BPF_FIELD_SIGNED, Some 3);
                  (BPF_FIELD_LSHIFT_U64, Some 4); (BPF_FIELD_RSHIFT_U64, Some 5)] }.

Inductive bpf_type_id_kind := BPF_TYPE_ID_LOCAL | BPF_TYPE_ID_TARGET.
#[global] Instance bpf_type_id_kind_eq_dec : EqDecision bpf_type_id_kind.
Proof. solve_decision. Defined.
#[global] Instance bpf_type_id_kind_enum : CEnum bpf_type_id_kind :=
  { enum_decl := [(BPF_TYPE_ID_LOCAL, Some 0); (BPF_TYPE_ID_TARGET, Some 1)] }.

Inductive bpf_type_info_kind := BPF_TYPE_EXISTS | BPF_TYPE_SIZE | BPF_TYPE_MATCHES.
#[global] Instance bpf_type_info_kind_eq_dec : EqDecision bpf_type_info_kind.
Proof. solve_decision. Defined.
#[global] Instance bpf_type_info_kind_enum : CEnum bpf_type_info_kind :=
  { enum_decl := [(BPF_TYPE_EXISTS, Some 0); (BPF_TYPE_SIZE, Some 1); (BPF_TYPE_MATCHES, Some 2)] }.

Inductive bpf_enum_value_kind := BPF_ENUMVAL_EXISTS | BPF_ENUMVAL_VALUE.
#[global] Instance bpf_enum_value_kind_eq_dec : EqDecision bpf_enum_value_kind.
Proof. solve_decision. Defined.
#[global] Instance bpf_enum_value_kind_enum : CEnum bpf_enum_value_kind :=
  { enum_decl := [(BPF_ENUMVAL_EXISTS, Some 0); (BPF_ENUMVAL_VALUE, Some 1)] }.

#[global] Instance bpf_field_info_kind_ok : CEnumOk bpf_field_info_kind.
Proof. solve_enum_ok. Qed.
#[global] Instance bpf_type_id_kind_ok : CEnumOk bpf_type_id_kind.
Proof. solve_enum_ok. Qed.
#[global] Instance bpf_type_info_kind_ok : CEnumOk bpf_type_info_kind.
Proof. solve_enum_ok. Qed.
#[global] Instance bpf_enum_value_kind_ok : CEnumOk bpf_enum_value_kind.
Proof. solve_enum_ok. Qed.

(** * Bit-fields *)

(** [__builtin_preserve_field_info(src->field, kind)], as loaded: the value for each kind, by its
    number. *)
Definition field_info := Z -> Z.

Definition __CORE_RELO (fi : field_info) (info : bpf_field_info_kind) : Z := fi (enum_val info).

(** A probe read: the result and the bytes then in the destination. *)
Definition probe_read := Z -> Z -> Z * list Z.

(** Reads the storage of the field to the low-order bytes of the 8-byte object [val]. *)
Definition __CORE_BITFIELD_PROBE_READ (en : endian) (bpf_probe_read_kernel : probe_read)
    (val : list Z) (src : Z) (fld : field_info) : list Z :=
  let sz := __CORE_RELO fld BPF_FIELD_BYTE_SIZE in
  let bs := snd (bpf_probe_read_kernel sz (wrap 64 (src + __CORE_RELO fld BPF_FIELD_BYTE_OFFSET))) in
  match en with
  | LittleEndian => splice 0 bs val
  | BigEndian => splice (Z.to_nat (8 - sz)) bs val
  end.

(** The shifts both macros end with; [val] is [unsigned long long]. *)
Definition bitfield_shifts (val : Z) (field : field_info) : Z :=
  let val := wrap 64 (Z.shiftl val (__CORE_RELO field BPF_FIELD_LSHIFT_U64)) in
  if negb (__CORE_RELO field BPF_FIELD_SIGNED =? 0) then
    wrap 64 (Z.shiftr (swrap 64 val) (__CORE_RELO field BPF_FIELD_RSHIFT_U64))
  else Z.shiftr val (__CORE_RELO field BPF_FIELD_RSHIFT_U64).

Definition BPF_CORE_READ_BITFIELD_PROBED (en : endian) (bpf_probe_read_kernel : probe_read)
    (s : Z) (field : field_info) : Z :=
  let val := replicate 8 0 in
  let val := __CORE_BITFIELD_PROBE_READ en bpf_probe_read_kernel val s field in
  bitfield_shifts (load_uint en val) field.

(** Direct loads: [mem p n] is the bytes at [p]; without a case for the size, [val] is
    indeterminate. *)
Definition BPF_CORE_READ_BITFIELD (en : endian) (mem : Z -> nat -> list Z) (s : Z)
    (field : field_info) : option Z :=
  let p := wrap 64 (s + __CORE_RELO field BPF_FIELD_BYTE_OFFSET) in
  let val :=
    match __CORE_RELO field BPF_FIELD_BYTE_SIZE with
    | 1 => Some (load_uint en (mem p 1%nat))
    | 2 => Some (load_uint en (mem p 2%nat))
    | 4 => Some (load_uint en (mem p 4%nat))
    | 8 => Some (load_uint en (mem p 8%nat))
    | _ => None
    end in
  match val with
  | Some val => Some (bitfield_shifts val field)
  | None => None
  end.

(** What the loader fills in for a field of [w] bits at bit [o] of an object: an aligned storage unit
    of 1, 2, 4 or 8 bytes that contains the field, and shifts that bring the field's most
    significant bit, of the unit loaded into the low-order bytes, to bit 63 and its least
    significant one to bit 0. *)
Record describes (en : endian) (fi : field_info) (o w : Z) (signed : bool) : Prop := {
  relo_size : __CORE_RELO fi BPF_FIELD_BYTE_SIZE ∈ [1; 2; 4; 8];
  relo_offset : 0 <= __CORE_RELO fi BPF_FIELD_BYTE_OFFSET;
  relo_covers : 8 * __CORE_RELO fi BPF_FIELD_BYTE_OFFSET <= o /\
    o + w <= 8 * (__CORE_RELO fi BPF_FIELD_BYTE_OFFSET + __CORE_RELO fi BPF_FIELD_BYTE_SIZE);
  relo_signed : __CORE_RELO fi BPF_FIELD_SIGNED = if signed then 1 else 0;
  relo_lshift : __CORE_RELO fi BPF_FIELD_LSHIFT_U64 =
    match en with
    | LittleEndian => 64 - (o - 8 * __CORE_RELO fi BPF_FIELD_BYTE_OFFSET) - w
    | BigEndian => 8 * (8 - __CORE_RELO fi BPF_FIELD_BYTE_SIZE) +
                   (o - 8 * __CORE_RELO fi BPF_FIELD_BYTE_OFFSET)
    end;
  relo_rshift : __CORE_RELO fi BPF_FIELD_RSHIFT_U64 = 64 - w
}.

(** The value of the field as u64: its bits, sign-extended for a signed field. *)
Definition field_value (signed : bool) (w v : Z) : Z :=
  if signed then wrap 64 (swrap w v) else v.

Lemma shift_pair V b w :
  0 <= b -> 0 <= w -> b + w <= 64 ->
  wrap 64 (Z.shiftl V (64 - b - w)) / 2 ^ (64 - w) = (V / 2 ^ b) mod 2 ^ w.
Proof.
  intros Hb Hw Hle. unfold wrap. rewrite Z.shiftl_mul_pow2 by lia.
  replace (2 ^ 64) with (2 ^ (b + w) * 2 ^ (64 - b - w))
    by (rewrite <- Z.pow_add_r by lia; f_equal; lia).
  rewrite Z.mul_mod_distr_r by (apply Z.pow_nonzero; lia).
  replace (2 ^ (64 - w)) with (2 ^ b * 2 ^ (64 - b - w))
    by (rewrite <- Z.pow_add_r by lia; f_equal; lia).
  rewrite Z.div_mul_cancel_r by (apply Z.pow_nonzero; lia).
  rewrite Z.pow_add_r, Z.rem_mul_r by lia.
  rewrite (Z.mul_comm (2 ^ b)), Z.div_add, Z.div_small, Z.add_0_l; [done|..]; try lia.
  apply Z.mod_pos_bound. lia.
Qed.

Lemma swrap_cases w z :
  0 < w -> is_unsigned w z -> swrap w z = if z <? 2 ^ (w - 1) then z else z - 2 ^ w.
Proof.
  intros Hw Hz. unfold is_unsigned in Hz.
  assert (2 ^ w = 2 * 2 ^ (w - 1)) as Hp by (rewrite <- Z.pow_succ_r by lia; f_equal; lia).
  case_if; simplify_bool; unfold swrap.
  - rewrite Z.mod_small by lia. lia.
  - rewrite <- (Z_mod_plus_full _ (-1)), Z.mod_small by lia. lia.
Qed.

(** An arithmetic right shift keeps the sign. *)
Lemma swrap_shiftr X w :
  0 < w <= 64 -> is_unsigned 64 X ->
  Z.shiftr (swrap 64 X) (64 - w) = swrap w (X / 2 ^ (64 - w)).
Proof.
  intros Hw HX. unfold is_unsigned in HX. rewrite Z.shiftr_div_pow2 by lia.
  pose proof (Z.pow_pos_nonneg 2 (64 - w) ltac:(lia) ltac:(lia)) as Hp.
  assert (2 ^ 64 = 2 ^ w * 2 ^ (64 - w)) as H64
    by (rewrite <- Z.pow_add_r by lia; f_equal; lia).
  assert (2 ^ 63 = 2 ^ (w - 1) * 2 ^ (64 - w)) as H63
    by (rewrite <- Z.pow_add_r by lia; f_equal; lia).
  rewrite (swrap_cases w); [|lia|].
  2: { split; [apply Z.div_pos; lia|apply Z.div_lt_upper_bound; lia]. }
  rewrite (swrap_cases 64) by done. change (2 ^ (64 - 1)) with (2 ^ 63).
  destruct (Z.ltb_spec X (2 ^ 63)) as [Hlt|Hge].
  - by rewrite (proj2 (Z.ltb_lt _ _)) by (apply Z.div_lt_upper_bound; lia).
  - rewrite (proj2 (Z.ltb_ge _ _)) by (apply Z.div_le_lower_bound; lia).
    rewrite H64 at 1. replace (X - 2 ^ w * 2 ^ (64 - w)) with (X + (- 2 ^ w) * 2 ^ (64 - w)) by lia.
    rewrite Z.div_add by lia. lia.
Qed.

Lemma bitfield_shifts_spec V fi b w (signed : bool) :
  0 <= b -> 0 < w -> b + w <= 64 ->
  __CORE_RELO fi BPF_FIELD_LSHIFT_U64 = 64 - b - w ->
  __CORE_RELO fi BPF_FIELD_RSHIFT_U64 = 64 - w ->
  __CORE_RELO fi BPF_FIELD_SIGNED = (if signed then 1 else 0) ->
  bitfield_shifts V fi = field_value signed w ((V / 2 ^ b) mod 2 ^ w).
Proof.
  intros Hb Hw Hle Hl Hr Hs. unfold bitfield_shifts, field_value. rewrite Hl, Hr, Hs.
  pose proof (wrap_unsigned 64 (Z.shiftl V (64 - b - w)) ltac:(lia)) as HX.
  destruct signed; cbn [Z.eqb negb].
  - rewrite swrap_shiftr by (done || lia). by rewrite shift_pair by lia.
  - rewrite Z.shiftr_div_pow2 by lia. by rewrite shift_pair by lia.
Qed.

Lemma le_combine_zeros l n : le_combine (l ++ replicate n 0) = le_combine l.
Proof.
  rewrite le_combine_app. replace (le_combine (replicate n 0)) with 0; [by rewrite Z.mul_0_r, Z.add_0_r|].
  induction n as [|n IH]; [done|]. cbn [replicate le_combine]. lia.
Qed.

(** Storage loaded into the low-order bytes of a cleared 8-byte integer has its own value. *)
Lemma load_low_order en sl :
  (length sl <= 8)%nat ->
  load_uint en (splice (match en with LittleEndian => 0 | BigEndian => 8 - length sl end)%nat sl
    (replicate 8 0)) = load_uint en sl.
Proof.
  intros Hl. unfold splice. rewrite take_replicate, drop_replicate. destruct en; cbn [load_uint].
  - simpl. apply le_combine_zeros.
  - rewrite Nat.min_l by lia. replace (8 - (8 - length sl + length sl))%nat with 0%nat by lia.
    rewrite app_nil_r. unfold be_combine. rewrite reverse_app, reverse_replicate.
    apply le_combine_zeros.
Qed.

(** The position of a field in the integer value of its storage. *)
Lemma extract_position en sl o w :
  0 <= o -> 0 <= w -> o + w <= 8 * Z.of_nat (length sl) ->
  extract en sl o w =
    (load_uint en sl / 2 ^ match en with LittleEndian => o
                           | BigEndian => 8 * Z.of_nat (length sl) - o - w end) mod 2 ^ w.
Proof. intros. destruct en; unfold extract; by rewrite land_ones_shiftr by lia. Qed.

Section bitfield.
Context (en : endian) (s : Z) (bs : list Z) (Hbs : bytes_ok bs).
Context (fi : field_info) (o w : Z) (signed : bool).
Context (Hrelo : describes en fi o w signed) (Hw : 0 < w).
Let k := __CORE_RELO fi BPF_FIELD_BYTE_OFFSET.
Let n := __CORE_RELO fi BPF_FIELD_BYTE_SIZE.
Context (Hin : k + n <= Z.of_nat (length bs)).

Lemma storage_size : 1 <= n <= 8.
Proof.
  clear Hin Hbs Hw. pose proof (relo_size _ _ _ _ _ Hrelo) as H. fold n in H.
  rewrite !elem_of_cons in H. destruct H as [ -> |[ -> |[ -> |[ -> |H]]]]; try lia.
  by apply elem_of_nil in H.
Qed.

Lemma length_storage : length (slice (Z.to_nat k) (Z.to_nat n) bs) = Z.to_nat n.
Proof.
  clear Hbs Hw. pose proof storage_size. pose proof (relo_offset _ _ _ _ _ Hrelo) as H0. fold k in H0.
  rewrite length_slice. lia.
Qed.

Lemma storage_shifts :
  bitfield_shifts (load_uint en (slice (Z.to_nat k) (Z.to_nat n) bs)) fi =
    field_value signed w (extract en bs o w).
Proof.
  pose proof storage_size as Hn. pose proof (relo_offset _ _ _ _ _ Hrelo) as H0. fold k in H0.
  destruct (relo_covers _ _ _ _ _ Hrelo) as [Hlo Hhi]. fold k n in Hlo, Hhi.
  replace (extract en bs o w) with (extract en bs (8 * Z.of_nat (Z.to_nat k) + (o - 8 * k)) w)
    by (f_equal; lia).
  rewrite (extract_slice en bs (Z.to_nat k) (Z.to_nat n)) by (done || lia).
  rewrite extract_position by (rewrite ?length_storage; lia). rewrite length_storage.
  apply bitfield_shifts_spec; try done; try (destruct en; lia).
  - rewrite (relo_lshift _ _ _ _ _ Hrelo). fold k n. destruct en; lia.
  - apply (relo_rshift _ _ _ _ _ Hrelo).
  - apply (relo_signed _ _ _ _ _ Hrelo).
Qed.
End bitfield.

(** C37: both bit-field macros return the field, sign- or zero-extended to 64 bits, in either byte
    order, for every relocation that describes it: the kernel may have moved, widened or narrowed
    the field since the program was compiled. *)
Theorem bitfield_reads_field en s bs fi o w signed rd mem :
  bytes_ok bs -> describes en fi o w signed -> 0 < w ->
  __CORE_RELO fi BPF_FIELD_BYTE_OFFSET + __CORE_RELO fi BPF_FIELD_BYTE_SIZE <=
    Z.of_nat (length bs) ->
  (forall off n, 0 <= off -> 0 <= n -> off + n <= Z.of_nat (length bs) ->
     rd n (wrap 64 (s + off)) = (0, slice (Z.to_nat off) (Z.to_nat n) bs) /\
     mem (wrap 64 (s + off)) (Z.to_nat n) = slice (Z.to_nat off) (Z.to_nat n) bs) ->
  BPF_CORE_READ_BITFIELD_PROBED en rd s fi = field_value signed w (extract en bs o w) /\
  BPF_CORE_READ_BITFIELD en mem s fi = Some (field_value signed w (extract en bs o w)).
Proof.
  intros Hbs Hrelo Hw Hin Hmem.
  pose proof (storage_size _ _ _ _ _ Hrelo) as Hn.
  pose proof (relo_offset _ _ _ _ _ Hrelo) as H0.
  pose proof (storage_shifts en bs Hbs fi o w signed Hrelo Hw Hin) as Hsh.
  pose proof (length_storage en bs fi o w signed Hrelo Hin) as Hlen.
  assert (0 <= __CORE_RELO fi BPF_FIELD_BYTE_SIZE) as Hn0 by lia.
  destruct (Hmem _ _ H0 Hn0 Hin) as [Hrd Hmm].
  split.
  - unfold BPF_CORE_READ_BITFIELD_PROBED, __CORE_BITFIELD_PROBE_READ. rewrite Hrd. cbn [snd].
    rewrite <- Hsh. f_equal.
    match goal with |- _ = load_uint en ?sl => rewrite <- (load_low_order en sl) by lia end.
    destruct en; [done|]. rewrite Hlen. do 2 f_equal. lia.
  - unfold BPF_CORE_READ_BITFIELD. rewrite <- Hsh, <- Hmm.
    pose proof (relo_size _ _ _ _ _ Hrelo) as Hsz. rewrite !elem_of_cons in Hsz.
    destruct Hsz as [ -> |[ -> |[ -> |[ -> |Hsz]]]]; try done. by apply elem_of_nil in Hsz.
Qed.

Lemma bitfield_reads_field_witness :
  let bs := [0; 0; 0; 190] in
  let fi k := nth (Z.to_nat k) [2; 2; 1; 1; 48; 60] 0 in
  BPF_CORE_READ_BITFIELD_PROBED LittleEndian
    (λ n p, (0, slice (Z.to_nat (p - 4096)) (Z.to_nat n) bs)) 4096 fi = 2 ^ 64 - 5.
Proof.
  apply (bitfield_reads_field LittleEndian 4096 [0; 0; 0; 190]
    (λ k, nth (Z.to_nat k) [2; 2; 1; 1; 48; 60] 0) 28 4 true _
    (λ p n, slice (Z.to_nat (p - 4096)) n [0; 0; 0; 190])).
  - repeat constructor; vm_compute; congruence.
  - split; try (vm_compute; congruence).
    + apply (list_elem_of_lookup_2 _ 1). reflexivity.
    + vm_compute. split; congruence.
  - lia.
  - vm_compute. congruence.
  - intros off n H1 H2 H3. cbn [length] in H3. rewrite wrap_id by (split; lia).
    by replace (4096 + off - 4096) with off by lia.
Defined.

(** * Field references *)

(** A member designator such as [a.b[3]]. *)
Notation accessor := (list selector).

(** [p->field] by an expression, or [((type * )0)->field]. *)
Inductive field_ref := ___bpf_field_ref1 (field : string) | ___bpf_field_ref2 (type field : string).

Definition ___bpf_field_ref_family (n : nat) : option (list string -> option field_ref) :=
  match n with
  | 1%nat => Some (λ args, match args with [field] => Some (___bpf_field_ref1 field) | _ => None end)
  | 2%nat => Some (λ args, match args with [type; field] => Some (___bpf_field_ref2 type field)
                           | _ => None end)
  | _ => None
  end.

Definition ___bpf_field_ref (args : list string) : option field_ref :=
  match ___bpf_apply ___bpf_field_ref_family (___bpf_narg args) with
  | Some f => f args
  | None => None
  end.

(** The built-ins the loader resolves: by field reference, type and enumerator, and the number of
    the question asked. *)
Record core_builtins := CoreBuiltins {
  __builtin_preserve_field_info : field_ref -> Z -> Z;
  __builtin_btf_type_id : string -> Z -> Z;
  __builtin_preserve_type_info : string -> Z -> Z;
  __builtin_preserve_enum_value : string -> string -> Z -> Z
}.

Section queries.
Context (B : core_builtins).

Definition core_field_query (kind : bpf_field_info_kind) (field : list string) : option Z :=
  match ___bpf_field_ref field with
  | Some r => Some (__builtin_preserve_field_info B r (enum_val kind))
  | None => None
  end.
Definition bpf_core_field_exists := core_field_query BPF_FIELD_EXISTS.
Definition bpf_core_field_size := core_field_query BPF_FIELD_BYTE_SIZE.
Definition bpf_core_field_offset := core_field_query BPF_FIELD_BYTE_OFFSET.

Definition bpf_core_type_id_local (t : string) : Z :=
  __builtin_btf_type_id B t (enum_val BPF_TYPE_ID_LOCAL).
Definition bpf_core_type_id_kernel (t : string) : Z :=
  __builtin_btf_type_id B t (enum_val BPF_TYPE_ID_TARGET).
Definition bpf_core_type_exists (t : string) : Z :=
  __builtin_preserve_type_info B t (enum_val BPF_TYPE_EXISTS).
Definition bpf_core_type_matches (t : string) : Z :=
  __builtin_preserve_type_info B t (enum_val BPF_TYPE_MATCHES).
Definition bpf_core_type_size (t : string) : Z :=
  __builtin_preserve_type_info B t (enum_val BPF_TYPE_SIZE).
Definition bpf_core_enum_value_exists (t v : string) : Z :=
  __builtin_preserve_enum_value B t v (enum_val BPF_ENUMVAL_EXISTS).
Definition bpf_core_enum_value (t v : string) : Z :=
  __builtin_preserve_enum_value B t v (enum_val BPF_ENUMVAL_VALUE).
End queries.

(** * Read functions *)

(** A read function is the helper it calls and whether its source address is relocated. *)
Record read_fn := ReadFn { rf_helper : helper; rf_core : bool }.

Definition bpf_core_read := ReadFn helpers.bpf_probe_read_kernel true.
Definition bpf_core_read_user := ReadFn helpers.bpf_probe_read_user true.
Definition bpf_core_read_str := ReadFn helpers.bpf_probe_read_kernel_str true.
Definition bpf_core_read_user_str := ReadFn helpers.bpf_probe_read_user_str true.
Definition bpf_probe_read_kernel := ReadFn helpers.bpf_probe_read_kernel false.
Definition bpf_probe_read_user := ReadFn helpers.bpf_probe_read_user false.
Definition bpf_probe_read_kernel_str := ReadFn helpers.bpf_probe_read_kernel_str false.
Definition bpf_probe_read_user_str := ReadFn helpers.bpf_probe_read_user_str false.

(** * Variadic macros *)

(** A macro argument: the source expression or an accessor. *)
Inductive token := TSrc | TAcc (a : accessor).

(** [___nth(_1, ..., __11, N, ...)] is its twelfth argument. *)
Definition ___nth {T} (l : list T) : option T := l !! 11%nat.

Definition ___narg {A} (args : list A) : option nat :=
  countdown ___nth args [10; 9; 8; 7; 6; 5; 4; 3; 2; 1; 0]%nat.

(** [0] for no arguments, [N] for one or more. *)
Inductive suffix := suffix_0 | suffix_N.
Definition ___empty {A} (args : list A) : option suffix :=
  countdown ___nth args
    [suffix_N; suffix_N; suffix_N; suffix_N; suffix_N; suffix_N; suffix_N; suffix_N; suffix_N;
     suffix_N; suffix_0].

(** [___last1] to [___last10]. *)
Definition ___last (args : list token) : option token :=
  match ___narg args with
  | Some (S _) => last args
  | _ => None
  end.

(** [___nolast2] to [___nolast10]. *)
Definition ___nolast (args : list token) : option (list token) :=
  match ___narg args with
  | Some (S (S _)) => Some (removelast args)
  | _ => None
  end.

(** [___arrow1] to [___arrow10]: the expression [a->b->c], as the source and its accessors. *)
Definition ___arrow (args : list token) : option (list token) :=
  match ___narg args with
  | Some (S _) => Some args
  | _ => None
  end.

(** [typeof(___arrow(...))], by the expression it names. *)
Definition ___type (args : list token) : option (list token) := ___arrow args.

(** A read statement: function, destination, type and value of the source pointer, accessor. *)
Inductive rdst := DstT | DstArg. (* [&__t], or the macro's [dst] *)
Inductive rsrc := FromSrc | FromT.
Record read_stmt := Read {
  rd_fn : read_fn; rd_dst : rdst; rd_type : list token; rd_src : rsrc; rd_acc : accessor
}.

Definition ___read (fn : read_fn) (dst : rdst) (src_type : option (list token)) (src : rsrc)
    (a : option token) : option read_stmt :=
  match src_type, a with
  | Some t, Some (TAcc a) => Some (Read fn dst t src a)
  | _, _ => None
  end.

Definition ___rd_first (fn : read_fn) (args : list token) : option read_stmt :=
  match args with
  | [src; a] => ___read fn DstT (___type [src]) FromSrc (Some a)
  | _ => None
  end.

Definition ___rd_last (fn : read_fn) (args : list token) : option read_stmt :=
  ___read fn DstT (match ___nolast args with Some l => ___type l | None => None end) FromT
    (___last args).

(** [___rd_p1] to [___rd_p9]. *)
Fixpoint ___rd_p (n : nat) (fn : read_fn) (args : list token) : option (list read_stmt) :=
  match n with
  | 0%nat => None
  | 1%nat => match ___rd_first fn args with Some r => Some [r] | None => None end
  | S n' =>
      match ___nolast args with
      | Some front =>
          match ___rd_p n' fn front, ___rd_last fn args with
          | Some rs, Some r => Some (rs ++ [r])
          | _, _ => None
          end
      | None => None
      end
  end.

Definition ___read_ptrs (fn : read_fn) (src : token) (args : list token)
    : option (list read_stmt) :=
  match ___narg args with
  | Some n => if (n <=? 9)%nat then ___rd_p n fn (src :: args) else None
  | None => None
  end.

Definition ___core_read0 (fn fn_ptr : read_fn) (src a : token) : option (list read_stmt) :=
  match ___read fn DstArg (___type [src]) FromSrc (Some a) with
  | Some r => Some [r]
  | None => None
  end.

Definition ___core_readN (fn fn_ptr : read_fn) (src : token) (args : list token)
    : option (list read_stmt) :=
  match ___nolast args with
  | Some front =>
      match ___read_ptrs fn_ptr src front,
            ___read fn DstArg (___type (src :: front)) FromT (___last args) with
      | Some rs, Some r => Some (rs ++ [r])
      | _, _ => None
      end
  | None => None
  end.

Definition ___core_read (fn fn_ptr : read_fn) (src a : token) (rest : list token)
    : option (list read_stmt) :=
  match ___empty rest with
  | Some suffix_0 => ___core_read0 fn fn_ptr src a
  | Some suffix_N => ___core_readN fn fn_ptr src (a :: rest)
  | None => None
  end.

(** [BPF_..._INTO(dst, src, a, ...)]: the reads, the last one into [dst]. *)
Definition read_into (fn fn_ptr : read_fn) (a : accessor) (rest : list accessor)
    : option (list read_stmt) := ___core_read fn fn_ptr TSrc (TAcc a) (map TAcc rest).

Definition BPF_CORE_READ_INTO := read_into bpf_core_read bpf_core_read.
Definition BPF_CORE_READ_USER_INTO := read_into bpf_core_read_user bpf_core_read_user.
Definition BPF_PROBE_READ_INTO := read_into bpf_probe_read_kernel bpf_probe_read_kernel.
Definition BPF_PROBE_READ_USER_INTO := read_into bpf_probe_read_user bpf_probe_read_user.
Definition BPF_CORE_READ_STR_INTO := read_into bpf_core_read_str bpf_core_read.
Definition BPF_CORE_READ_USER_STR_INTO := read_into bpf_core_read_user_str bpf_core_read_user.
Definition BPF_PROBE_READ_STR_INTO := read_into bpf_probe_read_kernel_str bpf_probe_read_kernel.
Definition BPF_PROBE_READ_USER_STR_INTO := read_into bpf_probe_read_user_str bpf_probe_read_user.

(** [({ ___type((src), a, ...) __r; INTO(&__r, (src), a, ...); __r; })]: the type of the result and
    the reads. *)
Definition read_value (into : accessor -> list accessor -> option (list read_stmt)) (a : accessor)
    (rest : list accessor) : option (list token * list read_stmt) :=
  match ___type (TSrc :: TAcc a :: map TAcc rest), into a rest with
  | Some t, Some rs => Some (t, rs)
  | _, _ => None
  end.

Definition BPF_CORE_READ := read_value BPF_CORE_READ_INTO.
Definition BPF_CORE_READ_USER := read_value BPF_CORE_READ_USER_INTO.
Definition BPF_PROBE_READ := read_value BPF_PROBE_READ_INTO.
Definition BPF_PROBE_READ_USER := read_value BPF_PROBE_READ_USER_INTO.

(** * Running an expansion *)
Fixpoint accessors_of (ts : list token) : list accessor :=
  match ts with
  | [] => []
  | TSrc :: ts' => accessors_of ts'
  | TAcc a :: ts' => a :: accessors_of ts'
  end.

Section exec.
Context (en : endian).
(* the struct and union types by name *)
Context (env : string -> option ctype).
(* [rd fn size addr]: the result of the read and the bytes then in the destination *)
Context (rd : read_fn -> Z -> Z -> Z * list Z).

(** [&p->a] for a pointer of type [t]: offset and type of the member; bit-fields have no address. *)
Definition member_of (t : ctype) (a : accessor) : option (Z * ctype) :=
  match t with
  | CPtr nm =>
      match env nm with
      | Some st => match resolve st a with Some (o, None, ft) => Some (o / 8, ft) | _ => None end
      | None => None
      end
  | _ => None
  end.

(** [typeof(p->a->b->c)] *)
Fixpoint arrow_type (t : ctype) (accs : list accessor) : option ctype :=
  match accs with
  | [] => Some t
  | a :: accs' =>
      match member_of t a with
      | Some (_, ft) => arrow_type ft accs'
      | None => None
      end
  end.

(** One read; [__t] holds the pointer read last, [None] before the destination is written. *)
Definition exec_read (t0 : ctype) (src dst_size : Z) (st : Z * option (Z * list Z)) (r : read_stmt)
    : option (Z * option (Z * list Z)) :=
  let base := match rd_src r with FromSrc => src | FromT => fst st end in
  match arrow_type t0 (accessors_of (rd_type r)) with
  | Some t =>
      match member_of t (rd_acc r) with
      | Some (o, _) =>
          match rd_dst r with
          | DstT =>
              Some (load_uint en (snd (rd (rd_fn r) (sizeof (CPtr "")) (wrap 64 (base + o)))), snd st)
          | DstArg => Some (fst st, Some (rd (rd_fn r) dst_size (wrap 64 (base + o))))
          end
      | None => None
      end
  | None => None
  end.

Fixpoint exec (t0 : ctype) (src dst_size : Z) (st : Z * option (Z * list Z)) (rs : list read_stmt)
    : option (option (Z * list Z)) :=
  match rs with
  | [] => Some (snd st)
  | r :: rs' =>
      match exec_read t0 src dst_size st r with
      | Some st' => exec t0 src dst_size st' rs'
      | None => None
      end
  end.

(** The C meaning of [&s->a->b->c]: the address and type of the last member, with [load p] the
    pointer stored at [p]. *)
Fixpoint lval (load : Z -> Z) (t : ctype) (p : Z) (accs : list accessor) : option (Z * ctype) :=
  match accs with
  | [] => None
  | a :: accs' =>
      match member_of t a with
      | Some (o, ft) =>
          match accs' with
          | [] => Some (wrap 64 (p + o), ft)
          | _ => lval load ft (load (wrap 64 (p + o))) accs'
          end
      | None => None
      end
  end.
End exec.

(** The expected expansion: one read per accessor, each of a type one accessor longer, all but the
    last into [__t]. *)
Fixpoint chain (fn fn_ptr : read_fn) (pre accs : list accessor) : list read_stmt :=
  match accs with
  | [] => []
  | a :: accs' =>
      let from := match pre with [] => FromSrc | _ => FromT end in
      match accs' with
      | [] => [Read fn DstArg (TSrc :: map TAcc pre) from a]
      | _ => Read fn_ptr DstT (TSrc :: map TAcc pre) from a :: chain fn fn_ptr (pre ++ [a]) accs'
      end
  end.

Lemma narg_spec {A} (args : list A) :
  ___narg args = if (length args <=? 10)%nat then Some (length args) else None.
Proof.
  unfold ___narg. rewrite (countdown_spec 10) by done.
  destruct (Nat.leb_spec (length args) 10); [|done].
  do 11 (destruct args as [|? args]; [done|]). simpl in *. lia.
Qed.

Lemma read_into_spec fn fn_ptr a rest :
  read_into fn fn_ptr a rest =
    if (length rest <=? 9)%nat then Some (chain fn fn_ptr [] (a :: rest)) else None.
Proof.
  destruct (Nat.leb_spec (length rest) 9) as [Hle|Hgt].
  - do 10 (destruct rest as [|? rest]; [reflexivity|]). simpl in Hle. lia.
  - unfold read_into, ___core_read, ___empty. rewrite (countdown_spec 10) by done.
    rewrite length_map. destruct (Nat.leb_spec (length rest) 10); [|done].
    replace (length rest) with 10%nat by lia. cbn.
    unfold ___core_readN, ___nolast. rewrite narg_spec. cbn [length]. rewrite length_map.
    by destruct (Nat.leb_spec (S (length rest)) 10); [lia|].
Qed.

Lemma accessors_of_map pre : accessors_of (map TAcc pre) = pre.
Proof. induction pre; simpl; congruence. Qed.

Lemma arrow_type_app env t pre accs :
  arrow_type env t (pre ++ accs) =
    match arrow_type env t pre with Some t' => arrow_type env t' accs | None => None end.
Proof.
  revert t. induction pre as [|a pre IH]; intros t; [done|]. simpl.
  destruct (member_of env t a) as [[o ft]|]; auto.
Qed.

Lemma exec_chain en env rd fn fn_ptr t0 src dsz pre accs t st :
  accs <> [] -> arrow_type env t0 pre = Some t ->
  exec en env rd t0 src dsz st (chain fn fn_ptr pre accs) =
    match lval env (λ p, load_uint en (snd (rd fn_ptr 8 p))) t
            (match pre with [] => src | _ => fst st end) accs with
    | Some (p, _) => Some (Some (rd fn dsz p))
    | None => None
    end.
Proof.
  revert pre t st. induction accs as [|a accs IH]; intros pre t st Hne Ht; [done|].
  assert (arrow_type env t0 (accessors_of (TSrc :: map TAcc pre)) = Some t) as Hty
    by (cbn [accessors_of]; by rewrite accessors_of_map).
  assert (forall A (x y : A), match (match pre with [] => FromSrc | _ => FromT end) with
    FromSrc => x | FromT => y end = match pre with [] => x | _ => y end) as Hfrom
    by (by destruct pre).
  destruct accs as [|b accs]; cbn [chain exec lval]; unfold exec_read;
    cbn [rd_type rd_acc rd_src rd_dst rd_fn]; rewrite Hty, Hfrom;
    destruct (member_of env t a) as [[o ft]|] eqn:Hm; try done.
  rewrite (IH (pre ++ [a]) ft); [|done|].
  - cbn [fst]. by destruct pre.
  - rewrite arrow_type_app, Ht. simpl. by rewrite Hm.
Qed.

Lemma lval_type env load t p accs q ft :
  lval env load t p accs = Some (q, ft) -> arrow_type env t accs = Some ft.
Proof.
  revert t p. induction accs as [|a accs IH]; intros t p; [done|]. cbn [lval arrow_type].
  destruct (member_of env t a) as [[o mt]|]; [|done].
  destruct accs as [|b accs]; [by intros [= _ ->]|]. apply IH.
Qed.

Lemma read_value_spec fn fn_ptr a rest :
  read_value (read_into fn fn_ptr) a rest =
    if (length rest <=? 8)%nat then
      Some (TSrc :: TAcc a :: map TAcc rest, chain fn fn_ptr [] (a :: rest))
    else None.
Proof.
  unfold read_value, ___type, ___arrow. rewrite narg_spec, read_into_spec.
  cbn [length]. rewrite length_map.
  destruct (Nat.leb_spec (S (S (length rest))) 10), (Nat.leb_spec (length rest) 8),
    (Nat.leb_spec (length rest) 9); done || lia.
Qed.

(** C38: The read macros follow the pointers of the expression they are given.  A macro of the [_INTO]
    family expands for up to ten accessors and no more, to one read per accessor; together they follow
    the pointers as [&src->a->b->...] does and end with one read at that address into the destination,
    whatever the reads return.  A macro of the [BPF_CORE_READ] family, which returns the value, expands
    for up to nine accessors and no more, to the reads of its [_INTO] macro into a variable that has the
    type of [src->a->b->...]. *)
Theorem read_into_chases en env rd fn fn_ptr t0 src dst_size t a rest :
  match read_into fn fn_ptr a rest with
  | Some rs =>
      (length rest <= 9)%nat /\ length rs = S (length rest) /\
      exec en env rd t0 src dst_size (t, None) rs =
        match lval env (λ p, load_uint en (snd (rd fn_ptr 8 p))) t0 src (a :: rest) with
        | Some (p, _) => Some (Some (rd fn dst_size p))
        | None => None
        end
  | None => (9 < length rest)%nat
  end /\
  match read_value (read_into fn fn_ptr) a rest with
  | Some (ty, rs) =>
      (length rest <= 8)%nat /\ read_into fn fn_ptr a rest = Some rs /\
      forall load p ft, lval env load t0 src (a :: rest) = Some (p, ft) ->
        arrow_type env t0 (accessors_of ty) = Some ft
  | None => (8 < length rest)%nat
  end.
Proof.
  rewrite read_value_spec, read_into_spec. split.
  - destruct (Nat.leb_spec (length rest) 9) as [Hle|]; [|done].
    split_and!; [done| |by apply exec_chain].
    clear. generalize (@nil accessor) as pre. revert a. induction rest as [|b rest IH]; intros; [done|].
    change (S (length (chain fn fn_ptr (pre ++ [a]) (b :: rest))) = S (S (length rest))).
    by rewrite IH.
  - destruct (Nat.leb_spec (length rest) 8) as [Hle|]; [|done]. split_and!; [done| |].
    + by rewrite (proj2 (Nat.leb_le (length rest) 9)) by lia.
    + intros load p ft Hl. cbn [accessors_of]. rewrite accessors_of_map. by eapply lval_type.
Qed.

(** [BPF_CORE_READ(src, a, b, ...)] takes up to nine accessors, has the type of
    [src->a->b->...] and, when the reads succeed, its value. *)
Theorem BPF_CORE_READ_value en env (mem : Z -> Z -> list Z) rd t0 src t a rest p ft :
  (forall n q, rd bpf_core_read n q = (0, mem q n)) ->
  lval env (λ q, load_uint en (mem q 8)) t0 src (a :: rest) = Some (p, ft) ->
  match BPF_CORE_READ a rest with
  | Some (ty, rs) =>
      (length rest <= 8)%nat /\ arrow_type env t0 (accessors_of ty) = Some ft /\
      exec en env rd t0 src (sizeof ft) (t, None) rs = Some (Some (0, mem p (sizeof ft)))
  | None => (8 < length rest)%nat
  end.
Proof.
  intros Hrd Hl. unfold BPF_CORE_READ, BPF_CORE_READ_INTO. rewrite read_value_spec.
  destruct (Nat.leb_spec (length rest) 8) as [Hle|]; [|done]. split_and!; [done| |].
  - cbn [accessors_of]. rewrite accessors_of_map. by eapply lval_type.
  - rewrite (exec_chain _ _ _ _ _ _ _ _ [] _ t0) by done.
    replace (lval _ _ _ _ _) with (Some (p, ft)); [by rewrite Hrd|].
    rewrite <- Hl. clear Hl. generalize (a :: rest) as l. generalize t0, src.
    intros t1 s1 l. revert t1 s1. induction l as [|b l IH]; intros; [done|]. cbn [lval].
    destruct (member_of env t1 b) as [[o mt]|]; [|done]. destruct l; [done|].
    rewrite IH. by rewrite Hrd.
Qed.

(** The thread group of a task's parent. *)
Lemma BPF_CORE_READ_value_witness :
  let env n := if String.eqb n "struct task_struct"
               then Some (vmlinux.task_struct TARGET_ARCH_x86) else None in
  let mem p n := le_split (Z.to_nat n) (if p <? 8192 then 8192 else 77) in
  match BPF_CORE_READ [Dot "real_parent"] [ [Dot "tgid"] ] with
  | Some (ty, rs) =>
      exec LittleEndian env (λ _ n q, (0, mem q n)) (CPtr "struct task_struct") 4096 4 (0, None) rs =
        Some (Some (0, [77; 0; 0; 0]))
  | None => False
  end.
Proof.
  pose proof (BPF_CORE_READ_value LittleEndian
    (λ n, if String.eqb n "struct task_struct"
          then Some (vmlinux.task_struct TARGET_ARCH_x86) else None)
    (λ p n, le_split (Z.to_nat n) (if p <? 8192 then 8192 else 77))
    (λ _ n q, (0, le_split (Z.to_nat n) (if q <? 8192 then 8192 else 77)))
    (CPtr "struct task_struct") 4096 0 [Dot "real_parent"] [ [Dot "tgid"] ]
    (8192 + default 0 (CAbi.offsetof (vmlinux.task_struct TARGET_ARCH_x86) [Dot "tgid"]))
    vmlinux.pid_t (λ _ _, eq_refl) ltac:(vm_compute; reflexivity)) as H.
  apply H.
Defined.
