(* ===== verification/Tracing.v ===== *)
(** Tracing macros: src/ebpf/c/include/bpf_tracing.h.

    The selection of the target architecture, the registers each target passes arguments in
    (plain access and CO-RE read), the return address, and the wrappers that turn a raw context into
    typed arguments.  A register macro is the member of the register structure it names; [None] is
    a macro the header does not define for the target. *)
From S2P Require Import Prelude CAbi HelperDefs BpfHelpers Vmlinux CoreRead.
From stdpp Require Import base numbers list strings.
Local Open Scope string_scope.
Local Open Scope list_scope.
Local Open Scope Z_scope.

(** * Target selection *)
Inductive bpf_target :=
| bpf_target_x86 | bpf_target_s390 | bpf_target_arm | bpf_target_arm64 | bpf_target_mips
| bpf_target_powerpc | bpf_target_sparc | bpf_target_riscv.
#[global] Instance bpf_target_eq_dec : EqDecision bpf_target.
Proof. solve_decision. Defined.

Definition all_targets : list bpf_target :=
  [bpf_target_x86; bpf_target_s390; bpf_target_arm; bpf_target_arm64; bpf_target_mips;
   bpf_target_powerpc; bpf_target_sparc; bpf_target_riscv].

(** [defined defs m]: the macro is defined; [riscv_xlen] is the value of [__riscv_xlen]. *)
Record macros := Macros { defined : string -> bool; riscv_xlen : Z }.

Definition target_arch_macro (t : bpf_target) : string :=
  match t with
  | bpf_target_x86 => "__TARGET_ARCH_x86"
  | bpf_target_s390 => "__TARGET_ARCH_s390"
  | bpf_target_arm => "__TARGET_ARCH_arm"
  | bpf_target_arm64 => "__TARGET_ARCH_arm64"
  | bpf_target_mips => "__TARGET_ARCH_mips"
  | bpf_target_powerpc => "__TARGET_ARCH_powerpc"
  | bpf_target_sparc => "__TARGET_ARCH_sparc"
  | bpf_target_riscv => "__TARGET_ARCH_riscv"
  end.

Definition compiler_says (ms : macros) (t : bpf_target) : bool :=
  match t with
  | bpf_target_x86 => defined ms "__x86_64__"
  | bpf_target_s390 => defined ms "__s390__"
  | bpf_target_arm => defined ms "__arm__"
  | bpf_target_arm64 => defined ms "__aarch64__"
  | bpf_target_mips => defined ms "__mips__"
  | bpf_target_powerpc => defined ms "__powerpc__"
  | bpf_target_sparc => defined ms "__sparc__"
  | bpf_target_riscv => defined ms "__riscv" && (riscv_xlen ms =? 64)
  end.

(** The [#if ... #elif] chains: the first branch that holds; [None] leaves [bpf_target_defined]
    undefined. *)
Definition first_target (c : bpf_target -> bool) : option bpf_target := List.find c all_targets.
Definition selected_target (ms : macros) : option bpf_target :=
  match first_target (λ t, defined ms (target_arch_macro t)) with
  | Some t => Some t
  | None => first_target (compiler_says ms)
  end.

(** * Registers *)
Inductive reg_macro := PARM1 | PARM2 | PARM3 | PARM4 | PARM5 | RET | FP | RC | SP | IP.
Definition all_reg_macros : list reg_macro :=
  [PARM1; PARM2; PARM3; PARM4; PARM5; RET; FP; RC; SP; IP].

(** [x->member] or the constant 0. *)
Inductive reg_expr := Reg (a : accessor) | Const0.

Definition regs_x86 (m : reg_macro) : option reg_expr :=
  match m with
  | PARM1 => Some (Reg [Dot "di"])
  | PARM2 => Some (Reg [Dot "si"])
  | PARM3 => Some (Reg [Dot "dx"])
  | PARM4 => Some (Reg [Dot "cx"])
  | PARM5 => Some (Reg [Dot "r8"])
  | RET => Some (Reg [Dot "sp"])
  | FP => Some (Reg [Dot "bp"])
  | RC => Some (Reg [Dot "ax"])
  | SP => Some (Reg [Dot "sp"])
  | IP => Some (Reg [Dot "ip"])
  end.

Definition regs_x86_core (m : reg_macro) : option reg_expr :=
  match m with
  | PARM1 => Some (Reg [Dot "di"])
  | PARM2 => Some (Reg [Dot "si"])
  | PARM3 => Some (Reg [Dot "dx"])
  | PARM4 => Some (Reg [Dot "cx"])
  | PARM5 => Some (Reg [Dot "r8"])
  | RET => Some (Reg [Dot "sp"])
  | FP => Some (Reg [Dot "bp"])
  | RC => Some (Reg [Dot "ax"])
  | SP => Some (Reg [Dot "sp"])
  | IP => Some (Reg [Dot "ip"])
  end.

Definition regs_i386 (m : reg_macro) : option reg_expr :=
  match m with
  | PARM1 => Some (Reg [Dot "eax"])
  | PARM2 => Some (Reg [Dot "edx"])
  | PARM3 => Some (Reg [Dot "ecx"])
  | PARM4 => Some (Const0)
  | PARM5 => Some (Const0)
  | RET => Some (Reg [Dot "esp"])
  | FP => Some (Reg [Dot "ebp"])
  | RC => Some (Reg [Dot "eax"])
  | SP => Some (Reg [Dot "esp"])
  | IP => Some (Reg [Dot "eip"])
  end.

Definition regs_i386_core (m : reg_macro) : option reg_expr :=
  match m with
  | PARM1 => Some (Reg [Dot "eax"])
  | PARM2 => Some (Reg [Dot "edx"])
  | PARM3 => Some (Reg [Dot "ecx"])
  | PARM4 => Some (Const0)
  | PARM5 => Some (Const0)
  | RET => Some (Reg [Dot "esp"])
  | FP => Some (Reg [Dot "ebp"])
  | RC => Some (Reg [Dot "eax"])
  | SP => Some (Reg [Dot "esp"])
  | IP => Some (Reg [Dot "eip"])
  end.

Definition regs_x86_user (m : reg_macro) : option reg_expr :=
  match m with
  | PARM1 => Some (Reg [Dot "rdi"])
  | PARM2 => Some (Reg [Dot "rsi"])
  | PARM3 => Some (Reg [Dot "rdx"])
  | PARM4 => Some (Reg [Dot "rcx"])
  | PARM5 => Some (Reg [Dot "r8"])
  | RET => Some (Reg [Dot "rsp"])
  | FP => Some (Reg [Dot "rbp"])
  | RC => Some (Reg [Dot "rax"])
  | SP => Some (Reg [Dot "rsp"])
  | IP => Some (Reg [Dot "rip"])
  end.

Definition regs_x86_user_core (m : reg_macro) : option reg_expr :=
  match m with
  | PARM1 => Some (Reg [Dot "rdi"])
  | PARM2 => Some (Reg [Dot "rsi"])
  | PARM3 => Some (Reg [Dot "rdx"])
  | PARM4 => Some (Reg [Dot "rcx"])
  | PARM5 => Some (Reg [Dot "r8"])
  | RET => Some (Reg [Dot "rsp"])
  | FP => Some (Reg [Dot "rbp"])
  | RC => Some (Reg [Dot "rax"])
  | SP => Some (Reg [Dot "rsp"])
  | IP => Some (Reg [Dot "rip"])
  end.

Definition regs_s390 (m : reg_macro) : option reg_expr :=
  match m with
  | PARM1 => Some (Reg [Dot "gprs"; Idx 2])
  | PARM2 => Some (Reg [Dot "gprs"; Idx 3])
  | PARM3 => Some (Reg [Dot "gprs"; Idx 4])
  | PARM4 => Some (Reg [Dot "gprs"; Idx 5])
  | PARM5 => Some (Reg [Dot "gprs"; Idx 6])
  | RET => Some (Reg [Dot "gprs"; Idx 14])
  | FP => Some (Reg [Dot "gprs"; Idx 11])
  | RC => Some (Reg [Dot "gprs"; Idx 2])
  | SP => Some (Reg [Dot "gprs"; Idx 15])
  | IP => Some (Reg [Dot "psw"; Dot "addr"])
  end.

Definition regs_s390_core (m : reg_macro) : option reg_expr :=
  match m with
  | PARM1 => Some (Reg [Dot "gprs"; Idx 2])
  | PARM2 => Some (Reg [Dot "gprs"; Idx 3])
  | PARM3 => Some (Reg [Dot "gprs"; Idx 4])
  | PARM4 => Some (Reg [Dot "gprs"; Idx 5])
  | PARM5 => Some (Reg [Dot "gprs"; Idx 6])
  | RET => Some (Reg [Dot "gprs"; Idx 14])
  | FP => Some (Reg [Dot "gprs"; Idx 11])
  | RC => Some (Reg [Dot "gprs"; Idx 2])
  | SP => Some (Reg [Dot "gprs"; Idx 15])
  | IP => Some (Reg [Dot "psw"; Dot "addr"])
  end.

Definition regs_arm (m : reg_macro) : option reg_expr :=
  match m with
  | PARM1 => Some (Reg [Dot "uregs"; Idx 0])
  | PARM2 => Some (Reg [Dot "uregs"; Idx 1])
  | PARM3 => Some (Reg [Dot "uregs"; Idx 2])
  | PARM4 => Some (Reg [Dot "uregs"; Idx 3])
  | PARM5 => Some (Reg [Dot "uregs"; Idx 4])
  | RET => Some (Reg [Dot "uregs"; Idx 14])
  | FP => Some (Reg [Dot "uregs"; Idx 11])
  | RC => Some (Reg [Dot "uregs"; Idx 0])
  | SP => Some (Reg [Dot "uregs"; Idx 13])
  | IP => Some (Reg [Dot "uregs"; Idx 12])
  end.

Definition regs_arm_core (m : reg_macro) : option reg_expr :=
  match m with
  | PARM1 => Some (Reg [Dot "uregs"; Idx 0])
  | PARM2 => Some (Reg [Dot "uregs"; Idx 1])
  | PARM3 => Some (Reg [Dot "uregs"; Idx 2])
  | PARM4 => Some (Reg [Dot "uregs"; Idx 3])
  | PARM5 => Some (Reg [Dot "uregs"; Idx 4])
  | RET => Some (Reg [Dot "uregs"; Idx 14])
  | FP => Some (Reg [Dot "uregs"; Idx 11])
  | RC => Some (Reg [Dot "uregs"; Idx 0])
  | SP => Some (Reg [Dot "uregs"; Idx 13])
  | IP => Some (Reg [Dot "uregs"; Idx 12])
  end.

Definition regs_arm64 (m : reg_macro) : option reg_expr :=
  match m with
  | PARM1 => Some (Reg [Dot "regs"; Idx 0])
  | PARM2 => Some (Reg [Dot "regs"; Idx 1])
  | PARM3 => Some (Reg [Dot "regs"; Idx 2])
  | PARM4 => Some (Reg [Dot "regs"; Idx 3])
  | PARM5 => Some (Reg [Dot "regs"; Idx 4])
  | RET => Some (Reg [Dot "regs"; Idx 30])
  | FP => Some (Reg [Dot "regs"; Idx 29])
  | RC => Some (Reg [Dot "regs"; Idx 0])
  | SP => Some (Reg [Dot "sp"])
  | IP => Some (Reg [Dot "pc"])
  end.

Definition regs_arm64_core (m : reg_macro) : option reg_expr :=
  match m with
  | PARM1 => Some (Reg [Dot "regs"; Idx 0])
  | PARM2 => Some (Reg [Dot "regs"; Idx 1])
  | PARM3 => Some (Reg [Dot "regs"; Idx 2])
  | PARM4 => Some (Reg [Dot "regs"; Idx 3])
  | PARM5 => Some (Reg [Dot "regs"; Idx 4])
  | RET => Some (Reg [Dot "regs"; Idx 30])
  | FP => Some (Reg [Dot "regs"; Idx 29])
  | RC => Some (Reg [Dot "regs"; Idx 0])
  | SP => Some (Reg [Dot "sp"])
  | IP => Some (Reg [Dot "pc"])
  end.

Definition regs_mips (m : reg_macro) : option reg_expr :=
  match m with
  | PARM1 => Some (Reg [Dot "regs"; Idx 4])
  | PARM2 => Some (Reg [Dot "regs"; Idx 5])
  | PARM3 => Some (Reg [Dot "regs"; Idx 6])
  | PARM4 => Some (Reg [Dot "regs"; Idx 7])
  | PARM5 => Some (Reg [Dot "regs"; Idx 8])
  | RET => Some (Reg [Dot "regs"; Idx 31])
  | FP => Some (Reg [Dot "regs"; Idx 30])
  | RC => Some (Reg [Dot "regs"; Idx 2])
  | SP => Some (Reg [Dot "regs"; Idx 29])
  | IP => Some (Reg [Dot "cp0_epc"])
  end.

Definition regs_mips_core (m : reg_macro) : option reg_expr :=
  match m with
  | PARM1 => Some (Reg [Dot "regs"; Idx 4])
  | PARM2 => Some (Reg [Dot "regs"; Idx 5])
  | PARM3 => Some (Reg [Dot "regs"; Idx 6])
  | PARM4 => Some (Reg [Dot "regs"; Idx 7])
  | PARM5 => Some (Reg [Dot "regs"; Idx 8])
  | RET => Some (Reg [Dot "regs"; Idx 31])
  | FP => Some (Reg [Dot "regs"; Idx 30])
  | RC => Some (Reg [Dot "regs"; Idx 2])
  | SP => Some (Reg [Dot "regs"; Idx 29])
  | IP => Some (Reg [Dot "cp0_epc"])
  end.

Definition regs_powerpc (m : reg_macro) : option reg_expr :=
  match m with
  | PARM1 => Some (Reg [Dot "gpr"; Idx 3])
  | PARM2 => Some (Reg [Dot "gpr"; Idx 4])
  | PARM3 => Some (Reg [Dot "gpr"; Idx 5])
  | PARM4 => Some (Reg [Dot "gpr"; Idx 6])
  | PARM5 => Some (Reg [Dot "gpr"; Idx 7])
  | RC => Some (Reg [Dot "gpr"; Idx 3])
  | SP => Some (Reg [Dot "sp"])
  | IP => Some (Reg [Dot "nip"])
  | _ => None
  end.

Definition regs_powerpc_core (m : reg_macro) : option reg_expr :=
  match m with
  | PARM1 => Some (Reg [Dot "gpr"; Idx 3])
  | PARM2 => Some (Reg [Dot "gpr"; Idx 4])
  | PARM3 => Some (Reg [Dot "gpr"; Idx 5])
  | PARM4 => Some (Reg [Dot "gpr"; Idx 6])
  | PARM5 => Some (Reg [Dot "gpr"; Idx 7])
  | RC => Some (Reg [Dot "gpr"; Idx 3])
  | SP => Some (Reg [Dot "sp"])
  | IP => Some (Reg [Dot "nip"])
  | _ => None
  end.

Definition regs_sparc (ureg : string -> Z) (arch64 : bool) (m : reg_macro) : option reg_expr :=
  match m with
  | PARM1 => Some (Reg [Dot "u_regs"; Idx (ureg "UREG_I0")])
  | PARM2 => Some (Reg [Dot "u_regs"; Idx (ureg "UREG_I1")])
  | PARM3 => Some (Reg [Dot "u_regs"; Idx (ureg "UREG_I2")])
  | PARM4 => Some (Reg [Dot "u_regs"; Idx (ureg "UREG_I3")])
  | PARM5 => Some (Reg [Dot "u_regs"; Idx (ureg "UREG_I4")])
  | RET => Some (Reg [Dot "u_regs"; Idx (ureg "UREG_I7")])
  | RC => Some (Reg [Dot "u_regs"; Idx (ureg "UREG_I0")])
  | SP => Some (Reg [Dot "u_regs"; Idx (ureg "UREG_FP")])
  | IP => Some (Reg [Dot (if arch64 then "tpc" else "pc")])
  | _ => None
  end.

Definition regs_sparc_core (ureg : string -> Z) (arch64 : bool) (m : reg_macro) : option reg_expr :=
  match m with
  | PARM1 => Some (Reg [Dot "u_regs"; Idx (ureg "UREG_I0")])
  | PARM2 => Some (Reg [Dot "u_regs"; Idx (ureg "UREG_I1")])
  | PARM3 => Some (Reg [Dot "u_regs"; Idx (ureg "UREG_I2")])
  | PARM4 => Some (Reg [Dot "u_regs"; Idx (ureg "UREG_I3")])
  | PARM5 => Some (Reg [Dot "u_regs"; Idx (ureg "UREG_I4")])
  | RET => Some (Reg [Dot "u_regs"; Idx (ureg "UREG_I7")])
  | RC => Some (Reg [Dot "u_regs"; Idx (ureg "UREG_I0")])
  | SP => Some (Reg [Dot "u_regs"; Idx (ureg "UREG_FP")])
  | IP => Some (Reg [Dot (if arch64 then "tpc" else "pc")])
  | _ => None
  end.

Definition regs_riscv (m : reg_macro) : option reg_expr :=
  match m with
  | PARM1 => Some (Reg [Dot "a0"])
  | PARM2 => Some (Reg [Dot "a1"])
  | PARM3 => Some (Reg [Dot "a2"])
  | PARM4 => Some (Reg [Dot "a3"])
  | PARM5 => Some (Reg [Dot "a4"])
  | RET => Some (Reg [Dot "ra"])
  | FP => Some (Reg [Dot "s5"])
  | RC => Some (Reg [Dot "a5"])
  | SP => Some (Reg [Dot "sp"])
  | IP => Some (Reg [Dot "epc"])
  end.

Definition regs_riscv_core (m : reg_macro) : option reg_expr :=
  match m with
  | PARM1 => Some (Reg [Dot "a0"])
  | PARM2 => Some (Reg [Dot "a1"])
  | PARM3 => Some (Reg [Dot "a2"])
  | PARM4 => Some (Reg [Dot "a3"])
  | PARM5 => Some (Reg [Dot "a4"])
  | RET => Some (Reg [Dot "ra"])
  | FP => Some (Reg [Dot "fp"])
  | RC => Some (Reg [Dot "a5"])
  | SP => Some (Reg [Dot "sp"])
  | IP => Some (Reg [Dot "epc"])
  end.

(** Which structure [x] is cast to before the access; [None] keeps its own type. *)
Definition regs_cast (t : bpf_target) : option string :=
  match t with
  | bpf_target_s390 => Some "user_pt_regs"
  | bpf_target_arm64 => Some "struct user_pt_regs"
  | bpf_target_riscv => Some "struct user_regs_struct"
  | _ => None
  end.

(** What the register macros depend on besides the target: [__KERNEL__] or [__VMLINUX_H__],
    [__i386__], [__arch64__], and the UREG numbers of the sparc headers. *)
Record reg_config := RegConfig {
  rc_kernel : bool; rc_i386 : bool; rc_arch64 : bool; rc_ureg : string -> Z
}.

Definition PT_REGS (c : reg_config) (t : bpf_target) : reg_macro -> option reg_expr :=
  match t with
  | bpf_target_x86 =>
      if rc_kernel c then regs_x86 else if rc_i386 c then regs_i386 else regs_x86_user
  | bpf_target_s390 => regs_s390
  | bpf_target_arm => regs_arm
  | bpf_target_arm64 => regs_arm64
  | bpf_target_mips => regs_mips
  | bpf_target_powerpc => regs_powerpc
  | bpf_target_sparc => regs_sparc (rc_ureg c) (rc_arch64 c)
  | bpf_target_riscv => regs_riscv
  end.

Definition PT_REGS_CORE (c : reg_config) (t : bpf_target) : reg_macro -> option reg_expr :=
  match t with
  | bpf_target_x86 =>
      if rc_kernel c then regs_x86_core else if rc_i386 c then regs_i386_core
      else regs_x86_user_core
  | bpf_target_s390 => regs_s390_core
  | bpf_target_arm => regs_arm_core
  | bpf_target_arm64 => regs_arm64_core
  | bpf_target_mips => regs_mips_core
  | bpf_target_powerpc => regs_powerpc_core
  | bpf_target_sparc => regs_sparc_core (rc_ureg c) (rc_arch64 c)
  | bpf_target_riscv => regs_riscv_core
  end.

(** Where a probe finds the return address: in a register, or at an address computed from one. *)
Inductive ip_source := InReg (r : option reg_expr) | AtAddress (r : option reg_expr) (add : Z).

Definition BPF_KPROBE_READ_RET_IP (c : reg_config) (t : bpf_target) (sizeof_ip : Z) : ip_source :=
  match t with
  | bpf_target_powerpc => InReg (Some (Reg [Dot "link"]))
  | bpf_target_sparc => InReg (PT_REGS c t RET)
  | _ => AtAddress (PT_REGS c t RET) 0
  end.

Definition BPF_KRETPROBE_READ_RET_IP (c : reg_config) (t : bpf_target) (sizeof_ip : Z)
    : ip_source :=
  match t with
  | bpf_target_powerpc | bpf_target_sparc => BPF_KPROBE_READ_RET_IP c t sizeof_ip
  | _ => AtAddress (PT_REGS c t FP) sizeof_ip
  end.

(** ** Without a target *)

(** A macro in use: its expansion, or the compile-time error that asks for a target. *)
Inductive in_use (A : Type) := Expands (a : A) | TargetMissing.
Arguments Expands {A} a.
Arguments TargetMissing {A}.

Definition on_target {A} (ms : macros) (f : bpf_target -> A) : in_use A :=
  match selected_target ms with Some t => Expands (f t) | None => TargetMissing end.

Definition use_PT_REGS (ms : macros) (c : reg_config) (m : reg_macro) : in_use (option reg_expr) :=
  on_target ms (λ t, PT_REGS c t m).
Definition use_PT_REGS_CORE (ms : macros) (c : reg_config) (m : reg_macro) : in_use (option reg_expr) :=
  on_target ms (λ t, PT_REGS_CORE c t m).
Definition use_BPF_KPROBE_READ_RET_IP (ms : macros) (c : reg_config) (sizeof_ip : Z) : in_use ip_source :=
  on_target ms (λ t, BPF_KPROBE_READ_RET_IP c t sizeof_ip).
Definition use_BPF_KRETPROBE_READ_RET_IP (ms : macros) (c : reg_config) (sizeof_ip : Z) : in_use ip_source :=
  on_target ms (λ t, BPF_KRETPROBE_READ_RET_IP c t sizeof_ip).

(** * Program wrappers *)

(** An argument the wrapper passes to the program's body. *)
Inductive wrapped_arg := ACtx | ACtxElem (i : nat) | AReg (m : reg_macro).

(** [___bpf_ctx_cast0] to [___bpf_ctx_cast12]. *)
Fixpoint ___bpf_ctx_castN {A} (n : nat) (args : list A) : option (list wrapped_arg) :=
  match n, args with
  | 0%nat, [] => Some [ACtx]
  | S n', _ :: args' =>
      match ___bpf_ctx_castN n' args' with
      | Some l => Some (l ++ [ACtxElem n'])
      | None => None
      end
  | _, _ => None
  end.

Definition ___bpf_ctx_cast {A} (args : list A) : option (list wrapped_arg) :=
  match ___bpf_apply (λ n, if (n <=? 12)%nat then Some (___bpf_ctx_castN n) else None)
          (___bpf_narg args) with
  | Some f => f args
  | None => None
  end.

Definition parm (n : nat) : option reg_macro := [PARM1; PARM2; PARM3; PARM4; PARM5] !! n.

(** [___bpf_kprobe_args0] to [___bpf_kprobe_args5]. *)
Fixpoint ___bpf_kprobe_argsN {A} (n : nat) (args : list A) : option (list wrapped_arg) :=
  match n, args with
  | 0%nat, [] => Some [ACtx]
  | S n', _ :: args' =>
      match ___bpf_kprobe_argsN n' args', parm n' with
      | Some l, Some m => Some (l ++ [AReg m])
      | _, _ => None
      end
  | _, _ => None
  end.

Definition ___bpf_kprobe_args {A} (args : list A) : option (list wrapped_arg) :=
  match ___bpf_apply (λ n, if (n <=? 5)%nat then Some (___bpf_kprobe_argsN n) else None)
          (___bpf_narg args) with
  | Some f => f args
  | None => None
  end.

(** [___bpf_kretprobe_args0] and [___bpf_kretprobe_args1]. *)
Definition ___bpf_kretprobe_args {A} (args : list A) : option (list wrapped_arg) :=
  match ___bpf_narg args, args with
  | Some 0%nat, [] => Some [ACtx]
  | Some 1%nat, [_] => Some [ACtx; AReg RC]
  | _, _ => None
  end.

(** [name(ctx)] calls the body with the wrapped arguments, evaluated in the context. *)
Definition wrapped_program {A V R} (wrap_args : list A -> option (list wrapped_arg))
    (eval : wrapped_arg -> V) (body : list V -> R) (args : list A) : option R :=
  match wrap_args args with
  | Some l => Some (body (map eval l))
  | None => None
  end.

(** The context of a typed tracing program is an array of 64-bit values. *)
Definition BPF_PROG {A R} (body : list Z -> R) (args : list A) (ctx : Z) (elems : nat -> Z)
    : option R :=
  wrapped_program ___bpf_ctx_cast
    (λ a, match a with ACtx => ctx | ACtxElem i => elems i | AReg _ => 0 end) body args.

(** The context of a probe is the register structure. *)
Definition BPF_KPROBE {A R} (body : list Z -> R) (args : list A) (ctx : Z) (regs : reg_macro -> Z)
    : option R :=
  wrapped_program ___bpf_kprobe_args
    (λ a, match a with ACtx => ctx | AReg m => regs m | ACtxElem _ => 0 end) body args.

Definition BPF_KRETPROBE {A R} (body : list Z -> R) (args : list A) (ctx : Z)
    (regs : reg_macro -> Z) : option R :=
  wrapped_program ___bpf_kretprobe_args
    (λ a, match a with ACtx => ctx | AReg m => regs m | ACtxElem _ => 0 end) body args.

(** * Properties *)

Lemma find_unique (c : bpf_target -> bool) t :
  (forall u, c u = bool_decide (u = t)) -> first_target c = Some t.
Proof. intros Hc. unfold first_target, all_targets. simpl. rewrite !Hc. by destruct t. Qed.

Lemma find_none (c : bpf_target -> bool) : (forall u, c u = false) -> first_target c = None.
Proof. intros Hc. unfold first_target, all_targets. simpl. by rewrite !Hc. Qed.

(** The architecture the build names wins over the one the compiler targets, the compiler's
    is used only when the build names none, and a selected target was named by one of them. *)
Theorem target_selection ms :
  (forall t, (forall u, defined ms (target_arch_macro u) = bool_decide (u = t)) ->
     selected_target ms = Some t) /\
  (forall t, (forall u, defined ms (target_arch_macro u) = false) ->
     (forall u, compiler_says ms u = bool_decide (u = t)) -> selected_target ms = Some t) /\
  match selected_target ms with
  | Some t => defined ms (target_arch_macro t) = true \/
      (compiler_says ms t = true /\ forall u, defined ms (target_arch_macro u) = false)
  | None => forall u, defined ms (target_arch_macro u) = false /\ compiler_says ms u = false
  end.
Proof.
  unfold selected_target. split_and!.
  - intros t Ht. by rewrite (find_unique _ t).
  - intros t Hn Ht. rewrite find_none by done. by apply find_unique.
  - assert (forall u, u ∈ all_targets) as Hall
      by (intros []; unfold all_targets; rewrite !elem_of_cons; tauto).
    assert (forall c : bpf_target -> bool, first_target c = None -> forall u, c u = false) as Hnone.
    { intros c Hc u. eapply List.find_none; [exact Hc|]. apply list_elem_of_In, Hall. }
    destruct (first_target (λ t, defined ms (target_arch_macro t))) as [t|] eqn:H1.
    + left. by apply List.find_some in H1 as [_ ?].
    + specialize (Hnone _ H1) as Hd. destruct (first_target (compiler_says ms)) as [t|] eqn:H2.
      * right. by apply List.find_some in H2 as [_ ?].
      * intros u. split; [apply Hd|]. by apply Hnone.
Qed.

(** C39: on every target each CO-RE register macro reads the member its plain form reads, with one
    exception: on riscv the frame pointer is [s5] in the plain form and [fp] in the other. *)
Theorem pt_regs_core_agrees c t m :
  if bool_decide (t = bpf_target_riscv) && match m with FP => true | _ => false end then
    PT_REGS c t m = Some (Reg [Dot "s5"]) /\ PT_REGS_CORE c t m = Some (Reg [Dot "fp"])
  else PT_REGS c t m = PT_REGS_CORE c t m.
Proof. destruct t, m; try done; unfold PT_REGS, PT_REGS_CORE; by destruct (rc_kernel c), (rc_i386 c). Qed.

(** The register structure of the architectures vmlinux.h describes. *)
Definition arch_target (a : target_arch) : bpf_target :=
  match a with TARGET_ARCH_x86 => bpf_target_x86 | TARGET_ARCH_arm64 => bpf_target_arm64 end.
Definition arch_regs_name (a : target_arch) : string :=
  default "struct pt_regs" (regs_cast (arch_target a)).
Definition arch_regs (a : target_arch) : ctype :=
  match a with TARGET_ARCH_x86 => vmlinux.pt_regs TARGET_ARCH_x86 | TARGET_ARCH_arm64 => vmlinux.user_pt_regs end.
Definition arch_env (a : target_arch) (nm : string) : option ctype :=
  if String.eqb nm (arch_regs_name a) then Some (arch_regs a) else None.

(** The CO-RE read of one member of the register structure. *)
Lemma exec_reg a acc o ft en (mem : Z -> Z -> list Z) rd x t :
  (forall n q, rd bpf_core_read n q = (0, mem q n)) ->
  resolve (arch_regs a) acc = Some (8 * o, None, ft) ->
  exec en (arch_env a) rd (CPtr (arch_regs_name a)) x 8 (t, None)
    (chain bpf_core_read bpf_core_read [] [acc]) = Some (Some (0, mem (wrap 64 (x + o)) 8)).
Proof.
  intros Hrd Hr. rewrite (exec_chain _ _ _ _ _ _ _ _ [] _ (CPtr (arch_regs_name a))) by done.
  cbn [lval member_of]. unfold arch_env. rewrite String.eqb_refl, Hr.
  by rewrite Z.mul_comm, Z.div_mul, Hrd.
Qed.

Lemma reg_layout c a m :
  rc_kernel c = true ->
  exists acc, let o := default 0 (CAbi.offsetof (arch_regs a) acc) in
    PT_REGS c (arch_target a) m = Some (Reg acc) /\
    PT_REGS_CORE c (arch_target a) m = Some (Reg acc) /\
    resolve (arch_regs a) acc = Some (8 * o, None, vmlinux.u64) /\
    resolve (vmlinux.pt_regs a) acc = Some (8 * o, None, vmlinux.u64) /\
    in_range 0 (sizeof (arch_regs a) - 7) o = true.
Proof.
  intros Hk. unfold PT_REGS, PT_REGS_CORE. rewrite Hk.
  destruct a, m; eexists; (split; [reflexivity|]); split_and!; vm_compute; reflexivity.
Qed.

(** On x86 and arm64, with the register structures of vmlinux.h, every register macro names a
    64-bit member of the structure, and its CO-RE read loads exactly those bytes; on arm64 the
    member is at the same place in [struct pt_regs], so the cast of the context is sound. *)
Theorem pt_regs_registers_resolve c a m en (mem : Z -> Z -> list Z) rd x t :
  rc_kernel c = true -> (forall n q, rd bpf_core_read n q = (0, mem q n)) ->
  exists acc o ty rs,
    PT_REGS c (arch_target a) m = Some (Reg acc) /\
    PT_REGS_CORE c (arch_target a) m = Some (Reg acc) /\
    resolve (arch_regs a) acc = Some (8 * o, None, vmlinux.u64) /\
    resolve (vmlinux.pt_regs a) acc = Some (8 * o, None, vmlinux.u64) /\
    0 <= o /\ o + 8 <= sizeof (arch_regs a) /\
    BPF_CORE_READ acc [] = Some (ty, rs) /\
    exec en (arch_env a) rd (CPtr (arch_regs_name a)) x 8 (t, None) rs =
      Some (Some (0, mem (wrap 64 (x + o)) 8)).
Proof.
  intros Hk Hrd. destruct (reg_layout c a m Hk) as (acc & Hp & Hc & Hr & Hr' & Hin).
  unfold in_range in Hin. simplify_bool.
  exists acc, (default 0 (CAbi.offsetof (arch_regs a) acc)), [TSrc; TAcc acc],
    (chain bpf_core_read bpf_core_read [] [acc]).
  do 4 (split; [done|]). do 2 (split; [lia|]). split; [reflexivity|].
  by apply (exec_reg a acc _ vmlinux.u64).
Qed.

Lemma pt_regs_registers_resolve_witness :
  PT_REGS_CORE (RegConfig true false false (λ _, 0)) bpf_target_x86 PARM1 = Some (Reg [Dot "di"]).
Proof.
  destruct (pt_regs_registers_resolve (RegConfig true false false (λ _, 0)) TARGET_ARCH_x86 PARM1
    LittleEndian (λ _ n, replicate (Z.to_nat n) 0) (λ _ n _, (0, replicate (Z.to_nat n) 0)) 4096 0)
    as (acc & _ & _ & _ & Hp & Hc & _).
  - reflexivity.
  - reflexivity.
  - injection Hp as <-. exact Hc.
Defined.

Lemma ctx_castN_spec {A} (args : list A) :
  ___bpf_ctx_castN (length args) args = Some (ACtx :: map ACtxElem (seq 0 (length args))).
Proof.
  induction args as [|x args IH]; [done|]. cbn [length ___bpf_ctx_castN]. rewrite IH.
  by rewrite seq_S, map_app.
Qed.

Lemma kprobe_argsN_spec {A} (args : list A) :
  (length args <= 5)%nat ->
  ___bpf_kprobe_argsN (length args) args =
    Some (ACtx :: map AReg (take (length args) [PARM1; PARM2; PARM3; PARM4; PARM5])).
Proof. intros H. do 6 (destruct args as [|? args]; [done|]). simpl in H. lia. Qed.

(** The wrappers call the program's body with the context followed by the arguments it
    declares, in order: the elements of the context array for up to twelve of them, the argument
    registers for up to five, and the return value register for at most one; with more, the
    macro does not expand. *)
Theorem program_wrappers {A R} (body : list Z -> R) (args : list A) ctx elems regs :
  BPF_PROG body args ctx elems =
    (if length args <=? 12 then Some (body (ctx :: map elems (seq 0 (length args))))
     else None)%nat /\
  BPF_KPROBE body args ctx regs =
    (if length args <=? 5 then
       Some (body (ctx :: map regs (take (length args) [PARM1; PARM2; PARM3; PARM4; PARM5])))
     else None)%nat /\
  BPF_KRETPROBE body args ctx regs =
    match args with
    | [] => Some (body [ctx])
    | [_] => Some (body [ctx; regs RC])
    | _ => None
    end.
Proof.
  unfold BPF_PROG, BPF_KPROBE, BPF_KRETPROBE, wrapped_program, ___bpf_ctx_cast,
    ___bpf_kprobe_args, ___bpf_kretprobe_args. rewrite bpf_narg_spec. split_and!.
  - destruct (Nat.leb_spec (length args) 12) as [Hle|]; [|done]. cbn [___bpf_apply].
    rewrite (proj2 (Nat.leb_le _ _) Hle), ctx_castN_spec. cbn [map]. by rewrite map_map.
  - destruct (Nat.leb_spec (length args) 5) as [Hle|Hgt].
    + rewrite (proj2 (Nat.leb_le (length args) 12)) by lia. cbn [___bpf_apply].
      rewrite (proj2 (Nat.leb_le _ _) Hle), kprobe_argsN_spec by done. cbn [map].
      by rewrite map_map.
    + destruct (length args <=? 12)%nat; [|done]. cbn [___bpf_apply].
      by rewrite (proj2 (Nat.leb_gt _ _) Hgt).
  - destruct args as [|x [|y args]]; [done..|]. by destruct (length (x :: y :: args) <=? 12)%nat.
Qed.
