(* ===== verification/GoBase.v ===== *)
(** Go values shared by the user-space components.

    Outcomes of Go functions (a value, an error, or a panic), addresses of the netaddr package,
    wall-clock times and durations.  The netaddr package is a parameter: the record [netaddr] of
    the operations the program calls, and the class [NetaddrSpec] of what its documentation says of
    them. *)
From S2P Require Import Prelude.
From Stdlib Require Import Floats.SpecFloat.
From stdpp Require Import base numbers list strings pretty gmap.
Local Open Scope Z_scope.

(** * Outcomes *)
Inductive result (A : Type) :=
| Ok (a : A)
| Err (e : string)
| Panic.
Arguments Ok {A} a.
Arguments Err {A} e.
Arguments Panic {A}.

Definition rbind {A B} (m : result A) (f : A -> result B) : result B :=
  match m with
  | Ok a => f a
  | Err e => Err e
  | Panic => Panic
  end.
Notation "'try' x ':=' m 'in' k" := (rbind m (λ x, k))
  (at level 200, x pattern, m at level 100, k at level 200) : egress_scope.

(** [*p] of a pointer. *)
Definition deref {A} (p : option A) : result A :=
  match p with Some a => Ok a | None => Panic end.

(** A loop over a slice that threads its state; the first error or panic ends it. *)
Fixpoint foldr_result {S A} (f : S -> A -> result S) (s : S) (l : list A) : result S :=
  match l with
  | [] => Ok s
  | a :: l' => rbind (f s a) (λ s', foldr_result f s' l')
  end.

Lemma rbind_ok {A B} (m : result A) (f : A -> result B) b :
  rbind m f = Ok b -> exists a, m = Ok a /\ f a = Ok b.
Proof. destruct m; simpl; [|done..]. by exists a. Qed.

Lemma foldr_result_app {S A} (f : S -> A -> result S) s l1 l2 :
  foldr_result f s (l1 ++ l2) = rbind (foldr_result f s l1) (λ s', foldr_result f s' l2).
Proof.
  revert s. induction l1 as [|a l1 IH]; intros s; [done|]. simpl.
  destruct (f s a); simpl; auto.
Qed.

(** A loop keeps what each of its iterations keeps. *)
Lemma foldr_result_inv {S A} (P : S -> Prop) (f : S -> A -> result S) s l s' :
  (forall s1 a s2, a ∈ l -> P s1 -> f s1 a = Ok s2 -> P s2) ->
  P s -> foldr_result f s l = Ok s' -> P s'.
Proof.
  revert s. induction l as [|a l IH]; intros s Hf Hs; simpl; [by intros [= ->]|].
  intros (s1 & H1 & H2)%rbind_ok. apply (IH s1); [|by eapply Hf; [left|..]|done].
  intros s2 b s3 Hb. apply Hf. by right.
Qed.

Ltac inv_ok :=
  repeat match goal with
  | H : rbind _ _ = Ok _ |- _ => apply rbind_ok in H as (? & ? & H)
  | H : Ok _ = Ok _ |- _ => injection H as H
  | H : Err _ = Ok _ |- _ => discriminate H
  | H : Panic = Ok _ |- _ => discriminate H
  end.

(** [%q] of a string without characters to escape. *)
Definition quote (s : string) : string :=
  let q := String (Ascii.ascii_of_nat 34) EmptyString in q +:+ s +:+ q.

(** * Sums over a map *)
Definition msum {A} (w : Z -> A -> Z) (m : gmap Z A) : Z := map_fold (λ k a acc, w k a + acc) 0 m.

Lemma msum_empty {A} (w : Z -> A -> Z) : msum w ∅ = 0.
Proof. apply map_fold_empty. Qed.

Lemma msum_insert_new {A} (w : Z -> A -> Z) m k a :
  m !! k = None -> msum w (<[k := a]> m) = w k a + msum w m.
Proof. intros Hk. unfold msum. rewrite map_fold_insert_L; [done|intros; lia|done]. Qed.

Lemma msum_delete {A} (w : Z -> A -> Z) m k a :
  m !! k = Some a -> msum w m = w k a + msum w (delete k m).
Proof.
  intros Hk. rewrite <- (insert_delete_id m k a) at 1 by done.
  apply msum_insert_new, lookup_delete_eq.
Qed.

Lemma msum_insert_old {A} (w : Z -> A -> Z) m k a a0 :
  m !! k = Some a0 -> msum w (<[k := a]> m) = w k a - w k a0 + msum w m.
Proof.
  intros Hk. rewrite (msum_delete w m k a0) by done. rewrite <- insert_delete_eq.
  rewrite msum_insert_new by apply lookup_delete_eq. lia.
Qed.

Lemma msum_ext {A} (w w' : Z -> A -> Z) m :
  (forall k a, m !! k = Some a -> w k a = w' k a) -> msum w m = msum w' m.
Proof.
  induction m as [|k a m Hk IH] using map_ind; intros Hw; [by rewrite !msum_empty|].
  rewrite !msum_insert_new by done. rewrite (Hw k a) by apply lookup_insert_eq. f_equal.
  apply IH. intros k' a' Hk'. apply Hw. rewrite lookup_insert_ne; [done|]. intros ->. congruence.
Qed.

(** Splitting a map by a test splits the sum. *)
Lemma msum_filter {A} (w : Z -> A -> Z) (P : A -> bool) m :
  msum w m = msum w (filter (λ kv : Z * A, P (snd kv) = true) m) +
             msum w (filter (λ kv : Z * A, P (snd kv) = false) m).
Proof.
  induction m as [|k a m Hk IH] using map_ind.
  { by rewrite !map_filter_empty, !msum_empty. }
  rewrite msum_insert_new, IH by done. destruct (P a) eqn:HP.
  - rewrite map_filter_insert_True, map_filter_insert_not' by (cbn; congruence).
    rewrite msum_insert_new by (apply map_lookup_filter_None; by left). lia.
  - rewrite map_filter_insert_not', map_filter_insert_True by (cbn; congruence).
    rewrite msum_insert_new by (apply map_lookup_filter_None; by left). lia.
Qed.

(** * Time *)

(** [time.Time] and [time.Duration] in nanoseconds; the zero time is 1 January of year 1. *)
Definition Second : Z := 1000000000.
Definition Minute : Z := 60 * Second.
Definition zero_time : Z := -62135596800 * Second.
Definition After (t u : Z) : bool := u <? t.

(** * Floating point *)

(** Conversion of an integer to float64: the nearest binary64 number, to even between two. *)
Definition float64 (z : Z) : spec_float := binary_normalize 53 1024 z 0 false.

(** The number is exactly the integer: a finite number is [m * 2 ^ e]. *)
Definition represents (x : spec_float) (z : Z) : Prop :=
  match x with
  | S754_zero _ => z = 0
  | S754_finite s m e => e <= 0 /\ (if s then - Z.pos m else Z.pos m) = z * 2 ^ (- e)
  | _ => False
  end.

Lemma digits2_bound p : 2 ^ (Z.pos (digits2_pos p) - 1) <= Z.pos p.
Proof.
  induction p as [p IH|p IH|]; simpl digits2_pos; [| |done];
    rewrite Pos2Z.inj_succ, Z.sub_1_r, Z.pred_succ;
    replace (Z.pos (digits2_pos p)) with (Z.succ (Z.pos (digits2_pos p) - 1)) by lia;
    rewrite Z.pow_succ_r by lia; lia.
Qed.

Lemma iter_xO k p : Z.pos (Pos.iter xO p k) = Z.pos p * 2 ^ Z.pos k /\
  digits2_pos (Pos.iter xO p k) = (digits2_pos p + k)%positive.
Proof.
  induction k as [|k [IH1 IH2]] using Pos.peano_ind; [simpl; lia|].
  rewrite Pos.iter_succ. simpl digits2_pos. rewrite IH2. split; [|lia].
  rewrite Pos2Z.inj_succ, Z.pow_succ_r by lia. lia.
Qed.

(** A normalised mantissa is not rounded. *)
Lemma binary_round_aux_exact s m e : Z.pos (digits2_pos m) = 53 -> -1074 <= e <= 0 ->
  binary_round_aux 53 1024 s (Z.pos m) e loc_Exact = S754_finite s m e.
Proof.
  intros Hd He. unfold binary_round_aux, shr_fexp, fexp, emin. cbn [Zdigits2]. rewrite Hd.
  replace (Z.max (53 + e - 53) (3 - 1024 - 53) - e) with 0 by lia. cbn.
  rewrite Hd. replace (Z.max (53 + e - 53) (3 - 1024 - 53) - e) with 0 by lia. cbn.
  by rewrite (proj2 (Z.leb_le e (1024 - 53))) by lia.
Qed.

Lemma binary_round_exact s p : Z.pos p < 2 ^ 53 ->
  exists m e, binary_round 53 1024 s p 0 = S754_finite s m e /\ e <= 0 /\ Z.pos m = Z.pos p * 2 ^ (- e).
Proof.
  intros Hp. pose proof (digits2_bound p) as Hb.
  assert (Hd : Z.pos (digits2_pos p) <= 53).
  { destruct (Z.le_gt_cases (Z.pos (digits2_pos p)) 53) as [|Hgt]; [done|].
    pose proof (Z.pow_le_mono_r 2 53 (Z.pos (digits2_pos p) - 1) ltac:(lia) ltac:(lia)). lia. }
  unfold binary_round, fexp, emin, shl_align.
  replace (Z.max (Z.pos (digits2_pos p) + 0 - 53) (3 - 1024 - 53)) with (Z.pos (digits2_pos p) - 53) by lia.
  destruct (Z.pos (digits2_pos p) - 53 - 0) as [|k|k] eqn:Ek; [|lia|].
  - rewrite binary_round_aux_exact by lia. exists p, 0. split_and!; [done|lia|lia].
  - destruct (iter_xO k p) as [Hv Hdig]. rewrite binary_round_aux_exact by lia.
    eexists _, _. split_and!; [reflexivity|lia|]. rewrite Hv. do 2 f_equal. lia.
Qed.

(** Integers below 2^53 are converted exactly. *)
Lemma float64_exact z : Z.abs z < 2 ^ 53 -> represents (float64 z) z.
Proof.
  intros Hz. destruct z as [|p|p]; [done| |]; unfold float64, binary_normalize;
    destruct (binary_round_exact false p ltac:(lia)) as (m & e & Hr & He & Hm);
    destruct (binary_round_exact true p ltac:(lia)) as (m' & e' & Hr' & He' & Hm');
    rewrite ?Hr, ?Hr'; simpl; lia.
Qed.

(** * Addresses *)

(** The operations of netaddr the program calls.  [As4] is [None] where the method panics: on the
    zero value and on IPv6 addresses.  [FromStdIP] gives the zero value for a slice that is no
    address. *)
Class Netaddr := {
  IP : Type;
  IP_eq_dec :: EqDecision IP;
  zeroIP : IP;
  IPv4 : Z -> Z -> Z -> Z -> IP;
  As4 : IP -> option (list Z);
  FromStdIP : list Z -> IP;
  ParseIP : string -> option IP;
  IP_String : IP -> string;
  IsPrivate : IP -> bool;
  IsLoopback : IP -> bool;
  IsMulticast : IP -> bool;
  IsLinkLocalUnicast : IP -> bool;
  IsLinkLocalMulticast : IP -> bool;
  IsInterfaceLocalMulticast : IP -> bool
}.

Class NetaddrSpec (N : Netaddr) : Prop := {
  As4_IPv4 : forall a b c d, bytes_ok [a; b; c; d] -> As4 (IPv4 a b c d) = Some [a; b; c; d];
  As4_bytes : forall ip bs, As4 ip = Some bs -> bytes_ok bs /\ length bs = 4%nat;
  As4_zero : As4 zeroIP = None;
  FromStdIP_4 : forall a b c d, bytes_ok [a; b; c; d] -> FromStdIP [a; b; c; d] = IPv4 a b c d;
  FromStdIP_bad : forall bs, length bs <> 4%nat -> length bs <> 16%nat -> FromStdIP bs = zeroIP
}.

(** An address with a port. *)
Record IPPort `{Netaddr} := IPPortFrom { ipp_ip : IP; ipp_port : Z }.

#[export] Instance IPPort_eq_dec `{Netaddr} : EqDecision IPPort.
Proof. solve_decision. Defined.

(** A netaddr of IPv4 addresses: the four bytes, or nothing for the zero value. *)
Definition is_byteb (b : Z) : bool := in_range 0 256 b.
Definition ref_as4 (ip : list Z) : option (list Z) :=
  if (length ip =? 4)%nat && forallb is_byteb ip then Some ip else None.
#[local] Instance ref_netaddr : Netaddr := {
  IP := list Z;
  zeroIP := [];
  IPv4 a b c d := [a; b; c; d];
  As4 := ref_as4;
  FromStdIP bs := if (length bs =? 4)%nat then bs else [];
  ParseIP _ := None;
  IP_String ip := String.concat "."%string (map pretty ip);
  IsPrivate ip := match ip with
                  | [a; b; _; _] => (a =? 10) || ((a =? 172) && in_range 16 32 b) ||
                                    ((a =? 192) && (b =? 168))
                  | _ => false
                  end;
  IsLoopback ip := match ip with [a; _; _; _] => a =? 127 | _ => false end;
  IsMulticast ip := match ip with [a; _; _; _] => in_range 224 240 a | _ => false end;
  IsLinkLocalUnicast ip := match ip with
                           | [a; b; _; _] => (a =? 169) && (b =? 254)
                           | _ => false
                           end;
  IsLinkLocalMulticast ip := match ip with
                             | [a; b; c; _] => (a =? 224) && (b =? 0) && (c =? 0)
                             | _ => false
                             end;
  IsInterfaceLocalMulticast _ := false
}.

Lemma forallb_byte_ok bs : forallb is_byteb bs = true <-> bytes_ok bs.
Proof.
  unfold bytes_ok. induction bs as [|b bs IH]; simpl; [split; constructor|].
  rewrite andb_true_iff, IH. unfold is_byteb, in_range. rewrite andb_true_iff, Z.leb_le, Z.ltb_lt.
  split; [intros [? ?]; by constructor|intros Hf; by inversion Hf].
Qed.

Lemma ref_netaddr_spec : NetaddrSpec ref_netaddr.
Proof.
  split; simpl; unfold ref_as4.
  - intros a b c d H%forallb_byte_ok. by rewrite H.
  - intros ip bs H. destruct (Nat.eqb_spec (length ip) 4); [|done].
    destruct (forallb is_byteb ip) eqn:Hb; [|done]. injection H as <-.
    by apply forallb_byte_ok in Hb.
  - done.
  - done.
  - intros bs H4 _. by destruct (Nat.eqb_spec (length bs) 4).
Qed.
