(* ===== verification/Conntrack.v ===== *)
(** Connection tracking: src/conntrack.

    The [Entry] type and the [Client] interface the collector uses, and its two implementations:
    netfilter (nf_conntrack.go) and Cilium (cilium_conntrack.go, cilium_conntrack_linux.go, with the
    clock functions of time.go and the CONFIG_HZ estimate of kernel_hz.go).  What the conntrack
    libraries deliver is an argument: a netfilter dump is a list of sessions whose members are
    pointers, a Cilium map the list of its keys and values. *)
From S2P Require Import Prelude GoBase.
From stdpp Require Import base numbers list strings pretty gmap.
Local Open Scope string_scope.
Local Open Scope list_scope.
Local Open Scope Z_scope.
Local Open Scope egress_scope.

Section conntrack.
Context `{N : Netaddr}.

(** * conntrack.go *)
Record Entry := MkEntry {
  Src : IPPort;
  Dst : IPPort;
  TxBytes : Z;
  TxPackets : Z;
  RxBytes : Z;
  RxPackets : Z;
  Lifetime : Z;
  Proto : Z
}.

Definition EntriesFilter := Entry -> bool.
Definition All : EntriesFilter := λ _, true.
Definition FilterBySrcIP (ips : list IP) : EntriesFilter := λ e,
  bool_decide (ipp_ip (Src e) ∈ ips).

(** What a client promises the collector: it lists entries that pass the filter. *)
Class Client (ListEntries : EntriesFilter -> result (list Entry)) : Prop := {
  listed_pass : forall f es e, ListEntries f = Ok es -> e ∈ es -> f e = true
}.

(** * nf_conntrack.go *)

(** The members of a dumped session the client reads, as pointers. *)
Record ProtoTuple := MkProtoTuple {
  Number : option Z; SrcPort : option Z; DstPort : option Z
}.
Record IPTuple := MkIPTuple {
  tSrc : option (list Z); tDst : option (list Z); tProto : option ProtoTuple
}.
Record Counter := MkCounter { Bytes : option Z; Packets : option Z }.
Record Con := MkCon {
  Origin : option IPTuple; Reply : option IPTuple;
  CounterOrigin : option Counter; CounterReply : option Counter;
  Timeout : option Z
}.

Definition is_nil {A} (p : option A) : bool := match p with None => true | Some _ => false end.

(** A tuple's members the guard looks at: one address, the protocol part and its ports. *)
Definition tuple_incomplete (t : option IPTuple) (addr : IPTuple -> option (list Z)) : bool :=
  match t with
  | None => true
  | Some t =>
      is_nil (addr t) ||
      match tProto t with
      | None => true
      | Some p => is_nil (SrcPort p) || is_nil (DstPort p)
      end
  end.

Definition incomplete (sess : Con) : bool :=
  tuple_incomplete (Origin sess) tSrc || tuple_incomplete (Reply sess) tDst ||
  is_nil (CounterOrigin sess) || is_nil (CounterReply sess).

Definition ipFromStdIP (ip : list Z) : IP := FromStdIP ip.

(** The two entries of a session that passed the guard. *)
Definition session_entries (now : Z) (sess : Con) : result (Entry * Entry) :=
  try origin := deref (Origin sess) in
  try originCounter := deref (CounterOrigin sess) in
  try reply := deref (Reply sess) in
  try replyCounter := deref (CounterReply sess) in
  try oproto := deref (tProto origin) in
  try osrc := deref (tSrc origin) in
  try osport := deref (SrcPort oproto) in
  try odst := deref (tDst origin) in
  try odport := deref (DstPort oproto) in
  try txb := deref (Bytes originCounter) in
  try txp := deref (Packets originCounter) in
  try rxb := deref (Bytes replyCounter) in
  try rxp := deref (Packets replyCounter) in
  try number := deref (Number oproto) in
  let entry := MkEntry (IPPortFrom _ (ipFromStdIP osrc) osport)
                 (IPPortFrom _ (ipFromStdIP odst) odport) txb txp rxb rxp zero_time number in
  let lifetime := match Timeout sess with
                  | Some t => now + Second * t
                  | None => Lifetime entry
                  end in
  try rsrc := deref (tSrc reply) in
  try rproto := deref (tProto reply) in
  try rsport := deref (SrcPort rproto) in
  let replySrc := IPPortFrom _ (ipFromStdIP rsrc) rsport in
  (* Probably ClusterIP service, remap destination to actual pod IP. *)
  let dst := if bool_decide (Dst entry <> replySrc) then replySrc else Dst entry in
  let entry := MkEntry (Src entry) dst txb txp rxb rxp lifetime number in
  let entry2 := MkEntry (Dst entry) (Src entry) (RxBytes entry) (RxPackets entry)
                  (TxBytes entry) (TxPackets entry) (Lifetime entry) (Proto entry) in
  Ok (entry, entry2).

Definition netfilter_session (filter : EntriesFilter) (now : Z) (res : list Entry) (sess : Con)
    : result (list Entry) :=
  if incomplete sess then Ok res
  else
    try p := session_entries now sess in
    let '(entry, entry2) := p in
    let res := if filter entry then res ++ [entry] else res in
    let res := if filter entry2 then res ++ [entry2] else res in
    Ok res.

(** [dump] is the outcome of [nfctDumper.Dump]. *)
Definition netfilter_ListEntries (dump : result (list Con)) (now : Z) (filter : EntriesFilter)
    : result (list Entry) :=
  match dump with
  | Ok sessions => foldr_result (netfilter_session filter now) [] sessions
  | Err e => Err ("dumping nfct sessions: " +:+ e)
  | Panic => Panic
  end.

(** * time.go *)
Inductive ClockSource := ClockSourceKtime | ClockSourceJiffies | ClockSourceOther (s : string).

(** [getMtime] and [probes.Jiffies] read clocks of the kernel, unsigned 64-bit values.  The function it
    returns panics when it divides by a rate of 0. *)
Definition kernelTimeDiffSecondsFunc (getMtime Jiffies : result Z) (hertz : Z)
    (clockSource : ClockSource) : result (Z -> result Z) :=
  match clockSource with
  | ClockSourceKtime =>
      try now := getMtime in
      let now := now / 1000000000 in
      Ok (λ t, Ok (swrap 64 (t - swrap 64 now)))
  | ClockSourceJiffies =>
      try now := Jiffies in
      Ok (λ t,
        let diff := swrap 64 (t - swrap 64 now) in
        let diff := swrap 64 (Z.shiftl diff 8) in
        if hertz =? 0 then Panic else Ok (Z.quot diff hertz))
  | ClockSourceOther s => Err ("unknown clock source " +:+ quote s)
  end.

(** [getMtime]: the monotonic clock, seconds and nanoseconds, as unsigned nanoseconds. *)
Definition getMtime (ClockGettime : result (Z * Z)) : result Z :=
  match ClockGettime with
  | Ok (sec, nsec) => Ok (wrap 64 (swrap 64 (sec * 1000000000 + nsec)))
  | Err e => Err ("Unable get time: " +:+ e)
  | Panic => Panic
  end.

(** * conntrack.go, nf_conntrack.go *)
Definition protocol_names : list (Z * string) :=
  [(0, "ANY"); (1, "ICMP"); (6, "TCP"); (17, "UDP"); (58, "ICMPv6")].
Definition ProtoString (p : Z) : string :=
  match List.find (λ kv, kv.1 =? p) protocol_names with Some kv => kv.2 | None => pretty p end.

(** [Close] of the netfilter client; [dumper]: the outcome of closing the connection, if there is one. *)
Definition netfilter_Close (dumper : option (option string)) : option string :=
  match dumper with Some err => err | None => None end.

(** * kernel_hz.go *)
Definition hzValues : list Z := [1000; 300; 250; 100].

(** One step of the search: distance in 16 bits, replaced only by a smaller one. *)
Definition nearest_step (inp : Z) (acc : Z * Z) (v : Z) : Z * Z :=
  let '(mn, out) := acc in
  let d := if inp <? v then wrap 16 (v - inp) else wrap 16 (inp - v) in
  if d <? mn then (d, v) else (mn, out).

Definition nearest (inp : Z) (values : list Z) : result Z :=
  match values with
  | [] => Err "values cannot be empty"
  | _ => Ok (snd (fold_left (nearest_step inp) values (2 ^ 16 - 1, 0)))
  end.

(** * cilium_conntrack_linux.go *)

(** A key in host byte order and a value of a Cilium connection map. *)
Record CtKey4Global := MkCtKey {
  kDestAddr : list Z; kSourceAddr : list Z; kSourcePort : Z; kDestPort : Z; kNextHeader : Z
}.
Record CtEntry := MkCtEntry {
  vTxBytes : Z; vTxPackets : Z; vRxBytes : Z; vRxPackets : Z; vLifetime : Z
}.

(** Opening a map succeeds, fails because it does not exist, or fails otherwise; the dump calls back
    for some pairs and may then fail. *)
Inductive open_outcome := Opened | NotExist (e : string) | OpenFailed (e : string).
Record CtMap := MkCtMap {
  m_path : string; m_open : open_outcome; m_pairs : list (CtKey4Global * CtEntry); m_dump_err : option string
}.

Definition ip_of_bytes (bs : list Z) : result IP :=
  match bs with
  | a :: b :: c :: d :: _ => Ok (IPv4 a b c d)
  | _ => Panic (* index out of range *)
  end.

(** The callback. *)
Definition cilium_record (timeDiff : Z -> result Z) (now : Z) (filter : EntriesFilter)
    (entries : list Entry) (kv : CtKey4Global * CtEntry) : result (list Entry) :=
  let '(k, val) := kv in
  if kNextHeader k =? 0 then Ok entries
  else
    try src := ip_of_bytes (kDestAddr k) in (* Addresses are swapped due to cilium issue #21346. *)
    try dst := ip_of_bytes (kSourceAddr k) in
    try expireSeconds := timeDiff (vLifetime val) in
    let record := MkEntry (IPPortFrom _ src (kSourcePort k)) (IPPortFrom _ dst (kDestPort k))
                    (vTxBytes val) (vTxPackets val) (vRxBytes val) (vRxPackets val)
                    (now + swrap 64 (expireSeconds * Second)) (wrap 8 (kNextHeader k)) in
    Ok (if filter record then entries ++ [record] else entries).

Definition cilium_map (timeDiff : Z -> result Z) (now : Z) (filter : EntriesFilter)
    (entries : list Entry) (m : CtMap) : result (list Entry) :=
  match m_open m with
  | NotExist e => Err ("unable to open map " +:+ m_path m +:+ ": " +:+ e)
  | Opened | OpenFailed _ =>
      try entries := foldr_result (cilium_record timeDiff now filter) entries (m_pairs m) in
      match m_dump_err m with
      | Some e => Err ("error while collecting BPF map entries: " +:+ e)
      | None => Ok entries
      end
  end.

Definition listRecords (getMtime Jiffies : result Z) (hertz : Z) (maps : list CtMap) (now : Z)
    (clockSource : ClockSource) (filter : EntriesFilter) : result (list Entry) :=
  match kernelTimeDiffSecondsFunc getMtime Jiffies hertz clockSource with
  | Ok timeDiff => foldr_result (cilium_map timeDiff now filter) [] maps
  | Err e => Err ("getting kernel time diff func: " +:+ e)
  | Panic => Panic
  end.

(** * Netfilter sessions *)

(** The flow of a session: the source of its origin tuple, the source of the reply as destination,
    both counters; [None] when a member that takes is missing. *)
Definition flow (now : Z) (sess : Con) : option Entry :=
  match Origin sess, Reply sess, CounterOrigin sess, CounterReply sess with
  | Some (MkIPTuple (Some os) (Some _) (Some (MkProtoTuple (Some num) (Some sp) (Some _)))),
    Some (MkIPTuple (Some rs) _ (Some (MkProtoTuple _ (Some rsp) _))),
    Some (MkCounter (Some txb) (Some txp)), Some (MkCounter (Some rxb) (Some rxp)) =>
      Some (MkEntry (IPPortFrom _ (FromStdIP os) sp) (IPPortFrom _ (FromStdIP rs) rsp) txb txp
              rxb rxp (match Timeout sess with Some t => now + Second * t | None => zero_time end)
              num)
  | _, _, _, _ => None
  end.

(** The same flow seen from the other end. *)
Definition mirror (e : Entry) : Entry :=
  MkEntry (Dst e) (Src e) (RxBytes e) (RxPackets e) (TxBytes e) (TxPackets e) (Lifetime e) (Proto e).

(** What a session contributes before filtering. *)
Definition expand (now : Z) (sess : Con) : result (list Entry) :=
  if incomplete sess then Ok []
  else match flow now sess with
       | Some e => Ok [e; mirror e]
       | None => Panic
       end.

Fixpoint expand_all (now : Z) (ss : list Con) : result (list Entry) :=
  match ss with
  | [] => Ok []
  | s :: ss' =>
      try es := expand now s in
      try rest := expand_all now ss' in
      Ok (es ++ rest)
  end.

Lemma remap_eq (a b : IPPort) : (if bool_decide (a <> b) then b else a) = b.
Proof. by destruct (decide (a = b)) as [ -> |]; case_bool_decide. Qed.

Lemma session_entries_spec now sess :
  incomplete sess = false ->
  session_entries now sess =
    match flow now sess with Some e => Ok (e, mirror e) | None => Panic end.
Proof.
  destruct sess as [[ [ [os|] od [ [num [sp|] [dp|] ] |] ] |] [ [rs [rd|] [ [rn [rsp|] [rdp|] ] |] ] |]
    [ [ob opk] |] [ [rb rpk] |] tmo]; try (intros [=]; fail); intros _.
  unfold session_entries, flow. cbn.
  destruct od, num, rs, ob, opk, rb, rpk; try done. cbn. by rewrite remap_eq.
Qed.

Definition keep (f : EntriesFilter) (es : list Entry) : list Entry := List.filter f es.

Lemma netfilter_session_spec f now res sess :
  netfilter_session f now res sess =
    (try es := expand now sess in Ok (res ++ keep f es)).
Proof.
  unfold netfilter_session, expand. destruct (incomplete sess) eqn:Hi; [cbn; by rewrite app_nil_r|].
  rewrite session_entries_spec by done. destruct (flow now sess) as [e|]; [|done]. cbn.
  destruct (f e), (f (mirror e)); cbn; by rewrite ?app_nil_r, <- ?app_assoc.
Qed.

Lemma netfilter_sessions_spec f now res ss :
  foldr_result (netfilter_session f now) res ss =
    (try es := expand_all now ss in Ok (res ++ keep f es)).
Proof.
  revert res. induction ss as [|s ss IH]; intros res; cbn [foldr_result expand_all];
    [cbn; by rewrite app_nil_r|].
  rewrite netfilter_session_spec. destruct (expand now s) as [es| |]; [|done..]. cbn [rbind].
  rewrite IH. destruct (expand_all now ss); [|done..]. cbn [rbind].
  unfold keep. by rewrite List.filter_app, app_assoc.
Qed.

Lemma netfilter_ListEntries_spec dump now f :
  netfilter_ListEntries dump now f =
    match dump with
    | Ok ss => try es := expand_all now ss in Ok (keep f es)
    | Err e => Err ("dumping nfct sessions: " +:+ e)
    | Panic => Panic
    end.
Proof. destruct dump; [|done..]. apply netfilter_sessions_spec. Qed.

#[export] Instance netfilter_client dump now : Client (netfilter_ListEntries dump now).
Proof.
  split. intros f es e H He. rewrite netfilter_ListEntries_spec in H.
  destruct dump as [ss| |]; [|done..]. destruct (expand_all now ss); [|done..].
  injection H as <-. apply list_elem_of_In, List.filter_In in He. apply He.
Qed.

(** * Cilium records *)
Definition cilium_entry (timeDiff : Z -> Z) (now : Z) (kv : CtKey4Global * CtEntry)
    : option Entry :=
  let '(k, v) := kv in
  if kNextHeader k =? 0 then None
  else match kDestAddr k, kSourceAddr k with
       | a :: b :: c :: d :: _, a' :: b' :: c' :: d' :: _ =>
           Some (MkEntry (IPPortFrom _ (IPv4 a b c d) (kSourcePort k))
                   (IPPortFrom _ (IPv4 a' b' c' d') (kDestPort k)) (vTxBytes v) (vTxPackets v)
                   (vRxBytes v) (vRxPackets v)
                   (now + swrap 64 (timeDiff (vLifetime v) * Second)) (wrap 8 (kNextHeader k)))
       | _, _ => None
       end.

Definition key_ok (k : CtKey4Global) : Prop :=
  (4 <= length (kDestAddr k))%nat /\ (4 <= length (kSourceAddr k))%nat.

Definition map_ok (m : CtMap) : Prop :=
  (forall e, m_open m <> NotExist e) /\ m_dump_err m = None /\
  Forall (λ kv, key_ok (fst kv)) (m_pairs m).

(** A clock function that does not panic. *)
Definition computes (timeDiff : Z -> result Z) (td : Z -> Z) : Prop := forall t, timeDiff t = Ok (td t).

Section clock.
Context (timeDiff : Z -> result Z) (td : Z -> Z) (Htd : computes timeDiff td).

Lemma cilium_record_spec now f es kv :
  key_ok (fst kv) ->
  cilium_record timeDiff now f es kv = Ok (es ++ keep f (option_list (cilium_entry td now kv))).
Proof.
  destruct kv as [ [da sa sp dp nh] v]. intros [Hd Hs]. unfold cilium_record, cilium_entry. cbn in *.
  destruct (nh =? 0); cbn; [by rewrite app_nil_r|]. rewrite Htd.
  destruct da as [|a [|b [|c [|d da] ] ] ], sa as [|a' [|b' [|c' [|d' sa] ] ] ]; simpl in *; try lia.
  case_if; [done|]. by rewrite app_nil_r.
Qed.

Lemma cilium_pairs_spec now f es kvs :
  Forall (λ kv, key_ok (fst kv)) kvs ->
  foldr_result (cilium_record timeDiff now f) es kvs = Ok (es ++ keep f (omap (cilium_entry td now) kvs)).
Proof.
  intros Hk. revert es. induction Hk as [|kv kvs Hkv _ IH]; intros es; cbn [foldr_result];
    [by rewrite app_nil_r|].
  rewrite cilium_record_spec by done. cbn [rbind]. rewrite IH. cbn [omap list_omap].
  unfold keep. destruct (cilium_entry td now kv); cbn [option_list List.filter].
  - change (option_list (Some e)) with [e]. cbn [List.filter].
    case_if; by rewrite <- ?app_assoc, ?app_nil_r.
  - change (option_list (@None Entry)) with (@nil Entry). by rewrite app_nil_r.
Qed.

Lemma cilium_map_spec now f es m :
  map_ok m ->
  cilium_map timeDiff now f es m = Ok (es ++ keep f (omap (cilium_entry td now) (m_pairs m))).
Proof.
  intros (Ho & He & Hk). unfold cilium_map. rewrite cilium_pairs_spec, He by done.
  destruct (m_open m) as [|e|]; [done| |done]. by destruct (Ho e).
Qed.

Lemma cilium_maps_spec now f es ms :
  Forall map_ok ms ->
  foldr_result (cilium_map timeDiff now f) es ms =
    Ok (es ++ keep f (omap (cilium_entry td now) (concat (map m_pairs ms)))).
Proof.
  intros Hm. revert es. induction Hm as [|m ms Hok _ IH]; intros es;
    cbn [foldr_result map concat]; [by rewrite app_nil_r|].
  rewrite cilium_map_spec by done. cbn [rbind]. rewrite IH, omap_app. unfold keep.
  by rewrite List.filter_app, app_assoc.
Qed.

End clock.

(** Records of any outcome pass the filter. *)
Lemma cilium_passes td now f es m es' :
  Forall (λ e, f e = true) es -> cilium_map td now f es m = Ok es' -> Forall (λ e, f e = true) es'.
Proof.
  intros Hes. unfold cilium_map.
  assert (forall es1, foldr_result (cilium_record td now f) es (m_pairs m) = Ok es1 ->
    Forall (λ e, f e = true) es1) as Hrec.
  { intros es1. apply (foldr_result_inv (Forall (λ e, f e = true))); [|done].
    intros s1 [k v] s2 _ Hs1. unfold cilium_record. case_if; [by intros [= <-]|].
    intros H. inv_ok. subst s2. case_if; [|done]. by apply Forall_app_2; [|constructor]. }
  destruct (m_open m); intros H; inv_ok; try done; destruct (m_dump_err m); inv_ok; try done;
    subst; auto.
Qed.

#[export] Instance cilium_client mt jf hz ms now cs :
  Client (listRecords mt jf hz ms now cs).
Proof.
  split. intros f es e H He. unfold listRecords in H.
  destruct (kernelTimeDiffSecondsFunc mt jf hz cs) as [td| |]; [|done..].
  assert (Forall (λ e, f e = true) es) as Hall.
  { revert H. apply (foldr_result_inv (Forall (λ e, f e = true))); [|constructor].
    intros s1 m s2 _. apply cilium_passes. }
  rewrite Forall_forall in Hall. by apply Hall.
Qed.
End conntrack.

(** * Properties *)

Lemma elem_expand_all `{N : Netaddr} now ss :
  match expand_all now ss with
  | Ok es =>
      (forall s, s ∈ ss -> incomplete s = true \/ is_Some (flow now s)) /\
      forall e, e ∈ es <-> exists s fl, s ∈ ss /\ incomplete s = false /\ flow now s = Some fl /\
        (e = fl \/ e = mirror fl)
  | Err _ => False
  | Panic => exists s, s ∈ ss /\ incomplete s = false /\ flow now s = None
  end.
Proof.
  induction ss as [|s ss IH]; cbn [expand_all].
  { split; [by intros s ?%elem_of_nil|]. intros e. rewrite elem_of_nil.
    split; [done|]. by intros (s & fl & ?%elem_of_nil & _). }
  unfold expand at 1. destruct (incomplete s) eqn:Hi; cbn [rbind].
  - destruct (expand_all now ss) as [es| |]; cbn [rbind app]; [|done|set_solver].
    destruct IH as [IH1 IH2]. split; [set_solver|]. intros e. rewrite IH2.
    split; intros (s' & fl & Hs' & Hr); exists s', fl; split; [set_solver|done| |done].
    apply elem_of_cons in Hs' as [ -> |]; [|done]. destruct Hr as [Hr _]. congruence.
  - destruct (flow now s) as [fl|] eqn:Hf; cbn [rbind]; [|exists s; set_solver].
    destruct (expand_all now ss) as [es| |]; cbn [rbind app]; [|done|set_solver].
    destruct IH as [IH1 IH2]. split; [set_solver|]. intros e. rewrite !elem_of_cons, IH2.
    set_solver.
Qed.

(** C28: the netfilter client lists, for every session whose members are present, the flow and its
    mirror image when they pass the filter, and nothing else: the destination is the source
    of the reply.  It returns no error of its own, and it panics exactly when a session passes its
    nil checks and lacks a member the code dereferences. *)
Theorem netfilter_ListEntries_exact `{N : Netaddr} ss now f :
  match netfilter_ListEntries (Ok ss) now f with
  | Ok es =>
      (forall s, s ∈ ss -> incomplete s = true \/ is_Some (flow now s)) /\
      forall e, e ∈ es <-> f e = true /\
        exists s fl, s ∈ ss /\ incomplete s = false /\ flow now s = Some fl /\
          (e = fl \/ e = mirror fl)
  | Err _ => False
  | Panic => exists s, s ∈ ss /\ incomplete s = false /\ flow now s = None
  end.
Proof.
  rewrite netfilter_ListEntries_spec. pose proof (elem_expand_all now ss) as H.
  destruct (expand_all now ss) as [es| |]; cbn [rbind]; [|done..].
  destruct H as [H1 H2]. split; [done|]. intros e. rewrite <- H2. unfold keep.
  rewrite !list_elem_of_In, List.filter_In. tauto.
Qed.

(** The nil checks do not cover the origin's destination, the reply's source, the protocol
    number or the counter values: a session without one of them makes the listing panic instead
    of being skipped. *)
Theorem netfilter_guard_gap `{N : Netaddr} s now f o r p co cr :
  incomplete s = false ->
  Origin s = Some o -> Reply s = Some r -> tProto o = Some p ->
  CounterOrigin s = Some co -> CounterReply s = Some cr ->
  tDst o = None \/ tSrc r = None \/ Number p = None \/ Bytes co = None \/ Packets co = None \/
    Bytes cr = None \/ Packets cr = None ->
  netfilter_ListEntries (Ok [s]) now f = Panic.
Proof.
  intros Hi Ho Hr Hp Hco Hcr Hnil. rewrite netfilter_ListEntries_spec. cbn [expand_all].
  unfold expand. rewrite Hi. replace (flow now s) with (@None Entry); [done|].
  unfold flow. rewrite Ho, Hr, Hco, Hcr. destruct o as [os od op], r as [rs rd rp], co, cr, p.
  cbn in *. subst op.
  destruct Hnil as [ -> |[ -> |[ -> |[ -> |[ -> |[ -> | -> ]]]]]];
    repeat case_match; done.
Qed.

Lemma netfilter_guard_gap_witness :
  @netfilter_ListEntries ref_netaddr
    (Ok [MkCon (Some (MkIPTuple (Some [10; 0; 0; 1]) (Some [10; 0; 0; 2])
                        (Some (MkProtoTuple (Some 17) (Some 1000) (Some 53)))))
               (Some (MkIPTuple None (Some [10; 0; 0; 1])
                        (Some (MkProtoTuple (Some 17) (Some 53) (Some 1000)))))
               (Some (MkCounter (Some 1) (Some 1))) (Some (MkCounter (Some 1) (Some 1))) None])
    0 All = Panic.
Proof.
  eapply (@netfilter_guard_gap ref_netaddr); try reflexivity. right. left. reflexivity.
Defined.

(** C29: with readable clocks and maps, the Cilium client lists, in order, one entry per pair whose
    protocol is set and that passes the filter, with the swapped addresses of its key and an
    expiry computed from the clock; a map that does not exist is an error. *)
Theorem cilium_listRecords_exact `{N : Netaddr} mt jf hz cs timeDiff td ms now f :
  kernelTimeDiffSecondsFunc mt jf hz cs = Ok timeDiff -> computes timeDiff td ->
  (Forall map_ok ms ->
   listRecords mt jf hz ms now cs f =
     Ok (keep f (omap (cilium_entry td now) (concat (map m_pairs ms))))) /\
  (forall ms1 m ms2 e, ms = ms1 ++ m :: ms2 -> Forall map_ok ms1 -> m_open m = NotExist e ->
   listRecords mt jf hz ms now cs f = Err ("unable to open map " +:+ m_path m +:+ ": " +:+ e)).
Proof.
  intros Hk Htd. unfold listRecords. rewrite Hk. split.
  - intros Hms. by rewrite (cilium_maps_spec _ _ Htd).
  - intros ms1 m ms2 e -> H1 Hm. rewrite foldr_result_app, (cilium_maps_spec _ _ Htd) by done.
    cbn [rbind foldr_result]. unfold cilium_map at 1. by rewrite Hm.
Qed.

Lemma cilium_listRecords_exact_witness :
  @listRecords ref_netaddr (Ok (5 * Second)) (Err "no jiffies") 250
    [MkCtMap "/sys/fs/bpf/tc/globals/cilium_ct4_global" Opened [(MkCtKey [10; 0; 0; 1] [1; 1; 1; 1] 40000 53 17, MkCtEntry 70 1 200 1 65)] None]
    0 ClockSourceKtime All =
  Ok [@MkEntry ref_netaddr (@IPPortFrom ref_netaddr [10; 0; 0; 1] 40000)
        (@IPPortFrom ref_netaddr [1; 1; 1; 1] 53) 70 1 200 1 (60 * Second) 17].
Proof.
  destruct (@cilium_listRecords_exact ref_netaddr (Ok (5 * Second)) (Err "no jiffies") 250
    ClockSourceKtime _ _
    [MkCtMap "/sys/fs/bpf/tc/globals/cilium_ct4_global" Opened [(MkCtKey [10; 0; 0; 1] [1; 1; 1; 1] 40000 53 17, MkCtEntry 70 1 200 1 65)] None]
    0 All eq_refl (λ _, eq_refl)) as [H _].
  rewrite H; [vm_compute; reflexivity|]. repeat constructor; cbn; try lia. done.
Defined.

(** The seconds until an entry expires: the difference to the monotonic clock in seconds, or the
    difference in units of 256 jiffies divided by the clock rate, rounded towards zero, without
    overflow for differences below 2^55. *)
Theorem kernel_time_diff mt jf hz t :
  is_unsigned 63 mt -> is_unsigned 63 jf -> 0 < hz -> is_signed 63 t -> Z.abs (t - jf) < 2 ^ 55 ->
  (exists td, kernelTimeDiffSecondsFunc (Ok mt) (Ok jf) hz ClockSourceKtime = Ok td /\
     td t = Ok (t - mt / Second)) /\
  (exists td, kernelTimeDiffSecondsFunc (Ok mt) (Ok jf) hz ClockSourceJiffies = Ok td /\
     td t = Ok (Z.quot ((t - jf) * 256) hz)).
Proof.
  unfold is_unsigned, is_signed. intros Hm Hj Hh Ht Hd. change (63 - 1) with 62 in Ht.
  split; (eexists; split; [reflexivity|]); cbv beta zeta.
  - change 1000000000 with Second.
    assert (0 <= mt / Second < 2 ^ 62).
    { split; [apply Z.div_pos|apply Z.div_lt_upper_bound]; unfold Second; lia. }
    rewrite (swrap_id 64 (mt / Second)), swrap_id by (unfold is_signed; lia). done.
  - destruct (Z.eqb_spec hz 0); [lia|]. rewrite (swrap_id 64 jf) by (unfold is_signed; lia).
    rewrite (swrap_id 64 (t - jf)) by (unfold is_signed; lia).
    rewrite Z.shiftl_mul_pow2 by lia. change (2 ^ 8) with 256.
    by rewrite swrap_id by (unfold is_signed; lia).
Qed.

Lemma kernel_time_diff_witness :
  exists td, kernelTimeDiffSecondsFunc (Ok 1) (Ok 1000) 250 ClockSourceJiffies = Ok td /\
    td 900 = Ok (-102).
Proof. by apply (kernel_time_diff 1 1000 250 900); try (split; lia). Defined.

(** With Cilium's monotonic clock an entry expires in the difference of whole seconds, whatever the
    nanoseconds of the clock, and a clock that cannot be read is an error of every listing. *)
Theorem ktime_diff_exact (sec nsec hz t : Z) (jf : result Z)
    (Hsec : 0 <= sec < 2 ^ 33) (Hnsec : 0 <= nsec < 1000000000) (Ht : 0 <= t < 2 ^ 33) :
  (exists td, kernelTimeDiffSecondsFunc (getMtime (Ok (sec, nsec))) jf hz ClockSourceKtime = Ok td /\
     td t = Ok (t - sec)) /\
  forall e, kernelTimeDiffSecondsFunc (getMtime (Err e)) jf hz ClockSourceKtime = Err ("Unable get time: " +:+ e).
Proof.
  split; [|done]. eexists. split; [reflexivity|]. cbv beta. f_equal.
  rewrite (swrap_id 64 (sec * 1000000000 + nsec)), (wrap_id 64) by (unfold is_signed, is_unsigned; lia).
  replace ((sec * 1000000000 + nsec) / 1000000000) with sec by
    (apply (Z.div_unique _ _ _ nsec); lia).
  rewrite (swrap_id 64 sec), swrap_id by (unfold is_signed; lia). done.
Qed.

(** [out] is the first of the values at least distance. *)
Definition first_nearest (inp : Z) (values : list Z) (out : Z) : Prop :=
  exists l1 l2, values = l1 ++ out :: l2 /\
    Forall (λ v, Z.abs (inp - out) < Z.abs (inp - v)) l1 /\
    Forall (λ v, Z.abs (inp - out) <= Z.abs (inp - v)) l2.

Lemma distance16 inp v :
  is_unsigned 16 inp -> is_unsigned 16 v ->
  (if inp <? v then wrap 16 (v - inp) else wrap 16 (inp - v)) = Z.abs (inp - v).
Proof.
  unfold is_unsigned. intros Hi Hv.
  case_if; simplify_bool; rewrite wrap_id by (unfold is_unsigned; lia); lia.
Qed.

(** The search keeps the first value at least distance of those seen so far, once one is closer than
    the initial bound. *)
Lemma nearest_fold inp values seen mn out :
  is_unsigned 16 inp -> Forall (is_unsigned 16) values ->
  (mn = 65535 /\ out = 0 /\ Forall (λ v, 65535 <= Z.abs (inp - v)) seen) \/
    (mn = Z.abs (inp - out) /\ mn < 65535 /\ first_nearest inp seen out) ->
  let '(mn', out') := fold_left (nearest_step inp) values (mn, out) in
  (mn' = 65535 /\ out' = 0 /\ Forall (λ v, 65535 <= Z.abs (inp - v)) (seen ++ values)) \/
    (mn' = Z.abs (inp - out') /\ mn' < 65535 /\ first_nearest inp (seen ++ values) out').
Proof.
  intros Hi Hv. revert seen mn out. induction Hv as [|v values Hv _ IH]; intros seen mn out Hinv.
  { cbn. by rewrite app_nil_r. }
  cbn [fold_left]. unfold nearest_step at 2. rewrite distance16 by done.
  replace (seen ++ v :: values) with ((seen ++ [v]) ++ values) by (by rewrite <- app_assoc).
  case_if; simplify_bool; apply IH.
  - right. split; [done|].
    destruct Hinv as [( -> & _ & Hseen)|( -> & Hlt & l1 & l2 & -> & H1 & H2)]; (split; [lia|]).
    + exists seen, []. split_and!; [done| |constructor]. eapply Forall_impl; [exact Hseen|].
      intros u Hu. cbn in Hu. lia.
    + exists (l1 ++ out :: l2), []. split_and!; [done| |constructor].
      apply Forall_app_2; [|apply List.Forall_cons; [lia|]];
        (eapply Forall_impl; [eassumption|]); intros u Hu; cbn in Hu; lia.
  - destruct Hinv as [( -> & -> & Hseen)|( -> & Hlt & l1 & l2 & -> & H1 & H2)].
    + left. split_and!; [done..|]. apply Forall_app_2; [done|]. by constructor.
    + right. split_and!; [done..|]. exists l1, (l2 ++ [v]). split_and!; [|done|].
      * by rewrite <- app_assoc.
      * apply Forall_app_2; [done|]. by constructor.
Qed.

(** The clock rate estimate is rounded to the closest of the candidates, and to the earliest of
    them when several are equally close, as long as one is closer than 65535; otherwise the
    result is 0, which need not be a candidate.  No candidates is an error. *)
Theorem nearest_first_minimum inp values :
  is_unsigned 16 inp -> Forall (is_unsigned 16) values ->
  match nearest inp values with
  | Ok out =>
      if existsb (λ v, Z.abs (inp - v) <? 65535) values then first_nearest inp values out
      else out = 0
  | Err _ => values = []
  | Panic => False
  end.
Proof.
  intros Hi Hv. destruct values as [|v0 vs]; [done|]. cbn [nearest].
  pose proof (nearest_fold inp (v0 :: vs) [] 65535 0 Hi Hv ltac:(left; by repeat constructor)) as H.
  change (2 ^ 16 - 1) with 65535.
  destruct (fold_left (nearest_step inp) (v0 :: vs) (65535, 0)) as [mn out]. cbn [app snd] in *.
  destruct (existsb (λ v, Z.abs (inp - v) <? 65535) (v0 :: vs)) eqn:He.
  - apply existsb_exists in He as (v & Hin & Hlt). simplify_bool.
    destruct H as [(_ & _ & Hall)|(_ & _ & ?)]; [|done].
    rewrite Forall_forall in Hall. apply list_elem_of_In, Hall in Hin. lia.
  - destruct H as [(_ & ? & _)|( -> & Hlt & l1 & l2 & Heq & _)]; [done|].
    assert (existsb (λ v, Z.abs (inp - v) <? 65535) (v0 :: vs) = true) as Ht; [|congruence].
    apply existsb_exists. exists out. rewrite Heq. split; [|by apply Z.ltb_lt].
    apply in_app_iff. right. by left.
Qed.

Lemma nearest_first_minimum_witness :
  first_nearest 275 hzValues 300 /\ nearest 0 [65535] = Ok 0.
Proof.
  split; [|reflexivity].
  apply (nearest_first_minimum 275 hzValues); [split; lia|].
  repeat constructor; vm_compute; congruence.
Defined.
