(* ===== verification/KernelHz.v ===== *)
(** The kernel's clock rate: src/conntrack/kernel_hz.go and the initialisation of src/conntrack/time.go.

    The Cilium client needs CONFIG_HZ, which it estimates from two readings of /proc/schedstat taken
    some time apart.  The readings are arguments: the lines of the file and the wall-clock time.
    Floating-point numbers are those of the Standard Library's [SpecFloat], binary64 with rounding to
    nearest even, as Go computes.  Errors are given without the values their text quotes. *)
From S2P Require Import Prelude GoBase Conntrack.
From Stdlib Require Import Floats.SpecFloat.
From stdpp Require Import base numbers list strings.
Local Open Scope string_scope.
Local Open Scope list_scope.
Local Open Scope Z_scope.
Local Open Scope egress_scope.

(** * float64 *)

(** Division and addition. *)
Definition float_div : spec_float -> spec_float -> spec_float := SFdiv 53 1024.
Definition float_add : spec_float -> spec_float -> spec_float := SFadd 53 1024.

(** [math.Round]: to the nearest integer, half away from zero.  A finite number is [m * 2 ^ e]. *)
Definition math_Round (x : spec_float) : spec_float :=
  match x with
  | S754_finite s m e =>
      if 0 <=? e then x
      else
        let n := (Z.pos m + 2 ^ (- e - 1)) / 2 ^ (- e) in
        if n =? 0 then S754_zero s else binary_normalize 53 1024 (if s then - n else n) 0 s
  | _ => x
  end.

(** [uint16(x)]: truncation; the language leaves open what a number out of range or NaN gives, which
    is the argument [other]. *)
Definition to_uint16 (other : Z) (x : spec_float) : Z :=
  match x with
  | S754_zero _ => 0
  | S754_finite s m e =>
      let n := if 0 <=? e then Z.pos m * 2 ^ e else Z.pos m / 2 ^ (- e) in
      let n := if s then - n else n in
      if in_range 0 65536 n then n else other
  | _ => other
  end.

(** [d.Seconds()] *)
Definition Seconds (d : Z) : spec_float :=
  let sec := Z.quot d Second in
  let nsec := Z.rem d Second in
  float_add (float64 sec) (float_div (float64 nsec) (float64 Second)).

(** [t.Sub(u)], saturating at the range of a duration. *)
Definition time_Sub (t u : Z) : Z := Z.max (- 2 ^ 63) (Z.min (2 ^ 63 - 1) (t - u)).

(** * Scanning *)

(** The characters [fmt] skips as space; a line has no newline. *)
Definition is_space (c : Ascii.ascii) : bool :=
  let n := Ascii.nat_of_ascii c in (n =? 32)%nat || ((9 <=? n) && (n <=? 13))%nat.
Definition digit (c : Ascii.ascii) : option Z :=
  let n := Z.of_nat (Ascii.nat_of_ascii c) in
  if in_range 48 58 n then Some (n - 48) else None.

(** The text after a literal prefix. *)
Fixpoint after_prefix (p s : string) : option string :=
  match p, s with
  | EmptyString, _ => Some s
  | String a p', String b s' => if Ascii.eqb a b then after_prefix p' s' else None
  | _, _ => None
  end.
Fixpoint skip_spaces (s : string) : string :=
  match s with
  | String c s' => if is_space c then skip_spaces s' else s
  | EmptyString => s
  end.
Fixpoint digits (acc : option Z) (s : string) : option Z :=
  match s with
  | String c s' =>
      match digit c with
      | Some d => digits (Some (10 * default 0 acc + d)) s'
      | None => acc
      end
  | EmptyString => acc
  end.

(** [fmt.Sscanf(line, "timestamp %d", &j)] for a uint64: the literal, at least one space, and a number
    that fits; what follows is not looked at. *)
Definition scan_timestamp (line : string) : option Z :=
  match after_prefix "timestamp" line with
  | Some (String c rest) =>
      if is_space c then
        match digits None (skip_spaces rest) with
        | Some n => if n <? 2 ^ 64 then Some n else None
        | None => None
        end
      else None
  | _ => None
  end.

(** * kernel_hz.go *)
Record ktime := MkKtime { kt_k : Z; kt_t : Z }.

(** The lines the scanner delivers, read at time [t]. *)
Fixpoint readSchedstat (lines : list string) (t : Z) : result ktime :=
  match lines with
  | [] => Err "no kernel timestamp found"
  | line :: lines' =>
      match scan_timestamp line with
      | Some j => Ok (MkKtime j t)
      | None => readSchedstat lines' t
      end
  end.

Definition interpolate (other : Z) (old new : ktime) : result Z :=
  if After (kt_t old) (kt_t new) then Err "old wall time is more recent"
  else if kt_k new <? kt_k old then Err "old kernel timer is higher"
  else
    let kd := wrap 64 (kt_k new - kt_k old) in
    let td := time_Sub (kt_t new) (kt_t old) in
    let hz := float_div (float64 kd) (Seconds td) in
    let hz := math_Round hz in
    if SFltb (float64 65535) hz then Err "interpolated hz value would overflow uint16"
    else Ok (to_uint16 other hz).

(** [file]: opening /proc/schedstat and the two readings. *)
Definition getKernelHZ (other : Z) (file : result ((list string * Z) * (list string * Z))) : result Z :=
  try readings := file in
  let '((lines1, t1), (lines2, t2)) := readings in
  try j1 := readSchedstat lines1 t1 in
  try j2 := readSchedstat lines2 t2 in
  match interpolate other j1 j2 with
  | Ok hz => nearest hz hzValues
  | Err e => Err ("interpolating hz value: " +:+ e)
  | Panic => Panic
  end.

(** time.go: the initial value of [hertz]. *)
Definition init_hertz (other : Z) (file : result ((list string * Z) * (list string * Z))) : Z :=
  match getKernelHZ other file with Ok hz => hz | _ => 1 end.

(** * Properties *)

Lemma nearest_hzValues inp : is_unsigned 16 inp -> exists v, nearest inp hzValues = Ok v /\ v ∈ hzValues.
Proof.
  intros Hi. assert (Hv : Forall (is_unsigned 16) hzValues).
  { repeat constructor; vm_compute; congruence. }
  pose proof (nearest_fold inp hzValues [] 65535 0 Hi Hv ltac:(left; by repeat constructor)) as H.
  unfold nearest. change (2 ^ 16 - 1) with 65535.
  destruct (fold_left (nearest_step inp) hzValues (65535, 0)) as [mn out]. cbn [app snd] in *.
  exists out. split; [done|]. destruct H as [(_ & _ & H)|(_ & _ & l1 & l2 & E & _)].
  - inversion H as [|? ? H1 _]. subst. unfold is_unsigned in Hi. lia.
  - change ([1000; 300; 250; 100]) with hzValues. rewrite E. apply elem_of_app. right. left.
Qed.

Lemma to_uint16_range other x : is_unsigned 16 other -> is_unsigned 16 (to_uint16 other x).
Proof.
  intros Ho. destruct x as [s|s| |s m e]; cbn [to_uint16]; try done.
  set (n := if s then _ else _). destruct (in_range 0 65536 n) eqn:E; [|done].
  unfold in_range in E. unfold is_unsigned. lia.
Qed.

Lemma interpolate_range other j1 j2 hz :
  is_unsigned 16 other -> interpolate other j1 j2 = Ok hz -> is_unsigned 16 hz.
Proof.
  intros Ho. unfold interpolate. do 3 (case_match; [done|]). intros [= <-]. by apply to_uint16_range.
Qed.

Lemma init_hertz_values other file : is_unsigned 16 other ->
  init_hertz other file = 1 \/ init_hertz other file ∈ hzValues.
Proof.
  intros Ho. unfold init_hertz, getKernelHZ. destruct file as [[[l1 t1] [l2 t2]]| |]; [|by left..].
  cbn [rbind]. destruct (readSchedstat l1 t1) as [j1| |]; [|by left..].
  cbn [rbind]. destruct (readSchedstat l2 t2) as [j2| |]; [|by left..].
  cbn [rbind]. destruct (interpolate other j1 j2) as [hz| |] eqn:E; [|by left..].
  destruct (nearest_hzValues hz (interpolate_range _ _ _ _ Ho E)) as (v & -> & Hv). by right.
Qed.

(** The clock rate is one of the configurations of the kernel, or 1 when it could not be
    measured, whatever /proc/schedstat holds and however the machine converts a number that is none:
    it is never 0, so the division by it in the jiffies clock never panics and gives the quotient
    rounded toward zero. *)
Theorem hertz_never_zero (other : Z) (file : result ((list string * Z) * (list string * Z)))
    (mt : result Z) (now t : Z) (Hother : is_unsigned 16 other) :
  let hz := init_hertz other file in
  hz ∈ 1 :: hzValues /\
  exists f s, kernelTimeDiffSecondsFunc mt (Ok now) hz ClockSourceJiffies = Ok f /\ f t = Ok s /\
    let diff := swrap 64 (Z.shiftl (swrap 64 (t - swrap 64 now)) 8) in
    Z.abs (hz * s) <= Z.abs diff < Z.abs (hz * s) + hz.
Proof.
  cbv zeta. pose proof (init_hertz_values other file Hother) as H.
  set (hz := init_hertz other file) in *. assert (Hpos : 0 < hz).
  { destruct H as [-> | H]; [lia|]. unfold hzValues in H. rewrite !elem_of_cons, elem_of_nil in H. lia. }
  split. { destruct H as [-> | H]; [left|right; exact H]. }
  eexists _, _. split; [reflexivity|]. cbv beta zeta. destruct (Z.eqb_spec hz 0); [lia|]. split; [reflexivity|].
  set (d := swrap 64 (Z.shiftl _ 8)). pose proof (Z.quot_rem' d hz) as E.
  pose proof (Z.rem_bound_abs d hz ltac:(lia)) as B.
  destruct (Z.le_gt_cases 0 d).
  - pose proof (Z.quot_pos d hz ltac:(lia) ltac:(lia)) as Hq.
    pose proof (Z.mul_nonneg_nonneg hz (Z.quot d hz) ltac:(lia) Hq).
    pose proof (Z.rem_bound_pos d hz ltac:(lia) ltac:(lia)). lia.
  - assert (Hq : 0 <= - Z.quot d hz).
    { rewrite <- Z.quot_opp_l by lia. apply Z.quot_pos; lia. }
    pose proof (Z.mul_nonneg_nonneg hz (- Z.quot d hz) ltac:(lia) Hq).
    pose proof (Z.rem_nonpos d hz ltac:(lia) ltac:(lia)). lia.
Qed.

Definition schedstat (ticks : Z) : list string :=
  ["version 15"; "timestamp " +:+ pretty.pretty ticks; "cpu0 0 0 0"].

Lemma hertz_never_zero_witness :
  let file := Ok ((schedstat 4295043421, 0), (schedstat 4295043446, 100 * 1000000)) in
  init_hertz 0 file = 250 /\ init_hertz 0 file ∈ 1 :: hzValues.
Proof.
  split; [vm_compute; reflexivity|].
  apply (hertz_never_zero 0 _ (Err "") 0 0). vm_compute. by split.
Defined.

(** ** The estimate on a kernel that ticks *)

Definition millisecond : Z := 1000000.

(** *** Rounding *)

Lemma digits2_upper p : Z.pos p < 2 ^ Z.pos (digits2_pos p).
Proof.
  induction p as [p IH|p IH|]; simpl digits2_pos; [| |done];
    rewrite Pos2Z.inj_succ, Z.pow_succ_r by lia; lia.
Qed.
Lemma digits2_unique p d : 1 <= d -> 2 ^ (d - 1) <= Z.pos p < 2 ^ d -> Z.pos (digits2_pos p) = d.
Proof.
  intros Hd Hp. pose proof (digits2_bound p) as H1. pose proof (digits2_upper p) as H2.
  destruct (Z.lt_trichotomy (Z.pos (digits2_pos p)) d) as [H|[H|H]]; [|done|].
  - pose proof (Z.pow_le_mono_r 2 (Z.pos (digits2_pos p)) (d - 1) ltac:(lia) ltac:(lia)). lia.
  - pose proof (Z.pow_le_mono_r 2 d (Z.pos (digits2_pos p) - 1) ltac:(lia) ltac:(lia)). lia.
Qed.

(** A mantissa of 53 bits. *)
Definition normal (m : Z) : Prop := 2 ^ 52 <= m < 2 ^ 53.

(** A positive integer below 2^53 is converted exactly, with such a mantissa. *)
Lemma float64_normal n : 0 < n < 2 ^ 53 ->
  exists m e, float64 n = S754_finite false m e /\ normal (Z.pos m) /\ -52 <= e <= 0 /\ Z.pos m = n * 2 ^ (- e).
Proof.
  intros Hn. destruct n as [|p|p]; try lia. pose proof (digits2_bound p) as Hb. pose proof (digits2_upper p) as Hu.
  assert (Hd : Z.pos (digits2_pos p) <= 53).
  { destruct (Z.le_gt_cases (Z.pos (digits2_pos p)) 53) as [|Hgt]; [done|].
    pose proof (Z.pow_le_mono_r 2 53 (Z.pos (digits2_pos p) - 1) ltac:(lia) ltac:(lia)). lia. }
  unfold float64, binary_normalize, binary_round, fexp, emin, shl_align.
  replace (Z.max (Z.pos (digits2_pos p) + 0 - 53) (3 - 1024 - 53)) with (Z.pos (digits2_pos p) - 53) by lia.
  assert (forall m e, Z.pos m = Z.pos p * 2 ^ (- e) -> e = Z.pos (digits2_pos p) - 53 ->
    binary_round_aux 53 1024 false (Z.pos m) e loc_Exact = S754_finite false m e /\ normal (Z.pos m)) as Hm.
  { intros m e Hm He.
    assert (normal (Z.pos m)) as Hnm.
    { unfold normal. rewrite Hm.
      assert (2 ^ 52 = 2 ^ (Z.pos (digits2_pos p) - 1) * 2 ^ (- e)) as -> by (rewrite <- Z.pow_add_r by lia; f_equal; lia).
      assert (2 ^ 53 = 2 ^ (Z.pos (digits2_pos p)) * 2 ^ (- e)) as -> by (rewrite <- Z.pow_add_r by lia; f_equal; lia).
      pose proof (Z.pow_pos_nonneg 2 (- e) ltac:(lia) ltac:(lia)). nia. }
    split; [|done]. apply binary_round_aux_exact; [|lia]. by apply digits2_unique. }
  destruct (Z.pos (digits2_pos p) - 53 - 0) as [|k|k] eqn:Ek; [|lia|].
  - destruct (Hm p 0) as [-> Hnm]; [lia|lia|]. exists p, 0. split_and!; [done|done|lia..].
  - destruct (iter_xO k p) as [Hv _]. destruct (Hm (Pos.iter xO p k) (Z.pos (digits2_pos p) - 53)) as [-> Hnm];
      [rewrite Hv; do 2 f_equal; lia|done|].
    eexists _, _. split_and!; [done|done|lia|lia|]. rewrite Hv. do 2 f_equal. lia.
Qed.

Lemma round_nearest_even_cases m l : round_nearest_even m l = m \/ round_nearest_even m l = m + 1.
Proof. destruct l as [|[]]; simpl; try tauto. destruct (Z.even m); tauto. Qed.

Lemma shr_record_m m l : shr_m (shr_record_of_loc m l) = m.
Proof. by destruct l as [|[]]. Qed.
Lemma shr_1_m p l : 2 <= Z.pos p -> shr_m (shr_1 (shr_record_of_loc (Z.pos p) l)) = Z.pos p / 2.
Proof.
  intros Hp. destruct p as [p|p|]; [| |lia]; destruct l as [|[]]; simpl.
  1-4: apply (Z.div_unique _ _ _ 1); lia.
  1-4: apply (Z.div_unique _ _ _ 0); lia.
Qed.

(** Where the first or second shift of the rounding leaves a mantissa of 53 or 54 bits. *)
Lemma shr_fexp_53 p e l : normal (Z.pos p) -> -1074 <= e ->
  shr_fexp 53 1024 (Z.pos p) e l = (shr_record_of_loc (Z.pos p) l, e).
Proof.
  intros Hp He. unfold shr_fexp, fexp, emin. cbn [Zdigits2]. rewrite (digits2_unique p 53) by done.
  by replace (Z.max (53 + e - 53) (3 - 1024 - 53) - e) with 0 by lia.
Qed.
Lemma shr_fexp_54 p e l : 2 ^ 53 <= Z.pos p < 2 ^ 54 -> -1074 <= e ->
  shr_fexp 53 1024 (Z.pos p) e l = (shr_1 (shr_record_of_loc (Z.pos p) l), e + 1).
Proof.
  intros Hp He. unfold shr_fexp, fexp, emin. cbn [Zdigits2]. rewrite (digits2_unique p 54) by done.
  by replace (Z.max (54 + e - 53) (3 - 1024 - 53) - e) with 1 by lia.
Qed.

(** The end of the rounding. *)
Definition finish (r e : Z) : spec_float :=
  let '(mrs, e') := shr_fexp 53 1024 r e loc_Exact in
  match shr_m mrs with
  | Z0 => S754_zero false
  | Zpos m => if e' <=? 1024 - 53 then S754_finite false m e' else S754_infinity false
  | _ => S754_nan
  end.

Lemma finish_normal r e : 2 ^ 52 <= r <= 2 ^ 53 -> -1074 <= e <= 900 ->
  exists m j, finish r e = S754_finite false m (e + j) /\ normal (Z.pos m) /\ 0 <= j <= 1 /\ Z.pos m * 2 ^ j = r.
Proof.
  intros Hr He. unfold finish. destruct r as [|p|p]; try lia.
  destruct (Z.eq_dec (Z.pos p) (2 ^ 53)) as [E|E].
  - injection E as ->. rewrite shr_fexp_54 by lia.
    change (shr_m (shr_1 _)) with (Z.pos 4503599627370496). cbv iota beta.
    rewrite (proj2 (Z.leb_le _ _)) by lia. exists 4503599627370496%positive, 1. unfold normal. split_and!; lia || done.
  - rewrite shr_fexp_53 by (unfold normal; lia). cbn [shr_m shr_record_of_loc].
    rewrite (proj2 (Z.leb_le _ _)) by lia. exists p, 0. unfold normal. rewrite Z.add_0_r. split_and!; lia || done.
Qed.

(** A quotient of 53 or 54 bits is rounded to one of its neighbours. *)
Lemma binary_round_aux_near q e l : 2 ^ 52 <= q < 2 ^ 54 -> -1000 <= e <= 800 ->
  exists m j, binary_round_aux 53 1024 false q e l = S754_finite false m (e + j) /\ normal (Z.pos m) /\
    0 <= j <= 2 /\ q - 1 <= Z.pos m * 2 ^ j <= q + 2.
Proof.
  intros Hq He. destruct q as [|p|p]; try lia.
  assert (forall mrs e', shr_fexp 53 1024 (Z.pos p) e l = (mrs, e') ->
    binary_round_aux 53 1024 false (Z.pos p) e l =
    finish (round_nearest_even (shr_m mrs) (loc_of_shr_record mrs)) e') as Hf.
  { intros mrs e' H. unfold binary_round_aux, finish. by rewrite H. }
  destruct (Z.le_gt_cases (2 ^ 53) (Z.pos p)) as [Hp|Hp].
  - rewrite (Hf _ _ (shr_fexp_54 p e l ltac:(lia) ltac:(lia))). rewrite shr_1_m by lia.
    pose proof (Z.div_mod (Z.pos p) 2 ltac:(lia)). pose proof (Z.mod_pos_bound (Z.pos p) 2 ltac:(lia)).
    set (r := round_nearest_even _ _). assert (r = Z.pos p / 2 \/ r = Z.pos p / 2 + 1) as Hr by apply round_nearest_even_cases.
    destruct (finish_normal r (e + 1) ltac:(lia) ltac:(lia)) as (m & j & -> & Hm & Hj & E).
    exists m, (j + 1). rewrite Z.pow_add_r, Z.mul_assoc, E by lia. split; [f_equal; lia|]. split; [done|]. lia.
  - rewrite (Hf _ _ (shr_fexp_53 p e l ltac:(unfold normal; lia) ltac:(lia))). rewrite shr_record_m.
    set (r := round_nearest_even _ _). assert (r = Z.pos p \/ r = Z.pos p + 1) as Hr by apply round_nearest_even_cases.
    destruct (finish_normal r e ltac:(lia) ltac:(lia)) as (m & j & -> & Hm & Hj & E).
    exists m, j. rewrite E. split; [done|]. split; [done|]. lia.
Qed.

(** Division of normal numbers: the quotient, to within two units in the last place. *)
Lemma float_div_near m1 e1 m2 e2 : normal (Z.pos m1) -> normal (Z.pos m2) -> -200 <= e1 <= 200 -> -200 <= e2 <= 200 ->
  exists m j, float_div (S754_finite false m1 e1) (S754_finite false m2 e2) = S754_finite false m (e1 - e2 - 53 + j) /\
    normal (Z.pos m) /\ 0 <= j <= 2 /\
    Z.abs (Z.pos m * 2 ^ j * Z.pos m2 - Z.pos m1 * 2 ^ 53) <= 2 * Z.pos m2.
Proof.
  intros H1 H2 He1 He2. unfold float_div, SFdiv, SFdiv_core_binary, fexp, emin. cbn [Zdigits2 xorb].
  rewrite (digits2_unique m1 53), (digits2_unique m2 53) by done.
  replace (Z.min (Z.max (53 + e1 - (53 + e2) - 53) (3 - 1024 - 53)) (e1 - e2)) with (e1 - e2 - 53) by lia.
  replace (e1 - e2 - (e1 - e2 - 53)) with 53 by lia. rewrite Z.shiftl_mul_pow2 by lia.
  pose proof (Z_div_mod (Z.pos m1 * 2 ^ 53) (Z.pos m2) ltac:(lia)) as Hdiv.
  destruct (Z.div_eucl (Z.pos m1 * 2 ^ 53) (Z.pos m2)) as [q r]. destruct Hdiv as [Hq Hr]. unfold normal in *.
  destruct (binary_round_aux_near q (e1 - e2 - 53) (new_location (Z.pos m2) r)) as (m & j & -> & Hm & Hj & Hb); [nia|lia|].
  exists m, j. split_and!; [done|apply Hm|apply Hm|lia|lia|]. nia.
Qed.

(** [Seconds] of less than a second, to within two units in the last place. *)
Lemma Seconds_near td : 100000000 <= td < Second ->
  exists m e, Seconds td = S754_finite false m e /\ normal (Z.pos m) /\ -82 <= e <= -51 /\
    Z.abs (Z.pos m * Second - td * 2 ^ (- e)) <= 2 * Second.
Proof.
  intros Htd. unfold Seconds. rewrite Z.quot_small, Z.rem_small by (unfold Second in *; lia).
  destruct (float64_normal td) as (m1 & e1 & -> & Hm1 & He1 & E1); [unfold Second in *; lia|].
  assert (e1 <= -23) as He1'.
  { destruct (Z.le_gt_cases e1 (-23)) as [|Hgt]; [done|]. exfalso. unfold normal, Second in *.
    pose proof (Z.pow_le_mono_r 2 (- e1) 22 ltac:(lia) ltac:(lia)). nia. }
  change (float64 Second) with (S754_finite false 8388608000000000 (-23)).
  destruct (float_div_near m1 e1 8388608000000000 (-23)) as (m & j & -> & Hm & Hj & Hn); [done|by vm_compute|lia|lia|].
  exists m, (e1 - -23 - 53 + j). split; [done|]. split; [done|]. split; [lia|].
  assert (2 ^ (- (e1 - -23 - 53 + j)) * 2 ^ j = 2 ^ (- e1) * 2 ^ 30) as Hp
    by (rewrite <- !Z.pow_add_r by lia; f_equal; lia).
  rewrite E1 in Hn. pose proof (Z.pow_pos_nonneg 2 j ltac:(lia) ltac:(lia)). 
  set (P := 2 ^ (- (e1 - -23 - 53 + j))) in *. set (J := 2 ^ j) in *. set (Q := 2 ^ (- e1)) in *.
  assert (Z.abs ((Z.pos m * Second - td * P) * J) <= 2 * Second) as Hn'.
  { replace ((Z.pos m * Second - td * P) * J) with (Z.pos m * J * Second - td * (P * J)) by lia. rewrite Hp. unfold Second. lia. }
  rewrite Z.abs_mul in Hn'. nia.
Qed.

(** *** The estimate *)

(** A kernel with [hz] ticks a second has, in [td] nanoseconds, counted [kd] ticks or one more or less. *)
Definition within_a_tick (hz td kd : Z) : Prop := Z.abs (kd * Second - hz * td) <= Second.

(** An approximate quotient [m / A] of [kd] ticks by an approximate number [ms / B] of seconds. *)
Lemma quotient_upper (m ms J A B kd td hz : Z) :
  1 <= J -> 2 ^ 11 <= A -> 0 < B -> 2 ^ 52 <= ms -> 0 < hz <= 1000 ->
  m * J * ms <= kd * (A * B * J) + 2 * ms -> td * B <= (ms + 2) * Second -> kd * Second <= (hz + 10) * td ->
  m <= (hz + 11) * A.
Proof.
  intros HJ HA HB Hms Hhz H1 H2 H3. assert (0 <= A * J) as HAJ by nia.
  pose proof (Z.mul_le_mono_nonneg_r _ _ (A * J * B) ltac:(nia) H3) as H4.
  pose proof (Z.mul_le_mono_nonneg_r _ _ ((hz + 10) * (A * J)) ltac:(nia) H2) as H5.
  assert (m * J * ms <= (hz + 10) * (ms + 2) * A * J + 2 * ms) as H6 by (unfold Second in *; lia).
  assert (2 * ms <= 2 * ms * J) as H7 by nia.
  assert (m * ms <= (hz + 10) * (ms + 2) * A + 2 * ms) as H8.
  { apply (Z.mul_le_mono_pos_r _ _ J); [lia|]. lia. }
  destruct (Z.le_gt_cases m ((hz + 11) * A)) as [|Hgt]; [done|]. exfalso.
  pose proof (Z.mul_le_mono_nonneg_r _ _ ms ltac:(lia) (Z.lt_le_incl _ _ Hgt)) as H9.
  pose proof (Z.mul_le_mono_nonneg_r _ _ A ltac:(lia) (proj2 Hhz)) as H10.
  pose proof (Z.mul_le_mono_nonneg_r _ _ ms ltac:(lia) HA) as H11.
  pose proof (Z.mul_le_mono_nonneg_r _ _ A ltac:(lia) Hms) as H12. lia.
Qed.

Lemma quotient_lower (m ms J A B kd td hz : Z) :
  1 <= J -> 2 ^ 11 <= A -> 0 < B -> 2 ^ 52 <= ms -> 100 <= hz <= 1000 ->
  kd * (A * B * J) - 2 * ms <= m * J * ms -> (ms - 2) * Second <= td * B -> (hz - 10) * td <= kd * Second ->
  (hz - 11) * A <= m.
Proof.
  intros HJ HA HB Hms Hhz H1 H2 H3. assert (0 <= A * J) as HAJ by nia.
  pose proof (Z.mul_le_mono_nonneg_r _ _ (A * J * B) ltac:(nia) H3) as H4.
  pose proof (Z.mul_le_mono_nonneg_r _ _ ((hz - 10) * (A * J)) ltac:(nia) H2) as H5.
  assert ((hz - 10) * (ms - 2) * A * J - 2 * ms <= m * J * ms) as H6 by (unfold Second in *; lia).
  assert (2 * ms <= 2 * ms * J) as H7 by nia.
  assert ((hz - 10) * (ms - 2) * A - 2 * ms <= m * ms) as H8.
  { apply (Z.mul_le_mono_pos_r _ _ J); [lia|]. lia. }
  destruct (Z.le_gt_cases ((hz - 11) * A) m) as [|Hgt]; [done|]. exfalso.
  pose proof (Z.mul_le_mono_nonneg_r _ _ ms ltac:(lia) (Z.lt_le_incl _ _ Hgt)) as H9.
  pose proof (Z.mul_le_mono_nonneg_r _ _ A ltac:(lia) (proj2 Hhz)) as H10.
  pose proof (Z.mul_le_mono_nonneg_r _ _ ms ltac:(lia) HA) as H11.
  pose proof (Z.mul_le_mono_nonneg_r _ _ A ltac:(lia) Hms) as H12. lia.
Qed.

(** The quotient of the ticks by the seconds, less than 11 from [hz]. *)
Lemma rate_near hz td kd : 100 <= hz <= 1000 -> 100000000 <= td < Second -> within_a_tick hz td kd ->
  exists m e, float_div (float64 kd) (Seconds td) = S754_finite false m e /\ e < 0 /\
    (hz - 11) * 2 ^ (- e) <= Z.pos m <= (hz + 11) * 2 ^ (- e).
Proof.
  intros Hhz Htd Hkd. unfold within_a_tick in Hkd.
  assert (0 < kd < 2 ^ 10) as Hk by (unfold Second in *; nia).
  destruct (Seconds_near td Htd) as (ms & es & -> & Hms & Hes & Hs).
  destruct (float64_normal kd ltac:(lia)) as (mk & ek & -> & Hmk & Hek & Ek).
  assert (ek <= -42) as Hek'.
  { destruct (Z.le_gt_cases ek (-42)) as [|Hgt]; [done|]. exfalso. unfold normal in *.
    pose proof (Z.pow_le_mono_r 2 (- ek) 41 ltac:(lia) ltac:(lia)). nia. }
  destruct (float_div_near mk ek ms es) as (m & j & -> & Hm & Hj & Hn); [done|done|lia|lia|].
  exists m, (ek - es - 53 + j). split; [done|]. split; [lia|].
  set (z := - (ek - es - 53 + j)). assert (11 <= z) as Hz by lia.
  pose proof (Z.pow_le_mono_r 2 11 z ltac:(lia) Hz) as HA.
  pose proof (Z.pow_le_mono_r 2 0 j ltac:(lia) ltac:(lia)) as HJ.
  pose proof (Z.pow_pos_nonneg 2 (- es) ltac:(lia) ltac:(lia)) as HB.
  assert (Z.pos mk * 2 ^ 53 = kd * (2 ^ z * 2 ^ (- es) * 2 ^ j)) as E.
  { rewrite Ek, <- Z.mul_assoc. f_equal. rewrite <- !Z.pow_add_r by lia. f_equal. lia. }
  rewrite E in Hn. unfold normal in *. split.
  - eapply (quotient_lower (Z.pos m) (Z.pos ms) (2 ^ j) (2 ^ z) (2 ^ (- es)) kd td hz); unfold Second in *; lia.
  - eapply (quotient_upper (Z.pos m) (Z.pos ms) (2 ^ j) (2 ^ z) (2 ^ (- es)) kd td hz); unfold Second in *; lia.
Qed.

(** Every integer near a configuration is converted, kept and taken to it. *)
Definition settles (hz n : Z) : bool :=
  negb (SFltb (float64 65535) (float64 n)) && (to_uint16 0 (float64 n) =? n) && (0 <? n) &&
  match nearest n hzValues with Ok out => out =? hz | _ => false end.
Lemma settles_near hz n : hz ∈ hzValues -> Z.abs (n - hz) <= 12 -> settles hz n = true.
Proof.
  intros Hhz Hn. assert (forallb (λ hz, forallb (λ i, settles hz (hz - 12 + Z.of_nat i)) (seq 0 25)) hzValues = true)
    as H by (vm_compute; reflexivity).
  rewrite forallb_forall in H. specialize (H hz (proj1 (list_elem_of_In _ _) Hhz)). rewrite forallb_forall in H.
  specialize (H (Z.to_nat (n - hz + 12)) ltac:(apply in_seq; lia)).
  by replace (hz - 12 + Z.of_nat (Z.to_nat (n - hz + 12))) with n in H by lia.
Qed.

Lemma hzValues_range hz : hz ∈ hzValues -> 100 <= hz <= 1000.
Proof. unfold hzValues. rewrite !elem_of_cons, elem_of_nil. lia. Qed.

Lemma interpolate_near hz td kd : hz ∈ hzValues -> 100000000 <= td < Second -> within_a_tick hz td kd ->
  exists v, interpolate 0 (MkKtime 0 0) (MkKtime kd td) = Ok v /\ 0 < v /\ nearest v hzValues = Ok hz.
Proof.
  intros Hhz Htd Hkd. pose proof (hzValues_range hz Hhz) as Hr.
  destruct (rate_near hz td kd Hr Htd Hkd) as (m & e & Hq & He & Hm). unfold within_a_tick in Hkd.
  assert (0 <= kd < 2 ^ 10) as Hk by (unfold Second in *; nia).
  unfold interpolate, After, time_Sub. cbn [kt_k kt_t].
  rewrite !(proj2 (Z.ltb_ge _ _)) by lia. rewrite !Z.sub_0_r, wrap_id by (unfold is_unsigned; lia).
  rewrite Z.max_r, Z.min_r by (unfold Second in *; lia). rewrite Hq. cbn [math_Round].
  rewrite (proj2 (Z.leb_gt 0 e)) by lia.
  set (n := (Z.pos m + 2 ^ (- e - 1)) / 2 ^ (- e)).
  assert (2 ^ (- e) = 2 * 2 ^ (- e - 1)) as Hp by (rewrite <- Z.pow_succ_r by lia; f_equal; lia).
  pose proof (Z.pow_pos_nonneg 2 (- e - 1) ltac:(lia) ltac:(lia)).
  assert (hz - 12 <= n) by (apply Z.div_le_lower_bound; lia).
  assert (n <= hz + 12) by (apply Z.div_le_upper_bound; lia).
  pose proof (settles_near hz n Hhz ltac:(lia)) as Hs. unfold settles in Hs.
  rewrite (proj2 (Z.eqb_neq n 0)) by lia. fold (float64 n).
  apply andb_prop in Hs as [[[Hlt Hto]%andb_prop Hpos]%andb_prop Hnear].
  apply negb_true_iff in Hlt. rewrite Hlt. apply Z.eqb_eq in Hto. rewrite Hto. apply Z.ltb_lt in Hpos.
  exists n. split; [done|]. split; [done|]. destruct (nearest n hzValues) as [out| |]; [|done..].
  by apply Z.eqb_eq in Hnear as ->.
Qed.

(** What the machine makes of a number out of range plays no part in a positive result. *)
Lemma to_uint16_other other x : 0 < to_uint16 0 x -> to_uint16 other x = to_uint16 0 x.
Proof.
  destruct x as [s|s| |s m e]; cbn [to_uint16]; try lia.
  destruct (in_range 0 65536 (if s then _ else _)); [done|lia].
Qed.

(** Only differences matter. *)
Lemma interpolate_shift other k0 t0 kd td v :
  0 <= kd -> 0 <= td -> 0 < v ->
  interpolate 0 (MkKtime 0 0) (MkKtime kd td) = Ok v ->
  interpolate other (MkKtime k0 t0) (MkKtime (k0 + kd) (t0 + td)) = Ok v.
Proof.
  intros Hk Ht Hv. unfold interpolate, After, time_Sub. cbn [kt_k kt_t].
  rewrite !(proj2 (Z.ltb_ge _ _)) by lia.
  replace (k0 + kd - k0) with (kd - 0) by lia. replace (t0 + td - t0) with (td - 0) by lia.
  case_match; [done|]. intros [= <-]. f_equal. by apply to_uint16_other.
Qed.

(** C32: On a kernel that ticks [hz] times a second, for every configuration of the kernel, two
    readings any number of nanoseconds apart from 100 milliseconds to below a second, whose counts are
    off by at most one tick, give exactly that configuration, whatever the counter and the clock started
    from: the rounding of the two floating-point divisions does not matter. *)
Theorem getKernelHZ_estimates (other hz td k0 kd t0 : Z) (lines1 lines2 : list string)
    (Hhz : hz ∈ hzValues) (Htd : 100 * millisecond <= td < Second)
    (Hkd : Z.abs (kd * Second - hz * td) <= Second)
    (H1 : readSchedstat lines1 t0 = Ok (MkKtime k0 t0))
    (H2 : readSchedstat lines2 (t0 + td) = Ok (MkKtime (k0 + kd) (t0 + td))) :
  getKernelHZ other (Ok ((lines1, t0), (lines2, t0 + td))) = Ok hz.
Proof.
  destruct (interpolate_near hz td kd Hhz Htd Hkd) as (v & E & Hv & Hnear).
  pose proof (hzValues_range hz Hhz) as Hr. unfold millisecond, Second in *.
  unfold getKernelHZ. cbn [rbind]. rewrite H1. cbn [rbind]. rewrite H2. cbn [rbind].
  rewrite (interpolate_shift other k0 t0 kd td v); [exact Hnear|nia|lia|done|done].
Qed.

Lemma getKernelHZ_estimates_witness :
  getKernelHZ 0 (Ok ((schedstat 4295043421, 777), (schedstat 4295043452, 777 + 103456789))) = Ok 300.
Proof.
  apply (getKernelHZ_estimates 0 300 103456789 4295043421 31 777); try (vm_compute; reflexivity).
  - right. left.
  - unfold millisecond, Second. lia.
  - unfold Second. lia.
Defined.
