(* ===== verification/Dns.v ===== *)
(** DNS names of addresses: src/dns/resolutions.go and src/exporter/ip2dns.go.

    The collector's [IP2DNS] turns the DNS answers the tracer delivers into a table from address to
    name; the exporter's [dnsStorage] keeps the tables of all collectors.  Both store their tables
    in a cache with expiry, a library: the class [ExpiringCache] has its operations and the laws of
    its documentation. *)
From S2P Require Import Prelude GoBase.
From stdpp Require Import base numbers list strings gmap.
Local Open Scope string_scope.
Local Open Scope list_scope.
Local Open Scope Z_scope.
Local Open Scope egress_scope.

(** * Addresses as int32 *)
Section toip.
Context `{N : Netaddr}.

Definition ToIPint32 (ip : IP) : result Z :=
  try b := deref (As4 ip) in Ok (swrap 32 (be_combine b)).

(** exporter.go *)
Definition ipFromInt32 (v : Z) : IP :=
  match be_split 4 (wrap 32 v) with
  | [a; b; c; d] => IPv4 a b c d
  | _ => zeroIP
  end.
End toip.

(** * The expiring cache *)

(** [get now c k], [set now c k v ttl]: an entry is found until its time to live has passed. *)
Class ExpiringCache (K V : Type) := {
  cache : Type;
  new_cache : cache;
  cache_get : Z -> cache -> K -> option V;
  cache_set : Z -> cache -> K -> V -> Z -> cache;
  cache_keys : cache -> list K
}.
Arguments cache K V {_}.

Class ExpiringCacheSpec {K V} `(E : ExpiringCache K V) : Prop := {
  get_new : forall now k, cache_get now new_cache k = None;
  get_set_same : forall t c k v ttl now, t <= now < t + ttl ->
    cache_get now (cache_set t c k v ttl) k = Some v;
  get_set_expired : forall t c k v ttl now, t + ttl <= now ->
    cache_get now (cache_set t c k v ttl) k = None;
  get_set_other : forall t c k k' v ttl now, k <> k' ->
    cache_get now (cache_set t c k v ttl) k' = cache_get now c k';
  keys_complete : forall now c k v, cache_get now c k = Some v -> k ∈ cache_keys c
}.

(** * resolutions.go *)
Inductive DNSType := DNSTypeA | DNSTypeCNAME | DNSTypeOther (n : Z).

Record Answer := MkAnswer {
  a_Name : string; a_Type : DNSType; a_IP : list Z; a_CNAME : string
}.

Definition collectorDNSTTL : Z := 2 * Minute.

Section ip2dns.
Context `{N : Netaddr} `{CI : ExpiringCache Z string} `{CS : ExpiringCache string string}.

Record IP2DNS := MkIP2DNS { ipToName : cache Z string; cnameToName : cache string string }.

Definition NewIP2DNS : IP2DNS := MkIP2DNS new_cache new_cache.

(** One answer of an event, handled at time [now]. *)
Definition handle_answer (now : Z) (d : IP2DNS) (answer : Answer) : result IP2DNS :=
  let name := a_Name answer in
  match a_Type answer with
  | DNSTypeA =>
      let name := match cache_get now (cnameToName d) name with
                  | Some cname => cname
                  | None => name
                  end in
      let ip := FromStdIP (a_IP answer) in
      try i := ToIPint32 ip in
      Ok (MkIP2DNS (cache_set now (ipToName d) i name collectorDNSTTL) (cnameToName d))
  | DNSTypeCNAME =>
      let cname := a_CNAME answer in
      Ok (MkIP2DNS (ipToName d) (cache_set now (cnameToName d) cname name collectorDNSTTL))
  | DNSTypeOther _ => Ok d
  end.

(** The answers of one event. *)
Definition handle_event (now : Z) (d : IP2DNS) (answers : list Answer) : result IP2DNS :=
  foldr_result (handle_answer now) d answers.

(** [Records]: a key whose entry has expired gives the empty name. *)
Definition Records (now : Z) (d : IP2DNS) : list (Z * string) :=
  map (λ ip, (ip, default "" (cache_get now (ipToName d) ip))) (cache_keys (ipToName d)).
End ip2dns.

(** * ip2dns.go *)
Definition exporterDNSTTL : Z := 60 * Minute.

Section dnsStorage.
Context `{CI : ExpiringCache Z string}.

Definition Fill (now : Z) (d : cache Z string) (items : list (Z * string)) : cache Z string :=
  fold_left (λ c it, cache_set now c (fst it) (snd it) exporterDNSTTL) items d.

Definition Lookup (now : Z) (d : cache Z string) (ip : Z) : string :=
  if ip =? 0 then "" else default "" (cache_get now d ip).
End dnsStorage.

(** * Properties *)

Lemma be_split_4 v : exists a b c d, be_split 4 v = [a; b; c; d] /\ bytes_ok [a; b; c; d].
Proof.
  pose proof (length_be_split 4 v) as Hl.
  assert (bytes_ok (be_split 4 v)) as Hok by (unfold be_split; auto with egress).
  destruct (be_split 4 v) as [|a [|b [|c [|d [|? ?] ] ] ] ]; try done. by exists a, b, c, d.
Qed.

Lemma ToIPint32_ipFromInt32 `{NetaddrSpec} v : is_signed 32 v -> ToIPint32 (ipFromInt32 v) = Ok v.
Proof.
  intros Hv. unfold ToIPint32, ipFromInt32.
  destruct (be_split_4 (wrap 32 v)) as (a & b & c & d & He & Hok). rewrite He.
  rewrite As4_IPv4 by done. cbn [deref rbind]. f_equal. rewrite <- He, be_combine_split.
  change (8 * Z.of_nat 4) with 32. rewrite wrap_wrap, swrap_wrap. by apply swrap_id.
Qed.

Lemma be_split_combine bs n : bytes_ok bs -> length bs = n -> be_split n (be_combine bs) = bs.
Proof.
  intros Hok <-. unfold be_split, be_combine. rewrite <- (length_reverse bs).
  rewrite le_split_combine by auto with egress. apply reverse_involutive.
Qed.

(** An address and its int32 form determine each other: every int32 is the form of the address
    made from it, and every address with four bytes comes back with the same bytes. *)
Theorem ip_int32_roundtrip (N : Netaddr) v ip bs :
  NetaddrSpec N -> is_signed 32 v -> As4 ip = Some bs ->
  ToIPint32 (ipFromInt32 v) = Ok v /\
  exists w, ToIPint32 ip = Ok w /\ is_signed 32 w /\ As4 (ipFromInt32 w) = Some bs.
Proof.
  intros HN Hv Hbs. split; [by apply ToIPint32_ipFromInt32|].
  destruct (As4_bytes _ _ Hbs) as [Hok Hlen]. unfold ToIPint32. rewrite Hbs. cbn [deref rbind].
  exists (swrap 32 (be_combine bs)). split_and!; [done|by apply swrap_signed|].
  pose proof (be_combine_bound bs Hok) as Hb. rewrite Hlen in Hb.
  unfold ipFromInt32. rewrite wrap_swrap, wrap_id by done.
  rewrite be_split_combine by done. destruct bs as [|a [|b [|c [|d [|? ?] ] ] ] ]; try done.
  by apply As4_IPv4.
Qed.

Lemma ip_int32_roundtrip_witness :
  @ToIPint32 ref_netaddr (@ipFromInt32 ref_netaddr (-1062731775)) = Ok (-1062731775).
Proof.
  apply (ip_int32_roundtrip ref_netaddr (-1062731775) [192; 168; 0; 1] [192; 168; 0; 1]).
  - apply ref_netaddr_spec.
  - split; lia.
  - reflexivity.
Defined.

(** A cache over a finite map of values and expiry times. *)
#[local] Instance ref_cache K V `{Countable K} : ExpiringCache K V := {
  cache := gmap K (V * Z);
  new_cache := ∅;
  cache_get now c k :=
    match c !! k with Some (v, e) => if now <? e then Some v else None | None => None end;
  cache_set t c k v ttl := <[k := (v, t + ttl)]> c;
  cache_keys c := (map_to_list c).*1
}.

Lemma ref_cache_spec K V `{Countable K} : ExpiringCacheSpec (ref_cache K V).
Proof.
  split; cbn.
  - intros. by rewrite lookup_empty.
  - intros. rewrite lookup_insert_eq. by rewrite (proj2 (Z.ltb_lt _ _)) by lia.
  - intros. rewrite lookup_insert_eq. by rewrite (proj2 (Z.ltb_ge _ _)) by lia.
  - intros. by rewrite lookup_insert_ne.
  - intros now c k v Hk. destruct (c !! k) as [p|] eqn:Hc; [|done].
    apply list_elem_of_fmap. exists (k, p). split; [done|]. by apply elem_of_map_to_list.
Qed.

Section end_to_end.
Context (N : Netaddr) `{HN : !NetaddrSpec N}.
Context (CI : ExpiringCache Z string) `{HI : !ExpiringCacheSpec CI}.
Context (CS : ExpiringCache string string) `{HS : !ExpiringCacheSpec CS}.

Lemma handle_A now (d : IP2DNS) name bs i cn :
  As4 (FromStdIP bs) = Some i ->
  handle_answer now d (MkAnswer name DNSTypeA bs cn) =
    Ok (MkIP2DNS (cache_set now (ipToName d) (swrap 32 (be_combine i))
                    (default name (cache_get now (cnameToName d) name)) collectorDNSTTL)
          (cnameToName d)).
Proof.
  intros Hi. unfold handle_answer, ToIPint32. cbn. rewrite Hi. cbn.
  by destruct (cache_get now (cnameToName d) name).
Qed.

Lemma Fill_keeps t now c (f : Z -> string) ks ip :
  t <= now < t + exporterDNSTTL -> cache_get now c ip = Some (f ip) ->
  cache_get now (Fill t c (map (λ k, (k, f k)) ks)) ip = Some (f ip).
Proof.
  intros Ht. revert c. induction ks as [|k ks IH]; intros c Hc; [done|]. cbn. apply IH.
  destruct (decide (k = ip)) as [ -> |]; [by apply get_set_same|by rewrite get_set_other].
Qed.

(** Filling a storage from a table gives every address of the table its name there. *)
Lemma Fill_lookup t now c (f : Z -> string) ks ip :
  ip ∈ ks -> t <= now < t + exporterDNSTTL ->
  cache_get now (Fill t c (map (λ k, (k, f k)) ks)) ip = Some (f ip).
Proof.
  intros Hin Ht. revert c. induction ks as [|k ks IH]; intros c; [by apply elem_of_nil in Hin|].
  apply elem_of_cons in Hin as [ -> |Hin]; cbn; [|by apply IH].
  apply Fill_keeps; [done|]. by apply get_set_same.
Qed.
(** An alias and its address give the address the name that was asked for. *)
Lemma handle_alias now (d : IP2DNS) n c bs i : As4 (FromStdIP bs) = Some i ->
  exists d', handle_event now d [MkAnswer n DNSTypeCNAME [] c; MkAnswer c DNSTypeA bs ""] = Ok d' /\
    forall t, now <= t < now + collectorDNSTTL -> cache_get t (ipToName d') (swrap 32 (be_combine i)) = Some n.
Proof.
  intros Hi. eexists. split.
  - unfold handle_event. cbn [foldr_result].
    change (handle_answer now d (MkAnswer n DNSTypeCNAME [] c)) with
      (Ok (MkIP2DNS (ipToName d) (cache_set now (cnameToName d) c n collectorDNSTTL))).
    cbn [rbind]. rewrite (handle_A now _ c bs i "" Hi). reflexivity.
  - intros t Ht. cbn [ipToName cnameToName]. rewrite get_set_same by done.
    by rewrite get_set_same by (unfold collectorDNSTTL, Minute, Second; lia).
Qed.

(** What the collector knows of an address, a storage filled from its records knows. *)
Lemma Fill_Records t1 t2 t3 (d : IP2DNS) (st : cache Z string) ip n :
  cache_get t1 (ipToName d) ip = Some n -> ip <> 0 -> t2 <= t3 < t2 + exporterDNSTTL ->
  Lookup t3 (Fill t2 st (Records t1 d)) ip = n.
Proof.
  intros Hg H0 Ht. unfold Lookup. rewrite (proj2 (Z.eqb_neq _ _) H0). unfold Records.
  rewrite Fill_lookup; [by rewrite Hg| |done]. by eapply keys_complete.
Qed.

(** ** Chains of aliases *)

(** The answers of a resolution through aliases: each name is an alias of the next, the last has the
    address. *)
Fixpoint alias_chain (names : list string) (bs : list Z) : list Answer :=
  match names with
  | [] => []
  | n :: rest =>
      match rest with
      | [] => [MkAnswer n DNSTypeA bs ""]
      | c :: _ => MkAnswer n DNSTypeCNAME [] c :: alias_chain rest bs
      end
  end.

Lemma alias_chain_snoc pre m c bs : exists cnames,
  alias_chain (pre ++ [m; c]) bs = cnames ++ [MkAnswer m DNSTypeCNAME [] c; MkAnswer c DNSTypeA bs ""] /\
  Forall (λ a, a_Type a = DNSTypeCNAME) cnames.
Proof.
  induction pre as [|n pre IH]; [by exists []|]. destruct IH as (cnames & E & Hc). simpl app.
  destruct (pre ++ [m; c]) as [|n' rest] eqn:Er; [by destruct pre|].
  exists (MkAnswer n DNSTypeCNAME [] n' :: cnames).
  change (alias_chain (n :: n' :: rest) bs) with (MkAnswer n DNSTypeCNAME [] n' :: alias_chain (n' :: rest) bs).
  rewrite E. split; [done|]. by constructor.
Qed.

Lemma handle_cnames now (d : IP2DNS) cnames : Forall (λ a, a_Type a = DNSTypeCNAME) cnames ->
  exists d', handle_event now d cnames = Ok d'.
Proof.
  intros H. revert d. induction H as [|a cnames Ha _ IH]; intros d; [by exists d|].
  unfold handle_event. cbn [foldr_result]. unfold handle_answer at 1. rewrite Ha. apply IH.
Qed.

(** Only one alias is followed: after any chain of aliases the address has the name before the last,
    which is the name asked for if the chain has one alias and some name in between otherwise. *)
Theorem alias_chain_names_last now t (d : IP2DNS) pre m c bs i :
  As4 (FromStdIP bs) = Some i -> now <= t < now + collectorDNSTTL ->
  exists d', handle_event now d (alias_chain (pre ++ [m; c]) bs) = Ok d' /\
    cache_get t (ipToName d') (swrap 32 (be_combine i)) = Some m.
Proof.
  intros Hi Ht. destruct (alias_chain_snoc pre m c bs) as (cnames & -> & Hc).
  destruct (handle_cnames now d cnames Hc) as [d1 Hd1].
  destruct (handle_alias now d1 m c bs i Hi) as (d2 & Hd2 & Hname). exists d2. split; [|by apply Hname].
  unfold handle_event in *. rewrite foldr_result_app, Hd1. exact Hd2.
Qed.

(** ** Expired names *)

(** A collector whose entry has expired but is still listed sends an empty name, which replaces the
    name the exporter had. *)
Theorem expired_name_erased t1 t2 t3 (d : IP2DNS) (st : cache Z string) ip :
  ip ∈ cache_keys (ipToName d) -> cache_get t1 (ipToName d) ip = None ->
  t2 <= t3 < t2 + exporterDNSTTL -> Lookup t3 (Fill t2 st (Records t1 d)) ip = "".
Proof.
  intros Hk Hg Ht. unfold Lookup, Records. destruct (ip =? 0); [done|].
  rewrite Fill_lookup by done. by rewrite Hg.
Qed.
End end_to_end.

(** An address record whose data is not an address (neither four nor sixteen bytes) makes the
    event loop panic: the conversion result is not checked before [As4] is called. *)
Theorem malformed_answer_panics N CI CS now (d d' : @IP2DNS CI CS) pre name bs cn post :
  NetaddrSpec N -> handle_event now d pre = Ok d' ->
  length bs <> 4%nat -> length bs <> 16%nat ->
  handle_event now d (pre ++ MkAnswer name DNSTypeA bs cn :: post) = Panic.
Proof.
  intros HN Hpre H4 H16. unfold handle_event in *. rewrite foldr_result_app, Hpre. cbn.
  unfold ToIPint32. by rewrite FromStdIP_bad, As4_zero.
Qed.

Lemma malformed_answer_panics_witness :
  @handle_event ref_netaddr (ref_cache Z string) (ref_cache string string) 0
    (@NewIP2DNS (ref_cache Z string) (ref_cache string string))
    [MkAnswer "a.b" DNSTypeA [1; 2; 3] ""] = Panic.
Proof.
  apply (malformed_answer_panics ref_netaddr (ref_cache Z string) (ref_cache string string) 0 _
    (@NewIP2DNS (ref_cache Z string) (ref_cache string string)) [] "a.b" [1; 2; 3] "" []).
  - apply ref_netaddr_spec.
  - reflexivity.
  - done.
  - done.
Defined.

(** A two-step chain is named after the alias in between, and the expired name goes with the next batch. *)
Example alias_chain_example :
  let d := @NewIP2DNS (ref_cache Z string) (ref_cache string string) in
  match @handle_event ref_netaddr (ref_cache Z string) (ref_cache string string) 0 d
          (alias_chain ["www.shop.com"; "shop.cdn.net"; "edge.cdn.net"] [93; 184; 216; 34]) with
  | Ok d' =>
      @Records (ref_cache Z string) (ref_cache string string) Second d' =
        [(swrap 32 (be_combine [93; 184; 216; 34]), "shop.cdn.net")] /\
      @Records (ref_cache Z string) (ref_cache string string) (3 * Minute) d' =
        [(swrap 32 (be_combine [93; 184; 216; 34]), "")]
  | _ => False
  end.
Proof. vm_compute. split; reflexivity. Qed.
