(* ===== verification/Kube.v ===== *)
(** Kubernetes caches: src/kube/watcher.go and src/kube/podbyipcache.go.

    [RunningPodsCache] keeps the running pods of a node for the collector; [PodByIPCache],
    [NodeByNameCache] and [NodeByIPCache] answer the exporter's questions.  Events arrive from
    informers; the indexed stores of client-go are the class [Indexer], with the laws of its
    documentation.  A Go map is iterated in an arbitrary order, so the cleanup of deleted pods takes
    the order as an argument. *)
From S2P Require Import Prelude GoBase.
From stdpp Require Import base numbers list strings pretty gmap sorting.
Local Open Scope string_scope.
Local Open Scope list_scope.
Local Open Scope Z_scope.
Local Open Scope egress_scope.

Inductive PodPhase := PodPending | PodRunning | PodSucceeded | PodFailed | PodUnknown.
#[global] Instance PodPhase_eq_dec : EqDecision PodPhase.
Proof. solve_decision. Defined.

(** The members of a pod and a node the caches read; times in nanoseconds. *)
Record Pod := MkPod {
  UID : string;
  Name : string;
  Namespace : string;
  NodeName : string;
  HostNetwork : bool;
  PodIP : string;
  Phase : PodPhase;
  CreationTimestamp : Z;
  DeletionTimestamp : option Z
}.
#[global] Instance Pod_eq_dec : EqDecision Pod.
Proof. solve_decision. Defined.

Inductive AddressType := NodeInternalIP | NodeOtherAddress.
Record Node := MkNode {
  nName : string; nAddresses : list (AddressType * string); nZone : string
}.

(** What informers deliver: objects of any type. *)
Inductive object := OPod (p : Pod) | ONode (n : Node) | OOther.

Definition ErrNotFound : string := "object not found".
Definition ErrToManyObjects : string := "too many objects".

(** * RunningPodsCache *)
Definition RunningPodsCache := gmap string Pod.

Definition Running_onDelete (c : RunningPodsCache) (obj : object) : RunningPodsCache :=
  match obj with OPod pod => delete (UID pod) c | _ => c end.

Definition Running_onAddOrUpdate (c : RunningPodsCache) (obj : object) : RunningPodsCache :=
  match obj with
  | OPod pod =>
      if String.eqb (PodIP pod) "" || negb (bool_decide (Phase pod = PodRunning)) then c
      else <[UID pod := pod]> c
  | _ => c
  end.

Definition Running_Get (c : RunningPodsCache) : result (list Pod) := Ok (map_to_list c).*2.

(** * Indexed stores *)

(** client-go's [cache.Indexer] for one index: objects by key, found by the values of the index
    function. *)
Class Indexer (A K : Type) (key : A -> K) (index : A -> list string) := {
  store : Type;
  ix_add : store -> A -> store;
  ix_delete : store -> A -> store;
  ix_list : store -> list A;
  by_index : store -> string -> list A
}.
Arguments store {A K key index} _.

Class IndexerSpec {A K key index} (X : Indexer A K key index) : Prop := {
  list_add : forall s a b, b ∈ ix_list (ix_add s a) <-> b = a \/ (b ∈ ix_list s /\ key b <> key a);
  list_delete : forall s a b, b ∈ ix_list (ix_delete s a) <-> b ∈ ix_list s /\ key b <> key a;
  elem_by_index : forall s v b, b ∈ by_index s v <-> b ∈ ix_list s /\ v ∈ index b;
  by_index_NoDup : forall s v, NoDup (by_index s v);
  list_key_inj : forall s a b, a ∈ ix_list s -> b ∈ ix_list s -> key a = key b -> a = b
}.

(** * NodeByNameCache and NodeByIPCache *)
Definition node_name_index (n : Node) : list string := [nName n].

(** The first internal address. *)
Fixpoint internal_ip (addrs : list (AddressType * string)) : list string :=
  match addrs with
  | [] => []
  | (NodeInternalIP, a) :: _ => [a]
  | _ :: addrs' => internal_ip addrs'
  end.
Definition node_ip_index (n : Node) : list string := internal_ip (nAddresses n).

(** [Get] of both node caches, on what the index returns. *)
Definition node_Get (nodes : list Node) (what arg : string) : result Node :=
  match nodes with
  | [] => Err ErrNotFound
  | [node] => Ok node
  | _ => Err ("expected single node for " +:+ what +:+ " " +:+ arg +:+ ", got " +:+
              pretty (N.of_nat (length nodes)))
  end.

Definition NodeByNameCache_Get `{X : Indexer Node string nName node_name_index} (s : store X)
    (nodeName : string) : result Node := node_Get (by_index s nodeName) "name" nodeName.
Definition NodeByIPCache_Get `{X : Indexer Node string nName node_ip_index} (s : store X)
    (nodeIP : string) : result Node := node_Get (by_index s nodeIP) "ip" nodeIP.

(** * PodByIPCache *)
Definition pod_key (p : Pod) : string * string := (Namespace p, Name p).
Definition pod_ip_index (p : Pod) : list string := [PodIP p].
Definition podTimeout : Z := 2 * Minute.

Section podbyip.
Context `{X : Indexer Pod (string * string) pod_key pod_ip_index}.

Record PodByIPCache := MkPodByIPCache { indexer : store X; deletedPods : gmap string Pod }.

(** The loop that looks for the pod created first. *)
Fixpoint earliest (acc : option Pod) (items : list Pod) : option Pod :=
  match items with
  | [] => acc
  | pod :: items' =>
      let acc := match acc with
                 | None => Some pod
                 | Some e => if CreationTimestamp pod <? CreationTimestamp e then Some pod else acc
                 end in
      earliest acc items'
  end.

Definition PodByIPCache_Get (c : PodByIPCache) (k : string) : PodByIPCache * result Pod :=
  let items := by_index (indexer c) k in
  match items with
  | [] => (c, Err ErrNotFound)
  | _ =>
      match earliest None items with
      | Some pod =>
          let c := if negb (bool_decide (Phase pod = PodPending)) &&
                      negb (bool_decide (Phase pod = PodRunning))
                   then MkPodByIPCache (ix_delete (indexer c) pod) (<[UID pod := pod]> (deletedPods c))
                   else c in
          (c, Ok pod)
      | None => (c, Err ErrNotFound)
      end
  end.

Definition PodByIP_onDelete (c : PodByIPCache) (obj : object) : PodByIPCache :=
  match obj with
  | OPod pod => MkPodByIPCache (indexer c) (<[UID pod := pod]> (deletedPods c))
  | _ => c
  end.

Definition PodByIP_onAddOrUpdate (c : PodByIPCache) (obj : object) : PodByIPCache :=
  match obj with
  | OPod pod => MkPodByIPCache (ix_add (indexer c) pod) (deletedPods c)
  | _ => c
  end.

(** Not yet due for removal. *)
Definition fresh (now : Z) (pod : Pod) : bool :=
  match DeletionTimestamp pod with
  | Some t => now - t <=? podTimeout
  | None => false
  end.

(** One tick of the cleanup loop; [order] is the order in which the map is iterated. *)
Fixpoint cleanup_tick (now : Z) (c : PodByIPCache) (order : list (string * Pod)) : PodByIPCache :=
  match order with
  | [] => c
  | (uid, pod) :: order' =>
      if fresh now pod then c (* break *)
      else cleanup_tick now
             (MkPodByIPCache (ix_delete (indexer c) pod) (delete uid (deletedPods c))) order'
  end.
End podbyip.

(** * An indexer in memory *)

(** A map from keys to objects, as [cache.threadSafeMap]; the reference instance of the class. *)
Section memory.
Context {A K : Type} `{EqDecision K, Countable K} `{EqDecision A} (key : A -> K)
  (index : A -> list string).

Definition mem_list (m : gmap K A) : list A :=
  (base.filter (fun kv : K * A => key kv.2 = kv.1) (map_to_list m)).*2.

#[global] Instance mem_indexer : Indexer A K key index := {
  store := gmap K A;
  ix_add m a := <[key a := a]> m;
  ix_delete m a := delete (key a) m;
  ix_list := mem_list;
  by_index m v := base.filter (fun a => v ∈ index a) (mem_list m)
}.

Lemma elem_of_mem_list m a : a ∈ mem_list m <-> m !! key a = Some a.
Proof.
  unfold mem_list. rewrite list_elem_of_fmap. split.
  - intros ([k b] & -> & Hb). apply list_elem_of_filter in Hb as [Hk Hb]. simpl in *. subst k.
    by apply elem_of_map_to_list in Hb.
  - intros Hm. exists (key a, a). split; first done. apply list_elem_of_filter. split; first done.
    by apply elem_of_map_to_list.
Qed.

Lemma mem_list_NoDup m : NoDup (mem_list m).
Proof.
  unfold mem_list. apply NoDup_fmap_2_strong.
  - intros [k a] [l b] Ha Hb E. apply list_elem_of_filter in Ha as [Ha _].
    apply list_elem_of_filter in Hb as [Hb _]. simpl in *. congruence.
  - apply NoDup_filter, NoDup_map_to_list.
Qed.

#[global] Instance mem_indexer_spec : IndexerSpec mem_indexer.
Proof.
  split; simpl; intros.
  - rewrite !elem_of_mem_list, lookup_insert_Some. naive_solver.
  - rewrite !elem_of_mem_list, lookup_delete_Some. naive_solver.
  - rewrite list_elem_of_filter. tauto.
  - apply NoDup_filter, mem_list_NoDup.
  - rewrite !elem_of_mem_list in *. naive_solver congruence.
Qed.
End memory.

(** * Properties of the running pods *)

(** What the informer of the node's pods delivers. *)
Inductive event := EAddOrUpdate (obj : object) | EDelete (obj : object).

Definition Running_step (c : RunningPodsCache) (e : event) : RunningPodsCache :=
  match e with
  | EAddOrUpdate obj => Running_onAddOrUpdate c obj
  | EDelete obj => Running_onDelete c obj
  end.

Definition admits (p : Pod) : bool :=
  negb (String.eqb (PodIP p) "") && bool_decide (Phase p = PodRunning).

(** The events that change the entry of [u]. *)
Definition touches (u : string) (e : event) : bool :=
  match e with
  | EAddOrUpdate (OPod p) => String.eqb (UID p) u && admits p
  | EDelete (OPod p) => String.eqb (UID p) u
  | _ => false
  end.

Lemma Running_step_untouched c e u : touches u e = false -> Running_step c e !! u = c !! u.
Proof.
  destruct e as [[p| |]|[p| |]]; simpl; try done; unfold admits.
  - destruct (String.eqb_spec (UID p) u); simpl.
    + destruct (String.eqb (PodIP p) ""), (bool_decide _); simpl; done.
    + intros _. destruct (_ || _); [done|]. by apply lookup_insert_ne.
  - intros Hne. apply String.eqb_neq in Hne. by apply lookup_delete_ne.
Qed.

Lemma Running_step_touched c e u : touches u e = true ->
  Running_step c e !! u = match e with EAddOrUpdate (OPod p) => Some p | _ => None end.
Proof.
  destruct e as [[p| |]|[p| |]]; simpl; try done; unfold admits.
  - intros [E Ha]%andb_prop. apply String.eqb_eq in E as ->. apply andb_prop in Ha as [H1 H2].
    apply negb_true_iff in H1. rewrite H1, H2. simpl. apply lookup_insert_eq.
  - intros ->%String.eqb_eq. apply lookup_delete_eq.
Qed.

(** C27: After any sequence of events the cache holds a pod exactly when the last event that touches
    its UID is an add or update in which the pod runs and has an address, and it holds the pod as of
    that event.  An update in which the pod no longer runs touches nothing: a pod that has finished
    stays until it is deleted. *)
Theorem running_pods_exact (evs : list event) (u : string) (p : Pod) :
  foldl Running_step ∅ evs !! u = Some p <->
  exists before after, evs = before ++ EAddOrUpdate (OPod p) :: after /\
    UID p = u /\ admits p = true /\ forallb (fun e => negb (touches u e)) after = true.
Proof.
  induction evs as [|e evs IH] using rev_ind.
  - split; [done|]. intros ([] & after & E & _); discriminate E.
  - rewrite foldl_app. simpl. destruct (touches u e) eqn:Ht.
    + rewrite (Running_step_touched _ _ _ Ht). split.
      * destruct e as [[q| |]|]; try done. intros [= ->]. exists evs, [].
        simpl in Ht. apply andb_prop in Ht as [E%String.eqb_eq Ha]. done.
      * intros (before & after & E & Hu & Ha & Hf).
        destruct after as [|x after _] using rev_ind.
        -- apply app_inj_tail in E as [_ ->]. done.
        -- rewrite app_comm_cons, app_assoc in E. apply app_inj_tail in E as [_ ->].
           rewrite forallb_app in Hf. simpl in Hf. rewrite Ht in Hf. simpl in Hf.
           rewrite andb_false_r in Hf. done.
    + rewrite (Running_step_untouched _ _ _ Ht), IH. split.
      * intros (before & after & -> & Hu & Ha & Hf). exists before, (after ++ [e]).
        rewrite <- app_assoc, forallb_app, Hf. simpl. rewrite Ht. done.
      * intros (before & after & E & Hu & Ha & Hf).
        destruct after as [|x after _] using rev_ind.
        -- apply app_inj_tail in E as [_ ->]. simpl in Ht. rewrite Ha, andb_true_r in Ht.
           apply String.eqb_neq in Ht. done.
        -- rewrite app_comm_cons, app_assoc in E. apply app_inj_tail in E as [-> ->].
           rewrite forallb_app in Hf. apply andb_prop in Hf as [Hf _]. by exists before, after.
Qed.

(** [Get] lists the values of the map. *)
Lemma Running_Get_elem c p : match Running_Get c with
  | Ok ps => p ∈ ps <-> exists u, c !! u = Some p | _ => False end.
Proof.
  simpl. rewrite list_elem_of_fmap. split.
  - intros ([u q] & -> & Hq). exists u. by apply elem_of_map_to_list.
  - intros [u Hu]. exists (u, p). split; first done. by apply elem_of_map_to_list.
Qed.

(** * Properties of the node caches *)

Lemma internal_ip_length addrs : (length (internal_ip addrs) <= 1)%nat.
Proof. induction addrs as [|[[] a] addrs IH]; simpl; lia. Qed.

Lemma node_Get_not_found nodes what arg : node_Get nodes what arg = Err ErrNotFound <-> nodes = [].
Proof.
  destruct nodes as [|a [|b nodes]]; simpl; [done|done|].
  split; [|done]. intros E. exfalso. revert E. generalize (what +:+ " " +:+ arg +:+ ", got " +:+
    pretty (N.of_nat (S (S (length nodes))))). intros s E. discriminate E.
Qed.

Section nodes_theory.
Context `{XN : !Indexer Node string nName node_name_index, !IndexerSpec XN}.
Context `{XI : !Indexer Node string nName node_ip_index, !IndexerSpec XI}.

Lemma by_index_name (s : store XN) a m : m ∈ by_index s a <-> m ∈ ix_list s /\ nName m = a.
Proof.
  rewrite elem_by_index. unfold node_name_index. rewrite list_elem_of_singleton. naive_solver.
Qed.

Lemma by_index_ip (t : store XI) a m :
  m ∈ by_index t a <-> m ∈ ix_list t /\ internal_ip (nAddresses m) = [a].
Proof.
  rewrite elem_by_index. unfold node_ip_index. pose proof (internal_ip_length (nAddresses m)).
  destruct (internal_ip (nAddresses m)) as [|x [|]]; simpl in *; [|rewrite list_elem_of_singleton|lia].
  - split; [intros [_ H']; by apply elem_of_nil in H'|naive_solver].
  - naive_solver.
Qed.

Lemma NodeByNameCache_Get_cases (s : store XN) a :
  (exists n, NodeByNameCache_Get s a = Ok n /\ n ∈ ix_list s /\ nName n = a) \/
  NodeByNameCache_Get s a = Err ErrNotFound /\ forall m, m ∈ ix_list s -> nName m <> a.
Proof.
  unfold NodeByNameCache_Get. pose proof (by_index_NoDup s a) as ND.
  pose proof (by_index_name s a) as E. destruct (by_index s a) as [|n [|n' l]].
  - right. split; [done|]. intros m Hm Ha. by apply (not_elem_of_nil m), E.
  - left. exists n. split; [done|]. apply E, elem_of_cons. tauto.
  - exfalso. apply NoDup_cons in ND as [Hn _]. apply Hn.
    destruct (proj1 (E n)) as [Hi Ha]; [apply elem_of_cons; tauto|].
    destruct (proj1 (E n')) as [Hi' Ha']; [rewrite !elem_of_cons; tauto|].
    rewrite (list_key_inj s n n'); [apply elem_of_cons; tauto|done|done|congruence].
Qed.

Lemma NodeByIPCache_Get_cases (t : store XI) a :
  (exists n, NodeByIPCache_Get t a = Ok n /\ n ∈ ix_list t /\ internal_ip (nAddresses n) = [a] /\
     forall m, m ∈ ix_list t -> internal_ip (nAddresses m) = [a] -> m = n) \/
  (NodeByIPCache_Get t a = Err ErrNotFound /\
     forall m, m ∈ ix_list t -> internal_ip (nAddresses m) <> [a]) \/
  (exists e n n', NodeByIPCache_Get t a = Err e /\ e <> ErrNotFound /\ n <> n' /\
     n ∈ ix_list t /\ n' ∈ ix_list t /\
     internal_ip (nAddresses n) = [a] /\ internal_ip (nAddresses n') = [a]).
Proof.
  unfold NodeByIPCache_Get. pose proof (by_index_NoDup t a) as ND.
  pose proof (by_index_ip t a) as E. destruct (by_index t a) as [|n [|n' l]] eqn:Hl.
  - right. left. split; [done|]. intros m Hm Ha. by apply (not_elem_of_nil m), E.
  - left. exists n. split; [done|]. destruct (proj1 (E n)); [apply elem_of_cons; tauto|].
    split_and!; [done..|]. intros m Hm Ha. by apply list_elem_of_singleton, E.
  - right. right. apply NoDup_cons in ND as [Hn _].
    destruct (proj1 (E n)); [apply elem_of_cons; tauto|].
    destruct (proj1 (E n')); [rewrite !elem_of_cons; tauto|].
    eexists _, n, n'. split; [reflexivity|]. split; [|split_and!; [|done..]].
    + intros He. apply (f_equal (@Err Node)) in He.
      change (node_Get (n :: n' :: l) "ip" a = Err ErrNotFound) in He.
      apply node_Get_not_found in He. done.
    + intros ->. apply Hn, elem_of_cons. tauto.
Qed.

(** The look-up of a node by name finds the node iff it is stored, and otherwise reports that
    nothing was found: two nodes never share a name.  The look-up by address finds a node iff it is
    the only one whose first internal address is the one asked for; with two it is an error, and
    without any it reports that nothing was found. *)
Theorem node_lookup_exact (s : store XN) (t : store XI) (a : string) (n : Node) :
  (NodeByNameCache_Get s a = Ok n <-> n ∈ ix_list s /\ nName n = a) /\
  (NodeByNameCache_Get s a = Err ErrNotFound <-> forall m, m ∈ ix_list s -> nName m <> a) /\
  (NodeByIPCache_Get t a = Ok n <->
     n ∈ ix_list t /\ internal_ip (nAddresses n) = [a] /\
     forall m, m ∈ ix_list t -> internal_ip (nAddresses m) = [a] -> m = n) /\
  (NodeByIPCache_Get t a = Err ErrNotFound <->
     forall m, m ∈ ix_list t -> internal_ip (nAddresses m) <> [a]).
Proof.
  split_and!.
  - destruct (NodeByNameCache_Get_cases s a) as [(m & -> & Hm & Ha)|[-> Hno]].
    + split; [by intros [= <-]|]. intros [Hn Hna]. f_equal. apply (list_key_inj s); [done|done|congruence].
    + split; [done|]. intros [Hn Hna]. by destruct (Hno n Hn).
  - destruct (NodeByNameCache_Get_cases s a) as [(m & -> & Hm & Ha)|[-> Hno]]; [|done].
    split; [done|]. intros Hno. by destruct (Hno m Hm).
  - destruct (NodeByIPCache_Get_cases t a) as [(m & -> & Hm & Ha & Hu)|
      [[-> Hno]|(e & m & m' & -> & _ & Hne & Hm & Hm' & Ha & Ha')]].
    + split; [by intros [= <-]|]. intros (Hn & Hna & _). f_equal. symmetry. auto.
    + split; [done|]. intros (Hn & Hna & _). by destruct (Hno n Hn).
    + split; [done|]. intros (_ & _ & Hu). destruct Hne. rewrite (Hu m Hm Ha). symmetry. auto.
  - destruct (NodeByIPCache_Get_cases t a) as [(m & -> & Hm & Ha & Hu)|
      [[-> Hno]|(e & m & m' & -> & He & Hne & Hm & Hm' & Ha & Ha')]].
    + split; [done|]. intros Hno. by destruct (Hno m Hm).
    + done.
    + split; [congruence|]. intros Hno. by destruct (Hno m Hm).
Qed.
End nodes_theory.

Definition node1 : Node := MkNode "n1" [(NodeOtherAddress, "1.2.3.4"); (NodeInternalIP, "10.0.0.1")] "z1".
Definition node2 : Node := MkNode "n2" [(NodeInternalIP, "10.0.0.2")] "z2".
Definition node3 : Node := MkNode "n3" [(NodeInternalIP, "10.0.0.2")] "z2".
Definition mem_nodes (index : Node -> list string) : store (mem_indexer nName index) :=
  ix_add (ix_add (ix_add ∅ node1) node2) node3.

Lemma node_lookup_exact_witness :
  NodeByNameCache_Get (mem_nodes node_name_index) "n1" = Ok node1 /\
  NodeByIPCache_Get (mem_nodes node_ip_index) "10.0.0.1" = Ok node1 /\
  NodeByIPCache_Get (mem_nodes node_ip_index) "10.0.0.2" =
    Err "expected single node for ip 10.0.0.2, got 2" /\
  (forall m, m ∈ ix_list (mem_nodes node_name_index) -> nName m <> "n4").
Proof.
  split; [vm_compute; reflexivity|]. split; [vm_compute; reflexivity|].
  split; [vm_compute; reflexivity|].
  apply (node_lookup_exact (mem_nodes node_name_index) (mem_nodes node_ip_index) "n4" node1).
  vm_compute; reflexivity.
Defined.

(** * Properties of the pods by address *)

Section podbyip_theory.
Context `{X : !Indexer Pod (string * string) pod_key pod_ip_index, !IndexerSpec X}.

Lemma by_index_pod (s : store X) k p : p ∈ by_index s k <-> p ∈ ix_list s /\ PodIP p = k.
Proof.
  rewrite elem_by_index. unfold pod_ip_index. rewrite list_elem_of_singleton. naive_solver.
Qed.

Lemma earliest_some e items : exists p, earliest (Some e) items = Some p /\
  (p = e \/ p ∈ items) /\ CreationTimestamp p <= CreationTimestamp e /\
  forall q, q ∈ items -> CreationTimestamp p <= CreationTimestamp q.
Proof.
  revert e. induction items as [|a items IH]; intros e; simpl.
  - exists e. split_and!; [done|tauto|lia|]. intros q Hq. by apply elem_of_nil in Hq.
  - destruct (Z.ltb_spec (CreationTimestamp a) (CreationTimestamp e)).
    + destruct (IH a) as (p & Hp & Hin & Hle & Hall). exists p.
      split_and!; [done|rewrite elem_of_cons; tauto|lia|].
      intros q [-> | Hq]%elem_of_cons; auto.
    + destruct (IH e) as (p & Hp & Hin & Hle & Hall). exists p.
      split_and!; [done|rewrite elem_of_cons; tauto|lia|].
      intros q [-> | Hq]%elem_of_cons; [lia|auto].
Qed.

Definition finished (p : Pod) : bool :=
  negb (bool_decide (Phase p = PodPending)) && negb (bool_decide (Phase p = PodRunning)).

(** The pod with the address that was created first. *)
Definition first_created (s : store X) (k : string) (p : Pod) : Prop :=
  p ∈ ix_list s /\ PodIP p = k /\
  forall q, q ∈ ix_list s -> PodIP q = k -> CreationTimestamp p <= CreationTimestamp q.

Lemma PodByIPCache_Get_cases (c : PodByIPCache (X := X)) (k : string) :
  (PodByIPCache_Get c k = (c, Err ErrNotFound) /\
     forall p, p ∈ ix_list (indexer c) -> PodIP p <> k) \/
  exists p, first_created (indexer c) k p /\
    PodByIPCache_Get c k =
      (if finished p
       then MkPodByIPCache (ix_delete (indexer c) p) (<[UID p := p]> (deletedPods c))
       else c, Ok p).
Proof.
  unfold PodByIPCache_Get. destruct (by_index (indexer c) k) as [|a items] eqn:E.
  - left. split; [done|]. intros p Hp Hk.
    assert (H : p ∈ by_index (indexer c) k) by by apply by_index_pod.
    rewrite E in H. by apply elem_of_nil in H.
  - simpl. destruct (earliest_some a items) as (p & -> & Hin & Hle & Hall). right. exists p.
    assert (Hp : p ∈ ix_list (indexer c) /\ PodIP p = k).
    { apply by_index_pod. rewrite E, elem_of_cons. done. }
    split; [|done]. split_and!; [apply Hp|apply Hp|]. intros q Hq Hk.
    assert (H : q ∈ by_index (indexer c) k) by by apply by_index_pod.
    rewrite E in H. apply elem_of_cons in H as [-> | H]; auto.
Qed.

(** C24: The look-up of an address reports that nothing was found exactly when no stored pod has the
    address.  Otherwise it returns the stored pod with that address that was created first; when that
    pod has finished it leaves the index, alone, and is remembered for the cleanup, so that the next
    look-up finds its successor; otherwise the cache is unchanged. *)
Theorem PodByIPCache_Get_exact (c : PodByIPCache (X := X)) (k : string) :
  let '(c', r) := PodByIPCache_Get c k in
  (r = Err ErrNotFound /\ c' = c /\ forall p, p ∈ ix_list (indexer c) -> PodIP p <> k) \/
  exists p, r = Ok p /\ first_created (indexer c) k p /\
    if finished p
    then (forall q, q ∈ ix_list (indexer c') <-> q ∈ ix_list (indexer c) /\ q <> p) /\
         deletedPods c' = <[UID p := p]> (deletedPods c)
    else c' = c.
Proof.
  destruct (PodByIPCache_Get_cases c k) as [[-> Hno]|(p & Hp & ->)]; [by left|].
  right. exists p. split_and!; [done|done|]. destruct (finished p); [|done]. split; [|done].
  intros q. simpl. rewrite list_delete. split; intros [Hq Hne]; split; try done; [by intros ->|].
  intros Hk. apply Hne. apply (list_key_inj (indexer c)); [done|apply Hp|done].
Qed.

(** ** The cleanup of deleted pods *)

(** The entries a tick visits before it breaks. *)
Fixpoint visited (now : Z) (order : list (string * Pod)) : list (string * Pod) :=
  match order with
  | [] => []
  | (uid, pod) :: order' => if fresh now pod then [] else (uid, pod) :: visited now order'
  end.

Lemma visited_elem now order x : x ∈ visited now order -> x ∈ order /\ fresh now x.2 = false.
Proof.
  induction order as [|[u p] order IH]; simpl; [intros H; by apply elem_of_nil in H|].
  destruct (fresh now p) eqn:E; [intros H; by apply elem_of_nil in H|].
  rewrite !elem_of_cons. intros [-> | H]; [tauto|]. destruct (IH H). tauto.
Qed.

Lemma cleanup_tick_deleted now c order u :
  deletedPods (cleanup_tick (X := X) now c order) !! u =
  if decide (u ∈ (visited now order).*1) then None else deletedPods c !! u.
Proof.
  revert c. induction order as [|[v p] order IH]; intros c; simpl.
  { done. }
  destruct (fresh now p); simpl.
  { done. }
  rewrite IH. simpl. destruct (decide (u = v)) as [-> | Hne].
  - rewrite lookup_delete_eq. destruct (decide (v ∈ v :: _)) as [_|H]; [by case_decide|].
    destruct H. rewrite elem_of_cons. tauto.
  - rewrite lookup_delete_ne by done. apply decide_ext. rewrite elem_of_cons. tauto.
Qed.

Lemma cleanup_tick_list now c order q :
  q ∈ ix_list (indexer (cleanup_tick (X := X) now c order)) <->
  q ∈ ix_list (indexer c) /\ forall x, x ∈ visited now order -> pod_key q <> pod_key x.2.
Proof.
  revert c. induction order as [|[v p] order IH]; intros c; simpl.
  { split; [|tauto]. intros H. split; [done|]. intros x Hx. by apply elem_of_nil in Hx. }
  destruct (fresh now p); simpl.
  { split; [|tauto]. intros H. split; [done|]. intros x Hx. by apply elem_of_nil in Hx. }
  rewrite IH. simpl. rewrite list_delete. setoid_rewrite elem_of_cons. split.
  - intros [[H Hp] Hx]. split; [done|]. intros x [-> | Hv]; auto.
  - intros [H Hx]. split; [split; [done|apply (Hx (v, p)); tauto]|]. auto.
Qed.

(** The order the comments of the cleanup assume: by deletion time, pods without one first. *)
Definition deleted_before (x y : string * Pod) : Prop :=
  match DeletionTimestamp x.2, DeletionTimestamp y.2 with
  | None, _ => True
  | Some _, None => False
  | Some t, Some t' => t <= t'
  end.

Lemma fresh_after now x y : deleted_before x y -> fresh now x.2 = true -> fresh now y.2 = true.
Proof.
  unfold deleted_before, fresh. destruct (DeletionTimestamp x.2), (DeletionTimestamp y.2); try done.
  rewrite !Z.leb_le. lia.
Qed.

Lemma visited_sorted now order : StronglySorted deleted_before order ->
  forall x, x ∈ visited now order <-> x ∈ order /\ fresh now x.2 = false.
Proof.
  intros Hs x. split; [apply visited_elem|]. intros [Hx Hf]. revert Hx.
  induction Hs as [|[u p] order _ IH Hall]; simpl; [done|].
  rewrite elem_of_cons. destruct (fresh now p) eqn:E.
  - intros [-> | Hx]; [simpl in Hf; congruence|]. rewrite List.Forall_forall in Hall.
    rewrite (fresh_after now (u, p) x) in Hf; [done|apply Hall; by apply list_elem_of_In|done].
  - rewrite elem_of_cons. tauto.
Qed.

Section cleanup.
Context (c : PodByIPCache (X := X)) (now : Z) (order : list (string * Pod))
  (Horder : order ≡ₚ map_to_list (deletedPods c)).

Lemma order_lookup x : x ∈ order <-> deletedPods c !! x.1 = Some x.2.
Proof. rewrite Horder. destruct x. apply elem_of_map_to_list. Qed.

Lemma visited_uid u : u ∈ (visited now order).*1 <->
  exists p, (u, p) ∈ visited now order /\ deletedPods c !! u = Some p.
Proof.
  rewrite list_elem_of_fmap. split.
  - intros ([v p] & -> & Hx). exists p. split; [done|].
    by apply (order_lookup (v, p)), (visited_elem now).
  - intros (p & Hp & _). by exists (u, p).
Qed.

Lemma cleanup_keeps_fresh u p : deletedPods c !! u = Some p -> fresh now p = true ->
  deletedPods (cleanup_tick now c order) !! u = Some p.
Proof.
  intros Hu Hf. rewrite cleanup_tick_deleted. case_decide as H; [|done].
  apply visited_uid in H as (q & Hq & Hl). apply visited_elem in Hq as [_ Hq]. simpl in Hq.
  congruence.
Qed.

Lemma cleanup_sorted : StronglySorted deleted_before order ->
  deletedPods (cleanup_tick now c order) = base.filter (fun kv => fresh now kv.2 = true) (deletedPods c).
Proof.
  intros Hs. apply map_eq. intros u. rewrite cleanup_tick_deleted, map_lookup_filter.
  destruct (deletedPods c !! u) as [p|] eqn:Hu; simpl; [|by case_decide].
  case_decide as H; case_guard as G; simpl; try done; exfalso.
  - apply visited_uid in H as (q & Hq & Hl). apply visited_elem in Hq as [_ Hq]. simpl in *. congruence.
  - apply H, visited_uid. exists p. split; [|done]. apply visited_sorted; [done|].
    split; [by apply order_lookup|]. by apply not_true_is_false.
Qed.
End cleanup.

(** A tick of the cleanup, whatever order the map of deleted pods is iterated in, keeps every
    pod whose time is not over and removes from the index nothing but pods with the name of a deleted
    pod whose time is over.  If the map were iterated by deletion time, as the comments in the code
    say, exactly the deleted pods whose time is not over would remain, and no stored pod would have
    the name of another; but an iteration that meets a pod whose time is not over first removes
    nothing at all. *)
Theorem cleanup_tick_exact (c : PodByIPCache (X := X)) (now : Z) (order : list (string * Pod))
    (Horder : order ≡ₚ map_to_list (deletedPods c)) :
  let c' := cleanup_tick now c order in
  (forall u p, deletedPods c !! u = Some p -> fresh now p = true -> deletedPods c' !! u = Some p) /\
  (forall q, q ∈ ix_list (indexer c) -> q ∉ ix_list (indexer c') ->
     exists u p, deletedPods c !! u = Some p /\ fresh now p = false /\ pod_key p = pod_key q) /\
  (StronglySorted deleted_before order ->
     deletedPods c' = base.filter (fun kv => fresh now kv.2 = true) (deletedPods c) /\
     forall q, q ∈ ix_list (indexer c') <-> q ∈ ix_list (indexer c) /\
       forall u p, deletedPods c !! u = Some p -> fresh now p = false -> pod_key q <> pod_key p) /\
  (forall x rest, order = x :: rest -> fresh now x.2 = true -> c' = c).
Proof.
  simpl. split_and!.
  - intros u p. by apply cleanup_keeps_fresh.
  - intros q Hq Hn. rewrite cleanup_tick_list in Hn.
    assert (Hex : Exists (fun x : string * Pod => pod_key q = pod_key x.2) (visited now order)).
    { destruct (decide (Exists (fun x : string * Pod => pod_key q = pod_key x.2) (visited now order)))
        as [|H]; [done|]. destruct Hn. split; [done|]. intros x Hx E. apply H, Exists_exists. by exists x. }
    apply Exists_exists in Hex as ([u p] & Hx & E). apply visited_elem in Hx as [Hx Hf].
    exists u, p. split_and!; [by apply (order_lookup c order Horder (u, p))|done|done].
  - intros Hs. split; [by apply cleanup_sorted|]. intros q. rewrite cleanup_tick_list.
    setoid_rewrite (visited_sorted now order Hs). setoid_rewrite (order_lookup c order Horder).
    split; intros [Hq Hx]; split; try done.
    + intros u p Hu Hf. by apply (Hx (u, p)).
    + intros [u p] [Hu Hf]. by apply (Hx u p).
  - intros [u p] rest -> Hf. simpl in *. by rewrite Hf.
Qed.

(** C26: A pod that is created again under the name of a pod deleted before, as the pods of a
    StatefulSet are, is evicted with it: when the time of the deleted pod is over, the cleanup
    deletes by name, and the look-up no longer finds the running pod. *)
Theorem cleanup_evicts_recreated_pod (c : PodByIPCache (X := X)) (old new : Pod) (t now : Z)
    (Hkey : pod_key new = pod_key old)
    (Hdel : DeletionTimestamp old = Some t) (Hnow : podTimeout < now - t)
    (Hnone : deletedPods c = ∅)
    (Hip : forall q, q ∈ ix_list (indexer c) -> PodIP q = PodIP new -> pod_key q = pod_key new) :
  let c1 := PodByIP_onAddOrUpdate (PodByIP_onDelete c (OPod old)) (OPod new) in
  let c2 := cleanup_tick now c1 (map_to_list (deletedPods c1)) in
  (PodByIPCache_Get c1 (PodIP new)).2 = Ok new /\
  PodByIPCache_Get c2 (PodIP new) = (c2, Err ErrNotFound).
Proof.
  intros c1 c2.
  assert (Hlist : forall q, q ∈ by_index (indexer c1) (PodIP new) -> q = new).
  { intros q. rewrite by_index_pod. unfold c1. simpl. rewrite list_add.
    intros [[-> | [Hq Hne]] Hk]; [done|]. by destruct Hne; apply Hip. }
  assert (Hnew : new ∈ by_index (indexer c1) (PodIP new)).
  { apply by_index_pod. split; [|done]. unfold c1. simpl. rewrite list_add. tauto. }
  assert (E2 : by_index (indexer c2) (PodIP new) = []).
  { destruct (by_index (indexer c2) (PodIP new)) as [|q l] eqn:E; [done|]. exfalso.
    assert (Hq : q ∈ by_index (indexer c2) (PodIP new)) by (rewrite E, elem_of_cons; tauto).
    apply by_index_pod in Hq as [Hq Hk]. unfold c2 in Hq. rewrite cleanup_tick_list in Hq.
    destruct Hq as [Hq Hx]. assert (q = new) as ->. { apply Hlist, by_index_pod. done. }
    apply (Hx (UID old, old)); [|done]. unfold c1. simpl. rewrite Hnone, insert_empty.
    rewrite map_to_list_singleton. simpl. unfold fresh. rewrite Hdel.
    destruct (Z.leb_spec (now - t) podTimeout); [lia|]. rewrite elem_of_cons. tauto. }
  split.
  - unfold PodByIPCache_Get. destruct (by_index (indexer c1) (PodIP new)) as [|a l] eqn:E.
    { by apply elem_of_nil in Hnew. }
    simpl. destruct (earliest_some a l) as (p & -> & Hin & _). simpl. f_equal.
    apply Hlist. rewrite elem_of_cons. tauto.
  - unfold PodByIPCache_Get. by rewrite E2.
Qed.
End podbyip_theory.

(** ** On the indexer in memory *)
Definition mem_pods : Indexer Pod (string * string) pod_key pod_ip_index :=
  mem_indexer pod_key pod_ip_index.
#[local] Existing Instance mem_pods.
#[local] Instance mem_pods_spec : IndexerSpec mem_pods.
Proof. apply mem_indexer_spec. Defined.

Definition web_old : Pod :=
  MkPod "uid-1" "web-0" "default" "n1" false "10.4.0.7" PodRunning 100 (Some 1000).
Definition web_new : Pod :=
  MkPod "uid-2" "web-0" "default" "n2" false "10.4.0.9" PodRunning 2000 None.
Definition job_done : Pod :=
  MkPod "uid-3" "job" "default" "n1" false "10.4.0.8" PodSucceeded 50 None.
Definition job_next : Pod :=
  MkPod "uid-4" "next" "default" "n1" false "10.4.0.8" PodRunning 60 None.
Definition pods0 : PodByIPCache (X := mem_pods) :=
  PodByIP_onAddOrUpdate (PodByIP_onAddOrUpdate (PodByIP_onAddOrUpdate
    (MkPodByIPCache (X := mem_pods) ∅ ∅) (OPod web_old)) (OPod job_next)) (OPod job_done).

Lemma PodByIPCache_Get_exact_witness :
  (PodByIPCache_Get pods0 "10.4.0.8").2 = Ok job_done /\
  (PodByIPCache_Get (PodByIPCache_Get pods0 "10.4.0.8").1 "10.4.0.8").2 = Ok job_next /\
  forall p, p ∈ ix_list (indexer pods0) -> PodIP p <> "10.9.9.9".
Proof.
  split; [vm_compute; reflexivity|]. split; [vm_compute; reflexivity|].
  pose proof (PodByIPCache_Get_exact pods0 "10.9.9.9") as H.
  assert (E : (PodByIPCache_Get pods0 "10.9.9.9").2 = Err ErrNotFound) by (vm_compute; reflexivity).
  destruct (PodByIPCache_Get pods0 "10.9.9.9") as [c r]. simpl in E. rewrite E in H.
  destruct H as [(_ & _ & H)|(p & H & _)]; [exact H|discriminate H].
Defined.

Definition ticked_at : Z := 200 * Second.
Definition pods1 : PodByIPCache (X := mem_pods) :=
  PodByIP_onDelete (PodByIP_onDelete pods0 (OPod web_old))
    (OPod (MkPod "uid-5" "api" "default" "n1" false "10.4.0.5" PodRunning 10 (Some (150 * Second)))).
Definition order1 : list (string * Pod) := map_to_list (deletedPods pods1).

(** An expired pod stays or goes by the order of the map. *)
Lemma cleanup_tick_exact_witness :
  deletedPods pods1 !! "uid-1" = Some web_old /\ fresh ticked_at web_old = false /\
  deletedPods (cleanup_tick ticked_at pods1 (reverse order1)) !! "uid-1" = None /\
  cleanup_tick ticked_at pods1 order1 = pods1.
Proof.
  destruct (cleanup_tick_exact pods1 ticked_at order1 (Permutation_refl order1))
    as (_ & _ & _ & H).
  split_and!; [vm_compute; reflexivity|vm_compute; reflexivity|vm_compute; reflexivity|].
  eapply H; [vm_compute; reflexivity|vm_compute; reflexivity].
Defined.

Lemma cleanup_evicts_recreated_pod_witness :
  let c1 := PodByIP_onAddOrUpdate (PodByIP_onDelete pods0 (OPod web_old)) (OPod web_new) in
  let c2 := cleanup_tick ticked_at c1 (map_to_list (deletedPods c1)) in
  PodByIPCache_Get c2 "10.4.0.9" = (c2, Err ErrNotFound).
Proof.
  apply (cleanup_evicts_recreated_pod pods0 web_old web_new 1000 ticked_at);
    [reflexivity|reflexivity|vm_compute; reflexivity|vm_compute; reflexivity|].
  refine (proj1 (Forall_forall (fun q => PodIP q = _ -> pod_key q = _) _) _). vm_compute. repeat (constructor; [intros E; discriminate E|]). constructor.
Defined.

Lemma running_pods_exact_witness :
  foldl Running_step ∅ [EAddOrUpdate (OPod web_new); EDelete (OPod web_old); EAddOrUpdate OOther]
    !! "uid-2" = Some web_new.
Proof.
  apply running_pods_exact. exists [], [EDelete (OPod web_old); EAddOrUpdate OOther].
  split_and!; vm_compute; reflexivity.
Defined.
