(* ===== verification/KubeObjects.v ===== *)
(** Kubernetes objects as the API delivers them, and what [defaultTransformFunc] of src/kube/watcher.go
    leaves of them before the caches of Kube.v see them.

    The members that no cache reads are kept as opaque text; [object_of] is the object as Kube.v has
    it. *)
From S2P Require Import Prelude GoBase Kube.
From stdpp Require Import base numbers list strings gmap.
Local Open Scope string_scope.
Local Open Scope list_scope.
Local Open Scope Z_scope.

Record ObjectMeta := MkMeta {
  mdUID : string; mdName : string; mdNamespace : string;
  mdCreationTimestamp : Z; mdDeletionTimestamp : option Z;
  mdLabels : gmap string string; mdAnnotations : gmap string string; mdManagedFields : list string
}.
Record PodSpec := MkPodSpec { sNodeName : string; sHostNetwork : bool; sRest : list string }.
Record PodStatus := MkPodStatus {
  stPodIP : string; stPhase : PodPhase; stConditions : list string; stRest : list string
}.
Record NodeStatus := MkNodeStatus { nsAddresses : list (AddressType * string); nsRest : list string }.

Inductive api_object :=
| APod (m : ObjectMeta) (spec : PodSpec) (status : PodStatus)
| ANode (m : ObjectMeta) (spec : list string) (status : NodeStatus)
| AOther (type : string).

Definition SetManagedFields (m : ObjectMeta) (v : list string) : ObjectMeta :=
  MkMeta (mdUID m) (mdName m) (mdNamespace m) (mdCreationTimestamp m) (mdDeletionTimestamp m)
    (mdLabels m) (mdAnnotations m) v.
Definition SetLabels (m : ObjectMeta) (v : gmap string string) : ObjectMeta :=
  MkMeta (mdUID m) (mdName m) (mdNamespace m) (mdCreationTimestamp m) (mdDeletionTimestamp m)
    v (mdAnnotations m) (mdManagedFields m).
Definition SetAnnotations (m : ObjectMeta) (v : gmap string string) : ObjectMeta :=
  MkMeta (mdUID m) (mdName m) (mdNamespace m) (mdCreationTimestamp m) (mdDeletionTimestamp m)
    (mdLabels m) v (mdManagedFields m).

Definition defaultTransformFunc (obj : api_object) : result api_object :=
  match obj with
  | APod m spec status =>
      let m := SetManagedFields m [] in
      let spec := MkPodSpec (sNodeName spec) (sHostNetwork spec) [] in
      let status := MkPodStatus (stPodIP status) (stPhase status) (stConditions status) [] in
      let m := SetLabels m ∅ in
      let m := SetAnnotations m ∅ in
      Ok (APod m spec status)
  | ANode m spec status =>
      let m := SetManagedFields m [] in
      Ok (ANode m [] (MkNodeStatus (nsAddresses status) []))
  | AOther t => Err ("unknown type " +:+ t)
  end.

(** The object with the members the caches and [getNodeZone] read. *)
Definition zone_label : string := "topology.kubernetes.io/zone".
Definition object_of (obj : api_object) : object :=
  match obj with
  | APod m spec status =>
      OPod (MkPod (mdUID m) (mdName m) (mdNamespace m) (sNodeName spec) (sHostNetwork spec)
              (stPodIP status) (stPhase status) (mdCreationTimestamp m) (mdDeletionTimestamp m))
  | ANode m _ status => ONode (MkNode (mdName m) (nsAddresses status) (default "" (mdLabels m !! zone_label)))
  | AOther _ => OOther
  end.

(** An event of an informer for the running pods: an object added or updated, or deleted. *)
Inductive informer_event := EAdd (obj : api_object) | EDelete (obj : api_object).
Definition transformed (ev : informer_event) : option informer_event :=
  match ev with
  | EAdd obj => match defaultTransformFunc obj with Ok obj => Some (EAdd obj) | _ => None end
  | EDelete obj => match defaultTransformFunc obj with Ok obj => Some (EDelete obj) | _ => None end
  end.
Definition on_event (c : RunningPodsCache) (ev : informer_event) : RunningPodsCache :=
  match ev with
  | EAdd obj => Running_onAddOrUpdate c (object_of obj)
  | EDelete obj => Running_onDelete c (object_of obj)
  end.

Lemma transform_object obj obj' : defaultTransformFunc obj = Ok obj' ->
  object_of obj' = object_of obj /\ defaultTransformFunc obj' = Ok obj'.
Proof. destruct obj; simpl; intros [= <-]; done. Qed.

(** Removing members saves memory and nothing else: the caches, the zone of a node included, cannot
    tell a transformed object from the original; transforming again changes nothing, as for an object
    delivered twice; and the running pods are the same as if every object had been delivered whole. *)
Theorem transform_invisible (evs : list informer_event) (c : RunningPodsCache) (obj obj' : api_object) :
  (defaultTransformFunc obj = Ok obj' ->
     object_of obj' = object_of obj /\ defaultTransformFunc obj' = Ok obj') /\
  fold_left on_event (omap transformed evs) c = fold_left on_event evs c.
Proof.
  split; [apply transform_object|]. revert c. induction evs as [|ev evs IH]; intros c; [done|]. simpl.
  destruct ev as [o|o]; simpl; destruct (defaultTransformFunc o) as [o'|e|] eqn:E; simpl; rewrite ?IH.
  1, 4: by rewrite (proj1 (transform_object _ _ E)).
  all: by destruct o.
Qed.
