(* ===== verification/PodHistory.v ===== *)
(** The pods-by-address cache over time: src/kube/podbyipcache.go.

    Events of the informer, look-ups of the exporter and ticks of the cleanup act on the cache of Kube.v
    one at a time, in any order; a tick iterates the map of deleted pods in any order, and between the
    parts of one tick the other operations run.  The cache exists
    so that traffic of a pod deleted less than two minutes ago can still be attributed. *)
From S2P Require Import Prelude GoBase Kube.
From stdpp Require Import base numbers list strings gmap relations.
Local Open Scope string_scope.
Local Open Scope list_scope.
Local Open Scope Z_scope.

Section history.
Context `{X : Indexer Pod (string * string) pod_key pod_ip_index} {HX : IndexerSpec X}.
Notation PodByIPCache := (PodByIPCache (X := X)).

(** * Operations *)
Inductive pod_op :=
| PAdd (obj : object)      (* AddFunc or UpdateFunc *)
| PDelete (obj : object)   (* DeleteFunc *)
| PGet (ip : string)       (* a look-up *)
| PTick (now : Z)          (* a tick of runCleanupExpiredLoop *)
| PPart (now : Z).         (* a part of one: the informer adds pods while a tick is under way *)

Inductive pod_step : PodByIPCache -> pod_op -> PodByIPCache -> Prop :=
| p_add c obj : pod_step c (PAdd obj) (PodByIP_onAddOrUpdate c obj)
| p_delete c obj : pod_step c (PDelete obj) (PodByIP_onDelete c obj)
| p_get c ip : pod_step c (PGet ip) (PodByIPCache_Get c ip).1
| p_tick c now order : order ≡ₚ map_to_list (deletedPods c) ->
    pod_step c (PTick now) (cleanup_tick now c order)
| p_part c now order : (forall x, x ∈ order -> deletedPods c !! x.1 = Some x.2) ->
    pod_step c (PPart now) (cleanup_tick now c order).

Inductive pod_run : PodByIPCache -> list pod_op -> PodByIPCache -> Prop :=
| run_nil c : pod_run c [] c
| run_cons c op c1 ops c2 : pod_step c op c1 -> pod_run c1 ops c2 -> pod_run c (op :: ops) c2.

(** * A deleted pod stays *)

(** The operations that concern the pod with a key and an address: its updates leave it unfinished at
    its address, its deletions are of the kind [D], and at ticks deletions of this kind are not due. *)
Definition respects (key : string * string) (ip : string) (D : Pod -> Prop) (op : pod_op) : Prop :=
  match op with
  | PAdd (OPod q) => pod_key q = key -> PodIP q = ip /\ finished q = false
  | PDelete (OPod q) => pod_key q = key -> D q
  | PTick now | PPart now => forall q, D q -> Kube.fresh now q = true
  | _ => True
  end.

(** The same for a pod deleted at time [t], with the time spelled out: every tick is at most two minutes
    after [t]. *)
Definition two_minutes : Z := 120 * 1000000000.
Definition in_time (key : string * string) (ip : string) (t : Z) (op : pod_op) : Prop :=
  match op with
  | PAdd (OPod q) => pod_key q = key -> PodIP q = ip /\ finished q = false
  | PDelete (OPod q) => pod_key q = key -> DeletionTimestamp q = Some t
  | PTick now | PPart now => now <= t + two_minutes
  | _ => True
  end.

Lemma fresh_true now q t : DeletionTimestamp q = Some t -> now <= t + two_minutes -> Kube.fresh now q = true.
Proof.
  intros H Hn. unfold Kube.fresh. rewrite H. apply Z.leb_le.
  change podTimeout with two_minutes. lia.
Qed.
Lemma fresh_false now q :
  (forall t, DeletionTimestamp q = Some t -> t + two_minutes < now) -> Kube.fresh now q = false.
Proof.
  intros H. unfold Kube.fresh. destruct (DeletionTimestamp q) as [t|]; [|done]. apply Z.leb_gt.
  change podTimeout with two_minutes. specialize (H t eq_refl). lia.
Qed.
Lemma in_time_respects key ip t op :
  in_time key ip t op -> respects key ip (λ q, DeletionTimestamp q = Some t) op.
Proof. destruct op as [[]|[]| |now|now]; simpl; eauto using fresh_true. Qed.

Definition present (c : PodByIPCache) (key : string * string) (ip : string) : Prop :=
  exists p, p ∈ ix_list (indexer c) /\ pod_key p = key /\ PodIP p = ip /\ finished p = false.
Definition deleted_as (c : PodByIPCache) (key : string * string) (D : Pod -> Prop) : Prop :=
  forall u q, deletedPods c !! u = Some q -> pod_key q = key -> D q.

Lemma get_keeps c key ip k D : present c key ip -> deleted_as c key D ->
  present (PodByIPCache_Get c k).1 key ip /\ deleted_as (PodByIPCache_Get c k).1 key D.
Proof.
  intros (p & Hp & Hk & Hi & Hf) Hd.
  destruct (PodByIPCache_Get_cases c k) as [[-> _]|(r & (Hr & _) & ->)]; cbn [fst].
  { split; [by exists p|done]. }
  destruct (finished r) eqn:Hfr; [|split; [by exists p|done]].
  assert (Hne : pod_key r <> key).
  { intros E. assert (r = p) as -> by (apply (list_key_inj (indexer c)); [done|done|congruence]). congruence. }
  split; unfold present, deleted_as; cbn [indexer deletedPods].
  - exists p. rewrite Kube.list_delete. split_and!; try done. congruence.
  - intros u q. rewrite lookup_insert_Some. intros [[_ <-]|[_ Hu]]; [done|]. by eapply Hd.
Qed.

Lemma tick_keeps c key ip D now order : (forall x, x ∈ order -> deletedPods c !! x.1 = Some x.2) ->
  (forall q, D q -> Kube.fresh now q = true) ->
  present c key ip -> deleted_as c key D ->
  present (cleanup_tick now c order) key ip /\ deleted_as (cleanup_tick now c order) key D.
Proof.
  intros Ho Hnow (p & Hp & Hk & Hi & Hf) Hd. split.
  - exists p. split_and!; try done. rewrite cleanup_tick_list. split; [done|]. intros [u q] Hv Hq.
    apply visited_elem in Hv as [Hin Hfr]. apply Ho in Hin. simpl in *.
    rewrite Hnow in Hfr; [done|]. apply (Hd u q); [done|congruence].
  - intros u q. rewrite cleanup_tick_deleted. case_decide; [done|]. by apply Hd.
Qed.

Lemma step_keeps c op c' key ip D : pod_step c op c' -> respects key ip D op ->
  present c key ip -> deleted_as c key D -> present c' key ip /\ deleted_as c' key D.
Proof.
  destruct 1 as [c [q| |]|c [q| |]|c k|c now order Ho|c now order Ho]; simpl; intros Hr Hp Hd; try (by split).
  - split; [|done]. destruct Hp as (p & Hp & Hk & Hi & Hf). destruct (decide (pod_key q = key)) as [E|E].
    + exists q. destruct (Hr E). cbn [indexer]. rewrite Kube.list_add. by auto.
    + exists p. cbn [indexer]. rewrite Kube.list_add. split_and!; try done. right. split; [done|congruence].
  - split; [exact Hp|]. intros u q'. cbn [deletedPods]. rewrite lookup_insert_Some.
    intros [[_ <-]|[_ Hu]]; [done|]. by eapply Hd.
  - by apply get_keeps.
  - eapply tick_keeps; [|done..]. intros x. by apply (order_lookup c order Ho).
  - by eapply tick_keeps.
Qed.

Lemma run_keeps c ops c' key ip D : pod_run c ops c' -> Forall (respects key ip D) ops ->
  present c key ip -> deleted_as c key D -> present c' key ip /\ deleted_as c' key D.
Proof.
  induction 1 as [|c op c1 ops c2 Hs _ IH]; [done|]. intros [Hop Hops]%List.Forall_cons_iff Hp Hd.
  destruct (step_keeps _ _ _ _ _ _ Hs Hop Hp Hd). by apply IH.
Qed.

(** A tick when everything in the map of deleted pods is due leaves nothing of it. *)
Lemma visited_due now order : Forall (λ x : string * Pod, Kube.fresh now x.2 = false) order -> visited now order = order.
Proof. induction 1 as [|[u p] order Hp _ IH]; [done|]. simpl in *. by rewrite Hp, IH. Qed.

Lemma due_tick c now order : order ≡ₚ map_to_list (deletedPods c) ->
  (forall u q, deletedPods c !! u = Some q -> Kube.fresh now q = false) ->
  deletedPods (cleanup_tick now c order) = ∅ /\
  forall p, p ∈ ix_list (indexer (cleanup_tick now c order)) ->
    p ∈ ix_list (indexer c) /\ forall u q, deletedPods c !! u = Some q -> pod_key p <> pod_key q.
Proof.
  intros Ho Hdue. assert (Hv : visited now order = order).
  { apply visited_due, List.Forall_forall. intros [u q] Hin. apply list_elem_of_In in Hin.
    apply (order_lookup c order Ho) in Hin. by eapply Hdue. }
  split.
  - apply map_eq. intros u. rewrite cleanup_tick_deleted, lookup_empty. case_decide as Hu; [done|].
    destruct (deletedPods c !! u) as [q|] eqn:E; [|done]. exfalso. apply Hu. rewrite Hv.
    apply list_elem_of_fmap. exists (u, q). split; [done|]. by apply (order_lookup c order Ho).
  - intros p. rewrite cleanup_tick_list, Hv. intros [Hp Hx]. split; [done|]. intros u q Hu.
    apply (Hx (u, q)). by apply (order_lookup c order Ho).
Qed.

(** C25: A deleted pod can be looked up for two minutes, and not for ever.  Take a pod of the cache that
    is not finished, and any interleaving of informer events, look-ups and cleanup ticks, complete or cut
    short, in which everything added or updated under its name keeps its address and is not finished,
    every deletion of its name carries the timestamp [t], those before the interleaving included, and
    every tick is at most two minutes after [t]; events of other names are arbitrary.  Then the pod is
    still there, and a look-up of its address finds a pod with the address, created no later than it.
    (A pod that finishes is taken out by the next look-up of its address.)  And a tick when the deletions
    of all deleted pods are more than two minutes old forgets them all, together with every pod of their
    names, in whatever order it visits them. *)
Theorem deleted_pod_attributable (c c' : PodByIPCache) (ops : list pod_op) (p : Pod) (t : Z)
    (Hrun : pod_run c ops c')
    (Hp : p ∈ ix_list (indexer c)) (Hf : finished p = false)
    (Hd : deleted_as c (pod_key p) (λ q, DeletionTimestamp q = Some t))
    (Hops : Forall (in_time (pod_key p) (PodIP p) t) ops) :
  (exists q p', (PodByIPCache_Get c' (PodIP p)).2 = Ok q /\ PodIP q = PodIP p /\
     p' ∈ ix_list (indexer c') /\ pod_key p' = pod_key p /\ CreationTimestamp q <= CreationTimestamp p') /\
  (forall now c'', pod_step c' (PTick now) c'' ->
     (forall u q s, deletedPods c' !! u = Some q -> DeletionTimestamp q = Some s -> s + two_minutes < now) ->
     deletedPods c'' = ∅ /\ forall q, q ∈ ix_list (indexer c'') ->
       forall u r, deletedPods c' !! u = Some r -> pod_key q <> pod_key r).
Proof.
  pose proof (Forall_impl _ _ _ Hops (in_time_respects _ _ _)) as Hops'. clear Hops.
  destruct (run_keeps _ _ _ _ _ _ Hrun Hops') as [(p' & Hp' & Hk & Hi & _) _]; [by exists p|done|]. split.
  - destruct (PodByIPCache_Get_cases c' (PodIP p)) as [[_ Hno]|(q & (Hq & Hqi & Hmin) & ->)].
    + by destruct (Hno p').
    + exists q, p'. split_and!; try done. by apply Hmin.
  - intros now c'' Hs Hdue. inversion Hs as [| | |? ? order Ho|]; subst.
    destruct (due_tick c' now order Ho) as [H1 H2]; [by eauto using fresh_false|]. split; [done|]. intros q Hq. by apply H2.
Qed.

(** A deletion the cache is not told of leaves the pod there for ever: the informer reports one it has
    missed as a tombstone, which is no pod and is ignored, and no cleanup, however late, removes it. *)
Theorem tombstone_leaves_pod (c c' : PodByIPCache) (ops : list pod_op) (p : Pod)
    (Hrun : pod_run c (PDelete OOther :: ops) c')
    (Hp : p ∈ ix_list (indexer c)) (Hf : finished p = false)
    (Hd : deleted_as c (pod_key p) (λ _, False))
    (Hops : Forall (respects (pod_key p) (PodIP p) (λ _, False)) ops) :
  exists q, (PodByIPCache_Get c' (PodIP p)).2 = Ok q /\ PodIP q = PodIP p.
Proof.
  destruct (run_keeps _ _ _ (pod_key p) (PodIP p) (λ _, False) Hrun) as [(p' & Hp' & Hk & Hi & _) _];
    [by constructor|by exists p|done|].
  destruct (PodByIPCache_Get_cases c' (PodIP p)) as [[_ Hno]|(q & (Hq & Hqi & Hmin) & ->)].
  - by destruct (Hno p').
  - by exists q.
Qed.
End history.

(** * A history *)
#[local] Existing Instance mem_pods.
#[local] Existing Instance mem_pods_spec.

(** The pod web-0 is deleted at 1000 ns, another one is looked up, and the cleanup ticks after a
    minute. *)
Definition web_ops : list pod_op := [PDelete (OPod web_old); PGet "10.4.0.8"; PTick Minute].
Definition web_c1 : PodByIPCache := PodByIP_onDelete pods0 (OPod web_old).
Definition web_c2 : PodByIPCache := (PodByIPCache_Get web_c1 "10.4.0.8").1.
Definition web_c3 : PodByIPCache := cleanup_tick Minute web_c2 (map_to_list (deletedPods web_c2)).

Lemma web_run : pod_run pods0 web_ops web_c3.
Proof.
  eapply run_cons; [apply p_delete|]. eapply run_cons; [apply p_get|].
  eapply run_cons; [by apply (p_tick _ Minute (map_to_list (deletedPods web_c2)))|]. apply run_nil.
Qed.

Lemma deleted_pod_attributable_witness :
  (PodByIPCache_Get web_c3 "10.4.0.7").2 = Ok web_old /\
  exists q p', (PodByIPCache_Get web_c3 (PodIP web_old)).2 = Ok q /\ PodIP q = PodIP web_old /\
    p' ∈ ix_list (indexer web_c3) /\ pod_key p' = pod_key web_old /\ CreationTimestamp q <= CreationTimestamp p'.
Proof.
  split; [vm_compute; reflexivity|].
  refine (proj1 (deleted_pod_attributable pods0 web_c3 web_ops web_old 1000 web_run _ _ _ _)).
  - apply elem_of_mem_list. vm_compute. reflexivity.
  - reflexivity.
  - intros u q Hu. vm_compute in Hu. discriminate Hu.
  - repeat constructor. vm_compute. discriminate.
Defined.
