(* ===== verification/Collector.v ===== *)
(** The collector: src/collector/collector.go.

    It reads the connections of the node's pods periodically, turns the counters of each connection
    into increments against the values it saw before, and adds them to one metric per source,
    destination and protocol, which the exporter fetches.

    The state is the record [Collector] of the cache of connections, the metrics and the
    first-collection flag; [collect], [cleanup] and [GetRawNetworkMetricsHandler] are functions on
    it.  The pod watcher, the connection tracking client, the seeded hash functions, the clock and
    the outcome of writing a response are arguments.  Every operation holds the mutex while it
    changes the state, so a run is a sequence of operations. *)
From S2P Require Import Prelude GoBase Conntrack Dns Kube.
From stdpp Require Import base numbers list strings gmap.
Local Open Scope string_scope.
Local Open Scope list_scope.
Local Open Scope Z_scope.
Local Open Scope egress_scope.

(** The members the operations read; the others name the node and select debug output. *)
Record Config := MkConfig {
  ReadInterval : Z;
  CleanupInterval : Z;
  ExcludeNamespaces : string;
  GroupPublicIPs : bool;
  SendTrafficDelta : bool
}.

Section collector.
Context `{N : Netaddr}.
(* strings.Split(s, ",") *)
Context (split_comma : string -> list string).
(* Sum64 of the two maphash.Hash variables after writing the bytes *)
Context (entryGroupHash conntrackEntryHash : list Z -> Z).

(** [pb.RawNetworkMetric] with the lifetime. *)
Record rawNetworkMetric := MkMetric {
  mSrcIp : Z;
  mDstIp : Z;
  mTxBytes : Z;
  mTxPackets : Z;
  mRxBytes : Z;
  mRxPackets : Z;
  mProto : Z;
  mlifetime : Z
}.

Record Collector := MkCollector {
  cfg : Config;
  excludeNsMap : list string;
  entriesCache : gmap Z Entry;
  podMetrics : gmap Z rawNetworkMetric;
  firstCollectDone : bool
}.

Definition New (cfg : Config) : result Collector :=
  let excludeNsMap :=
    if String.eqb (ExcludeNamespaces cfg) "" then [] else split_comma (ExcludeNamespaces cfg) in
  if ReadInterval cfg =? 0 then Panic
  else if CleanupInterval cfg =? 0 then Panic
  else Ok (MkCollector cfg excludeNsMap ∅ ∅ false).

(** * Keys *)

(** Groups by src, dst and protocol. *)
Definition entryGroupKey (conn : Entry) : result Z :=
  try srcIP := deref (As4 (ipp_ip (Src conn))) in
  try dstIP := deref (As4 (ipp_ip (Dst conn))) in
  Ok (entryGroupHash (srcIP ++ dstIP ++ [Proto conn])).

Definition conntrackEntryKey (conn : Entry) : result Z :=
  try srcIP := deref (As4 (ipp_ip (Src conn))) in
  let srcPort := le_split 2 (ipp_port (Src conn)) in
  try dstIP := deref (As4 (ipp_ip (Dst conn))) in
  let dstPort := le_split 2 (ipp_port (Dst conn)) in
  Ok (conntrackEntryHash (srcIP ++ srcPort ++ dstIP ++ dstPort ++ [Proto conn])).

Definition isPrivateNetwork (ip : IP) : bool :=
  IsPrivate ip || IsLoopback ip || IsMulticast ip || IsLinkLocalUnicast ip ||
  IsLinkLocalMulticast ip || IsInterfaceLocalMulticast ip.

(** * Pods *)
Definition getNodePods (c : Collector) (watcher : result (list Pod)) : result (list Pod) :=
  try pods := watcher in
  Ok (List.filter (λ pod,
    negb (String.eqb (PodIP pod) "") && negb (HostNetwork pod) &&
    negb (bool_decide (Namespace pod ∈ excludeNsMap c))) pods).

(** [netaddr.MustParseIP] panics on a string that is no address. *)
Fixpoint getPodIPs (pods : list Pod) : result (list IP) :=
  match pods with
  | [] => Ok []
  | pod :: pods' =>
      try ip := deref (ParseIP (PodIP pod)) in
      try ips := getPodIPs pods' in
      Ok (ip :: ips)
  end.

(** * collect *)

(** [lo.Ternary(x < y, 0, x - y)] on uint64. *)
Definition increment (x y : Z) : Z := if x <? y then 0 else wrap 64 (x - y).

(** [pm.F += int64(x)] *)
Definition add64 (m x : Z) : Z := swrap 64 (m + swrap 64 x).

Definition set_Dst (e : Entry) (d : IPPort) : Entry :=
  MkEntry (Src e) d (TxBytes e) (TxPackets e) (RxBytes e) (RxPackets e) (Lifetime e) (Proto e).

(** [if c.cfg.GroupPublicIPs && !isPrivateNetwork(conn.Dst.IP()) { conn.Dst = 0.0.0.0:0 }] *)
Definition group_conn (cfg : Config) (conn : Entry) : Entry :=
  if GroupPublicIPs cfg && negb (isPrivateNetwork (ipp_ip (Dst conn)))
  then set_Dst conn (IPPortFrom _ (IPv4 0 0 0 0) 0) else conn.

(** One connection of the list.  The cache holds the pointer [conn], so the destination the grouping
    overwrites is overwritten in the cached entry as well. *)
Definition collect_conn (c : Collector) (conn : Entry) : result Collector :=
  try connKey := conntrackEntryKey conn in
  let '(txBytes, rxBytes, txPackets, rxPackets) :=
    match entriesCache c !! connKey with
    | Some cachedConn =>
        (increment (TxBytes conn) (TxBytes cachedConn), increment (RxBytes conn) (RxBytes cachedConn),
         increment (TxPackets conn) (TxPackets cachedConn),
         increment (RxPackets conn) (RxPackets cachedConn))
    | None => (TxBytes conn, RxBytes conn, TxPackets conn, RxPackets conn)
    end in
  let c := MkCollector (cfg c) (excludeNsMap c) (<[connKey := conn]> (entriesCache c))
             (podMetrics c) (firstCollectDone c) in
  if SendTrafficDelta (cfg c) && negb (firstCollectDone c) then Ok c
  else
    let conn := group_conn (cfg c) conn in
    let c := MkCollector (cfg c) (excludeNsMap c) (<[connKey := conn]> (entriesCache c))
               (podMetrics c) (firstCollectDone c) in
    try groupKey := entryGroupKey conn in
    match podMetrics c !! groupKey with
    | Some pm =>
        let pm := MkMetric (mSrcIp pm) (mDstIp pm) (add64 (mTxBytes pm) txBytes)
                    (add64 (mTxPackets pm) txPackets) (add64 (mRxBytes pm) rxBytes)
                    (add64 (mRxPackets pm) rxPackets) (mProto pm)
                    (if After (Lifetime conn) (mlifetime pm) then Lifetime conn else mlifetime pm) in
        Ok (MkCollector (cfg c) (excludeNsMap c) (entriesCache c) (<[groupKey := pm]> (podMetrics c))
              (firstCollectDone c))
    | None =>
        try src := ToIPint32 (ipp_ip (Src conn)) in
        try dst := ToIPint32 (ipp_ip (Dst conn)) in
        let pm := MkMetric src dst (swrap 64 txBytes) (swrap 64 txPackets) (swrap 64 rxBytes)
                    (swrap 64 rxPackets) (Proto conn) (Lifetime conn) in
        Ok (MkCollector (cfg c) (excludeNsMap c) (entriesCache c) (<[groupKey := pm]> (podMetrics c))
              (firstCollectDone c))
    end.

Definition collect (c : Collector) (watcher : result (list Pod))
    (ListEntries : EntriesFilter -> result (list Entry)) : result Collector :=
  match getNodePods c watcher with
  | Err e => Err ("getting node pods: " +:+ e)
  | Panic => Panic
  | Ok pods =>
      try ips := getPodIPs pods in
      match ListEntries (FilterBySrcIP ips) with
      | Err e => Err ("listing conntrack entries: " +:+ e)
      | Panic => Panic
      | Ok conns =>
          try c := foldr_result collect_conn c conns in
          Ok (MkCollector (cfg c) (excludeNsMap c) (entriesCache c) (podMetrics c) true)
      end
  end.

(** * cleanup *)
Definition cleanup (c : Collector) (now : Z) : Collector :=
  MkCollector (cfg c) (excludeNsMap c)
    (filter (λ kv : Z * Entry, After now (Lifetime (snd kv)) = false) (entriesCache c))
    (filter (λ kv : Z * rawNetworkMetric, After now (mlifetime (snd kv)) = false) (podMetrics c))
    (firstCollectDone c).

(** * The metrics handler *)

Definition reset_metric (now : Z) (m : rawNetworkMetric) : rawNetworkMetric :=
  let newLifetime := now + 2 * Minute in
  MkMetric (mSrcIp m) (mDstIp m) 0 0 0 0 (mProto m)
    (if After (mlifetime m) newLifetime then newLifetime else mlifetime m).

(** Every metric is reset, each with its own reading of the clock. *)
Definition reset_metrics (now : Z -> Z) (ms : gmap Z rawNetworkMetric) : gmap Z rawNetworkMetric :=
  map_imap (λ k m, Some (reset_metric (now k) m)) ms.

(** The outcome of a request: the items and DNS records marshalled into the body, or a failure. *)
Inductive response :=
| Body (items : list rawNetworkMetric) (ip2domain : list (Z * string))
| MarshalFailed
| WriteFailed (items : list rawNetworkMetric) (ip2domain : list (Z * string)).

Definition GetRawNetworkMetricsHandler (c : Collector) (records : list (Z * string))
    (marshal_ok write_ok : bool) (now : Z -> Z) : Collector * response :=
  let items := (map_to_list (podMetrics c)).*2 in
  if negb marshal_ok then (c, MarshalFailed)
  else if negb write_ok then (c, WriteFailed items records)
  else if SendTrafficDelta (cfg c) then
    (MkCollector (cfg c) (excludeNsMap c) (entriesCache c) (reset_metrics now (podMetrics c))
       (firstCollectDone c), Body items records)
  else (c, Body items records).

(** * Accounting *)

(** The four counters of entries and metrics. *)
Inductive ctr := CTxBytes | CTxPackets | CRxBytes | CRxPackets.
Definition ectr (q : ctr) (e : Entry) : Z :=
  match q with
  | CTxBytes => TxBytes e | CTxPackets => TxPackets e
  | CRxBytes => RxBytes e | CRxPackets => RxPackets e
  end.
Definition mctr (q : ctr) (m : rawNetworkMetric) : Z :=
  match q with
  | CTxBytes => mTxBytes m | CTxPackets => mTxPackets m
  | CRxBytes => mRxBytes m | CRxPackets => mRxPackets m
  end.

(** The metric of a group, 0 if there is none. *)
Definition pending (c : Collector) (g : Z) (q : ctr) : Z :=
  match podMetrics c !! g with Some m => mctr q m | None => 0 end.

(** ** A meter of the listings *)

(** What the collector is shown of a connection, by its key: its counters at the first collection of
    delta mode, which only sets the baseline; its counters in a later listing, with its group; and that
    a cleanup forgot it.  A history has the newest event first. *)
Inductive event :=
| EBaseline (k : Z) (v : ctr -> Z)
| ESeen (k g : Z) (v : ctr -> Z)
| EForgotten (k : Z).

(** The counter a connection was last shown with, if it has not been forgotten since. *)
Fixpoint last_seen (h : list event) (k : Z) (q : ctr) : option Z :=
  match h with
  | [] => None
  | EBaseline k' v :: h | ESeen k' _ v :: h => if k' =? k then Some (v q) else last_seen h k q
  | EForgotten k' :: h => if k' =? k then None else last_seen h k q
  end.

(** By how much a counter has risen: not at all if it fell, and from zero if nothing is known. *)
Definition rise (last : option Z) (v : Z) : Z :=
  match last with Some l => Z.max 0 (v - l) | None => v end.

(** All the rises in a group, and those of one connection in it. *)
Fixpoint risen (h : list event) (g : Z) (q : ctr) : Z :=
  match h with
  | [] => 0
  | ESeen k g' v :: h => risen h g q + (if g' =? g then rise (last_seen h k q) (v q) else 0)
  | _ :: h => risen h g q
  end.
Fixpoint risen_by (h : list event) (k g : Z) (q : ctr) : Z :=
  match h with
  | [] => 0
  | ESeen k' g' v :: h =>
      risen_by h k g q + (if (k' =? k) && (g' =? g) then rise (last_seen h k q) (v q) else 0)
  | _ :: h => risen_by h k g q
  end.

(** The connections that were counted. *)
Fixpoint seen (h : list event) : list Z :=
  match h with
  | [] => []
  | ESeen k _ _ :: h => k :: seen h
  | _ :: h => seen h
  end.
Definition sum_over (f : Z -> Z) (ks : list Z) : Z := foldr (λ k n, n + f k) 0 ks.

(** What a listing shows; a connection whose addresses have no bytes shows nothing. *)
Definition observation (cfg : Config) (baseline : bool) (conn : Entry) : list event :=
  match conntrackEntryKey conn with
  | Ok k =>
      if baseline then [EBaseline k (λ q, ectr q conn)]
      else match entryGroupKey (group_conn cfg conn) with
           | Ok g => [ESeen k g (λ q, ectr q conn)]
           | _ => []
           end
  | _ => []
  end.
Definition observe (cfg : Config) (baseline : bool) (conns : list Entry) (h : list event) : list event :=
  fold_left (λ h conn, observation cfg baseline conn ++ h) conns h.

(** Accounts kept beside the state: what was sent, what was shown, and what the metrics dropped by
    cleanup had not sent. *)
Record accounts := Accounts {
  sent : Z -> ctr -> Z;
  history : list event;
  dropped : Z -> ctr -> Z
}.

Definition baselining (c : Collector) : bool := SendTrafficDelta (cfg c) && negb (firstCollectDone c).

(** The accounts after a collection that listed [conns], a cleanup and a request. *)
Definition collected (c : Collector) (conns : list Entry) (a : accounts) : accounts :=
  Accounts (sent a) (observe (cfg c) (baselining c) conns (history a)) (dropped a).
Definition cleaned (c : Collector) (now : Z) (a : accounts) : accounts :=
  Accounts (sent a)
    (map EForgotten (map_to_list (filter (λ kv : Z * Entry, After now (Lifetime (snd kv)) = true)
                                    (entriesCache c))).*1 ++ history a)
    (λ g q, dropped a g q +
            match podMetrics c !! g with
            | Some m => if After now (mlifetime m) then mctr q m else 0
            | None => 0
            end).
Definition served (c : Collector) (r : response) (a : accounts) : accounts :=
  match r with
  | Body _ _ =>
      if SendTrafficDelta (cfg c)
      then Accounts (λ g q, sent a g q + pending c g q) (history a) (dropped a)
      else a
  | _ => a
  end.

(** A run: collections of any listings, failed collections, cleanups and requests. *)
Inductive step : Collector * accounts -> Collector * accounts -> Prop :=
| step_collect c a watcher LE c' pods ips conns :
    getNodePods c watcher = Ok pods -> getPodIPs pods = Ok ips ->
    LE (FilterBySrcIP ips) = Ok conns -> collect c watcher LE = Ok c' ->
    step (c, a) (c', collected c conns a)
| step_collect_error c a watcher LE e :
    collect c watcher LE = Err e -> step (c, a) (c, a)
| step_cleanup c a now : step (c, a) (cleanup c now, cleaned c now a)
| step_serve c a records mok wok now c' r :
    GetRawNetworkMetricsHandler c records mok wok now = (c', r) -> step (c, a) (c', served c r a).

Definition no_accounts : accounts := Accounts (λ _ _, 0) [] (λ _ _, 0).

(** ** One connection *)

Definition counting (c : Collector) : bool := negb (baselining c).

(** The increment of a counter over the cached entry. *)
Definition delta (c : Collector) (k : Z) (conn : Entry) (q : ctr) : Z :=
  match entriesCache c !! k with
  | Some e0 => increment (ectr q conn) (ectr q e0)
  | None => ectr q conn
  end.

Lemma ectr_group_conn cf q e : ectr q (group_conn cf e) = ectr q e.
Proof. unfold group_conn. case_if; by destruct q. Qed.

Lemma group_conn_idem cf e : group_conn cf (group_conn cf e) = group_conn cf e.
Proof.
  unfold group_conn at 2 3. destruct (_ && _) eqn:H1; unfold group_conn; [|by rewrite H1].
  by case_if.
Qed.

(** In the first collection of delta mode only the cache changes. *)
Lemma collect_conn_first c conn c' :
  counting c = false -> collect_conn c conn = Ok c' ->
  exists k, conntrackEntryKey conn = Ok k /\
    c' = MkCollector (cfg c) (excludeNsMap c) (<[k := conn]> (entriesCache c)) (podMetrics c)
           (firstCollectDone c).
Proof.
  unfold counting, baselining. intros Hc%negb_false_iff H. unfold collect_conn in H.
  apply rbind_ok in H as (k & Hk & H). exists k. split; [done|].
  destruct (entriesCache c !! k); cbn [cfg firstCollectDone excludeNsMap podMetrics entriesCache] in H;
    rewrite Hc in H; by injection H as <-.
Qed.

(** Otherwise the group's metric grows by the increments. *)
Lemma collect_conn_counting c conn c' :
  counting c = true -> collect_conn c conn = Ok c' ->
  exists k g pm, conntrackEntryKey conn = Ok k /\
    entryGroupKey (group_conn (cfg c) conn) = Ok g /\
    c' = MkCollector (cfg c) (excludeNsMap c)
           (<[k := group_conn (cfg c) conn]> (entriesCache c)) (<[g := pm]> (podMetrics c))
           (firstCollectDone c) /\
    match podMetrics c !! g with
    | Some pm0 =>
        (forall q, mctr q pm = add64 (mctr q pm0) (delta c k conn q)) /\
        (mSrcIp pm, mDstIp pm, mProto pm) = (mSrcIp pm0, mDstIp pm0, mProto pm0) /\
        mlifetime pm = Z.max (mlifetime pm0) (Lifetime conn)
    | None =>
        (forall q, mctr q pm = swrap 64 (delta c k conn q)) /\
        ToIPint32 (ipp_ip (Src conn)) = Ok (mSrcIp pm) /\
        ToIPint32 (ipp_ip (Dst (group_conn (cfg c) conn))) = Ok (mDstIp pm) /\
        mProto pm = Proto conn /\ mlifetime pm = Lifetime conn
    end.
Proof.
  unfold counting, baselining. intros Hc%negb_true_iff H. unfold collect_conn in H.
  apply rbind_ok in H as (k & Hk & H). exists k.
  assert (Src (group_conn (cfg c) conn) = Src conn /\ Proto (group_conn (cfg c) conn) = Proto conn /\
    Lifetime (group_conn (cfg c) conn) = Lifetime conn) as (Hsrc & Hpr & Hlt)
    by (unfold group_conn; by case_if).
  revert H. cbn [cfg firstCollectDone excludeNsMap podMetrics entriesCache].
  generalize (group_conn (cfg c) conn) Hsrc Hpr Hlt. intros conn' Hs Hp Hl.
  unfold delta. destruct (entriesCache c !! k) as [e0|]; rewrite Hc; rewrite insert_insert_eq;
    intros (g & Hg & H)%rbind_ok; exists g;
    destruct (podMetrics c !! g) as [pm0|] eqn:Hpm; cbn zeta in H; inv_ok; subst c';
    (eexists; split_and!; [done|done|reflexivity|..]); cbn; try (intros []; reflexivity);
    try done; rewrite ?Hl, ?Hp, <- ?Hs; try done.
  all: unfold After; case_if; simplify_bool; lia.
Qed.

(** ** Congruence modulo 2^64 *)
Definition cong (x y : Z) : Prop := exists n, x = y + n * 2 ^ 64.

Lemma cong_wrap_eq x y : cong x y <-> wrap 64 x = wrap 64 y.
Proof.
  unfold cong, wrap. split.
  - intros [n ->]. apply Z_mod_plus_full.
  - intros H. exists (x / 2 ^ 64 - y / 2 ^ 64).
    pose proof (Z.div_mod x (2 ^ 64) ltac:(lia)). pose proof (Z.div_mod y (2 ^ 64) ltac:(lia)). lia.
Qed.

Lemma cong_swrap x : cong (swrap 64 x) x.
Proof. apply cong_wrap_eq. by apply wrap_swrap. Qed.

Lemma cong_add64 m x : cong (add64 m x) (m + x).
Proof.
  unfold add64. destruct (cong_swrap (m + swrap 64 x)) as [n1 ->], (cong_swrap x) as [n2 ->].
  exists (n1 + n2). lia.
Qed.

Lemma cong_increment x y : cong (increment x y) (Z.max 0 (x - y)).
Proof.
  unfold increment. destruct (Z.ltb_spec x y); [exists 0; lia|].
  rewrite Z.max_r by lia. apply cong_wrap_eq. apply wrap_wrap.
Qed.

Lemma pending_insert c g pm g' q :
  pending (MkCollector (cfg c) (excludeNsMap c) (entriesCache c) (<[g := pm]> (podMetrics c))
             (firstCollectDone c)) g' q =
    if g' =? g then mctr q pm else pending c g' q.
Proof.
  unfold pending. cbn [podMetrics]. destruct (Z.eqb_spec g' g) as [ -> |].
  - by rewrite lookup_insert_eq.
  - by rewrite lookup_insert_ne.
Qed.

(** The history knows of every connection what the cache holds. *)
Definition metered (c : Collector) (h : list event) : Prop :=
  forall k q, last_seen h k q = ectr q <$> entriesCache c !! k.

Lemma metered_insert c h k e ms fd (E : event) v :
  metered c h -> E = EBaseline k v \/ (exists g, E = ESeen k g v) -> (forall q, v q = ectr q e) ->
  metered (MkCollector (cfg c) (excludeNsMap c) (<[k := e]> (entriesCache c)) ms fd) (E :: h).
Proof.
  intros Hm HE Hv k' q. cbn [entriesCache].
  assert (last_seen (E :: h) k' q = if k =? k' then Some (v q) else last_seen h k' q) as ->
    by (by destruct HE as [-> | [g ->]]).
  destruct (Z.eqb_spec k k') as [-> | Hne]; [by rewrite lookup_insert_eq, Hv|].
  by rewrite lookup_insert_ne, Hm.
Qed.

(** One counted connection moves the metric of its group by its rise. *)
Lemma collect_conn_accounts c conn c' h :
  collect_conn c conn = Ok c' -> metered c h ->
  let h' := observation (cfg c) (baselining c) conn ++ h in
  metered c' h' /\ forall g q, cong (pending c' g q + risen h g q) (pending c g q + risen h' g q).
Proof.
  intros H Hm. cbv zeta. destruct (counting c) eqn:Hc.
  - destruct (collect_conn_counting _ _ _ Hc H) as (k & g & pm & Hk & Hg & -> & Hpm).
    apply negb_true_iff in Hc. unfold observation. rewrite Hk, Hc, Hg. split.
    { eapply metered_insert; [done|right; by eexists|]. intros q. by rewrite ectr_group_conn. }
    intros g' q. cbn [app risen].
    assert (cong (delta c k conn q) (rise (last_seen h k q) (ectr q conn))) as [n1 E1].
    { unfold delta. rewrite Hm. destruct (entriesCache c !! k); cbn; [apply cong_increment|exists 0; lia]. }
    unfold pending. cbn [podMetrics]. destruct (Z.eqb_spec g g') as [<- | Hne];
      [rewrite lookup_insert_eq|rewrite lookup_insert_ne by done; exists 0; lia].
    assert (cong (mctr q pm) (match podMetrics c !! g with Some m => mctr q m | None => 0 end + delta c k conn q))
      as [n2 E2].
    { destruct (podMetrics c !! g) as [pm0|]; destruct Hpm as [-> _]; [apply cong_add64|apply cong_swrap]. }
    exists (n1 + n2). lia.
  - destruct (collect_conn_first _ _ _ Hc H) as (k & Hk & ->). apply negb_false_iff in Hc.
    unfold observation. rewrite Hk, Hc. split; [eapply metered_insert; [done|by left|done]|].
    intros g q. exists 0. cbn [app risen]. unfold pending. cbn [podMetrics]. lia.
Qed.

(** ** Lists of connections *)

Definition same_settings (c c' : Collector) : Prop :=
  cfg c' = cfg c /\ excludeNsMap c' = excludeNsMap c /\ firstCollectDone c' = firstCollectDone c.

Lemma collect_conn_settings c conn c' : collect_conn c conn = Ok c' -> same_settings c c'.
Proof.
  intros H. destruct (counting c) eqn:Hc.
  - by destruct (collect_conn_counting _ _ _ Hc H) as (k & g & pm & _ & _ & -> & _).
  - by destruct (collect_conn_first _ _ _ Hc H) as (k & _ & ->).
Qed.

Lemma same_settings_counting c c' : same_settings c c' -> counting c' = counting c.
Proof. intros (H1 & _ & H3). unfold counting, baselining. by rewrite H1, H3. Qed.

Lemma collect_conns_settings c conns c' :
  foldr_result collect_conn c conns = Ok c' -> same_settings c c'.
Proof.
  apply (foldr_result_inv (same_settings c)); [|done].
  intros c1 a c2 _ (H1 & H2 & H3) (H1' & H2' & H3')%collect_conn_settings.
  repeat split; congruence.
Qed.

Lemma collect_conns_accounts c conns c' h :
  foldr_result collect_conn c conns = Ok c' -> metered c h ->
  let h' := observe (cfg c) (baselining c) conns h in
  metered c' h' /\ forall g q, cong (pending c' g q + risen h g q) (pending c g q + risen h' g q).
Proof.
  cbv zeta. revert c h. induction conns as [|conn conns IH]; intros c h H Hm.
  { injection H as <-. split; [done|]. intros g q. exists 0. cbn [observe fold_left]. lia. }
  apply rbind_ok in H as (c1 & H1 & H). pose proof (collect_conn_settings _ _ _ H1) as Hset.
  destruct (collect_conn_accounts c conn c1 h H1 Hm) as [Hm1 Ha].
  assert (cfg c1 = cfg c /\ baselining c1 = baselining c) as [E1 E2]
    by (unfold baselining; by destruct Hset as (-> & _ & ->)).
  destruct (IH c1 _ H Hm1) as [Hm' Ha']. rewrite E1, E2 in *. split; [exact Hm'|].
  intros g q. destruct (Ha g q) as [n1 ?], (Ha' g q) as [n2 ?]. exists (n1 + n2).
  unfold observe in *. cbn [fold_left] in *. lia.
Qed.

(** ** The invariant *)

Definition balanced (s : Collector * accounts) : Prop :=
  let '(c, a) := s in
  metered c (history a) /\
  forall g q, cong (sent a g q + pending c g q + dropped a g q) (risen (history a) g q).

Lemma collect_inv c watcher LE c' pods ips conns :
  getNodePods c watcher = Ok pods -> getPodIPs pods = Ok ips ->
  LE (FilterBySrcIP ips) = Ok conns -> collect c watcher LE = Ok c' ->
  exists c1, foldr_result collect_conn c conns = Ok c1 /\
    c' = MkCollector (cfg c1) (excludeNsMap c1) (entriesCache c1) (podMetrics c1) true.
Proof.
  intros Hp Hi Hl H. unfold collect in H. rewrite Hp, Hi in H. cbn [rbind] in H. rewrite Hl in H.
  apply rbind_ok in H as (c1 & H1 & [= <-]). by exists c1.
Qed.

Lemma balanced_collect c a watcher LE c' pods ips conns :
  getNodePods c watcher = Ok pods -> getPodIPs pods = Ok ips ->
  LE (FilterBySrcIP ips) = Ok conns -> collect c watcher LE = Ok c' -> balanced (c, a) ->
  balanced (c', collected c conns a).
Proof.
  intros Hp Hi Hl Hcol (Hm & Hbal).
  destruct (collect_inv _ _ _ _ _ _ _ Hp Hi Hl Hcol) as (c1 & Hf & ->).
  destruct (collect_conns_accounts _ _ _ _ Hf Hm) as [Hm' Ha]. split; [exact Hm'|].
  intros g q. destruct (Ha g q) as [n1 E1], (Hbal g q) as [n2 E2]. cbn [collected sent history dropped].
  change (pending (MkCollector _ _ _ (podMetrics c1) _) g q) with (pending c1 g q).
  exists (n1 + n2). lia.
Qed.

(** Forgetting connections moves no total. *)
Lemma risen_forgotten ks h g q : risen (map EForgotten ks ++ h) g q = risen h g q.
Proof. by induction ks as [|k ks IH]. Qed.
Lemma last_seen_forgotten ks h k q :
  last_seen (map EForgotten ks ++ h) k q = if decide (k ∈ ks) then None else last_seen h k q.
Proof.
  induction ks as [|k' ks IH]; cbn [map app last_seen].
  - case_decide as H; [by apply elem_of_nil in H|done].
  - rewrite IH. destruct (Z.eqb_spec k' k) as [-> | Hne].
    + by rewrite decide_True by left.
    + apply decide_ext. rewrite elem_of_cons. naive_solver.
Qed.

Lemma metered_cleanup c h now : metered c h ->
  metered (cleanup c now)
    (map EForgotten (map_to_list (filter (λ kv : Z * Entry, After now (Lifetime (snd kv)) = true)
                                    (entriesCache c))).*1 ++ h).
Proof.
  intros Hm k q. rewrite last_seen_forgotten, Hm. unfold cleanup. cbn [entriesCache].
  rewrite map_lookup_filter. destruct (entriesCache c !! k) as [e|] eqn:E; cbn [mbind option_bind snd].
  - destruct (After now (Lifetime e)) eqn:HA.
    + rewrite decide_True, option_guard_False by (done ||
        (apply list_elem_of_fmap; exists (k, e); split; [done|]; by apply elem_of_map_to_list, map_lookup_filter_Some)).
      done.
    + rewrite option_guard_True by done. rewrite decide_False; [done|]. intros ([k' e'] & -> & Hin)%list_elem_of_fmap.
      apply elem_of_map_to_list, map_lookup_filter_Some in Hin as [Hin He]. cbn in *. congruence.
  - by destruct (decide _).
Qed.

Lemma balanced_cleanup c a now : balanced (c, a) -> balanced (cleanup c now, cleaned c now a).
Proof.
  intros (Hm & Hbal). split; [by apply metered_cleanup|].
  intros g q. destruct (Hbal g q) as [n E]. exists n. cbn [cleaned sent history dropped]. rewrite risen_forgotten.
  assert (pending c g q = pending (cleanup c now) g q +
    match podMetrics c !! g with
    | Some m => if After now (mlifetime m) then mctr q m else 0 | None => 0 end) as Hp; [|lia].
  unfold pending, cleanup. cbn [podMetrics]. rewrite map_lookup_filter.
  destruct (podMetrics c !! g) as [m|]; [|done]. cbn [mbind option_bind snd].
  destruct (After now (mlifetime m)) eqn:HA.
  - rewrite option_guard_False by done. cbn. lia.
  - rewrite option_guard_True by done. cbn. lia.
Qed.

Lemma balanced_serve c a records mok wok now c' r :
  GetRawNetworkMetricsHandler c records mok wok now = (c', r) -> balanced (c, a) ->
  balanced (c', served c r a).
Proof.
  unfold GetRawNetworkMetricsHandler. intros H Hb.
  destruct mok; [|by injection H as <- <-]. destruct wok; [|by injection H as <- <-].
  cbn [negb] in H. unfold served. destruct (SendTrafficDelta (cfg c)) eqn:Hd; injection H as <- <-; [|done].
  destruct Hb as (Hm & Hbal). split; [exact Hm|].
  intros g q. destruct (Hbal g q) as [n E]. exists n. cbn [sent dropped history].
  assert (pending (MkCollector (cfg c) (excludeNsMap c) (entriesCache c)
    (reset_metrics now (podMetrics c)) (firstCollectDone c)) g q = 0) as ->; [|lia].
  unfold pending, reset_metrics. cbn [podMetrics]. rewrite map_lookup_imap.
  destruct (podMetrics c !! g); cbn; [by destruct q|done].
Qed.

Lemma balanced_step s s' : step s s' -> balanced s -> balanced s'.
Proof.
  intros Hst Hb. destruct Hst.
  - by eapply balanced_collect.
  - done.
  - by apply balanced_cleanup.
  - by eapply balanced_serve.
Qed.

Lemma balanced_run s s' : rtc step s s' -> balanced s -> balanced s'.
Proof. induction 1; eauto using balanced_step. Qed.

(** ** Pods and lifetimes *)

Lemma getPodIPs_elem pods ips ip :
  getPodIPs pods = Ok ips -> ip ∈ ips -> exists pod, pod ∈ pods /\ ParseIP (PodIP pod) = Some ip.
Proof.
  revert ips. induction pods as [|pod pods IH]; intros ips H Hin; cbn in H.
  { injection H as <-. by apply elem_of_nil in Hin. }
  apply rbind_ok in H as (ip0 & H0 & (ips0 & H1 & [= <-])%rbind_ok).
  apply elem_of_cons in Hin as [ -> |Hin].
  - exists pod. split; [by left|]. destruct (ParseIP (PodIP pod)); by inversion H0.
  - destruct (IH _ H1 Hin) as (pod' & ? & ?). exists pod'. split; [by right|done].
Qed.

(** The pods the collector tracks. *)
Definition tracked (c : Collector) (pods : list Pod) (pod : Pod) : Prop :=
  pod ∈ pods /\ PodIP pod <> "" /\ HostNetwork pod = false /\ Namespace pod ∉ excludeNsMap c.

Lemma getNodePods_tracked c pods pods' pod :
  getNodePods c (Ok pods) = Ok pods' -> pod ∈ pods' <-> tracked c pods pod.
Proof.
  cbn. intros [= <-]. rewrite list_elem_of_In, List.filter_In, <- list_elem_of_In.
  rewrite !andb_true_iff, !negb_true_iff, bool_decide_eq_false, String.eqb_neq. unfold tracked. tauto.
Qed.

(** A metric's source is a source it had or that of one of the connections. *)
Lemma collect_conns_src c conns c' g m :
  foldr_result collect_conn c conns = Ok c' -> podMetrics c' !! g = Some m ->
  (exists m0, podMetrics c !! g = Some m0 /\ mSrcIp m0 = mSrcIp m) \/
  (exists conn, conn ∈ conns /\ ToIPint32 (ipp_ip (Src conn)) = Ok (mSrcIp m)).
Proof.
  intros H. revert g m. apply (foldr_result_inv (λ d, forall g m, podMetrics d !! g = Some m ->
    (exists m0, podMetrics c !! g = Some m0 /\ mSrcIp m0 = mSrcIp m) \/
    (exists conn, conn ∈ conns /\ ToIPint32 (ipp_ip (Src conn)) = Ok (mSrcIp m)))
    collect_conn c conns c'); [|by eauto|done].
  clear c' H. intros c1 conn c2 Hin IH H g m Hm. destruct (counting c1) eqn:Hc.
  - destruct (collect_conn_counting _ _ _ Hc H) as (k & g' & pm & _ & _ & -> & Hpm).
    cbn [podMetrics] in Hm. apply lookup_insert_Some in Hm as [[<- <-]|[_ Hm]]; [|by apply IH].
    destruct (podMetrics c1 !! g') as [pm0|] eqn:Hpm0.
    + destruct Hpm as (_ & [= -> _ _] & _). by apply IH.
    + destruct Hpm as (_ & Hsrc & _). right. by exists conn.
  - destruct (collect_conn_first _ _ _ Hc H) as (k & _ & ->). by apply IH.
Qed.

(** Every counted connection has a metric that lives at least as long. *)
Definition outlived (c : Collector) : Prop :=
  forall k e g, entriesCache c !! k = Some e -> entryGroupKey (group_conn (cfg c) e) = Ok g ->
    exists m, podMetrics c !! g = Some m /\ Lifetime e <= mlifetime m.

Lemma outlived_conn c conn c' :
  counting c = true -> outlived c -> collect_conn c conn = Ok c' -> outlived c'.
Proof.
  intros Hc Hout H. destruct (collect_conn_counting _ _ _ Hc H) as (k & g & pm & Hk & Hg & -> & Hpm).
  clear H. intros k' e g' He Hg'. cbn [entriesCache cfg podMetrics] in *.
  assert (forall m0, podMetrics c !! g = Some m0 -> mlifetime m0 <= mlifetime pm) as Hgrow.
  { intros m0 Hm0. rewrite Hm0 in Hpm. destruct Hpm as (_ & _ & ->). lia. }
  assert (Lifetime conn <= mlifetime pm) as Hnew.
  { destruct (podMetrics c !! g); [destruct Hpm as (_ & _ & ->); lia|].
    destruct Hpm as (_ & _ & _ & _ & ->). lia. }
  apply lookup_insert_Some in He as [[<- <-]|[Hne He]].
  - rewrite group_conn_idem, Hg in Hg'. injection Hg' as <-. exists pm.
    rewrite lookup_insert_eq. split; [done|]. unfold group_conn. by case_if.
  - destruct (Hout _ _ _ He Hg') as (m & Hm & Hl). destruct (decide (g = g')) as [ -> |].
    + exists pm. rewrite lookup_insert_eq. split; [done|]. specialize (Hgrow _ Hm). lia.
    + exists m. by rewrite lookup_insert_ne.
Qed.

Lemma outlived_cleanup c now : outlived c -> outlived (cleanup c now).
Proof.
  intros Hout k e g He Hg. unfold cleanup in *. cbn [entriesCache podMetrics cfg] in *.
  apply map_lookup_filter_Some in He as [He Hl]. destruct (Hout _ _ _ He Hg) as (m & Hm & Hle).
  exists m. split; [|done]. apply map_lookup_filter_Some. split; [done|]. cbn in *.
  unfold After in *. simplify_bool. lia.
Qed.

(** ** Invariants of the metrics *)

(** A property of every metric and its group that holds of new metrics and is kept when counters grow
    and when they are reset. *)
Section metrics_invariant.
Context (P : Z -> rawNetworkMetric -> Prop).
Context (P_new : forall cf conn g pm, entryGroupKey (group_conn cf conn) = Ok g ->
  ToIPint32 (ipp_ip (Src (group_conn cf conn))) = Ok (mSrcIp pm) ->
  ToIPint32 (ipp_ip (Dst (group_conn cf conn))) = Ok (mDstIp pm) -> mProto pm = Proto (group_conn cf conn) ->
  (forall q, is_signed 64 (mctr q pm)) -> P g pm).
Context (P_grow : forall g pm0 pm, P g pm0 ->
  (mSrcIp pm, mDstIp pm, mProto pm) = (mSrcIp pm0, mDstIp pm0, mProto pm0) ->
  (forall q, is_signed 64 (mctr q pm)) -> P g pm).

Definition all_metrics (c : Collector) : Prop := forall g m, podMetrics c !! g = Some m -> P g m.

Lemma all_metrics_conn c conn c' : collect_conn c conn = Ok c' -> all_metrics c -> all_metrics c'.
Proof.
  intros H Ht g m. destruct (counting c) eqn:Hc.
  - destruct (collect_conn_counting _ _ _ Hc H) as (k & g' & pm & _ & Hg & -> & Hpm).
    cbn [podMetrics]. intros [[<- <-]|[_ Hm]]%lookup_insert_Some; [|by eapply Ht].
    destruct (podMetrics c !! g') as [pm0|] eqn:Hpm0.
    + destruct Hpm as (Hq & E & _). apply (P_grow _ pm0); [by apply Ht|done|].
      intros q. rewrite Hq. by apply swrap_signed.
    + destruct Hpm as (Hq & Hs & Hd & Hpr & _). eapply P_new; [exact Hg| |exact Hd| |].
      * unfold group_conn. by case_if.
      * rewrite Hpr. unfold group_conn. by case_if.
      * intros q. rewrite Hq. by apply swrap_signed.
  - destruct (collect_conn_first _ _ _ Hc H) as (k & _ & ->). apply Ht.
Qed.

Lemma all_metrics_reset now ms : (forall g m, ms !! g = Some m -> P g m) ->
  forall g m, reset_metrics now ms !! g = Some m -> P g m.
Proof.
  intros Ht g m. unfold reset_metrics. rewrite map_lookup_imap.
  destruct (ms !! g) as [m0|] eqn:E; [|done]. cbn. intros [= <-].
  apply (P_grow _ m0); [by apply Ht|done|]. by intros [].
Qed.

Lemma all_metrics_step s s' : step s s' -> all_metrics s.1 -> all_metrics s'.1.
Proof.
  destruct 1 as [c a watcher LE c' pods ips conns Hp Hi HL Hcol|c a w LE e _|c a now
    |c a rec mok wok now c' r Hs]; cbn [fst]; intros Ht.
  - destruct (collect_inv _ _ _ _ _ _ _ Hp Hi HL Hcol) as (c1 & Hf & ->).
    assert (all_metrics c1) as H; [|exact H]. revert Hf. apply (foldr_result_inv all_metrics); [|done].
    intros d1 conn d2 _ Hd1 H. by eapply all_metrics_conn.
  - done.
  - intros g m. unfold cleanup. cbn [podMetrics]. intros [Hm _]%map_lookup_filter_Some. by eapply Ht.
  - unfold GetRawNetworkMetricsHandler in Hs.
    destruct mok, wok; cbn [negb] in Hs; try (by injection Hs as <- <-).
    destruct (SendTrafficDelta (cfg c)); injection Hs as <- <-; [|done].
    exact (all_metrics_reset now _ Ht).
Qed.
End metrics_invariant.

(** *** Machine ranges *)

(** A metric as its message has it: int32 addresses and int64 counters. *)
Definition metric_typed (m : rawNetworkMetric) : Prop :=
  is_signed 32 (mSrcIp m) /\ is_signed 32 (mDstIp m) /\ forall q, is_signed 64 (mctr q m).
Definition typed (c : Collector) : Prop := forall g m, podMetrics c !! g = Some m -> metric_typed m.

Lemma ToIPint32_signed ip v : ToIPint32 ip = Ok v -> is_signed 32 v.
Proof. intros (b & _ & [= <-])%rbind_ok. by apply swrap_signed. Qed.

Lemma typed_new (cf : Config) conn (g : Z) pm : entryGroupKey (group_conn cf conn) = Ok g ->
  ToIPint32 (ipp_ip (Src (group_conn cf conn))) = Ok (mSrcIp pm) ->
  ToIPint32 (ipp_ip (Dst (group_conn cf conn))) = Ok (mDstIp pm) -> mProto pm = Proto (group_conn cf conn) ->
  (forall q, is_signed 64 (mctr q pm)) -> metric_typed pm.
Proof. intros _ Hs Hd _ Hq. split_and!; [by eapply ToIPint32_signed|by eapply ToIPint32_signed|done]. Qed.
Lemma typed_grow (g : Z) pm0 pm : metric_typed pm0 ->
  (mSrcIp pm, mDstIp pm, mProto pm) = (mSrcIp pm0, mDstIp pm0, mProto pm0) ->
  (forall q, is_signed 64 (mctr q pm)) -> metric_typed pm.
Proof. intros (T1 & T2 & _) [= E1 E2 _] Hq. split_and!; [by rewrite E1|by rewrite E2|done]. Qed.

Lemma typed_step s s' : step s s' -> typed s.1 -> typed s'.1.
Proof. exact (all_metrics_step (λ _, metric_typed) typed_new typed_grow s s'). Qed.

(** *** Keys *)

(** A metric is kept under the hash of its own addresses, in network order, and protocol. *)
Definition flow_bytes (m : rawNetworkMetric) : list Z :=
  be_split 4 (wrap 32 (mSrcIp m)) ++ be_split 4 (wrap 32 (mDstIp m)) ++ [mProto m].
Definition metric_keyed (g : Z) (m : rawNetworkMetric) : Prop := g = entryGroupHash (flow_bytes m).

Lemma ToIPint32_bytes {HN : NetaddrSpec N} ip v bs : As4 ip = Some bs -> ToIPint32 ip = Ok v ->
  be_split 4 (wrap 32 v) = bs.
Proof.
  intros Hb. unfold ToIPint32. rewrite Hb. cbn [deref rbind]. intros [= <-].
  destruct (As4_bytes _ _ Hb) as [Hok Hlen]. rewrite wrap_swrap by done.
  pose proof (be_combine_bound bs Hok) as Hbd. rewrite Hlen in Hbd. change (8 * Z.of_nat 4) with 32 in Hbd.
  rewrite wrap_id by exact Hbd. by apply be_split_combine.
Qed.

Lemma keyed_new {HN : NetaddrSpec N} cf conn g pm : entryGroupKey (group_conn cf conn) = Ok g ->
  ToIPint32 (ipp_ip (Src (group_conn cf conn))) = Ok (mSrcIp pm) ->
  ToIPint32 (ipp_ip (Dst (group_conn cf conn))) = Ok (mDstIp pm) -> mProto pm = Proto (group_conn cf conn) ->
  (forall q, is_signed 64 (mctr q pm)) -> metric_keyed g pm.
Proof.
  unfold entryGroupKey. intros (s & Hs & (d & Hd & [= <-])%rbind_ok)%rbind_ok Es Ed Ep _.
  unfold deref in Hs, Hd.
  destruct (As4 (ipp_ip (Src (group_conn cf conn)))) eqn:As; [|done]. injection Hs as ->.
  destruct (As4 (ipp_ip (Dst (group_conn cf conn)))) eqn:Ad; [|done]. injection Hd as ->.
  unfold metric_keyed, flow_bytes. by rewrite (ToIPint32_bytes _ _ _ As Es), (ToIPint32_bytes _ _ _ Ad Ed), Ep.
Qed.
Lemma keyed_grow g pm0 pm : metric_keyed g pm0 ->
  (mSrcIp pm, mDstIp pm, mProto pm) = (mSrcIp pm0, mDstIp pm0, mProto pm0) ->
  (forall q, is_signed 64 (mctr q pm)) -> metric_keyed g pm.
Proof. unfold metric_keyed, flow_bytes. intros H [= -> -> ->] _. exact H. Qed.

(** ** The rises of one connection *)

Lemma sum_over_ext f f' ks : (forall k, k ∈ ks -> f k = f' k) -> sum_over f ks = sum_over f' ks.
Proof.
  induction ks as [|k ks IH]; intros H; [done|]. cbn [sum_over foldr]. fold (sum_over f ks) (sum_over f' ks).
  rewrite IH, H; [done|by left|]. intros k' Hk'. apply H. by right.
Qed.

(** Changing one connection of a list changes the sum by as much. *)
Lemma sum_over_one f f' k0 x ks : NoDup ks -> k0 ∈ ks -> f' k0 = f k0 + x -> (forall k, k <> k0 -> f' k = f k) ->
  sum_over f' ks = sum_over f ks + x.
Proof.
  intros Hnd Hin H0 Hne. induction Hnd as [|k ks Hk Hnd IH]; [by apply elem_of_nil in Hin|].
  cbn [sum_over foldr]. fold (sum_over f ks) (sum_over f' ks). apply elem_of_cons in Hin as [-> | Hin].
  - rewrite H0, (sum_over_ext f' f); [lia|]. intros k' Hk'. apply Hne. by intros ->.
  - rewrite IH, Hne by (done || by intros ->). lia.
Qed.

(** A group rises by what its connections rise by. *)
Lemma risen_sum h g q ks : NoDup ks -> (forall k, k ∈ seen h -> k ∈ ks) ->
  risen h g q = sum_over (λ k, risen_by h k g q) ks.
Proof.
  intros Hnd. induction h as [|[k v|k g' v|k] h IH]; cbn [risen risen_by seen]; intros Hks.
  - clear. induction ks as [|k ks IH]; [done|]. cbn [sum_over foldr]. fold (sum_over (λ _, 0) ks). lia.
  - by apply IH.
  - rewrite IH by (intros k' Hk'; apply Hks; by right). symmetry.
    apply (sum_over_one _ _ k); [done|apply Hks; by left| |].
    + by rewrite Z.eqb_refl.
    + intros k' Hne. rewrite (proj2 (Z.eqb_neq k k')) by congruence. cbn [andb]. lia.
  - by apply IH.
Qed.

(** Between a history [h] and a longer one the connection is neither forgotten nor made a baseline
    again, it stays in its group and its counter does not fall. *)
Fixpoint undisturbed (seg h : list event) (k g : Z) (q : ctr) : Prop :=
  match seg with
  | [] => True
  | ESeen k' g' v :: seg =>
      undisturbed seg h k g q /\
      (k' = k -> g' = g /\ forall l, last_seen (seg ++ h) k q = Some l -> l <= v q)
  | EBaseline k' _ :: seg | EForgotten k' :: seg => undisturbed seg h k g q /\ k' <> k
  end.

(** Its rises are then the difference of its counters, however often it was listed. *)
Lemma risen_by_telescopes seg h k g q l : last_seen h k q = Some l -> undisturbed seg h k g q ->
  exists l', last_seen (seg ++ h) k q = Some l' /\ risen_by (seg ++ h) k g q = risen_by h k g q + (l' - l).
Proof.
  intros Hl. induction seg as [|[k' v|k' g' v|k'] seg IH]; cbn [undisturbed app last_seen risen_by].
  - intros _. exists l. split; [done|lia].
  - intros [Hu Hne]. rewrite (proj2 (Z.eqb_neq k' k) Hne). by apply IH.
  - intros [Hu Hv]. destruct (IH Hu) as (l1 & H1 & E1). destruct (Z.eqb_spec k' k) as [-> | Hne].
    + destruct (Hv eq_refl) as [-> Hle]. specialize (Hle _ H1). exists (v q). split; [done|].
      rewrite Z.eqb_refl, H1, E1. cbn [andb rise]. lia.
    + exists l1. split; [done|]. cbn [andb]. lia.
  - intros [Hu Hne]. rewrite (proj2 (Z.eqb_neq k' k) Hne). by apply IH.
Qed.

(** A new collector has the configuration and balanced accounts. *)
Lemma New_balanced cf c0 : New cf = Ok c0 -> cfg c0 = cf /\ balanced (c0, no_accounts).
Proof.
  unfold New. destruct (ReadInterval cf =? 0), (CleanupInterval cf =? 0); try done. intros [= <-].
  split; [done|]. split; [intros k q|intros g q; exists 0; unfold pending]; cbn; by rewrite lookup_empty.
Qed.

(** The configuration never changes. *)
Lemma step_cfg s s' : step s s' -> cfg s'.1 = cfg s.1.
Proof.
  destruct 1 as [c a watcher LE c' pods ips conns Hp Hi HL Hcol|c a w LE e _|c a now
    |c a rec mok wok now c' r Hs]; cbn [fst]; [|done..|].
  - destruct (collect_inv _ _ _ _ _ _ _ Hp Hi HL Hcol) as (c1 & Hf & ->).
    by destruct (collect_conns_settings _ _ _ Hf) as (H & _).
  - unfold GetRawNetworkMetricsHandler in Hs.
    destruct mok, wok; cbn [negb] in Hs; try (by injection Hs as <- <-).
    by destruct (SendTrafficDelta (cfg c)); injection Hs as <- <-.
Qed.

End collector.

(** * Properties *)
Section properties.
Context `{N : Netaddr} (split_comma : string -> list string).
Context (entryGroupHash conntrackEntryHash : list Z -> Z).
Notation step := (step entryGroupHash conntrackEntryHash).
Notation collect := (collect entryGroupHash conntrackEntryHash).

(** C6: What the collector reports is what its connections rose by.  In every run of collections of any
    listings, failed collections, cleanups and requests, for every group and counter: what was sent (in
    delta mode, where a request resets the counters), what is pending and what cleanups dropped with
    expired metrics is together, modulo 2^64, the sum of all rises of the group's connections from one
    listing to the next.  A counter that falls rises by nothing; a connection rises from zero when it is
    listed first and when a cleanup has forgotten it; the first collection of delta mode sets baselines
    and counts nothing.  The sum is over the group's connections, and those of a connection that is not
    forgotten, stays in the group and whose counter does not fall are the difference of its counters, so
    none of its traffic is lost or counted twice. *)
Theorem traffic_conserved cf c0 c a g q :
  New split_comma cf = Ok c0 -> rtc step (c0, no_accounts) (c, a) ->
  wrap 64 (sent a g q + pending c g q + dropped a g q) = wrap 64 (risen (history a) g q) /\
  risen (history a) g q = sum_over (λ k, risen_by (history a) k g q) (remove_dups (seen (history a))) /\
  forall k seg h l, history a = seg ++ h -> last_seen h k q = Some l -> undisturbed seg h k g q ->
    exists e, entriesCache c !! k = Some e /\
      risen_by (history a) k g q = risen_by h k g q + (ectr q e - l).
Proof.
  intros Hnew Hrun.
  assert (balanced (c, a)) as (Hm & Hbal) by (eapply balanced_run; [exact Hrun|]; by eapply New_balanced).
  split; [by apply cong_wrap_eq|]. split.
  { apply risen_sum; [apply NoDup_remove_dups|]. intros k Hk. by apply elem_of_remove_dups. }
  intros k seg h l Hh Hl Hu.
  destruct (risen_by_telescopes seg h k g q l Hl Hu) as (l' & Hl' & Hr). rewrite <- Hh in Hl', Hr.
  rewrite Hm in Hl'. destruct (entriesCache c !! k) as [e|]; [|done]. injection Hl' as <-. by exists e.
Qed.

(** A connection the cache has forgotten counts again in full: if its entry expires between two listings
    (while collections fail, say), the next one adds all it ever counted to the metric. *)
Theorem forgotten_recounted c now conn c' k e g q :
  counting c = true -> conntrackEntryKey conntrackEntryHash conn = Ok k ->
  entryGroupKey entryGroupHash (group_conn (cfg c) conn) = Ok g ->
  entriesCache c !! k = Some e -> After now (Lifetime e) = true ->
  collect_conn entryGroupHash conntrackEntryHash (cleanup c now) conn = Ok c' ->
  wrap 64 (pending c' g q) = wrap 64 (pending (cleanup c now) g q + ectr q conn).
Proof.
  intros Hc Hk Hg He HA H. change (counting (cleanup c now) = true) in Hc.
  destruct (collect_conn_counting _ _ _ _ _ Hc H) as (k' & g' & pm & Hk' & Hg' & -> & Hpm).
  rewrite Hk in Hk'. injection Hk' as <-. change (cfg (cleanup c now)) with (cfg c) in Hg'. rewrite Hg in Hg'.
  injection Hg' as <-. apply cong_wrap_eq. unfold pending at 1. cbn [podMetrics]. rewrite lookup_insert_eq.
  assert (delta (cleanup c now) k conn q = ectr q conn) as Hd.
  { unfold delta, cleanup. cbn [entriesCache]. rewrite map_lookup_filter, He. cbn [mbind option_bind snd].
    by rewrite option_guard_False by (by rewrite HA). }
  unfold pending. destruct (podMetrics (cleanup c now) !! g) as [pm0|]; destruct Hpm as [-> _]; rewrite Hd.
  - apply cong_add64.
  - apply cong_swrap.
Qed.

(** A collection only adds metrics for pods the collector tracks: the source of every metric it
    adds is the address of a pod that has one, is not on the host network and is not in an
    excluded namespace; this holds of every client that filters what it lists. *)
Theorem collect_tracks_selected_pods c pods LE c' g m :
  Client LE -> collect c (Ok pods) LE = Ok c' -> podMetrics c' !! g = Some m ->
  (exists m0, podMetrics c !! g = Some m0 /\ mSrcIp m0 = mSrcIp m) \/
  (exists pod ip, tracked c pods pod /\ ParseIP (PodIP pod) = Some ip /\
     ToIPint32 ip = Ok (mSrcIp m)).
Proof.
  intros HC H Hm. unfold Collector.collect in H.
  destruct (getNodePods c (Ok pods)) as [sel| |] eqn:Hsel; [|done..].
  apply rbind_ok in H as (ips & Hips & H).
  destruct (LE (FilterBySrcIP ips)) as [conns| |] eqn:HL; [|done..].
  apply rbind_ok in H as (c1 & Hf & [= <-]). cbn [podMetrics] in Hm.
  destruct (collect_conns_src _ _ _ _ _ _ _ Hf Hm) as [?|(conn & Hin & Hsrc)]; [by left|right].
  pose proof (listed_pass _ _ _ HL Hin) as Hflt. unfold FilterBySrcIP in Hflt.
  apply bool_decide_eq_true_1 in Hflt. destruct (getPodIPs_elem _ _ _ Hips Hflt) as (pod & Hp & Hparse).
  exists pod, (ipp_ip (Src conn)). split; [|done]. by apply (getNodePods_tracked _ _ _ _ Hsel).
Qed.

(** While counters are cumulative a metric is not cleaned up before the connections it counts:
    every cached connection has a metric that lives at least as long, after any number of
    collections and cleanups. *)
Theorem metric_outlives_connections cf c0 c a :
  New split_comma cf = Ok c0 -> SendTrafficDelta cf = false ->
  rtc step (c0, no_accounts) (c, a) -> outlived entryGroupHash c.
Proof.
  intros Hnew Hd Hrun.
  enough (cfg (fst (c, a)) = cf /\ outlived entryGroupHash (fst (c, a))) as [_ ?] by done.
  assert (cfg c0 = cf /\ outlived entryGroupHash c0) as H0.
  { unfold New in Hnew. destruct (ReadInterval cf =? 0), (CleanupInterval cf =? 0); try done.
    injection Hnew as <-. split; [done|]. intros k e g He.
    cbn [entriesCache] in He. by rewrite lookup_empty in He. }
  change c0 with (fst (c0, no_accounts)) in H0. revert H0.
  generalize (c0, no_accounts) (c, a) Hrun. clear - Hd. intros s s' Hrun.
  induction Hrun as [|s1 s2 s3 Hst _ IH]; [done|]. intros [Hcf Hout]. apply IH. clear IH.
  destruct Hst as [c a watcher LE c' pods ips conns Hp Hi HL Hcol|c a w LE e _|c a now
    |c a rec mok wok now c' r Hs]; cbn [fst] in *.
  - destruct (collect_inv _ _ _ _ _ _ _ _ _ Hp Hi HL Hcol) as (c1 & Hf & ->). cbn.
    destruct (collect_conns_settings _ _ _ _ _ Hf) as (Hc1 & _ & _). split; [congruence|].
    assert (cfg c1 = cf /\ outlived entryGroupHash c1) as [_ H]; [|exact H].
    revert Hf. apply (foldr_result_inv (λ d, cfg d = cf /\ outlived entryGroupHash d)); [|done].
    intros d1 conn d2 _ [Hd1 Ho] H. pose proof (collect_conn_settings _ _ _ _ _ H) as (Hd2 & _).
    split; [congruence|]. eapply outlived_conn; [|done|exact H]. unfold counting, baselining.
    by rewrite Hd1, Hd.
  - done.
  - split; [done|]. by apply outlived_cleanup.
  - unfold GetRawNetworkMetricsHandler in Hs.
    destruct mok, wok; cbn [negb] in Hs; try (by injection Hs as <- <-).
    rewrite Hcf, Hd in Hs. by injection Hs as <- <-.
Qed.

(** A request that fails changes nothing; a successful one delivers every metric, and in delta
    mode resets all counters afterwards and never extends a lifetime. *)
Theorem handler_resets_after_sending c records mok wok now :
  let '(c', r) := GetRawNetworkMetricsHandler c records mok wok now in
  entriesCache c' = entriesCache c /\ firstCollectDone c' = firstCollectDone c /\
  match r with
  | Body items recs =>
      recs = records /\ (forall m, m ∈ items <-> exists g, podMetrics c !! g = Some m) /\
      forall g m, podMetrics c !! g = Some m ->
        exists m', podMetrics c' !! g = Some m' /\
          (mSrcIp m', mDstIp m', mProto m') = (mSrcIp m, mDstIp m, mProto m) /\
          if SendTrafficDelta (cfg c) then
            (forall q, mctr q m' = 0) /\ mlifetime m' = Z.min (mlifetime m) (now g + 2 * Minute)
          else m' = m
  | _ => c' = c
  end.
Proof.
  unfold GetRawNetworkMetricsHandler. destruct mok; [|done]. destruct wok; [|done]. cbn [negb].
  assert (forall m, m ∈ (map_to_list (podMetrics c)).*2 <-> exists g, podMetrics c !! g = Some m)
    as Hitems.
  { intros m. rewrite list_elem_of_fmap. split.
    - intros ([g m'] & -> & Hin). exists g. by apply elem_of_map_to_list in Hin.
    - intros [g Hg]. exists (g, m). split; [done|]. by apply elem_of_map_to_list. }
  destruct (SendTrafficDelta (cfg c)); (split_and!; [done..|exact Hitems|]); intros g m Hg.
  - exists (reset_metric (now g) m). cbn [podMetrics]. unfold reset_metrics.
    rewrite map_lookup_imap, Hg. split_and!; [done|done|by intros []|].
    cbn. unfold After. case_if; simplify_bool; lia.
  - by exists m.
Qed.
(** C19: The metrics are well formed.  Whatever is listed and however collections, cleanups and requests
    follow each other, every metric is kept under the hash of its own source, destination and protocol,
    so a flow has at most one metric and traffic is added to the metric that names its flow (or one whose
    flow has the same hash), with the destination already replaced where public addresses are grouped;
    and its addresses and counters have the types of the message. *)
Theorem metrics_wellformed {HN : NetaddrSpec N} cf c0 c a :
  New split_comma cf = Ok c0 -> rtc step (c0, no_accounts) (c, a) ->
  (forall g m, podMetrics c !! g = Some m -> g = entryGroupHash (flow_bytes m) /\ metric_typed m) /\
  (forall g g' m m', podMetrics c !! g = Some m -> podMetrics c !! g' = Some m' ->
     (mSrcIp m, mDstIp m, mProto m) = (mSrcIp m', mDstIp m', mProto m') -> g = g' /\ m = m').
Proof.
  intros Hnew Hrun.
  assert (all_metrics (λ g m, metric_keyed entryGroupHash g m /\ metric_typed m) (c, a).1) as H.
  { assert (all_metrics (λ g m, metric_keyed entryGroupHash g m /\ metric_typed m) (c0, no_accounts).1) as H0.
    { unfold New in Hnew. destruct (ReadInterval cf =? 0), (CleanupInterval cf =? 0); try done.
      injection Hnew as <-. intros g m. cbn [fst podMetrics]. by rewrite lookup_empty. }
    revert H0. clear Hnew. induction Hrun as [|s1 s2 s3 Hs _ IH]; [done|]. intros H0. apply IH.
    eapply all_metrics_step; [| |exact Hs|exact H0].
    - intros; split; [by eapply keyed_new|by eapply typed_new].
    - intros g pm0 pm [? ?] ? ?; split; [by eapply keyed_grow|by eapply typed_grow]. }
  split; [exact H|]. intros g g' m m' Hm Hm' [= E1 E2 E3]. destruct (H _ _ Hm) as [K _], (H _ _ Hm') as [K' _].
  assert (g = g') as <- by (unfold metric_keyed, flow_bytes in *; congruence). split; congruence.
Qed.
End properties.

(** * A run *)
#[local] Existing Instance ref_netaddr.
Definition ref_cfg : Config := MkConfig Second Second "" false false.
Definition ref_conn : @Entry ref_netaddr :=
  @MkEntry ref_netaddr (@IPPortFrom ref_netaddr [10; 0; 0; 1] 40000)
    (@IPPortFrom ref_netaddr [93; 184; 216; 34] 443) 100 2 4000 3 (60 * Second) 6.
Definition ref_list : EntriesFilter -> result (list Entry) := λ _, Ok [ref_conn].
Definition ref_start : @Collector ref_netaddr := @MkCollector ref_netaddr ref_cfg [] ∅ ∅ false.
Definition ref_end : @Collector ref_netaddr :=
  match collect le_combine le_combine ref_start (Ok []) ref_list with
  | Ok c => c
  | _ => ref_start
  end.

Definition ref_accounts : accounts :=
  Accounts (λ _ _, 0) (observe le_combine le_combine ref_cfg false [ref_conn] []) (λ _ _, 0).

Lemma ref_run :
  rtc (@step ref_netaddr le_combine le_combine) (ref_start, no_accounts) (ref_end, ref_accounts).
Proof.
  apply rtc_once.
  by apply (step_collect le_combine le_combine ref_start no_accounts (Ok []) ref_list ref_end [] []
    [ref_conn]).
Qed.

Lemma traffic_conserved_witness :
  let g := le_combine [10; 0; 0; 1; 93; 184; 216; 34; 6] in
  pending ref_end g CTxBytes = 100 /\
  wrap 64 (sent ref_accounts g CTxBytes + pending ref_end g CTxBytes + dropped ref_accounts g CTxBytes) =
    wrap 64 (risen (history ref_accounts) g CTxBytes).
Proof.
  split; [vm_compute; reflexivity|].
  apply (@traffic_conserved ref_netaddr (λ _, []) le_combine le_combine ref_cfg ref_start ref_end
    ref_accounts (le_combine [10; 0; 0; 1; 93; 184; 216; 34; 6]) CTxBytes).
  - reflexivity.
  - exact ref_run.
Defined.

Lemma metric_outlives_connections_witness : outlived le_combine ref_end.
Proof.
  apply (@metric_outlives_connections ref_netaddr (λ _, []) le_combine le_combine ref_cfg ref_start
    ref_end ref_accounts).
  - reflexivity.
  - reflexivity.
  - exact ref_run.
Defined.

Lemma metrics_wellformed_witness :
  exists m, podMetrics ref_end !! le_combine [10; 0; 0; 1; 93; 184; 216; 34; 6] = Some m /\
    le_combine [10; 0; 0; 1; 93; 184; 216; 34; 6] = le_combine (flow_bytes m) /\ metric_typed m.
Proof.
  destruct (podMetrics ref_end !! le_combine [10; 0; 0; 1; 93; 184; 216; 34; 6]) as [m|] eqn:E;
    [|vm_compute in E; discriminate E].
  exists m. split; [reflexivity|].
  exact (proj1 (@metrics_wellformed ref_netaddr (λ _, []) le_combine le_combine ref_netaddr_spec ref_cfg
    ref_start ref_end ref_accounts eq_refl ref_run) _ _ E).
Defined.

(** An address package that knows one address, and a pod that has it. *)
#[local] Instance one_netaddr : Netaddr := {
  IP := list Z;
  zeroIP := [];
  IPv4 a b c d := [a; b; c; d];
  As4 := ref_as4;
  FromStdIP bs := bs;
  ParseIP s := if String.eqb s "10.0.0.1" then Some [10; 0; 0; 1] else None;
  IP_String _ := "10.0.0.1";
  IsPrivate _ := true;
  IsLoopback _ := false;
  IsMulticast _ := false;
  IsLinkLocalUnicast _ := false;
  IsLinkLocalMulticast _ := false;
  IsInterfaceLocalMulticast _ := false
}.

Definition sel_session : Con :=
  MkCon (Some (MkIPTuple (Some [10; 0; 0; 1]) (Some [1; 1; 1; 1])
                 (Some (MkProtoTuple (Some 17) (Some 1000) (Some 53)))))
        (Some (MkIPTuple (Some [1; 1; 1; 1]) (Some [10; 0; 0; 1])
                 (Some (MkProtoTuple (Some 17) (Some 53) (Some 1000)))))
        (Some (MkCounter (Some 70) (Some 1))) (Some (MkCounter (Some 90) (Some 1))) None.
Definition sel_pods : list Pod := 
  [MkPod "u1" "a" "default" "n1" false "10.0.0.1" PodRunning 0 None;
   MkPod "u2" "b" "x" "n1" false "" PodPending 0 None].
Definition sel_start : Collector := MkCollector ref_cfg ["kube-system"] ∅ ∅ false.
Definition sel_end : Collector :=
  match collect le_combine le_combine sel_start (Ok sel_pods)
          (netfilter_ListEntries (Ok [sel_session]) 0) with
  | Ok c => c
  | _ => sel_start
  end.
Definition sel_metric : rawNetworkMetric := MkMetric 167772161 16843009 70 1 90 1 17 zero_time.

Lemma collect_tracks_selected_pods_witness :
  exists pod ip, tracked sel_start sel_pods pod /\ ParseIP (PodIP pod) = Some ip /\
    ToIPint32 ip = Ok (mSrcIp sel_metric).
Proof.
  destruct (collect_tracks_selected_pods le_combine le_combine sel_start sel_pods
    (netfilter_ListEntries (Ok [sel_session]) 0) sel_end
    (le_combine [10; 0; 0; 1; 1; 1; 1; 1; 17]) sel_metric) as [(m0 & Hm0 & _)|H].
  - apply netfilter_client.
  - vm_compute. reflexivity.
  - vm_compute. reflexivity.
  - cbn [podMetrics sel_start] in Hm0. rewrite lookup_empty in Hm0. discriminate Hm0.
  - exact H.
Defined.
