(* ===== verification/Metrics.v ===== *)
(** The program's own metrics: src/metrics/metrics.go, and the places that set them, in the clients of
    src/conntrack and in [collect] of src/collector/collector.go.

    The registry holds two counters and two gauges of float64.  The instrumented operations are the ones
    of Conntrack.v and Collector.v; here is what they do to the registry, early returns included. *)
From S2P Require Import Prelude GoBase Conntrack Dns Kube Collector.
From stdpp Require Import base numbers list strings gmap.
From Stdlib Require Import Floats.SpecFloat.
Local Open Scope string_scope.
Local Open Scope list_scope.
Local Open Scope Z_scope.
Local Open Scope egress_scope.

Record registry := MkRegistry {
  exportedEventsTotal : spec_float;
  droppedEventsTotal : spec_float;
  conntrackEntriesCount : spec_float;
  conntrackActiveEntriesCount : spec_float
}.

(** After [init]: all four registered, at zero. *)
Definition init_registry : registry := MkRegistry (float64 0) (float64 0) (float64 0) (float64 0).

Definition float64_add (x y : spec_float) : spec_float := SFadd 53 1024 x y.
Definition IncExportedEvents (r : registry) (v : spec_float) : registry :=
  MkRegistry (float64_add (exportedEventsTotal r) v) (droppedEventsTotal r) (conntrackEntriesCount r)
    (conntrackActiveEntriesCount r).
Definition IncDroppedEvents (r : registry) : registry :=
  MkRegistry (exportedEventsTotal r) (float64_add (droppedEventsTotal r) (float64 1)) (conntrackEntriesCount r)
    (conntrackActiveEntriesCount r).
Definition SetConntrackEntriesCount (r : registry) (val : spec_float) : registry :=
  MkRegistry (exportedEventsTotal r) (droppedEventsTotal r) val (conntrackActiveEntriesCount r).
Definition SetConntrackActiveEntriesCount (r : registry) (val : spec_float) : registry :=
  MkRegistry (exportedEventsTotal r) (droppedEventsTotal r) (conntrackEntriesCount r) val.

Definition count {A} (l : list A) : Z := Z.of_nat (length l).

Section instrumented.
Context `{N : Netaddr}.

(** [ListEntries] of the netfilter client sets the gauge once the sessions are dumped. *)
Definition netfilter_metrics (dump : result (list Con)) (r : registry) : registry :=
  match dump with
  | Ok sessions => SetConntrackEntriesCount r (float64 (count sessions))
  | _ => r
  end.

(** [listRecords] counts every pair of every map and sets the gauge when it returns without an error. *)
Definition fetchedCount (maps : list CtMap) : Z := count (concat (map m_pairs maps)).
Definition cilium_metrics (listed : result (list Entry)) (maps : list CtMap) (r : registry) : registry :=
  match listed with
  | Ok _ => SetConntrackEntriesCount r (float64 (fetchedCount maps))
  | _ => r
  end.

(** [collect], with the client's part: nothing is set when the pods are not known, and the gauge of
    active entries only when the client lists. *)
Definition collect_metrics (c : Collector) (watcher : result (list Pod))
    (ListEntries : EntriesFilter -> result (list Entry)) (client : EntriesFilter -> registry -> registry)
    (r : registry) : registry :=
  match getNodePods c watcher with
  | Ok pods =>
      match getPodIPs pods with
      | Ok ips =>
          let r := client (FilterBySrcIP ips) r in
          match ListEntries (FilterBySrcIP ips) with
          | Ok conns => SetConntrackActiveEntriesCount r (float64 (count conns))
          | _ => r
          end
      | _ => r
      end
  | _ => r
  end.

(** * How many entries a client lists *)
Lemma foldr_result_length {A B} (f : list B -> A -> result (list B)) (k : nat) :
  (forall l a l', f l a = Ok l' -> (length l' <= length l + k)%nat) ->
  forall l s l', foldr_result f l s = Ok l' -> (length l' <= length l + k * length s)%nat.
Proof.
  intros Hf l s. revert l. induction s as [|a s IH]; intros l l'; simpl; [intros [= <-]; lia|].
  intros (l1 & H1 & H2)%rbind_ok. apply Hf in H1. apply IH in H2. lia.
Qed.

Lemma netfilter_listed dump now f es : netfilter_ListEntries dump now f = Ok es ->
  exists ss, dump = Ok ss /\ (length es <= 2 * length ss)%nat.
Proof.
  unfold netfilter_ListEntries. destruct dump as [ss| |]; [|done..]. intros H. exists ss. split; [done|].
  apply (foldr_result_length _ 2) in H; [simpl in H; lia|]. clear. intros l s l'. unfold netfilter_session.
  destruct (incomplete s); [intros [= <-]; lia|]. intros ([e e2] & _ & [= <-])%rbind_ok.
  destruct (f e), (f e2); rewrite ?length_app; simpl; lia.
Qed.

Lemma cilium_listed mt jf hz ms now cs f es : listRecords mt jf hz ms now cs f = Ok es ->
  (length es <= length (concat (map m_pairs ms)))%nat.
Proof.
  unfold listRecords. destruct (kernelTimeDiffSecondsFunc mt jf hz cs) as [td| |]; [|done..].
  assert (G : forall l l', foldr_result (cilium_map td now f) l ms = Ok l' ->
    (length l' <= length l + length (concat (map m_pairs ms)))%nat); [|intros H; apply G in H; done].
  induction ms as [|m ms IH]; intros l l'; simpl; [intros [= <-]; lia|].
  intros (l1 & H1 & H2)%rbind_ok. apply IH in H2. rewrite length_app.
  enough (length l1 <= length l + length (m_pairs m))%nat by lia. clear H2. unfold cilium_map in H1.
  destruct (m_open m) eqn:Eo; [|done|]; apply rbind_ok in H1 as (l2 & H2 & H1);
    destruct (m_dump_err m); try done; injection H1 as <-;
    apply (foldr_result_length _ 1) in H2; [lia| |lia|]; clear; intros l [k v] l'; unfold cilium_record;
    (destruct (kNextHeader k =? 0); [intros [= <-]; lia|]); intros (a & _ & (b & _ & (t & _ & [= <-])%rbind_ok)%rbind_ok)%rbind_ok;
    destruct (f _); rewrite ?length_app; simpl; lia.
Qed.

(** ** Collections do not fail after listing *)
Context (entryGroupHash conntrackEntryHash : list Z -> Z).
Notation collect := (collect entryGroupHash conntrackEntryHash).
Notation collect_conn := (collect_conn entryGroupHash conntrackEntryHash).

Definition no_error {A} (r : result A) : Prop := match r with Err _ => False | _ => True end.

Lemma rbind_no_error {A B} (m : result A) (f : A -> result B) :
  no_error m -> (forall a, m = Ok a -> no_error (f a)) -> no_error (rbind m f).
Proof. destruct m; simpl; auto. Qed.

Lemma deref_no_error {A} (o : option A) : no_error (deref o).
Proof. by destruct o. Qed.

Lemma keys_no_error conn : no_error (conntrackEntryKey conntrackEntryHash conn) /\
  no_error (entryGroupKey entryGroupHash conn).
Proof.
  unfold conntrackEntryKey, entryGroupKey.
  split; repeat (apply rbind_no_error; [apply deref_no_error|intros ? _]); done.
Qed.

Lemma ToIPint32_no_error ip : no_error (ToIPint32 ip).
Proof. apply rbind_no_error; [apply deref_no_error|done]. Qed.

Lemma collect_conn_no_error c conn : no_error (collect_conn c conn).
Proof.
  unfold Collector.collect_conn. apply rbind_no_error; [apply keys_no_error|]. intros k _.
  destruct (entriesCache c !! k); cbn [cfg firstCollectDone podMetrics]; (case_if; [done|]);
    (apply rbind_no_error; [apply keys_no_error|]); intros g _; (case_match; [done|]);
    (apply rbind_no_error; [apply ToIPint32_no_error|]); intros src _;
    (apply rbind_no_error; [apply ToIPint32_no_error|done]).
Qed.

Lemma collect_conns_no_error c conns : no_error (foldr_result collect_conn c conns).
Proof.
  revert c. induction conns as [|conn conns IH]; intros c; simpl; [done|].
  apply rbind_no_error; [apply collect_conn_no_error|]. auto.
Qed.

(** The gauges say what was seen.  A collection that succeeds sets the gauge of tracked connections to
    the number of sessions and the gauge of active ones to the number of entries of the node's pods,
    at most two per session, both exactly; one that fails leaves the gauge of active ones at its last
    value; and the counters of exported and dropped events are never moved. *)
Theorem gauges_exact (c : Collector) (watcher : result (list Pod)) (dump : result (list Con)) (now : Z)
    (r : registry) (Hsmall : forall ss, dump = Ok ss -> count ss < 2 ^ 52) :
  let r' := collect_metrics c watcher (netfilter_ListEntries dump now) (λ _, netfilter_metrics dump) r in
  exportedEventsTotal r' = exportedEventsTotal r /\ droppedEventsTotal r' = droppedEventsTotal r /\
  match collect c watcher (netfilter_ListEntries dump now) with
  | Ok _ => exists ss n, dump = Ok ss /\ represents (conntrackEntriesCount r') (count ss) /\
      represents (conntrackActiveEntriesCount r') n /\ 0 <= n <= 2 * count ss
  | Err _ => conntrackActiveEntriesCount r' = conntrackActiveEntriesCount r
  | Panic => True
  end.
Proof.
  cbv zeta. unfold collect_metrics, Collector.collect.
  destruct (getNodePods c watcher) as [pods| |]; [|done..].
  destruct (getPodIPs pods) as [ips| |]; [|done..]. cbn [rbind].
  destruct (netfilter_ListEntries dump now (FilterBySrcIP ips)) as [conns|e|] eqn:HL.
  - destruct (netfilter_listed _ _ _ _ HL) as (ss & -> & Hlen). split; [done|]. split; [done|].
    pose proof (collect_conns_no_error c conns) as Hne.
    destruct (foldr_result collect_conn c conns) as [c1| |]; [|done..]. cbn [rbind].
    specialize (Hsmall ss eq_refl). exists ss, (count conns). unfold count in *. split_and!; [done| | |lia|lia];
      apply float64_exact; change (2 ^ 53) with (2 * 2 ^ 52); lia.
  - by destruct dump.
  - by destruct dump.
Qed.

(** With Cilium's tables likewise: the gauge of tracked connections counts the pairs of all maps, which
    the active ones are among. *)
Theorem cilium_gauges_exact (c : Collector) (watcher : result (list Pod)) (mt jf : result Z) (hz now : Z)
    (maps : list CtMap) (cs : ClockSource) (r : registry) (Hsmall : fetchedCount maps < 2 ^ 53) :
  let ListEntries := listRecords mt jf hz maps now cs in
  let r' := collect_metrics c watcher ListEntries (λ f, cilium_metrics (ListEntries f) maps) r in
  match collect c watcher ListEntries with
  | Ok _ => exists n, represents (conntrackEntriesCount r') (fetchedCount maps) /\
      represents (conntrackActiveEntriesCount r') n /\ 0 <= n <= fetchedCount maps
  | Err _ => r' = r
  | Panic => True
  end.
Proof.
  cbv zeta. unfold collect_metrics, Collector.collect.
  destruct (getNodePods c watcher) as [pods| |]; [|done..].
  destruct (getPodIPs pods) as [ips| |]; [|done..]. cbn [rbind].
  destruct (listRecords mt jf hz maps now cs (FilterBySrcIP ips)) as [conns|e|] eqn:HL; [|done..].
  pose proof (cilium_listed _ _ _ _ _ _ _ _ HL) as Hlen.
  pose proof (collect_conns_no_error c conns) as Hne.
  destruct (foldr_result collect_conn c conns) as [c1| |]; [|done..]. cbn [rbind].
  exists (count conns). unfold fetchedCount, count in *.
  split_and!; [apply float64_exact; lia|apply float64_exact; lia|lia|lia].
Qed.
End instrumented.
