(* ===== verification/Locking.v ===== *)
(** The collector under its mutex: [collect] and [cleanup] of the goroutine of [Start] and any number of
    concurrent requests, src/collector/collector.go.

    Collector.v takes each operation as one step.  Here the operations are what the goroutines do: the
    connections are listed before the mutex is taken, and a critical section is a sequence of small
    writes, one per connection, dropped key or reset metric, between which other goroutines run.  The
    theorem is that whenever the mutex is free the collector is in a state of the atomic model.

    The response is written while the mutex is held, to a client that may stop reading: the server of
    src/cmd/collector/main.go has no write timeout.  Which clients do is a parameter, [stalls]. *)
From S2P Require Import Prelude GoBase Conntrack Dns Kube Collector Metrics.
From stdpp Require Import base numbers list strings gmap relations.
Local Open Scope string_scope.
Local Open Scope list_scope.
Local Open Scope Z_scope.
Local Open Scope egress_scope.

(** * Loops over a map that write it *)
Section map_loops.
Context {A : Type}.
Implicit Types m : gmap Z A.

(** [for k, x := range m { if p(x) { delete(m, k) } }], the keys in the order they are visited. *)
Definition drop_key (p : A -> bool) m (k : Z) : gmap Z A :=
  match m !! k with Some x => if p x then delete k m else m | None => m end.

Lemma drop_keys_lookup p ks m k :
  foldl (drop_key p) m ks !! k =
  match m !! k with Some x => if decide (k ∈ ks) then if p x then None else Some x else Some x | None => None end.
Proof.
  revert m. induction ks as [|k0 ks IH]; intros m; cbn [foldl].
  { destruct (m !! k); [|done]. case_decide as H; [by apply elem_of_nil in H|done]. }
  rewrite IH. unfold drop_key. destruct (decide (k = k0)) as [-> | Hne].
  - destruct (m !! k0) as [x|] eqn:E; [|by rewrite E]. rewrite (decide_True (P := k0 ∈ k0 :: ks)) by left.
    destruct (p x) eqn:Hp; [by rewrite lookup_delete_eq|]. rewrite E, Hp. by destruct (decide (k0 ∈ ks)).
  - assert ((match m !! k0 with Some x => if p x then delete k0 m else m | None => m end) !! k = m !! k) as ->.
    { destruct (m !! k0); [|done]. destruct (p a); [|done]. by rewrite lookup_delete_ne by done. }
    destruct (m !! k); [|done]. destruct (decide (k ∈ ks)) as [H | H].
    + by rewrite decide_True by (by right).
    + by rewrite decide_False by (by rewrite not_elem_of_cons).
Qed.

Lemma drop_all p ks m : ks ≡ₚ (map_to_list m).*1 ->
  foldl (drop_key p) m ks = filter (λ kv : Z * A, p kv.2 = false) m.
Proof.
  intros Hks. apply map_eq. intros k. rewrite drop_keys_lookup, map_lookup_filter.
  destruct (m !! k) as [x|] eqn:E; [|done]. simpl. rewrite decide_True.
  - destruct (p x) eqn:Hp; [by rewrite option_guard_False by (simpl; congruence)|by rewrite option_guard_True].
  - rewrite Hks. apply list_elem_of_fmap. exists (k, x). split; [done|]. by apply elem_of_map_to_list.
Qed.

(** [for k, x := range m { x.f() }] *)
Lemma alter_keys_lookup (f : Z -> A -> A) ks m k : NoDup ks ->
  foldl (λ m k, alter (f k) k m) m ks !! k = if decide (k ∈ ks) then f k <$> m !! k else m !! k.
Proof.
  revert m. induction ks as [|k0 ks IH]; intros m; cbn [foldl].
  { intros _. case_decide as H; [by apply elem_of_nil in H|done]. }
  intros [Hk0 Hnd]%NoDup_cons. rewrite IH by done. destruct (decide (k = k0)) as [-> | Hne].
  - rewrite lookup_alter_eq, (decide_False (P := k0 ∈ ks)) by done. by rewrite decide_True by left.
  - rewrite lookup_alter_ne by done. destruct (decide (k ∈ ks)) as [H | H].
    + by rewrite decide_True by (by right).
    + by rewrite decide_False by (by rewrite not_elem_of_cons).
Qed.

Lemma alter_all (f : Z -> A -> A) ks m : ks ≡ₚ (map_to_list m).*1 ->
  foldl (λ m k, alter (f k) k m) m ks = map_imap (λ k x, Some (f k x)) m.
Proof.
  intros Hks. apply map_eq. intros k. rewrite alter_keys_lookup, map_lookup_imap.
  - case_decide as Hk; [by destruct (m !! k)|]. destruct (m !! k) as [x|] eqn:E; [|done]. exfalso. apply Hk.
    rewrite Hks. apply list_elem_of_fmap. exists (k, x). split; [done|]. by apply elem_of_map_to_list.
  - rewrite Hks. apply NoDup_fst_map_to_list.
Qed.
End map_loops.

Section locking.
Context `{N : Netaddr} (split_comma : string -> list string).
Context (entryGroupHash conntrackEntryHash : list Z -> Z).
Notation step := (Collector.step entryGroupHash conntrackEntryHash).
Notation collect := (Collector.collect entryGroupHash conntrackEntryHash).
Notation collect_conn := (Collector.collect_conn entryGroupHash conntrackEntryHash).
(** The requests whose clients never take the response. *)
Context (stalls : nat -> Prop).

(** * Critical sections *)

(** The writes to the collector's state, in the order of the code. *)
Inductive micro :=
| MConn (conn : Entry)            (* the body of the loop over the connections *)
| MFirstDone                      (* c.firstCollectDone = true *)
| MDropEntry (now key : Z)        (* the body of the first loop of cleanup *)
| MDropMetric (now key : Z)       (* the body of the second *)
| MReset (now key : Z).           (* the body of the loop of the handler *)

Definition set_entries (c : Collector) (es : gmap Z Entry) : Collector :=
  MkCollector (cfg c) (excludeNsMap c) es (podMetrics c) (firstCollectDone c).
Definition set_metrics (c : Collector) (ms : gmap Z rawNetworkMetric) : Collector :=
  MkCollector (cfg c) (excludeNsMap c) (entriesCache c) ms (firstCollectDone c).

Definition exec (c : Collector) (op : micro) : result Collector :=
  match op with
  | MConn conn => collect_conn c conn
  | MFirstDone => Ok (MkCollector (cfg c) (excludeNsMap c) (entriesCache c) (podMetrics c) true)
  | MDropEntry now k => Ok (set_entries c (drop_key (λ e, After now (Lifetime e)) (entriesCache c) k))
  | MDropMetric now k => Ok (set_metrics c (drop_key (λ m, After now (mlifetime m)) (podMetrics c) k))
  | MReset now k => Ok (set_metrics c (alter (reset_metric now) k (podMetrics c)))
  end.
Definition execs : Collector -> list micro -> result Collector := foldr_result exec.

Definition collect_section (conns : list Entry) : list micro := map MConn conns ++ [MFirstDone].
Definition cleanup_section (now : Z) (entries metrics : list Z) : list micro :=
  map (MDropEntry now) entries ++ map (MDropMetric now) metrics.
Definition reset_section (now : Z -> Z) (metrics : list Z) : list micro := map (λ k, MReset (now k) k) metrics.

(** * Goroutines *)

(** The one of [Start]: waiting for a tick, having listed the connections of a collection, or in a
    critical section with what is left of it. *)
Inductive loop_pc := LIdle | LListed (conns : list Entry) | LCritical (rest : list micro).

(** A request: before the lock; with the lock; with the message made of the metrics; with the response
    decided and metrics left to reset; and ended, [None] if the handler panicked. *)
Inductive req_pc :=
| RWaiting
| RLocked
| RMarshalled (snapshot : gmap Z rawNetworkMetric)
| RFinishing (rest : list micro) (answered : option (gmap Z rawNetworkMetric))
| REnded (answered : option (gmap Z rawNetworkMetric)).

Inductive holder := HLoop | HRequest (i : nat).
#[global] Instance holder_eq_dec : EqDecision holder.
Proof. solve_decision. Defined.

Record shared := MkShared {
  coll : Collector;
  mu : option holder;
  loop : loop_pc;
  reqs : list req_pc;
  log : list (gmap Z rawNetworkMetric);   (* the metrics answered with success, in the order of unlocking *)
  dead : bool                             (* the goroutine of Start panicked *)
}.
Definition initially (c : Collector) : shared := MkShared c None LIdle [] [] false.

Definition loops (s : shared) (c : Collector) (h : option holder) (l : loop_pc) : shared :=
  MkShared c h l (reqs s) (log s) (dead s).
Definition requests (s : shared) (c : Collector) (h : option holder) (i : nat) (r : req_pc)
    (answered : list (gmap Z rawNetworkMetric)) : shared :=
  MkShared c h (loop s) (<[i := r]> (reqs s)) (log s ++ answered) (dead s).

Inductive lstep : shared -> shared -> Prop :=
(* collect: list, lock, write, unlock *)
| l_list s watcher LE pods ips conns :
    loop s = LIdle -> getNodePods (coll s) watcher = Ok pods -> getPodIPs pods = Ok ips ->
    LE (FilterBySrcIP ips) = Ok conns ->
    lstep s (loops s (coll s) (mu s) (LListed conns))
| l_list_panic s watcher (LE : EntriesFilter -> result (list Entry)) pods :
    loop s = LIdle -> getNodePods (coll s) watcher = Ok pods ->
    getPodIPs pods = Panic \/ (exists ips, getPodIPs pods = Ok ips /\ LE (FilterBySrcIP ips) = Panic) ->
    lstep s (MkShared (coll s) (mu s) (loop s) (reqs s) (log s) true)
| l_lock s conns :
    loop s = LListed conns -> mu s = None ->
    lstep s (loops s (coll s) (Some HLoop) (LCritical (collect_section conns)))
(* cleanup: lock; the two maps are visited in any order *)
| l_cleanup s now es ms :
    loop s = LIdle -> mu s = None ->
    es ≡ₚ (map_to_list (entriesCache (coll s))).*1 -> ms ≡ₚ (map_to_list (podMetrics (coll s))).*1 ->
    lstep s (loops s (coll s) (Some HLoop) (LCritical (cleanup_section now es ms)))
| l_write s op rest c :
    loop s = LCritical (op :: rest) -> exec (coll s) op = Ok c ->
    lstep s (loops s c (mu s) (LCritical rest))
| l_panic s op rest :
    loop s = LCritical (op :: rest) -> exec (coll s) op = Panic ->
    lstep s (MkShared (coll s) (mu s) (loop s) (reqs s) (log s) true)
| l_unlock s :
    loop s = LCritical [] -> lstep s (loops s (coll s) None LIdle)
(* a request *)
| r_arrive s : lstep s (MkShared (coll s) (mu s) (loop s) (reqs s ++ [RWaiting]) (log s) (dead s))
| r_lock s i :
    reqs s !! i = Some RWaiting -> mu s = None ->
    lstep s (requests s (coll s) (Some (HRequest i)) i RLocked [])
| r_panic s i :   (* Records panics, the mutex is released by the deferred call *)
    reqs s !! i = Some RLocked -> lstep s (requests s (coll s) None i (REnded None) [])
| r_marshal s i :
    reqs s !! i = Some RLocked -> lstep s (requests s (coll s) (mu s) i (RMarshalled (podMetrics (coll s))) [])
| r_marshal_failed s i :
    reqs s !! i = Some RLocked -> lstep s (requests s (coll s) (mu s) i (RFinishing [] None) [])
(* the response is written under the mutex, which takes as long as the client lets it *)
| r_write_failed s i ms :
    reqs s !! i = Some (RMarshalled ms) -> ~ stalls i ->
    lstep s (requests s (coll s) (mu s) i (RFinishing [] None) [])
| r_written s i ms now keys :
    reqs s !! i = Some (RMarshalled ms) -> ~ stalls i -> keys ≡ₚ (map_to_list (podMetrics (coll s))).*1 ->
    lstep s (requests s (coll s) (mu s) i
      (RFinishing (if SendTrafficDelta (cfg (coll s)) then reset_section now keys else []) (Some ms)) [])
| r_reset s i op rest answered c :
    reqs s !! i = Some (RFinishing (op :: rest) answered) -> exec (coll s) op = Ok c ->
    lstep s (requests s c (mu s) i (RFinishing rest answered) [])
| r_unlock s i answered :
    reqs s !! i = Some (RFinishing [] answered) ->
    lstep s (requests s (coll s) None i (REnded answered) (option_list answered)).

(** Nothing happens after the process has died. *)
Definition cstep (s s' : shared) : Prop := dead s = false /\ lstep s s'.

(** * Critical sections are the atomic operations *)

Lemma execs_app c l1 l2 : execs c (l1 ++ l2) = rbind (execs c l1) (λ c, execs c l2).
Proof. apply foldr_result_app. Qed.

Lemma execs_conns c conns : execs c (map MConn conns) = foldr_result collect_conn c conns.
Proof.
  unfold execs. revert c. induction conns as [|conn conns IH]; intros c; [done|]. cbn [map foldr_result exec].
  destruct (collect_conn c conn); [|done..]. apply IH.
Qed.

Lemma collect_atomic c watcher LE pods ips conns :
  getNodePods c watcher = Ok pods -> getPodIPs pods = Ok ips -> LE (FilterBySrcIP ips) = Ok conns ->
  execs c (collect_section conns) = collect c watcher LE.
Proof.
  intros Hp Hi Hl. unfold Collector.collect. rewrite Hp, Hi. cbn [rbind]. rewrite Hl.
  unfold collect_section. by rewrite execs_app, execs_conns.
Qed.

Lemma execs_drop_entries c now ks : execs c (map (MDropEntry now) ks) =
  Ok (set_entries c (foldl (drop_key (λ e, After now (Lifetime e))) (entriesCache c) ks)).
Proof.
  revert c. induction ks as [|k ks IH]; intros [cf ex es ms fd]; [done|]. simpl. apply IH.
Qed.
Lemma execs_drop_metrics c now ks : execs c (map (MDropMetric now) ks) =
  Ok (set_metrics c (foldl (drop_key (λ m, After now (mlifetime m))) (podMetrics c) ks)).
Proof.
  revert c. induction ks as [|k ks IH]; intros [cf ex es ms fd]; [done|]. simpl. apply IH.
Qed.
Lemma execs_reset c now ks : execs c (reset_section now ks) =
  Ok (set_metrics c (foldl (λ m k, alter (reset_metric (now k)) k m) (podMetrics c) ks)).
Proof.
  revert c. induction ks as [|k ks IH]; intros [cf ex es ms fd]; [done|]. simpl. apply IH.
Qed.

Lemma cleanup_atomic c now es ms :
  es ≡ₚ (map_to_list (entriesCache c)).*1 -> ms ≡ₚ (map_to_list (podMetrics c)).*1 ->
  execs c (cleanup_section now es ms) = Ok (cleanup c now).
Proof.
  intros He Hm. unfold cleanup_section. rewrite execs_app, execs_drop_entries. cbn [rbind].
  rewrite execs_drop_metrics. cbn [podMetrics set_entries]. by rewrite (drop_all _ es), (drop_all _ ms).
Qed.

Lemma serve_atomic c now keys records : keys ≡ₚ (map_to_list (podMetrics c)).*1 ->
  execs c (if SendTrafficDelta (cfg c) then reset_section now keys else []) =
  Ok (fst (GetRawNetworkMetricsHandler c records true true now)).
Proof.
  intros Hk. unfold GetRawNetworkMetricsHandler. cbn [negb]. destruct (SendTrafficDelta (cfg c)); [|done].
  rewrite execs_reset. by rewrite (alter_all (λ k, reset_metric (now k)) keys).
Qed.

(** * What a request leaves alone *)
Definition same_tracking (c1 c2 : Collector) : Prop :=
  cfg c1 = cfg c2 /\ excludeNsMap c1 = excludeNsMap c2 /\ entriesCache c1 = entriesCache c2 /\
  firstCollectDone c1 = firstCollectDone c2.

#[local] Instance same_tracking_equiv : Equivalence same_tracking.
Proof.
  split; [by intros c; split_and!|by intros c1 c2 (? & ? & ? & ?); split_and!|].
  intros c1 c2 c3 (? & ? & ? & ?) (? & ? & ? & ?); split_and!; congruence.
Qed.

Lemma grouped_addresses conn g : entryGroupKey entryGroupHash conn = Ok g ->
  (exists src, ToIPint32 (ipp_ip (Src conn)) = Ok src) /\ exists dst, ToIPint32 (ipp_ip (Dst conn)) = Ok dst.
Proof.
  unfold entryGroupKey, ToIPint32. intros (s & -> & (d & -> & _)%rbind_ok)%rbind_ok. simpl. eauto.
Qed.

Lemma collect_conn_tracking c1 c2 conn c2' : same_tracking c1 c2 -> collect_conn c2 conn = Ok c2' ->
  exists c1', collect_conn c1 conn = Ok c1' /\ same_tracking c1' c2'.
Proof.
  destruct c1 as [cf ex es ms1 fd], c2 as [cf2 ex2 es2 ms2 fd2]. intros (E1 & E2 & E3 & E4). simpl in *. subst.
  unfold Collector.collect_conn. cbn [cfg excludeNsMap entriesCache podMetrics firstCollectDone].
  destruct (conntrackEntryKey conntrackEntryHash conn) as [k| |]; [|done..]. cbn [rbind].
  destruct (es2 !! k); (destruct (SendTrafficDelta cf2 && negb fd2); [intros [= <-]; eexists; split; [done|by split_and!]|]);
    (destruct (entryGroupKey entryGroupHash (group_conn cf2 conn)) as [g| |] eqn:Eg; [|done..]); cbn [rbind];
    destruct (grouped_addresses _ _ Eg) as [[src ->] [dst ->]]; cbn [rbind];
    destruct (ms1 !! g), (ms2 !! g); intros [= <-]; (eexists; split; [reflexivity|by split_and!]).
Qed.

Lemma getNodePods_tracking c1 c2 watcher : same_tracking c1 c2 -> getNodePods c1 watcher = getNodePods c2 watcher.
Proof. intros (_ & E & _ & _). unfold getNodePods. by rewrite E. Qed.

Lemma handler_tracking c records mok wok now :
  same_tracking (fst (GetRawNetworkMetricsHandler c records mok wok now)) c.
Proof.
  unfold GetRawNetworkMetricsHandler. destruct mok, wok; cbn [negb]; [|done..].
  by destruct (SendTrafficDelta (cfg c)).
Qed.

(** * The invariant *)

(** What the answers of a list carried for a group. *)
Definition answered_total (l : list (gmap Z rawNetworkMetric)) (g : Z) (q : ctr) : Z :=
  foldr (λ ms n, n + match ms !! g with Some m => mctr q m | None => 0 end) 0 l.

Lemma answered_total_snoc l ms g q : answered_total (l ++ [ms]) g q =
  answered_total l g q + match ms !! g with Some m => mctr q m | None => 0 end.
Proof. induction l as [|x l IH]; simpl in *; [lia|]. rewrite IH. lia. Qed.

(** What was sent: the answers, if they reset the counters. *)
Definition sent_total (cf : Config) (l : list (gmap Z rawNetworkMetric)) (g : Z) (q : ctr) : Z :=
  if SendTrafficDelta cf then answered_total l g q else 0.

Definition is_reset (op : micro) : Prop := match op with MReset _ _ => True | _ => False end.

(** The atomic operation a finishing request amounts to. *)
Definition finishing (A c : Collector) (rest : list micro) (answered : option (gmap Z rawNetworkMetric)) : Prop :=
  exists records mok wok now, let '(c', resp) := GetRawNetworkMetricsHandler A records mok wok now in
    execs c rest = Ok c' /\
    match answered, resp with
    | Some ms, Body _ _ => ms = podMetrics A
    | None, Body _ _ | Some _, _ => False
    | None, _ => True
    end.

(** The mutex is held by a request exactly in its critical section, and what it has done so far. *)
Definition req_ok (A : Collector) (s : shared) (i : nat) (r : req_pc) : Prop :=
  match r with
  | RWaiting | REnded _ => mu s <> Some (HRequest i)
  | RLocked => mu s = Some (HRequest i) /\ coll s = A
  | RMarshalled ms => mu s = Some (HRequest i) /\ coll s = A /\ ms = podMetrics A
  | RFinishing rest answered =>
      mu s = Some (HRequest i) /\ Forall is_reset rest /\ finishing A (coll s) rest answered
  end.

Definition loop_ok (A : Collector) (a : accounts) (s : shared) : Prop :=
  match loop s with
  | LIdle => mu s <> Some HLoop
  | LListed conns => mu s <> Some HLoop /\
      exists watcher LE pods ips, getNodePods A watcher = Ok pods /\ getPodIPs pods = Ok ips /\
        LE (FilterBySrcIP ips) = Ok conns
  | LCritical rest => mu s = Some HLoop /\
      forall c', execs (coll s) rest = Ok c' -> exists a', step (A, a) (c', a') /\ sent a' = sent a
  end.

Record linv (A : Collector) (a : accounts) (s : shared) : Prop := {
  i_free : mu s = None -> coll s = A;
  i_same : mu s <> Some HLoop -> same_tracking (coll s) A;
  i_sent : forall g q, sent a g q = sent_total (cfg A) (log s) g q;
  i_loop : loop_ok A a s;
  i_reqs : forall i r, reqs s !! i = Some r -> req_ok A s i r;
  i_holder : forall i, mu s = Some (HRequest i) -> is_Some (reqs s !! i)
}.

(** ** Requests outside their critical sections *)
Definition quiet (r : req_pc) : Prop := match r with RWaiting | REnded _ => True | _ => False end.

Lemma quiet_ok A s i r : quiet r -> mu s <> Some (HRequest i) -> req_ok A s i r.
Proof. by destruct r. Qed.
Lemma others_quiet A a s j r : linv A a s -> reqs s !! j = Some r -> mu s <> Some (HRequest j) -> quiet r.
Proof. intros I Hj Hm. pose proof (i_reqs _ _ _ I j r Hj) as H. destruct r; simpl in *; try done; by destruct H. Qed.

(** A step of the loop while no request holds the mutex. *)
Lemma loop_inv A a A' a' s c h l :
  linv A a s -> (forall i, mu s <> Some (HRequest i)) -> h = None \/ h = Some HLoop ->
  (h = None -> c = A') -> (forall g q, sent a' g q = sent_total (cfg A') (log s) g q) ->
  loop_ok A' a' (loops s c h l) -> linv A' a' (loops s c h l).
Proof.
  intros I Hm Hh Hc Hs Hl. split; cbn [loops mu coll log reqs]; [done| |done|done| |].
  - intros Hne. destruct Hh as [-> | ->]; [by rewrite Hc|done].
  - intros j r Hj. apply quiet_ok; [by eapply others_quiet|]. by destruct Hh as [-> | ->].
  - intros i ->. by destruct Hh.
Qed.

(** A step of a request that has the mutex or takes it. *)
Lemma request_inv A a A' a' s i r0 c h r ans :
  linv A a s -> reqs s !! i = Some r0 -> mu s = None \/ mu s = Some (HRequest i) ->
  h = None \/ h = Some (HRequest i) -> (h = None -> c = A') -> same_tracking c A' -> same_tracking A' A ->
  (forall g q, sent a' g q = sent_total (cfg A') (log s ++ ans) g q) ->
  req_ok A' (requests s c h i r ans) i r -> linv A' a' (requests s c h i r ans).
Proof.
  intros I Hi Hm Hh Hc Hs HA Hsent Hr. split; cbn [requests mu coll log reqs]; [done|done|done| | |].
  - pose proof (i_loop _ _ _ I) as Hl. unfold loop_ok in *. cbn [requests loop mu coll].
    destruct (loop s) as [|conns|rest].
    + by destruct Hh as [-> | ->].
    + split; [by destruct Hh as [-> | ->]|]. destruct Hl as (_ & watcher & LE & pods & ips & H1 & H2 & H3).
      exists watcher, LE, pods, ips. split_and!; [by rewrite (getNodePods_tracking A' A)|done|done].
    + destruct Hl as [Hl _]. destruct Hm; congruence.
  - intros j r' Hj. destruct (decide (j = i)) as [-> | Hne].
    + rewrite list_lookup_insert_eq in Hj by (by apply lookup_lt_Some in Hi). by injection Hj as <-.
    + rewrite list_lookup_insert_ne in Hj by done. apply quiet_ok.
      * eapply others_quiet; [done|done|]. destruct Hm as [-> | ->]; congruence.
      * cbn [requests mu]. destruct Hh as [-> | ->]; congruence.
  - intros j. destruct Hh as [-> | ->]; [done|]. intros [= <-].
    rewrite list_lookup_insert_eq by (by apply lookup_lt_Some in Hi). by eexists.
Qed.

(** ** Every step keeps it *)
Lemma section_inv A a s l ops : linv A a s -> mu s = None ->
  (forall c', execs A ops = Ok c' -> exists a', step (A, a) (c', a') /\ sent a' = sent a) ->
  l = LCritical ops -> linv A a (loops s (coll s) (Some HLoop) l).
Proof.
  intros I Hm Hops ->. apply (loop_inv A a); [done|by rewrite Hm|by right|done|apply I|].
  split; [done|]. cbn [loops coll]. by rewrite (i_free _ _ _ I Hm).
Qed.

Lemma collect_section_steps A a watcher LE pods ips conns c' :
  getNodePods A watcher = Ok pods -> getPodIPs pods = Ok ips -> LE (FilterBySrcIP ips) = Ok conns ->
  execs A (collect_section conns) = Ok c' ->
  exists a', step (A, a) (c', a') /\ sent a' = sent a.
Proof.
  intros Hp Hi Hl He. rewrite (collect_atomic A watcher LE pods ips conns) in He by done.
  eexists. by split; [by eapply (step_collect _ _ A a watcher LE c' pods ips conns)|].
Qed.

Lemma cleanup_section_steps A a now es ms c' :
  es ≡ₚ (map_to_list (entriesCache A)).*1 -> ms ≡ₚ (map_to_list (podMetrics A)).*1 ->
  execs A (cleanup_section now es ms) = Ok c' -> exists a', step (A, a) (c', a') /\ sent a' = sent a.
Proof.
  intros He Hm. rewrite cleanup_atomic by done. intros [= <-]. eexists. by split; [apply step_cleanup|].
Qed.

(** The end of a request is a step of the atomic model, which sends what it answered. *)
Lemma finished_steps A a c answered : finishing A c [] answered ->
  exists a', step (A, a) (c, a') /\ same_tracking c A /\
    forall l, (forall g q, sent a g q = sent_total (cfg A) l g q) ->
     forall g q, sent a' g q = sent_total (cfg A) (l ++ option_list answered) g q.
Proof.
  intros (records & mok & wok & now & H). pose proof (handler_tracking A records mok wok now) as Ht.
  destruct (GetRawNetworkMetricsHandler A records mok wok now) as [c' resp] eqn:E. destruct H as [[= <-] Hans].
  eexists. split; [by eapply step_serve|]. split; [exact Ht|]. intros l Hl g q. specialize (Hl g q).
  unfold sent_total, served in *. destruct (SendTrafficDelta (cfg A)); [|by destruct resp].
  destruct answered as [ms|], resp; try done; cbn [sent].
  2-3: by change (option_list None) with (@nil (gmap Z rawNetworkMetric)); rewrite app_nil_r.
  change (option_list (Some ms)) with [ms]. rewrite answered_total_snoc, Hl, Hans. by unfold pending.
Qed.

Lemma reset_tracking c op c' : is_reset op -> exec c op = Ok c' -> same_tracking c' c.
Proof. destruct op; try done. intros _ [= <-]. by split_and!. Qed.

Lemma reset_section_resets now keys : Forall is_reset (reset_section now keys).
Proof. unfold reset_section. apply Forall_map. by induction keys; constructor. Qed.

Lemma finishing_unanswered A : finishing A A [] None.
Proof. exists [], false, true, (λ _, 0). by split. Qed.

Lemma listed_inv A a s watcher LE pods ips conns : linv A a s -> loop s = LIdle ->
  getNodePods (coll s) watcher = Ok pods -> getPodIPs pods = Ok ips -> LE (FilterBySrcIP ips) = Ok conns ->
  linv A a (loops s (coll s) (mu s) (LListed conns)).
Proof.
  intros I Hl Hp Hi HL. pose proof (i_loop _ _ _ I) as Hok. unfold loop_ok in Hok. rewrite Hl in Hok.
  pose proof (i_same _ _ _ I Hok) as Hs. destruct I as [I1 I2 I3 _ I5 I6].
  split; [exact I1|exact I2|exact I3| |exact I5|exact I6]. split; [done|].
  exists watcher, LE, pods, ips. rewrite <- (getNodePods_tracking (coll s) A) by done.
  by split_and!.
Qed.

Lemma arrived_inv A a s : linv A a s ->
  linv A a (MkShared (coll s) (mu s) (loop s) (reqs s ++ [RWaiting]) (log s) (dead s)).
Proof.
  intros [I1 I2 I3 I4 I5 I6]. split; cbn [mu coll log loop reqs]; [done|done|done|exact I4| |].
  - intros i r [Hi | [Hlen Hi]]%lookup_app_Some; [exact (I5 i r Hi)|].
    apply list_lookup_singleton_Some in Hi as [_ <-]. intros Hm. destruct (I6 i Hm) as [r Hr].
    apply lookup_lt_Some in Hr. lia.
  - intros i Hm. destruct (I6 i Hm) as [r Hr]. exists r. by apply lookup_app_l_Some.
Qed.

(** The loop in its critical section. *)
Lemma critical_ok A a s rest : linv A a s -> loop s = LCritical rest -> mu s = Some HLoop /\
  forall c', execs (coll s) rest = Ok c' -> exists a', step (A, a) (c', a') /\ sent a' = sent a.
Proof. intros I Hl. pose proof (i_loop _ _ _ I) as H. unfold loop_ok in H. by rewrite Hl in H. Qed.

(** A step leaves the atomic model where it is, or makes one step of it. *)
Definition moves (A : Collector) (a : accounts) (s' : shared) : Prop :=
  exists A' a', rtc step (A, a) (A', a') /\ linv A' a' s'.
Lemma stays A a s' : linv A a s' -> moves A a s'.
Proof. by exists A, a. Qed.

(** A request that holds the mutex goes on without writing. *)
Lemma held_inv A a s i r0 r : linv A a s -> reqs s !! i = Some r0 -> mu s = Some (HRequest i) -> coll s = A ->
  req_ok A (requests s (coll s) (mu s) i r []) i r -> linv A a (requests s (coll s) (mu s) i r []).
Proof.
  intros I Hi Hm Hc Hr. apply (request_inv A a A a s i r0); [done|done|by right|rewrite Hm; by right|by rewrite Hm|
    by rewrite Hc|done|by rewrite app_nil_r; apply I|done].
Qed.

Lemma written_inv A a s i ms now keys : linv A a s -> reqs s !! i = Some (RMarshalled ms) ->
  keys ≡ₚ (map_to_list (podMetrics (coll s))).*1 ->
  linv A a (requests s (coll s) (mu s) i
    (RFinishing (if SendTrafficDelta (cfg (coll s)) then reset_section now keys else []) (Some ms)) []).
Proof.
  intros I Hi Hk. pose proof (i_reqs _ _ _ I i _ Hi) as (Hm & Hc & Hms).
  eapply held_inv; [done..|]. split; [done|]. split; [destruct (SendTrafficDelta _); [apply reset_section_resets|by constructor]|].
  exists [], true, true, now. pose proof (serve_atomic (coll s) now keys [] Hk) as He. rewrite Hc in *.
  unfold GetRawNetworkMetricsHandler in *. cbn [negb] in *. by destruct (SendTrafficDelta (cfg A)).
Qed.

Lemma reset_inv A a s i op rest answered c : linv A a s ->
  reqs s !! i = Some (RFinishing (op :: rest) answered) -> exec (coll s) op = Ok c ->
  linv A a (requests s c (mu s) i (RFinishing rest answered) []).
Proof.
  intros I Hi He. pose proof (i_reqs _ _ _ I i _ Hi) as (Hm & [Hop Hrest]%Forall_cons & Hf).
  eapply request_inv; [done|done|by right|rewrite Hm; by right|by rewrite Hm| |done|by rewrite app_nil_r; apply I|].
  - etransitivity; [by eapply reset_tracking|]. apply I. by rewrite Hm.
  - split_and!; [done|done|]. destruct Hf as (records & mok & wok & now & H). exists records, mok, wok, now.
    destruct (GetRawNetworkMetricsHandler A records mok wok now). cbn [requests coll].
    destruct H as [H Hans]. split; [|done]. revert H. unfold execs. cbn [foldr_result]. by rewrite He.
Qed.

Lemma lstep_moves A a s s' : linv A a s -> lstep s s' -> moves A a s'.
Proof.
  intros I Hs. destruct Hs as [s watcher LE pods ips conns Hl Hp Hi HL|s watcher LE pods Hl Hp Hi|s conns Hl Hm|s now es ms Hl Hm He Hms
    |s op rest c Hl He|s op rest Hl He|s Hl|s|s i Hi Hm|s i Hi|s i Hi|s i Hi|s i ms Hi Hst|s i ms now keys Hi Hst Hk
    |s i op rest answered c Hi He|s i answered Hi].
  - eapply stays, listed_inv; eauto.
  - apply stays. by destruct I as [I1 I2 I3 I4 I5 I6].
  - eapply stays, section_inv; [done|done| |done]. pose proof (i_loop _ _ _ I) as Hok. unfold loop_ok in Hok.
    rewrite Hl in Hok. destruct Hok as (_ & watcher & LE & pods & ips & ? & ? & ?).
    intros c' Hc'. by eapply collect_section_steps.
  - eapply stays, section_inv; [done|done| |done]. rewrite (i_free _ _ _ I Hm) in *.
    intros c' Hc'. by eapply cleanup_section_steps.
  - destruct (critical_ok _ _ _ _ I Hl) as [Hm Hok].
    eapply stays, loop_inv; [done|by rewrite Hm|by right|by rewrite Hm|apply I|]. split; [done|].
    intros c' Hc'. apply Hok. unfold execs. cbn [foldr_result]. by rewrite He.
  - apply stays. by destruct I as [I1 I2 I3 I4 I5 I6].
  - destruct (critical_ok _ _ _ _ I Hl) as [Hm Hok]. destruct (Hok _ eq_refl) as (a' & Hst & Hsent).
    exists (coll s), a'. split; [by apply rtc_once|].
    eapply loop_inv; [exact I|by rewrite Hm|by left|done| |done].
    apply step_cfg in Hst. cbn [fst] in Hst. rewrite Hst, Hsent. apply I.
  - by apply stays, arrived_inv.
  - eapply stays, request_inv; [done|done|by left|by right|done|apply I; congruence|done|by rewrite app_nil_r; apply I|].
    split; [done|]. by apply (i_free _ _ _ I).
  - pose proof (i_reqs _ _ _ I i _ Hi) as [Hm Hc].
    eapply stays, request_inv; [done|done|by right|by left|done|by rewrite Hc|done|by rewrite app_nil_r; apply I|done].
  - pose proof (i_reqs _ _ _ I i _ Hi) as [Hm Hc].
    eapply stays, held_inv; [done..|]. split_and!; [done|done|]. by rewrite Hc.
  - pose proof (i_reqs _ _ _ I i _ Hi) as [Hm Hc].
    eapply stays, held_inv; [done..|]. split_and!; [done|by constructor|]. cbn [requests coll]. rewrite Hc. apply finishing_unanswered.
  - pose proof (i_reqs _ _ _ I i _ Hi) as (Hm & Hc & _).
    eapply stays, held_inv; [done..|]. split_and!; [done|by constructor|]. cbn [requests coll]. rewrite Hc. apply finishing_unanswered.
  - by apply stays, written_inv.
  - by eapply stays, reset_inv.
  - pose proof (i_reqs _ _ _ I i _ Hi) as (Hm & _ & Hf).
    destruct (finished_steps A a (coll s) answered Hf) as (a' & Hst & Ht & Hsent).
    exists (coll s), a'. split; [by apply rtc_once|].
    eapply request_inv; [exact I|done|by right|by left|done|done|exact Ht| |done].
    destruct Ht as [Ht _]. rewrite Ht. apply Hsent, I.
Qed.

Lemma initially_inv c0 : linv c0 no_accounts (initially c0).
Proof. split; try done. intros g q. unfold sent_total. by case_match. Qed.

Lemma reachable_linv c0 s : rtc cstep (initially c0) s ->
  exists A a, rtc step (c0, no_accounts) (A, a) /\ linv A a s.
Proof.
  revert s. apply rtc_ind_r; [by exists c0, no_accounts; split; [|apply initially_inv]|].
  intros s s' _ [_ Hs] (A & a & Hr & I). destruct (lstep_moves _ _ _ _ I Hs) as (A' & a' & Hr' & I').
  exists A', a'. split; [by etransitivity|done].
Qed.

(** * Critical sections end *)

(** How many steps its holder is from releasing the mutex. *)
Definition remaining (s : shared) : nat :=
  match mu s with
  | None => 0
  | Some HLoop => match loop s with LCritical rest => S (length rest) | _ => 0 end
  | Some (HRequest i) =>
      match reqs s !! i with
      | Some RLocked => S (S (S (size (podMetrics (coll s)))))
      | Some (RMarshalled _) => S (S (size (podMetrics (coll s))))
      | Some (RFinishing rest _) => S (length rest)
      | _ => 0
      end
  end.

(** The holder is a request that writes its response to a client that never takes it. *)
Definition stuck (s : shared) : Prop :=
  exists i ms, mu s = Some (HRequest i) /\ reqs s !! i = Some (RMarshalled ms) /\ stalls i.

(** The holder comes nearer to its unlock, or the process has died. *)
Definition nearer (s s' : shared) : Prop :=
  dead s' = true \/ mu s' = None \/ mu s' = mu s /\ (remaining s' < remaining s)%nat.
(** Another goroutine ran, and nothing under the mutex has changed. *)
Definition aside (s s' : shared) : Prop :=
  coll s' = coll s /\ mu s' = mu s /\ remaining s' = remaining s.

Lemma exec_no_error c op : no_error (exec c op).
Proof. destruct op; try done. apply collect_conn_no_error. Qed.

Lemma reset_ok c op : is_reset op -> exists c', exec c op = Ok c'.
Proof. destruct op; try done. intros _. by eexists. Qed.

(** The holder is somewhere in its critical section. *)
Lemma holder_at A a s h : linv A a s -> mu s = Some h ->
  match h with
  | HLoop => exists rest, loop s = LCritical rest
  | HRequest i => exists r, reqs s !! i = Some r /\ ~ quiet r
  end.
Proof.
  intros I Hm. destruct h as [|i].
  - pose proof (i_loop _ _ _ I) as H. unfold loop_ok in H. destruct (loop s) as [| |rest]; [done|destruct H; congruence|by exists rest].
  - destruct (i_holder _ _ _ I i Hm) as [r Hr]. exists r. split; [done|].
    pose proof (i_reqs _ _ _ I i r Hr) as H. destruct r; simpl in *; tauto.
Qed.

Lemma holder_can A a s h : linv A a s -> mu s = Some h -> ~ stuck s -> exists s', lstep s s' /\ nearer s s'.
Proof.
  intros I Hm Hst. pose proof (holder_at _ _ _ _ I Hm) as Hh. unfold nearer, remaining. rewrite Hm.
  destruct h as [|i]; [destruct Hh as ([|op rest] & Hl)|destruct Hh as (r & Hi & Hr)].
  - eexists. split; [by apply l_unlock|by right; left].
  - pose proof (exec_no_error (coll s) op) as Hne. destruct (exec (coll s) op) as [c|e|] eqn:He; [|done|].
    + eexists. split; [by eapply l_write|]. right; right. cbn [loops mu loop]. rewrite Hm, Hl. split; [done|simpl; lia].
    + eexists. split; [by eapply l_panic|by left].
  - assert (Hin : (i < length (reqs s))%nat) by (by apply lookup_lt_Some in Hi).
    destruct r as [| |ms|[|op rest] ans|ans]; try (by destruct Hr; constructor).
    + eexists. split; [by apply r_marshal_failed|]. right; right. cbn [requests mu reqs coll].
      rewrite Hm, Hi, list_lookup_insert_eq by done. split; [done|simpl; lia].
    + eexists. split; [eapply r_write_failed; [done|]; intros Hi'; apply Hst; by exists i, ms|]. right; right. cbn [requests mu reqs coll].
      rewrite Hm, Hi, list_lookup_insert_eq by done. split; [done|simpl; lia].
    + eexists. split; [by apply r_unlock|by right; left].
    + pose proof (i_reqs _ _ _ I i _ Hi) as (_ & [Hop _]%Forall_cons & _).
      destruct (reset_ok (coll s) op Hop) as [c Hc]. eexists. split; [by eapply r_reset|]. right; right.
      cbn [requests mu reqs coll]. rewrite Hm, Hi, list_lookup_insert_eq by done. split; [done|simpl; lia].
Qed.

(** The step of a request that keeps the mutex, by how much of its section is left. *)
Lemma request_nearer A a s i r0 c r : linv A a s -> reqs s !! i = Some r0 -> ~ quiet r0 ->
  (forall n, mu s = Some (HRequest i) -> remaining s = n ->
     (match r with
      | RMarshalled _ => S (S (size (podMetrics c)))
      | RFinishing rest _ => S (length rest)
      | _ => 0%nat
      end < n)%nat) ->
  match r with RMarshalled _ | RFinishing _ _ => True | _ => False end ->
  nearer s (requests s c (mu s) i r []).
Proof.
  intros I Hi Hq Hn Hr. assert (Hm : mu s = Some (HRequest i)).
  { pose proof (i_reqs _ _ _ I i _ Hi) as H. destruct r0; simpl in *; tauto. }
  right; right. split; [done|]. specialize (Hn _ Hm eq_refl). unfold remaining at 1. cbn [requests mu reqs coll].
  rewrite Hm, list_lookup_insert_eq by (by apply lookup_lt_Some in Hi). destruct r; try done.
Qed.

Lemma steps_nearer A a s s' h : linv A a s -> mu s = Some h -> lstep s s' -> nearer s s' \/ aside s s'.
Proof.
  intros I Hm Hs. destruct Hs as [s watcher LE pods ips conns Hl Hp Hi HL|s watcher LE pods Hl Hp Hi|s conns Hl Hm'|s now es ms Hl Hm' He Hms
    |s op rest c Hl He|s op rest Hl He|s Hl|s|s i Hi Hm'|s i Hi|s i Hi|s i Hi|s i ms Hi Hst|s i ms now keys Hi Hst Hk
    |s i op rest answered c Hi He|s i answered Hi]; try congruence.
  - right. split_and!; [done|done|]. unfold remaining. cbn [loops mu loop reqs coll]. rewrite Hm.
    destruct h; [|done]. by rewrite Hl.
  - left. by left.
  - left. right; right. split; [done|]. destruct (critical_ok _ _ _ _ I Hl) as [Hh _]. unfold remaining.
    cbn [loops mu loop]. rewrite Hh, Hl. simpl. lia.
  - left. by left.
  - left. by right; left.
  - right. split_and!; [done|done|]. unfold remaining. cbn [mu loop reqs coll]. rewrite Hm. destruct h as [|i]; [done|].
    destruct (i_holder _ _ _ I i Hm) as [r Hr]. by rewrite Hr, (lookup_app_l_Some _ _ _ _ Hr).
  - left. by right; left.
  - left. apply (request_nearer A a s i RLocked); [done|done|by intros []| |done]. intros n Hh <-.
    unfold remaining. rewrite Hh, Hi. lia.
  - left. apply (request_nearer A a s i RLocked); [done|done|by intros []| |done]. intros n Hh <-.
    unfold remaining. rewrite Hh, Hi. simpl. lia.
  - left. apply (request_nearer A a s i (RMarshalled ms)); [done|done|by intros []| |done]. intros n Hh <-.
    unfold remaining. rewrite Hh, Hi. simpl. lia.
  - left. apply (request_nearer A a s i (RMarshalled ms)); [done|done|by intros []| |done]. intros n Hh <-.
    unfold remaining. rewrite Hh, Hi.
    apply Permutation_length in Hk. rewrite length_fmap, length_map_to_list in Hk. unfold reset_section.
    destruct (SendTrafficDelta _); rewrite ?length_map; simpl; lia.
  - left. apply (request_nearer A a s i (RFinishing (op :: rest) answered)); [done|done|by intros []| |done]. intros n Hh <-.
    unfold remaining. rewrite Hh, Hi. simpl. lia.
  - left. by right; left.
Qed.

(** Nothing moves a stalled response: every request that could is the stalled one, and the loop waits. *)
Lemma stuck_stays A a s s' i ms : linv A a s -> mu s = Some (HRequest i) ->
  reqs s !! i = Some (RMarshalled ms) -> stalls i -> lstep s s' ->
  coll s' = coll s /\ mu s' = mu s /\ log s' = log s /\ reqs s' !! i = Some (RMarshalled ms).
Proof.
  intros I Hm Hr Hst Hs.
  assert (forall j r, reqs s !! j = Some r -> ~ quiet r -> r = RMarshalled ms /\ stalls j) as Honly.
  { intros j r Hj Hq. assert (j = i) as -> by (pose proof (i_reqs _ _ _ I j r Hj) as H; destruct r; simpl in *;
      try (by destruct Hq); destruct H as [H _]; congruence). split; [congruence|done]. }
  assert (forall rest, loop s <> LCritical rest) as Hloop.
  { intros rest Hl. destruct (critical_ok _ _ _ _ I Hl). congruence. }
  destruct Hs as [s watcher LE pods ips conns Hl Hp Hi HL|s watcher LE pods Hl Hp Hi|s conns Hl Hm'
    |s now es mks Hl Hm' He Hms|s op rest c Hl He|s op rest Hl He|s Hl|s|s j Hj Hm'|s j Hj|s j Hj|s j Hj
    |s j mj Hj Hns|s j mj now keys Hj Hns Hk|s j op rest answered c Hj He|s j answered Hj];
    try congruence; try (by split_and!); try (by destruct (Hloop _ Hl));
    try (by destruct (Honly _ _ Hj) as [? ?]; [by intros []|]).
  split_and!; [done..|]. cbn [reqs]. by apply lookup_app_l_Some.
Qed.
End locking.

(** * Properties *)
Section properties.
Context `{N : Netaddr} (split_comma : string -> list string).
Context (entryGroupHash conntrackEntryHash : list Z -> Z) (stalls : nat -> Prop).
Notation step := (Collector.step entryGroupHash conntrackEntryHash).
Notation cstep := (cstep entryGroupHash conntrackEntryHash stalls).

Lemma run_cfg s s' : rtc step s s' -> cfg s'.1 = cfg s.1.
Proof. induction 1 as [|x y z Hs _ IH]; [done|]. rewrite IH. by eapply step_cfg. Qed.

(** C7: The mutex makes the collector's operations atomic.  However the goroutine of [Start] and any
    number of requests interleave, whatever the listings show and whichever clients stall, the
    connections being listed before the mutex is taken and the state written piece by piece: at most one
    goroutine is in a critical section, and whenever the mutex is free the collector is in a state that a
    sequence of whole collections, cleanups and requests reaches.  There, modulo 2^64, what is pending
    and what cleanup dropped is all that the connections rose by between the listings, less, in delta
    mode, exactly what the answers given so far carried; otherwise answers take nothing away. *)
Theorem mutex_makes_atomic (cf : Config) (c0 : Collector) (s : shared)
    (Hnew : New split_comma cf = Ok c0) (Hrun : rtc cstep (initially c0) s) :
  (forall rest, loop s = LCritical rest -> mu s = Some HLoop) /\
  (forall i r, reqs s !! i = Some r -> ~ quiet r -> mu s = Some (HRequest i)) /\
  (mu s = None -> exists a, rtc step (c0, no_accounts) (coll s, a) /\ forall g q,
     wrap 64 ((if SendTrafficDelta cf then answered_total (log s) g q else 0) +
              pending (coll s) g q + dropped a g q) =
     wrap 64 (risen (history a) g q)).
Proof.
  destruct (reachable_linv _ _ _ _ _ Hrun) as (A & a & Hr & I). split_and!.
  - intros rest Hl. by destruct (critical_ok _ _ _ _ _ _ I Hl).
  - intros i r Hi Hq. pose proof (i_reqs _ _ _ _ _ I i r Hi) as H. destruct r; simpl in *; tauto.
  - intros Hm. rewrite (i_free _ _ _ _ _ I Hm) in *. exists a. split; [done|]. intros g q.
    pose proof (run_cfg _ _ Hr) as Hcfg. cbn [fst] in Hcfg.
    destruct (New_balanced split_comma _ _ Hnew) as [Hc0 Hb].
    apply balanced_run in Hr; [|done]. rewrite Hc0 in Hcfg. apply cong_wrap_eq.
    pose proof (i_sent _ _ _ _ _ I g q) as Hs. unfold sent_total in Hs. rewrite Hcfg in Hs. rewrite <- Hs. apply Hr.
Qed.

(** C8: The mutex is released unless a client stalls.  While a goroutine holds it, every step of the
    process brings that goroutine nearer to its unlock, by a count that only falls, releases the mutex,
    ends the process by a panic of the loop, or is one of another goroutine, which changes neither the
    state the mutex guards nor the count; and the holder can go on, unless it is a request whose client
    does not take its response, which is written under the mutex and without a timeout.  Then the mutex
    stays taken in every continuation: the collector's state never changes again and no request is
    answered any more. *)
Theorem mutex_released (c0 : Collector) (s : shared) (h : holder)
    (Hrun : rtc cstep (initially c0) s) (Halive : dead s = false) (Hheld : mu s = Some h) :
  (~ stuck stalls s -> exists s', cstep s s' /\ nearer s s') /\
  (forall s', cstep s s' -> nearer s s' \/ aside s s') /\
  (stuck stalls s -> forall s', rtc cstep s s' ->
     mu s' = mu s /\ coll s' = coll s /\ log s' = log s /\ stuck stalls s').
Proof.
  destruct (reachable_linv _ _ _ _ _ Hrun) as (A & a & _ & I). split_and!.
  - intros Hst. destruct (holder_can _ _ _ _ _ _ _ I Hheld Hst) as (s' & Hs & Hn). exists s'. by split.
  - intros s' [_ Hs]. by eapply (steps_nearer entryGroupHash conntrackEntryHash stalls A a).
  - intros (i & ms & Hm & Hr & Hst). apply rtc_ind_r; [split_and!; [done..|by exists i, ms]|].
    intros s1 s2 H1 [_ H2] (E1 & E2 & E3 & i' & ms' & Hm' & Hr' & Hst').
    destruct (reachable_linv _ _ _ _ _ (transitivity Hrun H1)) as (A1 & a1 & _ & I1).
    destruct (stuck_stays _ _ _ _ _ _ _ _ _ I1 Hm' Hr' Hst' H2) as (F1 & F2 & F3 & F4).
    split_and!; [congruence..|]. exists i', ms'. split_and!; [congruence|done|done].
Qed.
End properties.

(** A request during a collection: it comes in and takes the mutex, the loop lists the connections
    meanwhile, the request answers with no metrics yet, and the loop waits no longer. *)
#[local] Existing Instance ref_netaddr.
Definition delta_cfg : Config := MkConfig Second Second "" false true.
Definition delta_start : Collector := MkCollector delta_cfg [] ∅ ∅ false.
Definition during : shared := MkShared delta_start (Some (HRequest 0)) (LListed [ref_conn]) [RLocked] [] false.
Definition after : shared := MkShared delta_start None (LListed [ref_conn]) [REnded (Some ∅)] [∅] false.

Definition patient : nat -> Prop := λ _, False.

Lemma during_run stalls : rtc (cstep le_combine le_combine stalls) (initially delta_start) during.
Proof.
  eapply rtc_l; [split; [done|apply r_arrive]|]. eapply rtc_l; [split; [done|by apply (r_lock _ _ _ _ 0)]|].
  eapply rtc_l; [split; [done|by apply (l_list _ _ _ _ (Ok []) ref_list [] [] [ref_conn])]|]. reflexivity.
Qed.

Lemma after_run : rtc (cstep le_combine le_combine patient) during after.
Proof.
  eapply rtc_l; [split; [done|by apply (r_marshal _ _ _ _ 0)]|].
  eapply rtc_l; [split; [done|by apply (r_written _ _ _ _ 0 ∅ (λ _, 0) []); [|intros []|]]|].
  eapply rtc_l; [split; [done|by apply (r_unlock _ _ _ _ 0 (Some ∅))]|]. reflexivity.
Qed.

(** The same request from a client that does not read: the loop waits with its listing. *)
Definition blocked : shared :=
  MkShared delta_start (Some (HRequest 0)) (LListed [ref_conn]) [RMarshalled ∅] [] false.
Lemma blocked_run stalls : rtc (cstep le_combine le_combine stalls) (initially delta_start) blocked.
Proof. eapply rtc_r; [apply during_run|]. split; [done|]. by apply (r_marshal _ _ _ during 0). Qed.

Lemma mutex_makes_atomic_witness :
  exists a, rtc (Collector.step le_combine le_combine) (delta_start, no_accounts) (coll after, a) /\
    log after = [∅].
Proof.
  destruct (mutex_makes_atomic (λ _, []) le_combine le_combine patient delta_cfg delta_start after eq_refl
    (transitivity (during_run patient) after_run)) as (_ & _ & H).
  destruct (H eq_refl) as (a & Ha & _). exists a. split; [exact Ha|reflexivity].
Defined.

Lemma mutex_released_witness :
  (exists s', cstep le_combine le_combine (eq 0%nat) during s' /\ nearer during s') /\
  (forall s', rtc (cstep le_combine le_combine (eq 0%nat)) blocked s' -> mu s' = Some (HRequest 0)).
Proof.
  split.
  - apply (mutex_released le_combine le_combine (eq 0%nat) delta_start during (HRequest 0)
      (during_run _) eq_refl eq_refl). intros (i & ms & [= <-] & [=] & _).
  - intros s' Hs'. refine (proj1 (proj2 (proj2 (mutex_released le_combine le_combine (eq 0%nat) delta_start
      blocked (HRequest 0) (blocked_run _) eq_refl eq_refl)) _ s' Hs')).
    exists 0%nat, ∅. split; [reflexivity|]. split; reflexivity.
Defined.
