(* ===== verification/Exporter.v ===== *)
(** The exporter's aggregation: src/exporter/exporter.go, its kubeWatcher in src/cmd/exporter/main.go
    and the defaults of src/exporter/config/config.go.

    Batches fetched from the collectors are turned into pod metrics by looking the addresses up in
    the caches of Kube.v and the DNS storage of Dns.v, and pushed to the sinks.  The watcher is the
    class [kubeWatcher], the interface of exporter.go; the caches of main.go are its instance. *)
From S2P Require Import Prelude GoBase Dns Kube.
From stdpp Require Import base numbers list strings pretty gmap.
Local Open Scope string_scope.
Local Open Scope list_scope.
Local Open Scope Z_scope.
Local Open Scope egress_scope.

(** * Messages *)
Record RawNetworkMetric := MkRaw {
  rSrcIp : Z; rDstIp : Z; rTxBytes : Z; rTxPackets : Z; rRxBytes : Z; rRxPackets : Z; rProto : Z
}.
Record RawNetworkMetricBatch := MkBatch {
  bItems : list RawNetworkMetric; bIp2Domain : list (Z * string)
}.
Record PodNetworkMetric := MkPodMetric {
  SrcIp : string; SrcPod : string; SrcNamespace : string; SrcNode : string; SrcZone : string;
  DstIp : string; DstPod : string; DstNamespace : string; DstNode : string; DstZone : string;
  TxBytes : Z; TxPackets : Z; RxBytes : Z; RxPackets : Z; Proto : Z;
  DstDnsName : string
}.

(** * Errors *)

(** Errors of the caches, and errors that wrap them with [%w]. *)
Inductive error := EBase (msg : string) | EWrap (context : string) (e : error).

Fixpoint errors_Is (e : error) (target : string) : bool :=
  match e with
  | EBase msg => String.eqb msg target
  | EWrap _ e => errors_Is e target
  end.

Inductive built := Built (m : PodNetworkMetric) | Failed (e : error) | Panicked.

(** [v, err := ...; if err != nil && !errors.Is(err, X) ... { return nil, err }; if v != nil ...]:
    the value, nothing for a tolerated error, or the error. *)
Definition tolerate {A} (allowed : list string) (r : result A) : option A + option error :=
  match r with
  | Ok a => inl (Some a)
  | Err e => if existsb (errors_Is (EBase e)) allowed then inl None else inr (Some (EBase e))
  | Panic => inr None
  end.

Definition stop (o : option error) : built :=
  match o with Some e => Failed e | None => Panicked end.

(** * The interface to the caches *)
Class kubeWatcher := {
  watcher : Type;
  GetPodByIP : watcher -> string -> watcher * result Pod;
  GetNodeByName : watcher -> string -> result Node;
  GetNodeByIP : watcher -> string -> result Node
}.

Definition getNodeZone (node : Node) : string := nZone node.

Section exporter.
Context `{N : Netaddr} `{CI : ExpiringCache Z string} `{W : kubeWatcher}.

Definition emptyMetrics (m : RawNetworkMetric) : bool :=
  (rTxBytes m =? 0) && (rRxBytes m =? 0) && (rTxPackets m =? 0) && (rRxPackets m =? 0).

(** The metric with its destination pod and node; [None] leaves the members empty. *)
Definition with_dst (m : PodNetworkMetric) (pod : option Pod) (node : option Node) (dns : string) :
    PodNetworkMetric :=
  MkPodMetric (SrcIp m) (SrcPod m) (SrcNamespace m) (SrcNode m) (SrcZone m) (DstIp m)
    (from_option Name "" pod) (from_option Namespace "" pod)
    (from_option nName "" node) (from_option getNodeZone "" node)
    (TxBytes m) (TxPackets m) (RxBytes m) (RxPackets m) (Proto m) dns.

Definition buildPodNetworkMetric (now : Z) (w : watcher) (dnsStorage : cache Z string)
    (conn : RawNetworkMetric) : watcher * built :=
  let srcIP := ipFromInt32 (rSrcIp conn) in
  let '(w, r) := GetPodByIP w (IP_String srcIP) in
  match r with
  | Panic => (w, Panicked)
  | Err e => (w, Failed (EWrap ("getting src pod by ip " +:+ quote (IP_String srcIP)) (EBase e)))
  | Ok pod =>
      let dstIP := ipFromInt32 (rDstIp conn) in
      match tolerate [ErrNotFound] (GetNodeByName w (NodeName pod)) with
      | inr e => (w, stop e)
      | inl srcNode =>
          let metric :=
            MkPodMetric (IP_String srcIP) (Name pod) (Namespace pod) (NodeName pod)
              (from_option getNodeZone "" srcNode) (IP_String dstIP) "" "" "" ""
              (rTxBytes conn) (rTxPackets conn) (rRxBytes conn) (rRxPackets conn) (rProto conn) "" in
          if IsPrivate dstIP then
            let '(w, r) := GetPodByIP w (IP_String dstIP) in
            match tolerate [ErrNotFound; ErrToManyObjects] r with
            | inr e => (w, stop e)
            | inl (Some dstPod) =>
                match tolerate [ErrNotFound] (GetNodeByName w (NodeName dstPod)) with
                | inr e => (w, stop e)
                | inl dstNode => (w, Built (with_dst metric (Some dstPod) dstNode ""))
                end
            | inl None =>
                match tolerate [ErrNotFound] (GetNodeByIP w (IP_String dstIP)) with
                | inr e => (w, stop e)
                | inl dstNode => (w, Built (with_dst metric None dstNode ""))
                end
            end
          else
            match ToIPint32 dstIP with
            | Ok ip => (w, Built (with_dst metric None None (Dns.Lookup now dnsStorage ip)))
            | Err e => (w, Failed (EBase e))
            | Panic => (w, Panicked)
            end
      end
  end.

(** ** The aggregation loop of [export] *)

(** What is logged for a raw metric that is skipped. *)
Inductive logged := LWarn (m : RawNetworkMetric) | LError (m : RawNetworkMetric).

Record aggregation := MkAggregation {
  agg_watcher : watcher;
  agg_dns : cache Z string;
  podsMetrics : list PodNetworkMetric;
  logs : list logged;
  crashed : bool
}.

Definition agg_metric (now : Z) (a : aggregation) (raw : RawNetworkMetric) : aggregation :=
  if crashed a then a else
  let '(w, r) := buildPodNetworkMetric now (agg_watcher a) (agg_dns a) raw in
  match r with
  | Built m => MkAggregation w (agg_dns a) (podsMetrics a ++ [m]) (logs a) false
  | Failed e =>
      let l := if errors_Is e ErrNotFound
               then if negb (emptyMetrics raw) then [LWarn raw] else []
               else [LError raw] in
      MkAggregation w (agg_dns a) (podsMetrics a) (logs a ++ l) false
  | Panicked => MkAggregation w (agg_dns a) (podsMetrics a) (logs a) true
  end.

(** A batch, received at time [now]. *)
Definition agg_batch (a : aggregation) (b : Z * RawNetworkMetricBatch) : aggregation :=
  let '(now, batch) := b in
  let a := MkAggregation (agg_watcher a) (Fill now (agg_dns a) (bIp2Domain batch))
             (podsMetrics a) (logs a) (crashed a) in
  fold_left (agg_metric now) (bItems batch) a.

Definition aggregate (w : watcher) (d : cache Z string)
    (batches : list (Z * RawNetworkMetricBatch)) : aggregation :=
  fold_left agg_batch batches (MkAggregation w d [] [] false).
End exporter.

(** * The watcher of the command *)
Section caches.
Context `{XP : Indexer Pod (string * string) pod_key pod_ip_index}
  `{XN : Indexer Node string nName node_name_index} `{XI : Indexer Node string nName node_ip_index}.

Record caches := MkCaches {
  podByIP : PodByIPCache (X := XP); nodeByName : store XN; nodeByIP : store XI
}.

#[export] Instance kube_caches : kubeWatcher := {
  watcher := caches;
  GetPodByIP k ip :=
    let '(p, r) := PodByIPCache_Get (podByIP k) ip in
    (MkCaches p (nodeByName k) (nodeByIP k), r);
  GetNodeByName k name := NodeByNameCache_Get (nodeByName k) name;
  GetNodeByIP k ip := NodeByIPCache_Get (nodeByIP k) ip
}.
End caches.

(** * Collector endpoints *)
Record ContainerPort := MkPort { portName : string; containerPort : Z }.

(** The loops over the containers and their ports, left at the first port named http-server. *)
Fixpoint getCollectorPodMetricsServerURL (ip : string) (containers : list (list ContainerPort)) :
    string :=
  match containers with
  | [] => ""
  | ports :: containers' =>
      (fix loop (ports : list ContainerPort) : string :=
         match ports with
         | [] => getCollectorPodMetricsServerURL ip containers'
         | port :: ports' =>
             if String.eqb (portName port) "http-server"
             then "http://" +:+ ip +:+ ":" +:+ pretty (containerPort port)
             else loop ports'
         end) ports
  end.

(** * Configuration *)
Record Config := MkConfig {
  cfgPodIP : string; cfgPodNamespace : string; ExportInterval : Z; CollectorsConcurrentFetchCount : Z; CollectorFetchTimeout : Z;
  Sinks : list string
}.

(** [Load] after the file and the environment have been read. *)
Definition Load_defaults (c : Config) : result Config :=
  let c := MkConfig (cfgPodIP c) (cfgPodNamespace c)
    (if ExportInterval c =? 0 then 60 * Second else ExportInterval c)
    (if CollectorsConcurrentFetchCount c =? 0 then 20 else CollectorsConcurrentFetchCount c)
    (if CollectorFetchTimeout c =? 0 then 3 * Second else CollectorFetchTimeout c) (Sinks c) in
  match Sinks c with
  | [] => Err "at least one sink config is required"
  | _ => Ok c
  end.

(** * Attribution *)
Section attribution.
Context `{N : Netaddr, HN : !NetaddrSpec N} `{CI : ExpiringCache Z string}.
Context `{XP : !Indexer Pod (string * string) pod_key pod_ip_index, HP : !IndexerSpec XP}
  `{XN : !Indexer Node string nName node_name_index, HNN : !IndexerSpec XN}
  `{XI : !Indexer Node string nName node_ip_index, HNI : !IndexerSpec XI}.
Notation caches := (caches (XP := XP) (XN := XN) (XI := XI)).

Definition no_pod (k : caches) (ip : string) : Prop :=
  forall p, p ∈ ix_list (indexer (podByIP k)) -> PodIP p <> ip.

(** The name and zone of the node with a name, or two empty strings. *)
Definition named_node (k : caches) (name node zone : string) : Prop :=
  (exists n, n ∈ ix_list (nodeByName k) /\ nName n = name /\ node = name /\ zone = nZone n) \/
  (forall n, n ∈ ix_list (nodeByName k) -> nName n <> name) /\ node = "" /\ zone = "".

(** The name and zone of the only node with an internal address, or two empty strings. *)
Definition node_at (k : caches) (ip node zone : string) : Prop :=
  (exists n, n ∈ ix_list (nodeByIP k) /\ internal_ip (nAddresses n) = [ip] /\
     node = nName n /\ zone = nZone n /\
     forall m, m ∈ ix_list (nodeByIP k) -> internal_ip (nAddresses m) = [ip] -> m = n) \/
  (forall n, n ∈ ix_list (nodeByIP k) -> internal_ip (nAddresses n) <> [ip]) /\ node = "" /\ zone = "".

Definition ambiguous_node (k : caches) (ip : string) : Prop :=
  exists n n', n <> n' /\ n ∈ ix_list (nodeByIP k) /\ n' ∈ ix_list (nodeByIP k) /\
    internal_ip (nAddresses n) = [ip] /\ internal_ip (nAddresses n') = [ip].

Lemma tolerate_name (k : caches) name : exists o,
  tolerate [ErrNotFound] (NodeByNameCache_Get (nodeByName k) name) = inl o /\
  named_node k name (from_option nName "" o) (from_option getNodeZone "" o).
Proof.
  destruct (NodeByNameCache_Get_cases (nodeByName k) name) as [(n & -> & Hn & <-)|[-> Hno]].
  - exists (Some n). split; [done|]. left. by exists n.
  - exists None. split; [done|]. by right.
Qed.

Lemma tolerate_ip (k : caches) ip :
  (exists o, tolerate [ErrNotFound] (NodeByIPCache_Get (nodeByIP k) ip) = inl o /\
     node_at k ip (from_option nName "" o) (from_option getNodeZone "" o)) \/
  exists e, tolerate [ErrNotFound] (NodeByIPCache_Get (nodeByIP k) ip) = inr (Some (EBase e)) /\
     e <> ErrNotFound /\ ambiguous_node k ip.
Proof.
  destruct (NodeByIPCache_Get_cases (nodeByIP k) ip) as [(n & -> & Hn & Ha & Hu)|
    [[-> Hno]|(e & n & n' & -> & He & Hne & Hn & Hn' & Ha & Ha')]].
  - left. exists (Some n). split; [done|]. left. by exists n.
  - left. exists None. split; [done|]. by right.
  - right. exists e. split; [|split; [done|by exists n, n']]. simpl.
    rewrite (proj2 (String.eqb_neq _ _) He). done.
Qed.

Definition after_lookup (k : caches) (ip : string) : caches := (GetPodByIP k ip).1.

Lemma GetPodByIP_cases (k : caches) ip :
  ((GetPodByIP k ip).2 = Err ErrNotFound /\ no_pod k ip) \/
  exists p, (GetPodByIP k ip).2 = Ok p /\ first_created (indexer (podByIP k)) ip p.
Proof.
  simpl. destruct (PodByIPCache_Get_cases (podByIP k) ip) as [[-> Hno]|(p & Hp & ->)].
  - by left.
  - right. by exists p.
Qed.

Lemma after_lookup_nodes (k : caches) ip :
  nodeByName (after_lookup k ip) = nodeByName k /\ nodeByIP (after_lookup k ip) = nodeByIP k.
Proof. unfold after_lookup. simpl. by destruct (PodByIPCache_Get (podByIP k) ip). Qed.

Lemma named_node_after k ip : named_node (after_lookup k ip) = named_node k.
Proof. unfold named_node. by rewrite (proj1 (after_lookup_nodes k ip)). Qed.

Lemma node_at_after k ip : node_at (after_lookup k ip) = node_at k.
Proof. unfold node_at. by rewrite (proj2 (after_lookup_nodes k ip)). Qed.

Lemma ambiguous_node_after k ip : ambiguous_node (after_lookup k ip) = ambiguous_node k.
Proof. unfold ambiguous_node. by rewrite (proj2 (after_lookup_nodes k ip)). Qed.

(** The source members of a metric. *)
Definition source_of (k : caches) (conn : RawNetworkMetric) (m : PodNetworkMetric) : Prop :=
  SrcIp m = IP_String (ipFromInt32 (rSrcIp conn)) /\
  exists p node, first_created (indexer (podByIP k)) (SrcIp m) p /\
    SrcPod m = Name p /\ SrcNamespace m = Namespace p /\ SrcNode m = NodeName p /\
    named_node k (NodeName p) node (SrcZone m).

(** The destination members of a metric with a private destination. *)
Definition destination_of (k k1 : caches) (dst : string) (m : PodNetworkMetric) : Prop :=
  DstIp m = dst /\ DstDnsName m = "" /\
  ((exists q, first_created (indexer (podByIP k1)) dst q /\
      DstPod m = Name q /\ DstNamespace m = Namespace q /\
      named_node k (NodeName q) (DstNode m) (DstZone m)) \/
   (no_pod k1 dst /\ DstPod m = "" /\ DstNamespace m = "" /\
      node_at k dst (DstNode m) (DstZone m))).

(** The destination members of a metric with a public destination. *)
Definition public_destination (now : Z) (d : cache Z string) (conn : RawNetworkMetric)
    (m : PodNetworkMetric) : Prop :=
  DstIp m = IP_String (ipFromInt32 (rDstIp conn)) /\ DstPod m = "" /\ DstNamespace m = "" /\
  DstNode m = "" /\ DstZone m = "" /\ DstDnsName m = Dns.Lookup now d (rDstIp conn).

Definition counters_kept (conn : RawNetworkMetric) (m : PodNetworkMetric) : Prop :=
  TxBytes m = rTxBytes conn /\ TxPackets m = rTxPackets conn /\ RxBytes m = rRxBytes conn /\
  RxPackets m = rRxPackets conn /\ Proto m = rProto conn.

Lemma destination_cases (k k1 : caches) dst m0 :
  nodeByName k1 = nodeByName k -> nodeByIP k1 = nodeByIP k -> DstIp m0 = dst ->
  match (let '(w, r) := GetPodByIP k1 dst in
         match tolerate [ErrNotFound; ErrToManyObjects] r with
         | inr e => (w, stop e)
         | inl (Some dstPod) =>
             match tolerate [ErrNotFound] (GetNodeByName w (NodeName dstPod)) with
             | inr e => (w, stop e)
             | inl dstNode => (w, Built (with_dst m0 (Some dstPod) dstNode ""))
             end
         | inl None =>
             match tolerate [ErrNotFound] (GetNodeByIP w dst) with
             | inr e => (w, stop e)
             | inl dstNode => (w, Built (with_dst m0 None dstNode ""))
             end
         end).2 with
  | Built m => destination_of k k1 dst m /\
      exists pod node, m = with_dst m0 pod node ""
  | Failed e => errors_Is e ErrNotFound = false /\ no_pod k1 dst /\ ambiguous_node k dst
  | Panicked => False
  end.
Proof.
  intros En Ei Hd. destruct (after_lookup_nodes k1 dst) as [An Ai]. unfold after_lookup in An, Ai.
  pose proof (GetPodByIP_cases k1 dst) as Hc. destruct (@GetPodByIP kube_caches k1 dst) as [k2 r].
  simpl in An, Ai, Hc. destruct Hc as [[-> Hno]|(p & -> & Hp)]; simpl.
  - destruct (tolerate_ip k2 dst) as [(o & -> & Ho)|(e & -> & He & Ha)]; simpl.
    + split; [|by eexists _, _]. unfold node_at in Ho. rewrite Ai, Ei in Ho.
      split_and!; [done|done|]. right. done.
    + unfold ambiguous_node in Ha. rewrite Ai, Ei in Ha. split_and!; [|done|done].
      by apply String.eqb_neq.
  - destruct (tolerate_name k2 (NodeName p)) as (o & -> & Ho). simpl.
    split; [|by eexists _, _]. unfold named_node in Ho. rewrite An, En in Ho.
    split_and!; [done|done|]. left. by exists p.
Qed.

(** C13: Attribution of a raw metric over the caches.  A metric is built with the counters and the
    protocol of the raw metric; its source is the first-created pod with the source address, and the
    zone that of the pod's node.  A private destination is the first-created pod with the address
    after the source was looked up, with its node, or else the only node with that internal address;
    a public one gets the DNS name.  The building fails as not found exactly when no pod has the
    source address, and otherwise only when the destination is private, no pod has its address and
    two nodes do.  It never panics. *)
Theorem buildPodNetworkMetric_exact (now : Z) (k : caches) (d : cache Z string)
    (conn : RawNetworkMetric) (Hdst : is_signed 32 (rDstIp conn)) :
  let src := IP_String (ipFromInt32 (rSrcIp conn)) in
  let dst := ipFromInt32 (rDstIp conn) in
  let k1 := after_lookup k src in
  match (buildPodNetworkMetric now k d conn).2 with
  | Built m =>
      counters_kept conn m /\ source_of k conn m /\
      if IsPrivate dst then destination_of k k1 (IP_String dst) m
      else public_destination now d conn m
  | Failed e =>
      if errors_Is e ErrNotFound then no_pod k src
      else (exists p, first_created (indexer (podByIP k)) src p) /\ IsPrivate dst = true /\
           no_pod k1 (IP_String dst) /\ ambiguous_node k (IP_String dst)
  | Panicked => False
  end.
Proof.
  intros src dst k1. unfold buildPodNetworkMetric. fold src dst.
  pose proof (GetPodByIP_cases k src) as Hc. destruct (after_lookup_nodes k src) as [An Ai].
  fold k1 in An, Ai. assert (Hk1 : k1 = (@GetPodByIP kube_caches k src).1) by done.
  destruct (@GetPodByIP kube_caches k src) as [k1' r]. cbn [fst snd] in Hk1, Hc. subst k1'.
  destruct Hc as [[-> Hno]|(p & -> & Hp)]; [done|].
  destruct (tolerate_name k1 (NodeName p)) as (o & Ho & Hn).
  change (@GetNodeByName kube_caches k1 (NodeName p)) with (NodeByNameCache_Get (nodeByName k1) (NodeName p)).
  rewrite Ho. unfold named_node in Hn. rewrite An in Hn.
  assert (Hsrc : forall m, SrcIp m = src -> SrcPod m = Name p -> SrcNamespace m = Namespace p ->
    SrcNode m = NodeName p -> SrcZone m = from_option getNodeZone "" o -> source_of k conn m).
  { intros m H1 H2 H3 H4 H5. split; [done|]. exists p, (from_option nName "" o).
    rewrite H1, H5. done. }
  destruct (IsPrivate dst) eqn:Hpriv.
  - set (m0 := MkPodMetric _ _ _ _ _ _ _ _ _ _ _ _ _ _ _ _).
    pose proof (destination_cases k k1 (IP_String dst) m0 An Ai eq_refl) as H.
    destruct (_ : _ * built) as [w [m|e|]]; cbn [snd] in H |- *.
    + destruct H as [H (pod & node & ->)]. split_and!; [done|by apply Hsrc|done].
    + destruct H as (-> & H1 & H2). split_and!; [by exists p|done..].
    + done.
  - unfold dst. rewrite ToIPint32_ipFromInt32 by done. cbn [snd].
    split_and!; [done|by apply Hsrc|done].
Qed.
End attribution.

(** A cluster on the reference libraries: a job pod talks to node n1 and to a public address. *)
Definition cluster : caches (XP := mem_pods) (XN := mem_indexer nName node_name_index)
    (XI := mem_indexer nName node_ip_index) :=
  MkCaches pods0 (mem_nodes node_name_index) (mem_nodes node_ip_index).
Definition int32_of (a b c d : Z) : Z := swrap 32 (be_combine [a; b; c; d]).
Definition to_node : RawNetworkMetric :=
  MkRaw (int32_of 10 4 0 8) (int32_of 10 0 0 1) 100 2 50 1 6.
Definition to_ambiguous : RawNetworkMetric :=
  MkRaw (int32_of 10 4 0 8) (int32_of 10 0 0 2) 100 2 50 1 6.
Definition to_public : RawNetworkMetric :=
  MkRaw (int32_of 10 4 0 7) (int32_of 93 184 216 34) 9 1 8 1 17.
Definition names : gmap Z (string * Z) :=
  {[ int32_of 93 184 216 34 := ("example.com", Minute) ]}.
Notation build_ref :=
  (buildPodNetworkMetric (N := ref_netaddr) (CI := ref_cache Z string) 0 cluster names).

Lemma buildPodNetworkMetric_exact_witness :
  (build_ref to_node).2 = Built (MkPodMetric "10.4.0.8" "job" "default" "n1" "z1" "10.0.0.1" "" ""
    "n1" "z1" 100 2 50 1 6 "") /\
  (build_ref to_public).2 = Built (MkPodMetric "10.4.0.7" "web-0" "default" "n1" "z1" "93.184.216.34"
    "" "" "" "" 9 1 8 1 17 "example.com") /\
  ambiguous_node cluster "10.0.0.2".
Proof.
  split; [vm_compute; reflexivity|]. split; [vm_compute; reflexivity|].
  pose proof (buildPodNetworkMetric_exact (HN := ref_netaddr_spec) (CI := ref_cache Z string)
    (HP := mem_pods_spec) (HNN := mem_indexer_spec _ _) (HNI := mem_indexer_spec _ _)
    0 cluster names to_ambiguous ltac:(split; vm_compute; congruence)) as H.
  cbv zeta in H. match type of H with match ?t with Built _ => _ | _ => _ end =>
    assert (E : t = Failed (EBase "expected single node for ip 10.0.0.2, got 2"))
      by (vm_compute; reflexivity) end.
  rewrite E in H. exact (proj2 (proj2 (proj2 H))).
Defined.

(** * Accounting of the aggregation *)

(** What the aggregation relies on: look-ups do not panic. *)
Class kubeWatcherSpec (W : kubeWatcher) : Prop := {
  GetPodByIP_total : forall w ip, (GetPodByIP w ip).2 <> Panic;
  GetNodeByName_total : forall w name, GetNodeByName w name <> Panic;
  GetNodeByIP_total : forall w ip, GetNodeByIP w ip <> Panic
}.

#[export] Instance kube_caches_spec
    `{XP : !Indexer Pod (string * string) pod_key pod_ip_index, !IndexerSpec XP}
    `{XN : !Indexer Node string nName node_name_index, !IndexerSpec XN}
    `{XI : !Indexer Node string nName node_ip_index, !IndexerSpec XI} :
  kubeWatcherSpec (kube_caches (XP := XP) (XN := XN) (XI := XI)).
Proof.
  split; simpl.
  - intros w ip. destruct (PodByIPCache_Get_cases (podByIP w) ip) as [[-> _]|(p & _ & ->)]; done.
  - intros w a. destruct (NodeByNameCache_Get_cases (nodeByName w) a) as [(n & -> & _)|[-> _]]; done.
  - intros w a. by destruct (NodeByIPCache_Get_cases (nodeByIP w) a)
      as [(n & -> & _)|[[-> _]|(e & n & n' & -> & _)]].
Qed.

Inductive counter := KTxBytes | KTxPackets | KRxBytes | KRxPackets.
Definition rctr (q : counter) (m : RawNetworkMetric) : Z :=
  match q with
  | KTxBytes => rTxBytes m | KTxPackets => rTxPackets m
  | KRxBytes => rRxBytes m | KRxPackets => rRxPackets m
  end.
Definition pctr (q : counter) (m : PodNetworkMetric) : Z :=
  match q with
  | KTxBytes => TxBytes m | KTxPackets => TxPackets m
  | KRxBytes => RxBytes m | KRxPackets => RxPackets m
  end.
Definition lctr (q : counter) (l : logged) : Z :=
  match l with LWarn m => rctr q m | LError m => rctr q m end.
Definition total {A} (f : A -> Z) (l : list A) : Z := fold_right (λ a acc, f a + acc) 0 l.

Lemma total_app {A} (f : A -> Z) l1 l2 : total f (l1 ++ l2) = total f l1 + total f l2.
Proof. induction l1 as [|a l1 IH]; simpl; [done|]. rewrite IH. lia. Qed.

Lemma emptyMetrics_ctr m q : emptyMetrics m = true -> rctr q m = 0.
Proof. unfold emptyMetrics. rewrite !andb_true_iff, !Z.eqb_eq. destruct q; simpl; tauto. Qed.

Section accounting.
Context `{N : Netaddr, HN : !NetaddrSpec N} `{CI : ExpiringCache Z string}
  `{W : kubeWatcher, HW : !kubeWatcherSpec W}.

Lemma tolerate_total {A} allowed (r : result A) : r <> Panic ->
  (exists o, tolerate allowed r = inl o) \/ exists e, tolerate allowed r = inr (Some e).
Proof. destruct r; simpl; [by eauto| |done]. case_match; eauto. Qed.

Ltac tolerated H :=
  let o := fresh "o" in let e := fresh "e" in
  match goal with |- context [tolerate ?allowed ?r] =>
    destruct (tolerate_total allowed r H) as [[o ->]|[e ->]]; [|done]
  end.

(** No panic, and the counters of the raw metric. *)
Lemma build_outcome now w d conn : is_signed 32 (rDstIp conn) ->
  match (buildPodNetworkMetric now w d conn).2 with
  | Built m => forall q, pctr q m = rctr q conn
  | Failed _ => True
  | Panicked => False
  end.
Proof.
  intros Hd. unfold buildPodNetworkMetric.
  pose proof (GetPodByIP_total w (IP_String (ipFromInt32 (rSrcIp conn)))) as Hp.
  destruct (GetPodByIP w _) as [w1 [pod|e|]]; [|done|done].
  tolerated (GetNodeByName_total w1 (NodeName pod)).
  destruct (IsPrivate _); [|rewrite ToIPint32_ipFromInt32 by done; by intros []].
  pose proof (GetPodByIP_total w1 (IP_String (ipFromInt32 (rDstIp conn)))) as Hp1.
  destruct (GetPodByIP w1 _) as [w2 r]. cbn [snd] in Hp1. tolerated Hp1.
  destruct o0 as [q|].
  - tolerated (GetNodeByName_total w2 (NodeName q)). by intros [].
  - tolerated (GetNodeByIP_total w2 (IP_String (ipFromInt32 (rDstIp conn)))). by intros [].
Qed.

Definition accounted (q : counter) (a : aggregation) : Z :=
  total (pctr q) (podsMetrics a) + total (lctr q) (logs a).

Lemma agg_metric_accounted now a raw q : is_signed 32 (rDstIp raw) -> crashed a = false ->
  crashed (agg_metric now a raw) = false /\
  accounted q (agg_metric now a raw) = accounted q a + rctr q raw.
Proof.
  intros Hd Hc. unfold agg_metric. rewrite Hc.
  pose proof (build_outcome now (agg_watcher a) (agg_dns a) raw Hd) as H.
  destruct (buildPodNetworkMetric _ _ _ raw) as [w [m|e|]]; cbn [snd] in H; [| |done].
  - split; [done|]. unfold accounted. simpl. rewrite total_app. simpl. rewrite H. lia.
  - split; [done|]. unfold accounted. simpl. rewrite total_app.
    destruct (errors_Is e ErrNotFound); [destruct (emptyMetrics raw) eqn:He|]; simpl; try lia.
    rewrite (emptyMetrics_ctr _ q He). lia.
Qed.

Lemma agg_metrics_accounted now a raws q :
  Forall (λ raw, is_signed 32 (rDstIp raw)) raws -> crashed a = false ->
  crashed (fold_left (agg_metric now) raws a) = false /\
  accounted q (fold_left (agg_metric now) raws a) = accounted q a + total (rctr q) raws.
Proof.
  intros Hr. revert a. induction Hr as [|raw raws Hd _ IH]; intros a Hc; simpl; [split; [done|lia]|].
  destruct (agg_metric_accounted now a raw q Hd Hc) as [Hc' E].
  destruct (IH _ Hc') as [Hc'' E']. split; [done|]. lia.
Qed.

(** No traffic disappears silently in the aggregation: for every counter, what the batches bring is what the pod
    metrics carry plus what the log reports as skipped, whatever the caches answer as long as they
    do not panic, and the aggregation does not panic. *)
Lemma aggregate_accounts (w : watcher) (d : cache Z string)
    (batches : list (Z * RawNetworkMetricBatch)) (q : counter)
    (Hb : Forall (λ raw, is_signed 32 (rDstIp raw)) (concat (map (λ b, bItems b.2) batches))) :
  let a := aggregate w d batches in
  crashed a = false /\
  total (rctr q) (concat (map (λ b, bItems b.2) batches)) =
    total (pctr q) (podsMetrics a) + total (lctr q) (logs a).
Proof.
  cbv zeta. change (total (pctr q) (podsMetrics (aggregate w d batches)) + _)
    with (accounted q (aggregate w d batches)).
  assert (G : forall a, crashed a = false ->
    crashed (fold_left agg_batch batches a) = false /\
    accounted q (fold_left agg_batch batches a) =
      accounted q a + total (rctr q) (concat (map (λ b, bItems b.2) batches))).
  { induction batches as [|[now batch] batches IH]; intros a Hc; simpl; [split; [done|lia]|].
    simpl in Hb. apply Forall_app in Hb as [Hb1 Hb2]. rewrite total_app.
    destruct (agg_metrics_accounted now
      (MkAggregation (agg_watcher a) (Fill now (agg_dns a) (bIp2Domain batch)) (podsMetrics a) (logs a)
         (crashed a)) (bItems batch) q Hb1 Hc) as [Hc1 E1].
    destruct (IH Hb2 _ Hc1) as [Hc2 E2]. split; [done|]. rewrite E2, E1. unfold accounted. simpl. lia. }
  destruct (G (MkAggregation w d [] [] false) eq_refl) as [Hc E]. split; [done|]. symmetry. exact E.
Qed.
End accounting.

Definition unknown_src : RawNetworkMetric := MkRaw (int32_of 10 4 9 9) 0 7 1 0 0 6.
Definition batches1 : list (Z * RawNetworkMetricBatch) :=
  [(0, MkBatch [to_node; unknown_src] [(int32_of 93 184 216 34, "example.com")]);
   (1, MkBatch [to_public; to_ambiguous] [])].
Notation aggregate_ref :=
  (aggregate (N := ref_netaddr) (CI := ref_cache Z string) cluster ∅ batches1).

Example aggregate_accounts_example :
  map DstDnsName (podsMetrics aggregate_ref) = [""; "example.com"] /\
  logs aggregate_ref = [LWarn unknown_src; LError to_ambiguous] /\
  total (rctr KTxBytes) (concat (map (λ b, bItems b.2) batches1)) =
    total (pctr KTxBytes) (podsMetrics aggregate_ref) + total (lctr KTxBytes) (logs aggregate_ref).
Proof.
  split; [vm_compute; reflexivity|]. split; [vm_compute; reflexivity|].
  apply (aggregate_accounts (HN := ref_netaddr_spec)
    (HW := kube_caches_spec (IndexerSpec0 := mem_pods_spec) (IndexerSpec1 := mem_indexer_spec _ _)
             (IndexerSpec2 := mem_indexer_spec _ _))).
  repeat constructor; vm_compute; congruence.
Defined.
