(* ===== verification/ExportPipeline.v ===== *)
(** The [export] of src/exporter/exporter.go and its concurrency.

    A goroutine starts one fetch per collector pod, at most [limit] at a time, each of which sends
    the batch it fetched to a channel of capacity [limit]; the exporter receives from the channel
    until it is closed.  The goroutine closes the channel after all fetches ended, except that it
    returns at once, without closing, when the context is cancelled.

    A state has the program counter of the goroutine, the fetches under way, the channel and what was
    received; [step] has one rule per atomic action, and [cancel] is the environment's.  [export]
    aggregates what a run received and pushes the result to every sink. *)
From S2P Require Import Prelude GoBase Dns Kube Exporter.
From stdpp Require Import base numbers list strings relations gmap.

Section pipeline.
(* CollectorsConcurrentFetchCount *)
Context (limit : nat).
(* fetchRawNetworkMetricsBatch: nothing when it fails *)
Context (fetch : string -> option RawNetworkMetricBatch).

Inductive worker := WFetching (url : string) | WSending (b : RawNetworkMetricBatch).

Inductive pc :=
| PLoop (todo : list string)              (* at the head of the loop over the pods' URLs *)
| PGo (url : string) (todo : list string) (* in fetchGroup.Go, waiting for a slot *)
| PWait                                   (* in fetchGroup.Wait *)
| PClosed                                 (* after close(pulledBatch) *)
| PLeft.                                  (* returned because the context was cancelled *)

Record pstate := PState {
  ppc : pc;
  workers : list worker;
  pulledBatch : list RawNetworkMetricBatch;
  closed : bool;
  received : list RawNetworkMetricBatch;
  range_done : bool;
  cancelled : bool
}.

Definition pinit (urls : list string) : pstate := PState (PLoop urls) [] [] false [] false false.

Inductive step : pstate -> pstate -> Prop :=
| s_cancelled url todo ws ch cl rc dn :
    step (PState (PLoop (url :: todo)) ws ch cl rc dn true) (PState PLeft ws ch cl rc dn true)
| s_no_url todo ws ch cl rc dn :
    step (PState (PLoop (EmptyString :: todo)) ws ch cl rc dn false)
         (PState (PLoop todo) ws ch cl rc dn false)
| s_next url todo ws ch cl rc dn :
    url <> EmptyString ->
    step (PState (PLoop (url :: todo)) ws ch cl rc dn false)
         (PState (PGo url todo) ws ch cl rc dn false)
| s_go url todo ws ch cl rc dn ca :
    length ws < limit ->
    step (PState (PGo url todo) ws ch cl rc dn ca)
         (PState (PLoop todo) (ws ++ [WFetching url]) ch cl rc dn ca)
| s_wait ws ch cl rc dn ca :
    step (PState (PLoop []) ws ch cl rc dn ca) (PState PWait ws ch cl rc dn ca)
| s_close ch cl rc dn ca :
    step (PState PWait [] ch cl rc dn ca) (PState PClosed [] ch true rc dn ca)
| s_fetched p ws1 url b ws2 ch cl rc dn ca :
    fetch url = Some b -> bItems b <> [] ->
    step (PState p (ws1 ++ WFetching url :: ws2) ch cl rc dn ca)
         (PState p (ws1 ++ WSending b :: ws2) ch cl rc dn ca)
| s_empty p ws1 url b ws2 ch cl rc dn ca :
    fetch url = Some b -> bItems b = [] ->
    step (PState p (ws1 ++ WFetching url :: ws2) ch cl rc dn ca)
         (PState p (ws1 ++ ws2) ch cl rc dn ca)
| s_failed p ws1 url ws2 ch cl rc dn ca :
    fetch url = None \/ ca = true ->
    step (PState p (ws1 ++ WFetching url :: ws2) ch cl rc dn ca)
         (PState p (ws1 ++ ws2) ch cl rc dn ca)
| s_send p ws1 b ws2 ch cl rc dn ca :
    length ch < limit ->
    step (PState p (ws1 ++ WSending b :: ws2) ch cl rc dn ca)
         (PState p (ws1 ++ ws2) (ch ++ [b]) cl rc dn ca)
| s_receive p ws b ch cl rc ca :
    step (PState p ws (b :: ch) cl rc false ca) (PState p ws ch cl (rc ++ [b]) false ca)
| s_range_done p ws rc ca :
    step (PState p ws [] true rc false ca) (PState p ws [] true rc true ca).

Definition cancel (s : pstate) : pstate :=
  PState (ppc s) (workers s) (pulledBatch s) (closed s) (received s) (range_done s) true.

Inductive run : pstate -> pstate -> Prop :=
| run_step s s' : step s s' -> run s s'
| run_cancel s : run s (cancel s).

(** * Progress and termination *)

Definition todo_of (p : pc) : nat :=
  match p with
  | PLoop todo => 7 * length todo + 2
  | PGo _ todo => 7 * length todo + 8
  | PWait => 1
  | PClosed | PLeft => 0
  end.
Definition worker_cost (w : worker) : nat := match w with WFetching _ => 4 | WSending _ => 3 end.
Definition measure (s : pstate) : nat :=
  todo_of (ppc s) + sum_list_with worker_cost (workers s) + 2 * length (pulledBatch s) +
  (if range_done s then 0 else 1).

Lemma step_decreases s s' : step s s' -> measure s' < measure s.
Proof.
  destruct 1; unfold measure; simpl; rewrite ?sum_list_with_app, ?length_app; simpl; lia.
Qed.

Definition pinv (s : pstate) : Prop :=
  (closed s = true <-> ppc s = PClosed) /\ (ppc s = PClosed -> workers s = []) /\
  length (workers s) <= limit /\ (range_done s = true -> closed s = true /\ pulledBatch s = []).

Lemma pinit_inv urls : pinv (pinit urls).
Proof. unfold pinv; simpl. split_and!; naive_solver lia. Qed.

Lemma step_inv s s' : step s s' -> pinv s -> pinv s'.
Proof.
  unfold pinv. destruct 1; simpl; rewrite ?length_app; simpl;
    intros (Hc & Hw & Hl & Hd); (split_and!;
    [ naive_solver | naive_solver (by destruct ws1) | lia | ]); try naive_solver.
  intros Hdn. destruct (Hd Hdn) as [Hcl _]. apply Hc, Hw in Hcl. by destruct ws1.
Qed.

Lemma cancel_inv s : pinv s -> pinv (cancel s).
Proof. done. Qed.

(** A worker is never stuck while the channel is empty. *)
Lemma worker_steps w p ws1 ws2 cl rc dn ca : 0 < limit ->
  exists s', step (PState p (ws1 ++ w :: ws2) [] cl rc dn ca) s'.
Proof.
  intros Hl. destruct w as [url|b].
  - destruct (fetch url) as [b|] eqn:Hf.
    + destruct (decide (length (bItems b) = 0)) as [H0|H0].
      * eexists. eapply s_empty; [done|]. by apply length_zero_iff_nil.
      * eexists. eapply s_fetched; [done|]. intros E. by rewrite E in H0.
    + eexists. eapply s_failed. by left.
  - eexists. by eapply s_send.
Qed.

Lemma progress s : 0 < limit -> pinv s -> ppc s <> PLeft -> range_done s = false ->
  exists s', step s s'.
Proof.
  intros Hl (Hc & Hw & Hlim & Hd). destruct s as [p ws ch cl rc dn ca]. simpl in *.
  intros Hp ->. destruct ch as [|b ch]; [|by eexists; constructor].
  destruct cl; [by eexists; constructor|]. destruct p as [[|url todo]|url todo| | |].
  - by eexists; constructor.
  - destruct ca; [by eexists; constructor|].
    destruct (decide (url = EmptyString)) as [-> |]; by eexists; constructor.
  - destruct (decide (length ws < limit)); [by eexists; constructor|].
    destruct ws as [|w ws]; [simpl in *; lia|]. by apply (worker_steps w _ []).
  - destruct ws as [|w ws]; [by eexists; constructor|]. by apply (worker_steps w _ []).
  - discriminate (proj2 Hc eq_refl).
  - done.
Qed.

(** * What is delivered *)

Definition fetched (url : string) : list RawNetworkMetricBatch :=
  match fetch url with
  | Some b => match bItems b with [] => [] | _ => [b] end
  | None => []
  end.
Definition outcome (url : string) : list RawNetworkMetricBatch :=
  if decide (url = EmptyString) then [] else fetched url.
Definition worker_gives (w : worker) : list RawNetworkMetricBatch :=
  match w with WFetching url => fetched url | WSending b => [b] end.
Definition pc_gives (p : pc) : list RawNetworkMetricBatch :=
  match p with
  | PLoop todo => concat (map outcome todo)
  | PGo url todo => fetched url ++ concat (map outcome todo)
  | _ => []
  end.
Definition gives (s : pstate) : list RawNetworkMetricBatch :=
  received s ++ pulledBatch s ++ concat (map worker_gives (workers s)) ++ pc_gives (ppc s).

Lemma step_gives s s' : step s s' -> cancelled s = false -> cancelled s' = false /\ gives s' ≡ₚ gives s.
Proof.
  destruct 1; simpl; intros Hca; try discriminate; (split; [done|]); unfold gives; simpl;
    rewrite ?map_app, ?concat_app; simpl; rewrite ?app_nil_r.
  - done.
  - unfold outcome at 2. by rewrite decide_False.
  - by rewrite <- !app_assoc.
  - done.
  - done.
  - unfold fetched. rewrite H. by destruct (bItems b).
  - unfold fetched. rewrite H, H0. done.
  - destruct H as [H|H]; [|congruence]. unfold fetched. rewrite H. done.
  - solve_Permutation.
  - solve_Permutation.
  - done.
Qed.

Lemma steps_inv s s' : rtc step s s' -> pinv s -> pinv s'.
Proof. induction 1; eauto using step_inv. Qed.

Lemma steps_gives s s' : rtc step s s' -> cancelled s = false ->
  cancelled s' = false /\ gives s' ≡ₚ gives s.
Proof.
  induction 1 as [|s1 s2 s3 H _ IH]; [done|]. intros Hc.
  destruct (step_gives _ _ H Hc) as [Hc2 E]. destruct (IH Hc2) as [Hc3 E']. split; [done|]. by rewrite E'.
Qed.

Lemma steps_not_left s s' : rtc step s s' -> cancelled s = false -> ppc s <> PLeft -> ppc s' <> PLeft.
Proof.
  induction 1 as [|s1 s2 s3 H Hr IH]; [done|]. intros Hc Hp. apply IH.
  - by destruct (step_gives _ _ H Hc).
  - destruct H; simpl in *; congruence.
Qed.

Lemma nsteps_bound n s s' : nsteps step n s s' -> n + measure s' <= measure s.
Proof. induction 1 as [|n s1 s2 s3 H _ IH]; [done|]. apply step_decreases in H. lia. Qed.

(** Past the end of the range over the channel everything was received. *)
Lemma done_gives s : pinv s -> range_done s = true -> gives s = received s.
Proof.
  intros (Hc & Hw & _ & Hd) Hdn. destruct (Hd Hdn) as [Hcl Hch]. apply Hc in Hcl.
  unfold gives. rewrite Hch, (Hw Hcl), Hcl. simpl. by rewrite app_nil_r.
Qed.

(** C14: Without cancellation the export loop always ends, having received every batch: for at least
    one concurrent fetch, every run from the start has a bounded number of steps, a state that cannot
    go on has left the loop over the channel, and what was received then is, in some order, exactly
    the non-empty batches of the collectors that have a URL and answered. *)
Theorem pipeline_delivers (urls : list string) (n : nat) (s : pstate)
    (Hl : 0 < limit) (Hrun : nsteps step n (pinit urls) s) :
  n <= 7 * length urls + 3 /\
  (range_done s = false -> exists s', step s s') /\
  (range_done s = true -> received s ≡ₚ concat (map outcome urls)).
Proof.
  pose proof (nsteps_bound _ _ _ Hrun) as Hn. unfold measure in Hn. simpl in Hn.
  assert (Hr : rtc step (pinit urls) s) by (apply rtc_nsteps; by exists n).
  pose proof (steps_inv _ _ Hr (pinit_inv urls)) as Hinv. split_and!; [lia| |].
  - intros Hd. apply progress; [done|done| |done]. by apply (steps_not_left _ _ Hr).
  - intros Hd. rewrite <- (done_gives s Hinv Hd).
    by destruct (steps_gives _ _ Hr eq_refl) as [_ ->].
Qed.

(** * Cancellation *)

Definition left_open (s : pstate) : Prop :=
  ppc s = PLeft /\ closed s = false /\ range_done s = false.

Lemma run_left_open s s' : run s s' -> left_open s -> left_open s'.
Proof. unfold left_open. destruct 1 as [s s' H|]; [destruct H|]; simpl; naive_solver congruence. Qed.

Lemma runs_inv urls s : rtc run (pinit urls) s -> pinv s.
Proof.
  intros H. generalize (pinit_inv urls). induction H as [|s1 s2 s3 H _ IH]; [done|]. intros Hi.
  apply IH. destruct H; [by eapply step_inv|by apply cancel_inv].
Qed.

(** C15: Cancelling the context while collectors are left to start blocks the exporter for good: the
    goroutine returns without closing the channel, and from then on no run, however long, ends the
    loop over the channel; and such a state is reached from every state at the head of the loop with
    a collector left. *)
Theorem cancelled_export_blocks (urls : list string) (s : pstate)
    (Hs : rtc run (pinit urls) s) :
  (ppc s = PLeft -> forall s', rtc run s s' -> range_done s' = false) /\
  (forall url todo, ppc s = PLoop (url :: todo) ->
     exists s', rtc run s s' /\ ppc s' = PLeft /\ forall s'', rtc run s' s'' -> range_done s'' = false).
Proof.
  assert (G : forall t, pinv t -> ppc t = PLeft -> forall t', rtc run t t' -> range_done t' = false).
  { intros t (Hc & _ & _ & Hd) Hp t' Hr. assert (Ht : left_open t).
    { split_and!; [done|destruct (closed t); naive_solver congruence|].
      destruct (range_done t); [|done]. destruct (Hd eq_refl) as [Hcl _]. apply Hc in Hcl. congruence. }
    assert (Ht' : left_open t') by (clear - Ht Hr; induction Hr; eauto using run_left_open). apply Ht'. }
  pose proof (runs_inv _ _ Hs) as Hi. split; [intros Hp; by apply G|].
  intros url todo Hp. destruct s as [p ws ch cl rc dn ca]. simpl in Hp. subst p.
  exists (PState PLeft ws ch cl rc dn true).
  assert (Hr : rtc run (PState (PLoop (url :: todo)) ws ch cl rc dn ca)
                 (PState PLeft ws ch cl rc dn true)).
  { eapply rtc_l; [apply run_cancel|]. eapply rtc_l; [apply run_step, s_cancelled|]. apply rtc_refl. }
  split_and!; [done|done|]. apply G; [|done]. apply (runs_inv urls). by etrans.
Qed.

(** ** Termination *)

Lemma step_wf : well_founded (flip step).
Proof.
  intros s. induction (well_founded_ltof _ measure s) as [s _ IH]. constructor.
  intros s' Hs. by apply IH, step_decreases.
Qed.

Lemma runs_left_cancelled urls s : rtc run (pinit urls) s -> ppc s = PLeft -> cancelled s = true.
Proof.
  apply (rtc_ind_r (λ s, ppc s = PLeft -> cancelled s = true)); [done|].
  intros y z _ [s1 s2 H|s1] IH; [destruct H|]; simpl in *; auto; congruence.
Qed.

(** C16: The goroutines of an export always come to rest, cancelled or not: from every state a run
    can reach there is no infinite sequence of steps, and a state in which nothing can step any more
    either has left the loop over the channel, or is the one of a cancelled export: the fetching
    goroutine has returned, all fetches have ended, nothing is left in the channel, and the loop waits
    for it. *)
Theorem pipeline_comes_to_rest (urls : list string) (s : pstate)
    (Hl : 0 < limit) (Hs : rtc run (pinit urls) s) :
  Acc (flip step) s /\
  ((forall s', ~ step s s') ->
     range_done s = true \/ ppc s = PLeft /\ cancelled s = true /\ workers s = [] /\ pulledBatch s = []).
Proof.
  split; [apply step_wf|]. intros Hstuck. pose proof (runs_inv _ _ Hs) as Hi.
  destruct (range_done s) eqn:Hd; [by left|right].
  assert (Hp : ppc s = PLeft).
  { destruct (ppc s) eqn:E; try done; exfalso;
      (destruct (progress s Hl Hi) as [s' Hs']; [by rewrite E|done|by eapply Hstuck]). }
  split_and!; [done|by apply (runs_left_cancelled urls)| |].
  - destruct s as [p ws ch cl rc dn ca]. simpl in *. subst. destruct ws as [|w ws]; [done|].
    destruct ch as [|b ch]; [|exfalso; eapply Hstuck; by constructor].
    destruct (worker_steps w PLeft [] ws cl rc false ca Hl) as [s' Hs']. by destruct (Hstuck s').
  - destruct s as [p ws ch cl rc dn ca]. simpl in *. subst.
    destruct ch as [|b ch]; [done|]. exfalso. eapply Hstuck. by constructor.
Qed.
End pipeline.

(** * The whole export *)
Section export.
Context `{N : Netaddr} `{CI : ExpiringCache Z string} `{W : kubeWatcher}.

(** A collector pod: its address and the ports of its containers. *)
Definition collector_pod : Type := string * list (list ContainerPort).
Definition collector_urls (pods : list collector_pod) : list string :=
  map (λ p, getCollectorPodMetricsServerURL p.1 p.2) pods.

(** What an export did: the state it leaves, the batch each sink was given, the errors of sinks it
    logged, and what it returned. *)
Record exported := MkExported {
  x_watcher : watcher;
  x_dns : cache Z string;
  x_pushed : list (list PodNetworkMetric);
  x_logs : list logged;
  x_sink_errors : list string;
  x_result : result unit
}.

(** [pods] is what listing the collector pods gave, [arrivals] the batches received from the channel
    with the times of their arrival, and a sink gives the error of its push, if any. *)
Definition export (w : watcher) (d : cache Z string) (pods : result (list collector_pod))
    (arrivals : list (Z * RawNetworkMetricBatch))
    (sinks : list (list PodNetworkMetric -> option string)) : exported :=
  match pods with
  | Err e => MkExported w d [] [] [] (Err e)
  | Panic => MkExported w d [] [] [] Panic
  | Ok [] => MkExported w d [] [] [] (Ok tt)
  | Ok _ =>
      let a := aggregate w d arrivals in
      if crashed a then MkExported (agg_watcher a) (agg_dns a) [] (logs a) [] Panic
      else MkExported (agg_watcher a) (agg_dns a) (map (λ _, podsMetrics a) sinks) (logs a)
             (omap (λ s, s (podsMetrics a)) sinks) (Ok tt)
  end.

Lemma total_perm {A} (f : A -> Z) l1 l2 : l1 ≡ₚ l2 -> Exporter.total f l1 = Exporter.total f l2.
Proof. induction 1; simpl; lia. Qed.

Lemma concat_perm {A} (l1 l2 : list (list A)) : l1 ≡ₚ l2 -> concat l1 ≡ₚ concat l2.
Proof.
  induction 1; simpl; [done|by apply Permutation_app_head| |by etrans].
  rewrite !app_assoc. apply Permutation_app_tail, Permutation_app_comm.
Qed.

(** Empty batches, which are not sent to the channel, carry nothing. *)
Lemma outcome_items fetch url :
  concat (map bItems (outcome fetch url)) =
  if decide (url = EmptyString) then [] else from_option bItems [] (fetch url).
Proof.
  unfold outcome, fetched. case_decide; [done|]. destruct (fetch url) as [b|]; [|done]. simpl.
  destruct (bItems b) eqn:E; [done|]. simpl. by rewrite E, app_nil_r.
Qed.

(** The raw metrics all collectors with a URL answer with. *)
Definition answered (fetch : string -> option RawNetworkMetricBatch) (pods : list collector_pod) :
    list RawNetworkMetric :=
  concat (map (λ url, if decide (url = EmptyString) then [] else from_option bItems [] (fetch url))
    (collector_urls pods)).

Lemma outcomes_items fetch urls :
  concat (map bItems (concat (map (outcome fetch) urls))) =
  concat (map (λ url, if decide (url = EmptyString) then [] else from_option bItems [] (fetch url)) urls).
Proof.
  induction urls as [|url urls IH]; simpl; [done|].
  by rewrite map_app, concat_app, outcome_items, IH.
Qed.

(** An export accounts for all traffic and treats its sinks alike.  Let the pipeline run without
    cancellation until its loop ends, in any interleaving; then, for every counter, what all the
    collectors answered is what the batch carries plus what the log reports as skipped, every sink is
    given that same batch, a sink that fails affects neither the others nor the outcome, and the
    export returns without an error. *)
Lemma export_accounts {HN : NetaddrSpec N} {HW : kubeWatcherSpec W} (limit : nat)
    (fetch : string -> option RawNetworkMetricBatch) (w : watcher) (d : cache Z string)
    (pods : list collector_pod) (s : pstate) (arrivals : list (Z * RawNetworkMetricBatch))
    (sinks : list (list PodNetworkMetric -> option string)) (q : counter)
    (Hpods : pods <> []) (Hrun : rtc (step limit fetch) (pinit (collector_urls pods)) s)
    (Hdone : range_done s = true) (Harr : arrivals.*2 = received s)
    (Hsigned : Forall (λ raw, is_signed 32 (rDstIp raw)) (answered fetch pods)) :
  let x := export w d (Ok pods) arrivals sinks in
  exists batch,
    x_pushed x = replicate (length sinks) batch /\
    Exporter.total (rctr q) (answered fetch pods) =
      (Exporter.total (pctr q) batch + Exporter.total (lctr q) (x_logs x))%Z /\
    x_sink_errors x = omap (λ sink, sink batch) sinks /\ x_result x = Ok tt.
Proof.
  pose proof (steps_inv _ _ _ _ Hrun (pinit_inv _ _)) as Hinv.
  destruct (steps_gives _ _ _ _ Hrun eq_refl) as [_ Hg]. rewrite (done_gives _ _ _ Hinv Hdone) in Hg.
  unfold gives in Hg. simpl in Hg.
  assert (Hp : concat (map (λ b, bItems b.2) arrivals) ≡ₚ answered fetch pods).
  { rewrite <- map_map. change (map snd arrivals) with (arrivals.*2). rewrite Harr. unfold answered.
    rewrite <- outcomes_items. by apply concat_perm, Permutation_map. }
  destruct (aggregate_accounts w d arrivals q) as [Hc Ht]; [by rewrite Hp|].
  rewrite (total_perm _ _ _ Hp) in Ht. exists (podsMetrics (aggregate w d arrivals)).
  unfold export. destruct pods as [|p pods]; [done|]. rewrite Hc. simpl.
  split_and!; [|done|done|done]. clear. by induction sinks as [|k sinks IH]; simpl; [|rewrite IH].
Qed.
End export.

Definition one_metric : RawNetworkMetricBatch := MkBatch [to_node] [].
Definition fetch1 (url : string) : option RawNetworkMetricBatch :=
  if String.eqb url "http://10.0.0.1:6060" then Some one_metric else None.
Definition last1 : pstate := PState PClosed [] [] true [one_metric] true false.

Lemma pipeline_delivers_witness :
  received last1 ≡ₚ concat (map (outcome fetch1) ["http://10.0.0.1:6060"; ""; "http://10.0.0.2:6060"]).
Proof.
  refine (proj2 (proj2 (pipeline_delivers 1 fetch1 _ 12 last1 _ _)) eq_refl); [lia|].
  eapply nsteps_l; [by apply s_next|]. eapply nsteps_l; [apply s_go; simpl; lia|].
  eapply nsteps_l; [apply (s_fetched _ _ _ [] _ one_metric []); done|].
  eapply nsteps_l; [apply (s_send _ _ _ [] _ []); simpl; lia|].
  eapply nsteps_l; [apply s_no_url|]. eapply nsteps_l; [by apply s_next|].
  eapply nsteps_l; [apply s_receive|]. eapply nsteps_l; [apply s_go; simpl; lia|].
  eapply nsteps_l; [apply s_wait|].
  eapply nsteps_l; [apply (s_failed _ _ _ [] _ []); by left|].
  eapply nsteps_l; [apply s_close|].
  eapply nsteps_l; [apply s_range_done|]. apply nsteps_O.
Defined.

Lemma cancelled_export_blocks_witness :
  exists s', rtc (run 1 fetch1) (pinit ["http://10.0.0.1:6060"]) s' /\ ppc s' = PLeft /\
    forall s'', rtc (run 1 fetch1) s' s'' -> range_done s'' = false.
Proof.
  apply (proj2 (cancelled_export_blocks 1 fetch1 ["http://10.0.0.1:6060"]
    (pinit ["http://10.0.0.1:6060"]) (rtc_refl _ _)) "http://10.0.0.1:6060" []).
  reflexivity.
Defined.

Definition collector1 : collector_pod := ("10.0.0.1", [[MkPort "metrics" 9090; MkPort "http-server" 6060]]).

Lemma run_one_collector : rtc (step 1 fetch1) (pinit (collector_urls [collector1])) last1.
Proof.
  change (collector_urls [collector1]) with ["http://10.0.0.1:6060"].
  eapply rtc_l; [by apply s_next|]. eapply rtc_l; [apply s_go; simpl; lia|].
  eapply rtc_l; [apply (s_fetched _ _ _ [] _ one_metric []); done|].
  eapply rtc_l; [apply (s_send _ _ _ [] _ []); simpl; lia|].
  eapply rtc_l; [apply s_wait|]. eapply rtc_l; [apply s_close|].
  eapply rtc_l; [apply s_receive|]. eapply rtc_l; [apply s_range_done|]. apply rtc_refl.
Qed.

Lemma pipeline_comes_to_rest_witness :
  Acc (flip (step 1 fetch1)) (cancel (pinit ["http://10.0.0.1:6060"])).
Proof.
  refine (proj1 (pipeline_comes_to_rest 1 fetch1 ["http://10.0.0.1:6060"] _ _ _)).
  - lia.
  - apply rtc_once, run_cancel.
Defined.
