(* ===== verification/SinkGroup.v ===== *)
(** The concurrent pushes at the end of [export] of src/exporter/exporter.go: an errgroup with a limit of
    [sinkConcurrentPush] goroutines, one per sink, each of which logs the error of its push.

    A step relation: the loop starts a push when fewer than the limit are running, a push returns, and
    the group's [Wait] returns when all have.  A push that never returns takes no step. *)
From S2P Require Import Prelude GoBase Dns Exporter ExportPipeline.
From stdpp Require Import base numbers list strings relations.
Local Open Scope string_scope.
Local Open Scope list_scope.

Definition sinkConcurrentPush : nat := 5.

Section group.
Context {sink : Type}.
(** What a push returns, [None] if it never does; the batch is the same for all. *)
Context (push : sink -> option (option string)).

Record group := MkGroup {
  g_todo : list sink;      (* sinks the loop has not reached *)
  g_running : list sink;   (* pushes under way *)
  g_pushed : list sink;    (* pushes that returned, in this order *)
  g_logged : list string;  (* "sink push" errors *)
  g_waited : bool          (* sinkGroup.Wait has returned *)
}.

Definition group_init (sinks : list sink) : group := MkGroup sinks [] [] [] false.

Inductive gstep : group -> group -> Prop :=
| g_go s todo running pushed lg :
    length running < sinkConcurrentPush ->
    gstep (MkGroup (s :: todo) running pushed lg false) (MkGroup todo (running ++ [s]) pushed lg false)
| g_return s todo r1 r2 pushed lg err :
    push s = Some err ->
    gstep (MkGroup todo (r1 ++ s :: r2) pushed lg false)
      (MkGroup todo (r1 ++ r2) (pushed ++ [s]) (lg ++ match err with Some e => [e] | None => [] end) false)
| g_wait pushed lg :
    gstep (MkGroup [] [] pushed lg false) (MkGroup [] [] pushed lg true).

(** * Invariant *)
Definition ginv (sinks : list sink) (g : group) : Prop :=
  g_pushed g ++ g_running g ++ g_todo g ≡ₚ sinks /\
  g_logged g = omap (λ s, mjoin (push s)) (g_pushed g) /\
  length (g_running g) <= sinkConcurrentPush /\
  Forall (λ s, push s <> None) (g_pushed g) /\
  (g_waited g = true -> g_todo g = [] /\ g_running g = []).

Lemma ginit_inv sinks : ginv sinks (group_init sinks).
Proof. split_and!; simpl; [done|done|lia|by constructor|done]. Qed.

Lemma gstep_inv sinks g g' : gstep g g' -> ginv sinks g -> ginv sinks g'.
Proof.
  destruct 1 as [s todo running pushed lg Hl|s todo r1 r2 pushed lg err Hs|pushed lg];
    intros (Hp & Hlog & Hlen & Hf & Hw); simpl in *; split_and!; simpl; try done.
  - rewrite <- Hp. by rewrite <- !app_assoc.
  - rewrite length_app. simpl. lia.
  - rewrite <- Hp. solve_Permutation.
  - rewrite omap_app, Hlog. simpl. rewrite Hs. by destruct err.
  - rewrite length_app in *. simpl in *. lia.
  - apply Forall_app. split; [done|]. constructor; [by rewrite Hs|by constructor].
Qed.

Definition gmeasure (g : group) : nat :=
  2 * length (g_todo g) + length (g_running g) + (if g_waited g then 0 else 1).

Lemma gstep_measure g g' : gstep g g' -> gmeasure g' < gmeasure g.
Proof. destruct 1; unfold gmeasure; simpl; rewrite ?length_app; simpl; lia. Qed.

Lemma gsteps_measure n g g' : nsteps gstep n g g' -> n + gmeasure g' <= gmeasure g.
Proof. induction 1 as [|n g1 g2 g3 H _ IH]; [done|]. apply gstep_measure in H. lia. Qed.

Lemma gsteps_inv sinks n g g' : nsteps gstep n g g' -> ginv sinks g -> ginv sinks g'.
Proof. induction 1; eauto using gstep_inv. Qed.

(** A group that has not ended goes on, or holds nothing but pushes that never return, as many as it may
    if sinks are left. *)
Lemma gprogress sinks g : ginv sinks g -> g_waited g = false ->
  (exists g', gstep g g') \/
  (g_running g <> [] /\ Forall (λ s, push s = None) (g_running g) /\
   (g_todo g = [] \/ length (g_running g) = sinkConcurrentPush)).
Proof.
  intros (_ & _ & Hlen & _) Hw. destruct g as [todo running pushed lg wt]. simpl in *. subst wt.
  destruct (decide (Forall (λ s, push s = None) running)) as [Hh|Hh].
  - destruct todo as [|s todo].
    + destruct running as [|s running]; [left; eexists; apply g_wait|right]. split_and!; [done|done|by left].
    + destruct (decide (length running < sinkConcurrentPush)) as [Hl|Hl]; [left; eexists; by apply g_go|right].
      split_and!; [intros ->; apply Hl; unfold sinkConcurrentPush; simpl; lia|done|right; lia].
  - left. apply not_Forall_Exists, Exists_exists in Hh as (s & Hin & Hs); [|apply _].
    apply list_elem_of_split in Hin as (r1 & r2 & ->). destruct (push s) as [err|] eqn:E; [|done].
    eexists. by apply (g_return s todo r1 r2).
Qed.

(** C17: The pushes of an export are all made, at most five at a time, and one sink cannot spoil another.
    In every interleaving the group makes at most two steps per sink and one more; at all times every sink
    waits, is being pushed to or has been pushed to, once, and the errors logged are exactly those of the
    pushes that returned, in their order; when [Wait] returns all of them have.  Before that the group can
    go on, unless every push under way hangs and either no sink is left or five of them hang: only pushes
    that never return keep the export from ending. *)
Theorem sinks_pushed_once (sinks : list sink) (n : nat) (g : group)
    (Hrun : nsteps gstep n (group_init sinks) g) :
  n <= 2 * length sinks + 1 /\
  length (g_running g) <= 5 /\
  g_pushed g ++ g_running g ++ g_todo g ≡ₚ sinks /\
  g_logged g = omap (λ s, mjoin (push s)) (g_pushed g) /\
  (g_waited g = true -> g_pushed g ≡ₚ sinks /\ g_logged g ≡ₚ omap (λ s, mjoin (push s)) sinks /\
     Forall (λ s, push s <> None) sinks) /\
  (g_waited g = false -> (exists g', gstep g g') \/
     (g_running g <> [] /\ Forall (λ s, push s = None) (g_running g) /\
      (g_todo g = [] \/ length (g_running g) = 5))).
Proof.
  pose proof (gsteps_measure _ _ _ Hrun) as Hn. unfold gmeasure in Hn. simpl in Hn.
  pose proof (gsteps_inv sinks _ _ _ Hrun (ginit_inv sinks)) as Hi.
  pose proof Hi as (Hp & Hlog & Hlen & Hf & Hw). split_and!; [lia|done|done|done| |by apply (gprogress sinks)].
  intros Hwt. destruct (Hw Hwt) as [Ht Hr]. rewrite Ht, Hr, !app_nil_r in Hp.
  split_and!; [done|by rewrite Hlog, Hp|by rewrite <- Hp].
Qed.
End group.

(** The sequential account [export] gives of its sinks is that of the group: whatever the interleaving,
    the errors logged are those of [export], up to their order. *)
Section refinement.
Context `{N : Netaddr} `{CI : ExpiringCache Z string} `{W : kubeWatcher}.

Theorem group_refines_export (w : watcher) (d : cache Z string) (pods : list collector_pod)
    (arrivals : list (Z * RawNetworkMetricBatch)) (sinks : list (list PodNetworkMetric -> option string))
    (n : nat) (g : group) :
  let x := export w d (Ok pods) arrivals sinks in
  let batch := podsMetrics (aggregate w d arrivals) in
  x_pushed x <> [] ->
  nsteps (gstep (λ sink, Some (sink batch))) n (group_init sinks) g -> g_waited g = true ->
  g_logged g ≡ₚ x_sink_errors x.
Proof.
  cbv zeta. intros Hx Hrun Hw.
  destruct (gsteps_inv _ sinks _ _ _ Hrun (ginit_inv _ sinks)) as (Hp & -> & _ & _ & Hd).
  destruct (Hd Hw) as [Ht Hr]. rewrite Ht, Hr, !app_nil_r in Hp.
  unfold export in *. destruct pods as [|p ps]; [done|].
  destruct (crashed (aggregate w d arrivals)); [done|]. simpl. by rewrite Hp.
Qed.
End refinement.

(** Two sinks, the second unreachable, pushed to at once and answering in the other order. *)
Definition two_sinks (s : string) : option (option string) :=
  Some (if String.eqb s "prom" then Some "unreachable" else None).
Lemma sinks_pushed_once_witness :
  exists g, nsteps (gstep two_sinks) 5 (group_init ["http"; "prom"]) g /\ g_waited g = true /\
    g_pushed g ≡ₚ ["http"; "prom"] /\ g_logged g ≡ₚ ["unreachable"].
Proof.
  assert (H : nsteps (gstep two_sinks) 5 (group_init ["http"; "prom"])
    (MkGroup [] [] ["prom"; "http"] ["unreachable"] true)).
  { eapply nsteps_l; [apply g_go; vm_compute; lia|]. eapply nsteps_l; [apply g_go; vm_compute; lia|].
    eapply nsteps_l; [apply (g_return _ "prom" [] ["http"] [] [] [] (Some "unreachable")); reflexivity|].
    eapply nsteps_l; [apply (g_return _ "http" [] [] [] ["prom"] ["unreachable"] None); reflexivity|].
    eapply nsteps_l; [apply g_wait|]. apply nsteps_O. }
  destruct (sinks_pushed_once two_sinks ["http"; "prom"] 5 _ H) as (_ & _ & _ & _ & Hw & _).
  destruct (Hw eq_refl) as (Hp & Hl & _). eexists. split_and!; [exact H|reflexivity|exact Hp|exact Hl].
Defined.
