(* ===== verification/Loops.v ===== *)
(** The loops of the components: [Start] of src/collector/collector.go, src/dns/resolutions.go and
    src/exporter/exporter.go.

    Each loop selects among what its channels deliver; the sequence of what it selects is an argument,
    in any order, and the loop a function on it, which says how the component's operations compose and
    what ends it. *)
From S2P Require Import Prelude GoBase Conntrack Dns Kube Collector Exporter ExportPipeline.
From stdpp Require Import base numbers list strings gmap relations.
Local Open Scope string_scope.
Local Open Scope list_scope.
Local Open Scope Z_scope.
Local Open Scope egress_scope.

(** How a loop stands: it goes on, has returned an error or nil, or the program has panicked. *)
Inductive loop := Running | Returned (err : option string) | Crashed.

(** * The collector *)
Section collector.
Context `{N : Netaddr} (entryGroupHash conntrackEntryHash : list Z -> Z).
Notation collect := (collect entryGroupHash conntrackEntryHash).
Notation step := (Collector.step entryGroupHash conntrackEntryHash).

(** The tickers and the end of the context; requests are served between them. *)
Inductive tick :=
| TRead (watcher : result (list Pod)) (ListEntries : EntriesFilter -> result (list Entry))
| TCleanup (now : Z)
| TServe (records : list (Z * string)) (marshal_ok write_ok : bool) (now : Z -> Z)
| TDone (err : string).

Fixpoint collector_loop (c : Collector) (ts : list tick) : Collector * list string * loop :=
  match ts with
  | [] => (c, [], Running)
  | TDone err :: _ => (c, [], Returned (Some err))
  | TRead watcher LE :: ts =>
      match collect c watcher LE with
      | Ok c => collector_loop c ts
      | Err e => let '(c, log, l) := collector_loop c ts in (c, ("collecting: " +:+ e) :: log, l)
      | Panic => (c, [], Crashed)
      end
  | TCleanup now :: ts => collector_loop (cleanup c now) ts
  | TServe records mok wok now :: ts =>
      collector_loop (fst (GetRawNetworkMetricsHandler c records mok wok now)) ts
  end.

(** [time.NewTicker] panics for an interval that is not positive. *)
Definition collector_Start (c : Collector) (ts : list tick) : Collector * list string * loop :=
  if ReadInterval (cfg c) <=? 0 then (c, [], Crashed)
  else if CleanupInterval (cfg c) <=? 0 then (c, [], Crashed)
  else collector_loop c ts.

(** ** The specification *)

(** What one tick is to do: a collection, logged if it fails and leaving the state as it was; a cleanup
    at the time of the tick; a request.  Each is a step of the collector, with its accounts. *)
Inductive handles : tick -> Collector * accounts -> list string -> Collector * accounts -> Prop :=
| handles_read watcher LE c a c' a' :
    collect c watcher LE = Ok c' -> step (c, a) (c', a') -> handles (TRead watcher LE) (c, a) [] (c', a')
| handles_failed_read watcher LE c a e :
    collect c watcher LE = Err e -> handles (TRead watcher LE) (c, a) ["collecting: " +:+ e] (c, a)
| handles_cleanup now c a a' :
    step (c, a) (cleanup c now, a') -> handles (TCleanup now) (c, a) [] (cleanup c now, a')
| handles_request records mok wok now c a c' a' resp :
    GetRawNetworkMetricsHandler c records mok wok now = (c', resp) -> step (c, a) (c', a') ->
    handles (TServe records mok wok now) (c, a) [] (c', a').

(** All ticks of a list, in their order, with the lines logged. *)
Inductive performs : Collector * accounts -> list tick -> list string -> Collector * accounts -> Prop :=
| performs_nil s : performs s [] [] s
| performs_cons s t log1 s1 ts log2 s2 :
    handles t s log1 s1 -> performs s1 ts log2 s2 -> performs s (t :: ts) (log1 ++ log2) s2.

Lemma performs_steps s ts log s' : performs s ts log s' -> rtc step s s'.
Proof.
  induction 1 as [|s t log1 s1 ts log2 s2 Hh _ IH]; [reflexivity|].
  destruct Hh; [by eapply rtc_l..| |by eapply rtc_l|by eapply rtc_l]. exact IH.
Qed.

(** Why the loop handled no more: everything was handled, the context was next, or a collection panics. *)
Definition stopped_by (l : loop) (c : Collector) (rest : list tick) : Prop :=
  match l with
  | Running => rest = []
  | Returned r => exists err rest', r = Some err /\ rest = TDone err :: rest'
  | Crashed => exists watcher LE rest', rest = TRead watcher LE :: rest' /\ collect c watcher LE = Panic
  end.

(** A collection that succeeds listed something. *)
Lemma collect_listed c watcher LE c' : collect c watcher LE = Ok c' ->
  exists pods ips conns, getNodePods c watcher = Ok pods /\ getPodIPs pods = Ok ips /\
    LE (FilterBySrcIP ips) = Ok conns.
Proof.
  unfold Collector.collect. destruct (getNodePods c watcher) as [pods| |]; [|done..].
  intros (ips & Hi & H)%rbind_ok. destruct (LE (FilterBySrcIP ips)) as [conns| |] eqn:HL; [|done..].
  by exists pods, ips, conns.
Qed.

Lemma loop_performs ts c a :
  let '(c', log, l) := collector_loop c ts in
  exists handled rest a', ts = handled ++ rest /\ performs (c, a) handled log (c', a') /\ stopped_by l c' rest.
Proof.
  revert c a. induction ts as [|t ts IH]; intros c a.
  { simpl. exists [], [], a. split_and!; [done|constructor|done]. }
  assert (forall log1 c1 a1, handles t (c, a) log1 (c1, a1) ->
    let '(c', log, l) := collector_loop c1 ts in
    exists handled rest a', t :: ts = handled ++ rest /\ performs (c, a) handled (log1 ++ log) (c', a') /\
      stopped_by l c' rest) as Hcons.
  { intros log1 c1 a1 Hh. specialize (IH c1 a1). destruct (collector_loop c1 ts) as [[c' log] l].
    destruct IH as (handled & rest & a' & -> & Hp & Hr). exists (t :: handled), rest, a'.
    split_and!; [done|by econstructor|done]. }
  clear IH. destruct t as [watcher LE|now|records mok wok now|err]; cbn [collector_loop].
  - destruct (collect c watcher LE) as [c1|e|] eqn:E.
    + destruct (collect_listed _ _ _ _ E) as (pods & ips & conns & Hp & Hi & HL).
      eapply (Hcons [] c1), handles_read; [done|]. by eapply step_collect.
    + specialize (Hcons _ c a (handles_failed_read _ _ _ _ _ E)).
      by destruct (collector_loop c ts) as [[c' log] l].
    + exists [], (TRead watcher LE :: ts), a. split_and!; [done|constructor|by exists watcher, LE, ts].
  - eapply (Hcons []), handles_cleanup, step_cleanup.
  - destruct (GetRawNetworkMetricsHandler c records mok wok now) as [c1 resp] eqn:E.
    eapply (Hcons []), handles_request; [exact E|]. by eapply step_serve.
  - exists [], (TDone err :: ts), a. split_and!; [done|constructor|by exists err, ts].
Qed.

(** C18: The collector's loop does exactly what its channels deliver.  For any sequence of read and
    cleanup ticks, requests and the end of the context, with any listings and errors, it handles a prefix
    of the sequence, every element of it once and in order: a read tick by a collection, a cleanup tick
    by a cleanup, a request by the handler; a failed collection leaves the state alone and logs one line,
    and the log is exactly those lines.  It is a run of the collector's steps.  What it does not handle
    tells why: nothing is left and it goes on, the context's end is next and its error is returned, or
    the next collection panics.  With an interval that is not positive it panics before the first tick. *)
Theorem collector_Start_refines (c : Collector) (a : accounts) (ts : list tick) :
  let '(c', log, l) := collector_Start c ts in
  exists handled rest a', ts = handled ++ rest /\ performs (c, a) handled log (c', a') /\
    rtc step (c, a) (c', a') /\
    if (ReadInterval (cfg c) <=? 0) || (CleanupInterval (cfg c) <=? 0)
    then handled = [] /\ l = Crashed
    else stopped_by l c' rest.
Proof.
  unfold collector_Start.
  destruct (ReadInterval (cfg c) <=? 0) eqn:E1; [exists [], ts, a; split_and!; try done; constructor|].
  destruct (CleanupInterval (cfg c) <=? 0) eqn:E2; [exists [], ts, a; split_and!; try done; constructor|].
  pose proof (loop_performs ts c a) as H. destruct (collector_loop c ts) as [[c' log] l].
  destruct H as (handled & rest & a' & Hts & Hp & Hr). exists handled, rest, a'.
  split_and!; [done|done|by eapply performs_steps|done].
Qed.
End collector.

(** A loop on the collector of Collector.v: a failed reading, a reading, a request, the end. *)
#[local] Existing Instance ref_netaddr.
Definition ref_ticks : list tick :=
  [TRead (Err "informer") ref_list; TRead (Ok []) ref_list; TServe [] true true (λ _, 0); TDone "context canceled"].

Lemma collector_Start_refines_witness :
  let r := collector_Start le_combine le_combine ref_start ref_ticks in
  r.1.2 = ["collecting: getting node pods: informer"] /\ r.2 = Returned (Some "context canceled") /\
  exists handled rest a', ref_ticks = handled ++ rest /\
    performs le_combine le_combine (ref_start, no_accounts) handled r.1.2 (r.1.1, a').
Proof.
  split; [vm_compute; reflexivity|]. split; [vm_compute; reflexivity|].
  pose proof (collector_Start_refines le_combine le_combine ref_start no_accounts ref_ticks) as H.
  destruct (collector_Start le_combine le_combine ref_start ref_ticks) as [[c' log] l].
  destruct H as (handled & rest & a' & H1 & H2 & _). exists handled, rest, a'. by split.
Defined.

(** * The DNS collector *)
Section dns.
Context `{N : Netaddr} `{CI : ExpiringCache Z string} `{CS : ExpiringCache string string}.

(** What the loop's select takes: an event at a time, the closed channel of events, the end of the
    tracer's [Run], or the end of the context. *)
Inductive selected :=
| DEvent (now : Z) (answers : list Answer)
| DClosed
| DTracer (err : option string)
| DDone (err : string).

Fixpoint dns_loop (d : IP2DNS) (xs : list selected) : IP2DNS * loop :=
  match xs with
  | [] => (d, Running)
  | DDone err :: _ => (d, Returned (Some err))
  | DTracer (Some err) :: _ => (d, Returned (Some ("running tracer: " +:+ err)))
  | DTracer None :: _ => (d, Returned None)
  | DClosed :: _ => (d, Returned None)
  | DEvent now answers :: xs =>
      match handle_event now d answers with
      | Ok d => dns_loop d xs
      | Err e => (d, Returned (Some e))
      | Panic => (d, Crashed)
      end
  end.

(** [Start] makes the caches, which [Records] reads; before it there are none and reading panics. *)
Definition dns_Start (xs : list selected) : IP2DNS * loop := dns_loop NewIP2DNS xs.
Definition Records_of (d : option IP2DNS) (now : Z) : result (list (Z * string)) :=
  match d with Some d => Ok (Records now d) | None => Panic end.

(** The events before anything else was selected. *)
Fixpoint leading_events (xs : list selected) : list (Z * list Answer) :=
  match xs with DEvent now answers :: xs => (now, answers) :: leading_events xs | _ => [] end.

(** The loop handles the events in their order, whatever follows them: unless an answer makes it panic
    its names are those of the events it selected, and what ends it is what was selected next. *)
Theorem dns_Start_exact (xs : list selected) :
  match foldr_result (λ d ev, handle_event ev.1 d ev.2) NewIP2DNS (leading_events xs) with
  | Ok d => (dns_Start xs).1 = d /\
      match drop (length (leading_events xs)) xs with
      | [] => (dns_Start xs).2 = Running
      | DClosed :: _ | DTracer None :: _ => (dns_Start xs).2 = Returned None
      | DTracer (Some err) :: _ => (dns_Start xs).2 = Returned (Some ("running tracer: " +:+ err))
      | DDone err :: _ => (dns_Start xs).2 = Returned (Some err)
      | DEvent _ _ :: _ => False
      end
  | Panic => (dns_Start xs).2 = Crashed
  | Err e => (dns_Start xs).2 = Returned (Some e)
  end.
Proof.
  unfold dns_Start. generalize NewIP2DNS as d.
  induction xs as [|[now answers| |[err|]|err] xs IH]; intros d; simpl; [done| |done..].
  destruct (handle_event now d answers) as [d1|e|]; simpl; [|done..]. apply IH.
Qed.
End dns.

(** * The exporter *)
Section exporter.
Context `{N : Netaddr} `{CI : ExpiringCache Z string} `{W : kubeWatcher}.

(** A tick of the export interval, with what the export finds, or the end of the context. *)
Inductive export_tick :=
| XExport (refresh : watcher -> watcher) (pods : result (list collector_pod))
    (arrivals : list (Z * RawNetworkMetricBatch)) (sinks : list (list PodNetworkMetric -> option string))
| XDone (err : string).

(** Between ticks the informers change the watcher ([refresh]). *)
Fixpoint exporter_loop (w : watcher) (d : cache Z string) (xs : list export_tick) :
    list exported * list string * loop :=
  match xs with
  | [] => ([], [], Running)
  | XDone err :: _ => ([], [], Returned (Some err))
  | XExport refresh pods arrivals sinks :: xs =>
      let x := export (refresh w) d pods arrivals sinks in
      match x_result x with
      | Panic => ([x], [], Crashed)
      | Ok _ =>
          let '(exps, log, l) := exporter_loop (x_watcher x) (x_dns x) xs in (x :: exps, log, l)
      | Err e =>
          let '(exps, log, l) := exporter_loop (x_watcher x) (x_dns x) xs in
          (x :: exps, ("export: " +:+ e) :: log, l)
      end
  end.

Definition exporter_Start (ExportInterval : Z) (w : watcher) (d : cache Z string) (xs : list export_tick) :
    list exported * list string * loop :=
  if ExportInterval <=? 0 then ([], [], Crashed) else exporter_loop w d xs.

Fixpoint exports_before_done (xs : list export_tick) : nat :=
  match xs with XExport _ _ _ _ :: xs => S (exports_before_done xs) | _ => 0%nat end.

Lemma export_no_panic {HN : NetaddrSpec N} {HW : kubeWatcherSpec W} (w : watcher) (d : cache Z string)
    pods arrivals sinks : pods <> Panic ->
  Forall (λ raw, is_signed 32 (rDstIp raw)) (concat (map (λ b, bItems b.2) arrivals)) ->
  x_result (export w d pods arrivals sinks) <> Panic.
Proof.
  intros Hp Ha. unfold export. destruct pods as [[|p ps]|e|]; [done| |done|done].
  by destruct (aggregate_accounts w d arrivals KTxBytes Ha) as [-> _].
Qed.

(** Listing the collectors is all that can fail an export, and it is logged: on a watcher that does not
    panic, for metrics with int32 addresses, every tick before the end of the context has its export,
    a failed one logs one line, and the loop ends only with the context. *)
Theorem exporter_Start_exact {HN : NetaddrSpec N} {HW : kubeWatcherSpec W} (interval : Z) (w : watcher)
    (d : cache Z string) (xs : list export_tick)
    (Hint : 0 < interval)
    (Hxs : Forall (λ x, match x with
       | XExport _ pods arrivals _ => pods <> Panic /\
           Forall (λ raw, is_signed 32 (rDstIp raw)) (concat (map (λ b, bItems b.2) arrivals))
       | XDone _ => True
       end) xs) :
  let '(exps, log, l) := exporter_Start interval w d xs in
  length exps = exports_before_done xs /\
  log = omap (λ x, match x_result x with Err e => Some ("export: " +:+ e) | _ => None end) exps /\
  l = match drop (exports_before_done xs) xs with XDone err :: _ => Returned (Some err) | _ => Running end.
Proof.
  unfold exporter_Start. rewrite (proj2 (Z.leb_gt _ _) Hint). revert w d.
  induction Hxs as [|[refresh pods arrivals sinks|err] xs Hx _ IH]; intros w d; simpl; [done| |done].
  destruct Hx as [Hp Ha]. pose proof (export_no_panic (refresh w) d pods arrivals sinks Hp Ha) as Hn.
  set (x := export (refresh w) d pods arrivals sinks) in *. specialize (IH (x_watcher x) (x_dns x)).
  destruct (exporter_loop (x_watcher x) (x_dns x) xs) as [[exps log] l]. destruct IH as (<- & -> & ->).
  by destruct (x_result x) eqn:E; simpl; rewrite ?E.
Qed.
End exporter.
