(* ===== verification/Transport.v ===== *)
(** From a collector to the exporter: the end of [GetRawNetworkMetricsHandler], [writeGzipBody] and
    [writePlainBody] of src/collector/collector.go, and [fetchRawNetworkMetricsBatch] of
    src/exporter/exporter.go.

    Protocol buffers and gzip are the class [Codec] of the functions the two programs call, with their
    documented laws in [CodecSpec].  The response writer of net/http is the record [ResponseWriter] of
    what was handed to it; what the exporter's HTTP client makes of it is any outcome that
    [client_sees] allows, which includes every loss on the way. *)
From S2P Require Import Prelude GoBase Conntrack Dns Kube Collector Exporter.
From stdpp Require Import base numbers list strings pretty gmap countable.
Local Open Scope string_scope.
Local Open Scope list_scope.
Local Open Scope Z_scope.
Local Open Scope egress_scope.

(** * Text *)

(** [strings.ToLower] of an ASCII header. *)
Definition lower (c : Ascii.ascii) : Ascii.ascii :=
  let n := Z.of_N (Ascii.N_of_ascii c) in
  if in_range 65 91 n then Ascii.ascii_of_N (Z.to_N (n + 32)) else c.
Fixpoint ToLower (s : string) : string :=
  match s with
  | EmptyString => EmptyString
  | String c s => String (lower c) (ToLower s)
  end.

(** [strings.Contains] *)
Fixpoint Contains (s sub : string) : bool :=
  String.prefix sub s || match s with EmptyString => false | String _ s => Contains s sub end.

(** [utf8.Valid]: the well-formed byte sequences of Unicode, table 3-7. *)
Definition is_cont (b : Z) : bool := in_range 128 192 b.
Fixpoint utf8_valid_bytes (bs : list Z) : bool :=
  match bs with
  | [] => true
  | b :: r =>
      if b <? 128 then utf8_valid_bytes r
      else match r with
      | c1 :: r1 =>
          if in_range 194 224 b then is_cont c1 && utf8_valid_bytes r1
          else match r1 with
          | c2 :: r2 =>
              if in_range 224 240 b then
                in_range (if b =? 224 then 160 else 128) (if b =? 237 then 160 else 192) c1 &&
                is_cont c2 && utf8_valid_bytes r2
              else match r2 with
              | c3 :: r3 =>
                  in_range 240 245 b &&
                  in_range (if b =? 240 then 144 else 128) (if b =? 244 then 144 else 192) c1 &&
                  is_cont c2 && is_cont c3 && utf8_valid_bytes r3
              | [] => false
              end
          | [] => false
          end
      | [] => false
      end
  end.
Definition utf8_valid (s : string) : bool :=
  utf8_valid_bytes (map (λ c, Z.of_N (Ascii.N_of_ascii c)) (String.list_ascii_of_string s)).

(** * The libraries *)

(** [proto.Marshal] and [proto.Unmarshal] of a batch; what a gzip writer passes on in [Write] and what
    remains for [Close]; and the decompression of the HTTP client. *)
Class Codec := {
  marshal : RawNetworkMetricBatch -> option (list Z);
  unmarshal : list Z -> string + RawNetworkMetricBatch;
  gz_write : list Z -> list Z;
  gz_close : list Z -> list Z;
  gunzip : list Z -> option (list Z)
}.

(** A message whose strings are valid UTF-8 is marshalled, any other is refused, and decoding inverts
    encoding. *)
Definition batch_utf8 (b : RawNetworkMetricBatch) : bool := forallb (λ it, utf8_valid it.2) (bIp2Domain b).
Class CodecSpec (C : Codec) : Prop := {
  marshal_valid b : batch_utf8 b = true -> exists bs, marshal b = Some bs;
  marshal_invalid b : batch_utf8 b = false -> marshal b = None;
  unmarshal_marshal b bs : marshal b = Some bs -> unmarshal bs = inr b;
  gunzip_gzip bs : gunzip (gz_write bs ++ gz_close bs) = Some bs
}.

(** * The response *)
Record ResponseWriter := MkWriter {
  w_status : option Z;      (* once the header is written *)
  w_gzip : bool;            (* Content-Encoding: gzip *)
  w_body : list Z;
  w_broken : bool           (* a write to the connection failed *)
}.
Definition new_writer : ResponseWriter := MkWriter None false [] false.
Definition StatusOK : Z := 200.
Definition StatusInternalServerError : Z := 500.

Definition WriteHeader (w : ResponseWriter) (status : Z) : ResponseWriter :=
  MkWriter (Some (default status (w_status w))) (w_gzip w) (w_body w) (w_broken w).
Definition add_gzip_header (w : ResponseWriter) : ResponseWriter :=
  MkWriter (w_status w) true (w_body w) (w_broken w).

(** [w.Write], which writes the header first; an error says how much got through. *)
Definition fault : Type := option (list Z * string).
Definition Write (w : ResponseWriter) (bs : list Z) (err : fault) : ResponseWriter * option string :=
  let w := WriteHeader w StatusOK in
  match err with
  | Some (part, e) => (MkWriter (w_status w) (w_gzip w) (w_body w ++ part) true, Some e)
  | None => (MkWriter (w_status w) (w_gzip w) (w_body w ++ bs) (w_broken w), None)
  end.

Definition bytes_of (s : string) : list Z :=
  map (λ c, Z.of_N (Ascii.N_of_ascii c)) (String.list_ascii_of_string s).
(** [http.Error]; what it writes after a failed write goes nowhere. *)
Definition http_Error (w : ResponseWriter) (msg : string) (code : Z) : ResponseWriter :=
  let w := WriteHeader w code in
  if w_broken w then w
  else MkWriter (w_status w) (w_gzip w) (w_body w ++ bytes_of msg ++ [10]) false.

Section transport.
Context `{C : Codec}.

(** [new_err]: the error of [gzip.NewWriterLevel]; [write_err] and [close_err]: what befalls the writes
    to the connection in [Write] and in the deferred [Close], whose error nobody looks at. *)
Definition writeGzipBody (w : ResponseWriter) (body : list Z) (new_err : option string)
    (write_err close_err : fault) : ResponseWriter * option string :=
  match new_err with
  | Some e => (http_Error w "Internal Server Error" StatusInternalServerError,
               Some ("cannot create gzip writer: " +:+ e))
  | None =>
      let w := add_gzip_header w in
      match Write w (gz_write body) write_err with
      | (w, Some e) => (http_Error w "Internal Server Error" StatusInternalServerError, Some e)
      | (w, None) => (fst (Write w (gz_close body) close_err), None)
      end
  end.

Definition writePlainBody (w : ResponseWriter) (body : list Z) (write_err : fault) :
    ResponseWriter * option string :=
  match Write w body write_err with
  | (w, Some e) => (http_Error w "Internal Server Error" StatusInternalServerError, Some e)
  | (w, None) => (w, None)
  end.

Context `{N : Netaddr}.

Definition message_item (m : rawNetworkMetric) : RawNetworkMetric :=
  MkRaw (mSrcIp m) (mDstIp m) (mTxBytes m) (mTxPackets m) (mRxBytes m) (mRxPackets m) (mProto m).
Definition message (c : Collector) (records : list (Z * string)) : RawNetworkMetricBatch :=
  MkBatch (map message_item (map_to_list (podMetrics c)).*2) records.

(** What can go wrong while the collector answers. *)
Record faults := MkFaults { f_new : option string; f_write : fault; f_close : fault }.

(** The handler with the response it writes. *)
Definition serve (c : Collector) (records : list (Z * string)) (enc : string) (f : faults)
    (now : Z -> Z) : Collector * ResponseWriter :=
  match marshal (message c records) with
  | Some batchBytes =>
      let '(w, err) :=
        if Contains (ToLower enc) "gzip"
        then writeGzipBody new_writer batchBytes (f_new f) (f_write f) (f_close f)
        else writePlainBody new_writer batchBytes (f_write f) in
      (fst (GetRawNetworkMetricsHandler c records true (if err is None then true else false) now), w)
  | None => (fst (GetRawNetworkMetricsHandler c records false true now),
          WriteHeader new_writer StatusInternalServerError)
  end.

(** * The exporter's side *)

(** Reading a body: the bytes up to its end or to an error. *)
Definition read_body : Type := list Z * option string.
Definition string_of (bs : list Z) : string :=
  String.string_of_list_ascii (map (λ b, Ascii.ascii_of_N (Z.to_N b)) bs).

(** [req_err]: the error of [http.NewRequestWithContext]; [Do]: the outcome of the request. *)
Definition fetchRawNetworkMetricsBatch (url : string) (req_err : option string)
    (Do : result (Z * read_body)) : result RawNetworkMetricBatch :=
  match req_err with
  | Some e => Err e
  | None =>
      try resp := Do in
      let '(st, (body, read_err)) := resp in
      if negb (st =? StatusOK)
      then Err ("fetching metrics from " +:+ quote url +:+ ", status=" +:+ pretty st +:+ ": " +:+
                string_of body)
      else match read_err with
           | Some e => Err e
           | None => match unmarshal body with inl e => Err e | inr batch => Ok batch end
           end
  end.

(** What the client can make of a response.  It asks for gzip and decodes what comes compressed; a body
    it reads to its end without an error is the whole body of a response that was written to its end. *)
Definition decode_body (w : ResponseWriter) : option (list Z) :=
  if w_gzip w then gunzip (w_body w) else Some (w_body w).
Definition client_sees (w : ResponseWriter) (Do : result (Z * read_body)) : Prop :=
  match Do with
  | Ok (st, (body, None)) => w_broken w = false /\ Some st = w_status w /\ decode_body w = Some body
  | Ok (st, (_, Some _)) => Some st = w_status w
  | Err _ => True
  | Panic => False
  end.

(** * What the handler leaves behind *)
Context {HC : CodecSpec C}.

(** The collector after a request it takes to be answered. *)
Definition answered_state (c : Collector) (now : Z -> Z) : Collector :=
  fst (GetRawNetworkMetricsHandler c [] true true now).

Lemma answered_state_pending c now g q : SendTrafficDelta (cfg c) = true -> pending (answered_state c now) g q = 0.
Proof.
  intros Hd. unfold answered_state, GetRawNetworkMetricsHandler. cbn [negb]. rewrite Hd.
  unfold pending, reset_metrics. cbn [fst podMetrics]. rewrite map_lookup_imap.
  destruct (podMetrics c !! g); cbn; [by destruct q|done].
Qed.

Lemma answered_state_cumulative c now : SendTrafficDelta (cfg c) = false -> answered_state c now = c.
Proof. intros Hd. unfold answered_state, GetRawNetworkMetricsHandler. cbn [negb]. by rewrite Hd. Qed.

Lemma handler_ok c records now :
  fst (GetRawNetworkMetricsHandler c records true true now) = answered_state c now.
Proof. unfold answered_state, GetRawNetworkMetricsHandler. cbn [negb]. by case_match. Qed.

(** Writing either fails visibly, or succeeds with the whole body on the connection or a connection
    that broke when the compressor was closed. *)
Definition refused (w : ResponseWriter) : Prop :=
  w_broken w = true \/ w_status w = Some StatusInternalServerError.
Definition complete (w : ResponseWriter) (bs : list Z) : Prop :=
  w_broken w = false /\ w_status w = Some StatusOK /\ decode_body w = Some bs.

Lemma writeGzipBody_cases bs ne we ce w e : writeGzipBody new_writer bs ne we ce = (w, e) ->
  match e with
  | Some _ => refused w /\ (ne <> None \/ we <> None)
  | None => ne = None /\ we = None /\ if ce is None then complete w bs else w_broken w = true
  end.
Proof.
  unfold writeGzipBody, Write, http_Error. destruct ne as [ne|]; simpl.
  { intros [= <- <-]. split; [by right|by left]. }
  destruct we as [[part er]|]; simpl.
  { intros [= <- <-]. split; [by left|by right]. }
  destruct ce as [[part er]|]; simpl; intros [= <- <-]; split_and!; try done.
  split_and!; [done..|]. apply gunzip_gzip.
Qed.

Lemma writePlainBody_cases bs we w e : writePlainBody new_writer bs we = (w, e) ->
  match e with
  | Some _ => refused w /\ we <> None
  | None => we = None /\ complete w bs
  end.
Proof.
  unfold writePlainBody, Write, http_Error. destruct we as [[part er]|]; simpl; intros [= <- <-].
  - split; [by left|done].
  - by split_and!.
Qed.

(** The cases of a request: refused, with the collector unchanged; or taken as answered, with the
    batch on the connection unless it broke. *)
Lemma serve_cases c records enc f now c' w : serve c records enc f now = (c', w) ->
  (c' = c /\ refused w /\ (marshal (message c records) = None \/ f_new f <> None \/ f_write f <> None)) \/
  (exists bs, marshal (message c records) = Some bs /\ c' = answered_state c now /\
     ((w_broken w = true /\ f_close f <> None) \/ complete w bs)).
Proof.
  unfold serve. destruct (marshal (message c records)) as [bs|].
  - destruct (Contains (ToLower enc) "gzip").
    + destruct (writeGzipBody _ _ _ _ _) as [w0 e] eqn:E. apply writeGzipBody_cases in E.
      intros [= <- <-]. destruct e as [e|]; simpl.
      * left. destruct E as [Hr Hf]. split_and!; [done|done|by right].
      * right. exists bs. rewrite handler_ok. split_and!; [done..|]. destruct E as (_ & _ & E).
        destruct (f_close f); [by left|by right].
    + destruct (writePlainBody _ _ _) as [w0 e] eqn:E. apply writePlainBody_cases in E.
      intros [= <- <-]. destruct e as [e|]; simpl.
      * left. destruct E as [Hr Hf]. split_and!; [done|done|by right; right].
      * right. exists bs. rewrite handler_ok. split_and!; [done..|]. right. apply E.
  - intros [= <- <-]. left. split_and!; [done|by right|by left].
Qed.

(** Whether the handler takes the request to be answered: the batch was marshalled and writing the body
    returned no error. *)
Definition answers (c : Collector) (records : list (Z * string)) (enc : string) (f : faults) : bool :=
  match marshal (message c records) with
  | Some bs =>
      if (if Contains (ToLower enc) "gzip"
          then writeGzipBody new_writer bs (f_new f) (f_write f) (f_close f)
          else writePlainBody new_writer bs (f_write f)).2
      is None then true else false
  | None => false
  end.

Lemma serve_answers c records enc f now c' w : serve c records enc f now = (c', w) ->
  if answers c records enc f
  then c' = answered_state c now /\
    exists bs, marshal (message c records) = Some bs /\ (f_close f <> None \/ complete w bs)
  else c' = c /\ refused w.
Proof.
  unfold serve, answers. destruct (marshal (message c records)) as [bs|].
  - destruct (Contains (ToLower enc) "gzip").
    + destruct (writeGzipBody _ _ _ _ _) as [w0 e] eqn:E. apply writeGzipBody_cases in E.
      intros [= <- <-]. destruct e as [e|]; simpl; [by destruct E|]. rewrite handler_ok. split; [done|].
      exists bs. split; [done|]. destruct E as (_ & _ & E). destruct (f_close f); [by left|by right].
    + destruct (writePlainBody _ _ _) as [w0 e] eqn:E. apply writePlainBody_cases in E.
      intros [= <- <-]. destruct e as [e|]; simpl; [by destruct E|]. rewrite handler_ok. split; [done|].
      exists bs. split; [done|]. right. apply E.
  - intros [= <- <-]. split; [done|by right].
Qed.

(** A request that was refused is an error to the exporter. *)
Lemma refused_fetch url re w Do : refused w -> client_sees w Do ->
  exists e, fetchRawNetworkMetricsBatch url re Do = Err e.
Proof.
  unfold fetchRawNetworkMetricsBatch. intros Hr Hs. destruct re as [e|]; [by eexists|].
  destruct Do as [[st [body [e|]]]|e|]; simpl in *; [| |by eexists|done].
  - case_match; by eexists.
  - destruct Hs as (Hb & Hst & _). destruct Hr as [Hr|Hr]; [congruence|].
    rewrite Hr in Hst. injection Hst as ->. simpl. by eexists.
Qed.

(** A batch the exporter gets is the collector's, which has then been told so. *)
Lemma fetch_once c records enc f url now c' w re Do :
  serve c records enc f now = (c', w) -> client_sees w Do ->
  match fetchRawNetworkMetricsBatch url re Do with
  | Ok b => b = message c records /\ c' = answered_state c now
  | Err _ => True
  | Panic => False
  end.
Proof.
  intros Hserve Hsees. destruct (serve_cases _ _ _ _ _ _ _ Hserve) as [(-> & Hr & _)|(bs & Hm & -> & Hw)].
  - by destruct (refused_fetch url re w Do Hr Hsees) as [e ->].
  - unfold fetchRawNetworkMetricsBatch. destruct re; [done|].
    destruct Do as [[st [body [e|]]]|e|]; simpl in *; [by destruct (negb _)| |done|done].
    destruct Hsees as (Hb & Hst & Hd). destruct Hw as [[Hw _]|(_ & Hok & Hbody)]; [congruence|].
    rewrite Hok in Hst. injection Hst as ->. simpl. rewrite Hbody in Hd. injection Hd as <-.
    by rewrite (unmarshal_marshal _ _ Hm).
Qed.

(** An answer that was given and does not arrive has a cause: closing the compressor failed, or the
    client saw an error instead of the response or while it read the body. *)
Lemma answered_arrives c records enc f url now c' w Do :
  serve c records enc f now = (c', w) -> client_sees w Do -> answers c records enc f = true ->
  match fetchRawNetworkMetricsBatch url None Do with
  | Ok b => b = message c records
  | Err _ => f_close f <> None \/ (exists e, Do = Err e) \/ exists st b e, Do = Ok (st, (b, Some e))
  | Panic => False
  end.
Proof.
  intros Hserve Hsees Ha. pose proof (serve_answers _ _ _ _ _ _ _ Hserve) as H. rewrite Ha in H.
  destruct H as (-> & bs & Hm & [Hc|(_ & Hok & Hbody)]);
    pose proof (fetch_once _ _ _ _ url _ _ _ None _ Hserve Hsees) as Honce.
  { destruct (fetchRawNetworkMetricsBatch url None Do); [by destruct Honce|by left|done]. }
  destruct (fetchRawNetworkMetricsBatch url None Do) as [b|e|] eqn:E; [by destruct Honce| |done]. right.
  destruct Do as [[st [body [e'|]]]|e'|]; [right; by exists st, body, e'| |left; by exists e'|done].
  exfalso. revert E. unfold fetchRawNetworkMetricsBatch. simpl. destruct Hsees as (_ & Hst & Hd).
  rewrite Hok in Hst. injection Hst as ->. simpl. rewrite Hbody in Hd. injection Hd as <-.
  by rewrite (unmarshal_marshal _ _ Hm).
Qed.
End transport.

(** * Properties *)
Section properties.
Context (C : Codec) (HC : CodecSpec C) (N : Netaddr).

(** C11: A fetch delivers the collector's metrics once or not at all.  Whatever fails in the collector
    and on the way, the exporter gets either an error or exactly the metrics and names the collector
    had, and then the collector has reset its counters if it sends deltas; a request refused by the
    collector leaves it unchanged; and if nothing fails and the names are valid text, the metrics
    arrive. *)
Theorem fetch_at_most_once (c c' : Collector) (records : list (Z * string)) (enc url : string)
    (f : faults) (now : Z -> Z) (w : ResponseWriter) (re : option string) (Do : result (Z * read_body))
    (Hserve : serve c records enc f now = (c', w)) (Hsees : client_sees w Do) :
  match fetchRawNetworkMetricsBatch url re Do with
  | Ok b => b = message c records /\ c' = answered_state c now /\
      if SendTrafficDelta (cfg c) then forall g q, pending c' g q = 0 else c' = c
  | Err _ => c' = c \/ c' = answered_state c now /\
      (re <> None \/ f_close f <> None \/ (exists e, Do = Err e) \/ exists st b e, Do = Ok (st, (b, Some e)))
  | Panic => False
  end /\
  (f = MkFaults None None None -> batch_utf8 (message c records) = true -> re = None ->
   (exists st b, Do = Ok (st, (b, None))) -> fetchRawNetworkMetricsBatch url re Do = Ok (message c records)).
Proof.
  pose proof (fetch_once _ _ _ _ url _ _ _ re _ Hserve Hsees) as Honce.
  destruct (serve_cases _ _ _ _ _ _ _ Hserve) as [(-> & Hr & Hcause)|(bs & Hm & -> & Hw)].
  - destruct (refused_fetch url re w Do Hr Hsees) as [e He]. rewrite He. split; [by left|].
    intros -> Hu. destruct (marshal_valid _ Hu) as [bs Hbs].
    destruct Hcause as [Hcause|[Hcause|Hcause]]; [congruence|done|done].
  - destruct (fetchRawNetworkMetricsBatch url re Do) as [b|e|] eqn:Ef; [| |done].
    + destruct Honce as [-> _]. split; [|done]. split_and!; [done..|].
      destruct (SendTrafficDelta (cfg c)) eqn:Hd; [|by apply answered_state_cumulative].
      intros g q. by apply answered_state_pending.
    + assert (Hlost : re <> None \/ f_close f <> None \/ (exists e, Do = Err e) \/
        exists st b e, Do = Ok (st, (b, Some e))).
      { unfold fetchRawNetworkMetricsBatch in Ef. destruct re; [by left|].
        destruct Do as [[st [body [e'|]]]|e'|]; simpl in *; [do 3 right; by eauto| |by eauto|done].
        destruct Hsees as (Hb & Hst & Hd). destruct Hw as [[Hw _]|(_ & Hok & Hbody)]; [congruence|].
        rewrite Hok in Hst. injection Hst as ->. simpl in Ef. rewrite Hbody in Hd. injection Hd as <-.
        by rewrite (unmarshal_marshal _ _ Hm) in Ef. }
      split; [by right|]. intros -> _ -> (st & b & ->). exfalso.
      destruct Hlost as [H|[H|[[? H]|(? & ? & ? & H)]]]; done.
Qed.

(** C23: A connection that breaks when the compressor is closed loses the traffic since the last
    request: nobody looks at the error of the deferred [Close], through which short bodies pass
    entirely, so the collector resets its counters although the exporter gets nothing. *)
Theorem close_error_loses_delta (c c' : Collector) (records : list (Z * string)) (enc url : string)
    (err : list Z * string) (now : Z -> Z) (w : ResponseWriter) (re : option string)
    (Do : result (Z * read_body))
    (Henc : Contains (ToLower enc) "gzip" = true) (Hutf8 : batch_utf8 (message c records) = true)
    (Hdelta : SendTrafficDelta (cfg c) = true)
    (Hserve : serve c records enc (MkFaults None None (Some err)) now = (c', w))
    (Hsees : client_sees w Do) :
  (exists e, fetchRawNetworkMetricsBatch url re Do = Err e) /\ forall g q, pending c' g q = 0.
Proof.
  unfold serve in Hserve. destruct (marshal_valid _ Hutf8) as [bs Hbs]. rewrite Hbs, Henc in Hserve.
  destruct (writeGzipBody new_writer bs _ _ _) as [w0 e] eqn:E.
  pose proof (writeGzipBody_cases _ _ _ _ _ _ E) as Hc. simpl in Hc.
  destruct e as [e|]; [by destruct Hc as [_ [Hc|Hc]]|]. injection Hserve as <- <-.
  destruct Hc as (_ & _ & Hb). split; [by apply (refused_fetch url re w0); [left|]|].
  intros g q. rewrite handler_ok. by apply answered_state_pending.
Qed.

(** C22: One name that is no valid UTF-8 stops the endpoint.  Names come from packets unchecked and
    the message refuses such a string, so from the answer on and for as long as the collector keeps the
    name, every request is answered with status 500: the exporter gets no metrics of the node. *)
Theorem invalid_name_blocks_endpoint (CI : ExpiringCache Z string) (CS : ExpiringCache string string)
    (HI : ExpiringCacheSpec CI) (t0 t : Z) (d d' : @IP2DNS CI CS) (name cn : string) (bs i : list Z)
    (c : Collector) (enc url : string) (f : faults) (now : Z -> Z) (re : option string)
    (Do : result (Z * read_body))
    (Haddr : As4 (FromStdIP bs) = Some i)
    (Hname : utf8_valid (default name (cache_get t0 (cnameToName d) name)) = false)
    (Hd : handle_answer t0 d (MkAnswer name DNSTypeA bs cn) = Ok d')
    (Ht : t0 <= t < t0 + collectorDNSTTL)
    (Hsees : client_sees (serve c (Records t d') enc f now).2 Do) :
  (serve c (Records t d') enc f now).1 = c /\
  w_status (serve c (Records t d') enc f now).2 = Some StatusInternalServerError /\
  exists e, fetchRawNetworkMetricsBatch url re Do = Err e.
Proof.
  rewrite (handle_A N CI CS t0 d name bs i cn Haddr) in Hd. injection Hd as <-.
  assert (Hu : batch_utf8 (message c (Records t (MkIP2DNS
    (cache_set t0 (ipToName d) (swrap 32 (be_combine i))
       (default name (cache_get t0 (cnameToName d) name)) collectorDNSTTL) (cnameToName d)))) = false).
  { apply not_true_iff_false. unfold batch_utf8. rewrite forallb_forall. intros Hall.
    apply not_true_iff_false in Hname. apply Hname.
    pose proof (get_set_same t0 (ipToName d) (swrap 32 (be_combine i))
      (default name (cache_get t0 (cnameToName d) name)) collectorDNSTTL t Ht) as Hg.
    apply (Hall (swrap 32 (be_combine i), default name (cache_get t0 (cnameToName d) name))).
    apply list_elem_of_In. cbn [message bIp2Domain]. unfold Records. apply list_elem_of_fmap.
    eexists. split; [|by eapply keys_complete]. cbn [ipToName]. by rewrite Hg. }
  revert Hsees. unfold serve. rewrite (marshal_invalid _ Hu). cbn [fst snd]. intros Hsees.
  split_and!; [done|done|]. eapply refused_fetch; [|exact Hsees]. by right.
Qed.
End properties.

(** * A codec *)
Definition raw_tuple (m : RawNetworkMetric) : list Z :=
  [rSrcIp m; rDstIp m; rTxBytes m; rTxPackets m; rRxBytes m; rRxPackets m; rProto m].
Definition raw_of (l : list Z) : option RawNetworkMetric :=
  match l with [a; b; c; d; e; f; g] => Some (MkRaw a b c d e f g) | _ => None end.

Definition ref_unmarshal (bs : list Z) : string + RawNetworkMetricBatch :=
  match bs with
  | [Zpos p] =>
      match @decode (list (list Z) * list (Z * string)) _ _ p with
      | Some (items, names) =>
          match mapM raw_of items with Some l => inr (MkBatch l names) | None => inl "invalid" end
      | None => inl "invalid"
      end
  | _ => inl "invalid"
  end.

#[local] Instance ref_codec : Codec := {
  marshal b := if batch_utf8 b then Some [Zpos (encode (map raw_tuple (bItems b), bIp2Domain b))] else None;
  unmarshal := ref_unmarshal;
  gz_write bs := [31; 139];
  gz_close bs := bs;
  gunzip bs := match bs with 31 :: 139 :: bs => Some bs | _ => None end
}.

Lemma raw_of_tuples l : mapM raw_of (map raw_tuple l) = Some l.
Proof. induction l as [|[] l IH]; simpl; [done|]. by rewrite IH. Qed.

Lemma ref_codec_spec : CodecSpec ref_codec.
Proof.
  split; simpl.
  - intros b ->. by eexists.
  - by intros b ->.
  - intros b bs H. destruct (batch_utf8 b); [|done]. injection H as <-. unfold ref_unmarshal.
    rewrite decode_encode, raw_of_tuples. by destruct b.
  - done.
Qed.

#[local] Existing Instance ref_netaddr.
Definition t_coll : Collector :=
  MkCollector (Collector.MkConfig Second Second "" false true) [] ∅
    {[ 1 := MkMetric 167772161 16843009 70 1 90 1 17 0 ]} true.
Definition t_names : list (Z * string) := [(16843009, "one.one")].
Definition t_bytes : list Z := default [] (marshal (message t_coll t_names)).

Lemma fetch_at_most_once_witness :
  fetchRawNetworkMetricsBatch "http://10.0.0.1:6060" None (Ok (200, (t_bytes, None))) =
    Ok (message t_coll t_names).
Proof.
  refine (proj2 (fetch_at_most_once ref_codec ref_codec_spec ref_netaddr t_coll
    (serve t_coll t_names "gzip, deflate" (MkFaults None None None) (λ _, 0)).1 t_names "gzip, deflate"
    "http://10.0.0.1:6060" (MkFaults None None None) (λ _, 0)
    (serve t_coll t_names "gzip, deflate" (MkFaults None None None) (λ _, 0)).2 None
    (Ok (200, (t_bytes, None))) _ _) eq_refl _ eq_refl _).
  - vm_compute. reflexivity.
  - vm_compute. split_and!; reflexivity.
  - vm_compute. reflexivity.
  - by eexists _, _.
Defined.

Lemma close_error_loses_delta_witness :
  let r := serve t_coll t_names "GZIP" (MkFaults None None (Some ([], "broken pipe"))) (λ _, 0) in
  pending t_coll 1 CTxBytes = 70 /\
  (exists e, fetchRawNetworkMetricsBatch "http://10.0.0.1:6060" None (Err "unexpected EOF") = Err e) /\
  forall g q, pending r.1 g q = 0.
Proof.
  split; [vm_compute; reflexivity|].
  apply (close_error_loses_delta ref_codec ref_codec_spec ref_netaddr t_coll _ t_names "GZIP"
    "http://10.0.0.1:6060" ([], "broken pipe") (λ _, 0)
    (serve t_coll t_names "GZIP" (MkFaults None None (Some ([], "broken pipe"))) (λ _, 0)).2).
  - vm_compute. reflexivity.
  - vm_compute. reflexivity.
  - reflexivity.
  - vm_compute. reflexivity.
  - exact I.
Defined.

(** A name of one byte that is no character. *)
Definition bad_name : string := String (Ascii.ascii_of_N 255) EmptyString.
#[local] Existing Instance ref_cache.
Definition t_dns : IP2DNS := MkIP2DNS (cache_set 0 new_cache 16843009 bad_name collectorDNSTTL) new_cache.

Lemma invalid_name_blocks_endpoint_witness :
  exists e, fetchRawNetworkMetricsBatch "http://10.0.0.1:6060" None (Ok (500, ([], None))) = Err e.
Proof.
  refine (proj2 (proj2 (invalid_name_blocks_endpoint ref_codec ref_codec_spec ref_netaddr
    (ref_cache Z string) (ref_cache string string) (ref_cache_spec Z string) 0 Second NewIP2DNS t_dns
    bad_name "" [1; 1; 1; 1] [1; 1; 1; 1] t_coll "" "http://10.0.0.1:6060" (MkFaults None None None)
    (λ _, 0) None (Ok (500, ([], None))) _ _ _ _ _))).
  - reflexivity.
  - vm_compute. reflexivity.
  - vm_compute. reflexivity.
  - vm_compute. split; congruence.
  - vm_compute. split_and!; reflexivity.
Defined.
