(* ===== verification/Sinks.v ===== *)
(** The sinks: src/exporter/sinks/prom.go and src/exporter/sinks/http.go.

    [PromRemoteWriteSink] turns a batch into one time series per pod metric with sorted labels;
    [HTTPSink] posts the batch, encoded and compressed as configured.  The write client, the HTTP
    client, URL parsing, the environment, marshalling and compression are arguments; the retry loop
    of the Kubernetes wait package is the class [Backoff] with the laws of its documentation.  Go maps
    are given in the order in which they are iterated. *)
From S2P Require Import Prelude GoBase Conntrack Exporter.
From Stdlib Require Import Floats.SpecFloat.
From stdpp Require Import base numbers list strings pretty gmap sorting.
Local Open Scope string_scope.
Local Open Scope list_scope.
Local Open Scope Z_scope.
Local Open Scope egress_scope.

(** * prom.go *)

Record Label := MkLabel { lName : string; lValue : string }.
#[global] Instance Label_eq_dec : EqDecision Label.
Proof. solve_decision. Defined.

Record TimeSeries := MkTimeSeries { tsLabels : list Label; tsTime : Z; tsValue : spec_float }.

Record SinkPromRemoteWriteConfig := MkPromConfig {
  promURL : string;
  promHeaders : list (string * string);
  promLabels : list (string * string);
  SendReceivedBytesMetric : bool
}.

Definition isCrossZoneValue (m : PodNetworkMetric) : string :=
  if negb (String.eqb (SrcZone m) "") && negb (String.eqb (DstZone m) "") &&
     negb (String.eqb (SrcZone m) (DstZone m))
  then "true" else "false".

Definition protoNames : gmap Z string :=
  list_to_map [(0, "ANY"); (1, "ICMP"); (6, "TCP"); (17, "UDP"); (58, "ICMPv6")].

Definition protoString (p : Z) : string :=
  match protoNames !! p with Some name => name | None => pretty p end.

(** [strings.Compare(a.Name, b.Name) <= 0] *)
Definition name_le (a b : string) : bool :=
  match String.compare a b with Gt => false | _ => true end.

(** [slices.SortStableFunc]: among equal names the order is kept. *)
Fixpoint insert_label (l : Label) (ls : list Label) : list Label :=
  match ls with
  | [] => [l]
  | x :: ls' => if name_le (lName l) (lName x) then l :: x :: ls' else x :: insert_label l ls'
  end.
Definition SortStable (ls : list Label) : list Label := fold_right insert_label [] ls.

Section prom.
Context `{N : Netaddr}.

Definition initial_labels (name : string) (m : PodNetworkMetric) : list Label :=
  let dstIP := default zeroIP (ParseIP (DstIp m)) in
  let dstIPType := if IsPrivate dstIP then "private" else "public" in
  [ MkLabel "__name__" name;
    MkLabel "cross_zone" (isCrossZoneValue m);
    MkLabel "dst_ip" (IP_String dstIP);
    MkLabel "dst_ip_type" dstIPType;
    MkLabel "dst_namespace" (DstNamespace m);
    MkLabel "dst_node" (DstNode m);
    MkLabel "dst_pod" (DstPod m);
    MkLabel "dst_zone" (DstZone m);
    MkLabel "proto" (protoString (wrap 8 (Proto m)));
    MkLabel "src_ip" (SrcIp m);
    MkLabel "src_namespace" (SrcNamespace m);
    MkLabel "src_node" (SrcNode m);
    MkLabel "src_pod" (SrcPod m);
    MkLabel "src_zone" (SrcZone m) ].

(** The labels of a metric; [custom] is the configured map in the order of its iteration. *)
Definition metric_labels (custom : list (string * string)) (name : string) (m : PodNetworkMetric) :
    list Label :=
  let labels := initial_labels name m in
  match custom with
  | [] => labels
  | _ => SortStable (labels ++ map (λ kv, MkLabel kv.1 kv.2) custom)
  end.

(** The series of [pushMetric]; the map of labels is iterated anew for each metric, in the order
    [orders i] for the [i]th. *)
Fixpoint push_series (orders : nat -> list (string * string)) (items : list PodNetworkMetric) (now : Z)
    (name : string) (valueFunc : PodNetworkMetric -> spec_float) : list TimeSeries :=
  match items with
  | [] => []
  | m :: items' =>
      MkTimeSeries (metric_labels (orders 0%nat) name m) now (valueFunc m) ::
      push_series (λ i, orders (S i)) items' now name valueFunc
  end.

(** A write request: its series and the configured headers. *)
Record WriteRequest := MkWrite { wSeries : list TimeSeries; wHeaders : list (string * string) }.

Definition pushMetric (cfg : SinkPromRemoteWriteConfig) (orders : nat -> list (string * string))
    (items : list PodNetworkMetric) (now : Z) (name : string)
    (valueFunc : PodNetworkMetric -> spec_float) (Write : WriteRequest -> option string) :
    WriteRequest * option string :=
  let req := MkWrite (push_series orders items now name valueFunc) (promHeaders cfg) in
  (req, Write req).

(** [Push]: one or two goroutines; [Wait] returns the error of the one that fails first, and
    [tx_first] says whether the transmit goroutine ends first. *)
Definition Prom_Push (cfg : SinkPromRemoteWriteConfig) (orders orders' : nat -> list (string * string))
    (items : list PodNetworkMetric) (now : Z) (Write : WriteRequest -> option string)
    (tx_first : bool) : list WriteRequest * option string :=
  let '(r1, e1) := pushMetric cfg orders items now "egressd_transmit_bytes_total"
                     (λ v, float64 (TxBytes v)) Write in
  if SendReceivedBytesMetric cfg then
    let '(r2, e2) := pushMetric cfg orders' items now "egressd_received_bytes_total"
                       (λ v, float64 (RxBytes v)) Write in
    ([r1; r2], if tx_first then match e1 with Some _ => e1 | None => e2 end
               else match e2 with Some _ => e2 | None => e1 end)
  else ([r1], e1).
End prom.

(** * http.go *)

(** [textproto.CanonicalMIMEHeaderKey]: letters after the start or a hyphen in upper case, others in
    lower case; a key with a character that is no token character is left as it is. *)
Definition upper (c : Ascii.ascii) : Ascii.ascii :=
  let n := Ascii.nat_of_ascii c in
  if (97 <=? n)%nat && (n <=? 122)%nat then Ascii.ascii_of_nat (n - 32) else c.
Definition lower (c : Ascii.ascii) : Ascii.ascii :=
  let n := Ascii.nat_of_ascii c in
  if (65 <=? n)%nat && (n <=? 90)%nat then Ascii.ascii_of_nat (n + 32) else c.
Definition token_char (c : Ascii.ascii) : bool :=
  let n := Ascii.nat_of_ascii c in
  ((48 <=? n) && (n <=? 57) || (65 <=? n) && (n <=? 90) || (97 <=? n) && (n <=? 122))%nat ||
  existsb (Nat.eqb n) [33; 35; 36; 37; 38; 39; 42; 43; 45; 46; 94; 95; 96; 124; 126]%nat.
Fixpoint canonical_from (up : bool) (s : string) : string :=
  match s with
  | EmptyString => EmptyString
  | String c s' => String (if up then upper c else lower c)
                     (canonical_from (Nat.eqb (Ascii.nat_of_ascii c) 45) s')
  end.
Fixpoint all_token (s : string) : bool :=
  match s with EmptyString => true | String c s' => token_char c && all_token s' end.
Definition CanonicalHeaderKey (s : string) : string :=
  if all_token s then canonical_from true s else s.

Notation Header := (gmap string string).
Definition Header_Set (h : Header) (k v : string) : Header := <[CanonicalHeaderKey k := v]> h.

Record SinkHTTPConfig := MkHTTPConfig {
  httpURL : string; httpMethod : string; Compression : string; Encoding : string;
  httpHeaders : list (string * string); httpTimeout : Z
}.

(** [wait.ExponentialBackoffWithContext] on a condition that may change a state: with a context that is
    already done, whose error is the first argument, it does nothing and returns that error; it ends at
    once when the condition is done or fails, and otherwise calls it again, at most [steps] times. *)
Class Backoff := {
  ExponentialBackoff : forall {S : Type}, option string -> nat -> (S -> S * (bool * option string)) -> S ->
    S * option string
}.
Class BackoffSpec (B : Backoff) : Prop := {
  backoff_ended : forall S n (cond : S -> S * (bool * option string)) s e,
    ExponentialBackoff (Some e) (Datatypes.S n) cond s = (s, Some e);
  backoff_fails : forall S n (cond : S -> S * (bool * option string)) s s' d e,
    cond s = (s', (d, Some e)) -> ExponentialBackoff None (Datatypes.S n) cond s = (s', Some e);
  backoff_done : forall S n (cond : S -> S * (bool * option string)) s s',
    cond s = (s', (true, None)) -> ExponentialBackoff None (Datatypes.S n) cond s = (s', None)
}.

Record HTTPResponse := MkResponse { StatusCode : Z; respBody : string }.
Record HTTPRequest := MkRequest {
  reqMethod : string; reqURL : string; reqHeader : Header; reqBody : list Z; reqTimeout : Z
}.

Section http.
Context `{B : Backoff}.
Context (ExpandEnv : string -> string) (url_Parse : string -> result string)
  (Marshal : list PodNetworkMetric -> result (list Z)) (gzip : list Z -> result (list Z))
  (NewRequest : string -> string -> option string).
(* httpClient.Do: the answer to the request that is sent as number i; ctx_err: the error of the context if
   it is done before the first attempt, cancelled or past the timeout *)
Context (Do : HTTPRequest -> nat -> HTTPResponse + string) (ctx_err : option string).

Definition push_headers (binVersion : string) (headers : list (string * string)) : Header :=
  let header := fold_left (λ h kv, Header_Set h kv.1 (ExpandEnv kv.2)) headers ∅ in
  if existsb (λ kv, String.eqb kv.1 "User-Agent") headers then header
  else Header_Set header "User-Agent" ("castai-egressd/" +:+ binVersion).

(** The condition of the retry loop: the state has the requests sent and the last response. *)
Definition send_once (req : HTTPRequest) (s : list HTTPRequest * option HTTPResponse) :
    (list HTTPRequest * option HTTPResponse) * (bool * option string) :=
  match Do req (length s.1) with
  | inl resp => ((s.1 ++ [req], Some resp), (true, None))
  | inr e => ((s.1 ++ [req], None), (false, Some ("sending request " +:+ e)))
  end.

(** [Push]: the requests sent, and its outcome. *)
Definition HTTP_Push (cfg : SinkHTTPConfig) (binVersion : string) (batch : list PodNetworkMetric) :
    list HTTPRequest * result unit :=
  match url_Parse (ExpandEnv (httpURL cfg)) with
  | Panic => ([], Panic)
  | Err e => ([], Err ("invalid url: " +:+ e))
  | Ok uri =>
      let header := push_headers binVersion (httpHeaders cfg) in
      if negb (String.eqb (Encoding cfg) "protobuf")
      then ([], Err ("encoding " +:+ quote (Encoding cfg) +:+ " is not supported"))
      else
        let header := Header_Set header "Content-Type" "application/protobuf" in
        match Marshal batch with
        | Panic => ([], Panic)
        | Err e => ([], Err e)
        | Ok protoBytes =>
            let '(header, payload) :=
              if String.eqb (Compression cfg) "gzip"
              then (Header_Set header "Content-Encoding" "gzip", gzip protoBytes)
              else (header, Ok protoBytes) in
            match payload with
            | Panic => ([], Panic)
            | Err e => ([], Err e)
            | Ok body =>
                let timeout := if httpTimeout cfg =? 0 then 30 * Second else httpTimeout cfg in
                match NewRequest (httpMethod cfg) uri with
                | Some e => ([], Err ("creating request: " +:+ e))
                | None =>
                    let req := MkRequest (httpMethod cfg) uri header body timeout in
                    let '((sent, resp), err) := ExponentialBackoff ctx_err 3 (send_once req) ([], None) in
                    match err, resp with
                    | Some e, _ => (sent, Err e)
                    | None, None => (sent, Panic)
                    | None, Some resp =>
                        if 399 <? StatusCode resp
                        then (sent, Err ("request error status_code=" +:+ pretty (StatusCode resp) +:+
                                         " body=" +:+ respBody resp +:+ " url=" +:+ uri))
                        else (sent, Ok tt)
                    end
                end
            end
        end
  end.
End http.

(** * Properties of the Prometheus sink *)

(** ** The order of names *)
Lemma ascii_compare_N a b : Ascii.compare a b = N.compare (Ascii.N_of_ascii a) (Ascii.N_of_ascii b).
Proof. reflexivity. Qed.

Lemma name_le_total a b : name_le a b = false -> name_le b a = true.
Proof.
  unfold name_le. rewrite (String.compare_antisym b a). by destruct (String.compare a b).
Qed.

Lemma name_le_antisym a b : name_le a b = true -> name_le b a = true -> a = b.
Proof.
  unfold name_le. rewrite (String.compare_antisym b a).
  destruct (String.compare a b) eqn:E; simpl; try done. by apply String.compare_eq_iff in E.
Qed.

Lemma name_le_cons a s b t : name_le (String a s) (String b t) =
  match N.compare (Ascii.N_of_ascii a) (Ascii.N_of_ascii b) with
  | Lt => true | Gt => false | Eq => name_le s t end.
Proof. unfold name_le. simpl. rewrite ascii_compare_N. by destruct (N.compare _ _). Qed.

Lemma name_le_trans a b c : name_le a b = true -> name_le b c = true -> name_le a c = true.
Proof.
  revert b c. induction a as [|x a IH]; intros [|y b] [|z c]; try done.
  rewrite !name_le_cons. destruct (N.compare_spec (Ascii.N_of_ascii x) (Ascii.N_of_ascii y)); try done;
    destruct (N.compare_spec (Ascii.N_of_ascii y) (Ascii.N_of_ascii z)); try done;
    destruct (N.compare_spec (Ascii.N_of_ascii x) (Ascii.N_of_ascii z)); try lia; try done. apply IH.
Qed.

Definition label_le (a b : Label) : Prop := name_le (lName a) (lName b) = true.
#[local] Instance label_le_trans : Transitive label_le.
Proof. intros a b c. apply name_le_trans. Qed.

Lemma insert_label_perm l ls : insert_label l ls ≡ₚ l :: ls.
Proof.
  induction ls as [|x ls IH]; simpl; [done|]. case_match; [done|]. rewrite IH. apply Permutation_swap.
Qed.

Lemma SortStable_perm ls : SortStable ls ≡ₚ ls.
Proof. induction ls as [|l ls IH]; simpl; [done|]. by rewrite insert_label_perm, IH. Qed.

Lemma insert_label_sorted l ls : StronglySorted label_le ls -> StronglySorted label_le (insert_label l ls).
Proof.
  induction 1 as [|x ls Hs IH Hx]; simpl; [by repeat constructor|].
  destruct (name_le (lName l) (lName x)) eqn:E.
  - constructor; [by constructor|]. constructor; [done|]. eapply Forall_impl; [done|].
    intros y Hy. by etrans.
  - constructor; [done|]. rewrite insert_label_perm. constructor; [by apply name_le_total|done].
Qed.

Lemma SortStable_sorted ls : StronglySorted label_le (SortStable ls).
Proof. induction ls as [|l ls IH]; simpl; [constructor|by apply insert_label_sorted]. Qed.

(** Two sorted arrangements of labels with distinct names are the same. *)
Lemma sorted_unique ls ls' : StronglySorted label_le ls -> StronglySorted label_le ls' ->
  NoDup (map lName ls) -> ls ≡ₚ ls' -> ls = ls'.
Proof.
  intros H. revert ls'. induction H as [|x ls Hs IH Hx]; intros ls' Hs' ND Hp.
  - by apply Permutation_nil_l in Hp.
  - destruct Hs' as [|y ls' Hs' Hy]; [by symmetry in Hp; apply Permutation_nil_cons in Hp|].
    simpl in ND. apply NoDup_cons in ND as [Hn ND].
    assert (x = y) as ->.
    { assert (H1 : x ∈ y :: ls') by (rewrite <- Hp, elem_of_cons; tauto).
      assert (H2 : y ∈ x :: ls) by (rewrite Hp, elem_of_cons; tauto).
      apply elem_of_cons in H1 as [-> | H1]; [done|]. apply elem_of_cons in H2 as [-> | H2]; [done|].
      rewrite Forall_forall in Hx, Hy. destruct Hn.
      rewrite (name_le_antisym (lName x) (lName y) (Hx _ H2) (Hy _ H1)).
      apply list_elem_of_fmap. by exists y. }
    f_equal. apply IH; [done|done|]. by apply Permutation_cons_inv in Hp.
Qed.

Section prom_theory.
Context `{N : Netaddr}.

Definition builtin_names : list string :=
  ["__name__"; "cross_zone"; "dst_ip"; "dst_ip_type"; "dst_namespace"; "dst_node"; "dst_pod";
   "dst_zone"; "proto"; "src_ip"; "src_namespace"; "src_node"; "src_pod"; "src_zone"].

Definition all_labels (custom : list (string * string)) (name : string) (m : PodNetworkMetric) :=
  initial_labels name m ++ map (λ kv, MkLabel kv.1 kv.2) custom.

(** Configured names are a map's keys and differ from the built-in ones. *)
Definition no_clash (custom : list (string * string)) : Prop :=
  NoDup custom.*1 /\ forall k, k ∈ custom.*1 -> k ∉ builtin_names.

Lemma initial_labels_sorted name m : StronglySorted label_le (initial_labels name m).
Proof. unfold initial_labels. repeat (constructor; [|repeat (constructor; [reflexivity|]); constructor]). constructor. Qed.

Lemma metric_labels_perm custom name m : metric_labels custom name m ≡ₚ all_labels custom name m.
Proof.
  unfold metric_labels, all_labels. destruct custom; [by rewrite app_nil_r|]. apply SortStable_perm.
Qed.

Lemma metric_labels_sorted custom name m : StronglySorted label_le (metric_labels custom name m).
Proof.
  unfold metric_labels. destruct custom; [apply initial_labels_sorted|apply SortStable_sorted].
Qed.

Lemma all_labels_NoDup custom name m : no_clash custom -> NoDup (map lName (all_labels custom name m)).
Proof.
  intros [ND Hno]. unfold all_labels. rewrite map_app, map_map. simpl map at 1.
  apply NoDup_app. split_and!.
  - change (NoDup builtin_names). by apply (bool_decide_unpack _).
  - intros k Hb Hk. apply (Hno k); [|done]. done.
  - done.
Qed.

Lemma NoDup_perm_names ls ls' : ls ≡ₚ ls' -> NoDup (map lName ls') -> NoDup (map lName ls).
Proof. intros Hp ND. by rewrite Hp. Qed.

Lemma metric_labels_NoDup custom name m :
  no_clash custom -> NoDup (map lName (metric_labels custom name m)).
Proof. intros Hc. eapply NoDup_perm_names; [apply metric_labels_perm|by apply all_labels_NoDup]. Qed.

(** The labels of every series are the built-in and the configured ones, sorted by name as the
    remote databases require; and when no configured name clashes with a built-in one the result does
    not depend on the order in which Go iterates the configured map. *)
Theorem prom_labels_sorted (custom custom' : list (string * string)) (name : string)
    (m : PodNetworkMetric) (Hp : custom' ≡ₚ custom) :
  StronglySorted label_le (metric_labels custom name m) /\
  metric_labels custom name m ≡ₚ all_labels custom name m /\
  (no_clash custom ->
     NoDup (map lName (metric_labels custom name m)) /\
     metric_labels custom' name m = metric_labels custom name m).
Proof.
  split_and!; [apply metric_labels_sorted|apply metric_labels_perm|]. intros Hc.
  split; [by apply metric_labels_NoDup|]. symmetry.
  apply sorted_unique; [apply metric_labels_sorted|apply metric_labels_sorted|by apply metric_labels_NoDup|].
  rewrite !metric_labels_perm. unfold all_labels. by rewrite Hp.
Qed.

(** ** What a series identifies *)

(** The value a database takes for a name: the first label that has it. *)
Fixpoint label_value (k : string) (ls : list Label) : option string :=
  match ls with
  | [] => None
  | l :: ls => if String.eqb (lName l) k then Some (lValue l) else label_value k ls
  end.

(** Sorting is stable, so it is the same before and after. *)
Lemma label_value_insert k l ls : label_value k (insert_label l ls) = label_value k (l :: ls).
Proof.
  induction ls as [|x ls IH]; simpl; [done|]. destruct (name_le (lName l) (lName x)) eqn:E; [done|].
  simpl. rewrite IH. simpl. destruct (String.eqb_spec (lName x) k) as [Ex|]; [|done].
  destruct (String.eqb_spec (lName l) k) as [El|]; [|done]. exfalso.
  rewrite El, Ex in E. pose proof (name_le_total _ _ E). congruence.
Qed.
Lemma label_value_metric custom name m k :
  label_value k (metric_labels custom name m) = label_value k (all_labels custom name m).
Proof.
  unfold metric_labels, all_labels. destruct custom as [|kv custom]; [by rewrite app_nil_r|].
  generalize (initial_labels name m ++ map (λ kv, MkLabel kv.1 kv.2) (kv :: custom)) as ls.
  intros ls. induction ls as [|l ls IH]; [done|]. cbn [SortStable fold_right].
  rewrite label_value_insert. cbn [label_value]. by rewrite <- IH.
Qed.

Definition proto_codes : list Z := map Z.of_nat (seq 0 256).

Lemma protoString_NoDup : NoDup (protoString <$> proto_codes).
Proof. apply (bool_decide_unpack _). vm_compute. exact I. Qed.

Lemma proto_code p : 0 <= p < 256 -> (protoString <$> proto_codes) !! Z.to_nat p = Some (protoString p).
Proof.
  intros Hp. unfold proto_codes. change (map Z.of_nat (seq 0 256)) with (Z.of_nat <$> seq 0 256).
  rewrite !list_lookup_fmap, lookup_seq_lt by lia. cbn. by rewrite Z2Nat.id by lia.
Qed.

(** The name the connection tracking package gives a protocol is the label's. *)
Lemma ProtoString_agrees p : Conntrack.ProtoString p = protoString p.
Proof.
  assert (G : forall l : list (Z * string),
    match List.find (λ kv, kv.1 =? p) l with Some kv => kv.2 | None => pretty p end =
    match (list_to_map l : gmap Z string) !! p with Some name => name | None => pretty p end); [|apply G].
  intros l. induction l as [|[n name] l IH]; simpl; [by rewrite lookup_empty|].
  destruct (Z.eqb_spec n p) as [-> | Hne]; [by rewrite lookup_insert_eq|]. by rewrite lookup_insert_ne.
Qed.

Lemma protoString_inj p q :
  0 <= p < 256 -> 0 <= q < 256 -> protoString p = protoString q -> p = q.
Proof.
  intros Hp Hq E. pose proof (proto_code p Hp) as Ep. rewrite E in Ep.
  pose proof (NoDup_lookup _ _ _ _ protoString_NoDup Ep (proto_code q Hq)). lia.
Qed.

Lemma crosszone_spec m :
  isCrossZoneValue m = "true" <-> SrcZone m <> "" /\ DstZone m <> "" /\ SrcZone m <> DstZone m.
Proof.
  unfold isCrossZoneValue.
  destruct (String.eqb_spec (SrcZone m) ""), (String.eqb_spec (DstZone m) ""),
    (String.eqb_spec (SrcZone m) (DstZone m)); simpl; split; (discriminate || tauto).
Qed.

(** What distinguishes series. *)
Definition flow (m : PodNetworkMetric) :=
  (SrcIp m, SrcPod m, SrcNamespace m, SrcNode m, SrcZone m,
   (DstPod m, DstNamespace m, DstNode m, DstZone m, wrap 8 (Proto m)),
   IP_String (default zeroIP (ParseIP (DstIp m)))).

(** Names are distinct only if the configured ones do not clash. *)
Lemma names_NoDup custom name m : NoDup (map lName (metric_labels custom name m)) <-> no_clash custom.
Proof.
  split; [|apply metric_labels_NoDup]. intros ND.
  assert (NoDup (map lName (all_labels custom name m))) as H
    by (eapply NoDup_perm_names; [symmetry; apply metric_labels_perm|exact ND]).
  unfold all_labels in H. rewrite map_app, map_map in H. apply NoDup_app in H as (_ & Hno & Hc).
  split; [exact Hc|]. intros k Hk Hb. by apply (Hno k).
Qed.

(** C34: A series identifies its flow, whatever labels are configured: two metrics that get the same
    labels have the same metric name, source, destination pod and node, zones, protocol and destination
    address, since for every built-in name the first label is the built-in one; so is the cross-zone
    label, which is "true" exactly when both zones are known and differ.  The code does not check the
    configured names: the names of a series are distinct exactly when no configured name is a built-in
    one or repeated, and otherwise the series has two labels of one name. *)
Theorem series_identify_flow (custom custom' : list (string * string)) (name name' : string)
    (m m' : PodNetworkMetric)
    (E : metric_labels custom name m = metric_labels custom' name' m') :
  name = name' /\ flow m = flow m' /\
  (label_value "cross_zone" (metric_labels custom name m) = Some "true" <->
     SrcZone m <> "" /\ DstZone m <> "" /\ SrcZone m <> DstZone m) /\
  (NoDup (map lName (metric_labels custom name m)) <-> no_clash custom).
Proof.
  assert (G : forall k, label_value k (all_labels custom name m) = label_value k (all_labels custom' name' m')).
  { intros k. rewrite <- !label_value_metric. by rewrite E. }
  assert (P : protoString (wrap 8 (Proto m)) = protoString (wrap 8 (Proto m')))
    by (specialize (G "proto"); by injection G).
  apply protoString_inj in P; [|apply wrap_unsigned; lia|apply wrap_unsigned; lia].
  split_and!; [specialize (G "__name__"); by injection G| | |apply names_NoDup].
  - pose proof (G "src_ip") as [= ?]. pose proof (G "src_pod") as [= ?].
    pose proof (G "src_namespace") as [= ?]. pose proof (G "src_node") as [= ?].
    pose proof (G "src_zone") as [= ?]. pose proof (G "dst_pod") as [= ?].
    pose proof (G "dst_namespace") as [= ?]. pose proof (G "dst_node") as [= ?].
    pose proof (G "dst_zone") as [= ?]. pose proof (G "dst_ip") as [= Hip].
    unfold flow. rewrite Hip. congruence.
  - rewrite label_value_metric, <- crosszone_spec. change (label_value "cross_zone" _) with (Some (isCrossZoneValue m)).
    split; [by intros [= ->]|by intros ->].
Qed.

Lemma push_series_lookup orders items now name f i :
  push_series orders items now name f !! i =
  (λ m, MkTimeSeries (metric_labels (orders i) name m) now (f m)) <$> items !! i.
Proof.
  revert orders i. induction items as [|m items IH]; intros orders i; [done|].
  destruct i as [|i]; [done|]. simpl. by rewrite IH.
Qed.

(** A request has one series per metric, in order, with the labels of the metric, the common time
    and its bytes, exactly so below 2^53. *)
Definition carries (cfg : SinkPromRemoteWriteConfig) (orders : nat -> list (string * string))
    (items : list PodNetworkMetric) (now : Z) (name : string) (bytes : PodNetworkMetric -> Z)
    (r : WriteRequest) : Prop :=
  wHeaders r = promHeaders cfg /\ length (wSeries r) = length items /\
  forall i m, items !! i = Some m -> exists ts, wSeries r !! i = Some ts /\
    tsLabels ts = metric_labels (orders i) name m /\ tsTime ts = now /\
    tsValue ts = float64 (bytes m) /\ (Z.abs (bytes m) < 2 ^ 53 -> represents (tsValue ts) (bytes m)).

Lemma push_series_length orders items now name f :
  length (push_series orders items now name f) = length items.
Proof. revert orders. induction items as [|m items IH]; intros orders; simpl; [done|]. by rewrite IH. Qed.

Lemma pushMetric_carries cfg orders items now name bytes :
  carries cfg orders items now name bytes
    (MkWrite (push_series orders items now name (λ v, float64 (bytes v))) (promHeaders cfg)).
Proof.
  split_and!; [done|apply push_series_length|]. intros i m Hm. simpl.
  rewrite push_series_lookup, Hm. simpl. eexists. split; [reflexivity|]. simpl.
  split_and!; [done..|]. apply float64_exact.
Qed.

(** C33: A push writes one request of transmitted bytes, and one of received bytes exactly when it is
    configured; each carries one series per metric, in order, with the metric's labels, the common time,
    the configured headers and the metric's bytes, which are exact below 2^53.  The push fails exactly
    when one of its writes fails, with the error of such a write. *)
Theorem Prom_Push_exact (cfg : SinkPromRemoteWriteConfig) (orders orders' : nat -> list (string * string))
    (items : list PodNetworkMetric) (now : Z) (Write : WriteRequest -> option string) (tx_first : bool) :
  let '(reqs, err) := Prom_Push cfg orders orders' items now Write tx_first in
  (exists r1 rest, reqs = r1 :: rest /\
     carries cfg orders items now "egressd_transmit_bytes_total" TxBytes r1 /\
     if SendReceivedBytesMetric cfg
     then exists r2, rest = [r2] /\
       carries cfg orders' items now "egressd_received_bytes_total" RxBytes r2
     else rest = []) /\
  match err with
  | None => forall r, r ∈ reqs -> Write r = None
  | Some e => exists r, r ∈ reqs /\ Write r = Some e
  end.
Proof.
  unfold Prom_Push, pushMetric. set (r1 := MkWrite _ _). set (r2 := MkWrite _ _).
  destruct (SendReceivedBytesMetric cfg).
  - split.
    { exists r1, [r2]. split_and!; [done|apply pushMetric_carries|].
      exists r2. split; [done|apply pushMetric_carries]. }
    destruct tx_first, (Write r1) eqn:E1, (Write r2) eqn:E2.
    all: first [ exists r1; split; [rewrite !elem_of_cons; tauto|exact E1]
               | exists r2; split; [rewrite !elem_of_cons; tauto|exact E2]
               | intros r [-> | [-> | H]%elem_of_cons]%elem_of_cons;
                 [done|done|by apply elem_of_nil in H] ].
  - split; [exists r1, []; split_and!; [done|apply pushMetric_carries|done]|].
    destruct (Write r1) eqn:E1.
    + exists r1. split; [rewrite elem_of_cons; tauto|done].
    + intros r Hr. apply list_elem_of_singleton in Hr as ->. done.
Qed.
End prom_theory.

Definition pod_metric : PodNetworkMetric :=
  MkPodMetric "10.4.0.8" "job" "default" "n1" "z1" "10.0.0.2" "web" "default" "n2" "z2"
    100 2 50 1 6 "".

Lemma prom_labels_sorted_witness :
  let custom := [("team", "a"); ("env", "prod")] in
  metric_labels (N := ref_netaddr) [("env", "prod"); ("team", "a")] "x" pod_metric =
    metric_labels (N := ref_netaddr) custom "x" pod_metric /\
  map lName (metric_labels (N := ref_netaddr) custom "x" pod_metric) =
    ["__name__"; "cross_zone"; "dst_ip"; "dst_ip_type"; "dst_namespace"; "dst_node"; "dst_pod";
     "dst_zone"; "env"; "proto"; "src_ip"; "src_namespace"; "src_node"; "src_pod"; "src_zone"; "team"].
Proof.
  split; [|vm_compute; reflexivity].
  apply (prom_labels_sorted (N := ref_netaddr) [("team", "a"); ("env", "prod")]); [apply Permutation_swap|].
  split.
  - by apply (bool_decide_unpack _).
  - apply Forall_forall. by apply (bool_decide_unpack _).
Defined.

Lemma series_identify_flow_witness :
  let labels := metric_labels (N := ref_netaddr) [("cross_zone", "no")] "x" pod_metric in
  label_value "cross_zone" labels = Some "true" /\ ~ NoDup (map lName labels).
Proof.
  destruct (series_identify_flow (N := ref_netaddr) [("cross_zone", "no")] [("cross_zone", "no")] "x" "x"
    pod_metric pod_metric eq_refl) as (_ & _ & Hz & Hn).
  split.
  - apply Hz. split_and!; discriminate.
  - intros [_ H]%Hn. apply (H "cross_zone"); [left|right; left].
Defined.

(** * Properties of the HTTP sink *)
Section http_theory.
Context `{B : Backoff, HB : !BackoffSpec B}.
Context (ExpandEnv : string -> string) (url_Parse : string -> result string)
  (Marshal : list PodNetworkMetric -> result (list Z)) (gzip : list Z -> result (list Z))
  (NewRequest : string -> string -> option string)
  (Do : HTTPRequest -> nat -> HTTPResponse + string) (ctx_err : option string).

Definition answer (uri : string) (r : HTTPResponse + string) : result unit :=
  match r with
  | inr e => Err ("sending request " +:+ e)
  | inl resp =>
      if 399 <? StatusCode resp
      then Err ("request error status_code=" +:+ pretty (StatusCode resp) +:+
                " body=" +:+ respBody resp +:+ " url=" +:+ uri)
      else Ok tt
  end.

(** Whatever the number of steps, the condition is called once. *)
Lemma backoff_sends_once n req :
  ExponentialBackoff None (S n) (send_once Do req) ([], None) =
  match Do req 0%nat with
  | inl resp => (([req], Some resp), None)
  | inr e => (([req], None), Some ("sending request " +:+ e))
  end.
Proof.
  destruct (Do req 0%nat) as [resp|e] eqn:E.
  - apply backoff_done. unfold send_once. simpl. by rewrite E.
  - eapply backoff_fails. unfold send_once. simpl. by rewrite E.
Qed.

(** The header of the request. *)
Definition request_header (cfg : SinkHTTPConfig) (binVersion : string) : Header :=
  let h := Header_Set (push_headers ExpandEnv binVersion (httpHeaders cfg))
             "Content-Type" "application/protobuf" in
  if String.eqb (Compression cfg) "gzip" then Header_Set h "Content-Encoding" "gzip" else h.

(** C35: A push either fails before anything is sent, a context that is done included, or sends exactly one request, with the encoded
    and possibly compressed batch: a request that cannot be sent is not sent again, although three
    attempts are configured, because the condition of the retry loop returns the error.  The push
    succeeds exactly when an answer with a status below 400 arrives. *)
Theorem HTTP_Push_exact (cfg : SinkHTTPConfig) (binVersion : string) (batch : list PodNetworkMetric) :
  let '(sent, r) := HTTP_Push ExpandEnv url_Parse Marshal gzip NewRequest Do ctx_err cfg binVersion batch in
  (sent = [] /\ r <> Ok tt) \/
  exists req bs, sent = [req] /\ r = answer (reqURL req) (Do req 0%nat) /\
    Encoding cfg = "protobuf" /\ Marshal batch = Ok bs /\
    (if String.eqb (Compression cfg) "gzip" then gzip bs else Ok bs) = Ok (reqBody req) /\
    reqMethod req = httpMethod cfg /\ url_Parse (ExpandEnv (httpURL cfg)) = Ok (reqURL req) /\
    reqHeader req = request_header cfg binVersion /\
    reqTimeout req = (if httpTimeout cfg =? 0 then 30 * Second else httpTimeout cfg).
Proof.
  unfold HTTP_Push. destruct (url_Parse (ExpandEnv (httpURL cfg))) as [uri|e|] eqn:Hu; [|by left..].
  destruct (String.eqb_spec (Encoding cfg) "protobuf") as [He|He]; simpl negb; cbv iota; [|by left].
  destruct (Marshal batch) as [bs|e|] eqn:Hm; [|by left..].
  set (payload := if String.eqb (Compression cfg) "gzip" then gzip bs else Ok bs).
  assert (E : (if String.eqb (Compression cfg) "gzip"
     then (Header_Set (Header_Set (push_headers ExpandEnv binVersion (httpHeaders cfg)) "Content-Type"
             "application/protobuf") "Content-Encoding" "gzip", gzip bs)
     else (Header_Set (push_headers ExpandEnv binVersion (httpHeaders cfg)) "Content-Type"
             "application/protobuf", Ok bs)) = (request_header cfg binVersion, payload)).
  { unfold request_header, payload. by destruct (String.eqb _ "gzip"). }
  rewrite E. destruct payload as [body|e|] eqn:Hp; [|by left..].
  destruct (NewRequest (httpMethod cfg) uri) as [e|]; [by left|].
  destruct ctx_err as [ce|]; [rewrite backoff_ended; by left|].
  rewrite (backoff_sends_once 2). set (req := MkRequest _ _ _ _ _).
  destruct (Do req 0%nat) as [resp|e] eqn:Hd; simpl; [destruct (399 <? StatusCode resp) eqn:Hst|].
  all: right; exists req, bs; rewrite Hd; simpl; rewrite ?Hst; by split_and!.
Qed.

Definition has_key (k : string) (headers : list (string * string)) : bool :=
  existsb (λ kv, String.eqb kv.1 k) headers.

(** The last configured value whose key has the canonical form. *)
Definition configured (k : string) (headers : list (string * string)) : option string :=
  fold_left (λ acc kv, if String.eqb (CanonicalHeaderKey kv.1) k then Some (ExpandEnv kv.2) else acc)
    headers None.

Lemma headers_lookup k headers h acc : h !! k = acc ->
  fold_left (λ h kv, Header_Set h kv.1 (ExpandEnv kv.2)) headers h !! k =
  fold_left (λ acc kv, if String.eqb (CanonicalHeaderKey kv.1) k then Some (ExpandEnv kv.2) else acc)
    headers acc.
Proof.
  revert h acc. induction headers as [|kv headers IH]; intros h acc <-; simpl; [done|]. apply IH.
  unfold Header_Set. destruct (String.eqb_spec (CanonicalHeaderKey kv.1) k) as [<- | Hne];
    [apply lookup_insert_eq|by apply lookup_insert_ne].
Qed.

(** The headers of a request.  The content type and encoding are the sink's.  The configured user
    agent is used when its key is spelled exactly "User-Agent"; under any other spelling of the key,
    which net/http treats as the same header, the sink overwrites it with its own.  Every other
    configured header is sent. *)
Theorem request_headers (cfg : SinkHTTPConfig) (binVersion : string) :
  let h := request_header cfg binVersion in
  h !! "Content-Type" = Some "application/protobuf" /\
  (String.eqb (Compression cfg) "gzip" = true -> h !! "Content-Encoding" = Some "gzip") /\
  h !! "User-Agent" =
    (if has_key "User-Agent" (httpHeaders cfg) then configured "User-Agent" (httpHeaders cfg)
     else Some ("castai-egressd/" +:+ binVersion)) /\
  forall k, k ∉ ["Content-Type"; "Content-Encoding"; "User-Agent"] ->
    h !! k = configured k (httpHeaders cfg).
Proof.
  unfold request_header, push_headers, Header_Set.
  change (CanonicalHeaderKey "Content-Type") with "Content-Type".
  change (CanonicalHeaderKey "Content-Encoding") with "Content-Encoding".
  change (CanonicalHeaderKey "User-Agent") with "User-Agent".
  fold Header_Set. fold (has_key "User-Agent" (httpHeaders cfg)).
  pose proof (fun k => headers_lookup k (httpHeaders cfg) ∅ None (lookup_empty k)) as HL.
  fold Header_Set in HL.
  split_and!.
  - case_match; [rewrite lookup_insert_ne by done|]; apply lookup_insert_eq.
  - intros ->. apply lookup_insert_eq.
  - case_match; rewrite ?(lookup_insert_ne _ _ "User-Agent") by done;
      (case_match; [apply HL|apply lookup_insert_eq]).
  - intros k Hk. rewrite !not_elem_of_cons in Hk. destruct Hk as (H1 & H2 & H3 & _).
    case_match; rewrite ?lookup_insert_ne by done; (case_match; rewrite ?lookup_insert_ne by done; apply HL).
Qed.
End http_theory.

(** A backoff that does not sleep. *)
Fixpoint retry {S : Type} (ctx_err : option string) (n : nat) (cond : S -> S * (bool * option string)) (s : S) :
    S * option string :=
  match n with
  | O => (s, Some "timed out waiting for the condition")
  | Datatypes.S n' =>
      match ctx_err with
      | Some e => (s, Some e)
      | None =>
          match cond s with
          | (s', (_, Some e)) => (s', Some e)
          | (s', (true, None)) => (s', None)
          | (s', (false, None)) => retry ctx_err n' cond s'
          end
      end
  end.
#[local] Instance ref_backoff : Backoff := {| ExponentialBackoff := @retry |}.
#[local] Instance ref_backoff_spec : BackoffSpec ref_backoff.
Proof.
  split.
  - done.
  - intros S n cond s s' d e H. cbn. rewrite H. by destruct d.
  - intros S n cond s s' H. cbn. by rewrite H.
Defined.

Definition http_cfg : SinkHTTPConfig :=
  MkHTTPConfig "https://example.com/ingest" "POST" "gzip" "protobuf" [("user-agent", "mine")] 0.
(** The first request fails, every later one would succeed. *)
Definition flaky (req : HTTPRequest) (i : nat) : HTTPResponse + string :=
  match i with O => inr "connection refused" | _ => inl (MkResponse 200 "") end.
Notation push_ref := (HTTP_Push (B := ref_backoff) (λ s, s) (@Ok string) (λ _, Ok [1; 2]) (@Ok (list Z))
  (λ _ _, None) flaky None http_cfg "1.0" [pod_metric]).

Lemma HTTP_Push_exact_witness :
  length push_ref.1 = 1%nat /\ push_ref.2 = Err "sending request connection refused" /\
  exists req, push_ref.1 = [req] /\ reqBody req = [1; 2].
Proof.
  split; [reflexivity|]. split; [reflexivity|].
  pose proof (HTTP_Push_exact (HB := ref_backoff_spec) (λ s, s) (@Ok string) (λ _, Ok [1; 2])
    (@Ok (list Z)) (λ _ _, None) flaky None http_cfg "1.0" [pod_metric]) as H.
  assert (E : length push_ref.1 = 1%nat) by reflexivity.
  destruct push_ref as [sent r]. simpl in E |- *.
  destruct H as [[-> _]|(req & bs & -> & _ & _ & Hm & Hb & _)]; [discriminate E|].
  exists req. split; [reflexivity|]. injection Hm as <-. by injection Hb as <-.
Defined.
