(* ===== verification/Tracer.v ===== *)
(** The tracer's user-space side: src/ebpf/tracer.go, tracer_linux.go and cgroup_linux.go.

    [NewTracer] makes the queue, [detectCgroupPath] finds where the program is attached and the loop
    of [Run] turns perf records into DNS events for the queue.  gopacket's decoder, the perf reader,
    the file of mounts and the mount system call are arguments.  The loop is a function on what
    happens to it, in order: the samples read, the events taken from the queue by its consumer, read
    errors and cancellation. *)
From S2P Require Import Prelude CAbi GoBase Dns EgressdBpf.
From stdpp Require Import base numbers list strings.
Local Open Scope string_scope.
Local Open Scope list_scope.
Local Open Scope Z_scope.

(** * Decoding *)

(** What gopacket finds at the application layer. *)
Inductive app_layer := LayerDNS (questions : list string) (answers : list Answer) | LayerOther (type : string).

Record DNSEvent := MkDNSEvent { Questions : list string; Answers : list Answer }.

Section tracer.
(* gopacket.NewPacket(data, LayerTypeIPv4, Default): nil, or a packet that may lack an application
   layer *)
Context (NewPacket : list Z -> option (option app_layer)).

Definition parseEvent (data : list Z) : result DNSEvent :=
  match NewPacket data with
  | None => Err "parsing packet"
  | Some None => Err "layer L7 is missing"
  | Some (Some (LayerOther t)) => Err ("expected dns layer, actual type " +:+ t)
  | Some (Some (LayerDNS qs answers)) => Ok (MkDNSEvent qs answers)
  end.

(** * The loop of Run *)
Record Tracer := MkTracer { QueueSize : Z; events : list DNSEvent }.

(** For a size that is not negative; [make] panics otherwise. *)
Definition NewTracer (queueSize : Z) : Tracer :=
  MkTracer (if queueSize =? 0 then 1000 else queueSize) [].

(** One event of the loop's environment. *)
Inductive happening :=
| HSample (raw : list Z)  (* reader.Read returned a record *)
| HReadError (e : string) (* reader.Read failed *)
| HCancel (e : string)    (* the context is done *)
| HTake.                  (* the consumer receives from the queue *)

(** What the loop logs. *)
Inductive log_line := TooSmall | ParseFailed | QueueFull.

(** One iteration on a sample. *)
Definition on_sample (t : Tracer) (raw : list Z) : Tracer * list log_line :=
  if Z.of_nat (length raw) <? 4 then (t, [TooSmall])
  else
    match parseEvent (drop 4 raw) with
    | Ok event =>
        if Z.of_nat (length (events t)) <? QueueSize t
        then (MkTracer (QueueSize t) (events t ++ [event]), [])
        else (t, [QueueFull])
    | _ => (t, [ParseFailed])
    end.

(** The loop: the tracer, what it logged, what the consumer took, and the error it returned with. *)
Fixpoint Run (t : Tracer) (hs : list happening) :
    Tracer * list log_line * list DNSEvent * option string :=
  match hs with
  | [] => (t, [], [], None)
  | HCancel e :: _ | HReadError e :: _ => (t, [], [], Some e)
  | HSample raw :: hs' =>
      let '(t, l) := on_sample t raw in
      let '(t', ls, taken, e) := Run t hs' in (t', l ++ ls, taken, e)
  | HTake :: hs' =>
      match events t with
      | [] => Run t hs'
      | ev :: evs =>
          let '(t', ls, taken, e) := Run (MkTracer (QueueSize t) evs) hs' in (t', ls, ev :: taken, e)
      end
  end.

(** * The cgroup the program is attached to *)

(** [strings.Split(s, sep)] for a separator of one character. *)
Fixpoint split_on (c : Ascii.ascii) (s : string) : list string :=
  match s with
  | EmptyString => [EmptyString]
  | String a s' =>
      if Ascii.eqb a c then EmptyString :: split_on c s'
      else match split_on c s' with
           | f :: fs => String a f :: fs
           | [] => [String a EmptyString]
           end
  end.
Definition space : Ascii.ascii := Ascii.ascii_of_nat 32.

Definition ErrCgroup2NotMounted : string := "cgroup2 not mounted".

(** The loop over the lines of /proc/mounts. *)
Fixpoint scan_mounts (lines : list string) : result string :=
  match lines with
  | [] => Err ErrCgroup2NotMounted
  | line :: lines' =>
      match split_on space line with
      | _ :: f1 :: f2 :: _ => if String.eqb f2 "cgroup2" then Ok f1 else scan_mounts lines'
      | _ => scan_mounts lines'
      end
  end.

(** [mounts]: the lines of the file, or the error of opening it. *)
Definition detectCgroupPath (mounts : result (list string)) : result string :=
  match mounts with
  | Ok lines => scan_mounts lines
  | Err e => Err e
  | Panic => Panic
  end.

(** [mkdir], [mount]: the errors of the two system calls. *)
Definition mountCgroup2 (mountPoint : string) (mkdir mount : string -> option string) : option string :=
  match mkdir mountPoint with
  | Some e => Some ("creating directory at " +:+ quote mountPoint +:+ ": " +:+ e)
  | None =>
      match mount mountPoint with
      | Some e => Some ("mounting cgroup2 at " +:+ quote mountPoint +:+ ": " +:+ e)
      | None => None
      end
  end.

(** The start of [Run]: the path, found in the mounts before or after mounting. *)
Definition attach_path (before after : result (list string)) (mountPoint : string)
    (mkdir mount : string -> option string) : result string :=
  match detectCgroupPath before with
  | Err e =>
      if String.eqb e ErrCgroup2NotMounted then
        match mountCgroup2 mountPoint mkdir mount with
        | Some e => Err ("cgroup2 not mounted and failed to mount manually: " +:+ e)
        | None => detectCgroupPath after
        end
      else Err e
  | r => r
  end.

(** * Properties of the queue *)

(** The events of the samples, up to the end of the loop, in order. *)
Fixpoint decoded (hs : list happening) : list DNSEvent :=
  match hs with
  | [] | HCancel _ :: _ | HReadError _ :: _ => []
  | HTake :: hs' => decoded hs'
  | HSample raw :: hs' =>
      match (if Z.of_nat (length raw) <? 4 then Err "" else parseEvent (drop 4 raw)) with
      | Ok ev => ev :: decoded hs'
      | _ => decoded hs'
      end
  end.
Definition queue_full (l : log_line) : bool := match l with QueueFull => true | _ => false end.
Definition drops (ls : list log_line) : nat := length (List.filter queue_full ls).

Lemma on_sample_size t raw : QueueSize (on_sample t raw).1 = QueueSize t.
Proof. unfold on_sample. repeat case_match; done. Qed.

Lemma Run_cons_sample t raw hs : Run t (HSample raw :: hs) =
  let r := Run (on_sample t raw).1 hs in
  (r.1.1.1, (on_sample t raw).2 ++ r.1.1.2, r.1.2, r.2).
Proof. simpl. destruct (on_sample t raw) as [t1 l]. simpl. by destruct (Run t1 hs) as [[[t' ls] tk] e]. Qed.

Lemma Run_cons_take t hs : Run t (HTake :: hs) =
  match events t with
  | [] => Run t hs
  | ev :: evs => let r := Run (MkTracer (QueueSize t) evs) hs in (r.1.1.1, r.1.1.2, ev :: r.1.2, r.2)
  end.
Proof.
  simpl. destruct (events t) as [|ev evs]; [done|].
  by destruct (Run (MkTracer (QueueSize t) evs) hs) as [[[t' ls] tk] e].
Qed.

(** The queue never holds more events than its size; the events taken followed by those left in
    the queue are the decoded ones in the order of their samples, with some left out, as many as the
    loop logged as dropped because the queue was full. *)
Theorem queue_keeps_order (t : Tracer) (hs : list happening)
    (Hq : Z.of_nat (length (events t)) <= QueueSize t) :
  let '(t', ls, taken, _) := Run t hs in
  Z.of_nat (length (events t')) <= QueueSize t' /\ QueueSize t' = QueueSize t /\
  taken ++ events t' `sublist_of` events t ++ decoded hs /\
  (length (taken ++ events t') + drops ls = length (events t ++ decoded hs))%nat.
Proof.
  revert t Hq. induction hs as [|h hs IH]; intros t Hq.
  { simpl. rewrite app_nil_r. split_and!; [done|done|done|unfold drops; simpl; lia]. }
  destruct h as [raw|e|e|].
  - rewrite Run_cons_sample. specialize (IH (on_sample t raw).1).
    destruct (Run (on_sample t raw).1 hs) as [[[t' ls] taken] e]. cbv zeta. simpl.
    rewrite on_sample_size in IH. revert IH. unfold on_sample, drops.
    destruct (Z.ltb_spec (Z.of_nat (length raw)) 4); [intros IH; simpl; by apply IH|].
    destruct (parseEvent (drop 4 raw)) as [ev| |]; [|intros IH; simpl; by apply IH..].
    destruct (Z.ltb_spec (Z.of_nat (length (events t))) (QueueSize t)) as [Hlt|Hge].
    + simpl. rewrite length_app. simpl. intros IH. destruct IH as (H1 & H2 & H3 & H4); [lia|].
      rewrite <- (app_assoc _ [ev]) in H3, H4. done.
    + simpl. intros IH. destruct (IH Hq) as (H1 & H2 & H3 & H4). split_and!; [done|done| |].
      * etrans; [exact H3|]. apply sublist_app; [done|]. by apply sublist_cons.
      * rewrite !length_app in *. simpl. lia.
  - simpl. rewrite app_nil_r. split_and!; [done|done|done|unfold drops; simpl; lia].
  - simpl. rewrite app_nil_r. split_and!; [done|done|done|unfold drops; simpl; lia].
  - rewrite Run_cons_take. destruct (events t) as [|ev evs] eqn:Ev; simpl.
    + specialize (IH t). rewrite Ev in IH. by apply IH.
    + specialize (IH (MkTracer (QueueSize t) evs)). simpl in IH.
      destruct (Run (MkTracer (QueueSize t) evs) hs) as [[[t' ls] taken] e]. simpl in *.
      destruct IH as (H1 & H2 & H3 & H4); [lia|]. split_and!; [done|done|by apply sublist_skip|lia].
Qed.

(** C30: The kernel program and the tracer agree on the record: for every record the program sends, a
    perf sample of its data followed by any payload is handed to the decoder as exactly that payload,
    never taken for too small, and the event it decodes to is queued when there is room. *)
Theorem tracer_decodes_records en K skb m flags d size (payload : list Z) (t : Tracer)
    (Hctx : ctx_ok skb) (Hrec : (m, flags, d, size) ∈ outputs (fst (cgroup_ingress en K skb))) :
  on_sample t (d ++ payload) =
    match parseEvent payload with
    | Ok ev =>
        if Z.of_nat (length (events t)) <? QueueSize t
        then (MkTracer (QueueSize t) (events t ++ [ev]), [])
        else (t, [QueueFull])
    | _ => (t, [ParseFailed])
    end.
Proof.
  apply (outputs_dns_record en K skb _ Hctx) in Hrec as [= _ _ -> _]. unfold on_sample.
  pose proof (length_store_uint en 4 (skb_len skb)) as Hlen. rewrite length_app, Hlen.
  rewrite (proj2 (Z.ltb_ge _ _)) by lia. by rewrite drop_app_length'.
Qed.
End tracer.

(** * Properties of the cgroup detection *)

Definition is_cgroup2 (line : string) : option string :=
  match split_on space line with
  | _ :: f1 :: f2 :: _ => if String.eqb f2 "cgroup2" then Some f1 else None
  | _ => None
  end.

Lemma scan_mounts_find ls : scan_mounts ls =
  match omap is_cgroup2 ls with p :: _ => Ok p | [] => Err ErrCgroup2NotMounted end.
Proof.
  induction ls as [|l ls IH]; [done|]. simpl. unfold is_cgroup2 at 1.
  destruct (split_on space l) as [|f0 [|f1 [|f2 fs]]]; simpl; [apply IH..|].
  destruct (String.eqb f2 "cgroup2"); [done|apply IH].
Qed.

(** The program is attached to the first cgroup2 mount listed; only when there is none does the
    tracer mount one, and then attaches to the first one listed afterwards; an error of reading the
    mounts is returned without mounting. *)
Theorem attach_path_exact (before after : result (list string)) (mountPoint : string)
    (mkdir mount : string -> option string) :
  attach_path before after mountPoint mkdir mount =
  match before with
  | Ok ls =>
      match omap is_cgroup2 ls with
      | p :: _ => Ok p
      | [] =>
          match mountCgroup2 mountPoint mkdir mount with
          | Some e => Err ("cgroup2 not mounted and failed to mount manually: " +:+ e)
          | None => detectCgroupPath after
          end
      end
  | Err e => if String.eqb e ErrCgroup2NotMounted
             then attach_path (Ok []) after mountPoint mkdir mount else Err e
  | Panic => Panic
  end.
Proof.
  unfold attach_path. destruct before as [ls|e|]; simpl; [|by destruct (String.eqb e _)|done].
  rewrite scan_mounts_find. by destruct (omap is_cgroup2 ls).
Qed.

(** * The whole of Run *)
Section run.
Context (NewPacket : list Z -> option (option app_layer)).

(** What the kernel holds for the tracer. *)
Inductive resource := RObjects | RLink | RReader.
#[global] Instance resource_eq_dec : EqDecision resource.
Proof. solve_decision. Defined.

(** The outcomes of the calls, in their order: the errors of the libraries', /proc/mounts as it is read
    first and again, and the errors of mkdir and mount. *)
Record environment := MkEnvironment {
  RemoveMemlock : option string;
  LoadSpec : string -> option string;
  loadBpfObjects : option string -> option string; (* of the custom BTF's path *)
  mounts_before : result (list string);
  mounts_after : result (list string);
  mkdir_err : string -> option string;
  mount_err : string -> option string;
  AttachCgroup : string -> option string;
  NewReader : option string
}.
Definition cgroup (env : environment) (mountPoint : string) : result string :=
  attach_path (mounts_before env) (mounts_after env) mountPoint (mkdir_err env) (mount_err env).
Definition custom_btf (path : string) : option string := if String.eqb path "" then None else Some path.

(** The state of the tracer: what the loop did, the error [Run] returned with ([None] while it runs)
    and the resources that are open. *)
Record run_state := MkRun {
  r_tracer : Tracer;
  r_logs : list log_line;
  r_taken : list DNSEvent;
  r_err : option string;
  r_open : list resource
}.

(** A return with an error: the deferred calls close what they are deferred for. *)
Definition returns (t : Tracer) (e : string) (opened deferred : list resource) : run_state :=
  MkRun t [] [] (Some e) (List.filter (λ r, negb (bool_decide (r ∈ deferred))) opened).

Definition Tracer_Run (env : environment) (mountPoint CustomBTFFilePath : string) (t : Tracer)
    (hs : list happening) : run_state :=
  match RemoveMemlock env with
  | Some e => returns t e [] []
  | None =>
  match custom_btf CustomBTFFilePath ≫= LoadSpec env with
  | Some e => returns t e [] []
  | None =>
  match loadBpfObjects env (custom_btf CustomBTFFilePath) with
  | Some e => returns t ("loading objects: " +:+ e) [] []
  | None =>
  match cgroup env mountPoint with
  | Err e => returns t e [RObjects] [RObjects]
  | Panic => returns t "panic" [RObjects] [RObjects]
  | Ok cgroupPath =>
  match AttachCgroup env cgroupPath with
  | Some e => returns t ("attaching cgroup: " +:+ e) [RObjects] [RObjects]
  | None =>
  match NewReader env with
  | Some e => returns t e [RObjects; RLink] [RLink; RObjects]
  | None =>
      let '(t, ls, taken, err) := Run NewPacket t hs in
      match err with
      | Some e => MkRun t ls taken (Some e) (r_open (returns t e [RObjects; RLink; RReader] [RLink; RObjects]))
      | None => MkRun t ls taken None [RObjects; RLink; RReader]
      end
  end end end end end end.

(** The stages of the start, each with the error it ends [Run] with. *)
Definition stages (env : environment) (mountPoint btf : string) : list (option string) :=
  [RemoveMemlock env;
   custom_btf btf ≫= LoadSpec env;
   option_map (λ e, "loading objects: " +:+ e) (loadBpfObjects env (custom_btf btf));
   match cgroup env mountPoint with Ok _ => None | Err e => Some e | Panic => Some "panic" end;
   match cgroup env mountPoint with Ok p => option_map (λ e, "attaching cgroup: " +:+ e) (AttachCgroup env p) | _ => None end;
   NewReader env].

(** C31: The tracer starts all or nothing.  [Run] returns the error of the first stage of its start
    that fails, without having read anything and with nothing left open; if all succeed it behaves as
    its loop, the program is loaded and attached for as long as the loop runs, and after the loop
    returns, with an error or because it was cancelled, neither program nor link is left, but the
    reader is, which nobody closes. *)
Theorem tracer_starts_all_or_nothing (env : environment) (mountPoint btf : string) (t : Tracer) (hs : list happening) :
  let r := Tracer_Run env mountPoint btf t hs in
  match omap id (stages env mountPoint btf) with
  | e :: _ => r_err r = Some e /\ r_open r = [] /\ r_tracer r = t /\ r_logs r = [] /\ r_taken r = []
  | [] => (r_tracer r, r_logs r, r_taken r, r_err r) = Run NewPacket t hs /\
      r_open r = match r_err r with Some _ => [RReader] | None => [RObjects; RLink; RReader] end
  end.
Proof.
  unfold Tracer_Run, stages. destruct (RemoveMemlock env); [done|].
  destruct (custom_btf btf ≫= LoadSpec env); [done|].
  destruct (loadBpfObjects env (custom_btf btf)); [done|]. destruct (cgroup env mountPoint) as [p|e|]; [|done..].
  simpl. destruct (AttachCgroup env p); [done|]. destruct (NewReader env); [done|]. simpl.
  by destruct (Run NewPacket t hs) as [[[t' ls] taken] [e|]].
Qed.
End run.

(** A decoder that takes any payload of five bytes for an answer. *)
Definition toy_packet (data : list Z) : option (option app_layer) :=
  if (length data =? 5)%nat then Some (Some (LayerDNS [] [MkAnswer "a" DNSTypeA (drop 1 data) ""]))
  else Some None.

Lemma queue_keeps_order_witness :
  let '(t', ls, taken, _) := Run toy_packet (MkTracer 1 [])
    [HSample [5; 0; 0; 0; 0; 1; 2; 3; 4]; HSample [5; 0; 0; 0; 0; 1; 2; 3; 5]; HTake; HSample [1]] in
  length taken = 1%nat /\ ls = [QueueFull; TooSmall] /\
  Z.of_nat (length (events t')) <= QueueSize t'.
Proof.
  pose proof (queue_keeps_order toy_packet (MkTracer 1 [])
    [HSample [5; 0; 0; 0; 0; 1; 2; 3; 4]; HSample [5; 0; 0; 0; 0; 1; 2; 3; 5]; HTake; HSample [1]]) as H.
  simpl in *. split_and!; [reflexivity|reflexivity|]. apply H. lia.
Defined.

Definition dns_packet : list Z := 69 :: replicate 8 0 ++ [17] ++ replicate 10 0 ++ [200; 1; 0; 53; 0; 8; 0; 0].

Lemma tracer_decodes_records_witness :
  on_sample toy_packet (NewTracer 0) ([28; 0; 0; 0] ++ [0; 1; 2; 3; 4]) =
    (MkTracer 1000 [MkDNSEvent [] [MkAnswer "a" DNSTypeA [1; 2; 3; 4] ""]], []).
Proof.
  apply (tracer_decodes_records toy_packet LittleEndian ref_kernel (SkBuff 28 2 7 dns_packet)
    "events" (28 * 2 ^ 32 + (2 ^ 32 - 1)) [28; 0; 0; 0] 4 [0; 1; 2; 3; 4] (NewTracer 0)).
  - repeat split; vm_compute; congruence.
  - apply (list_elem_of_lookup_2 _ 0). vm_compute. reflexivity.
Defined.
