(* ===== verification/System.v ===== *)
(** The system: collectors, the way to the exporter, and the export, composed.

    A node of the cluster is a collector with its pod and what befalls the one request an export makes
    to it.  The export's pipeline (ExportPipeline.v) fetches from the nodes through Transport.v, and its
    totals are compared with the metrics the collectors (Collector.v) held. *)
From S2P Require Import Prelude GoBase Conntrack Dns Kube Collector Exporter ExportPipeline Transport Tracer.
From stdpp Require Import base numbers list strings pretty gmap relations.
Local Open Scope string_scope.
Local Open Scope list_scope.
Local Open Scope Z_scope.
Local Open Scope egress_scope.

(** * A cluster *)
Section cluster.
Context `{C : Codec} `{N : Netaddr}.

Record node := MkNode {
  n_pod : collector_pod;
  n_coll : Collector;                 (* the collector when it is asked *)
  n_records : list (Z * string);      (* its names *)
  n_enc : string;                     (* the Accept-Encoding header of the request *)
  n_faults : faults;
  n_now : Z -> Z;
  n_req_err : option string;
  n_do : result (Z * read_body)       (* what the exporter's HTTP client makes of the response *)
}.

Definition node_url (n : node) : string := getCollectorPodMetricsServerURL (n_pod n).1 (n_pod n).2.
Definition served (n : node) : Collector * ResponseWriter :=
  serve (n_coll n) (n_records n) (n_enc n) (n_faults n) (n_now n).

(** What the exporter gets of a node: nothing if it has no URL or the fetch fails. *)
Definition node_fetch (n : node) : option RawNetworkMetricBatch :=
  if decide (node_url n = "") then None
  else match fetchRawNetworkMetricsBatch (node_url n) (n_req_err n) (n_do n) with
       | Ok b => Some b
       | _ => None
       end.

Fixpoint cluster_fetch (ns : list node) (url : string) : option RawNetworkMetricBatch :=
  match ns with
  | [] => None
  | n :: ns => if String.eqb (node_url n) url then node_fetch n else cluster_fetch ns url
  end.

(** ** Totals *)
Definition as_ctr (q : counter) : ctr :=
  match q with
  | KTxBytes => CTxBytes | KTxPackets => CTxPackets
  | KRxBytes => CRxBytes | KRxPackets => CRxPackets
  end.

(** All that a node's metrics count, and that part of it the exporter does not get. *)
Definition node_total (q : counter) (n : node) : Z :=
  msum (λ _ m, mctr (as_ctr q) m) (podMetrics (n_coll n)).
Definition missed (q : counter) (n : node) : Z :=
  match node_fetch n with Some _ => 0 | None => node_total q n end.

Lemma total_message q c records :
  Exporter.total (rctr q) (bItems (message c records)) = msum (λ _ m, mctr (as_ctr q) m) (podMetrics c).
Proof.
  unfold message, msum, Exporter.total. cbn [bItems]. rewrite map_fold_foldr.
  induction (map_to_list (podMetrics c)) as [|[k m] l IH]; [done|].
  simpl. f_equal; [by destruct q|exact IH].
Qed.

(** Nodes that can be asked are told apart by their URLs. *)
Definition distinct_urls (ns : list node) : Prop :=
  NoDup (List.filter (λ u, negb (String.eqb u "")) (map node_url ns)).

Lemma cluster_fetch_node ns n : distinct_urls ns -> n ∈ ns -> node_url n <> "" ->
  cluster_fetch ns (node_url n) = node_fetch n.
Proof.
  unfold distinct_urls. induction ns as [|n0 ns IH]; intros Hd Hin Hu; [by apply elem_of_nil in Hin|].
  simpl in *. destruct (String.eqb_spec (node_url n0) (node_url n)) as [E | E].
  - apply elem_of_cons in Hin as [-> | Hin]; [done|].
    rewrite (proj2 (String.eqb_neq _ _)) in Hd by congruence. simpl in Hd.
    apply NoDup_cons in Hd as [Hn _]. exfalso. apply Hn. rewrite list_elem_of_In, List.filter_In.
    split; [rewrite E; apply in_map, list_elem_of_In, Hin|].
    by rewrite E, (proj2 (String.eqb_neq _ _) Hu).
  - apply elem_of_cons in Hin as [-> | Hin]; [done|]. apply IH; [|done..].
    destruct (negb _); [by apply NoDup_cons in Hd as [_ Hd]|done].
Qed.

Context {HC : CodecSpec C}.

(** What a node gives is all of its metrics, or nothing. *)
Lemma node_fetch_cases n : client_sees (served n).2 (n_do n) ->
  match node_fetch n with
  | Some b => b = message (n_coll n) (n_records n) /\ (served n).1 = answered_state (n_coll n) (n_now n)
  | None => True
  end.
Proof.
  unfold node_fetch. case_decide; [done|]. destruct (served n) as [c' w] eqn:E. intros Hs.
  pose proof (fetch_once _ _ _ _ (node_url n) _ _ _ (n_req_err n) _ E Hs) as H'.
  by destruct (fetchRawNetworkMetricsBatch _ _ _).
Qed.
End cluster.

(** * Export totals *)
Section totals.
Context {C : Codec} {HC : CodecSpec C} {N : Netaddr} {HN : NetaddrSpec N} `{CI : ExpiringCache Z string}
  `{W : kubeWatcher} {HW : kubeWatcherSpec W}.

(** The items the pipeline is answered, node by node. *)
Definition node_items (n : node) : list RawNetworkMetric := from_option bItems [] (node_fetch n).

Lemma answered_nodes ns : distinct_urls ns ->
  answered (cluster_fetch ns) (map n_pod ns) = concat (map node_items ns).
Proof.
  intros Hd. unfold answered, collector_urls. rewrite !map_map. f_equal. apply map_ext_in. intros n Hn.
  apply list_elem_of_In in Hn. fold (node_url n). unfold node_items. case_decide as Hu.
  - unfold node_fetch. by rewrite decide_True.
  - by rewrite cluster_fetch_node.
Qed.

Lemma node_balance q n : client_sees (served n).2 (n_do n) ->
  node_total q n = Exporter.total (rctr q) (node_items n) + missed q n.
Proof.
  intros Hs. unfold missed, node_items. pose proof (node_fetch_cases n Hs) as Hc.
  destruct (node_fetch n) as [b|]; [|done]. destruct Hc as [-> _].
  cbv [from_option]. rewrite total_message.
  unfold node_total. lia.
Qed.

Lemma nodes_balance q ns : Forall (λ n, client_sees (served n).2 (n_do n)) ns ->
  Exporter.total (node_total q) ns =
  Exporter.total (rctr q) (concat (map node_items ns)) + Exporter.total (missed q) ns.
Proof.
  induction 1 as [|n ns Hn _ IH]; [done|]. simpl. rewrite Exporter.total_app, IH.
  rewrite (node_balance q n Hn). lia.
Qed.

Lemma message_signed c records : typed c -> Forall (λ raw, is_signed 32 (rDstIp raw)) (bItems (message c records)).
Proof.
  intros Ht. rewrite Forall_forall. intros raw Hin. apply list_elem_of_fmap in Hin as (m & -> & Hin).
  apply list_elem_of_fmap in Hin as ([g m'] & -> & Hin). apply elem_of_map_to_list in Hin.
  by destruct (Ht _ _ Hin) as (_ & Hd & _).
Qed.

Lemma node_items_signed n : client_sees (served n).2 (n_do n) -> typed (n_coll n) ->
  Forall (λ raw, is_signed 32 (rDstIp raw)) (node_items n).
Proof.
  intros Hs Ht. unfold node_items. pose proof (node_fetch_cases n Hs) as Hc.
  destruct (node_fetch n) as [b|]; [|by constructor]. destruct Hc as [-> _].
  by apply message_signed.
Qed.

(** C9: No traffic is lost between the collectors' metrics and the sinks without a trace.  Let an
    export ask the collectors of a cluster, whatever fails in them and on the way, and let its pipeline
    run until it ends, in any interleaving.  For every counter, all that the collectors' metrics
    held is what the batch given to every sink carries, plus what the log reports as skipped, plus what
    the collectors held whose fetch failed; a collector that sends deltas and was fetched from has
    nothing pending; and the export succeeds whichever sinks fail. *)
Theorem cluster_export_accounts (limit : nat) (w : watcher) (d : cache Z string) (ns : list node)
    (s : pstate) (arrivals : list (Z * RawNetworkMetricBatch))
    (sinks : list (list PodNetworkMetric -> option string)) (q : counter)
    (Hns : ns <> []) (Hurls : distinct_urls ns)
    (Hsees : Forall (λ n, client_sees (served n).2 (n_do n)) ns) (Htyped : Forall (λ n, typed (n_coll n)) ns)
    (Hrun : rtc (ExportPipeline.step limit (cluster_fetch ns)) (pinit (collector_urls (map n_pod ns))) s)
    (Hdone : range_done s = true) (Harr : arrivals.*2 = received s) :
  let x := export w d (Ok (map n_pod ns)) arrivals sinks in
  exists batch,
    x_pushed x = replicate (length sinks) batch /\
    Exporter.total (node_total q) ns =
      Exporter.total (pctr q) batch + Exporter.total (lctr q) (x_logs x) + Exporter.total (missed q) ns /\
    (forall n g, n ∈ ns -> node_fetch n <> None -> SendTrafficDelta (cfg (n_coll n)) = true ->
       pending (served n).1 g (as_ctr q) = 0) /\
    x_sink_errors x = omap (λ sink, sink batch) sinks /\ x_result x = Ok tt.
Proof.
  assert (Hpods : map n_pod ns <> []) by (by destruct ns).
  destruct (export_accounts limit (cluster_fetch ns) w d (map n_pod ns) s arrivals sinks q Hpods Hrun
    Hdone Harr) as (batch & H1 & H2 & H3 & H4).
  { rewrite answered_nodes by done. clear - Hsees Htyped HC. induction ns as [|n ns IH]; [by constructor|].
    inversion Hsees; inversion Htyped; subst. simpl. apply Forall_app. split; [|by apply IH].
    by apply node_items_signed. }
  exists batch. rewrite answered_nodes in H2 by done. split_and!; [done| | |done|done].
  - rewrite (nodes_balance q ns Hsees), H2. lia.
  - intros n g Hn Hf Hd. rewrite Forall_forall in Hsees. pose proof (node_fetch_cases n (Hsees n Hn)) as Hc.
    destruct (node_fetch n); [|done]. destruct Hc as [_ ->]. by apply answered_state_pending.
Qed.
End totals.

(** * Names *)
Section names.
Context (C : Codec) (HC : CodecSpec C) (N : Netaddr) (HN : NetaddrSpec N)
  (CI : ExpiringCache Z string) (HI : ExpiringCacheSpec CI)
  (CS : ExpiringCache string string) (HS : ExpiringCacheSpec CS) (W : kubeWatcher).

(** The aggregation changes the exporter's names only by filling them from the batch. *)
Lemma agg_metrics_dns now (items : list RawNetworkMetric) (a : aggregation) :
  agg_dns (fold_left (agg_metric now) items a) = agg_dns a.
Proof.
  revert a. induction items as [|raw items IH]; intros a; [done|]. simpl. rewrite IH.
  unfold agg_metric. destruct (crashed a); [done|].
  by destruct (buildPodNetworkMetric now (agg_watcher a) (agg_dns a) raw) as [w [m|e|]].
Qed.

Lemma agg_batch_dns (a : aggregation) now b : agg_dns (agg_batch a (now, b)) = Fill now (agg_dns a) (bIp2Domain b).
Proof. unfold agg_batch. by rewrite agg_metrics_dns. Qed.

(** A metric with a public destination has the name the storage has for it. *)
Lemma built_dns_name now (w w' : watcher) (d : cache Z string) raw m :
  is_signed 32 (rDstIp raw) -> IsPrivate (ipFromInt32 (rDstIp raw)) = false ->
  buildPodNetworkMetric now w d raw = (w', Built m) -> DstDnsName m = Dns.Lookup now d (rDstIp raw).
Proof.
  intros Hs Hp. unfold buildPodNetworkMetric. destruct (GetPodByIP w _) as [w1 [pod|e|]]; [|done..].
  destruct (tolerate _ _) as [o|[e|]]; [|done..]. rewrite Hp, ToIPint32_ipFromInt32 by done.
  by intros [= _ <-].
Qed.

(** The events of a queue, handled in order at one time. *)
Definition handle_events (now : Z) (d : IP2DNS) (evs : list DNSEvent) : result IP2DNS :=
  foldr_result (λ d ev, handle_event now d (Answers ev)) d evs.


(** C12: A DNS answer names the traffic, from the packet to the metric.  A record of the kernel whose
    packet says "[c] is an alias of [n]" (CNAME) and "[c] has this address" enters the tracer's queue
    while there is room; when the collector has handled the queue, a request within two minutes that
    gets through to the exporter, and an aggregation within an hour of that batch, give every metric
    whose destination is this address, if public and not 0.0.0.0, the name [n] that was asked for. *)
Theorem packet_names_metric (NewPacket : list Z -> option (option app_layer)) (tr : Tracer)
    (header packet : list Z) (qs : list string) (n c : string) (bs i : list Z) (t0 t1 t2 t3 : Z)
    (d d' : IP2DNS) (nd : node) (b : RawNetworkMetricBatch) (a : aggregation) (raw : RawNetworkMetric)
    (w w' : watcher) (m : PodNetworkMetric)
    (Hheader : length header = 4%nat)
    (Hpacket : NewPacket packet = Some (Some (LayerDNS qs
       [MkAnswer n DNSTypeCNAME [] c; MkAnswer c DNSTypeA bs ""])))
    (Haddr : As4 (FromStdIP bs) = Some i) (Hnonzero : swrap 32 (be_combine i) <> 0)
    (Hroom : Z.of_nat (length (events tr)) < QueueSize tr)
    (Ht1 : t0 <= t1 < t0 + collectorDNSTTL) (Ht3 : t2 <= t3 < t2 + exporterDNSTTL)
    (Hhandled : handle_events t0 d (events (on_sample NewPacket tr (header ++ packet)).1) = Ok d')
    (Hrecords : n_records nd = Records t1 d')
    (Hsees : client_sees (served nd).2 (n_do nd)) (Hfetch : node_fetch nd = Some b)
    (Hraw : rDstIp raw = swrap 32 (be_combine i)) (Hpublic : IsPrivate (ipFromInt32 (rDstIp raw)) = false)
    (Hbuilt : buildPodNetworkMetric t3 w (agg_dns (agg_batch a (t2, b))) raw = (w', Built m)) :
  DstDnsName m = n.
Proof.
  assert (Hev : events (on_sample NewPacket tr (header ++ packet)).1 =
    events tr ++ [MkDNSEvent qs [MkAnswer n DNSTypeCNAME [] c; MkAnswer c DNSTypeA bs ""]]).
  { unfold on_sample. rewrite length_app, Hheader. rewrite (proj2 (Z.ltb_ge _ _)) by lia.
    rewrite drop_app_length' by done. unfold parseEvent. rewrite Hpacket.
    by rewrite (proj2 (Z.ltb_lt _ _) Hroom). }
  rewrite Hev in Hhandled. unfold handle_events in Hhandled. rewrite foldr_result_app in Hhandled.
  apply rbind_ok in Hhandled as (d1 & _ & Hd2). cbn [foldr_result Answers] in Hd2.
  destruct (handle_alias N CI CS t0 d1 n c bs i Haddr) as (d2 & Hd & Hname).
  rewrite Hd in Hd2. injection Hd2 as ->.
  pose proof (node_fetch_cases nd Hsees) as Hc. rewrite Hfetch in Hc. destruct Hc as [-> _].
  rewrite agg_batch_dns in Hbuilt. cbn [message bIp2Domain] in Hbuilt. rewrite Hrecords in Hbuilt.
  erewrite built_dns_name; [| |exact Hpublic|exact Hbuilt].
  - rewrite Hraw. apply (Fill_Records CI CS); [by apply Hname|done|done].
  - rewrite Hraw. by apply swrap_signed.
Qed.
End names.

(** * A small cluster *)
#[local] Existing Instance ref_codec.
#[local] Existing Instance ref_netaddr.
#[local] Existing Instance ref_cache.

(** One node whose job pod talks to a node of the cluster and to the address 93.184.216.34, and one
    whose fetch times out. *)
Definition n1_metrics : gmap Z rawNetworkMetric :=
  {[ 1 := MkMetric (int32_of 10 4 0 8) (int32_of 10 0 0 1) 100 2 50 1 6 0 ]}.
Definition coll_of (ms : gmap Z rawNetworkMetric) : Collector :=
  MkCollector (Collector.MkConfig Second Second "" false true) [] ∅ ms true.
Definition n1_names : list (Z * string) := [(int32_of 93 184 216 34, "example.com")].
Definition n1_batch : RawNetworkMetricBatch := message (coll_of n1_metrics) n1_names.
Definition n1 : node :=
  MkNode collector1 (coll_of n1_metrics) n1_names "gzip" (MkFaults None None None) (λ _, 0) None
    (Ok (200, (default [] (marshal n1_batch), None))).
Definition n2 : node :=
  MkNode ("10.0.0.2", [[MkPort "http-server" 6060]]) (coll_of {[ 7 := MkMetric 1 2 30 1 0 0 6 0 ]}) [] "gzip"
    (MkFaults None None None) (λ _, 0) None (Err "timeout").
Definition n_last : pstate := PState PClosed [] [] true [n1_batch] true false.

Lemma n1_fetch : cluster_fetch [n1; n2] "http://10.0.0.1:6060" = Some n1_batch.
Proof. vm_compute. reflexivity. Qed.

Lemma n_run : rtc (ExportPipeline.step 2 (cluster_fetch [n1; n2])) (pinit (collector_urls (map n_pod [n1; n2]))) n_last.
Proof.
  change (collector_urls (map n_pod [n1; n2])) with ["http://10.0.0.1:6060"; "http://10.0.0.2:6060"].
  eapply rtc_l; [by apply s_next|]. eapply rtc_l; [apply s_go; simpl; lia|].
  eapply rtc_l; [by apply s_next|]. eapply rtc_l; [apply s_go; simpl; lia|].
  eapply rtc_l; [apply (s_fetched _ _ _ [] _ n1_batch [WFetching "http://10.0.0.2:6060"]); [exact n1_fetch|]|].
  { vm_compute. congruence. }
  eapply rtc_l; [apply (s_failed _ _ _ [WSending n1_batch] _ []); left; vm_compute; reflexivity|].
  eapply rtc_l; [apply (s_send _ _ _ [] _ []); simpl; lia|].
  eapply rtc_l; [apply s_wait|]. eapply rtc_l; [apply s_close|].
  eapply rtc_l; [apply s_receive|]. eapply rtc_l; [apply s_range_done|]. apply rtc_refl.
Qed.

Lemma singleton_typed k m : metric_typed m -> typed (coll_of {[ k := m ]}).
Proof. intros Hm g m'. cbn [coll_of podMetrics]. intros [_ <-]%lookup_singleton_Some. exact Hm. Qed.

Notation export_small := (export (N := ref_netaddr) (CI := ref_cache Z string) (W := kube_caches) cluster ∅
  (Ok (map n_pod [n1; n2])) [(0%Z, n1_batch)] [λ _, None; λ _, Some "unreachable"]).

Lemma cluster_export_accounts_witness : exists batch,
  x_pushed export_small = [batch; batch] /\ x_sink_errors export_small = ["unreachable"] /\
  Exporter.total (node_total KTxBytes) [n1; n2] = 130 /\ Exporter.total (missed KTxBytes) [n1; n2] = 30 /\
  Exporter.total (node_total KTxBytes) [n1; n2] = Exporter.total (pctr KTxBytes) batch +
    Exporter.total (lctr KTxBytes) (x_logs export_small) + Exporter.total (missed KTxBytes) [n1; n2].
Proof.
  destruct (cluster_export_accounts (HC := ref_codec_spec) (HN := ref_netaddr_spec) (CI := ref_cache Z string)
    (HW := kube_caches_spec (IndexerSpec0 := mem_pods_spec) (IndexerSpec1 := mem_indexer_spec _ _)
             (IndexerSpec2 := mem_indexer_spec _ _))
    2 cluster ∅ [n1; n2] n_last [(0%Z, n1_batch)] [λ _, None; λ _, Some "unreachable"] KTxBytes)
    as (batch & H1 & H2 & _ & H4 & _).
  - discriminate.
  - vm_compute. repeat constructor; rewrite ?elem_of_cons, ?elem_of_nil; naive_solver.
  - repeat constructor.
  - apply List.Forall_cons; [|apply List.Forall_cons; [|apply List.Forall_nil]];
      apply singleton_typed; repeat split; intros; try destruct q; vm_compute; congruence.
  - exact n_run.
  - reflexivity.
  - reflexivity.
  - exists batch. split_and!; [exact H1|exact H4|vm_compute; reflexivity|vm_compute; reflexivity|exact H2].
Defined.

(** A packet that says "cdn.net is an alias of example.com and has the address 93.184.216.34". *)
Definition alias_packet (data : list Z) : option (option app_layer) :=
  Some (Some (LayerDNS [] [MkAnswer "example.com" DNSTypeCNAME [] "cdn.net";
                           MkAnswer "cdn.net" DNSTypeA [93; 184; 216; 34] ""])).
Definition alias_dns : IP2DNS :=
  match handle_events ref_netaddr (ref_cache Z string) (ref_cache string string) 0 NewIP2DNS
          (events (on_sample alias_packet (NewTracer 0) [1; 0; 0; 0; 69]).1) with
  | Ok d => d
  | _ => NewIP2DNS
  end.
Definition n3_metrics : gmap Z rawNetworkMetric :=
  {[ 1 := MkMetric (int32_of 10 4 0 7) (int32_of 93 184 216 34) 9 1 8 1 17 0 ]}.
Definition n3_batch : RawNetworkMetricBatch := message (coll_of n3_metrics) (Records Second alias_dns).
Definition n3 : node :=
  MkNode collector1 (coll_of n3_metrics) (Records Second alias_dns) "gzip" (MkFaults None None None) (λ _, 0)
    None (Ok (200, (default [] (marshal n3_batch), None))).
Definition agg0 : aggregation (W := kube_caches) := MkAggregation (W := kube_caches) cluster ∅ [] [] false.
Definition built_public : watcher * built :=
  buildPodNetworkMetric (W := kube_caches) Minute cluster (agg_dns (agg_batch agg0 (Second, n3_batch))) to_public.

Definition public_metric : PodNetworkMetric :=
  MkPodMetric "10.4.0.7" "web-0" "default" "n1" "z1" "93.184.216.34" "" "" "" "" 9 1 8 1 17 "example.com".

Lemma built_public_metric : built_public = (built_public.1, Built public_metric).
Proof.
  assert (built_public.2 = Built public_metric) as <- by (vm_compute; reflexivity).
  apply surjective_pairing.
Qed.

Lemma packet_names_metric_witness : DstDnsName public_metric = "example.com".
Proof.
  apply (packet_names_metric ref_codec ref_codec_spec ref_netaddr ref_netaddr_spec (ref_cache Z string)
    (ref_cache_spec Z string) (ref_cache string string) (ref_cache_spec string string) kube_caches
    alias_packet (NewTracer 0) [1; 0; 0; 0] [69] [] "example.com" "cdn.net" [93; 184; 216; 34]
    [93; 184; 216; 34] 0 Second Second Minute NewIP2DNS alias_dns n3 n3_batch agg0 to_public cluster
    built_public.1 public_metric).
  - reflexivity.
  - reflexivity.
  - reflexivity.
  - vm_compute. congruence.
  - vm_compute. reflexivity.
  - vm_compute. split; congruence.
  - vm_compute. split; congruence.
  - vm_compute. reflexivity.
  - reflexivity.
  - vm_compute. split_and!; reflexivity.
  - vm_compute. reflexivity.
  - vm_compute. reflexivity.
  - vm_compute. reflexivity.
  - exact built_public_metric.
Defined.
