(* ===== verification/Lifetime.v ===== *)
(** The system over its lifetime: collectors that collect, clean up and answer, and an exporter that
    fetches from them and exports, again and again, with every loss on the way.

    A step of the cluster is a step of one collector (Collector.v), one fetch from one collector with
    its faults (Transport.v), a change of the exporter's caches, or the end of an export, which
    aggregates what was fetched since the last one (Exporter.v); collectors act while an export is under
    way.  Beside the state a ledger is kept: the snapshots of metrics each collector answered with, those
    the exporter got and those it did not, with the cause, and what was exported and logged. *)
From S2P Require Import Prelude GoBase Conntrack Dns Kube Collector Exporter ExportPipeline Transport System.
From stdpp Require Import base numbers list strings gmap relations.
Local Open Scope string_scope.
Local Open Scope list_scope.
Local Open Scope Z_scope.
Local Open Scope egress_scope.

(** * Sums *)
Lemma total_insert {A} (f : A -> Z) l i x y : l !! i = Some x ->
  Exporter.total f (<[i := y]> l) = Exporter.total f l - f x + f y.
Proof.
  revert i. induction l as [|a l IH]; intros [|i]; simpl; [done..| |].
  - intros [= ->]. lia.
  - intros H. rewrite (IH i H). lia.
Qed.

Section lifetime.
Context {C : Codec} {HC : CodecSpec C} {N : Netaddr} {HN : NetaddrSpec N} `{CI : ExpiringCache Z string}
  `{W : kubeWatcher} {HW : kubeWatcherSpec W}.
Context (entryGroupHash conntrackEntryHash : list Z -> Z).
Notation step := (Collector.step entryGroupHash conntrackEntryHash).
Notation served := Collector.served.

(** * The state *)
(** Why an answer a collector took to be given did not reach the exporter: somebody else had asked, the
    compressor could not be closed, or the exporter's client failed. *)
Inductive cause := OtherClient | CloseFailed | ClientFailed (err : string) | Unexplained.

Record member := MkMember {
  m_coll : Collector;
  m_acc : accounts;
  m_got : list (gmap Z rawNetworkMetric);           (* the answers the exporter got, fetch by fetch *)
  m_lost : list (cause * gmap Z rawNetworkMetric)   (* the answers it did not get *)
}.

Record cluster := MkCluster {
  members : list member;
  l_watcher : watcher;
  l_dns : cache Z string;
  inbox : list RawNetworkMetricBatch;      (* fetched and not yet aggregated *)
  exported_total : counter -> Z;           (* in the batches given to the sinks *)
  logged_total : counter -> Z              (* in the metrics the log reports as skipped *)
}.

(** A group's and the total traffic of snapshots. *)
Definition in_snapshot (g : Z) (q : ctr) (ms : gmap Z rawNetworkMetric) : Z :=
  match ms !! g with Some x => mctr q x | None => 0 end.
Definition got (m : member) (g : Z) (q : ctr) : Z := Exporter.total (in_snapshot g q) (m_got m).
Definition lost (m : member) (g : Z) (q : ctr) : Z := Exporter.total (λ l, in_snapshot g q l.2) (m_lost m).
Definition got_total (q : counter) (m : member) : Z :=
  Exporter.total (λ ms, msum (λ _ x, mctr (as_ctr q) x) ms) (m_got m).

(** * Steps *)

(** A collection or a cleanup. *)
Definition worked (m : member) (c' : Collector) (a' : accounts) : member :=
  MkMember c' a' (m_got m) (m_lost m).

(** A request of anyone but the exporter: what it is answered with is lost to the exporter. *)
Definition asked (m : member) (c' : Collector) (resp : response) : member :=
  MkMember c' (served (m_coll m) resp (m_acc m)) (m_got m)
    (m_lost m ++ match resp with Body _ _ => [(OtherClient, podMetrics (m_coll m))] | _ => [] end).

(** What the fetch shows of why an answer did not arrive. *)
Definition cause_of (f : faults) (Do : result (Z * read_body)) : cause :=
  match Do with
  | Err e | Ok (_, (_, Some e)) => ClientFailed e
  | _ => if f_close f is Some _ then CloseFailed else Unexplained
  end.

(** A request of the exporter that left the collector in [c'], which took it to be answered or not, and
    gave the exporter [r]. *)
Definition fetched_from (m : member) (c' : Collector) (answered : bool) (why : cause)
    (r : result RawNetworkMetricBatch) : member :=
  let snapshot := podMetrics (m_coll m) in
  if answered then
    MkMember c' (served (m_coll m) (Body [] []) (m_acc m))
      (m_got m ++ match r with Ok _ => [snapshot] | _ => [] end)
      (m_lost m ++ match r with Ok _ => [] | _ => [(why, snapshot)] end)
  else MkMember c' (m_acc m) (m_got m) (m_lost m).

(** What goes on to the aggregation: a batch without metrics is dropped, its names included. *)
Definition delivered (r : result RawNetworkMetricBatch) : list RawNetworkMetricBatch :=
  match r with Ok b => if bItems b is [] then [] else [b] | _ => [] end.

Definition set_member (k : cluster) (i : nat) (m : member) (fetched : list RawNetworkMetricBatch) : cluster :=
  MkCluster (<[i := m]> (members k)) (l_watcher k) (l_dns k) (inbox k ++ fetched) (exported_total k)
    (logged_total k).

Inductive cstep : cluster -> cluster -> Prop :=
| l_collect k i m watcher LE c' pods ips conns :
    members k !! i = Some m -> getNodePods (m_coll m) watcher = Ok pods -> getPodIPs pods = Ok ips ->
    LE (FilterBySrcIP ips) = Ok conns -> collect entryGroupHash conntrackEntryHash (m_coll m) watcher LE = Ok c' ->
    cstep k (set_member k i (worked m c' (collected entryGroupHash conntrackEntryHash (m_coll m) conns (m_acc m))) [])
| l_cleanup k i m now :
    members k !! i = Some m ->
    cstep k (set_member k i (worked m (cleanup (m_coll m) now) (cleaned (m_coll m) now (m_acc m))) [])
| l_other k i m records mok wok now c' resp :
    members k !! i = Some m -> GetRawNetworkMetricsHandler (m_coll m) records mok wok now = (c', resp) ->
    cstep k (set_member k i (asked m c' resp) [])
| l_fetch k i m records enc f now url c' w Do :
    members k !! i = Some m -> serve (m_coll m) records enc f now = (c', w) -> client_sees w Do ->
    let r := fetchRawNetworkMetricsBatch url None Do in
    cstep k (set_member k i
      (fetched_from m c' (answers (m_coll m) records enc f) (cause_of f Do) r) (delivered r))
| l_refresh k w :
    cstep k (MkCluster (members k) w (l_dns k) (inbox k) (exported_total k) (logged_total k))
| l_export k arrivals :
    arrivals.*2 ≡ₚ inbox k ->
    let a := aggregate (l_watcher k) (l_dns k) arrivals in
    cstep k (MkCluster (members k) (agg_watcher a) (agg_dns a) []
      (λ q, exported_total k q + Exporter.total (pctr q) (podsMetrics a))
      (λ q, logged_total k q + Exporter.total (lctr q) (logs a))).

Definition new_member (c : Collector) : member := MkMember c no_accounts [] [].
Definition launch (cs : list Collector) (w : watcher) (d : cache Z string) : cluster :=
  MkCluster (map new_member cs) w d [] (λ _, 0) (λ _, 0).

(** * The invariant *)

Definition sends_delta (m : member) : bool := SendTrafficDelta (cfg (m_coll m)).

Definition member_ok (m : member) : Prop :=
  balanced (m_coll m, m_acc m) /\ typed (m_coll m) /\
  (forall g q, sent (m_acc m) g q = if sends_delta m then got m g q + lost m g q else 0) /\
  Forall (λ l, l.1 <> Unexplained) (m_lost m).

Definition in_inbox (k : cluster) (q : counter) : Z :=
  Exporter.total (λ b, Exporter.total (rctr q) (bItems b)) (inbox k).

Definition cluster_ok (k : cluster) : Prop :=
  Forall member_ok (members k) /\
  Forall (λ b, Forall (λ raw, is_signed 32 (rDstIp raw)) (bItems b)) (inbox k) /\
  forall q, exported_total k q + logged_total k q + in_inbox k q = Exporter.total (got_total q) (members k).

(** ** Collectors *)

Lemma worked_ok m c' a' : step (m_coll m, m_acc m) (c', a') -> sent a' = sent (m_acc m) ->
  member_ok m -> member_ok (worked m c' a').
Proof.
  intros Hs Hsame (Hb & Ht & Hsent & Hl). pose proof (step_cfg _ _ _ _ Hs) as Hc. split_and!; cbn [worked m_coll m_acc].
  - by eapply balanced_step.
  - exact (typed_step _ _ _ _ Hs Ht).
  - intros g q. unfold sends_delta. cbn [worked m_coll]. cbn [fst] in Hc. rewrite Hc, Hsame. apply Hsent.
  - exact Hl.
Qed.

(** Snapshots added to the ledger. *)
Lemma in_snapshot_pending c g q : in_snapshot g q (podMetrics c) = pending c g q.
Proof. done. Qed.

(** A request that was answered, with its answer in one of the two lists. *)
Lemma answered_ok m now items recs gs ls : member_ok m ->
  (forall g q, Exporter.total (in_snapshot g q) gs + Exporter.total (λ l, in_snapshot g q l.2) ls =
     pending (m_coll m) g q) -> Forall (λ l, l.1 <> Unexplained) ls ->
  member_ok (MkMember (answered_state (m_coll m) now) (served (m_coll m) (Body items recs) (m_acc m))
    (m_got m ++ gs) (m_lost m ++ ls)).
Proof.
  intros (Hb & Ht & Hsent & Hl) Hnew Hls.
  assert (Hs : step (m_coll m, m_acc m)
    (answered_state (m_coll m) now, served (m_coll m) (Body items recs) (m_acc m))).
  { eapply (step_serve _ _ _ _ [] true true now _ (Body (map_to_list (podMetrics (m_coll m))).*2 [])).
    unfold answered_state, GetRawNetworkMetricsHandler. cbn [negb]. by destruct (SendTrafficDelta (cfg (m_coll m))). }
  pose proof (step_cfg _ _ _ _ Hs) as Hc. cbn [fst] in Hc. split_and!; cbn [m_coll m_acc m_lost].
  - by eapply balanced_step.
  - exact (typed_step _ _ _ _ Hs Ht).
  - intros g q. unfold sends_delta, got, lost, served in *. cbn [m_coll m_got m_lost]. rewrite Hc.
    specialize (Hsent g q). specialize (Hnew g q). rewrite !Exporter.total_app.
    destruct (SendTrafficDelta (cfg (m_coll m))); cbn [sent]; [lia|done].
  - by apply Forall_app.
Qed.

Lemma asked_ok m records mok wok now c' resp :
  GetRawNetworkMetricsHandler (m_coll m) records mok wok now = (c', resp) -> member_ok m ->
  member_ok (asked m c' resp).
Proof.
  intros Hh Hm. destruct (mok && wok) eqn:E.
  - apply andb_true_iff in E as [-> ->].
    assert (c' = answered_state (m_coll m) now /\ exists items recs, resp = Body items recs) as (-> & items & recs & ->).
    { rewrite <- (handler_ok _ records), Hh. split; [done|]. revert Hh. unfold GetRawNetworkMetricsHandler. cbn [negb].
      case_match; intros [= _ <-]; eauto. }
    pose proof (answered_ok m now items recs [] [(OtherClient, podMetrics (m_coll m))] Hm) as H.
    rewrite app_nil_r in H. apply H; [|by repeat constructor].
    intros g q. simpl. rewrite in_snapshot_pending. lia.
  - assert (asked m c' resp = m) as ->; [|done].
    revert Hh. unfold GetRawNetworkMetricsHandler, asked. destruct m as [c a gs ls].
    destruct mok, wok; try done; intros [= <- <-]; cbn [m_coll m_acc m_got m_lost served]; by rewrite app_nil_r.
Qed.

Lemma fetched_ok m records enc f now url c' w Do :
  serve (m_coll m) records enc f now = (c', w) -> client_sees w Do -> member_ok m ->
  member_ok (fetched_from m c' (answers (m_coll m) records enc f) (cause_of f Do)
    (fetchRawNetworkMetricsBatch url None Do)).
Proof.
  intros Hserve Hsees Hm. pose proof (serve_answers _ _ _ _ _ _ _ Hserve) as Hans.
  pose proof (answered_arrives _ _ _ _ url _ _ _ _ Hserve Hsees) as Harr. unfold fetched_from.
  destruct (answers (m_coll m) records enc f); [|by destruct Hans as [-> _], m].
  destruct Hans as [-> _]. specialize (Harr eq_refl).
  destruct (fetchRawNetworkMetricsBatch url None Do) as [b|e|]; [| |done];
    (apply answered_ok; [done|intros g q; simpl; rewrite in_snapshot_pending; lia|]); [by constructor|].
  constructor; [|by constructor]. cbn [fst]. unfold cause_of.
  destruct Do as [[st [body [e'|]]]|e'|]; [done| |done|done].
  destruct Harr as [Hc|[[e' [=]]|(? & ? & ? & [=])]]. by destruct (f_close f).
Qed.

(** ** The cluster *)

Lemma total_delivered q (b : RawNetworkMetricBatch) :
  Exporter.total (λ b, Exporter.total (rctr q) (bItems b)) (delivered (Ok b)) = Exporter.total (rctr q) (bItems b).
Proof. unfold delivered. destruct (bItems b) eqn:E; [done|]. cbn -[Z.add]. by rewrite E, Z.add_0_r. Qed.

Lemma delivered_signed b : Forall (λ raw, is_signed 32 (rDstIp raw)) (bItems b) ->
  Forall (λ b, Forall (λ raw, is_signed 32 (rDstIp raw)) (bItems b)) (delivered (Ok b)).
Proof. intros H. unfold delivered. destruct (bItems b) eqn:E; [by constructor|]. constructor; [by rewrite E|by constructor]. Qed.

Lemma fetched_total m c' answered why r q :
  match r with Ok b => answered = true /\ exists records, b = message (m_coll m) records | _ => True end ->
  got_total q (fetched_from m c' answered why r) =
  got_total q m + Exporter.total (λ b, Exporter.total (rctr q) (bItems b)) (delivered r).
Proof.
  unfold got_total, fetched_from. destruct answered; cbn [m_got].
  2: { destruct r; [by intros [? _]|intros _; simpl; lia..]. }
  rewrite Exporter.total_app. f_equal. destruct r as [b|e|]; [|done..]. intros (_ & records & ->).
  rewrite total_delivered. cbn -[message Z.add]. by rewrite total_message, Z.add_0_r.
Qed.

Lemma total_concat {A} (f : A -> Z) (ls : list (list A)) :
  Exporter.total f (concat ls) = Exporter.total (λ l, Exporter.total f l) ls.
Proof. induction ls as [|l ls IH]; simpl; [done|]. by rewrite Exporter.total_app, IH. Qed.

Lemma total_map {A B} (f : B -> Z) (h : A -> B) l : Exporter.total f (map h l) = Exporter.total (λ a, f (h a)) l.
Proof. induction l as [|a l IH]; simpl; [done|]. by rewrite IH. Qed.

Lemma set_member_ok k i m m' bs : members k !! i = Some m -> cluster_ok k -> member_ok m' ->
  Forall (λ b, Forall (λ raw, is_signed 32 (rDstIp raw)) (bItems b)) bs ->
  (forall q, got_total q m' = got_total q m + Exporter.total (λ b, Exporter.total (rctr q) (bItems b)) bs) ->
  cluster_ok (set_member k i m' bs).
Proof.
  intros Hi (Hm & Hin & Ht) Hok Hbs Hgot. split_and!; cbn [set_member members inbox exported_total logged_total].
  - by apply Forall_insert.
  - by apply Forall_app.
  - intros q. rewrite (total_insert _ _ _ _ _ Hi), Hgot, <- Ht. unfold in_inbox. cbn [set_member inbox].
    rewrite Exporter.total_app. lia.
Qed.

(** The end of an export exports or logs all of the inbox. *)
Lemma export_ok k arrivals : arrivals.*2 ≡ₚ inbox k -> cluster_ok k ->
  let a := aggregate (l_watcher k) (l_dns k) arrivals in
  crashed a = false /\
  forall q, Exporter.total (pctr q) (podsMetrics a) + Exporter.total (lctr q) (logs a) = in_inbox k q.
Proof.
  intros Harr (_ & Hin & _). cbv zeta.
  assert (Hs : Forall (λ raw, is_signed 32 (rDstIp raw)) (concat (map (λ b, bItems b.2) arrivals))).
  { rewrite <- map_map. change (map snd arrivals) with (arrivals.*2). rewrite Harr.
    apply Forall_concat, Forall_map. exact Hin. }
  split; [by destruct (aggregate_accounts (l_watcher k) (l_dns k) arrivals KTxBytes Hs)|].
  intros q. destruct (aggregate_accounts (l_watcher k) (l_dns k) arrivals q Hs) as [_ <-].
  rewrite total_concat, total_map. unfold in_inbox.
  rewrite <- (total_map (λ b, Exporter.total (rctr q) (bItems b)) snd). apply total_perm.
  exact Harr.
Qed.

(** The exporter gets something only of a request the collector took to be answered. *)
Lemma got_answered c records enc f now url c' w Do :
  serve c records enc f now = (c', w) -> client_sees w Do ->
  match fetchRawNetworkMetricsBatch url None Do with
  | Ok b => answers c records enc f = true /\ b = message c records
  | _ => True
  end.
Proof.
  intros Hserve Hsees. pose proof (serve_answers _ _ _ _ _ _ _ Hserve) as Hans.
  pose proof (fetch_once _ _ _ _ url _ _ _ None _ Hserve Hsees) as Honce.
  destruct (answers c records enc f); [by destruct (fetchRawNetworkMetricsBatch url None Do); destruct Honce|].
  destruct Hans as [_ Hr]. by destruct (refused_fetch url None w Do Hr Hsees) as [e ->].
Qed.

Lemma cstep_ok k k' : cstep k k' -> cluster_ok k -> cluster_ok k'.
Proof.
  destruct 1 as [k i m watcher LE c' pods ips conns Hi Hp Hips HL Hc|k i m now Hi
    |k i m records mok wok now c' resp Hi Hh|k i m records enc f now url c' w Do Hi Hserve Hsees r
    |k w|k arrivals Harr a]; intros Hk; pose proof Hk as (Hm & Hin & Ht);
    try pose proof (Forall_lookup_1 _ _ _ _ Hm Hi) as Hmi.
  1-3: eapply set_member_ok; [done|done| |by constructor|intros q; by rewrite Z.add_0_r].
  - apply worked_ok; [by eapply step_collect|done|done].
  - apply worked_ok; [apply step_cleanup|done|done].
  - by eapply asked_ok.
  - pose proof (got_answered _ _ _ _ _ url _ _ _ Hserve Hsees) as Hgot. fold r in Hgot.
    eapply set_member_ok; [done|done|by eapply fetched_ok| |].
    + destruct r as [b|e|]; [|by constructor..]. destruct Hgot as [_ ->].
      apply delivered_signed, message_signed, Hmi.
    + intros q. apply fetched_total. destruct r; [|done..]. destruct Hgot. split; [done|by exists records].
  - exact Hk.
  - destruct (export_ok k arrivals Harr Hk) as [_ He]. split_and!; [done|by constructor|].
    intros q. cbn [members exported_total logged_total]. rewrite <- Ht, <- (He q). fold a.
    change (in_inbox _ q) with 0. lia.
Qed.

Lemma launch_ok cs w d : Forall (λ c, exists cf sp, New sp cf = Ok c) cs -> cluster_ok (launch cs w d).
Proof.
  intros Hcs. split_and!; cbn [launch members inbox].
  - apply Forall_map. eapply Forall_impl; [exact Hcs|]. intros c (cf & sp & Hnew). pose proof Hnew as Hnew0. unfold New in Hnew.
    destruct (ReadInterval cf =? 0), (CleanupInterval cf =? 0); try done. injection Hnew as <-.
    split_and!; cbn [new_member m_coll m_acc cfg m_lost].
    + exact (proj2 (New_balanced sp cf _ Hnew0)).
    + intros g m. cbn [podMetrics]. by rewrite lookup_empty.
    + intros g q. unfold sends_delta. by destruct (SendTrafficDelta _).
    + by constructor.
  - by constructor.
  - intros q. transitivity 0; [done|]. clear Hcs. by induction cs as [|c cs IH]; [|exact IH].
Qed.

Lemma csteps_ok k k' : rtc cstep k k' -> cluster_ok k -> cluster_ok k'.
Proof. induction 1; eauto using cstep_ok. Qed.

(** C10: Over the life of a cluster nothing is lost without a trace or counted twice.  However
    collections of any listings, cleanups, requests of other clients, fetches with their faults, changes
    of the caches and exports are interleaved, for every collector, group and counter: what is pending
    and what was dropped with expired metrics is, modulo 2^64, all that the group's connections rose by
    between the listings (as in Collector.v: falling counters rise by nothing, forgotten connections rise
    from zero, the first listing of delta mode is a baseline), less, if the collector sends deltas, what
    its answers carried, which are those the exporter got and those it did not; every answer of the
    second kind went to another client, or the compressor could not be closed, or the exporter's client
    failed.  And for every counter, what the sinks were given, what the log reports as skipped and what
    waits for the next export is together all that the exporter got of all collectors. *)
Theorem lifetime_conserved (cs : list Collector) (w : watcher) (d : cache Z string) (k : cluster)
    (Hcs : Forall (λ c, exists cf sp, New sp cf = Ok c) cs)
    (Hrun : rtc cstep (launch cs w d) k) :
  (forall i m, members k !! i = Some m ->
     (forall g q,
        wrap 64 ((if SendTrafficDelta (cfg (m_coll m)) then got m g q + lost m g q else 0) +
                 pending (m_coll m) g q + dropped (m_acc m) g q) =
        wrap 64 (risen (history (m_acc m)) g q)) /\
     forall why snapshot, (why, snapshot) ∈ m_lost m ->
       why = OtherClient \/ why = CloseFailed \/ exists err, why = ClientFailed err) /\
  (forall q, exported_total k q + logged_total k q + in_inbox k q = Exporter.total (got_total q) (members k)).
Proof.
  destruct (csteps_ok _ _ Hrun (launch_ok cs w d Hcs)) as (Hm & _ & Ht). split; [|exact Ht].
  intros i m Hi. destruct (Forall_lookup_1 _ _ _ _ Hm Hi) as ((_ & Hb) & _ & Hs & Hl). split.
  - intros g q. apply cong_wrap_eq. fold (sends_delta m). rewrite <- Hs. apply Hb.
  - intros why sn Hin. eapply Forall_forall in Hl; [|exact Hin]. destruct why; [by left|by right; left|right; right; by eexists|done].
Qed.
End lifetime.

(** * A short life *)
#[local] Existing Instance ref_codec.
#[local] Existing Instance ref_netaddr.
#[local] Existing Instance ref_cache.

(** A connection of the job pod to a node, read at 100 and at 150 bytes, then fetched and exported. *)
Definition life_cf : Collector.Config := Collector.MkConfig Second Second "" false true.
Definition life_src : list Z := [10; 4; 0; 8].
Definition life_dst : list Z := [10; 0; 0; 1].
Definition life_conn (tx : Z) : Entry :=
  MkEntry (IPPortFrom ref_netaddr life_src 40000) (IPPortFrom ref_netaddr life_dst 443)
    tx 2 4000 3 (60 * Second) 6.
Definition life_c0 : Collector := MkCollector life_cf [] ∅ ∅ false.
Definition life_read (c : Collector) (tx : Z) : Collector :=
  match collect le_combine le_combine c (Ok []) (λ _, Ok [life_conn tx]) with Ok c => c | _ => c end.
Definition life_c1 : Collector := life_read life_c0 100.
Definition life_c2 : Collector := life_read life_c1 150.

Definition life_a1 : accounts := collected le_combine le_combine life_c0 [life_conn 100] no_accounts.
Definition life_a2 : accounts := collected le_combine le_combine life_c1 [life_conn 150] life_a1.
Definition life_m1 : member := worked (new_member life_c0) life_c1 life_a1.
Definition life_m2 : member := worked life_m1 life_c2 life_a2.
Definition life_batch : RawNetworkMetricBatch := message life_c2 [].
Definition life_do : result (Z * read_body) := Ok (200, (default [] (marshal life_batch), None)).
Definition life_c3 : Collector := (serve life_c2 [] "" (MkFaults None None None) (λ _, 0)).1.
Definition life_fetch : result RawNetworkMetricBatch := fetchRawNetworkMetricsBatch "http://10.0.0.1:6060" None life_do.
Definition life_m3 : member := fetched_from life_m2 life_c3 true Unexplained life_fetch.

Notation life_cluster := (cluster (N := ref_netaddr) (CI := ref_cache Z string) (W := kube_caches)).
Definition life_k0 : life_cluster := launch (W := kube_caches) [life_c0] Exporter.cluster ∅.
Definition life_k1 : life_cluster := set_member (W := kube_caches) life_k0 0 life_m1 [].
Definition life_k2 : life_cluster := set_member (W := kube_caches) life_k1 0 life_m2 [].
Definition life_k3 : life_cluster := set_member (W := kube_caches) life_k2 0 life_m3 (delivered life_fetch).
Definition life_agg : aggregation (W := kube_caches) :=
  aggregate (W := kube_caches) Exporter.cluster ∅ [(0, life_batch)].
Definition life_k4 : life_cluster :=
  MkCluster (W := kube_caches) (members life_k3) (agg_watcher life_agg) (agg_dns life_agg) []
    (λ q, exported_total life_k3 q + Exporter.total (pctr q) (podsMetrics life_agg))
    (λ q, logged_total life_k3 q + Exporter.total (lctr q) (logs life_agg)).

Lemma life_served : serve life_c2 [] "" (MkFaults None None None) (λ _, 0) =
  (life_c3, MkWriter (Some 200) false (default [] (marshal life_batch)) false).
Proof.
  rewrite (surjective_pairing (serve _ _ _ _ _)). fold life_c3.
  assert ((serve life_c2 [] "" (MkFaults None None None) (λ _, 0)).2 =
    MkWriter (Some 200) false (default [] (marshal life_batch)) false) as -> by (vm_compute; reflexivity).
  reflexivity.
Qed.

Lemma life_inbox : inbox life_k3 = [life_batch].
Proof. vm_compute. reflexivity. Qed.

Lemma life_run : rtc (cstep le_combine le_combine) life_k0 life_k4.
Proof.
  apply (rtc_l _ _ life_k1).
  { by apply (l_collect _ _ life_k0 0 (new_member life_c0) (Ok []) (λ _, Ok [life_conn 100]) _ [] []). }
  apply (rtc_l _ _ life_k2).
  { by apply (l_collect _ _ life_k1 0 life_m1 (Ok []) (λ _, Ok [life_conn 150]) _ [] []). }
  apply (rtc_l _ _ life_k3).
  { apply (l_fetch _ _ life_k2 0 life_m2 _ _ _ _ "http://10.0.0.1:6060" _ _ life_do eq_refl life_served).
    by split_and!. }
  apply rtc_once, (l_export _ _ life_k3 [(0, life_batch)]). by rewrite life_inbox.
Qed.

Lemma lifetime_conserved_witness :
  exported_total life_k4 KTxBytes = 50 /\
  exported_total life_k4 KTxBytes + logged_total life_k4 KTxBytes + in_inbox life_k4 KTxBytes =
    Exporter.total (got_total KTxBytes) (members life_k4).
Proof.
  split; [vm_compute; reflexivity|].
  apply (lifetime_conserved (HC := ref_codec_spec) (HN := ref_netaddr_spec) (CI := ref_cache Z string)
    (HW := kube_caches_spec (IndexerSpec0 := mem_pods_spec) (IndexerSpec1 := mem_indexer_spec _ _)
             (IndexerSpec2 := mem_indexer_spec _ _))
    le_combine le_combine [life_c0] Exporter.cluster ∅ life_k4).
  - constructor; [|constructor]. exists life_cf, (λ _, []). reflexivity.
  - exact life_run.
Defined.
