(* ===== verification/Commands.v ===== *)
(** The commands: src/cmd/collector/main.go, src/cmd/exporter/main.go and the constructors of the
    connection tracking clients.

    What the collector command decides from its flags (which client, what to initialise) and the
    exporter from its configuration (which sinks) are functions.  The goroutines of the collector's
    [run], which report through one channel of errors, are a step relation.  Kubernetes clients, the
    network namespace, netlink and the file system are arguments. *)
From S2P Require Import Prelude GoBase Conntrack Tracer Exporter Sinks.
From stdpp Require Import base numbers list strings relations.
Local Open Scope string_scope.
Local Open Scope list_scope.
Local Open Scope Z_scope.
Local Open Scope egress_scope.

(** * Choosing the connection tracking client *)

(** [os.Stat] of the directory of Cilium's maps: an error or the file. *)
Definition bpfMapsExist (stat : result bool) : bool :=
  match stat with Ok file => file | _ => false end.

Definition CiliumAvailable (mode : string) (stat : result bool) : bool :=
  if String.eqb mode "cilium" then true else bpfMapsExist stat.

Definition clock_source (s : string) : ClockSource :=
  if String.eqb s "ktime" then ClockSourceKtime
  else if String.eqb s "jiffies" then ClockSourceJiffies else ClockSourceOther s.

Inductive client := CiliumClient (clockSource : ClockSource) | NetfilterClient (netns : Z).

Definition NewCiliumClient (clockSource : ClockSource) : result client := Ok (CiliumClient clockSource).

(** [GetFromPid]: the host's network namespace; [Open]: opening netlink in a namespace. *)
Definition NewNetfilterClient (hostPid : bool) (GetFromPid : result Z) (Open : Z -> option string) :
    result client :=
  try hostNs := (if hostPid then
                   match GetFromPid with
                   | Err e => Err ("getting host network namespace: " +:+ e)
                   | r => r
                   end
                 else Ok 0) in
  match Open hostNs with
  | Some e => Err ("opening nfct: " +:+ e)
  | None => Ok (NetfilterClient hostNs)
  end.

Record flags := MkFlags {
  ctMode : string;
  ciliumClockSource : string;
  hostPid : bool;
  initCgroupv2 : bool
}.

Section machine.
Context (stat : result bool) (GetFromPid : result Z) (Open : Z -> option string).

(** The client of [run]. *)
Definition conntracker (f : flags) : result client :=
  if CiliumAvailable (ctMode f) stat then NewCiliumClient (clock_source (ciliumClockSource f))
  else NewNetfilterClient (hostPid f) GetFromPid Open.

(** The client of [dumpConntrack], which does not look at the mode. *)
Definition dump_conntracker (f : flags) : result client :=
  if CiliumAvailable "" stat then NewCiliumClient (clock_source (ciliumClockSource f))
  else NewNetfilterClient (hostPid f) GetFromPid Open.

(** [runInit]: what it writes and mounts.  [account] is the error of writing the accounting file,
    [mounts] the lines of /proc/mounts. *)
Definition InitCgroupv2 (mounts : result (list string)) (mountPoint : string)
    (mkdir mount : string -> option string) : option string :=
  match detectCgroupPath mounts with
  | Err e =>
      if String.eqb e ErrCgroup2NotMounted then
        match mountCgroup2 mountPoint mkdir mount with
        | Some e => Some ("cgroup2 not mounted and failed to mount manually: " +:+ e)
        | None => None
        end
      else None
  | _ => None
  end.

Definition runInit (f : flags) (account : option string) (mounts : result (list string))
    (mountPoint : string) (mkdir mount : string -> option string) : option string :=
  match (if CiliumAvailable (ctMode f) stat then None else account) with
  | Some e => Some ("init nf conntrack: " +:+ e)
  | None =>
      if initCgroupv2 f then
        match InitCgroupv2 mounts mountPoint mkdir mount with
        | Some e => Some ("init cgroupv2: " +:+ e)
        | None => None
        end
      else None
  end.
End machine.

(** ** Listing through the chosen client *)
Section listing.
Context `{N : Netaddr}.
Context (dump : Z -> result (list Con)) (maps : list CtMap) (getMtime Jiffies : result Z) (hertz : Z).

Definition ListEntries (c : client) (now : Z) (filter : EntriesFilter) : result (list Entry) :=
  match c with
  | CiliumClient cs => listRecords getMtime Jiffies hertz maps now cs filter
  | NetfilterClient ns => netfilter_ListEntries (dump ns) now filter
  end.

(** Whatever client is chosen keeps the promise the collector relies on. *)
#[export] Instance ListEntries_client (c : client) (now : Z) : Client (ListEntries c now).
Proof. destruct c; simpl; apply _. Qed.
End listing.

(** * The exporter's sinks *)
Record SinkConfig := MkSinkConfig {
  HTTPConfig : option SinkHTTPConfig;
  PromRemoteWriteConfig : option SinkPromRemoteWriteConfig
}.
Inductive sink := HTTPSink (name : string) (cfg : SinkHTTPConfig)
                | PromSink (name : string) (cfg : SinkPromRemoteWriteConfig).

(** [order]: the configured map in the order of its iteration. *)
Definition sinks_list (order : list (string * SinkConfig)) : result (list sink) :=
  let l := omap (λ ns : string * SinkConfig,
    match HTTPConfig ns.2, PromRemoteWriteConfig ns.2 with
    | Some h, _ => Some (HTTPSink ns.1 h)
    | None, Some p => Some (PromSink ns.1 p)
    | None, None => None
    end) order in
  match l with [] => Err "not sinks configured" | _ => Ok l end.

(** * The goroutines of the collector's run *)

(** [run] starts the DNS collector, the collector and the HTTP server, each of which reports an
    error through the channel [errc], if it ended with one, and then closes it, and waits for the
    channel.  A signal shuts the server down and cancels the context, as does the end of [run]. *)
Inductive component := CDns | CCollector | CServer.
#[global] Instance component_eq_dec : EqDecision component.
Proof. solve_decision. Defined.

Inductive gstate :=
| GRunning           (* in Start or ListenAndServe *)
| GSending (e : string) (* in errc <- err *)
| GClosing           (* before close(errc) *)
| GEnded.
Inductive mstate :=
| MWaiting                     (* in <-errc *)
| MReturned (r : option string) (* before the deferred cancel *)
| MLeaving (r : option string)  (* after it, before the process ends *)
| MExited (r : option string).
Inductive sigstate := SWaiting | SShutdown | SCancelled.

Record process := Process {
  gs : component -> gstate;
  errc_closed : bool;
  shut_down : bool;
  ctx_cancelled : bool;
  sig : sigstate;
  mn : mstate;
  panicked : bool;
  failures : list string (* the errors components ended with *)
}.

Definition start : process :=
  Process (λ _, GRunning) false false false SWaiting MWaiting false [].

Definition set_g (p : process) (c : component) (g : gstate) : process :=
  Process (λ c', if decide (c' = c) then g else gs p c') (errc_closed p) (shut_down p)
    (ctx_cancelled p) (sig p) (mn p) (panicked p) (failures p).
Definition set_closed (p : process) : process :=
  Process (gs p) true (shut_down p) (ctx_cancelled p) (sig p) (mn p) (panicked p) (failures p).
Definition set_main (p : process) (m : mstate) : process :=
  Process (gs p) (errc_closed p) (shut_down p) (ctx_cancelled p) (sig p) m (panicked p) (failures p).
Definition set_cancelled (p : process) : process :=
  Process (gs p) (errc_closed p) (shut_down p) true (sig p) (mn p) (panicked p) (failures p).
Definition set_sig (p : process) (s : sigstate) (shut : bool) : process :=
  Process (gs p) (errc_closed p) (shut_down p || shut) (ctx_cancelled p) s (mn p) (panicked p) (failures p).
Definition set_panicked (p : process) : process :=
  Process (gs p) (errc_closed p) (shut_down p) (ctx_cancelled p) (sig p) (mn p) true (failures p).
Definition add_failure (p : process) (e : string) : process :=
  Process (gs p) (errc_closed p) (shut_down p) (ctx_cancelled p) (sig p) (mn p) (panicked p)
    (failures p ++ [e]).

(** When a component ends without an error to report: cancelled, or a server that was shut down. *)
Definition may_stop (p : process) (c : component) : bool :=
  match c with CServer => shut_down p | _ => ctx_cancelled p end.

(** Which components can fail: the collector's [Start] only returns the context's error. *)
Definition can_fail (c : component) : bool :=
  match c with CCollector => false | _ => true end.

Definition alive (p : process) : Prop := panicked p = false /\ forall r, mn p <> MExited r.

(** One action of a goroutine while the process lives. *)
Inductive act : process -> process -> Prop :=
| a_stop p c : gs p c = GRunning -> may_stop p c = true -> act p (set_g p c GClosing)
| a_fail p c e : gs p c = GRunning -> can_fail c = true ->
    act p (add_failure (set_g p c (GSending e)) e)
| a_send p c e : gs p c = GSending e -> mn p = MWaiting -> errc_closed p = false ->
    act p (set_main (set_g p c GClosing) (MReturned (Some e)))
| a_send_closed p c e : gs p c = GSending e -> errc_closed p = true -> act p (set_panicked p)
| a_close p c : gs p c = GClosing -> errc_closed p = false -> act p (set_closed (set_g p c GEnded))
| a_close_closed p c : gs p c = GClosing -> errc_closed p = true -> act p (set_panicked p)
| a_receive_closed p : mn p = MWaiting -> errc_closed p = true -> act p (set_main p (MReturned None))
| a_cancel p r : mn p = MReturned r -> act p (set_main (set_cancelled p) (MLeaving r))
| a_exit p r : mn p = MLeaving r -> act p (set_main p (MExited r))
| a_signal p : sig p = SWaiting -> act p (set_sig p SShutdown true)
| a_signal_cancel p : sig p = SShutdown -> act p (set_sig (set_cancelled p) SCancelled false).

Definition pstep (p p' : process) : Prop := alive p /\ act p p'.

(** ** What run returns *)

Definition returned (m : mstate) : option (option string) :=
  match m with MWaiting => None | MReturned r | MLeaving r | MExited r => Some r end.

Record process_inv (p : process) : Prop := {
  inv_sending : forall c e, gs p c = GSending e -> e ∈ failures p;
  inv_error : forall e, returned (mn p) = Some (Some e) -> e ∈ failures p;
  inv_nil : returned (mn p) = Some None -> errc_closed p = true;
  inv_closed : errc_closed p = true -> exists c, gs p c = GEnded;
  inv_one : forall c c', gs p c = GEnded -> gs p c' = GEnded -> c = c';
  inv_ended : forall c, gs p c = GEnded -> errc_closed p = true
}.

Lemma start_inv : process_inv start.
Proof. split; done. Qed.

Ltac gcase := repeat match goal with
  | H : context [decide (?a = ?b)] |- _ => destruct (decide (a = b)); simplify_eq/=
  | |- context [decide (?a = ?b)] => destruct (decide (a = b)); simplify_eq/=
  end.

Lemma elem_snoc (e e' : string) l : e ∈ l -> e ∈ l ++ [e'].
Proof. intros H. apply elem_of_app. by left. Qed.

(** A goroutine that goes on keeps the channel closed by one that ended. *)
Lemma ended_kept p c g : gs p c <> GEnded -> (exists c', gs p c' = GEnded) ->
  exists c', gs (set_g p c g) c' = GEnded.
Proof. intros Hc [c' Hc']. exists c'. simpl. gcase; congruence. Qed.

Lemma act_inv p p' : act p p' -> process_inv p -> process_inv p'.
Proof.
  destruct 1 as [p c|p c e|p c e|p c e|p c|p c|p|p r|p r|p|p]; intros [I1 I2 I3 I4 I5 I6]; split; simpl in *; try (by eauto); intros; gcase;
    eauto using elem_snoc; try congruence.
  all: try (apply (ended_kept p c); [congruence|by eauto]).
  all: try match goal with H : mn ?q = _ |- _ => rewrite H in *; simpl in * end; eauto.
  - apply elem_of_app. right. by apply list_elem_of_singleton.
  - simplify_eq. eauto.
  - exists c. by rewrite decide_True.
  - apply I6 in H1. congruence.
  - apply I6 in H2. congruence.
Qed.

Lemma reachable_inv p : rtc pstep start p -> process_inv p.
Proof.
  revert p. apply rtc_ind_r; [exact start_inv|]. intros y z _ [_ Hs] IH. by eapply act_inv.
Qed.

(** Before a signal nothing has ended well: the components run or hold an error, and [run] waits. *)
Definition quiet (p : process) : Prop :=
  errc_closed p = false /\ ctx_cancelled p = false /\ shut_down p = false /\ mn p = MWaiting /\
  forall c, gs p c <> GClosing.

Lemma act_quiet p p' : act p p' -> sig p' = SWaiting -> quiet p ->
  quiet p' \/ exists e, returned (mn p') = Some (Some e).
Proof.
  intros Ha Hs (Q1 & Q2 & Q3 & Q4 & Q5).
  destruct Ha as [p c|p c e|p c e|p c e|p c|p c|p|p r|p r|p|p]; simpl in Hs; try congruence;
    try (right; eauto; done).
  - destruct c; simpl in *; congruence.
  - left. split_and!; try done. simpl. intros c'. by case_decide.
Qed.

Lemma act_returned p p' e : act p p' -> returned (mn p) = Some (Some e) -> returned (mn p') = Some (Some e).
Proof. destruct 1; simpl; intros Hr; try done; match goal with H : mn p = _ |- _ => rewrite H in Hr end; done. Qed.

Lemma act_sig p p' : act p p' -> sig p' = SWaiting -> sig p = SWaiting.
Proof. by destruct 1. Qed.

Lemma reachable_quiet p : rtc pstep start p -> sig p = SWaiting ->
  quiet p \/ exists e, returned (mn p) = Some (Some e).
Proof.
  revert p. apply (rtc_ind_r (λ p, sig p = SWaiting -> quiet p \/ exists e, returned (mn p) = Some (Some e))).
  - intros _. left. by split_and!.
  - intros y z _ [_ Hs] IH Hz. destruct (IH (act_sig _ _ Hs Hz)) as [Hq | [e He]].
    + by eapply act_quiet.
    + right. exists e. by eapply act_returned.
Qed.

(** Whatever [run] of the collector returns is accounted for.  An error is one that the DNS
    collector or the HTTP server ended with; nil is returned only after a signal, when a component has
    closed the channel; and while no signal has arrived and nothing failed, [run] goes on waiting with
    the channel open and the context alive. *)
Theorem run_result (p : process) : rtc pstep start p ->
  match returned (mn p) with
  | Some (Some e) => e ∈ failures p
  | Some None => sig p <> SWaiting /\ errc_closed p = true /\ exists c, gs p c = GEnded
  | None => sig p = SWaiting -> errc_closed p = false /\ ctx_cancelled p = false
  end.
Proof.
  intros Hr. pose proof (reachable_inv p Hr) as [_ I2 I3 I4 _ _].
  pose proof (reachable_quiet p Hr) as Hq.
  destruct (returned (mn p)) as [[e|]|] eqn:He; [by apply I2| |].
  - split; [|auto]. intros Hs. destruct (Hq Hs) as [(_ & _ & _ & Hm & _) | [e He']]; [|done].
    by rewrite Hm in He.
  - intros Hs. destruct (Hq Hs) as [(? & ? & _) | [e He']]; done.
Qed.

Tactic Notation "pstep_by" uconstr(ctor) := eapply rtc_l; [split; [split; [reflexivity | intros ?; discriminate] | eapply ctor; reflexivity] |].

Lemma failing_run : exists p, rtc pstep start p /\ returned (mn p) = Some (Some "listen") /\
  failures p = ["listen"].
Proof.
  eexists. split.
  { pstep_by (a_fail start CServer "listen"). pstep_by (a_send _ CServer "listen"). reflexivity. }
  done.
Qed.

Lemma run_result_witness : exists p, rtc pstep start p /\ returned (mn p) = Some (Some "listen") /\
  match returned (mn p) with
  | Some (Some e) => e ∈ failures p
  | Some None => sig p <> SWaiting /\ errc_closed p = true /\ exists c, gs p c = GEnded
  | None => sig p = SWaiting -> errc_closed p = false /\ ctx_cancelled p = false
  end.
Proof.
  destruct failing_run as (p & Hr & He & _). exists p. split; [exact Hr|]. split; [exact He|].
  exact (run_result p Hr).
Defined.

(** C21: Every goroutine of [run] closes the same channel, so a shutdown is not clean.  However the
    goroutines interleave, at most one of them ever ends; one that comes to its [close], or to sending
    an error, after another has closed panics; and a signal alone, with no component failing, can take
    the process to that panic after [run] has returned nil. *)
Theorem shutdown_may_panic :
  (forall p c c', rtc pstep start p -> gs p c = GEnded -> gs p c' = GEnded -> c = c') /\
  (forall p c c' e, rtc pstep start p -> alive p -> gs p c = GEnded ->
     gs p c' = GClosing \/ gs p c' = GSending e -> pstep p (set_panicked p)) /\
  exists p, rtc pstep start p /\ failures p = [] /\ mn p = MLeaving None /\ panicked p = true.
Proof.
  split_and!.
  - intros p c c' Hr. apply (inv_one _ (reachable_inv p Hr)).
  - intros p c c' e Hr Ha Hc Hc'. split; [exact Ha|].
    pose proof (inv_ended _ (reachable_inv p Hr) _ Hc).
    destruct Hc'; [by eapply a_close_closed | by eapply a_send_closed].
  - eexists. split.
    { pstep_by a_signal. pstep_by (a_stop _ CServer). pstep_by (a_close _ CServer).
      pstep_by a_receive_closed. pstep_by a_cancel. pstep_by (a_stop _ CCollector).
      pstep_by (a_close_closed _ CCollector). reflexivity. }
    done.
Qed.

(** * What the flags select *)
Section selection.
Context (stat : result bool) (GetFromPid : result Z) (Open : Z -> option string).

Lemma NewNetfilterClient_netns hp c : NewNetfilterClient hp GetFromPid Open = Ok c ->
  exists ns, c = NetfilterClient ns /\ Open ns = None /\ if hp then GetFromPid = Ok ns else ns = 0.
Proof.
  unfold NewNetfilterClient. intros (ns & Hn & H)%rbind_ok. exists ns.
  destruct (Open ns); [done|]. injection H as <-. destruct hp; [|by injection Hn].
  by destruct GetFromPid; simplify_eq.
Qed.

(** The init container prepares what the collector then uses, and the mode only forces Cilium.
    With the same flags and file system, the client of [run] is Cilium's exactly when the mode is
    cilium or the maps exist, whatever else the mode says, so netfilter cannot be asked for on a
    machine with the maps; a netfilter client is open in the host's namespace if the host's processes
    are visible; if the init container succeeded it enabled accounting whenever the client is
    netfilter's; and the dump differs from [run] only for the mode cilium without maps. *)
Theorem init_prepares_client (f : flags) (account : option string) (mounts : result (list string))
    (mountPoint : string) (mkdir mount : string -> option string) (c : client)
    (Hc : conntracker stat GetFromPid Open f = Ok c) :
  ((exists cs, c = CiliumClient cs) <-> ctMode f = "cilium" \/ stat = Ok true) /\
  (forall ns, c = NetfilterClient ns -> Open ns = None /\ (hostPid f = true -> GetFromPid = Ok ns) /\
     (runInit stat f account mounts mountPoint mkdir mount = None -> account = None)) /\
  (dump_conntracker stat GetFromPid Open f <> Ok c -> ctMode f = "cilium" /\ stat <> Ok true).
Proof.
  unfold conntracker, dump_conntracker, runInit in *.
  assert (Ha : CiliumAvailable (ctMode f) stat = true <-> ctMode f = "cilium" \/ stat = Ok true).
  { unfold CiliumAvailable, bpfMapsExist. destruct (String.eqb_spec (ctMode f) "cilium") as [Hm | Hm].
    - split; [by left|done].
    - destruct stat as [[]| |]; split; naive_solver. }
  split_and!.
  - rewrite <- Ha. destruct (CiliumAvailable (ctMode f) stat).
    + injection Hc as <-. split; [done|by eauto].
    + destruct (NewNetfilterClient_netns _ _ Hc) as (ns & -> & _). split; [|done]. by intros [? ?].
  - intros ns ->. destruct (CiliumAvailable (ctMode f) stat); [done|].
    destruct (NewNetfilterClient_netns _ _ Hc) as (ns' & [= <-] & Ho & Hp). split_and!; [done| |].
    + intros Hh. by rewrite Hh in Hp.
    + by destruct account.
  - unfold CiliumAvailable in *. simpl. destruct (String.eqb_spec (ctMode f) "cilium"); [|done].
    intros Hne. split; [done|]. by intros ->.
Qed.
End selection.

Lemma init_prepares_client_witness :
  let f := MkFlags "" "jiffies" true false in
  runInit (Err "not found") f None (Ok []) "/mnt" (λ _, None) (λ _, None) = None /\
  ((exists cs, NetfilterClient 7 = CiliumClient cs) <-> "" = "cilium" \/ @Err bool "not found" = Ok true) /\
  (forall ns, NetfilterClient 7 = NetfilterClient ns -> @None string = None /\ (true = true -> Ok 7 = Ok ns) /\
     (runInit (Err "not found") f None (Ok []) "/mnt" (λ _, None) (λ _, None) = None -> @None string = None)) /\
  (dump_conntracker (Err "not found") (Ok 7) (λ _, None) f <> Ok (NetfilterClient 7) ->
     "" = "cilium" /\ @Err bool "not found" <> Ok true).
Proof.
  split; [reflexivity|].
  exact (init_prepares_client (Err "not found") (Ok 7) (λ _, None) (MkFlags "" "jiffies" true false) None
    (Ok []) "/mnt" (λ _, None) (λ _, None) (NetfilterClient 7) eq_refl).
Defined.

(** * Which sinks run *)

(** Every sink has a name and a configuration of the map; one with an HTTP configuration is an HTTP
    sink, whatever else is configured; and a configuration without either gives no sink, so the
    exporter starts only if one entry at least has a configuration. *)
Theorem sinks_list_exact (order : list (string * SinkConfig)) :
  match sinks_list order with
  | Ok l => l <> [] /\ forall s, s ∈ l <-> exists n c, (n, c) ∈ order /\
      match HTTPConfig c with
      | Some h => s = HTTPSink n h
      | None => exists p, PromRemoteWriteConfig c = Some p /\ s = PromSink n p
      end
  | Err _ => forall n c, (n, c) ∈ order -> HTTPConfig c = None /\ PromRemoteWriteConfig c = None
  | Panic => False
  end.
Proof.
  unfold sinks_list. set (f := λ ns : string * SinkConfig, _).
  assert (Hf : forall s, s ∈ omap f order <-> exists n c, (n, c) ∈ order /\
      match HTTPConfig c with
      | Some h => s = HTTPSink n h
      | None => exists p, PromRemoteWriteConfig c = Some p /\ s = PromSink n p
      end).
  { intros s. rewrite list_elem_of_omap. split.
    - intros ([n c] & Hin & Hs). exists n, c. split; [done|]. unfold f in Hs. simpl in Hs.
      destruct (HTTPConfig c); [by simplify_eq|]. destruct (PromRemoteWriteConfig c); naive_solver.
    - intros (n & c & Hin & Hs). exists (n, c). split; [done|]. unfold f. simpl.
      destruct (HTTPConfig c); [by subst|]. by destruct Hs as (p & -> & ->). }
  destruct (omap f order) as [|s0 l] eqn:E; [|by split].
  intros n c Hin. destruct (HTTPConfig c) as [h|] eqn:Eh.
  { exfalso. apply (not_elem_of_nil (HTTPSink n h)). apply Hf. exists n, c. by rewrite Eh. }
  destruct (PromRemoteWriteConfig c) as [p|] eqn:Ep; [|done].
  exfalso. apply (not_elem_of_nil (PromSink n p)). apply Hf. exists n, c. rewrite Eh. by eauto.
Qed.

(** * The exporter's command *)

(** [config.Load]: [file] is the configuration read from the path, [env] overrides it from the
    environment. *)
Definition zero_config : Exporter.Config := Exporter.MkConfig "" "" 0 0 0 [].
Definition Load (configPath : string) (file : result Exporter.Config)
    (env : Exporter.Config -> result Exporter.Config) : result Exporter.Config :=
  try cfg := (if String.eqb configPath "" then Ok zero_config else file) in
  try cfg := env cfg in
  Load_defaults cfg.

(** [retrieveKubeConfig]: the bytes of the file, what they parse to, and the configuration of a pod. *)
Definition retrieveKubeConfig {A} (kubepath : string) (ReadFile : result (list Z))
    (parse : list Z -> result A) (InClusterConfig : result A) : result A :=
  if negb (String.eqb kubepath "") then
    match ReadFile with
    | Err e => Err ("reading kubeconfig at " +:+ kubepath +:+ ": " +:+ e)
    | Panic => Panic
    | Ok data =>
        match parse data with
        | Err e => Err ("building rest config from kubeconfig at " +:+ kubepath +:+ ": " +:+ e)
        | r => r
        end
    end
  else InClusterConfig.

Definition ErrServerClosed : string := "http: Server closed".
Definition Canceled : string := "context canceled".

(** [run]: [client] is the outcome of making the Kubernetes client, [ListenAndServe] the error the server
    ends with, which is never nil.  The exporter is started after the sinks are made. *)
Definition exporter_run (client : option string) (cfg : result Exporter.Config)
    (order : list (string * SinkConfig)) (ListenAndServe : string) : string :=
  match client with
  | Some e => e
  | None =>
      match cfg with
      | Ok _ => match sinks_list order with Ok _ => ListenAndServe | Err e => e | Panic => "panic" end
      | Err e => e
      | Panic => "panic"
      end
  end.

(** The status [main] of either command ends with. *)
Definition exit_status (err : option string) : Z :=
  match err with
  | Some e => if negb (String.eqb e Canceled) then 1 else 0
  | None => 0
  end.

(** A shutdown by signal is a failure of the exporter: the server ends with [ErrServerClosed], which
    [main] does not expect, so the process ends with status 1; the collector, whose goroutine expects
    that error, ends with status 0. *)
Theorem exporter_shutdown_status (cfg : Exporter.Config) (order : list (string * SinkConfig))
    (Hsinks : exists s, sinks_list order = Ok s) :
  exit_status (Some (exporter_run None (Ok cfg) order ErrServerClosed)) = 1 /\
  exists p, rtc pstep start p /\ failures p = [] /\ mn p = MExited None /\ exit_status None = 0.
Proof.
  split; [unfold exporter_run; by destruct Hsinks as [s ->]|]. eexists. split.
  { pstep_by a_signal. pstep_by (a_stop _ CServer). pstep_by (a_close _ CServer).
    pstep_by a_receive_closed. pstep_by a_cancel. pstep_by a_exit. reflexivity. }
  done.
Qed.

(** A loaded configuration has at least one sink, and the intervals that were left out have their
    defaults, wherever they were left out. *)
Theorem Load_complete (configPath : string) (file : result Exporter.Config)
    (env : Exporter.Config -> result Exporter.Config) (cfg : Exporter.Config)
    (H : Load configPath file env = Ok cfg) :
  Exporter.Sinks cfg <> [] /\ ExportInterval cfg <> 0 /\ CollectorsConcurrentFetchCount cfg <> 0 /\
  CollectorFetchTimeout cfg <> 0 /\
  exists c, env (if String.eqb configPath "" then zero_config else
                 match file with Ok c => c | _ => zero_config end) = Ok c /\
    (ExportInterval c <> 0 -> ExportInterval cfg = ExportInterval c) /\ Exporter.Sinks cfg = Exporter.Sinks c.
Proof.
  apply rbind_ok in H as (c0 & H0 & (c & Hc & H)%rbind_ok). unfold Load_defaults in H. simpl in H.
  destruct (Exporter.Sinks c) eqn:Es; [done|]. injection H as <-. simpl. split_and!; [done|..].
  1-3: match goal with |- (if ?x =? 0 then _ else _) <> 0 => destruct (Z.eqb_spec x 0); [done|done] end.
  exists c. split_and!; [|intros; by destruct (Z.eqb_spec (ExportInterval c) 0)|done].
  destruct (String.eqb configPath ""); [by injection H0 as ->|]. by destruct file; simplify_eq.
Qed.

(** * The collector's command *)

(** What [main] does, in the order it looks at the flags. *)
Inductive action := ADump | AInit | ARun.
Definition collector_main (level_ok dumpCT initMode : bool) (outcome : action -> option string) :
    list action * Z :=
  if negb level_ok then ([], 1)
  else if dumpCT then ([ADump], if outcome ADump is Some _ then 1 else 0)
  else if initMode then ([AInit], if outcome AInit is Some _ then 1 else 0)
  else ([ARun], exit_status (outcome ARun)).

Section dump.
Context `{N : Netaddr}.
Context (dump : Z -> result (list Con)) (maps : list CtMap) (getMtime Jiffies : result Z) (hertz : Z).
Context (stat : result bool) (GetFromPid : result Z) (Open : Z -> option string).
Notation ListEntries := (ListEntries dump maps getMtime Jiffies hertz).

(** [dumpConntrack]: the entries it prints, each with the time it expires in, counted from the time [now]
    the dump began; the listing takes the time itself, [listed_at]. *)
Definition dumpConntrack (f : flags) (now listed_at : Z) : result (list (Entry * Z)) :=
  try c := dump_conntracker stat GetFromPid Open f in
  try entries := ListEntries c listed_at All in
  Ok (map (λ e, (e, Lifetime e - now)) entries).

(** A listing with a filter is the filtered listing without one. *)
Definition rmap {A B} (h : A -> B) (r : result A) : result B := try a := r in Ok (h a).

Lemma foldr_result_rmap {A S S'} (h : S -> S') (f : S -> A -> result S) (g : S' -> A -> result S') s l :
  (forall s a, g (h s) a = rmap h (f s a)) -> foldr_result g (h s) l = rmap h (foldr_result f s l).
Proof.
  intros Hg. revert s. induction l as [|a l IH]; intros s; [done|]. simpl. rewrite Hg.
  destruct (f s a); [|done..]. apply IH.
Qed.

Lemma cilium_record_filter td now f es kv :
  cilium_record td now f (List.filter f es) kv = rmap (List.filter f) (cilium_record td now All es kv).
Proof.
  destruct kv as [k v]. unfold cilium_record. destruct (kNextHeader k =? 0); [done|].
  destruct (ip_of_bytes (kDestAddr k)); [|done..]. destruct (ip_of_bytes (kSourceAddr k)); [|done..]. 
  simpl. destruct (td (vLifetime v)); [|done..]. simpl.
  rewrite List.filter_app. simpl. destruct (f _); by rewrite ?app_nil_r.
Qed.

Lemma cilium_map_filter td now f es m :
  cilium_map td now f (List.filter f es) m = rmap (List.filter f) (cilium_map td now All es m).
Proof.
  unfold cilium_map. destruct (m_open m); [|reflexivity|];
    rewrite (foldr_result_rmap (List.filter f) (cilium_record td now All) (cilium_record td now f))
      by (intros; apply cilium_record_filter);
    destruct (foldr_result (cilium_record td now All) es (m_pairs m)); try reflexivity; simpl;
    destruct (m_dump_err m); reflexivity.
Qed.

Lemma ListEntries_filter c now f : ListEntries c now f = rmap (List.filter f) (ListEntries c now All).
Proof.
  destruct c as [cs|ns]; simpl.
  - unfold listRecords. destruct (kernelTimeDiffSecondsFunc getMtime Jiffies hertz cs); [|done..].
    apply (foldr_result_rmap (List.filter f) _ _ []). intros. apply cilium_map_filter.
  - rewrite !netfilter_ListEntries_spec. destruct (dump ns) as [ss| |]; [|done..].
    destruct (expand_all now ss) as [es| |]; [|done..]. simpl. unfold keep. f_equal.
    induction es as [|e es IH]; [done|]. simpl. destruct (f e); by rewrite IH.
Qed.

(** The dump shows what a collection sees: with the client [c] it makes, for the same tables and time, it
    fails exactly when a listing of the collector with that client fails, and otherwise prints, in order,
    entries that any listing of the collector is a selection of. *)
Theorem dump_shows_listings (fl : flags) (now listed_at : Z) (f : EntriesFilter) :
  match dump_conntracker stat GetFromPid Open fl with
  | Ok c =>
      match dumpConntrack fl now listed_at with
      | Ok lines => ListEntries c listed_at f = Ok (List.filter f lines.*1)
      | Err e => ListEntries c listed_at f = Err e
      | Panic => ListEntries c listed_at f = Panic
      end
  | Err e => dumpConntrack fl now listed_at = Err e
  | Panic => dumpConntrack fl now listed_at = Panic
  end.
Proof.
  unfold dumpConntrack. destruct (dump_conntracker stat GetFromPid Open fl) as [c| |]; [|done..]. cbn [rbind].
  rewrite (ListEntries_filter c listed_at f).
  destruct (ListEntries c listed_at All) as [es| |]; [|done..]. simpl. unfold rmap. simpl. do 2 f_equal.
  induction es as [|e es IH]; [done|]. simpl. by f_equal.
Qed.
End dump.

(** * The tracer's command *)

(** src/cmd/tracer/main.go: what its select takes, and what it prints and logs until the context is done
    or the channel of events is closed; an error of the tracer is logged and the loop goes on. *)
Inductive tracer_selected := TSDone | TSEvent (e : DNSEvent) | TSClosed | TSErr (err : option string).
Fixpoint tracer_main (xs : list tracer_selected) : list DNSEvent * list (option string) * bool :=
  match xs with
  | [] => ([], [], false)
  | TSDone :: _ | TSClosed :: _ => ([], [], true)
  | TSEvent e :: xs => let '(evs, errs, d) := tracer_main xs in (e :: evs, errs, d)
  | TSErr err :: xs => let '(evs, errs, d) := tracer_main xs in (evs, err :: errs, d)
  end.
