(* ===== verification/Startup.v ===== *)
(** The start of the commands and the requests they answer: [run] up to its goroutines, [main],
    [healthHandler] and [addPprofHandlers] of src/cmd/collector/main.go and src/cmd/exporter/main.go,
    with the DNS collectors of src/dns.

    [run_setup] puts together what the goroutines of Commands.v run; [handle] takes a request through
    the router of net/http to the handlers.  Kubernetes, the file system, the profiling handlers and the
    one of the Prometheus library are arguments. *)
From S2P Require Import Prelude GoBase Conntrack Dns Kube Collector Exporter ExportPipeline Transport Loops Tracer Commands.
From stdpp Require Import base numbers list strings pretty gmap.
Local Open Scope string_scope.
Local Open Scope list_scope.
Local Open Scope Z_scope.
Local Open Scope egress_scope.

(** * Routing *)

(** [strings.Split] at one character. *)
Fixpoint Split (s : string) (sep : Ascii.ascii) : list string :=
  match s with
  | EmptyString => [""]
  | String c s =>
      if Ascii.eqb c sep then "" :: Split s sep
      else match Split s sep with
           | x :: l => String c x :: l
           | [] => [String c ""]
           end
  end.
Definition slash : Ascii.ascii := Ascii.ascii_of_nat 47.
Fixpoint ends_with_slash (s : string) : bool :=
  match s with
  | EmptyString => false
  | String c EmptyString => Ascii.eqb c slash
  | String _ s => ends_with_slash s
  end.

(** [path.Clean] of a rooted path, on its segments, the last one first. *)
Definition clean_segment (done : list string) (seg : string) : list string :=
  if String.eqb seg "" || String.eqb seg "." then done
  else if String.eqb seg ".." then tail done
  else seg :: done.
Definition path_Clean (p : string) : string :=
  match rev (fold_left clean_segment (Split p slash) []) with
  | [] => "/"
  | segs => String.concat "" (map (λ seg, "/" +:+ seg) segs)
  end.

(** [cleanPath] of net/http, which keeps a slash at the end. *)
Definition cleanPath (p : string) : string :=
  let p := if String.prefix "/" p then p else "/" +:+ p in
  let np := path_Clean p in
  if ends_with_slash p && negb (String.eqb np "/") then np +:+ "/" else np.

(** What is registered: by the package pprof, by the Prometheus library and by the program. *)
Inductive handler := HPprof (name : string) | HPrometheus | HHealth | HRawNetworkMetrics.
Definition ServeMux : Type := list (string * handler).

Fixpoint mux_exact (m : ServeMux) (path : string) : option handler :=
  match m with
  | [] => None
  | (pattern, h) :: m => if String.eqb pattern path then Some h else mux_exact m path
  end.
(** [Handle]: registering a pattern twice panics. *)
Definition Handle (m : ServeMux) (pattern : string) (h : handler) : result ServeMux :=
  match mux_exact m pattern with Some _ => Panic | None => Ok (m ++ [(pattern, h)]) end.

(** A pattern that ends with a slash stands for all paths below it; the longest one counts. *)
Fixpoint mux_prefix (m : ServeMux) (path : string) (best : option (string * handler)) : option handler :=
  match m with
  | [] => option_map snd best
  | (pattern, h) :: m =>
      let longer := match best with Some (b, _) => Nat.ltb (String.length b) (String.length pattern) | None => true end in
      mux_prefix m path
        (if ends_with_slash pattern && String.prefix pattern path && longer then Some (pattern, h) else best)
  end.

(** The handler of a path without escapes, for any method but CONNECT. *)
Inductive routed := ToHandler (h : handler) | MovedPermanently (path : string) | PageNotFound.
Definition route (m : ServeMux) (path : string) : routed :=
  let p := cleanPath path in
  match mux_exact m p with
  | Some h => if String.eqb p path then ToHandler h else MovedPermanently p
  | None =>
      if negb (ends_with_slash p) && (if mux_exact m (p +:+ "/") is Some _ then true else false)
      then MovedPermanently (p +:+ "/")
      else if negb (String.eqb p path) then MovedPermanently p
      else match mux_prefix m p None with Some h => ToHandler h | None => PageNotFound end
  end.

(** ** The routes *)
Definition addPprofHandlers (m : ServeMux) : result ServeMux :=
  try m := Handle m "/debug/pprof/" (HPprof "Index") in
  try m := Handle m "/debug/pprof/cmdline" (HPprof "Cmdline") in
  try m := Handle m "/debug/pprof/profile" (HPprof "Profile") in
  try m := Handle m "/debug/pprof/symbol" (HPprof "Symbol") in
  Handle m "/debug/pprof/trace" (HPprof "Trace").

Definition rawNetworkMetricsPath : string := "/api/v1/raw-network-metrics".
Definition exporter_mux : result ServeMux :=
  try m := addPprofHandlers [] in
  try m := Handle m "/metrics" HPrometheus in
  Handle m "/healthz" HHealth.
Definition collector_mux : result ServeMux :=
  try m := exporter_mux in Handle m rawNetworkMetricsPath HRawNetworkMetrics.

(** The routes of the collector, none of which was registered twice. *)
Definition collector_routes : ServeMux :=
  [("/debug/pprof/", HPprof "Index"); ("/debug/pprof/cmdline", HPprof "Cmdline");
   ("/debug/pprof/profile", HPprof "Profile"); ("/debug/pprof/symbol", HPprof "Symbol");
   ("/debug/pprof/trace", HPprof "Trace"); ("/metrics", HPrometheus); ("/healthz", HHealth);
   (rawNetworkMetricsPath, HRawNetworkMetrics)].
Lemma collector_mux_ok : collector_mux = Ok collector_routes.
Proof. reflexivity. Qed.

Lemma raw_exact p h : mux_exact collector_routes p = Some h ->
  h = HRawNetworkMetrics <-> p = rawNetworkMetricsPath.
Proof.
  cbn [mux_exact collector_routes].
  repeat (match goal with |- context [String.eqb ?a p] => destruct (String.eqb_spec a p) as [<- | ] end;
    [intros [= <-]; split; [discriminate || reflexivity|reflexivity || discriminate]|]). done.
Qed.

Lemma raw_not_prefix p : mux_prefix collector_routes p None <> Some HRawNetworkMetrics.
Proof.
  cbn [mux_prefix collector_routes ends_with_slash rawNetworkMetricsPath]. cbn -[String.prefix].
  by destruct (String.prefix "/debug/pprof/" p).
Qed.

(** One path alone leads to the metrics. *)
Lemma route_raw p : route collector_routes p = ToHandler HRawNetworkMetrics <-> p = rawNetworkMetricsPath.
Proof.
  split; [|intros ->; reflexivity]. unfold route.
  destruct (mux_exact collector_routes (cleanPath p)) as [h|] eqn:E.
  - destruct (String.eqb_spec (cleanPath p) p) as [Hp | ]; [|done]. intros [= ->].
    apply raw_exact in E. rewrite <- Hp. by apply E.
  - destruct (negb (ends_with_slash (cleanPath p)) && _); [done|].
    destruct (negb (String.eqb (cleanPath p) p)); [done|].
    pose proof (raw_not_prefix (cleanPath p)) as Hn.
    destruct (mux_prefix collector_routes (cleanPath p) None); [|done]. intros [= ->]. done.
Qed.

Example route_examples :
  map (route collector_routes) ["/healthz"; "/debug/pprof"; "/debug/pprof/heap"; "/debug/pprof/trace";
    "//api/v1/./raw-network-metrics"; "/api/v1/raw-network-metrics/"; "/a/../metrics"; ""] =
  [ToHandler HHealth; MovedPermanently "/debug/pprof/"; ToHandler (HPprof "Index"); ToHandler (HPprof "Trace");
   MovedPermanently rawNetworkMetricsPath; PageNotFound; MovedPermanently "/metrics"; MovedPermanently "/"].
Proof. reflexivity. Qed.

(** * The DNS collectors *)

(** The interface [DNSCollector]: the one that does nothing, and the one fed by the tracer, which has its
    caches once it has been started. *)
Section collectors.
Context `{C : Codec} `{N : Netaddr} `{CI : ExpiringCache Z string} `{CS : ExpiringCache string string}.

Inductive DNSCollector := Noop | FromTracer (t : Tracer) (d : option IP2DNS).

(** [Noop.Start] waits for the context and returns nil. *)
Definition DNSCollector_Start (x : DNSCollector) (xs : list selected) : DNSCollector * loop :=
  match x with
  | Noop => (Noop, if existsb (λ s, match s with DDone _ => true | _ => false end) xs then Returned None else Running)
  | FromTracer t _ => let '(d, l) := dns_Start xs in (FromTracer t (Some d), l)
  end.
Definition DNSCollector_Records (x : DNSCollector) (now : Z) : result (list (Z * string)) :=
  match x with
  | Noop => Ok []
  | FromTracer _ d => Records_of d now
  end.

(** * The collector's command *)
Record collector_flags := MkCollectorFlags {
  f_machine : flags;
  f_kubeconfig : string;
  f_readInterval : Z;
  f_cleanupInterval : Z;
  f_httpListenPort : Z;
  f_excludeNamespaces : string;
  f_groupPublicIPs : bool;
  f_sendTrafficDelta : bool;
  f_ebpfDNSTracerEnabled : bool;
  f_ebpfDNSTracerQueueSize : Z
}.

(** The flags of an empty command line. *)
Definition default_flags : collector_flags :=
  MkCollectorFlags (MkFlags "" "jiffies" false false) "" (5 * Second) (120 * Second) 8008 "kube-system"
    false false true 1000.

(** What the goroutines of [run] work on. *)
Record started := MkStarted {
  s_fieldSelector : string;   (* of the informer of pods *)
  s_conntracker : client;
  s_ip2dns : DNSCollector;
  s_coll : Collector;
  s_mux : ServeMux;
  s_addr : string
}.

Definition collector_config (f : collector_flags) : Collector.Config :=
  Collector.MkConfig (f_readInterval f) (f_cleanupInterval f) (f_excludeNamespaces f) (f_groupPublicIPs f)
    (f_sendTrafficDelta f).

(** [NewTracer], whose [make] panics for a negative size. *)
Definition make_tracer (queueSize : Z) : result Tracer :=
  if queueSize <? 0 then Panic else Ok (NewTracer queueSize).

Context {rest_Config : Type} (ReadFile : result (list Z)) (parse : list Z -> result rest_Config)
  (InClusterConfig : result rest_Config) (NewForConfig : rest_Config -> option string).
Context (stat : result bool) (GetFromPid : result Z) (Open : Z -> option string).

Definition kube_client (kubeconfig : string) : result rest_Config :=
  try restconfig := retrieveKubeConfig kubeconfig ReadFile parse InClusterConfig in
  match NewForConfig restconfig with Some e => Err e | None => Ok restconfig end.

(** [run] up to the goroutines: [NODE_NAME] from the environment, [btf]: [IsKernelBTFAvailable]. *)
Definition run_setup (f : collector_flags) (NODE_NAME : string) (btf : bool) : result started :=
  try _ := kube_client (f_kubeconfig f) in
  try conntracker := conntracker stat GetFromPid Open (f_machine f) in
  try ip2dns := (if f_ebpfDNSTracerEnabled f && btf
                 then try t := make_tracer (f_ebpfDNSTracerQueueSize f) in Ok (FromTracer t None)
                 else Ok Noop) in
  try coll := New (λ s, Split s (Ascii.ascii_of_nat 44)) (collector_config f) in
  try mux := collector_mux in
  Ok (MkStarted ("spec.nodeName=" +:+ NODE_NAME) conntracker ip2dns coll mux (":" +:+ pretty (f_httpListenPort f))).

(** * Answering *)
Record request := MkRequest {
  rq_path : string;
  rq_accept_encoding : string;
  rq_faults : faults;       (* what befalls the writing of the response *)
  rq_now : Z                (* when the names are read *)
}.

(** The handlers of the libraries. *)
Context (library : handler -> request -> ResponseWriter).

Definition healthHandler (rq : request) : ResponseWriter :=
  fst (Write new_writer (bytes_of "Ok") (f_write (rq_faults rq))).

(** The collector afterwards, and the response; a panic of the handler is caught by the server, which
    gives up the connection. *)
Definition answer (s : started) (c : Collector) (dns : DNSCollector) (now : Z -> Z) (rq : request) :
    Collector * option ResponseWriter :=
  match route (s_mux s) (rq_path rq) with
  | ToHandler HRawNetworkMetrics =>
      match DNSCollector_Records dns (rq_now rq) with
      | Ok records =>
          let '(c, w) := serve c records (rq_accept_encoding rq) (rq_faults rq) now in (c, Some w)
      | _ => (c, None)
      end
  | ToHandler HHealth => (c, Some (healthHandler rq))
  | ToHandler h => (c, Some (library h rq))
  | MovedPermanently _ => (c, Some (WriteHeader new_writer 301))
  | PageNotFound => (c, Some (http_Error new_writer "404 page not found" 404))
  end.
End collectors.

(** * Addresses *)

(** The path of an address with the scheme http, as it is sent in the request. *)
Fixpoint from_slash (s : string) : string :=
  match s with
  | EmptyString => EmptyString
  | String c r => if Ascii.eqb c slash then s else from_slash r
  end.
Fixpoint drop_chars (n : nat) (s : string) : string :=
  match n, s with S n, String _ s => drop_chars n s | _, _ => s end.
Definition url_path (url : string) : string := from_slash (drop_chars 7 url).

Definition no_slash (s : string) : Prop := from_slash s = "".

Lemma from_slash_app s t : no_slash s -> from_slash (s +:+ t) = from_slash t.
Proof.
  unfold no_slash. induction s as [|c s IH]; [done|]. change (String c s +:+ t) with (String c (s +:+ t)).
  simpl. destruct (Ascii.eqb c slash); [done|exact IH].
Qed.

Lemma no_slash_app s t : no_slash s -> no_slash t -> no_slash (s +:+ t).
Proof. intros Hs Ht. unfold no_slash. by rewrite from_slash_app. Qed.

Lemma pretty_go_no_slash x s : no_slash s -> no_slash (pretty_N_go x s).
Proof.
  revert s. induction (N.lt_wf_0 x) as [x _ IH]. intros s Hs.
  destruct (decide (x = 0)%N) as [-> | Hx]; [by rewrite pretty_N_go_0|].
  rewrite pretty_N_go_step by lia. apply IH; [apply N.div_lt; lia|].
  unfold no_slash, pretty_N_char. by repeat case_match.
Qed.

Lemma pretty_no_slash (z : Z) : no_slash (pretty z).
Proof.
  destruct z as [|p|p]; [done|..]; unfold pretty, pretty_Z; cbn.
  - by apply pretty_go_no_slash.
  - apply (no_slash_app "-"); [done|]. by apply pretty_go_no_slash.
Qed.

(** An address is that of a port named http-server. *)
Lemma metrics_url ip containers : getCollectorPodMetricsServerURL ip containers <> "" ->
  exists port, port ∈ concat containers /\ portName port = "http-server" /\
    getCollectorPodMetricsServerURL ip containers = "http://" +:+ ip +:+ ":" +:+ pretty (containerPort port).
Proof.
  induction containers as [|ports containers IH]; [done|]. simpl.
  induction ports as [|port ports IHp]; [exact IH|].
  destruct (String.eqb_spec (portName port) "http-server") as [E | E]; intros H.
  - exists port. split; [by left|done].
  - destruct (IHp H) as (p & Hp & Hr). exists p. split; [by right|done].
Qed.

Lemma metrics_url_path ip (port : Z) : no_slash ip ->
  url_path (("http://" +:+ ip +:+ ":" +:+ pretty port) +:+ rawNetworkMetricsPath) = rawNetworkMetricsPath.
Proof.
  intros Hip. unfold url_path.
  change (from_slash ((ip +:+ ":" +:+ pretty port) +:+ rawNetworkMetricsPath) = rawNetworkMetricsPath).
  rewrite from_slash_app; [done|]. apply no_slash_app; [done|].
  apply (no_slash_app ":"); [done|apply pretty_no_slash].
Qed.

(** * Properties *)
Section properties.
Context (C : Codec) (HC : CodecSpec C) (N : Netaddr) (CI : ExpiringCache Z string) (CS : ExpiringCache string string).
Context {rest_Config : Type} (ReadFile : result (list Z)) (parse : list Z -> result rest_Config)
  (InClusterConfig : result rest_Config) (NewForConfig : rest_Config -> option string).
Context (stat : result bool) (GetFromPid : result Z) (Open : Z -> option string).
Context (library : handler -> request -> ResponseWriter).
Notation run_setup := (run_setup ReadFile parse InClusterConfig NewForConfig stat GetFromPid Open).
Notation kube_client := (kube_client ReadFile parse InClusterConfig NewForConfig).
Notation answer := (answer library).

Lemma run_setup_ok f node btf s : run_setup f node btf = Ok s ->
  (exists rc, kube_client (f_kubeconfig f) = Ok rc) /\
  conntracker stat GetFromPid Open (f_machine f) = Ok (s_conntracker s) /\
  s_ip2dns s = (if f_ebpfDNSTracerEnabled f && btf
                then FromTracer (NewTracer (f_ebpfDNSTracerQueueSize f)) None else Noop) /\
  New (λ s, Split s (Ascii.ascii_of_nat 44)) (collector_config f) = Ok (s_coll s) /\
  s_mux s = collector_routes /\ s_addr s = ":" +:+ pretty (f_httpListenPort f).
Proof.
  unfold Startup.run_setup. rewrite collector_mux_ok.
  intros (rc & Hk & (ct & Hct & (dns & Hdns & (coll & Hc & (m & [= <-] & [= <-])%rbind_ok)%rbind_ok)%rbind_ok)%rbind_ok)%rbind_ok.
  simpl. split_and!; [by eauto|done| |done..].
  destruct (f_ebpfDNSTracerEnabled f && btf); [|by injection Hdns].
  unfold make_tracer in Hdns. destruct (_ <? 0); [done|]. by injection Hdns.
Qed.

Lemma answer_raw s c dns now rq : s_mux s = collector_routes -> rq_path rq = rawNetworkMetricsPath ->
  answer s c dns now rq =
  match DNSCollector_Records dns (rq_now rq) with
  | Ok records => let '(c, w) := serve c records (rq_accept_encoding rq) (rq_faults rq) now in (c, Some w)
  | _ => (c, None)
  end.
Proof. intros Hm Hp. unfold Startup.answer. by rewrite Hm, Hp, (proj2 (route_raw _) eq_refl). Qed.

Lemma answer_other s c dns now rq : s_mux s = collector_routes -> rq_path rq <> rawNetworkMetricsPath ->
  (answer s c dns now rq).1 = c /\ (answer s c dns now rq).2 <> None.
Proof.
  intros Hm Hp. unfold Startup.answer. rewrite Hm. pose proof (proj1 (route_raw (rq_path rq))) as Hr.
  destruct (route collector_routes (rq_path rq)) as [[]|p|]; try done. by destruct Hp, Hr.
Qed.

(** C20: The two commands agree on where the metrics are.  Whatever the flags a collector was started with,
    the address the exporter makes for its pod, if the pod has one, is that of its port named
    http-server, which is the address the collector listens on if the port is the flag's; a request to it
    is answered with the metrics and the names of the DNS collector, of which the exporter gets all or
    nothing, or not at all while that collector has not been started; and a request for any other path is
    answered and leaves the collector as it is. *)
Theorem exporter_finds_metrics (f : collector_flags) (node : string) (btf : bool) (s : started)
    (ip : string) (containers : list (list ContainerPort)) (c : Collector) (dns : DNSCollector)
    (now : Z -> Z) (rq : request) (re : option string)
    (Hsetup : run_setup f node btf = Ok s) (Hip : no_slash ip)
    (Hurl : getCollectorPodMetricsServerURL ip containers <> "") :
  let base := getCollectorPodMetricsServerURL ip containers in
  (exists port, port ∈ concat containers /\ portName port = "http-server" /\
     base = "http://" +:+ ip +:+ ":" +:+ pretty (containerPort port) /\
     (containerPort port = f_httpListenPort f -> base = "http://" +:+ ip +:+ s_addr s)) /\
  (rq_path rq = url_path (base +:+ "/api/v1/raw-network-metrics") ->
   match answer s c dns now rq with
   | (c', Some w) => exists records, DNSCollector_Records dns (rq_now rq) = Ok records /\
       serve c records (rq_accept_encoding rq) (rq_faults rq) now = (c', w) /\
       forall Do, client_sees w Do ->
         match fetchRawNetworkMetricsBatch base re Do with
         | Ok b => b = message c records /\ c' = answered_state c now
         | Err _ => True
         | Panic => False
         end
   | (c', None) => c' = c /\ exists t, dns = FromTracer t None
   end) /\
  (rq_path rq <> url_path (base +:+ "/api/v1/raw-network-metrics") ->
   (answer s c dns now rq).1 = c /\ (answer s c dns now rq).2 <> None).
Proof.
  cbv zeta. destruct (run_setup_ok _ _ _ _ Hsetup) as (_ & _ & _ & _ & Hm & Ha).
  destruct (metrics_url ip containers Hurl) as (port & Hin & Hn & Hu).
  pose proof (metrics_url_path ip (containerPort port) Hip) as Hpath. rewrite <- Hu in Hpath.
  change "/api/v1/raw-network-metrics" with rawNetworkMetricsPath. rewrite Hpath. split_and!.
  - exists port. split_and!; try done. intros Hp. by rewrite Hu, Ha, Hp.
  - intros Hp. rewrite (answer_raw _ _ _ _ _ Hm Hp).
    destruct (DNSCollector_Records dns (rq_now rq)) as [records|e|] eqn:Er.
    + destruct (serve c records _ _ now) as [c' w] eqn:Es. exists records. split_and!; [done|done|].
      intros Do Hsees. exact (fetch_once _ _ _ _ _ _ _ _ re Do Es Hsees).
    + destruct dns as [|t [d|]]; done.
    + destruct dns as [|t [d|]]; [done|done|by eauto].
  - intros Hp. by apply answer_other.
Qed.

(** How a start ends.  It fails with an error of the Kubernetes client or of the connection tracking
    client, in this order; it panics for an interval of zero or a negative queue; and otherwise the
    collector has the configuration of the flags and no metrics, names come from the tracer exactly if
    the flag asks for it and the kernel can, and a negative interval, which the start lets through,
    crashes the collector's loop at once. *)
Theorem run_setup_exact (f : collector_flags) (node : string) (btf : bool)
    (entryGroupHash conntrackEntryHash : list Z -> Z) (ts : list tick)
    (Hkube : kube_client (f_kubeconfig f) <> Panic)
    (Hns : GetFromPid <> Panic) :
  match run_setup f node btf with
  | Ok s => cfg (s_coll s) = collector_config f /\ podMetrics (s_coll s) = ∅ /\
      (s_ip2dns s <> Noop <-> f_ebpfDNSTracerEnabled f = true /\ btf = true) /\
      (f_readInterval f < 0 \/ f_cleanupInterval f < 0 ->
       (collector_Start entryGroupHash conntrackEntryHash (s_coll s) ts).2 = Crashed)
  | Err e => kube_client (f_kubeconfig f) = Err e \/
      (exists rc, kube_client (f_kubeconfig f) = Ok rc) /\ conntracker stat GetFromPid Open (f_machine f) = Err e
  | Panic => f_readInterval f = 0 \/ f_cleanupInterval f = 0 \/ f_ebpfDNSTracerQueueSize f < 0
  end.
Proof.
  destruct (run_setup f node btf) as [s|e|] eqn:E.
  - destruct (run_setup_ok _ _ _ _ E) as (_ & _ & Hd & Hn & _ & _). unfold New in Hn.
    destruct (Z.eqb_spec (ReadInterval (collector_config f)) 0); [done|].
    destruct (Z.eqb_spec (CleanupInterval (collector_config f)) 0); [done|]. injection Hn as <-.
    split_and!; [done|done| |].
    + rewrite Hd. destruct (f_ebpfDNSTracerEnabled f), btf; naive_solver.
    + intros Hneg. unfold collector_Start. cbn [cfg]. unfold collector_config. cbn.
      destruct (Z.leb_spec (f_readInterval f) 0); [done|]. destruct (Z.leb_spec (f_cleanupInterval f) 0); [done|]. lia.
  - revert E. unfold Startup.run_setup. destruct (kube_client (f_kubeconfig f)) as [rc|e'|]; simpl; [|by intros [= ->]; left|done].
    destruct (conntracker stat GetFromPid Open (f_machine f)) as [ct|e'|]; simpl; [|by intros [= ->]; right; eauto|done].
    unfold make_tracer, New. intros H. exfalso. revert H.
    destruct (f_ebpfDNSTracerEnabled f && btf), (f_ebpfDNSTracerQueueSize f <? 0); simpl;
      destruct (f_readInterval f =? 0), (f_cleanupInterval f =? 0); done.
  - revert E. unfold Startup.run_setup. destruct (kube_client (f_kubeconfig f)) as [rc|e'|]; simpl; [|done..].
    destruct (conntracker stat GetFromPid Open (f_machine f)) as [ct|e'|] eqn:Ec; simpl; [|done|].
    + unfold make_tracer, New. simpl.
      destruct (f_ebpfDNSTracerEnabled f && btf); destruct (Z.ltb_spec (f_ebpfDNSTracerQueueSize f) 0); simpl;
        destruct (Z.eqb_spec (f_readInterval f) 0), (Z.eqb_spec (f_cleanupInterval f) 0); auto; done.
    + exfalso. revert Ec. unfold conntracker, NewCiliumClient, NewNetfilterClient.
      destruct (CiliumAvailable _ _); [done|]. destruct (hostPid (f_machine f)); simpl; [|by destruct (Open 0)].
      destruct GetFromPid as [ns| |]; simpl; [by destruct (Open ns)|done|done].
Qed.
End properties.

(** The collector of an empty command line, in a pod that names its port as the chart does. *)
#[local] Existing Instance ref_codec.
#[local] Existing Instance ref_netaddr.
#[local] Existing Instance ref_cache.
Definition st_setup : result started :=
  run_setup (Err "no file") (λ _, Err "no file") (Ok tt) (λ _, None) (Err "no maps") (Ok 0) (λ _, None)
    default_flags "node-1" false.
Definition st_containers : list (list ContainerPort) := [[MkPort "metrics" 9090]; [MkPort "http-server" 8008]].
Definition st_request : request := MkRequest "/api/v1/raw-network-metrics" "gzip" (MkFaults None None None) 0.
Definition st_library (h : handler) (rq : request) : ResponseWriter := new_writer.

Lemma exporter_finds_metrics_witness : exists s, st_setup = Ok s /\
  getCollectorPodMetricsServerURL "10.0.0.1" st_containers = "http://10.0.0.1" +:+ s_addr s /\
  match answer st_library s (s_coll s) (s_ip2dns s) (λ _, 0) st_request with
  | (c', Some w) => exists records, DNSCollector_Records (s_ip2dns s) 0 = Ok records /\
      serve (s_coll s) records "gzip" (MkFaults None None None) (λ _, 0) = (c', w)
  | (c', None) => False
  end.
Proof.
  destruct st_setup as [s| |] eqn:Es; [|discriminate Es..]. exists s. split; [reflexivity|].
  destruct (exporter_finds_metrics ref_codec ref_codec_spec ref_netaddr (ref_cache _ _) (ref_cache _ _) (Err "no file") (λ _, Err "no file") (Ok tt) (λ _, None)
    (Err "no maps") (Ok 0) (λ _, None) st_library default_flags "node-1" false s "10.0.0.1" st_containers
    (s_coll s) (s_ip2dns s) (λ _, 0) st_request None Es eq_refl ltac:(discriminate)) as (_ & Hraw & _).
  specialize (Hraw eq_refl). injection Es as <-. split; [vm_compute; reflexivity|].
  destruct (answer _ _ _ _ _ _) as [c' [w|]].
  - destruct Hraw as (records & Hr & Hs & _). exists records. split; [exact Hr|exact Hs].
  - destruct Hraw as (_ & t & Ht). discriminate Ht.
Defined.

(** * The exporter's command *)
Section exporter_main.
Context {rest_Config : Type} (ReadFile : result (list Z)) (parse : list Z -> result rest_Config)
  (InClusterConfig : result rest_Config) (NewForConfig : rest_Config -> option string).

(** [main]: the status it ends with, and whether the exporter was started. *)
Definition exporter_main (level_ok : bool) (kubeconfig configPath : string) (file : result Exporter.Config)
    (env : Exporter.Config -> result Exporter.Config) (order : list (string * SinkConfig))
    (ListenAndServe : string) : Z * bool :=
  if negb level_ok then (1, false)
  else
    let client := kube_client ReadFile parse InClusterConfig NewForConfig kubeconfig in
    let cfg := Load configPath file env in
    (exit_status (Some (exporter_run
       (match client with Ok _ => None | Err e => Some e | Panic => Some "panic" end) cfg order ListenAndServe)),
     match client, cfg, sinks_list order with Ok _, Ok _, Ok _ => true | _, _, _ => false end).

(** The exporter runs only with a client, a complete configuration and a sink, and whatever happens
    afterwards its process fails unless the server ended with the context's error. *)
Theorem exporter_main_started (level_ok : bool) (kubeconfig configPath : string)
    (file : result Exporter.Config) (env : Exporter.Config -> result Exporter.Config)
    (order : list (string * SinkConfig)) (las : string) (status : Z)
    (H : exporter_main level_ok kubeconfig configPath file env order las = (status, true)) :
  level_ok = true /\ (exists cfg, Load configPath file env = Ok cfg) /\
  (exists snk l, sinks_list order = Ok (snk :: l)) /\ (status = 0 <-> las = Canceled).
Proof.
  unfold exporter_main in H. destruct level_ok; [|done]. simpl in H.
  destruct (kube_client _ _ _ _ kubeconfig) as [rc| |]; [|done..].
  destruct (Load configPath file env) as [cfg| |] eqn:El; [|done..].
  unfold exporter_run in H. destruct (sinks_list order) as [l| |] eqn:Es; [|done..]. injection H as <-.
  split_and!; [done|by eauto| |].
  - destruct l as [|snk l]; [|by eauto]. revert Es. unfold sinks_list. by destruct (omap _ order).
  - unfold exit_status. by destruct (String.eqb_spec las Canceled).
Qed.
End exporter_main.

(** ** The limit of the fetches *)

(** [make(chan, n)] and [SetLimit(n)] at the start of [export]: the size of the channel and the number of
    fetches at a time; [make] panics for a negative size. *)
Definition fetch_limit (cfg : Exporter.Config) : result nat :=
  if CollectorsConcurrentFetchCount cfg <? 0 then Panic else Ok (Z.to_nat (CollectorsConcurrentFetchCount cfg)).

(** A loaded configuration gives the pipeline of ExportPipeline.v a positive limit, so that it delivers,
    unless the count is negative: that is loaded without an error and panics in every export. *)
Theorem loaded_limit (configPath : string) (file : result Exporter.Config)
    (env : Exporter.Config -> result Exporter.Config) (cfg : Exporter.Config)
    (H : Load configPath file env = Ok cfg) :
  match fetch_limit cfg with
  | Ok n => (0 < n)%nat
  | Err _ => False
  | Panic => CollectorsConcurrentFetchCount cfg < 0
  end.
Proof.
  apply rbind_ok in H as (c0 & _ & (c & _ & H)%rbind_ok). unfold Load_defaults in H. simpl in H.
  destruct (Exporter.Sinks c); [done|]. injection H as <-. unfold fetch_limit. simpl.
  destruct (Z.eqb_spec (CollectorsConcurrentFetchCount c) 0); [vm_compute; lia|].
  destruct (Z.ltb_spec (CollectorsConcurrentFetchCount c) 0); [done|lia].
Qed.

(** A negative count is loaded. *)
Example negative_count_loaded :
  let cfg := Exporter.MkConfig "" "" 0 (-1) 0 ["http"] in
  exists c, Load "config.yaml" (Ok cfg) Ok = Ok c /\ fetch_limit c = Panic.
Proof. eexists. split; reflexivity. Qed.
